(* ===== verification/_CoqProject ===== *)
-Q . S2P
Prelude.v
Machine.v
DList.v
Str.v
Sign.v
Pmm.v
Paging.v
Ports.v
Swap.v
Malloc.v
Vmm.v
Kernel.v
Demand.v
Mmu.v
Evict.v
Restore.v
Replace.v
Pid.v
Proc.v
Sched.v
Semaphore.v
Monitor.v
Console.v
Traps.v
Kbd.v
User.v
Life.v
Fork.v
Recycle.v
Debug.v
Init.v
Boot.v
Samples.v
Runs.v
RunsKernel.v
RunsDevices.v
RunsLife.v
RunsFork.v
RunsRestore.v
