(* ===== verification/Prelude.v ===== *)
(** * A verification of wind_os

    wind_os is a 32-bit i386 kernel in C: a boot loader, a page allocator and
    page tables, a swapper on the second disk, a heap, virtual memory areas with
    demand paging, processes with a round-robin scheduler, semaphores and
    monitors, a text console, a keyboard driver, system calls and a stack trace
    over the symbols of the kernel's own ELF image. This library translates that
    code, function by function, into executable definitions over a byte memory
    and proves what the functions do. Paths below are those of src/.

    ** The model

    Memory (Machine.v) is a finite map from physical addresses to bytes, bytes
    never written being 0. A pointer is a 32-bit word; [ka] maps it to a physical
    address, so that the low window and the kernel window at 0xC0000000 are two
    names for one memory, as the tables of [kern_init] make them. Words are [Z]s
    with every wrap-around written out ([w32], [s32]); a structure is an address
    with one definition for each field; a bit field is a read, a change and a
    write of the word that holds it ([bf_get], [bf_set]).

    Code that changes state runs in the monad [K] over [kst]: the memory, the
    globals that are scalars, the interrupt flag, a log of events (port output,
    [invlpg], CR3, context switches, calls of [printf]) and a stream of port
    answers. A run ends in [Ok], in [Hang] ([panic], an endless loop, a device
    that never answers) or in [NoFuel]. Loops without a bound in the source take
    fuel; each theorem about such a loop has the number of steps it needs as a
    hypothesis (the length of a list, or of the answers of a device) and
    concludes that the run ends in [Ok] or [Hang], never that it would be right
    if it ended. The linker symbols and the addresses of the globals are the
    class [Symbols].

    ** Files

    - Prelude.v (this file): words, bit fields, lists, tactics and hints.
    - Machine.v: memory, events, the state and the monad.
    - DList.v: include/list.h, and lists in memory as lists of nodes ([dlist]).
    - Str.v: libs/string.c.
    - Sign.v: sign.c, the host tool, over a map of files.
    - Pmm.v: [alloc_page], [free_page] and the address conversions of mm/pmm.c,
      refined to a list of blocks ([pool]); the class [PageSource] is what the heap
      and the processes rely on. A request for one page evicts another once memory
      management runs; [alloc_quiet] says when it does not, Replace.v has the case
      that it does.
    - Paging.v: [get_pte], [map], [unmap] and [page_init] of mm/pmm.c and the
      tables of [kern_init], entry/entry.c, with the translation [walk] as their
      specification.
    - Ports.v: the port instructions of include/x86.h, cli and sti, the atomic
      sections of schedule/process/proc.c.
    - Swap.v: mm/swap.c. Evict.v: what an eviction leaves everywhere. Restore.v: a
      page that comes back from the disk. Replace.v: the exchange of one page for
      another when a page is touched first.
    - Malloc.v: mm/malloc.c, refined to a list of chunks ([heap]).
    - Vmm.v: mm/vmm.c. Demand.v: a page fault that is served, from the fault to
      the tables and the replacement queue. Mmu.v: the access that takes the
      fault, in either ring, and [test_swap].
    - Kernel.v: pool, frames and heap as one invariant ([kmem]).
    - Pid.v: the bitmap of process numbers. Proc.v: schedule/process/proc.c, the
      family links as lists ([children]). Life.v: the first frame of a thread,
      its exit and its parent's wait. Fork.v: the creation of a thread over the
      memory managers and the list of processes ([table]). Recycle.v: the wait for
      a child that has exited, over the same.
    - Sched.v: schedule/process/sched.c and the timer tick.
    - Semaphore.v and Monitor.v: schedule/synchronize/, over memory and, for the
      producer and consumer, as programs of two threads.
    - Console.v: libs/VGA.c and libs/stdio.c.
    - Traps.v: gdt/gdt.c, idt/idt.c, idt/tss.c, idt/pic.c, idt/timer.c, the
      tables as records in [cpu].
    - Kbd.v: idt/keyboard.c. User.v: schedule/process/user.c.
    - Debug.v: debug_/debug.c. Boot.v: boot/bootmain.c.
    - Init.v: [init] and [kern_init] of entry/entry.c, [test_malloc], and runs of
      the composed kernel on a small machine.
    - Samples.v: decision procedures for the layout predicates and sample states;
      Runs.v, RunsKernel.v, RunsDevices.v, RunsLife.v, RunsFork.v,
      RunsRestore.v: the theorems applied at concrete states.

    ** What is proved

    - Free pages: where nothing is evicted, [alloc_page] takes the front of the
      first block or refuses, [free_page] puts a run back in order and merges it
      with the block above, and with the block below when that is a single page;
      the two undo each other by way of the page's address. What the allocator
      loses (it never looks past the first block, an exact fit hides
      the next one, an empty pool takes nothing back, a page above all free ones
      is linked out of order) is proved too.
    - Heap: first fit with a split, growth by whole pages, coalescing [free],
      round trip; payloads of blocks in use never change. With the pool: the
      invariant [kmem] is established by [malloc_init] and [vmm_init] over whatever
      pool [page_init] leaves, and kept by [free] and, where no page has to be
      evicted for it, by [kmalloc].
    - Page tables: [map] and [unmap] change the translation of the addresses that
      go through one entry ([same_entry]: its page, in every window that shares the
      table) and of no other; the reference counts; a new table taken from the
      pool; the windows of the kernel are identity-mapped.
    - Areas and faults: [find_vma] decides membership; insertion keeps the order;
      a fault is served with a page that is mapped and queued, or refused with
      the machine stopped; the kernel reads back what it stores in a new page,
      and a store from user mode is answered with a page that may not be written,
      so the retry stops the machine; eviction writes the page to
      its own sectors and leaves an entry that names them; a fault on such a page
      reads it in again, and the page that went out and came in is the same word
      by word, in whatever frame it now is; once the manager runs, a fault on a
      new page puts the oldest page out and leaves the count of free pages as it
      was.
    - Processes: the invariant [table] joins the list of processes to [kmem];
      [proc_init] establishes it with the idle process, [kernel_thread] keeps it
      and makes a runnable thread that the idle process then runs; [do_waitpid]
      takes a child that has exited out of list, family and heap and gives back
      two pages, which are not quite those of its stack. Least free number; family
      links under fork, wait and exit as operations on lists; the frames threads
      start from; every branch of waiting for one process; round robin: who runs
      next, and that a runnable process has its turn within one round.
    - Synchronization: [P] and [V] refine a count and a queue. In every
      interleaving of the producer and the consumer the buffer keeps its bounds,
      sections exclude each other, and each thread can still come to its next
      message ([can_print], shown by a schedule that [drive] finds), by exhausting
      the reachable states, which are finitely many.
    - Devices: the descriptors and gates after [init], the ring switches, the
      screen, numerals, the keyboard's modifiers, the boot loader's reads, the
      stack trace, the boot sector.

    ** Parameters and bounds

    [alloc_page] takes [swap_out] as an argument, because the swapper is built on
    it; Swap.v ties the knot with fuel ([kalloc_page]). [switch_to] logs the two
    contexts and then runs [resume], what the others do until the caller is
    switched back to; most theorems hold for any [resume]. The addresses of
    variable-length arrays and of string literals in Debug.v, a call through an
    empty slot of the system call table in User.v, and the device answers are
    parameters. Physical memory is below 1 GB, as the single kernel window needs.

    ** What is not modelled

    - Assembly (boot/bootasm.S, idt/intr.S, schedule/process/switch_to.S) and the
      inline assembly of the two mode switches; their effect is an event or a
      parameter, and Traps.v has the frames their handlers rewrite.
    - User code. Kernel code runs in the two identity windows; the accesses of
      [test_swap] go through the tables. The TLB: [invlpg] is an event only.
    - Interrupts in the middle of kernel code. The producer and consumer threads
      interleave statement by statement over abstract semaphores.
    - What [printf] draws: kernel code logs the call, Console.v has the rendering
      of a format as a definition of its own. [panic] likewise logs that a
      backtrace is printed.
    - In [do_waitpid] for any child, the jump back after [schedule] continues
      with the process looked at last, as the source does; only its first pass is
      specified.
    - The source never sets [init_proc] (the lines are commented out): the theorem on
      exit is about processes without children, the hand-over of children is a lemma
      that assumes an [init_proc] ([exit_hands_over], [send_chld_run]).
    - What the mapping loop of [page_init] leaves in the pool is a hypothesis of the
      theorem on the start of the memory managers (a pool in order with two pages or
      more in its first run). *)

From Stdlib Require Export ZArith Lia.
From stdpp Require Export base gmap list strings.

#[global] Open Scope Z_scope.

(** * Machine words *)

(** The value of an i386 [u32] (and of a pointer) is kept as a [Z]; every
    arithmetic result is wrapped. *)
Definition w32 (z : Z) : Z := z mod 2 ^ 32.
Definition w16 (z : Z) : Z := z mod 2 ^ 16.
Definition w8 (z : Z) : Z := z mod 2 ^ 8.

(** The [int] (two's complement) reading of a 32-bit word. *)
Definition s32 (z : Z) : Z :=
  let u := w32 z in if u <? 2 ^ 31 then u else u - 2 ^ 32.

Declare Scope word_scope.
Delimit Scope word_scope with w.
Notation "a + b" := (w32 (a + b)) : word_scope.
Notation "a - b" := (w32 (a - b)) : word_scope.
Notation "a * b" := (w32 (a * b)) : word_scope.

Lemma w32_range z : 0 <= w32 z < 2 ^ 32.
Proof. apply Z.mod_pos_bound. lia. Qed.

Lemma w32_small z : 0 <= z < 2 ^ 32 -> w32 z = z.
Proof. apply Z.mod_small. Qed.

Lemma w8_small z : 0 <= z < 2 ^ 8 -> w8 z = z.
Proof. apply Z.mod_small. Qed.

Lemma w32_w32 z : w32 (w32 z) = w32 z.
Proof. apply w32_small, w32_range. Qed.

Lemma w32_add_l a b : w32 (w32 a + b) = w32 (a + b).
Proof. unfold w32. apply Zplus_mod_idemp_l. Qed.

Lemma w32_add_r a b : w32 (a + w32 b) = w32 (a + b).
Proof. unfold w32. apply Zplus_mod_idemp_r. Qed.

Lemma w32_sub_l a b : w32 (w32 a - b) = w32 (a - b).
Proof. unfold w32. apply Zminus_mod_idemp_l. Qed.

Lemma w32_sub_r a b : w32 (a - w32 b) = w32 (a - b).
Proof. unfold w32. apply Zminus_mod_idemp_r. Qed.

Lemma w32_mul_l a b : w32 (w32 a * b) = w32 (a * b).
Proof. unfold w32. apply Zmult_mod_idemp_l. Qed.

Lemma w32_congr a b k : a = b + k * 2 ^ 32 -> w32 a = w32 b.
Proof. intros ->. unfold w32. apply Z.mod_add. lia. Qed.

Lemma s32_small z : 0 <= z < 2 ^ 31 -> s32 z = z.
Proof.
  intros H. unfold s32. rewrite w32_small by lia.
  destruct (Z.ltb_spec z (2 ^ 31)); lia.
Qed.

Create HintDb word.
#[export] Hint Rewrite w32_w32 w32_add_l w32_add_r w32_sub_l w32_sub_r w32_mul_l : word.
#[export] Hint Resolve w32_range : word.

(** [wsmall] removes the wraps whose argument is in range. *)
Ltac wsmall := repeat match goal with
  | |- context [w32 ?x] => rewrite (w32_small x) by lia
  | |- context [s32 ?x] => rewrite (s32_small x) by lia
  end.

(** Linear arithmetic with division and remainder. *)
Ltac lia_div := Z.to_euclidean_division_equations; lia.

(** Resolve the [decide]s of linear arithmetic facts in the goal. *)
Ltac dec_lia := repeat match goal with
  | |- context [decide ?P] =>
      first [ rewrite (decide_True (P := P)) by lia
            | rewrite (decide_False (P := P)) by lia ]
  end.

(** * Bit fields

    A field of [len] bits at offset [off] of a word, as GCC lays out the packed
    bit fields of the descriptors and page-table entries. *)
Definition bf_get (off len w : Z) : Z := Z.land (Z.shiftr w off) (Z.ones len).

Definition bf_set (off len v w : Z) : Z :=
  Z.lor (Z.land w (Z.lnot (Z.shiftl (Z.ones len) off)))
        (Z.shiftl (Z.land v (Z.ones len)) off).

(** Prove an equation between bit expressions bit by bit. *)
Ltac bits_spec := repeat first
  [ rewrite Z.lor_spec | rewrite Z.land_spec | rewrite Z.shiftr_spec by lia
  | rewrite Z.shiftl_spec by lia | rewrite Z.lnot_spec by lia
  | rewrite Z.testbit_ones by lia ].

Ltac bits_case :=
  repeat match goal with
  | |- context [?a <=? ?b] => destruct (Z.leb_spec a b); try lia
  | |- context [?a <? ?b] => destruct (Z.ltb_spec a b); try lia
  end;
  cbn [andb orb negb];
  repeat match goal with
  | |- context [Z.testbit _ ?n] => rewrite (Z.testbit_neg_r _ n) by lia
  end;
  rewrite ?andb_true_r, ?andb_false_r, ?orb_false_r, ?orb_true_r;
  cbn [andb orb negb];
  try reflexivity; try (repeat f_equal; lia).

Ltac bits := apply Z.bits_inj'; intros ? ?; bits_spec; bits_case.

Lemma bf_get_set off len v w :
  0 <= off -> 0 <= len -> bf_get off len (bf_set off len v w) = Z.land v (Z.ones len).
Proof. intros. unfold bf_get, bf_set. bits. Qed.

Lemma bf_get_set_ne off len off' len' v w :
  0 <= off -> 0 <= len -> 0 <= off' -> 0 <= len' ->
  off + len <= off' \/ off' + len' <= off ->
  bf_get off' len' (bf_set off len v w) = bf_get off' len' w.
Proof. intros ? ? ? ? [?|?]; unfold bf_get, bf_set; bits. Qed.

Lemma bf_get_w32 off len w :
  0 <= off -> 0 <= len -> off + len <= 32 -> bf_get off len (w32 w) = bf_get off len w.
Proof.
  intros. unfold bf_get, w32. rewrite <- Z.land_ones by lia. bits.
Qed.

Lemma land_ones_small v n : 0 <= n -> 0 <= v < 2 ^ n -> Z.land v (Z.ones n) = v.
Proof. intros. rewrite Z.land_ones by lia. apply Z.mod_small. lia. Qed.

Lemma lor_range a b n : 0 <= n -> 0 <= a < 2 ^ n -> 0 <= b < 2 ^ n -> 0 <= Z.lor a b < 2 ^ n.
Proof.
  intros Hn Ha Hb. replace (Z.lor a b) with (Z.land (Z.lor a b) (Z.ones n)).
  - rewrite Z.land_ones by done. apply Z.mod_pos_bound. lia.
  - by rewrite Z.land_lor_distr_l, !land_ones_small.
Qed.

Lemma bf_get_range off len w : 0 <= len -> 0 <= bf_get off len w < 2 ^ len.
Proof.
  intros. unfold bf_get. rewrite Z.land_ones by lia.
  apply Z.mod_pos_bound. apply Z.pow_pos_nonneg; lia.
Qed.

Lemma bf_get_div off len w :
  0 <= off -> 0 <= len -> bf_get off len w = w / 2 ^ off mod 2 ^ len.
Proof. intros. unfold bf_get. now rewrite Z.land_ones, Z.shiftr_div_pow2. Qed.
