(* ===== verification/Machine.v ===== *)
(** The machine and the C state every kernel component shares: physical
    memory seen through the kernel's address window, ports, the interrupt flag,
    the kernel's global variables, and the state-and-error monad the C
    functions are written in. *)

From S2P Require Import Prelude.

Local Open Scope Z_scope.

(** * Addresses *)

Definition VERTUAL_MEM : Z := 0xC0000000.
Definition NULL : Z := 0.

(** The physical address behind a kernel virtual address: the low identity
    window and the high window at [VERTUAL_MEM] show the same memory. *)
Definition ka (v : Z) : Z :=
  let u := w32 v in if VERTUAL_MEM <=? u then u - VERTUAL_MEM else u.

(** Two 32-bit words that do not overlap in physical memory. *)
Definition wd (a b : Z) : Prop := ka a + 4 <= ka b \/ ka b + 4 <= ka a.

#[export] Instance wd_dec a b : Decision (wd a b).
Proof. unfold wd. apply _. Defined.

Lemma wd_sym a b : wd a b -> wd b a.
Proof. unfold wd. tauto. Qed.

#[export] Hint Resolve wd_sym : core.

Lemma ka_low a : 0 <= a < VERTUAL_MEM -> ka a = a.
Proof.
  unfold ka, VERTUAL_MEM. intros. wsmall.
  destruct (Z.leb_spec 0xC0000000 a); lia.
Qed.

Lemma ka_high a : VERTUAL_MEM <= a < 2 ^ 32 -> ka a = a - VERTUAL_MEM.
Proof.
  unfold ka, VERTUAL_MEM. intros. wsmall.
  destruct (Z.leb_spec 0xC0000000 a); lia.
Qed.

Lemma ka_alias a : 0 <= a < 2 ^ 30 -> ka (a + VERTUAL_MEM) = ka a.
Proof.
  intros. rewrite ka_high, ka_low by (unfold VERTUAL_MEM; lia). lia.
Qed.

Lemma wd_alias a b : 0 <= a < 2 ^ 30 -> wd (a + VERTUAL_MEM) b <-> wd a b.
Proof. intros. unfold wd. by rewrite ka_alias. Qed.

(** Translate the addresses of the goal whose window is known. *)
Ltac ka_simpl := repeat match goal with
  | |- context [ka ?x] => first
      [ rewrite (ka_low x) by (unfold VERTUAL_MEM in *; lia)
      | rewrite (ka_high x) by (unfold VERTUAL_MEM in *; lia) ]
  end.

(** * Byte memory *)

Definition memory := gmap Z Z.

(** The byte at a physical address; RAM not written yet reads as zero. *)
Definition pbyte (m : memory) (p : Z) : Z := w8 (default 0 ((m : gmap Z Z) !! p)).

Definition rd8 (m : memory) (a : Z) : Z := pbyte m (ka a).
Definition wr8 (m : memory) (a b : Z) : memory := <[ka a := w8 b]> (m : gmap Z Z).

(** Little-endian 32-bit accesses. *)
Definition rd32 (m : memory) (a : Z) : Z :=
  let p := ka a in
  pbyte m p + 2 ^ 8 * (pbyte m (p + 1) + 2 ^ 8 * (pbyte m (p + 2) + 2 ^ 8 * pbyte m (p + 3))).

Definition wr32 (m : memory) (a v : Z) : memory :=
  let p := ka a in
  <[p := w8 v]> (<[p + 1 := w8 (v / 2 ^ 8)]> (<[p + 2 := w8 (v / 2 ^ 16)]>
    (<[p + 3 := w8 (v / 2 ^ 24)]> (m : gmap Z Z)))).

Lemma pbyte_range m p : 0 <= pbyte m p < 2 ^ 8.
Proof. apply Z.mod_pos_bound. lia. Qed.

Lemma rd32_range m a : 0 <= rd32 m a < 2 ^ 32.
Proof.
  unfold rd32. cbn zeta.
  pose proof (pbyte_range m (ka a)). pose proof (pbyte_range m (ka a + 1)).
  pose proof (pbyte_range m (ka a + 2)). pose proof (pbyte_range m (ka a + 3)). lia.
Qed.

Lemma rd8_range m a : 0 <= rd8 m a < 2 ^ 8.
Proof. apply pbyte_range. Qed.

Lemma pbyte_insert m p q b : pbyte (<[p := w8 b]> (m : gmap Z Z)) q =
  if decide (p = q) then w8 b else pbyte m q.
Proof.
  unfold pbyte. rewrite lookup_insert. destruct (decide (p = q)); [|done].
  simpl. unfold w8. apply Zmod_mod.
Qed.

Lemma word_of_bytes v :
  w8 v + 2 ^ 8 * (w8 (v / 2 ^ 8) + 2 ^ 8 * (w8 (v / 2 ^ 16) + 2 ^ 8 * w8 (v / 2 ^ 24))) = w32 v.
Proof.
  unfold w8, w32.
  change (2 ^ 16) with (2 ^ 8 * 2 ^ 8). change (2 ^ 24) with (2 ^ 8 * 2 ^ 8 * 2 ^ 8).
  rewrite <- !Z.div_div by lia. change (2 ^ 32) with (2 ^ 8 * (2 ^ 8 * (2 ^ 8 * 2 ^ 8))).
  rewrite !Z.rem_mul_r by lia. lia.
Qed.

Lemma rd32_wr32_eq m a v : rd32 (wr32 m a v) a = w32 v.
Proof.
  unfold rd32, wr32. cbn zeta. rewrite !pbyte_insert.
  dec_lia.
  apply word_of_bytes.
Qed.

Lemma rd32_wr32_ne m a b v : wd a b -> rd32 (wr32 m a v) b = rd32 m b.
Proof.
  unfold wd. intros H. unfold rd32, wr32. cbn zeta. rewrite !pbyte_insert.
  dec_lia. reflexivity.
Qed.

Lemma rd32_wr32_small m a v : 0 <= v < 2 ^ 32 -> rd32 (wr32 m a v) a = v.
Proof. intros. rewrite rd32_wr32_eq. apply w32_small. lia. Qed.

Lemma rd8_wr8_eq m a b : rd8 (wr8 m a b) a = w8 b.
Proof. unfold rd8, wr8. rewrite pbyte_insert. apply decide_True. done. Qed.

Lemma rd8_wr8_ne m a b c : ka a <> ka c -> rd8 (wr8 m a b) c = rd8 m c.
Proof. intros. unfold rd8, wr8. rewrite pbyte_insert. by apply decide_False. Qed.

Lemma rd32_wr8_ne m a b c :
  ka a < ka c \/ ka c + 4 <= ka a -> rd32 (wr8 m a b) c = rd32 m c.
Proof.
  intros. unfold rd32, wr8. cbn zeta. rewrite !pbyte_insert.
  dec_lia. reflexivity.
Qed.

Lemma rd8_wr32_ne m a v c :
  ka c < ka a \/ ka a + 4 <= ka c -> rd8 (wr32 m a v) c = rd8 m c.
Proof.
  intros. unfold rd8, wr32. cbn zeta. rewrite !pbyte_insert.
  dec_lia. reflexivity.
Qed.

(** Accesses in terms of the physical bytes. *)
Lemma rd32_bytes m a : rd32 m a = pbyte m (ka a) +
  2 ^ 8 * (pbyte m (ka a + 1) + 2 ^ 8 * (pbyte m (ka a + 2) + 2 ^ 8 * pbyte m (ka a + 3))).
Proof. done. Qed.

Lemma rd8_pbyte m a : rd8 m a = pbyte m (ka a).
Proof. done. Qed.

Lemma pbyte_wr8 m a b p : pbyte (wr8 m a b) p = if decide (ka a = p) then w8 b else pbyte m p.
Proof. apply pbyte_insert. Qed.

Lemma rd32_ext m m' a :
  (forall p, ka a <= p < ka a + 4 -> pbyte m' p = pbyte m p) -> rd32 m' a = rd32 m a.
Proof. intros Hp. rewrite !rd32_bytes, !Hp by lia. done. Qed.

Lemma rd32_move m m' a b :
  (forall i, 0 <= i < 4 -> pbyte m' (ka a + i) = pbyte m (ka b + i)) -> rd32 m' a = rd32 m b.
Proof.
  intros H. rewrite !rd32_bytes, !H by lia.
  pose proof (H 0 ltac:(lia)) as H0. rewrite !Z.add_0_r in H0. by rewrite H0.
Qed.

Lemma pbyte_wr32_ne m a v p : p < ka a \/ ka a + 4 <= p -> pbyte (wr32 m a v) p = pbyte m p.
Proof. intros. unfold wr32. cbn zeta. rewrite !pbyte_insert. dec_lia. done. Qed.

(** A range of addresses that stays inside one window. *)
Definition span (a n : Z) : Prop :=
  0 <= a /\ a + n <= VERTUAL_MEM \/ VERTUAL_MEM <= a /\ a + n <= 2 ^ 32.

Lemma ka_span a n i : span a n -> 0 <= i < n -> ka (a + i) = ka a + i.
Proof.
  unfold span, VERTUAL_MEM. intros Hs Hi. destruct Hs as [Hs|Hs]; ka_simpl; lia.
Qed.

Lemma span_word a n i : span a n -> 0 <= i < n -> 0 <= a + i < 2 ^ 32.
Proof. unfold span, VERTUAL_MEM. lia. Qed.

#[global] Opaque rd32 wr32 rd8 wr8.

(** * Kernel state *)

(** What the kernel does outside memory: console output, port writes, control
    registers, context switches and walks over the call stack. Format strings and their arguments
    are kept as the source passes them. *)
Inductive event :=
  | EvPrintf (fmt : string) (args : list Z)
  | EvOutb (port value : Z)
  | EvOutsl (port : Z) (words : list Z)
  | EvOutw (port value : Z)
  | EvCr3 (v : Z)
  | EvInvlpg (la : Z)
  | EvSwitch (prev next : Z)
  | EvBacktrace.

#[export] Instance event_eq_dec : EqDecision event.
Proof. solve_decision. Defined.

(** Memory, devices and the C globals whose address is never taken; globals
    that lists link to live in memory at the addresses of [Symbols]. *)
Record kst := mk_kst {
  k_mem : memory ;
  k_log : list event ;
  k_inq : list Z ;
  k_IF : bool ;
  k_free_page_num : Z ;
  k_pages : Z ;
  k_pt_begin : Z ;
  k_pd : Z ;
  k_mm : Z ;
  k_is_vmm_inited : Z ;
  k_idle : Z ;
  k_init_proc : Z ;
  k_current : Z ;
  k_proc_num : Z ;
  k_pids : list Z ;
  k_tss_esp0 : Z ;
  k_jiffies : Z
}.

Definition set_mem (v : memory) (s : kst) : kst :=
  mk_kst v (k_log s) (k_inq s) (k_IF s) (k_free_page_num s) (k_pages s) (k_pt_begin s) (k_pd s) (k_mm s) (k_is_vmm_inited s) (k_idle s) (k_init_proc s) (k_current s) (k_proc_num s) (k_pids s) (k_tss_esp0 s) (k_jiffies s).
Definition set_log (v : list event) (s : kst) : kst :=
  mk_kst (k_mem s) v (k_inq s) (k_IF s) (k_free_page_num s) (k_pages s) (k_pt_begin s) (k_pd s) (k_mm s) (k_is_vmm_inited s) (k_idle s) (k_init_proc s) (k_current s) (k_proc_num s) (k_pids s) (k_tss_esp0 s) (k_jiffies s).
Definition set_inq (v : list Z) (s : kst) : kst :=
  mk_kst (k_mem s) (k_log s) v (k_IF s) (k_free_page_num s) (k_pages s) (k_pt_begin s) (k_pd s) (k_mm s) (k_is_vmm_inited s) (k_idle s) (k_init_proc s) (k_current s) (k_proc_num s) (k_pids s) (k_tss_esp0 s) (k_jiffies s).
Definition set_IF (v : bool) (s : kst) : kst :=
  mk_kst (k_mem s) (k_log s) (k_inq s) v (k_free_page_num s) (k_pages s) (k_pt_begin s) (k_pd s) (k_mm s) (k_is_vmm_inited s) (k_idle s) (k_init_proc s) (k_current s) (k_proc_num s) (k_pids s) (k_tss_esp0 s) (k_jiffies s).
Definition set_free_page_num (v : Z) (s : kst) : kst :=
  mk_kst (k_mem s) (k_log s) (k_inq s) (k_IF s) v (k_pages s) (k_pt_begin s) (k_pd s) (k_mm s) (k_is_vmm_inited s) (k_idle s) (k_init_proc s) (k_current s) (k_proc_num s) (k_pids s) (k_tss_esp0 s) (k_jiffies s).
Definition set_pages (v : Z) (s : kst) : kst :=
  mk_kst (k_mem s) (k_log s) (k_inq s) (k_IF s) (k_free_page_num s) v (k_pt_begin s) (k_pd s) (k_mm s) (k_is_vmm_inited s) (k_idle s) (k_init_proc s) (k_current s) (k_proc_num s) (k_pids s) (k_tss_esp0 s) (k_jiffies s).
Definition set_pt_begin (v : Z) (s : kst) : kst :=
  mk_kst (k_mem s) (k_log s) (k_inq s) (k_IF s) (k_free_page_num s) (k_pages s) v (k_pd s) (k_mm s) (k_is_vmm_inited s) (k_idle s) (k_init_proc s) (k_current s) (k_proc_num s) (k_pids s) (k_tss_esp0 s) (k_jiffies s).
Definition set_pd (v : Z) (s : kst) : kst :=
  mk_kst (k_mem s) (k_log s) (k_inq s) (k_IF s) (k_free_page_num s) (k_pages s) (k_pt_begin s) v (k_mm s) (k_is_vmm_inited s) (k_idle s) (k_init_proc s) (k_current s) (k_proc_num s) (k_pids s) (k_tss_esp0 s) (k_jiffies s).
Definition set_mm (v : Z) (s : kst) : kst :=
  mk_kst (k_mem s) (k_log s) (k_inq s) (k_IF s) (k_free_page_num s) (k_pages s) (k_pt_begin s) (k_pd s) v (k_is_vmm_inited s) (k_idle s) (k_init_proc s) (k_current s) (k_proc_num s) (k_pids s) (k_tss_esp0 s) (k_jiffies s).
Definition set_is_vmm_inited (v : Z) (s : kst) : kst :=
  mk_kst (k_mem s) (k_log s) (k_inq s) (k_IF s) (k_free_page_num s) (k_pages s) (k_pt_begin s) (k_pd s) (k_mm s) v (k_idle s) (k_init_proc s) (k_current s) (k_proc_num s) (k_pids s) (k_tss_esp0 s) (k_jiffies s).
Definition set_idle (v : Z) (s : kst) : kst :=
  mk_kst (k_mem s) (k_log s) (k_inq s) (k_IF s) (k_free_page_num s) (k_pages s) (k_pt_begin s) (k_pd s) (k_mm s) (k_is_vmm_inited s) v (k_init_proc s) (k_current s) (k_proc_num s) (k_pids s) (k_tss_esp0 s) (k_jiffies s).
Definition set_init_proc (v : Z) (s : kst) : kst :=
  mk_kst (k_mem s) (k_log s) (k_inq s) (k_IF s) (k_free_page_num s) (k_pages s) (k_pt_begin s) (k_pd s) (k_mm s) (k_is_vmm_inited s) (k_idle s) v (k_current s) (k_proc_num s) (k_pids s) (k_tss_esp0 s) (k_jiffies s).
Definition set_current (v : Z) (s : kst) : kst :=
  mk_kst (k_mem s) (k_log s) (k_inq s) (k_IF s) (k_free_page_num s) (k_pages s) (k_pt_begin s) (k_pd s) (k_mm s) (k_is_vmm_inited s) (k_idle s) (k_init_proc s) v (k_proc_num s) (k_pids s) (k_tss_esp0 s) (k_jiffies s).
Definition set_proc_num (v : Z) (s : kst) : kst :=
  mk_kst (k_mem s) (k_log s) (k_inq s) (k_IF s) (k_free_page_num s) (k_pages s) (k_pt_begin s) (k_pd s) (k_mm s) (k_is_vmm_inited s) (k_idle s) (k_init_proc s) (k_current s) v (k_pids s) (k_tss_esp0 s) (k_jiffies s).
Definition set_pids (v : list Z) (s : kst) : kst :=
  mk_kst (k_mem s) (k_log s) (k_inq s) (k_IF s) (k_free_page_num s) (k_pages s) (k_pt_begin s) (k_pd s) (k_mm s) (k_is_vmm_inited s) (k_idle s) (k_init_proc s) (k_current s) (k_proc_num s) v (k_tss_esp0 s) (k_jiffies s).
Definition set_tss_esp0 (v : Z) (s : kst) : kst :=
  mk_kst (k_mem s) (k_log s) (k_inq s) (k_IF s) (k_free_page_num s) (k_pages s) (k_pt_begin s) (k_pd s) (k_mm s) (k_is_vmm_inited s) (k_idle s) (k_init_proc s) (k_current s) (k_proc_num s) (k_pids s) v (k_jiffies s).
Definition set_jiffies (v : Z) (s : kst) : kst :=
  mk_kst (k_mem s) (k_log s) (k_inq s) (k_IF s) (k_free_page_num s) (k_pages s) (k_pt_begin s) (k_pd s) (k_mm s) (k_is_vmm_inited s) (k_idle s) (k_init_proc s) (k_current s) (k_proc_num s) (k_pids s) (k_tss_esp0 s) v.

(** The addresses the linker gives to the globals the kernel links through. *)
Class Symbols := {
  free_pages_head : Z;   (** [&free_pages.head], pmm.c *)
  chunk_head : Z;        (** [&chunk_head], malloc.c *)
  proc_list : Z;         (** [&proc_list], proc.c *)
  kern_start : Z;        (** ldscript.ld: where the code of the high window starts *)
  kern_end : Z;          (** ldscript.ld *)
  kern_stack : Z;        (** tss.c *)
  exit_proc_addr : Z;    (** [exit_proc], user.c *)
  kernel_thread_entry_addr : Z;
  context_to_intr : Z    (** intr.S *)
}.

(** * The monad of kernel code *)

(** A call returns, or hangs ([while(1)], [panic], a port that never answers),
    or the model's loop fuel ends. *)
Inductive outcome (A : Type) :=
  | Ok (a : A) (s : kst)
  | Hang (s : kst)
  | NoFuel.
Arguments Ok {_} _ _.
Arguments Hang {_} _.
Arguments NoFuel {_}.

Definition K (A : Type) : Type := kst -> outcome A.

#[export] Instance K_ret : MRet K := fun _ a s => Ok a s.
#[export] Instance K_bind : MBind K := fun _ _ f m s =>
  match m s with Ok a s' => f a s' | Hang s' => Hang s' | NoFuel => NoFuel end.

Definition get {A} (f : kst -> A) : K A := fun s => Ok (f s) s.
Definition upd (f : kst -> kst) : K unit := fun s => Ok tt (f s).
Definition hang {A} : K A := fun s => Hang s.
Definition nofuel {A} : K A := fun _ => NoFuel.
Definition emit (e : event) : K unit := fun s => Ok tt (set_log (e :: k_log s) s).
Definition load (a : Z) : K Z := fun s => Ok (rd32 (k_mem s) a) s.
Definition store (a v : Z) : K unit := fun s => Ok tt (set_mem (wr32 (k_mem s) a v) s).
Definition load8 (a : Z) : K Z := fun s => Ok (rd8 (k_mem s) a) s.
Definition store8 (a v : Z) : K unit := fun s => Ok tt (set_mem (wr8 (k_mem s) a v) s).
Definition on_mem (f : memory -> memory) : K unit := fun s => Ok tt (set_mem (f (k_mem s)) s).
Definition printf (fmt : string) (args : list Z) : K unit := emit (EvPrintf fmt args).

(** An [if] without [else]. *)
Definition when (c : bool) (a : K unit) : K unit := if c then a else mret tt.

(** Read a field of an updated state. *)
Ltac kfield P f v s := first
  [ change (P (f v s)) with v | change (P (f v s)) with (P s) ].

Ltac kproj := repeat match goal with
  | |- context [k_mem (?f ?v ?s)] => kfield k_mem f v s
  | |- context [k_log (?f ?v ?s)] => kfield k_log f v s
  | |- context [k_inq (?f ?v ?s)] => kfield k_inq f v s
  | |- context [k_IF (?f ?v ?s)] => kfield k_IF f v s
  | |- context [k_free_page_num (?f ?v ?s)] => kfield k_free_page_num f v s
  | |- context [k_pages (?f ?v ?s)] => kfield k_pages f v s
  | |- context [k_pt_begin (?f ?v ?s)] => kfield k_pt_begin f v s
  | |- context [k_pd (?f ?v ?s)] => kfield k_pd f v s
  | |- context [k_mm (?f ?v ?s)] => kfield k_mm f v s
  | |- context [k_is_vmm_inited (?f ?v ?s)] => kfield k_is_vmm_inited f v s
  | |- context [k_idle (?f ?v ?s)] => kfield k_idle f v s
  | |- context [k_init_proc (?f ?v ?s)] => kfield k_init_proc f v s
  | |- context [k_current (?f ?v ?s)] => kfield k_current f v s
  | |- context [k_proc_num (?f ?v ?s)] => kfield k_proc_num f v s
  | |- context [k_pids (?f ?v ?s)] => kfield k_pids f v s
  | |- context [k_tss_esp0 (?f ?v ?s)] => kfield k_tss_esp0 f v s
  | |- context [k_jiffies (?f ?v ?s)] => kfield k_jiffies f v s
  end.

(** Symbolic execution of the monad on a state. *)
Ltac krun :=
  cbv beta iota zeta delta [when mbind mret K_bind K_ret get upd hang nofuel emit load store
    load8 store8 on_mem printf];
  kproj.

(** * A sample layout and a blank state, for concrete runs *)
Definition sample_symbols : Symbols := {|
  free_pages_head := 0xC0110000;
  chunk_head := 0xC0110100;
  proc_list := 0xC0110200;
  kern_start := 0xC0102000;
  kern_end := 0xC0120000;
  kern_stack := 0xC0114000;
  exit_proc_addr := 0xC0100100;
  kernel_thread_entry_addr := 0xC0100200;
  context_to_intr := 0xC0100300
|}.

Definition blank_state : kst :=
  mk_kst ∅ [] [] true 0 0 0 0 0 0 0 0 0 0 [] 0 0.
