(* ===== verification/DList.v ===== *)
(** The intrusive circular doubly-linked lists of include/list.h: the four
    operations as memory updates, and the sequence each one leaves behind. *)

From S2P Require Import Prelude Machine.

Local Open Scope Z_scope.

(** * [struct list_node]: [prev] at offset 0, [next] at offset 4. *)
Definition node_prev (n : Z) : Z := n.
Definition node_next (n : Z) : Z := n + 4.

Definition list_init (node : Z) (m : memory) : memory :=
  let m := wr32 m (node_prev node) node in
  wr32 m (node_next node) node.

Definition list_insert_before (node new_node : Z) (m : memory) : memory :=
  let m := wr32 m (node_prev new_node) (rd32 m (node_prev node)) in
  let m := wr32 m (node_next (rd32 m (node_prev node))) new_node in
  let m := wr32 m (node_next new_node) node in
  wr32 m (node_prev node) new_node.

Definition list_insert_after (node new_node : Z) (m : memory) : memory :=
  let m := wr32 m (node_next new_node) (rd32 m (node_next node)) in
  let m := wr32 m (node_prev (rd32 m (node_next node))) new_node in
  let m := wr32 m (node_prev new_node) node in
  wr32 m (node_next node) new_node.

Definition list_delete (node : Z) (m : memory) : memory :=
  let m := wr32 m (node_prev (rd32 m (node_next node))) (rd32 m (node_prev node)) in
  wr32 m (node_next (rd32 m (node_prev node))) (rd32 m (node_next node)).

(** * Representation *)

(** Nodes that occupy disjoint words. *)
Record nodes_sep (l : list Z) : Prop := {
  ns_nodup : NoDup l;
  ns_range : forall x, x ∈ l -> 0 <= x < 2 ^ 32;
  ns_next_prev : forall x y, x ∈ l -> y ∈ l -> wd (x + 4) y;
  ns_prev : forall x y, x ∈ l -> y ∈ l -> x <> y -> wd x y;
  ns_next : forall x y, x ∈ l -> y ∈ l -> x <> y -> wd (x + 4) (y + 4)
}.

Definition links (m : memory) (a b : Z) : Prop := rd32 m (a + 4) = b /\ rd32 m b = a.

(** [dseg m a l b]: from [a] the links lead through [l] to [b], both ways. *)
Fixpoint dseg (m : memory) (a : Z) (l : list Z) (b : Z) : Prop :=
  match l with
  | [] => links m a b
  | x :: l => links m a x /\ dseg m x l b
  end.

(** The circular list headed by [h] holds the nodes [ns] in order. *)
Definition dlist (m : memory) (h : Z) (ns : list Z) : Prop :=
  nodes_sep (h :: ns) /\ dseg m h ns h.

(** A word no node of [l] touches. *)
Definition off_nodes (l : list Z) (a : Z) : Prop :=
  forall x, x ∈ l -> wd x a /\ wd (x + 4) a.

Lemma nodes_sep_sub l l' : nodes_sep l -> NoDup l' -> (forall x, x ∈ l' -> x ∈ l) -> nodes_sep l'.
Proof. intros [] Hnd Hsub. constructor; eauto. Qed.

Lemma nodes_sep_perm l l' : l ≡ₚ l' -> nodes_sep l -> nodes_sep l'.
Proof.
  intros Hp Hs. apply (nodes_sep_sub l); [done| |].
  - rewrite <- Hp. apply Hs.
  - intros x. by rewrite Hp.
Qed.

(** Two of them. *)
Lemma nodes_sep_wd l x y : nodes_sep l -> x ∈ l -> y ∈ l -> x <> y ->
  (wd x y /\ wd (x + 4) y) /\ (wd x (y + 4) /\ wd (x + 4) (y + 4)).
Proof. intros [_ _ H1 H2 H3] Hx Hy Hne. auto 6. Qed.

Lemma dseg_app m a l1 x l2 b :
  dseg m a (l1 ++ x :: l2) b <-> dseg m a l1 x /\ dseg m x l2 b.
Proof.
  revert a. induction l1 as [|y l1 IH]; intros a; simpl; [done|].
  rewrite IH. tauto.
Qed.

Lemma dseg_frame m m' a l b :
  (forall x, x ∈ a :: l -> rd32 m' (x + 4) = rd32 m (x + 4)) ->
  (forall x, x ∈ l ++ [b] -> rd32 m' x = rd32 m x) ->
  dseg m a l b -> dseg m' a l b.
Proof.
  revert a. induction l as [|y l IH]; intros a Hn Hp; simpl in *; unfold links.
  - rewrite Hn, Hp by set_solver. done.
  - rewrite Hn, Hp by set_solver. intros [? ?]. split; [done|].
    apply IH; [..|done]; set_solver.
Qed.

Lemma dlist_frame m m' h ns :
  (forall a, (exists x, x ∈ h :: ns /\ (a = x \/ a = x + 4)) -> rd32 m' a = rd32 m a) ->
  dlist m h ns -> dlist m' h ns.
Proof.
  intros Hf [Hs Hd]. split; [done|].
  apply (dseg_frame m); [..|done]; intros x Hx; apply Hf; exists x; set_solver.
Qed.

(** One store outside the list keeps the list. *)
Lemma dlist_wr32 m h ns a v :
  off_nodes (h :: ns) a -> dlist m h ns -> dlist (wr32 m a v) h ns.
Proof.
  intros Hoff. apply dlist_frame. intros b (x & Hx & Hb).
  destruct (Hoff x Hx). apply rd32_wr32_ne. destruct Hb as [-> | ->]; by apply wd_sym.
Qed.

(** * The effect of the operations *)

(** [m'] is [m] with [new] linked between [p] and [n]. *)
Record linked (m m' : memory) (p new n : Z) : Prop := {
  lk_p : links m' p new;
  lk_n : links m' new n;
  lk_frame : forall a, wd new a -> wd (new + 4) a -> wd (p + 4) a -> wd n a ->
    rd32 m' a = rd32 m a
}.

(** [m'] is [m] with [p] and [n] linked to each other. *)
Record unlinked (m m' : memory) (p n : Z) : Prop := {
  ul_links : links m' p n;
  ul_frame : forall a, wd (p + 4) a -> wd n a -> rd32 m' a = rd32 m a
}.

(** Read back the words a chain of stores left behind. *)
Ltac rdw := repeat first
  [ rewrite rd32_wr32_small by done
  | rewrite rd32_wr32_ne by (eauto using wd_sym) ].

(** Membership in lists built from [::], [++] and singletons. *)
Ltac elt := repeat first
  [ rewrite elem_of_cons | rewrite elem_of_app | rewrite elem_of_nil ]; tauto.

(** The words of a new node and of the two neighbours are apart. *)
Record slot (p new n : Z) : Prop := {
  sl_p : 0 <= p < 2 ^ 32; sl_n : 0 <= n < 2 ^ 32; sl_new : 0 <= new < 2 ^ 32;
  sl_1 : wd (p + 4) n; sl_2 : wd new n; sl_3 : wd (new + 4) n;
  sl_4 : wd new (p + 4); sl_5 : wd (new + 4) (p + 4); sl_6 : wd (new + 4) new;
  sl_7 : wd new p; sl_8 : wd (n + 4) new
}.

Lemma nodes_sep_slot l p new n :
  nodes_sep l -> p ∈ l -> n ∈ l -> new ∈ l -> new <> p -> new <> n -> slot p new n.
Proof.
  intros [_ Hr Hnp Hpp Hnn] Hp Hn Hw ? ?.
  constructor; eauto using wd_sym.
Qed.

Lemma insert_before_linked m p n new :
  links m p n -> slot p new n -> linked m (list_insert_before n new m) p new n.
Proof.
  intros [Hn Hp] []. unfold list_insert_before, node_prev, node_next. cbn zeta.
  rewrite Hp, (rd32_wr32_ne _ new n), Hp by eauto.
  split; [split; rdw; done|split; rdw; done|].
  intros a Ha Ha4 Hpa Hna. rdw. done.
Qed.

Lemma insert_after_linked m p n new :
  links m p n -> slot p new n -> linked m (list_insert_after p new m) p new n.
Proof.
  intros [Hn Hp] []. unfold list_insert_after, node_prev, node_next. cbn zeta.
  rewrite Hn, (rd32_wr32_ne _ (new + 4) (p + 4)), Hn by eauto.
  split; [split; rdw; done|split; rdw; done|].
  intros a Ha Ha4 Hpa Hna. rdw. done.
Qed.

Lemma delete_unlinked m p x n :
  links m p x -> links m x n -> 0 <= p < 2 ^ 32 -> 0 <= n < 2 ^ 32 ->
  wd (p + 4) n -> wd n x -> wd n (x + 4) ->
  unlinked m (list_delete x m) p n.
Proof.
  intros [Hpx Hxp] [Hxn Hnx] ? ? ? ? ?. unfold list_delete, node_prev, node_next. cbn zeta.
  rewrite Hxn, Hxp, !(rd32_wr32_ne _ n), Hxp, Hxn by eauto.
  split; [split; rdw; done|]. intros a Ha Hna. rdw. done.
Qed.

(** The neighbours of the place between [l1] and [l2] in the circle of [h]. *)
Definition before (h : Z) (l1 : list Z) : Z := default h (last l1).
Definition after (h : Z) (l2 : list Z) : Z := default h (head l2).

Lemma before_elem h l1 : before h l1 ∈ h :: l1.
Proof.
  unfold before. destruct (last l1) as [x|] eqn:E; simpl; [|elt].
  apply last_Some_elem_of in E. elt.
Qed.

Lemma after_elem h l2 : after h l2 ∈ h :: l2.
Proof. destruct l2; unfold after; simpl; elt. Qed.

Lemma dseg_neighbours m h l1 l2 :
  dseg m h (l1 ++ l2) h -> links m (before h l1) (after h l2).
Proof.
  destruct l1 as [|p l1 _] using rev_ind; destruct l2 as [|n l2]; unfold before, after; simpl.
  - done.
  - tauto.
  - rewrite app_nil_r, last_snoc. simpl. rewrite dseg_app. simpl. tauto.
  - rewrite last_snoc, <- app_assoc. simpl. rewrite dseg_app. simpl. tauto.
Qed.

Lemma app_disjoint {A} (l1 l2 : list A) x y : NoDup (l1 ++ l2) -> x ∈ l1 -> y ∈ l2 -> x <> y.
Proof. rewrite NoDup_app. intros (_ & Hd & _) Hx Hy ->. by apply (Hd y). Qed.

(** The links inside a part of the circle survive a change at another place. *)
Lemma dseg_part m m' (l : list Z) a (l1 : list Z) b p n :
  (forall x, x ∈ a :: l1 ++ [b] -> x ∈ l) -> p ∉ a :: l1 -> n ∉ l1 ++ [b] ->
  (forall x, x ∈ l -> x <> p -> rd32 m' (x + 4) = rd32 m (x + 4)) ->
  (forall x, x ∈ l -> x <> n -> rd32 m' x = rd32 m x) ->
  dseg m a l1 b -> dseg m' a l1 b.
Proof.
  intros Hin Hpa Hnb Hf4 Hf. apply dseg_frame.
  - intros x Hx. apply Hf4; [apply Hin; revert Hx; elt|]. congruence.
  - intros x Hx. apply Hf; [apply Hin; revert Hx; elt|]. congruence.
Qed.

Lemma nodup_middle (h x : Z) l1 l2 :
  NoDup (h :: l1 ++ x :: l2) -> (x ∉ h :: l1 ++ l2) /\ NoDup (h :: l1 ++ l2).
Proof.
  intros Hnd. apply NoDup_cons. revert Hnd.
  rewrite (Permutation_middle (h :: l1) l2 x). done.
Qed.

(** Both parts of a circle split at a place, rebuilt at its neighbours. *)
Lemma dseg_parts m m' h (l1 l2 : list Z) y0 z0 :
  let p := before h l1 in let n := after h l2 in
  NoDup (h :: l1 ++ l2) -> dseg m h l1 y0 -> dseg m z0 l2 h ->
  (forall x, x ∈ h :: l1 ++ l2 -> x <> p -> rd32 m' (x + 4) = rd32 m (x + 4)) ->
  (forall x, x ∈ h :: l1 ++ l2 -> x <> n -> rd32 m' x = rd32 m x) ->
  (forall y, links m' p y -> dseg m' h l1 y) /\ (forall y, links m' y n -> dseg m' y l2 h).
Proof.
  cbn zeta. intros Hnd Hd1 Hd2 Hf4 Hf.
  apply NoDup_cons in Hnd as [Hh Hnd]. rewrite elem_of_app in Hh.
  pose proof Hnd as (Hn1 & Hdisj & Hn2)%NoDup_app. split; intros y Hy.
  - destruct l1 as [|p l1 _] using rev_ind; [done|].
    unfold before in *. rewrite last_snoc in *. simpl in *.
    apply dseg_app. apply dseg_app in Hd1 as [Hd1 _]. split; [|done].
    apply (dseg_part m m' (h :: (l1 ++ [p]) ++ l2) h l1 p p (after h l2)); [| | |done..].
    + intros x. elt.
    + apply NoDup_app in Hn1 as (_ & Hn1 & _). rewrite elem_of_cons.
      intros [-> | Hin]; [apply Hh; left; elt|]. apply (Hn1 p); [done|elt].
    + pose proof (after_elem h l2) as [-> | He]%elem_of_cons; [tauto|].
      intros Hn. by apply (Hdisj _ Hn).
  - destruct l2 as [|n l2]; [done|]. unfold after in *. simpl in *. split; [done|].
    destruct Hd2 as [_ Hd2]. apply NoDup_cons in Hn2 as [Hn2 _].
    apply (dseg_part m m' (h :: l1 ++ n :: l2) n l2 h (before h l1) n); [| | |done..].
    + intros x. elt.
    + pose proof (before_elem h l1) as [-> | He]%elem_of_cons; [tauto|]. by apply Hdisj.
    + rewrite elem_of_app, list_elem_of_singleton. intros [?|<-]; [done|].
      apply Hh. right. elt.
Qed.

Lemma dseg_halves m h l1 l2 :
  dseg m h (l1 ++ l2) h -> dseg m h l1 (after h l2) /\ dseg m (before h l1) l2 h.
Proof.
  intros Hd. pose proof (dseg_neighbours _ _ _ _ Hd) as Hl.
  destruct l2 as [|n l2]; unfold after in *; simpl in *; [by rewrite app_nil_r in Hd|].
  apply dseg_app in Hd. tauto.
Qed.

Lemma dlist_link m m' h l1 new l2 :
  dlist m h (l1 ++ l2) -> nodes_sep (h :: l1 ++ new :: l2) ->
  linked m m' (before h l1) new (after h l2) -> dlist m' h (l1 ++ new :: l2).
Proof.
  intros [Hs0 [Hd1 Hd2]%dseg_halves] Hs [Hl1 Hl2 Hf]. split; [done|]. apply dseg_app.
  assert (Hnew : forall x, x ∈ h :: l1 ++ l2 -> x ∈ h :: l1 ++ new :: l2 /\ new <> x).
  { intros x Hx. split; [revert Hx; elt|]. intros <-.
    by destruct (nodup_middle _ _ _ _ (ns_nodup _ Hs)). }
  assert (Hw : new ∈ h :: l1 ++ new :: l2) by elt.
  assert (Hb : before h l1 ∈ h :: l1 ++ l2) by (pose proof (before_elem h l1) as He; revert He; elt).
  assert (Ha : after h l2 ∈ h :: l1 ++ l2) by (pose proof (after_elem h l2) as He; revert He; elt).
  apply Hnew in Hb as [Hb _]. apply Hnew in Ha as [Ha _].
  destruct Hs as [_ _ Hnp Hpp Hnn].
  destruct (dseg_parts m m' h l1 l2 _ _ (ns_nodup _ Hs0) Hd1 Hd2) as [H1 H2]; [| |by split; auto];
    intros x Hx Hne; destruct (Hnew x Hx); apply Hf; eauto using wd_sym.
Qed.

Lemma dlist_unlink m m' h l1 x l2 :
  dlist m h (l1 ++ x :: l2) -> unlinked m m' (before h l1) (after h l2) -> dlist m' h (l1 ++ l2).
Proof.
  intros [Hs Hd] [Hl Hf].
  assert (Hs' : nodes_sep (h :: l1 ++ l2)).
  { apply (nodes_sep_sub _ _ Hs); [|intros y; elt].
    by destruct (nodup_middle _ _ _ _ (ns_nodup _ Hs)). }
  split; [done|]. apply dseg_app in Hd as [Hd1 Hd2].
  assert (Hb : before h l1 ∈ h :: l1 ++ l2) by (pose proof (before_elem h l1) as He; revert He; elt).
  assert (Ha : after h l2 ∈ h :: l1 ++ l2) by (pose proof (after_elem h l2) as He; revert He; elt).
  pose proof (ns_nodup _ Hs'). destruct Hs' as [_ _ Hnp Hpp Hnn].
  destruct (dseg_parts m m' h l1 l2 x x) as [H1 H2]; eauto using wd_sym.
  destruct l2 as [|n l2]; unfold after in *; simpl in *.
  - rewrite app_nil_r. by apply H1.
  - apply dseg_app. split; [by apply H1|]. apply (H2 _ Hl).
Qed.

(** * The list operations refine the operations on sequences *)

Lemma slot_between h l1 new l2 :
  nodes_sep (h :: l1 ++ new :: l2) -> slot (before h l1) new (after h l2).
Proof.
  intros Hs. destruct (nodup_middle _ _ _ _ (ns_nodup _ Hs)) as [Hnew _].
  pose proof (before_elem h l1) as Hb. pose proof (after_elem h l2) as Ha.
  apply (nodes_sep_slot _ _ _ _ Hs).
  - revert Hb. elt.
  - revert Ha. elt.
  - elt.
  - intros ->. apply Hnew. revert Hb. elt.
  - intros ->. apply Hnew. revert Ha. elt.
Qed.

Lemma linked_frame m m' h l1 new l2 a :
  linked m m' (before h l1) new (after h l2) -> off_nodes (h :: l1 ++ new :: l2) a ->
  rd32 m' a = rd32 m a.
Proof.
  intros [_ _ Hf] Hoff.
  pose proof (before_elem h l1) as Hb. pose proof (after_elem h l2) as Ha.
  apply Hf; apply Hoff; [elt|elt|revert Hb; elt|revert Ha; elt].
Qed.

Lemma list_insert_before_spec m h l1 l2 new :
  dlist m h (l1 ++ l2) -> nodes_sep (h :: l1 ++ new :: l2) ->
  let m' := list_insert_before (after h l2) new m in
  dlist m' h (l1 ++ new :: l2) /\
  forall a, off_nodes (h :: l1 ++ new :: l2) a -> rd32 m' a = rd32 m a.
Proof.
  intros Hd Hs m'.
  assert (Hl : linked m m' (before h l1) new (after h l2)).
  { apply insert_before_linked; [by apply dseg_neighbours, Hd|by apply slot_between]. }
  split; [by eapply dlist_link|]. intros a. by apply linked_frame.
Qed.

Lemma list_insert_after_spec m h l1 l2 new :
  dlist m h (l1 ++ l2) -> nodes_sep (h :: l1 ++ new :: l2) ->
  let m' := list_insert_after (before h l1) new m in
  dlist m' h (l1 ++ new :: l2) /\
  forall a, off_nodes (h :: l1 ++ new :: l2) a -> rd32 m' a = rd32 m a.
Proof.
  intros Hd Hs m'.
  assert (Hl : linked m m' (before h l1) new (after h l2)).
  { apply insert_after_linked; [by apply dseg_neighbours, Hd|by apply slot_between]. }
  split; [by eapply dlist_link|]. intros a. by apply linked_frame.
Qed.

Lemma dlist_around m h l1 x l2 :
  dlist m h (l1 ++ x :: l2) -> links m (before h l1) x /\ links m x (after h l2).
Proof.
  intros [_ Hd]. split.
  - apply (dseg_neighbours _ _ _ _ Hd).
  - replace (l1 ++ x :: l2) with ((l1 ++ [x]) ++ l2) in Hd by (rewrite <- app_assoc; done).
    apply dseg_neighbours in Hd. unfold before in Hd. by rewrite last_snoc in Hd.
Qed.

Lemma list_delete_spec m h l1 x l2 :
  dlist m h (l1 ++ x :: l2) ->
  let m' := list_delete x m in
  dlist m' h (l1 ++ l2) /\ forall a, off_nodes (h :: l1 ++ l2) a -> rd32 m' a = rd32 m a.
Proof.
  intros Hd m'. pose proof (dlist_around _ _ _ _ _ Hd) as [Hl1 Hl2]. destruct Hd as [Hs Hd].
  destruct (slot_between h l1 x l2 Hs).
  assert (Hu : unlinked m m' (before h l1) (after h l2)).
  { apply delete_unlinked; eauto using wd_sym. }
  split; [eapply dlist_unlink; [by split|done]|].
  pose proof (before_elem h l1) as Hb. pose proof (after_elem h l2) as Ha.
  intros a Hoff. apply Hu; apply Hoff; [revert Hb; elt|revert Ha; elt].
Qed.

Lemma list_init_spec m h :
  nodes_sep [h] ->
  let m' := list_init h m in
  dlist m' h [] /\ forall a, off_nodes [h] a -> rd32 m' a = rd32 m a.
Proof.
  intros Hs m'. assert (0 <= h < 2 ^ 32) by (apply Hs; elt).
  assert (wd (h + 4) h) by (apply Hs; elt).
  unfold m', list_init, node_prev, node_next. cbn zeta. split; [split; [done|]|].
  - split; rdw; done.
  - intros a Hoff. destruct (Hoff h) as [? ?]; [elt|]. rdw. done.
Qed.

Lemma dlist_first m h ns : dlist m h ns -> rd32 m (h + 4) = after h ns.
Proof. intros [_ Hd]. apply (dseg_neighbours m h [] ns Hd). Qed.

Lemma dlist_last m h ns : dlist m h ns -> rd32 m h = before h ns.
Proof.
  intros [_ Hd]. rewrite <- (app_nil_r ns) in Hd.
  destruct (dseg_neighbours m h ns [] Hd) as [_ H]. exact H.
Qed.

Lemma dlist_next m h l1 x l2 : dlist m h (l1 ++ x :: l2) -> rd32 m (x + 4) = after h l2.
Proof. intros Hd. apply (dlist_around _ _ _ _ _ Hd). Qed.

Lemma before_snoc h l x : before h (l ++ [x]) = x.
Proof. unfold before. by rewrite last_snoc. Qed.

Lemma dlist_prev m h l1 x l2 : dlist m h (l1 ++ x :: l2) -> rd32 m x = before h l1.
Proof. intros Hd. apply (dlist_around _ _ _ _ _ Hd). Qed.

Lemma dlist_not_head m h ns x : dlist m h ns -> x ∈ ns -> x <> h.
Proof. intros [Hs _] Hx ->. apply ns_nodup, NoDup_cons in Hs. tauto. Qed.

(** The nodes met when following [next] from [n] until [h], at most [fuel]. *)
Fixpoint follow (fuel : nat) (m : memory) (h n : Z) : list Z :=
  match fuel with
  | O => []
  | S fuel => if n =? h then [] else n :: follow fuel m h (rd32 m (node_next n))
  end.

Definition list_nodes (fuel : nat) (m : memory) (h : Z) : list Z :=
  follow fuel m h (rd32 m (node_next h)).

Lemma follow_spec m h l2 : forall l1 fuel,
  dlist m h (l1 ++ l2) -> (length l2 < fuel)%nat -> follow fuel m h (after h l2) = l2.
Proof.
  induction l2 as [|x l2 IH]; intros l1 fuel Hd Hf; (destruct fuel as [|fuel]; cbn [length] in Hf; [lia|]);
    cbn [follow after head default id from_option].
  - by rewrite Z.eqb_refl.
  - destruct (Z.eqb_spec x h) as [->|_].
    { exfalso. apply (dlist_not_head _ _ _ h Hd); [elt|done]. }
    f_equal. unfold node_next. rewrite (dlist_next _ _ _ _ _ Hd). apply (IH (l1 ++ [x])); [|lia].
    by rewrite <- app_assoc.
Qed.

(** Following [next] from the head meets the nodes of the list, in order. *)
Theorem list_nodes_spec m h ns fuel :
  dlist m h ns -> (length ns < fuel)%nat -> list_nodes fuel m h = ns.
Proof.
  intros Hd Hf. unfold list_nodes, node_next. rewrite (dlist_first _ _ _ Hd).
  by apply (follow_spec m h ns []).
Qed.

(** A node linked in before or after another one and deleted again leaves the
    same list; the other words of memory are kept. *)
Theorem list_insert_delete m h l1 l2 new :
  dlist m h (l1 ++ l2) -> nodes_sep (h :: l1 ++ new :: l2) ->
  let m1 := list_delete new (list_insert_before (after h l2) new m) in
  let m2 := list_delete new (list_insert_after (before h l1) new m) in
  dlist m1 h (l1 ++ l2) /\ dlist m2 h (l1 ++ l2) /\
  forall a, off_nodes (h :: l1 ++ new :: l2) a -> rd32 m1 a = rd32 m a /\ rd32 m2 a = rd32 m a.
Proof.
  intros Hd Hs m1 m2.
  destruct (list_insert_before_spec m h l1 l2 new Hd Hs) as [Hb Hfb].
  destruct (list_insert_after_spec m h l1 l2 new Hd Hs) as [Ha Hfa].
  destruct (list_delete_spec _ _ _ _ _ Hb) as [Hb2 Hfb2].
  destruct (list_delete_spec _ _ _ _ _ Ha) as [Ha2 Hfa2].
  split; [done|split; [done|]]. intros a Hoff. unfold m1, m2.
  assert (Hsub : off_nodes (h :: l1 ++ l2) a) by (intros x Hx; apply Hoff; revert Hx; elt).
  rewrite Hfb2, Hfb, Hfa2, Hfa by done. done.
Qed.
