(* ===== verification/Str.v ===== *)
(** The memory and string routines of libs/string.c over the byte memory. *)

From S2P Require Import Prelude Machine.

Local Open Scope Z_scope.

(** The [char] (signed) reading of a byte. *)
Definition s8 (b : Z) : Z := if b <? 2 ^ 7 then b else b - 2 ^ 8.

(** * [memset] and [memcpy] *)

(** The loops run [size] times and step their pointers by one. *)
Fixpoint memset_loop (size : nat) (ptr ch : Z) (m : memory) : memory :=
  match size with
  | O => m
  | S size => memset_loop size (w32 (ptr + 1)) ch (wr8 m ptr ch)
  end.

Definition memset (src ch size : Z) : K unit :=
  on_mem (memset_loop (Z.to_nat size) src ch).

Fixpoint memcpy_loop (size : nat) (new_dst new_src : Z) (m : memory) : memory :=
  match size with
  | O => m
  | S size =>
      memcpy_loop size (w32 (new_dst + 1)) (w32 (new_src + 1)) (wr8 m new_dst (rd8 m new_src))
  end.

Definition memcpy (dst src size : Z) : K Z :=
  on_mem (memcpy_loop (Z.to_nat size) dst src);;
  mret dst.

(** * Strings *)

Fixpoint strlen_loop (fuel : nat) (ptr len : Z) : K Z :=
  match fuel with
  | O => nofuel
  | S fuel =>
      c ← load8 ptr;
      if c =? 0 then mret len else strlen_loop fuel (w32 (ptr + 1)) (w32 (len + 1))
  end.

Definition strlen (fuel : nat) (ptr : Z) : K Z :=
  if ptr =? NULL then mret 0 else strlen_loop fuel ptr 0.

(** On the first difference both pointers have already moved past it. *)
Fixpoint strcmp_loop (fuel : nat) (lhs rhs : Z) : K Z :=
  match fuel with
  | O => nofuel
  | S fuel =>
      l ← load8 lhs; r ← load8 rhs;
      if negb (l =? 0) && negb (r =? 0) then
        let lhs := w32 (lhs + 1) in
        let rhs := w32 (rhs + 1) in
        if l =? r then strcmp_loop fuel lhs rhs
        else l ← load8 lhs; r ← load8 rhs; mret (s8 l - s8 r)
      else mret (s8 l - s8 r)
  end.

Definition strcmp (fuel : nat) (lhs rhs : Z) : K Z :=
  if (lhs =? NULL) || (rhs =? NULL) then mret 0 else strcmp_loop fuel lhs rhs.

Fixpoint strcpy_loop (fuel : nat) (dest src : Z) : K unit :=
  match fuel with
  | O => nofuel
  | S fuel =>
      c ← load8 src;
      if c =? 0 then store8 dest 0
      else store8 dest c;; strcpy_loop fuel (w32 (dest + 1)) (w32 (src + 1))
  end.

Definition strcpy (fuel : nat) (dest src : Z) : K Z :=
  if (dest =? NULL) || (src =? NULL) then mret NULL
  else strcpy_loop fuel dest src;; mret dest.

(** * Effect on the bytes *)

Lemma memset_bytes n : forall m a ch p,
  span a (Z.of_nat n) ->
  pbyte (memset_loop n a ch m) p =
    if decide (ka a <= p < ka a + Z.of_nat n) then w8 ch else pbyte m p.
Proof.
  induction n as [|n IH]; intros m a ch p Hs; simpl.
  - dec_lia. done.
  - destruct n as [|n'].
    { simpl. rewrite pbyte_wr8. destruct (decide (ka a = p)); dec_lia; done. }
    assert (Ea : ka (a + 1) = ka a + 1) by (apply (ka_span _ _ _ Hs); lia).
    pose proof (span_word _ _ 1 Hs ltac:(lia)). wsmall.
    rewrite IH by (unfold span, VERTUAL_MEM in *; lia). rewrite Ea, pbyte_wr8.
    destruct (decide (ka a = p)) as [<-|].
    + rewrite decide_False, decide_True by lia. done.
    + destruct (decide (ka a + 1 <= p < ka a + 1 + Z.of_nat (S n'))); dec_lia; done.
Qed.

Lemma memset_zero_word m a n x :
  span a n -> ka a <= ka x -> ka x + 4 <= ka a + n ->
  rd32 (memset_loop (Z.to_nat n) a 0 m) x = 0.
Proof.
  intros Hs H1 H2. rewrite rd32_bytes, !memset_bytes by (rewrite Z2Nat.id by lia; done).
  dec_lia. done.
Qed.

Lemma memset_frame m a ch n x :
  span a n -> 0 <= n -> ka x + 4 <= ka a \/ ka a + n <= ka x ->
  rd32 (memset_loop (Z.to_nat n) a ch m) x = rd32 m x.
Proof.
  intros Hs Hn H1. apply rd32_ext. intros p Hp.
  rewrite memset_bytes by (rewrite Z2Nat.id by lia; done). dec_lia. done.
Qed.

#[global] Opaque memset_loop.

(** Ranges that share no byte. *)
Definition apart (a n b k : Z) : Prop := ka a + n <= ka b \/ ka b + k <= ka a.

Lemma memcpy_bytes n : forall m d a p,
  span d (Z.of_nat n) -> span a (Z.of_nat n) -> apart d (Z.of_nat n) a (Z.of_nat n) ->
  pbyte (memcpy_loop n d a m) p =
    if decide (ka d <= p < ka d + Z.of_nat n) then pbyte m (ka a + (p - ka d)) else pbyte m p.
Proof.
  unfold apart. induction n as [|n IH]; intros m d a p Hd Ha Hap; simpl.
  - dec_lia. done.
  - destruct n as [|n'].
    { simpl. rewrite pbyte_wr8, rd8_pbyte. destruct (decide (ka d = p)) as [<-|]; dec_lia; [|done].
      rewrite Z.sub_diag, Z.add_0_r. unfold w8. rewrite Z.mod_small by apply pbyte_range. done. }
    assert (Ed : ka (d + 1) = ka d + 1) by (apply (ka_span _ _ _ Hd); lia).
    assert (Ea : ka (a + 1) = ka a + 1) by (apply (ka_span _ _ _ Ha); lia).
    pose proof (span_word _ _ 1 Hd ltac:(lia)). pose proof (span_word _ _ 1 Ha ltac:(lia)). wsmall.
    rewrite IH by (unfold span, VERTUAL_MEM in *; lia). rewrite Ed, Ea, !pbyte_wr8, rd8_pbyte.
    destruct (decide (ka d = p)) as [<-|].
    + dec_lia. rewrite Z.sub_diag, Z.add_0_r.
      unfold w8. rewrite Z.mod_small by apply pbyte_range. done.
    + destruct (decide (ka d + 1 <= p < ka d + 1 + Z.of_nat (S n'))); dec_lia; [|done].
      f_equal. lia.
Qed.

(** [memcpy] moves whole words when the ranges do not overlap, and nothing else. *)
Theorem memcpy_spec s d a n :
  0 <= n -> span d n -> span a n -> apart d n a n ->
  exists m', memcpy d a n s = Ok d (set_mem m' s) /\
    (forall i, 0 <= i -> i + 4 <= n -> rd32 m' (d + i) = rd32 (k_mem s) (a + i)) /\
    (forall x, apart d n x 4 -> rd32 m' x = rd32 (k_mem s) x).
Proof.
  intros Hn Hd Ha Hap. eexists. split; [reflexivity|]. unfold apart in *. split.
  - intros i Hi Hin. apply rd32_move. intros j Hj.
    rewrite memcpy_bytes by (rewrite Z2Nat.id by lia; done).
    rewrite (ka_span _ _ i Hd), (ka_span _ _ i Ha), Z2Nat.id by lia. dec_lia. f_equal. lia.
  - intros x Hx. apply rd32_ext. intros p Hp.
    rewrite memcpy_bytes by (rewrite Z2Nat.id by lia; done). rewrite Z2Nat.id by lia.
    dec_lia. done.
Qed.

(** The bytes of [l] followed by the terminator. *)
Fixpoint cstr (m : memory) (a : Z) (l : list Z) : Prop :=
  match l with
  | [] => rd8 m a = 0
  | c :: l => rd8 m a = c /\ c <> 0 /\ cstr m (a + 1) l
  end.

Definition holds (m : memory) (a : Z) (l : list Z) : Prop :=
  0 < a /\ span a (Z.of_nat (length l) + 1) /\ cstr m a l.

Lemma strlen_loop_spec l : forall a len fuel s,
  span a (Z.of_nat (length l) + 1) -> cstr (k_mem s) a l -> 0 <= len ->
  len + Z.of_nat (length l) < 2 ^ 32 -> (length l < fuel)%nat ->
  strlen_loop fuel a len s = Ok (len + Z.of_nat (length l)) s.
Proof.
  induction l as [|c l IH]; intros a len fuel s Hs Hc H0 Hl Hf;
    destruct fuel as [|fuel]; simpl in *; try lia; cbn [strlen_loop]; krun.
  - rewrite Hc. simpl. krun. rewrite Z.add_0_r. done.
  - destruct Hc as (-> & Hc0 & Hc). destruct (Z.eqb_spec c 0); [done|]. krun.
    rewrite (w32_small (a + 1)) by (unfold span, VERTUAL_MEM in *; lia). wsmall.
    rewrite IH; [f_equal; lia|unfold span, VERTUAL_MEM in *; lia|done|lia..].
Qed.

(** What [strcmp] computes: at the first difference it compares the characters
    after it. *)
Fixpoint strcmp_val (l r : list Z) : Z :=
  match l, r with
  | c :: l', d :: r' =>
      if c =? d then strcmp_val l' r' else s8 (hd 0 l') - s8 (hd 0 r')
  | _, _ => s8 (hd 0 l) - s8 (hd 0 r)
  end.

Lemma cstr_hd m a l : cstr m a l -> rd8 m a = hd 0 l.
Proof. destruct l; simpl; tauto. Qed.

Lemma strcmp_loop_spec l : forall r a b fuel s,
  span a (Z.of_nat (length l) + 1) -> span b (Z.of_nat (length r) + 1) ->
  cstr (k_mem s) a l -> cstr (k_mem s) b r -> (length l < fuel)%nat ->
  strcmp_loop fuel a b s = Ok (strcmp_val l r) s.
Proof.
  induction l as [|c l IH]; intros r a b fuel s Ha Hb Hl Hr Hf;
    destruct fuel as [|fuel]; simpl in Hf; try lia; cbn [strcmp_loop]; krun;
    rewrite (cstr_hd _ _ _ Hl), (cstr_hd _ _ _ Hr); [done|].
  destruct r as [|d r]; simpl hd; [by rewrite andb_false_r|].
  destruct Hl as (_ & Hc & Hl), Hr as (_ & Hd & Hr). cbn [length] in Ha, Hb.
  assert (span (a + 1) (Z.of_nat (length l) + 1)) by (unfold span, VERTUAL_MEM in *; lia).
  assert (span (b + 1) (Z.of_nat (length r) + 1)) by (unfold span, VERTUAL_MEM in *; lia).
  assert (Ea : w32 (a + 1) = a + 1) by (apply w32_small; unfold span, VERTUAL_MEM in *; lia).
  assert (Eb : w32 (b + 1) = b + 1) by (apply w32_small; unfold span, VERTUAL_MEM in *; lia).
  destruct (Z.eqb_spec c 0), (Z.eqb_spec d 0); try done. cbn [hd].
  rewrite Ea, Eb, (proj2 (Z.eqb_neq c 0)), (proj2 (Z.eqb_neq d 0)) by done.
  cbn [negb andb strcmp_val]. destruct (Z.eqb_spec c d).
  - apply IH; (done || lia).
  - krun. rewrite (cstr_hd _ _ _ Hl), (cstr_hd _ _ _ Hr). done.
Qed.

Theorem strlen_spec s a l fuel :
  holds (k_mem s) a l -> (length l < fuel)%nat ->
  strlen fuel a s = Ok (Z.of_nat (length l)) s.
Proof.
  intros (Ha & Hs & Hc) Hf. unfold strlen, NULL. destruct (Z.eqb_spec a 0); [lia|].
  apply (strlen_loop_spec l a 0); try done. unfold span, VERTUAL_MEM in *. lia.
Qed.

Lemma strcmp_run s a b l r fuel :
  holds (k_mem s) a l -> holds (k_mem s) b r -> (length l < fuel)%nat ->
  strcmp fuel a b s = Ok (strcmp_val l r) s.
Proof.
  intros (Ha & Hsa & Hca) (Hb & Hsb & Hcb) Hf. unfold strcmp, NULL.
  destruct (Z.eqb_spec a 0), (Z.eqb_spec b 0); try lia. by apply strcmp_loop_spec.
Qed.

Lemma strcmp_val_refl l : strcmp_val l l = 0.
Proof. induction l as [|c l IH]; simpl; [done|]. by rewrite Z.eqb_refl. Qed.

(** [strcpy] writes the bytes of the string and its terminator. *)
Fixpoint cwrite (m : memory) (a : Z) (l : list Z) : memory :=
  match l with
  | [] => wr8 m a 0
  | c :: l => cwrite (wr8 m a c) (a + 1) l
  end.

Lemma cwrite_byte l : forall m a p, span a (Z.of_nat (length l) + 1) ->
  (p < ka a \/ ka a + Z.of_nat (length l) + 1 <= p) -> pbyte (cwrite m a l) p = pbyte m p.
Proof.
  induction l as [|c l IH]; intros m a p Hs Hp; cbn [cwrite length] in *.
  - rewrite pbyte_wr8. dec_lia. done.
  - assert (ka (a + 1) = ka a + 1) by (apply (ka_span _ _ _ Hs); lia).
    rewrite IH, pbyte_wr8 by (unfold span, VERTUAL_MEM in *; lia). dec_lia. done.
Qed.

Lemma cwrite_cstr l : forall m a, span a (Z.of_nat (length l) + 1) ->
  Forall (fun c => 0 < c < 2 ^ 8) l -> cstr (cwrite m a l) a l.
Proof.
  induction l as [|c l IH]; intros m a Hs Hl; cbn [cwrite length cstr] in *.
  - rewrite rd8_wr8_eq. done.
  - apply Forall_cons in Hl as [Hc Hl].
    assert (Ea : ka (a + 1) = ka a + 1) by (apply (ka_span _ _ _ Hs); lia).
    split; [|split; [lia|apply IH; [unfold span, VERTUAL_MEM in *; lia|done]]].
    rewrite rd8_pbyte, cwrite_byte by (unfold span, VERTUAL_MEM in *; lia).
    rewrite <- rd8_pbyte, rd8_wr8_eq. apply Z.mod_small. lia.
Qed.

Lemma cstr_ext m m' l : forall a, span a (Z.of_nat (length l) + 1) ->
  (forall p, ka a <= p < ka a + Z.of_nat (length l) + 1 -> pbyte m' p = pbyte m p) ->
  cstr m a l -> cstr m' a l.
Proof.
  induction l as [|c l IH]; intros a Hs Hp; cbn [length cstr] in *; rewrite !rd8_pbyte, Hp by lia; [done|].
  assert (Ea : ka (a + 1) = ka a + 1) by (apply (ka_span _ _ _ Hs); lia).
  intros (? & ? & ?). split; [done|split; [done|]].
  apply IH; [unfold span, VERTUAL_MEM in *; lia| |done]. intros p ?. apply Hp. lia.
Qed.

Lemma strcpy_loop_spec l : forall d a fuel s,
  span d (Z.of_nat (length l) + 1) -> span a (Z.of_nat (length l) + 1) ->
  apart d (Z.of_nat (length l) + 1) a (Z.of_nat (length l) + 1) ->
  cstr (k_mem s) a l -> (length l < fuel)%nat ->
  strcpy_loop fuel d a s = Ok tt (set_mem (cwrite (k_mem s) d l) s).
Proof.
  induction l as [|c l IH]; intros d a fuel s Hd Ha Hap Hl Hf;
    destruct fuel as [|fuel]; cbn [length] in *; try lia; cbn [strcpy_loop cwrite cstr] in *; krun.
  - rewrite Hl. simpl. krun. done.
  - destruct Hl as (-> & Hc & Hl). destruct (Z.eqb_spec c 0); [done|]. krun.
    assert (Ed : ka (d + 1) = ka d + 1) by (apply (ka_span _ _ _ Hd); lia).
    assert (Ea : ka (a + 1) = ka a + 1) by (apply (ka_span _ _ _ Ha); lia).
    assert (w32 (d + 1) = d + 1 /\ w32 (a + 1) = a + 1) as [-> ->].
    { split; apply w32_small; unfold span, VERTUAL_MEM in *; lia. }
    unfold apart in *. assert (span (a + 1) (Z.of_nat (length l) + 1)) by (unfold span, VERTUAL_MEM in *; lia).
    rewrite IH; [done|unfold span, VERTUAL_MEM in *; lia|done|lia| |lia].
    cbn. apply (cstr_ext (k_mem s)); [done| |done]. intros p Hp. rewrite pbyte_wr8. dec_lia. done.
Qed.

(** [strcpy] makes a copy at the destination, keeps the source, and touches
    only the destination's bytes. *)
Theorem strcpy_spec s d a l fuel :
  holds (k_mem s) a l -> 0 < d -> span d (Z.of_nat (length l) + 1) ->
  apart d (Z.of_nat (length l) + 1) a (Z.of_nat (length l) + 1) -> (length l < fuel)%nat ->
  exists m', strcpy fuel d a s = Ok d (set_mem m' s) /\ holds m' d l /\ holds m' a l /\
    (forall x, apart d (Z.of_nat (length l) + 1) x 4 -> rd32 m' x = rd32 (k_mem s) x).
Proof.
  intros (H0 & Hs & Hc) Hd0 Hd Hap Hf. unfold strcpy, NULL.
  destruct (Z.eqb_spec d 0), (Z.eqb_spec a 0); try lia. exists (cwrite (k_mem s) d l).
  assert (Hb : Forall (fun c => 0 < c < 2 ^ 8) l).
  { clear - Hc. revert Hc. generalize a. induction l as [|c l IH]; intros x Hx; constructor.
    - destruct Hx as (<- & Hne & _). pose proof (rd8_range (k_mem s) x). lia.
    - destruct Hx as (_ & _ & Hx). by apply (IH (x + 1)). }
  unfold apart in *. split; [|split; [|split]].
  - cbn [orb]. krun. by rewrite (strcpy_loop_spec l).
  - split; [done|split; [done|]]. by apply cwrite_cstr.
  - split; [done|split; [done|]]. apply (cstr_ext (k_mem s)); [done| |done].
    intros p Hp. apply cwrite_byte; [done|lia].
  - intros x Hx. apply rd32_ext. intros p Hp. apply cwrite_byte; [done|lia].
Qed.

(** [strcmp] does not tell "ab" from "bb". *)
Theorem strcmp_misses_difference s a b fuel :
  holds (k_mem s) a [97; 98] -> holds (k_mem s) b [98; 98] -> (2 < fuel)%nat ->
  strcmp fuel a b s = Ok 0 s.
Proof. intros Ha Hb Hf. by rewrite (strcmp_run s a b _ _ fuel Ha Hb). Qed.

(** Equal strings compare equal, and the result is the value of the specification. *)
Theorem strcmp_spec s a b l r fuel :
  holds (k_mem s) a l -> holds (k_mem s) b r -> (length l < fuel)%nat ->
  strcmp fuel a b s = Ok (strcmp_val l r) s /\ (l = r -> strcmp_val l r = 0).
Proof. intros Ha Hb Hf. split; [by apply strcmp_run|intros ->; apply strcmp_val_refl]. Qed.
