(* ===== verification/Sign.v ===== *)
(** The host tool sign.c, which turns the assembled boot code into a boot
    sector: 512 bytes that end in the signature the BIOS looks for. *)

From S2P Require Import Prelude.

Local Open Scope Z_scope.

(** * The files and the messages of one run

    A file is its bytes. Of the C library the tool uses [stat], [fopen],
    [fread] and [fwrite] on regular files that may be opened. *)
Inductive message :=
  | Usage
  | NoStat (name : string)
  | Size (name : string) (size : Z)
  | TooLong (size : Z)
  | ReadError (name : string) (size : Z)
  | WriteError (name : string) (size : Z)
  | Success (name : string).

Record host := mk_host { h_files : gmap string (list Z) ; h_out : list message }.

Definition say (m : message) (h : host) : host := mk_host (h_files h) (m :: h_out h).
Definition set_file (name : string) (bytes : list Z) (h : host) : host := mk_host (<[name := bytes]> (h_files h)) (h_out h).

(** [fread(buf, 1, n, f)]: the buffer and the number of bytes read. *)
Definition fread (buf : list Z) (n : Z) (bytes : list Z) : list Z * Z :=
  let got := take (Z.to_nat n) bytes in (got ++ drop (length got) buf, Z.of_nat (length got)).

(** [fopen(name, "wb+")] and [fwrite(buf, 1, n, f)]. *)
Definition fopen_wb (name : string) (h : host) : host := set_file name [] h.
Definition fwrite (name : string) (buf : list Z) (n : Z) (h : host) : Z * host :=
  let bytes := take (Z.to_nat n) buf in
  (Z.of_nat (length bytes), set_file name (default [] (h_files h !! name) ++ bytes) h).

(** The exit status and the files and messages after it; [argv] with the name
    of the tool first. *)
Definition main (argv : list string) (h : host) : Z * host :=
  match argv with
  | [_; name] =>
      match h_files h !! name with
      | None => (-1, say (NoStat name) h)
      | Some bytes =>
          let st_size := Z.of_nat (length bytes) in
          let h := say (Size name st_size) h in
          if 510 <? st_size then (-1, say (TooLong st_size) h)
          else
            let buf := replicate 512 0 in
            let '(buf, size) := fread buf st_size bytes in
            if negb (size =? st_size) then (-1, say (ReadError name size) h)
            else
              let buf := <[511%nat := 0xAA]> (<[510%nat := 0x55]> buf) in
              let h := fopen_wb name h in
              let '(size, h) := fwrite name buf 512 h in
              if negb (size =? 512) then (-1, say (WriteError name size) h)
              else (0, say (Success name) h)
      end
  | _ => (-1, say Usage h)
  end.

(** * The sector *)

(** [bytes], zeros up to byte 510, and the signature. *)
Definition boot_sector (bytes : list Z) : list Z := bytes ++ replicate (510 - length bytes) 0 ++ [0x55; 0xAA].

Lemma length_boot_sector bytes : (length bytes <= 510)%nat -> length (boot_sector bytes) = 512%nat.
Proof. intros. unfold boot_sector. rewrite !length_app, length_replicate. cbn [length]. lia. Qed.

Lemma sector_buffer bytes : (length bytes <= 510)%nat ->
  <[511%nat := 0xAA]> (<[510%nat := 0x55]> (bytes ++ drop (length bytes) (replicate 512 0))) = boot_sector bytes.
Proof.
  intros Hl. unfold boot_sector. rewrite drop_replicate.
  replace (512 - length bytes)%nat with ((510 - length bytes) + 2)%nat by lia. rewrite replicate_add, app_assoc.
  set (l := bytes ++ replicate (510 - length bytes) 0).
  assert (El : length l = 510%nat) by (unfold l; rewrite length_app, length_replicate; lia).
  rewrite (insert_app_r_alt l _ 510), (insert_app_r_alt l _ 511), El by lia. unfold l. by rewrite <- app_assoc.
Qed.

(** ** A run on one file *)
Section Run.
Context (tool name : string) (h : host) (bytes : list Z).
Hypothesis Hfile : h_files h !! name = Some bytes.

Let sized : host := say (Size name (Z.of_nat (length bytes))) h.

(** A file of at most 510 bytes becomes the boot sector of those bytes, exactly 512
    bytes long, in place; no other file changes. *)
Theorem sign_makes_boot_sector : (length bytes <= 510)%nat ->
  exists h', main [tool; name] h = (0, h') /\ h_files h' !! name = Some (boot_sector bytes) /\
    length (boot_sector bytes) = 512%nat /\ (forall other, other <> name -> h_files h' !! other = h_files h !! other) /\
    h_out h' = Success name :: h_out sized.
Proof.
  intros Hl. unfold main. rewrite Hfile. destruct (Z.ltb_spec 510 (Z.of_nat (length bytes))); [lia|].
  unfold fread. rewrite Nat2Z.id, firstn_all, Z.eqb_refl. cbn [negb]. rewrite sector_buffer by done.
  unfold fopen_wb, fwrite. rewrite firstn_all2 by (rewrite length_boot_sector by done; lia).
  rewrite length_boot_sector by done. cbn [negb Z.of_nat]. eexists. split; [reflexivity|].
  cbn [h_files h_out say set_file]. rewrite lookup_insert_eq. cbn [default from_option id app].
  rewrite lookup_insert_eq. split_and!; try done.
  intros other Hne. by rewrite !lookup_insert_ne.
Qed.

(** A longer file is refused and left as it is; in particular a sector that has
    been signed is not signed again. *)
Theorem sign_refuses_long : (510 < length bytes)%nat ->
  main [tool; name] h = (-1, say (TooLong (Z.of_nat (length bytes))) sized) /\
  h_files (main [tool; name] h).2 = h_files h.
Proof.
  intros Hl. unfold main. rewrite Hfile. by destruct (Z.ltb_spec 510 (Z.of_nat (length bytes))); [|lia].
Qed.

End Run.

(** A missing file or a wrong number of arguments is an error, and no file is
    touched. *)
Lemma sign_errors argv h : length argv <> 2%nat \/ (exists tool name, argv = [tool; name] /\ h_files h !! name = None) ->
  (main argv h).1 = -1 /\ h_files (main argv h).2 = h_files h.
Proof.
  intros [Hl|(tool & name & -> & Hn)]; unfold main; [|by rewrite Hn].
  destruct argv as [|? [|? [|? ?]]]; done.
Qed.
