(* ===== verification/Pmm.v ===== *)
(** The physical page allocator of mm/pmm.c: the pool of [struct Page]s, the
    conversions between a page structure and the addresses of its page, and the
    refinement of [alloc_page] and [free_page] to operations on a list of blocks. *)

From stdpp Require Import sorting.
From S2P Require Import Prelude Machine DList.

Local Open Scope Z_scope.

(** * Constants and structures of include/pmm.h *)

Definition PAGE_SIZE : Z := 4096.
Definition PAGE_DIR_NUM : Z := 128.
Definition MAX_PAGE_NUM : Z := 30000.

Definition ROUNDUP (addr : Z) : Z := (addr - addr mod PAGE_SIZE + PAGE_SIZE)%w.
Definition ROUNDDOWN (addr : Z) : Z := (addr - addr mod PAGE_SIZE)%w.

(** [struct Page]: [ref], [flags], [free_pages], [va] and the list node. *)
Definition sizeof_Page : Z := 24.
Definition pg_ref (p : Z) : Z := p.
Definition pg_flags (p : Z) : Z := p + 4.
Definition pg_free_pages (p : Z) : Z := p + 8.
Definition pg_va (p : Z) : Z := p + 12.
Definition pg_node (p : Z) : Z := p + 16.

(** [GET_OUTER_STRUCT_PTR(node, struct Page, node)] *)
Definition page_of_node (node : Z) : Z := w32 (node - 16).

(** Pointer arithmetic on [struct Page *]. The difference of two such pointers
    is an exact division by 24, which the compiler does with an arithmetic shift
    by 3 and the inverse of 3 modulo 2^32. *)
Definition page_add (p i : Z) : Z := w32 (p + i * sizeof_Page).
Definition page_diff (a b : Z) : Z := w32 (s32 (a - b) / 8 * 0xAAAAAAAB).

(** * Addresses of a page *)

Definition pg_to_addr_la (page : Z) : K Z :=
  pages ← get k_pages; pt_begin ← get k_pt_begin;
  mret (w32 (page_diff page pages * PAGE_SIZE + pt_begin + VERTUAL_MEM)).

Definition pg_to_addr_pa (page : Z) : K Z :=
  pages ← get k_pages; pt_begin ← get k_pt_begin;
  mret (w32 (page_diff page pages * PAGE_SIZE + pt_begin)).

Definition la_addr_to_pg (addr : Z) : K Z :=
  pages ← get k_pages; pt_begin ← get k_pt_begin;
  mret (page_add pages (w32 (addr - VERTUAL_MEM - pt_begin) / PAGE_SIZE)).

Definition pa_addr_to_pg (addr : Z) : K Z :=
  pages ← get k_pages; pt_begin ← get k_pt_begin;
  mret (page_add pages (w32 (addr - pt_begin) / PAGE_SIZE)).

Section Allocator.
Context `{Symbols}.

(** swap.c's [swap_out], which calls back into this file. *)
Variable swap_out : Z -> Z -> K unit.

(** * [alloc_page] *)

(** The [for] loop that unlinks [i] nodes from [del] on. *)
Fixpoint alloc_unlink (i : nat) (del del_next : Z) : K Z :=
  match i with
  | O => mret del
  | S i =>
      on_mem (list_delete del);;
      let del := del_next in
      del_next ← load (node_next del_next);
      alloc_unlink i del del_next
  end.

(** The end of a successful allocation: one page out for one page in once the
    virtual memory manager runs, then the page's high-window address. *)
Definition alloc_finish (n page : Z) : K Z :=
  inited ← get k_is_vmm_inited;
  mm ← get k_mm;
  when ((inited =? 1) && (n =? 1)) (swap_out mm 1);;
  la ← pg_to_addr_la (w32 (page + VERTUAL_MEM));
  printf "alloc %d page: %x\n" [n; la];;
  mret (w32 (page + VERTUAL_MEM)).

Definition alloc_take (n page : Z) : K Z :=
  page_free_pages ← load (pg_free_pages page);
  let remain_blocks := w32 (page_free_pages - n) in
  let del := pg_node page in
  del_next ← load (node_next del);
  del ← alloc_unlink (Z.to_nat n) del del_next;
  store (pg_free_pages (page_of_node del)) remain_blocks;;
  store (pg_flags (page_of_node del)) 1;;
  free ← get k_free_page_num;
  upd (set_free_page_num (s32 (free - n)));;
  alloc_finish n page.

Fixpoint alloc_scan (fuel : nat) (n ptr : Z) : K Z :=
  match fuel with
  | O => nofuel
  | S fuel =>
      ptr_next ← load (node_next ptr);
      if ptr_next =? free_pages_head then mret NULL
      else
        first ← load (node_next free_pages_head);
        let page := page_of_node first in
        page_free_pages ← load (pg_free_pages page);
        if w32 n <=? page_free_pages then alloc_take n page
        else ptr ← load (node_next ptr); alloc_scan fuel n ptr
  end.

Definition alloc_page (fuel : nat) (n : Z) : K Z :=
  free ← get k_free_page_num;
  if free <? n then mret NULL else alloc_scan fuel n free_pages_head.

(** * [free_page] *)

(** The search for the first page above [page]; the last page if there is none. *)
Fixpoint free_scan (fuel : nat) (page ptr target : Z) : K Z :=
  match fuel with
  | O => nofuel
  | S fuel =>
      ptr_next ← load (node_next ptr);
      if ptr_next =? free_pages_head then mret target
      else
        let target := page_of_node ptr_next in
        if page <? target then mret target
        else ptr ← load (node_next ptr); free_scan fuel page ptr target
  end.

(** The [for] loop, from page [i] on, [n] pages left. *)
Fixpoint free_insert (n : nat) (page target i : Z) : K unit :=
  match n with
  | O => mret tt
  | S n =>
      on_mem (list_insert_before (pg_node target) (pg_node (page_add page i)));;
      free_insert n page target (i + 1)
  end.

Definition merge_down (page n target : Z) : K unit :=
  when (page_add page n =? target)
    (a ← load (pg_free_pages page); b ← load (pg_free_pages target);
     store (pg_free_pages page) (a + b)%w;;
     store (pg_free_pages target) 0).

Definition merge_up (page : Z) : K unit :=
  ptr ← load (node_prev (pg_node page));
  let target := page_of_node ptr in
  t ← load (pg_free_pages target);
  when (page_add target t =? page)
    (a ← load (pg_free_pages target); b ← load (pg_free_pages page);
     store (pg_free_pages target) (a + b)%w;;
     store (pg_free_pages page) 0).

Definition free_page (fuel : nat) (page n : Z) : K unit :=
  target ← free_scan fuel page free_pages_head 0;
  if target =? NULL then mret tt
  else
    free_insert (Z.to_nat n) page target 0;;
    store (pg_flags page) 0;;
    store (pg_free_pages page) n;;
    free ← get k_free_page_num;
    upd (set_free_page_num (s32 (free + n)));;
    merge_down page n target;;
    merge_up page.

End Allocator.

(** * The address conversions *)

Lemma page_diff_low base i : 0 <= i -> 24 * i < 2 ^ 31 -> page_diff (base + 24 * i) base = i.
Proof.
  intros. unfold page_diff. replace (base + 24 * i - base) with (24 * i) by lia.
  rewrite s32_small by lia. replace (24 * i / 8) with (3 * i) by lia_div.
  rewrite (w32_congr _ i (2 * i)) by lia. apply w32_small. lia.
Qed.

(** Seen through the high window the division is not exact, and its result is
    off by a multiple of 2^20: whole pages times 2^32. *)
Lemma page_diff_high base i :
  0 <= i -> 24 * i < 2 ^ 30 ->
  w32 (page_diff (w32 (base + 24 * i + VERTUAL_MEM)) base * PAGE_SIZE) = w32 (i * PAGE_SIZE).
Proof.
  intros. unfold page_diff, s32, VERTUAL_MEM, PAGE_SIZE.
  rewrite w32_sub_l. replace (base + 24 * i + 0xC0000000 - base) with (24 * i + 0xC0000000) by lia.
  wsmall. destruct (Z.ltb_spec (24 * i + 0xC0000000) (2 ^ 31)); [lia|].
  replace ((24 * i + 0xC0000000 - 2 ^ 32) / 8) with (3 * i - 2 ^ 27) by lia_div.
  rewrite w32_mul_l. apply (w32_congr _ _ (2 * i * 4096 - 2 ^ 7 * 0xAAAAAAAB)). lia.
Qed.

Lemma page_diff_high_add base i c :
  0 <= i -> 24 * i < 2 ^ 30 ->
  w32 (page_diff (w32 (base + 24 * i + VERTUAL_MEM)) base * PAGE_SIZE + c) = w32 (i * PAGE_SIZE + c).
Proof. intros. rewrite <- w32_add_l, page_diff_high, w32_add_l by lia. done. Qed.

Lemma pg_to_addr_la_low s i :
  0 <= i -> 24 * i < 2 ^ 30 ->
  pg_to_addr_la (k_pages s + 24 * i) s = Ok (w32 (i * PAGE_SIZE + k_pt_begin s + VERTUAL_MEM)) s.
Proof. intros. unfold pg_to_addr_la. krun. rewrite page_diff_low by lia. done. Qed.

Lemma pg_to_addr_la_high s i :
  0 <= i -> 24 * i < 2 ^ 30 ->
  pg_to_addr_la (w32 (k_pages s + 24 * i + VERTUAL_MEM)) s =
  Ok (w32 (i * PAGE_SIZE + k_pt_begin s + VERTUAL_MEM)) s.
Proof.
  intros. unfold pg_to_addr_la. krun. f_equal.
  rewrite <- (Z.add_assoc (_ * _)), page_diff_high_add, Z.add_assoc by lia. done.
Qed.

Lemma pg_to_addr_pa_high s i :
  0 <= i -> 24 * i < 2 ^ 30 ->
  pg_to_addr_pa (w32 (k_pages s + 24 * i + VERTUAL_MEM)) s = Ok (w32 (i * PAGE_SIZE + k_pt_begin s)) s.
Proof.
  intros. unfold pg_to_addr_pa. krun. f_equal.
  by apply page_diff_high_add.
Qed.

(** The same with the array's address given apart from the state. *)
Lemma pg_to_addr_la_at s pages i :
  k_pages s = pages -> 0 <= i -> 24 * i < 2 ^ 30 ->
  pg_to_addr_la (w32 (pages + 24 * i + VERTUAL_MEM)) s =
  Ok (w32 (i * PAGE_SIZE + k_pt_begin s + VERTUAL_MEM)) s.
Proof. intros <-. apply pg_to_addr_la_high. Qed.

Lemma pg_to_addr_pa_at s pages i :
  k_pages s = pages -> 0 <= i -> 24 * i < 2 ^ 30 ->
  pg_to_addr_pa (w32 (pages + 24 * i + VERTUAL_MEM)) s = Ok (w32 (i * PAGE_SIZE + k_pt_begin s)) s.
Proof. intros <-. apply pg_to_addr_pa_high. Qed.

Lemma la_addr_to_pg_page s i off :
  0 <= k_pages s -> k_pages s + 24 * i < 2 ^ 30 -> 0 <= i < 2 ^ 20 -> 0 <= off < PAGE_SIZE ->
  la_addr_to_pg (w32 (i * PAGE_SIZE + k_pt_begin s + VERTUAL_MEM + off)) s = Ok (k_pages s + 24 * i) s.
Proof.
  unfold la_addr_to_pg, PAGE_SIZE, page_add, sizeof_Page. intros. krun. f_equal.
  rewrite <- Z.sub_add_distr, w32_sub_l.
  replace (i * 4096 + k_pt_begin s + VERTUAL_MEM + off - (VERTUAL_MEM + k_pt_begin s))
    with (off + i * 4096) by lia.
  wsmall. rewrite Z.div_add, Z.div_small by lia. wsmall. lia.
Qed.

Lemma pa_addr_to_pg_page s i off :
  0 <= k_pages s -> k_pages s + 24 * i < 2 ^ 30 -> 0 <= i < 2 ^ 20 -> 0 <= off < PAGE_SIZE ->
  pa_addr_to_pg (w32 (i * PAGE_SIZE + k_pt_begin s + off)) s = Ok (k_pages s + 24 * i) s.
Proof.
  unfold pa_addr_to_pg, PAGE_SIZE, page_add, sizeof_Page. intros. krun. f_equal.
  rewrite w32_sub_l.
  replace (i * 4096 + k_pt_begin s + off - k_pt_begin s) with (off + i * 4096) by lia.
  wsmall. rewrite Z.div_add, Z.div_small by lia. wsmall. lia.
Qed.

(** * The pool as a list of blocks

    A block is a run of [k] consecutive free pages from [p]; its first page
    carries the count, the others carry zero. *)
Abbreviation block := (Z * nat)%type (only parsing).

Fixpoint pages_from (p : Z) (k : nat) : list Z :=
  match k with O => [] | S k => p :: pages_from (p + sizeof_Page) k end.

Fixpoint pool_pages (bs : list block) : list Z :=
  match bs with [] => [] | (p, k) :: bs => pages_from p k ++ pool_pages bs end.

Definition pool_size (bs : list block) : Z := Z.of_nat (length (pool_pages bs)).

Definition block_count (m : memory) (b : block) : Prop :=
  (0 < b.2)%nat /\ rd32 m (pg_free_pages b.1) = Z.of_nat b.2 /\
  forall q, q ∈ pages_from (b.1 + sizeof_Page) (b.2 - 1) -> rd32 m (pg_free_pages q) = 0.

(** A page structure of the array at [base], seen through the low window. *)
Definition is_page (base q : Z) : Prop :=
  base <= q /\ q + sizeof_Page <= 2 ^ 30 /\ (q - base) mod sizeof_Page = 0.

(** Words of the page structures and of the list head. *)
Ltac wds := unfold wd, is_page, VERTUAL_MEM, sizeof_Page, pg_node, pg_free_pages, pg_flags in *;
  ka_simpl; unfold VERTUAL_MEM; lia_div.

Section Pool.
Context `{Symbols}.

(** The kernel's globals lie below the page structures. *)
Record geom (base : Z) : Prop := {
  gm_base : 0 <= base <= 2 ^ 30;
  gm_head : VERTUAL_MEM + 16 <= free_pages_head;
  gm_below : free_pages_head + 8 - VERTUAL_MEM <= base
}.

Record pool (base : Z) (m : memory) (bs : list block) : Prop := {
  pl_pages : forall q, q ∈ pool_pages bs -> is_page base q;
  pl_sorted : StronglySorted Z.lt (pool_pages bs);
  pl_dlist : dlist m free_pages_head (pg_node <$> pool_pages bs);
  pl_count : Forall (block_count m) bs
}.

Lemma pages_from_app p a b :
  pages_from p (a + b) = pages_from p a ++ pages_from (p + sizeof_Page * Z.of_nat a) b.
Proof.
  revert p. induction a as [|a IH]; intros p; simpl.
  - rewrite Z.mul_0_r, Z.add_0_r. done.
  - rewrite IH. do 2 f_equal. rewrite Nat2Z.inj_succ. f_equal. ring.
Qed.

Lemma pages_from_split p a k :
  (a <= k)%nat -> pages_from p k = pages_from p a ++ pages_from (p + sizeof_Page * Z.of_nat a) (k - a).
Proof. intros. rewrite <- pages_from_app. f_equal. lia. Qed.

Lemma length_pages_from p k : length (pages_from p k) = k.
Proof. revert p. induction k; simpl; auto. Qed.

Lemma elem_of_pages_from p k q :
  q ∈ pages_from p k <-> exists i, 0 <= i < Z.of_nat k /\ q = p + sizeof_Page * i.
Proof.
  revert p. induction k as [|k IH]; intros p; simpl.
  - rewrite elem_of_nil. split; [done|]. intros (i & ? & ?). lia.
  - rewrite elem_of_cons, IH. unfold sizeof_Page. split.
    + intros [->|(i & ? & ->)]; [exists 0; lia|exists (i + 1); lia].
    + intros (i & ? & ->). destruct (decide (i = 0)); [left; lia|].
      right. exists (i - 1). lia.
Qed.

Lemma pages_nodes_sep base ps :
  geom base -> (forall q, q ∈ ps -> is_page base q) -> NoDup ps ->
  nodes_sep (free_pages_head :: (pg_node <$> ps)).
Proof.
  intros [] Hps Hnd.
  assert (Hin : forall x, x ∈ free_pages_head :: (pg_node <$> ps) ->
    x = free_pages_head \/ exists q, x = q + 16 /\ is_page base q).
  { intros x [->|(q & -> & Hq)%list_elem_of_fmap]%elem_of_cons; [by left|right; eauto]. }
  constructor.
  - apply NoDup_cons. split.
    + intros (q & Hq & ?%Hps)%list_elem_of_fmap. wds.
    + apply (NoDup_fmap_2_strong pg_node); [|done]. unfold pg_node. intros. lia.
  - intros x [->|(q & -> & ?)]%Hin; wds.
  - intros x y [->|(q & -> & ?)]%Hin [->|(r & -> & ?)]%Hin; wds.
  - intros x y [->|(q & -> & ?)]%Hin [->|(r & -> & ?)]%Hin Hne; try done; wds.
  - intros x y [->|(q & -> & ?)]%Hin [->|(r & -> & ?)]%Hin Hne; try done; wds.
Qed.

(** The four data words of a page structure are off every node of the pool. *)
Lemma page_words_off base ps q c :
  geom base -> (forall q, q ∈ ps -> is_page base q) -> is_page base q ->
  0 <= c <= 12 -> off_nodes (free_pages_head :: (pg_node <$> ps)) (q + c).
Proof.
  intros [] Hps Hq Hc x [->|(r & -> & ?%Hps)%list_elem_of_fmap]%elem_of_cons; split; wds.
Qed.

Lemma off_nodes_sub l l' a : (forall x, x ∈ l' -> x ∈ l) -> off_nodes l a -> off_nodes l' a.
Proof. intros Hsub Hoff x Hx. by apply Hoff, Hsub. Qed.

Lemma set_mem_id s : set_mem (k_mem s) s = s.
Proof. by destruct s. Qed.

(** ** Unlinking the first pages *)
Lemma alloc_unlink_spec h xs : forall s ys del,
  dlist (k_mem s) h (xs ++ ys) -> del = after h (xs ++ ys) ->
  exists m', alloc_unlink (length xs) del (rd32 (k_mem s) (del + 4)) s =
      Ok (after h ys) (set_mem m' s) /\
    dlist m' h ys /\ forall a, off_nodes (h :: xs ++ ys) a -> rd32 m' a = rd32 (k_mem s) a.
Proof.
  induction xs as [|x xs IH]; intros s ys del Hd ->; simpl.
  - exists (k_mem s). rewrite set_mem_id. done.
  - change ((x :: xs) ++ ys) with (x :: (xs ++ ys)) in *. change (after h (x :: xs ++ ys)) with x.
    pose proof (list_delete_spec _ _ [] _ _ Hd) as [Hd' Hf].
    pose proof (dlist_next _ _ [] _ _ Hd) as Hn. cbn [app] in Hd', Hf.
    krun. unfold node_next. rewrite Hn.
    destruct (IH (set_mem (list_delete x (k_mem s)) s) ys (after h (xs ++ ys))) as (m' & He & Hd2 & Hf2);
      [done|done|].
    exists m'. split; [exact He|split; [done|]]. intros a Ha.
    rewrite Hf2 by (eapply off_nodes_sub; [|exact Ha]; intros y; elt).
    apply Hf. eapply off_nodes_sub; [|exact Ha]. intros y. elt.
Qed.

Lemma sorted_NoDup l : StronglySorted Z.lt l -> NoDup l.
Proof.
  induction 1 as [|x l _ IH Hx]; constructor; [|done].
  intros Hin. rewrite Forall_forall in Hx. apply Hx in Hin. lia.
Qed.

Lemma pool_split_head base m p k rest n :
  pool base m ((p, k) :: rest) -> (n < k)%nat ->
  pool_pages ((p, k) :: rest) =
    pages_from p n ++ pool_pages ((p + sizeof_Page * Z.of_nat n, (k - n)%nat) :: rest).
Proof. intros _ Hn. simpl. rewrite (pages_from_split p n k), <- app_assoc by lia. done. Qed.

Lemma after_pool p k rest :
  (0 < k)%nat -> after free_pages_head (pg_node <$> pool_pages ((p, k) :: rest)) = pg_node p.
Proof. intros. destruct k; [lia|]. done. Qed.

Lemma page_of_pg_node base q : 0 <= base -> is_page base q -> page_of_node (pg_node q) = q.
Proof. unfold page_of_node, pg_node, is_page, sizeof_Page. intros. wsmall. lia. Qed.

(** A word outside the metadata the allocator writes: the list head, the nodes
    and the [flags] and [free_pages] fields of the pool's pages. *)
Definition off_pool (ps : list Z) (a : Z) : Prop :=
  off_nodes (free_pages_head :: (pg_node <$> ps)) a /\
  forall q, q ∈ ps -> wd (pg_flags q) a /\ wd (pg_free_pages q) a.

Lemma off_pool_sub ps ps' a : (forall q, q ∈ ps' -> q ∈ ps) -> off_pool ps a -> off_pool ps' a.
Proof.
  intros Hs [H1 H2]. split; [|by intros q Hq; apply H2, Hs]. eapply off_nodes_sub; [|exact H1].
  intros x [->|(q & -> & Hq)%list_elem_of_fmap]%elem_of_cons; [left|right; apply list_elem_of_fmap; eauto].
Qed.

(** The count words after the allocator stored [v] in the block head [p']. *)
Lemma count_frame base p' m v q :
  geom base -> is_page base p' -> is_page base q ->
  0 <= v < 2 ^ 32 ->
  rd32 (wr32 (wr32 m (pg_free_pages p') v) (pg_flags p') 1) (pg_free_pages q) =
  if decide (q = p') then v else rd32 m (pg_free_pages q).
Proof.
  intros [] Hp Hq Hv. rewrite rd32_wr32_ne by wds.
  destruct (decide (q = p')) as [->|Hne]; [by apply rd32_wr32_small|].
  apply rd32_wr32_ne. wds.
Qed.

Lemma elem_of_pool_pages b bs q : b ∈ bs -> q ∈ pages_from b.1 b.2 -> q ∈ pool_pages bs.
Proof.
  induction bs as [|[p k] bs IH]; [by intros ?%elem_of_nil|].
  intros [->|Hb]%elem_of_cons Hq; cbn [pool_pages]; rewrite elem_of_app; auto.
Qed.

Lemma block_count_frame m m' b :
  (forall q, q ∈ pages_from b.1 b.2 -> rd32 m' (pg_free_pages q) = rd32 m (pg_free_pages q)) ->
  block_count m b -> block_count m' b.
Proof.
  destruct b as [p k]. unfold block_count. cbn [fst snd]. intros Hf (Hk & Hp & Hin).
  destruct k as [|k]; [lia|]. simpl in *. rewrite Nat.sub_0_r in *.
  split; [done|]. split; [rewrite Hf by elt; done|].
  intros q Hq. rewrite Hf by (revert Hq; elt). auto.
Qed.

Lemma block_counts_frame m m' bs :
  (forall q, q ∈ pool_pages bs -> rd32 m' (pg_free_pages q) = rd32 m (pg_free_pages q)) ->
  Forall (block_count m) bs -> Forall (block_count m') bs.
Proof.
  intros Hf Hc. apply Forall_forall. intros b Hb. rewrite Forall_forall in Hc.
  apply (block_count_frame m); [|auto]. intros q Hq. apply Hf. by eapply elem_of_pool_pages.
Qed.

Lemma block_len_bound base p k :
  0 <= base -> (forall q, q ∈ pages_from p k -> is_page base q) -> Z.of_nat k < 2 ^ 30.
Proof.
  intros Hb Hp. destruct k as [|k]; [done|].
  assert (H0 : is_page base p) by (apply Hp; simpl; elt).
  assert (H1 : is_page base (p + sizeof_Page * Z.of_nat k)).
  { apply Hp, elem_of_pages_from. exists (Z.of_nat k). lia. }
  unfold is_page, sizeof_Page in *. lia.
Qed.

(** ** [alloc_page] takes the front of the first block *)

(** The pool metadata after the loop and the two stores of [alloc_take]. *)
Lemma alloc_metadata base m m1 p k rest n :
  let p' := p + sizeof_Page * Z.of_nat n in
  let bs' := (p', (k - n)%nat) :: rest in
  let m' := wr32 (wr32 m1 (pg_free_pages p') (Z.of_nat (k - n))) (pg_flags p') 1 in
  geom base -> pool base m ((p, k) :: rest) -> (n < k)%nat ->
  dlist m1 free_pages_head (pg_node <$> pool_pages bs') ->
  (forall a, off_nodes (free_pages_head :: (pg_node <$> pool_pages ((p, k) :: rest))) a ->
    rd32 m1 a = rd32 m a) ->
  pool base m' bs' /\
  (forall q, q ∈ pool_pages ((p, k) :: rest) -> q <> p' ->
    rd32 m' (pg_free_pages q) = rd32 m (pg_free_pages q)) /\
  forall a, off_pool (pool_pages ((p, k) :: rest)) a -> rd32 m' a = rd32 m a.
Proof.
  intros p' bs' m' Hg [Hps Hso Hdl Hc] Hn Hd Hf.
  pose proof (pool_split_head base m p k rest n ltac:(by constructor) Hn) as Hsplit.
  fold p' bs' in Hsplit.
  assert (Hps' : forall q, q ∈ pool_pages bs' -> is_page base q).
  { intros q Hq. apply Hps. rewrite Hsplit. revert Hq. elt. }
  assert (Hp' : p' ∈ pool_pages bs').
  { unfold bs'. simpl. destruct (k - n)%nat eqn:E; [lia|]. simpl. elt. }
  assert (Hoff : forall q c, is_page base q -> 0 <= c <= 12 ->
    off_nodes (free_pages_head :: (pg_node <$> pool_pages bs')) (q + c)).
  { intros. by eapply page_words_off. }
  assert (Hk : Z.of_nat k < 2 ^ 30).
  { apply (block_len_bound base p); [apply Hg|]. intros q Hq. apply Hps. simpl. revert Hq. elt. }
  assert (Hcnt0 : forall q, q ∈ pool_pages ((p, k) :: rest) -> rd32 m' (pg_free_pages q) =
    if decide (q = p') then Z.of_nat (k - n) else rd32 m (pg_free_pages q)).
  { intros q Hq. unfold m'. rewrite (count_frame base) by (eauto; lia).
    destruct (decide (q = p')); [done|]. apply Hf.
    apply page_words_off with base; eauto; lia. }
  assert (Hcnt : forall q, q ∈ pool_pages bs' -> rd32 m' (pg_free_pages q) =
    if decide (q = p') then Z.of_nat (k - n) else rd32 m (pg_free_pages q)).
  { intros q Hq. apply Hcnt0. rewrite Hsplit. revert Hq. elt. }
  rewrite Hsplit in Hso. apply StronglySorted_app_1_r in Hso.
  split.
  - constructor; [done..| |].
    + unfold m'. apply dlist_wr32; [apply Hoff; [eauto|lia]|].
      apply dlist_wr32; [apply Hoff; [eauto|lia]|]. done.
    + apply Forall_cons in Hc as [(_ & _ & Hin) Hc]. cbn [fst snd] in Hin.
      unfold bs' in *. simpl in Hso, Hcnt, Hp'.
      apply Forall_cons. split; [split; [simpl; lia|split; cbn [fst snd]]|].
      * rewrite Hcnt by done. by apply decide_True.
      * intros q Hq. assert (q ∈ pages_from p' (k - n) /\ q <> p') as [Hq' Hne].
        { apply elem_of_pages_from in Hq as (i & ? & ->). unfold sizeof_Page. split; [|lia].
          apply elem_of_pages_from. exists (i + 1). unfold sizeof_Page. lia. }
        rewrite Hcnt, decide_False by (done || elt). apply Hin.
        apply elem_of_pages_from in Hq as (i & ? & ->).
        apply elem_of_pages_from. exists (i + Z.of_nat n). unfold p', sizeof_Page. lia.
      * apply (block_counts_frame m); [|done]. intros q Hq.
        assert (q <> p').
        { assert (p' ∈ pages_from p' (k - n)).
          { apply elem_of_pages_from. exists 0. lia. }
          pose proof (StronglySorted_app_1_elem_of _ _ _ p' q Hso). intros ->.
          specialize (H1 H0 Hq). lia. }
        rewrite Hcnt, decide_False by (done || (revert Hq; elt)). done.
  - split; [intros q Hq Hne; rewrite Hcnt0 by done; by apply decide_False|].
    intros a [Ha Hfl]. destruct (Hfl p') as [? ?].
    { rewrite Hsplit. revert Hp'. elt. }
    unfold m'. rewrite !rd32_wr32_ne by done. by apply Hf.
Qed.

(** Only memory, the pool's count and the log differ. *)
Definition pool_step (s s' : kst) : Prop :=
  s' = set_log (k_log s') (set_free_page_num (k_free_page_num s') (set_mem (k_mem s') s)).

(** The allocator's state: the pool and the number of its pages. *)
Record pool_ok (s : kst) (bs : list block) : Prop := {
  po_geom : geom (k_pages s);
  po_pool : pool (k_pages s) (k_mem s) bs;
  po_num : k_free_page_num s = pool_size bs
}.

Lemma sorted_pages_bound l : forall base,
  base <= 2 ^ 30 -> StronglySorted Z.lt l -> (forall q, q ∈ l -> is_page base q) ->
  base + sizeof_Page * Z.of_nat (length l) <= 2 ^ 30.
Proof.
  induction l as [|x l IH]; intros base Hb Hs Hp; simpl; [lia|].
  apply StronglySorted_cons in Hs as [Hx Hs]. rewrite Forall_forall in Hx.
  assert (H0 : is_page base x) by (apply Hp; elt).
  assert (IHl : x + sizeof_Page + sizeof_Page * Z.of_nat (length l) <= 2 ^ 30).
  { apply IH; [unfold is_page in H0; lia|done|]. intros q Hq.
    assert (is_page base q) by (apply Hp; elt). pose proof (Hx _ Hq). wds. }
  unfold is_page, sizeof_Page in *. lia.
Qed.

Lemma pool_size_bound base m bs : geom base -> pool base m bs -> 0 <= pool_size bs < 2 ^ 30.
Proof.
  intros [] [Hp Hs _ _]. pose proof (sorted_pages_bound _ base ltac:(lia) Hs Hp).
  unfold pool_size, sizeof_Page in *. lia.
Qed.

Lemma pool_head_page base m p k rest : pool base m ((p, k) :: rest) -> is_page base p.
Proof.
  intros [Hp _ _ Hc]. apply Hp. apply Forall_cons in Hc as [(Hk & _) _].
  destruct k; simpl in *; [lia|elt].
Qed.

Lemma alloc_take_spec swap_out s p k rest n :
  pool_ok s ((p, k) :: rest) -> (0 < n < k)%nat ->
  exists m', let s1 := set_free_page_num (k_free_page_num s - Z.of_nat n) (set_mem m' s) in
    alloc_take swap_out (Z.of_nat n) p s = alloc_finish swap_out (Z.of_nat n) p s1 /\
    pool_ok s1 ((p + sizeof_Page * Z.of_nat n, (k - n)%nat) :: rest) /\
    (forall q, q ∈ pages_from (p + sizeof_Page) (n - 1) -> rd32 m' (pg_free_pages q) = 0) /\
    forall a, off_pool (pool_pages ((p, k) :: rest)) a -> rd32 m' a = rd32 (k_mem s) a.
Proof.
  intros [Hg Hp Hnum] Hn. set (bs := (p, k) :: rest) in *.
  pose proof (pool_split_head _ _ _ _ _ n Hp ltac:(lia)) as Hsplit. fold bs in Hsplit.
  pose proof (pool_size_bound _ _ _ Hg Hp) as Hsz.
  pose proof (pl_dlist _ _ _ Hp) as Hdl. rewrite Hsplit, fmap_app in Hdl.
  apply (alloc_unlink_spec _ _ s _ (pg_node p)) in Hdl as (m1 & Hrun & Hd1 & Hf1).
  2:{ rewrite <- fmap_app, <- Hsplit. symmetry. apply after_pool. lia. }
  rewrite length_fmap, length_pages_from, after_pool in Hrun by lia.
  rewrite <- fmap_app, <- Hsplit in Hf1.
  destruct (alloc_metadata _ _ m1 _ _ _ n Hg Hp ltac:(lia) Hd1 Hf1) as (Hpool & Hkeep & Hframe).
  pose proof (pl_count _ _ _ Hp) as Hc. apply Forall_cons in Hc as [(_ & Hk & Hin) _].
  cbn [fst snd] in Hk, Hin.
  assert (Hnk : Z.of_nat k <= pool_size bs).
  { unfold pool_size, bs. simpl. rewrite length_app, length_pages_from. lia. }
  eexists. split; [|split; [|split; [|exact Hframe]]].
  - unfold alloc_take. krun. rewrite Nat2Z.id. unfold node_next. rewrite Hrun. krun.
    rewrite (page_of_pg_node (k_pages s)); [|apply Hg|by eapply pool_head_page].
    rewrite Hk, Hnum. wsmall. rewrite Nat2Z.inj_sub by lia. done.
  - constructor; cbn; [done|done|]. rewrite Hnum. unfold pool_size. rewrite Hsplit, length_app, length_pages_from.
    simpl. lia.
  - intros q (i & Hi & ->)%elem_of_pages_from. rewrite Hkeep.
    + apply Hin, elem_of_pages_from. exists i. lia.
    + unfold bs. simpl. rewrite elem_of_app. left. apply elem_of_pages_from. exists (i + 1).
      unfold sizeof_Page. lia.
    + unfold sizeof_Page. lia.
Qed.

Lemma pool_first s p k rest :
  pool_ok s ((p, k) :: rest) ->
  rd32 (k_mem s) (node_next free_pages_head) = pg_node p /\ pg_node p <> free_pages_head /\
  page_of_node (pg_node p) = p /\ rd32 (k_mem s) (pg_free_pages p) = Z.of_nat k.
Proof.
  intros [Hg Hp _]. pose proof (pool_head_page _ _ _ _ _ Hp) as Hpg.
  pose proof (pl_count _ _ _ Hp) as Hc. apply Forall_cons in Hc as [(Hk0 & Hk & _) _].
  pose proof (dlist_first _ _ _ (pl_dlist _ _ _ Hp)) as Hf. rewrite after_pool in Hf by done.
  split; [done|]. split; [destruct Hg; wds|]. split; [|done].
  by apply (page_of_pg_node (k_pages s)); [apply Hg|].
Qed.

(** The loop never advances to the next block: it re-reads the head of the pool. *)
Lemma alloc_scan_miss swap_out s n : forall l2 l1 fuel,
  dlist (k_mem s) free_pages_head (l1 ++ l2) ->
  rd32 (k_mem s) (pg_free_pages (page_of_node (rd32 (k_mem s) (node_next free_pages_head)))) < w32 n ->
  (length l2 < fuel)%nat ->
  alloc_scan swap_out fuel n (before free_pages_head l1) s = Ok NULL s.
Proof.
  intros l2. induction l2 as [|x l2 IH]; intros l1 fuel Hd Hn Hfuel;
    destruct fuel as [|fuel]; simpl in Hfuel; try lia; cbn [alloc_scan]; krun;
    pose proof (dseg_neighbours _ _ _ _ (proj2 Hd)) as [Hl _]; unfold node_next in *; rewrite Hl.
  - rewrite Z.eqb_refl. done.
  - destruct (Z.eqb_spec (after free_pages_head (x :: l2)) free_pages_head) as [E|_].
    { exfalso. apply (dlist_not_head _ _ _ x Hd); [elt|done]. }
    destruct (Z.leb_spec (w32 n) (rd32 (k_mem s) (pg_free_pages (page_of_node
      (rd32 (k_mem s) (free_pages_head + 4)))))); [lia|].
    replace (rd32 (k_mem s) (before free_pages_head l1 + 4)) with (before free_pages_head (l1 ++ [x]))
      by (rewrite Hl; unfold before; by rewrite last_snoc).
    apply IH; [by rewrite <- app_assoc|done|lia].
Qed.

Lemma alloc_scan_hit swap_out s p k rest n fuel :
  pool_ok s ((p, k) :: rest) -> 0 <= n <= Z.of_nat k -> n < 2 ^ 32 ->
  alloc_scan swap_out (S fuel) n free_pages_head s = alloc_take swap_out n p s.
Proof.
  intros Hok Hn Hn32. destruct (pool_first _ _ _ _ Hok) as (Hf & Hh & Ho & Hk).
  cbn [alloc_scan]. krun. rewrite Hf. destruct (Z.eqb_spec (pg_node p) free_pages_head); [done|].
  krun. rewrite Hf, Ho, Hk, w32_small by lia. destruct (Z.leb_spec n (Z.of_nat k)); [done|lia].
Qed.

(** ** Giving pages back *)

Lemma free_scan_spec s page t l2 : forall l1 l0 target fuel,
  dlist (k_mem s) free_pages_head (pg_node <$> l0 ++ l1 ++ t :: l2) ->
  0 <= k_pages s -> (forall q, q ∈ l0 ++ l1 ++ t :: l2 -> is_page (k_pages s) q) ->
  (forall q, q ∈ l1 -> q <= page) -> page < t -> (length l1 < fuel)%nat ->
  free_scan fuel page (before free_pages_head (pg_node <$> l0)) target s = Ok t s.
Proof.
  intros l1. induction l1 as [|x l1 IH]; intros l0 target fuel Hd Hb Hpg Hle Ht Hfuel;
    destruct fuel as [|fuel]; simpl in Hfuel; try lia; cbn [free_scan]; krun;
    rewrite fmap_app in Hd; pose proof (dseg_neighbours _ _ _ _ (proj2 Hd)) as [Hl _];
    unfold node_next; rewrite Hl; cbn [after fmap list_fmap app head default id from_option] in Hl |- *.
  - destruct (Z.eqb_spec (pg_node t) free_pages_head) as [E|_].
    { exfalso. apply (dlist_not_head _ _ _ (pg_node t) Hd); [simpl; elt|done]. }
    krun. rewrite (page_of_pg_node (k_pages s)) by (done || apply Hpg; elt).
    destruct (Z.ltb_spec page t); [done|lia].
  - destruct (Z.eqb_spec (pg_node x) free_pages_head) as [E|_].
    { exfalso. apply (dlist_not_head _ _ _ (pg_node x) Hd); [simpl; elt|done]. }
    krun. rewrite (page_of_pg_node (k_pages s)) by (done || apply Hpg; elt).
    assert (x <= page) by (apply Hle; elt).
    destruct (Z.ltb_spec page x); [lia|]. krun. rewrite Hl.
    replace (pg_node x) with (before free_pages_head (pg_node <$> l0 ++ [x]))
      by (unfold before; rewrite fmap_app; change (pg_node <$> [x]) with [pg_node x]; by rewrite last_snoc).
    apply IH; [| |rewrite <- app_assoc; done|intros; apply Hle; elt|done|lia].
    + rewrite <- app_assoc, fmap_app. done.
    + done.
Qed.

Lemma free_insert_spec s t l2 n : forall m page i l1,
  0 <= k_pages s -> geom (k_pages s) ->
  dlist m free_pages_head (pg_node <$> l1 ++ t :: l2) ->
  (forall q, q ∈ l1 ++ pages_from (page + sizeof_Page * i) n ++ t :: l2 -> is_page (k_pages s) q) ->
  NoDup (l1 ++ pages_from (page + sizeof_Page * i) n ++ t :: l2) ->
  exists m', free_insert n page t i (set_mem m s) = Ok tt (set_mem m' s) /\
    dlist m' free_pages_head (pg_node <$> l1 ++ pages_from (page + sizeof_Page * i) n ++ t :: l2) /\
    forall a, off_nodes (free_pages_head :: (pg_node <$> l1 ++ pages_from (page + sizeof_Page * i) n ++ t :: l2)) a ->
      rd32 m' a = rd32 m a.
Proof.
  induction n as [|n IH]; intros m page i l1 Hb Hg Hd Hpg Hnd; cbn [free_insert pages_from app] in *.
  - exists m. done.
  - set (x := page + sizeof_Page * i) in *.
    assert (Hx : is_page (k_pages s) x) by (apply Hpg; elt).
    assert (Ex : page_add page i = x).
    { unfold page_add. rewrite (Z.mul_comm i). fold x. unfold is_page, sizeof_Page in Hx. wsmall. lia. }
    assert (Ei : page + sizeof_Page * (i + 1) = x + sizeof_Page) by (unfold x; ring).
    rewrite Ex. set (r := pages_from (x + sizeof_Page) n) in *.
    assert (Hns : nodes_sep (free_pages_head :: (pg_node <$> l1) ++ pg_node x :: (pg_node <$> t :: l2))).
    { rewrite <- fmap_cons, <- fmap_app. apply (pages_nodes_sep (k_pages s)); [done| |].
      - intros q Hq. apply Hpg. revert Hq. elt.
      - rewrite (Permutation_app_comm r (t :: l2)) in Hnd. rewrite app_comm_cons, app_assoc in Hnd.
        apply NoDup_app in Hnd. tauto. }
    rewrite fmap_app in Hd.
    pose proof (list_insert_before_spec _ _ _ _ _ Hd Hns) as [Hd1 Hf1].
    cbn [after fmap list_fmap head default id from_option] in Hd1, Hf1. krun.
    set (m1 := list_insert_before (pg_node t) (pg_node x) m) in *.
    assert (Hl : (l1 ++ [x]) ++ r ++ t :: l2 = l1 ++ x :: r ++ t :: l2) by (by rewrite <- app_assoc).
    destruct (IH m1 page (i + 1) (l1 ++ [x])) as (m' & Hrun & Hd' & Hf'); rewrite ?Ei; fold r;
      rewrite ?Hl; try done.
    { rewrite <- app_assoc, fmap_app. done. }
    rewrite Ei in Hd', Hf'. fold r in Hd', Hf'. rewrite Hl in Hd', Hf'.
    exists m'. split; [exact Hrun|split; [exact Hd'|]].
    intros a Ha. rewrite Hf' by done. apply Hf1.
    eapply off_nodes_sub; [|exact Ha]. intros y.
    change (pg_node x :: pg_node t :: (pg_node <$> l2)) with (pg_node <$> x :: t :: l2).
    rewrite <- fmap_app, !elem_of_cons, !list_elem_of_fmap.
    intros [?|(z & ? & Hz)]; [by left|right; exists z; split; [done|revert Hz; elt]].
Qed.

Lemma pool_pages_app bs1 bs2 : pool_pages (bs1 ++ bs2) = pool_pages bs1 ++ pool_pages bs2.
Proof. induction bs1 as [|[p k] bs1 IH]; simpl; [done|]. by rewrite IH, app_assoc. Qed.

Lemma pages_from_sorted p k : StronglySorted Z.lt (pages_from p k).
Proof.
  revert p. induction k as [|k IH]; intros p; simpl; constructor; [done|].
  apply Forall_forall. intros q (i & ? & ->)%elem_of_pages_from. unfold sizeof_Page. lia.
Qed.

(** There is room for the run [p, n] between the blocks [bs1] and [bs2]. *)
Record room (base : Z) (bs1 : list block) (p : Z) (n : nat) (bs2 : list block) : Prop := {
  ft_len : (0 < n)%nat;
  ft_pages : forall q, q ∈ pages_from p n -> is_page base q;
  ft_above : forall q, q ∈ pool_pages bs1 -> q < p;
  ft_below : forall q, q ∈ pool_pages bs2 -> p + sizeof_Page * Z.of_nat n <= q
}.

(** It fits there as a block: its inner pages carry no counts. *)
Record fits (base : Z) (m : memory) (bs1 : list block) (p : Z) (n : nat) (bs2 : list block) : Prop := {
  ft_room : room base bs1 p n bs2;
  ft_inner : forall q, q ∈ pages_from (p + sizeof_Page) (n - 1) -> rd32 m (pg_free_pages q) = 0
}.

Lemma room_sorted base m bs1 p n bs2 :
  pool base m (bs1 ++ bs2) -> room base bs1 p n bs2 ->
  StronglySorted Z.lt (pool_pages (bs1 ++ (p, n) :: bs2)).
Proof.
  intros [_ Hso _ _] []. rewrite pool_pages_app in *. simpl.
  apply StronglySorted_app in Hso as (Hlt & Hs1 & Hs2).
  assert (Hin : forall q, q ∈ pages_from p n -> p <= q /\ q < p + sizeof_Page * Z.of_nat n).
  { intros q (i & ? & ->)%elem_of_pages_from. unfold sizeof_Page. lia. }
  apply StronglySorted_app_2; [|done|].
  - intros x1 x2 H1 [[??]%Hin | H2]%elem_of_app; [apply ft_above0 in H1; lia|auto].
  - apply StronglySorted_app_2; [|apply pages_from_sorted|done].
    intros x1 x2 [??]%Hin ?%ft_below0. lia.
Qed.

Lemma free_metadata base m m1 bs1 p n bs2 :
  let bs := bs1 ++ (p, n) :: bs2 in
  let m' := wr32 (wr32 m1 (pg_flags p) 0) (pg_free_pages p) (Z.of_nat n) in
  geom base -> pool base m (bs1 ++ bs2) -> fits base m bs1 p n bs2 ->
  dlist m1 free_pages_head (pg_node <$> pool_pages bs) ->
  (forall a, off_nodes (free_pages_head :: (pg_node <$> pool_pages bs)) a -> rd32 m1 a = rd32 m a) ->
  pool base m' bs /\ forall a, off_pool (pool_pages bs) a -> rd32 m' a = rd32 m a.
Proof.
  intros bs m' Hg Hpool Hfit Hd Hf. pose proof (room_sorted _ _ _ _ _ _ Hpool (ft_room _ _ _ _ _ _ Hfit)) as Hso.
  destruct Hpool as [Hps _ _ Hc], Hfit as [[Hn Hpg Ha Hb] Hi]. fold bs in Hso.
  assert (Hall : forall q, q ∈ pool_pages bs -> is_page base q).
  { intros q. unfold bs. rewrite pool_pages_app in *. simpl. specialize (Hps q). specialize (Hpg q).
    revert Hps Hpg. rewrite !elem_of_app. tauto. }
  assert (Hp : p ∈ pool_pages bs).
  { unfold bs. rewrite pool_pages_app. simpl. destruct n; [lia|]. simpl. elt. }
  assert (Hbound : Z.of_nat n < 2 ^ 30) by (apply (block_len_bound base p); [apply Hg|done]).
  assert (Hcnt : forall q, q ∈ pool_pages bs -> rd32 m' (pg_free_pages q) =
    if decide (q = p) then Z.of_nat n else rd32 m (pg_free_pages q)).
  { intros q Hq. unfold m'. destruct Hg. pose proof (Hall _ Hp). pose proof (Hall _ Hq).
    destruct (decide (q = p)) as [->|Hne]; [apply rd32_wr32_small; lia|].
    rewrite !rd32_wr32_ne by wds. apply Hf. apply page_words_off with base; [done|done|done|lia]. }
  split.
  - constructor; [done|done| |].
    + unfold m'. apply dlist_wr32; [eapply page_words_off; eauto; lia|].
      apply dlist_wr32; [eapply page_words_off; eauto; lia|]. done.
    + apply Forall_app in Hc as [Hc1 Hc2]. unfold bs in *. rewrite pool_pages_app in *. simpl in Hcnt, Hso.
      apply Forall_app. split; [|apply Forall_cons; split].
      * apply (block_counts_frame m); [|done]. intros q Hq.
        rewrite Hcnt by (revert Hq; elt). apply Ha in Hq. apply decide_False. lia.
      * split; [done|split; cbn [fst snd] in *].
        -- rewrite Hcnt by (revert Hp; simpl; tauto). by apply decide_True.
        -- intros q Hq. rewrite Hcnt.
           ++ rewrite decide_False; [auto|]. apply elem_of_pages_from in Hq as (i & ? & ->). unfold sizeof_Page. lia.
           ++ destruct n; [lia|]. simpl in *. rewrite Nat.sub_0_r in Hq. revert Hq. elt.
      * apply (block_counts_frame m); [|done]. intros q Hq.
        rewrite Hcnt by (revert Hq; elt). apply Hb in Hq. apply decide_False. unfold sizeof_Page in Hq. lia.
  - intros a [Hoff Hfl]. destruct (Hfl p Hp). unfold m'. rewrite !rd32_wr32_ne by done. by apply Hf.
Qed.

(** ** Coalescing two adjacent blocks *)

Lemma merge_pages bs1 p i j bs2 :
  pool_pages (bs1 ++ (p, i) :: (p + sizeof_Page * Z.of_nat i, j) :: bs2) =
  pool_pages (bs1 ++ (p, (i + j)%nat) :: bs2).
Proof. rewrite !pool_pages_app. simpl. by rewrite pages_from_app, <- !app_assoc. Qed.

(** The counts after the two stores. *)
Lemma merge_counts base m (l : list Z) p q v r : geom base -> (forall x, x ∈ l -> is_page base x) -> p ∈ l -> q ∈ l -> r ∈ l -> 0 <= v < 2 ^ 30 ->
  rd32 (wr32 (wr32 m (pg_free_pages p) v) (pg_free_pages q) 0) (pg_free_pages r) =
  if decide (r = q) then 0 else if decide (r = p) then v else rd32 m (pg_free_pages r).
Proof.
  intros Hg Hps Hp Hq Hr Hv. destruct Hg. pose proof (Hps _ Hp). pose proof (Hps _ Hq). pose proof (Hps _ Hr).
  destruct (decide (r = q)) as [->|Hne]; [apply rd32_wr32_small; lia|].
  rewrite rd32_wr32_ne by wds. destruct (decide (r = p)) as [->|Hne']; [apply rd32_wr32_small; lia|].
  apply rd32_wr32_ne. wds.
Qed.

Lemma pool_merge base m bs1 p i j bs2 :
  let q := p + sizeof_Page * Z.of_nat i in
  let bs := bs1 ++ (p, i) :: (q, j) :: bs2 in
  let m' := wr32 (wr32 m (pg_free_pages p) (Z.of_nat (i + j))) (pg_free_pages q) 0 in
  geom base -> pool base m bs ->
  pool base m' (bs1 ++ (p, (i + j)%nat) :: bs2) /\
  forall a, off_pool (pool_pages bs) a -> rd32 m' a = rd32 m a.
Proof.
  intros q bs m' Hg [Hps Hso Hd Hc]. pose proof (merge_pages bs1 p i j bs2) as Hmp. fold q bs in Hmp.
  apply Forall_app in Hc as [Hc1 Hc]. apply Forall_cons in Hc as [(Hi0 & Hci & Hi) Hc].
  apply Forall_cons in Hc as [(Hj0 & Hcj & Hj) Hc2]. cbn [fst snd] in *.
  assert (Hp : p ∈ pool_pages bs).
  { unfold bs. rewrite pool_pages_app. simpl. destruct i; [lia|]. simpl. elt. }
  assert (Hq : q ∈ pool_pages bs).
  { unfold bs. rewrite pool_pages_app. simpl. destruct j; [lia|]. simpl. elt. }
  assert (Hbound : Z.of_nat (i + j) < 2 ^ 30).
  { apply (block_len_bound base p); [apply Hg|]. intros r Hr. apply Hps. rewrite Hmp, pool_pages_app.
    simpl. revert Hr. elt. }
  assert (Hcnt : forall r, r ∈ pool_pages bs -> rd32 m' (pg_free_pages r) =
    if decide (r = q) then 0 else if decide (r = p) then Z.of_nat (i + j) else rd32 m (pg_free_pages r)).
  { intros r Hr. apply (merge_counts base m (pool_pages bs)); try done. lia. }
  split.
  - constructor; rewrite <- ?Hmp; [done|done| |].
    + unfold m'. apply dlist_wr32; [eapply page_words_off; eauto; lia|].
      apply dlist_wr32; [eapply page_words_off; eauto; lia|]. done.
    + rewrite Hmp in Hcnt, Hso. rewrite pool_pages_app in Hcnt, Hso. simpl in Hcnt, Hso.
      apply StronglySorted_app in Hso as (Hlt1 & _ & Hso).
      apply StronglySorted_app in Hso as (Hlt2 & _ & _).
      assert (Hpin : p ∈ pages_from p (i + j)) by (apply elem_of_pages_from; exists 0; unfold sizeof_Page; lia).
      assert (Hqin : q ∈ pages_from p (i + j)) by (apply elem_of_pages_from; exists (Z.of_nat i); lia).
      apply Forall_app. split; [|apply Forall_cons; split].
      * apply (block_counts_frame m); [|done]. intros r Hr. rewrite Hcnt by elt.
        pose proof (Hlt1 r p Hr ltac:(elt)). pose proof (Hlt1 r q Hr ltac:(elt)).
        rewrite !decide_False by lia. done.
      * split; cbn [fst snd]; [lia|split].
        -- rewrite Hcnt, decide_False, decide_True by (done || elt || (unfold q, sizeof_Page; lia)). done.
        -- intros r Hr. apply elem_of_pages_from in Hr as (z & Hz & ->). rewrite Hcnt.
           2:{ rewrite elem_of_app, elem_of_app. right. left. apply elem_of_pages_from.
               exists (z + 1). unfold sizeof_Page. lia. }
           destruct (decide (p + sizeof_Page + sizeof_Page * z = q)) as [|Hne]; [done|].
           rewrite decide_False by (unfold sizeof_Page; lia).
           unfold q, sizeof_Page in Hne.
           destruct (decide (z + 1 < Z.of_nat i)); [apply Hi|apply Hj]; apply elem_of_pages_from;
             [exists z|exists (z - Z.of_nat i)]; unfold q, sizeof_Page; lia.
      * apply (block_counts_frame m); [|done]. intros r Hr. rewrite Hcnt by elt.
        pose proof (Hlt2 p r ltac:(elt) Hr). pose proof (Hlt2 q r ltac:(elt) Hr).
        rewrite !decide_False by lia. done.
  - intros a [Hoff Hfl]. destruct (Hfl p Hp), (Hfl q Hq). unfold m'. rewrite !rd32_wr32_ne by done. done.
Qed.

(** What freeing does to the block list: the freed run swallows the block right
    above it, and is swallowed by the block below it only when that block has a
    single page. *)
Definition down (cur : block) (bs2 : list block) : list block :=
  match bs2 with
  | (t, k) :: rest =>
      if cur.1 + sizeof_Page * Z.of_nat cur.2 =? t then (cur.1, (cur.2 + k)%nat) :: rest else cur :: bs2
  | [] => [cur]
  end.

Fixpoint up (bs1 : list block) (bs : list block) : list block :=
  match bs1, bs with
  | [(r, 1%nat)], (p, n) :: rest =>
      if r + sizeof_Page =? p then (r, (1 + n)%nat) :: rest else (r, 1%nat) :: bs
  | b :: bs1, _ => b :: up bs1 bs
  | [], _ => bs
  end.

Lemma up_snoc bs1 r k p n rest :
  up (bs1 ++ [(r, k)]) ((p, n) :: rest) =
  bs1 ++ if decide (k = 1%nat /\ r + sizeof_Page = p) then (r, (1 + n)%nat) :: rest
         else (r, k) :: (p, n) :: rest.
Proof.
  induction bs1 as [|[a b] bs1 IH]; cbn [app up].
  - destruct k as [|[|k]]; [rewrite decide_False by lia; done| |rewrite decide_False by lia; done].
    destruct (Z.eqb_spec (r + sizeof_Page) p); [rewrite decide_True by lia|rewrite decide_False by lia]; done.
  - rewrite <- IH. destruct bs1; simpl; destruct b as [|[|b]]; done.
Qed.

Lemma page_add_small base p n :
  0 <= base -> base <= p -> p + sizeof_Page * n < 2 ^ 32 -> 0 <= n -> page_add p n = p + sizeof_Page * n.
Proof. unfold page_add, sizeof_Page. intros. wsmall. lia. Qed.

Lemma merge_down_spec s bs1 p n t k rest :
  let bs := bs1 ++ (p, n) :: (t, k) :: rest in
  geom (k_pages s) -> pool (k_pages s) (k_mem s) bs ->
  exists m', merge_down p (Z.of_nat n) t s = Ok tt (set_mem m' s) /\
    pool (k_pages s) m' (bs1 ++ down (p, n) ((t, k) :: rest)) /\
    forall a, off_pool (pool_pages bs) a -> rd32 m' a = rd32 (k_mem s) a.
Proof.
  intros bs Hg Hp. pose proof Hp as [Hps _ _ Hc].
  apply Forall_app in Hc as [_ Hc]. apply Forall_cons in Hc as [(Hn0 & Hn & _) Hc].
  apply Forall_cons in Hc as [(Hk0 & Hk & _) _]. cbn [fst snd] in *.
  assert (Hin : forall b q, b ∈ bs -> q ∈ pages_from b.1 b.2 -> is_page (k_pages s) q).
  { intros b q Hb Hq. apply Hps. by eapply elem_of_pool_pages. }
  assert (Hbn : Z.of_nat n < 2 ^ 30) by (apply (block_len_bound (k_pages s) p); [apply Hg|];
    intros q; apply (Hin (p, n)); unfold bs; elt).
  assert (Hbk : Z.of_nat k < 2 ^ 30) by (apply (block_len_bound (k_pages s) t); [apply Hg|];
    intros q; apply (Hin (t, k)); unfold bs; elt).
  assert (Hpp : is_page (k_pages s) p).
  { apply (Hin (p, n)); [unfold bs; elt|]. apply elem_of_pages_from. exists 0. cbn [fst snd]. lia. }
  assert (Hpl : is_page (k_pages s) (p + sizeof_Page * (Z.of_nat n - 1))).
  { apply (Hin (p, n)); [unfold bs; elt|]. apply elem_of_pages_from. exists (Z.of_nat n - 1). cbn [fst snd]. lia. }
  unfold merge_down, down. cbn [fst snd].
  rewrite (page_add_small (k_pages s)); [|apply Hg|apply Hpp|unfold is_page, sizeof_Page in *; lia|lia].
  destruct (Z.eqb_spec (p + sizeof_Page * Z.of_nat n) t) as [<-|Hne]; krun.
  - destruct (pool_merge _ _ _ _ _ _ _ Hg Hp) as [Hp' Hf'].
    rewrite Hn, Hk. wsmall. rewrite <- Nat2Z.inj_add. eauto.
  - exists (k_mem s). rewrite set_mem_id. done.
Qed.

Lemma last_pages_from r k : last (pages_from r (S k)) = Some (r + sizeof_Page * Z.of_nat k).
Proof.
  revert r. induction k as [|k IH]; intros r.
  - simpl. f_equal. lia.
  - cbn [pages_from] in *. rewrite last_cons_cons, IH. f_equal. rewrite Nat2Z.inj_succ. ring.
Qed.

(** The bytes in front of [free_pages] read as a page structure must not claim
    to end at [p]: [merge_up] looks at them when [p] is the lowest free page. *)
Definition no_ghost (m : memory) (p : Z) : Prop :=
  page_add (page_of_node free_pages_head) (rd32 m (pg_free_pages (page_of_node free_pages_head))) <> p.

Lemma ghost_off base ps :
  geom base -> (forall q, q ∈ ps -> is_page base q) ->
  off_pool ps (pg_free_pages (page_of_node free_pages_head)).
Proof.
  intros [] Hps. unfold page_of_node. unfold VERTUAL_MEM in *. wsmall. split.
  - intros x [->|(r & -> & ?%Hps)%list_elem_of_fmap]%elem_of_cons; split; wds.
  - intros q ?%Hps. split; wds.
Qed.

(** The page just below the freed run: the last of the block before it. *)
Lemma page_below base m bs1 r k p n rest :
  let z := r + sizeof_Page * Z.of_nat k in
  geom base -> pool base m ((bs1 ++ [(r, S k)]) ++ (p, n) :: rest) -> (0 < n)%nat ->
  is_page base z /\ z < p /\ rd32 m (pg_free_pages z) = (if decide (k = 0%nat) then 1 else 0) /\
  before free_pages_head (pg_node <$> pool_pages (bs1 ++ [(r, S k)])) = pg_node z.
Proof.
  intros z Hg [Hps Hso _ Hc] Hn. rewrite !pool_pages_app in *. cbn [pool_pages] in *.
  rewrite app_nil_r in *.
  assert (Hz : z ∈ pages_from r (S k)) by (apply elem_of_pages_from; exists (Z.of_nat k); lia).
  assert (Hp : p ∈ pages_from p n) by (apply elem_of_pages_from; exists 0; lia).
  apply Forall_app in Hc as [Hc _]. apply Forall_app in Hc as [_ Hc].
  apply Forall_cons in Hc as [(_ & Hk & Hin) _]. cbn [fst snd] in *.
  split; [apply Hps; elt|]. split.
  { apply (StronglySorted_app_1_elem_of _ _ _ z p) in Hso; [done|elt|elt]. }
  split.
  - destruct (decide (k = 0%nat)) as [->|]; [unfold z; rewrite Z.mul_0_r, Z.add_0_r; done|].
    apply Hin, elem_of_pages_from. exists (Z.of_nat k - 1). unfold z, sizeof_Page. lia.
  - unfold before. by rewrite fmap_last, last_app, last_pages_from.
Qed.

Lemma merge_up_spec s bs1 p n rest :
  let bs := bs1 ++ (p, n) :: rest in
  geom (k_pages s) -> pool (k_pages s) (k_mem s) bs -> no_ghost (k_mem s) p ->
  exists m', merge_up p s = Ok tt (set_mem m' s) /\
    pool (k_pages s) m' (up bs1 ((p, n) :: rest)) /\
    forall a, off_pool (pool_pages bs) a -> rd32 m' a = rd32 (k_mem s) a.
Proof.
  intros bs Hg Hp Hghost. pose proof Hp as [Hps _ Hd Hc].
  apply Forall_app in Hc as [_ Hc]. apply Forall_cons in Hc as [(Hn0 & Hn & _) _]. cbn [fst snd] in *.
  assert (Hbn : Z.of_nat n < 2 ^ 30).
  { apply (block_len_bound (k_pages s) p); [apply Hg|]. intros q Hq. apply Hps.
    apply (elem_of_pool_pages (p, n)); [unfold bs; elt|done]. }
  assert (Hprev : rd32 (k_mem s) (pg_node p) = before free_pages_head (pg_node <$> pool_pages bs1)).
  { unfold bs in Hd. rewrite pool_pages_app in Hd. destruct n; [lia|]. rewrite fmap_app in Hd.
    by apply dlist_prev in Hd. }
  unfold merge_up. krun. unfold node_prev. rewrite Hprev.
  destruct bs1 as [|[r k] bs1 _] using rev_ind.
  - change (before free_pages_head (pg_node <$> pool_pages [])) with free_pages_head.
    destruct (Z.eqb_spec (page_add (page_of_node free_pages_head)
      (rd32 (k_mem s) (pg_free_pages (page_of_node free_pages_head)))) p); [done|].
    krun. exists (k_mem s). rewrite set_mem_id. done.
  - destruct k as [|k].
    { apply pl_count in Hp. unfold bs in Hp. rewrite <- app_assoc in Hp.
      apply Forall_app in Hp as [_ Hp]. apply Forall_cons in Hp as [[Hp _] _]. simpl in Hp. lia. }
    destruct (page_below _ _ _ _ _ _ _ _ Hg Hp Hn0) as (Hz & Hzp & Hcz & ->).
    set (z := r + sizeof_Page * Z.of_nat k) in *.
    rewrite (page_of_pg_node (k_pages s)) by (done || apply Hg). rewrite up_snoc, Hcz.
    rewrite (page_add_small (k_pages s)); [|apply Hg|apply Hz
      |unfold is_page, sizeof_Page in *; destruct (decide _); lia|destruct (decide _); lia].
    assert (Hid : exists m', Ok tt s = Ok tt (set_mem m' s) /\ pool (k_pages s) m' bs /\
      forall a, off_pool (pool_pages bs) a -> rd32 m' a = rd32 (k_mem s) a).
    { exists (k_mem s). by rewrite set_mem_id. }
    unfold bs in *. rewrite <- app_assoc in *. cbn [app] in *.
    destruct (decide (k = 0)%nat) as [->|Hk1].
    + assert (z = r) as -> by (unfold z; lia).
      destruct (Z.eqb_spec (r + sizeof_Page * 1) p) as [Ep|Ep]; krun.
      * rewrite decide_True by lia. subst p. destruct (pool_merge _ _ _ _ 1 _ _ Hg Hp) as [Hp' Hf'].
        rewrite Hcz, Hn. wsmall. replace (1 + Z.of_nat n) with (Z.of_nat (1 + n)) by lia. eauto.
      * rewrite decide_False by lia. exact Hid.
    + destruct (Z.eqb_spec (z + sizeof_Page * 0) p); [lia|]. krun. rewrite decide_False by lia. exact Hid.
Qed.

Lemma pool_pages_down p n bs2 : pool_pages (down (p, n) bs2) = pool_pages ((p, n) :: bs2).
Proof.
  destruct bs2 as [|[t k] rest]; [done|]. unfold down. cbn [fst snd].
  destruct (Z.eqb_spec (p + sizeof_Page * Z.of_nat n) t) as [<-|]; [|done].
  symmetry. apply (merge_pages []).
Qed.

Lemma pool_pages_up bs1 p n rest : pool_pages (up bs1 ((p, n) :: rest)) = pool_pages (bs1 ++ (p, n) :: rest).
Proof.
  destruct bs1 as [|[r k] bs1 _] using rev_ind; [done|]. rewrite up_snoc, <- app_assoc. cbn [app].
  destruct (decide _) as [[-> <-]|]; [|done]. rewrite <- (Z.mul_1_r sizeof_Page).
  symmetry. apply (merge_pages bs1 r 1 n).
Qed.

End Pool.

(** * Properties of the allocator *)
Section Properties.
Context `{Symbols}.
(** The pages with the freed run among them. *)
Lemma freed_pages base m bs1 p n t k rest :
  let bs := bs1 ++ (p, n) :: (t, k) :: rest in
  pool base m (bs1 ++ (t, k) :: rest) -> room base bs1 p n ((t, k) :: rest) ->
  exists l, pool_pages ((t, k) :: rest) = t :: l /\ StronglySorted Z.lt (pool_pages bs) /\
    (forall q, q ∈ pool_pages bs -> is_page base q) /\ pool_pages bs = pool_pages bs1 ++ pages_from p n ++ t :: l /\ p < t.
Proof.
  intros bs Hp Hfit. assert (Hk : (0 < k)%nat).
  { pose proof (pl_count _ _ _ Hp) as Hc. apply Forall_app in Hc as [_ Hc].
    apply Forall_cons in Hc as [[Hk _] _]. exact Hk. }
  assert (Ht : exists l, pool_pages ((t, k) :: rest) = t :: l) by (destruct k; [lia|]; simpl; eauto).
  destruct Ht as [l Ht]. exists l. pose proof Hfit as [Hn Hpg Hab Hbe]. split; [done|].
  split; [exact (room_sorted _ _ _ _ _ _ Hp Hfit)|]. split; [|split].
  - intros q. unfold bs. rewrite pool_pages_app. cbn [pool_pages].
    pose proof (pl_pages _ _ _ Hp q) as Hq. rewrite pool_pages_app in Hq. cbn [pool_pages] in Hq.
    specialize (Hpg q). revert Hpg Hq. rewrite !elem_of_app. tauto.
  - unfold bs. rewrite pool_pages_app, <- Ht. done.
  - specialize (Hbe t). rewrite Ht in Hbe. specialize (Hbe ltac:(elt)). unfold sizeof_Page in Hbe. lia.
Qed.

(** The search and the insertions of [free_page]. *)
Lemma free_insert_run s bs1 p n t k rest fuel :
  let bs := bs1 ++ (p, n) :: (t, k) :: rest in
  pool_ok s (bs1 ++ (t, k) :: rest) -> room (k_pages s) bs1 p n ((t, k) :: rest) -> (length (pool_pages bs1) < fuel)%nat ->
  free_scan fuel p free_pages_head 0 s = Ok t s /\ t <> NULL /\ t ∈ pool_pages bs /\ 0 <= pool_size bs < 2 ^ 30 /\
  pool_size bs = pool_size (bs1 ++ (t, k) :: rest) + Z.of_nat n /\
  exists m1, free_insert n p t 0 s = Ok tt (set_mem m1 s) /\ dlist m1 free_pages_head (pg_node <$> pool_pages bs) /\
    forall a, off_nodes (free_pages_head :: (pg_node <$> pool_pages bs)) a -> rd32 m1 a = rd32 (k_mem s) a.
Proof.
  intros bs [Hg Hp Hnum] Hroom Hfuel.
  destruct (freed_pages _ _ _ _ _ _ _ _ Hp Hroom) as (l & Ht & Hso & Hall & Ebs & Hpt). fold bs in Hso, Hall, Ebs.
  pose proof Hroom as [Hn Hpg Hab Hbe]. pose proof (pl_dlist _ _ _ Hp) as Hd. rewrite pool_pages_app, Ht in Hd.
  split; [|split; [|split; [|split; [|split]]]].
  - apply (free_scan_spec s p t l (pool_pages bs1) [] 0 fuel); [exact Hd|apply Hg| |intros q ?%Hab; lia|done|done].
    intros q Hq. apply Hall. rewrite Ebs. revert Hq. elt.
  - assert (Hpp : is_page (k_pages s) p) by (apply Hall; rewrite Ebs; destruct n; [lia|simpl; elt]).
    unfold NULL, is_page in *. destruct Hg. lia.
  - rewrite Ebs. elt.
  - destruct Hg. pose proof (sorted_pages_bound (pool_pages bs) (k_pages s) ltac:(lia) Hso Hall).
    unfold pool_size, sizeof_Page in *. lia.
  - unfold pool_size, bs. rewrite !pool_pages_app. cbn [pool_pages]. rewrite !length_app, !length_pages_from. lia.
  - destruct (free_insert_spec s t l n (k_mem s) p 0 (pool_pages bs1)) as (m1 & Hins & Hd1 & Hf1);
      rewrite ?Z.mul_0_r, ?Z.add_0_r, <- ?Ebs in *; [apply Hg|done|done|done|by apply sorted_NoDup|].
    rewrite set_mem_id in Hins. by exists m1.
Qed.

Lemma free_page_run s bs1 p n bs2 fuel :
  pool_ok s (bs1 ++ bs2) -> bs2 <> [] -> fits (k_pages s) (k_mem s) bs1 p n bs2 ->
  no_ghost (k_mem s) p -> (length (pool_pages bs1) < fuel)%nat ->
  exists s', free_page fuel p (Z.of_nat n) s = Ok tt s' /\ pool_step s s' /\
    pool_ok s' (up bs1 (down (p, n) bs2)) /\
    (forall a, off_pool (pool_pages (bs1 ++ (p, n) :: bs2)) a -> rd32 (k_mem s') a = rd32 (k_mem s) a).
Proof.
  intros Hok Hne Hfit Hghost Hfuel. destruct bs2 as [|[t k] rest]; [done|]. clear Hne.
  destruct (free_insert_run s bs1 p n t k rest fuel Hok (ft_room _ _ _ _ _ _ Hfit) Hfuel)
    as (Hscan & Ht & _ & Hsz & Esz & m1 & Hins & Hd1 & Hf1).
  destruct Hok as [Hg Hp Hnum]. set (bs := bs1 ++ (p, n) :: (t, k) :: rest) in *.
  destruct (free_metadata _ _ m1 _ _ _ _ Hg Hp Hfit Hd1 Hf1) as [Hp2 Hf2]. fold bs in Hp2, Hf2.
  set (m2 := wr32 (wr32 m1 (pg_flags p) 0) (pg_free_pages p) (Z.of_nat n)) in *.
  set (s2 := set_free_page_num (k_free_page_num s + Z.of_nat n) (set_mem m2 s)).
  destruct (merge_down_spec s2 bs1 p n t k rest Hg Hp2) as (m3 & Hrun3 & Hp3 & Hf3). fold bs in Hf3.
  destruct (down (p, n) ((t, k) :: rest)) as [|[p' n'] rest'] eqn:Edown.
  { unfold down in Edown. destruct (_ =? _); done. }
  assert (p' = p) as -> by (unfold down in Edown; destruct (_ =? _); by inversion Edown).
  assert (Epages : pool_pages (bs1 ++ (p, n') :: rest') = pool_pages bs).
  { unfold bs. rewrite !pool_pages_app, <- Edown, pool_pages_down. done. }
  assert (Hgh : no_ghost m3 p).
  { unfold no_ghost. pose proof (ghost_off _ _ Hg (pl_pages _ _ _ Hp2)) as Hoff.
    rewrite Hf3, Hf2 by exact Hoff. exact Hghost. }
  destruct (merge_up_spec (set_mem m3 s2) bs1 p n' rest' Hg Hp3 Hgh) as (m4 & Hrun4 & Hp4 & Hf4).
  rewrite Epages in Hf4.
  exists (set_mem m4 s2). split; [|split; [done|split]].
  - unfold free_page. krun. rewrite Hscan, (proj2 (Z.eqb_neq _ _) Ht). krun. rewrite Nat2Z.id, Hins. krun.
    rewrite Hnum. wsmall. rewrite <- Hnum. change (set_free_page_num _ _) with s2.
    rewrite Hrun3. exact Hrun4.
  - constructor; [exact Hg|exact Hp4|]. unfold s2. cbn. rewrite Hnum, <- Esz. unfold pool_size.
    by rewrite pool_pages_up, Epages.
  - intros a Ha. cbn. rewrite Hf4, Hf3, Hf2 by done. done.
Qed.

(** ** Without the counts

    Pages whose inner counts are not zero are linked in the same way; the list of
    free pages is right, the counts need not be. *)
Definition linked (ps : list Z) (m m' : memory) : Prop :=
  dlist m' free_pages_head (pg_node <$> ps) /\ forall a, off_pool ps a -> rd32 m' a = rd32 m a.

Lemma linked_store base ps m m' q c v :
  geom base -> (forall q, q ∈ ps -> is_page base q) -> q ∈ ps -> c = pg_flags q \/ c = pg_free_pages q ->
  linked ps m m' -> linked ps m (wr32 m' c v).
Proof.
  intros Hg Hps Hq Hc [Hd Hf]. split.
  - apply dlist_wr32; [|done]. destruct Hc as [-> | ->]; eapply page_words_off; eauto; lia.
  - intros a [Ho Ha]. destruct (Ha q Hq). rewrite rd32_wr32_ne by (by destruct Hc as [-> | ->]). by apply Hf.
Qed.

Lemma merge_down_links base ps m m' s p n t :
  geom base -> (forall q, q ∈ ps -> is_page base q) -> p ∈ ps -> t ∈ ps -> linked ps m m' ->
  exists m'', merge_down p n t (set_mem m' s) = Ok tt (set_mem m'' s) /\ linked ps m m''.
Proof.
  intros Hg Hps Hp Ht Hl. unfold merge_down. destruct (page_add p n =? t); krun; [|by exists m'].
  eexists. split; [reflexivity|]. apply (linked_store base _ _ _ t); [done..|by right|]. apply (linked_store base _ _ _ p); [done..|by right|done].
Qed.

Lemma merge_up_links base ps1 p ps2 m m' s :
  geom base -> (forall q, q ∈ ps1 ++ p :: ps2 -> is_page base q) -> no_ghost m p -> linked (ps1 ++ p :: ps2) m m' ->
  exists m'', merge_up p (set_mem m' s) = Ok tt (set_mem m'' s) /\ linked (ps1 ++ p :: ps2) m m''.
Proof.
  intros Hg Hps Hgh Hl. pose proof Hl as [Hd Hf]. rewrite fmap_app in Hd. pose proof (dlist_prev _ _ _ _ _ Hd) as Hprev.
  unfold merge_up. krun. unfold node_prev. rewrite Hprev. destruct ps1 as [|z ps1 _] using rev_ind.
  - change (before free_pages_head (pg_node <$> [])) with free_pages_head.
    rewrite (proj2 (Z.eqb_neq _ _)); [krun; by exists m'|]. unfold no_ghost in Hgh. by rewrite Hf by (by eapply ghost_off).
  - rewrite fmap_app. change (pg_node <$> [z]) with [pg_node z]. rewrite before_snoc.
    rewrite (page_of_pg_node base) by (apply Hg || apply Hps; elt). destruct (_ =? p); krun; [|by exists m'].
    eexists. split; [reflexivity|]. apply (linked_store base _ _ _ p); [done|done|elt|by right|]. apply (linked_store base _ _ _ z); [done|done|elt|by right|done].
Qed.

Lemma free_page_links s bs1 p n bs2 fuel :
  let bs := bs1 ++ (p, n) :: bs2 in
  pool_ok s (bs1 ++ bs2) -> bs2 <> [] -> room (k_pages s) bs1 p n bs2 ->
  no_ghost (k_mem s) p -> (length (pool_pages bs1) < fuel)%nat ->
  exists s', free_page fuel p (Z.of_nat n) s = Ok tt s' /\ pool_step s s' /\
    k_free_page_num s' = k_free_page_num s + Z.of_nat n /\ linked (pool_pages bs) (k_mem s) (k_mem s').
Proof.
  intros bs Hok Hne Hroom Hghost Hfuel. destruct bs2 as [|[t k] rest]; [done|]. clear Hne.
  destruct (free_insert_run s bs1 p n t k rest fuel Hok Hroom Hfuel) as (Hscan & Ht & Htin & Hsz & Esz & m1 & Hins & Hd1 & Hf1).
  fold bs in Htin, Hsz, Esz, Hd1, Hf1. destruct Hok as [Hg Hp Hnum].
  destruct (freed_pages _ _ _ _ _ _ _ _ Hp Hroom) as (l & _ & _ & Hall & Ebs & _). fold bs in Hall, Ebs.
  assert (Eps : exists ps2, pool_pages bs = pool_pages bs1 ++ p :: ps2).
  { rewrite Ebs. destruct n; [destruct Hroom; lia|]. cbn [pages_from app]. eauto. }
  destruct Eps as [ps2 Eps]. assert (Hpin : p ∈ pool_pages bs) by (rewrite Eps; elt).
  set (m2 := wr32 (wr32 m1 (pg_flags p) 0) (pg_free_pages p) (Z.of_nat n)).
  assert (L2 : linked (pool_pages bs) (k_mem s) m2).
  { apply (linked_store (k_pages s) _ _ _ p); [done..|by right|]. apply (linked_store (k_pages s) _ _ _ p); [done..|by left|].
    split; [done|]. intros a [Ho _]. by apply Hf1. }
  set (s2 := set_free_page_num (k_free_page_num s + Z.of_nat n) s).
  destruct (merge_down_links _ _ _ _ s2 p (Z.of_nat n) t Hg Hall Hpin Htin L2) as (m3 & R3 & L3).
  rewrite Eps in Hall, L3.
  destruct (merge_up_links _ _ p ps2 _ _ s2 Hg Hall Hghost L3) as (m4 & R4 & L4).
  exists (set_mem m4 s2). split; [|split; [done|split; [done|by rewrite Eps]]].
  unfold free_page. krun. rewrite Hscan, (proj2 (Z.eqb_neq _ _) Ht). krun. rewrite Nat2Z.id, Hins. krun.
  rewrite Hnum. wsmall. rewrite <- Hnum. fold m2. change (set_free_page_num _ _) with (set_mem m2 s2). by rewrite R3.
Qed.

(** C6: [free_page] of a run below some free run, in a pool with room for it there, its
    pages after the first without counts: the run is linked in its place, it swallows
    the run right above it, it is swallowed by the run right below it when that one has
    a single page (a longer run below stays a run of its own), and the pool is well
    formed again; no word outside the pool changes. The words in front of the list head
    must not read as a page that ends where the run starts. *)
Theorem free_page_merges s bs1 p n bs2 fuel :
  pool_ok s (bs1 ++ bs2) -> bs2 <> [] -> fits (k_pages s) (k_mem s) bs1 p n bs2 ->
  no_ghost (k_mem s) p -> (length (pool_pages bs1) < fuel)%nat ->
  exists s', free_page fuel p (Z.of_nat n) s = Ok tt s' /\ pool_step s s' /\
    pool_ok s' (up bs1 (down (p, n) bs2)) /\
    (forall a, off_pool (pool_pages (bs1 ++ (p, n) :: bs2)) a -> rd32 (k_mem s') a = rd32 (k_mem s) a).
Proof. apply free_page_run. Qed.

(** The two addresses of a page lead back to it. *)
Theorem page_address_roundtrip s i off :
  0 <= k_pages s -> k_pages s + 24 * i < 2 ^ 30 -> 0 <= i < 2 ^ 20 -> 0 <= off < PAGE_SIZE ->
  exists la pa, pg_to_addr_la (w32 (k_pages s + 24 * i + VERTUAL_MEM)) s = Ok la s /\
    pg_to_addr_pa (w32 (k_pages s + 24 * i + VERTUAL_MEM)) s = Ok pa s /\
    w32 (la - VERTUAL_MEM) = pa /\
    la_addr_to_pg (w32 (la + off)) s = Ok (k_pages s + 24 * i) s /\
    pa_addr_to_pg (w32 (pa + off)) s = Ok (k_pages s + 24 * i) s.
Proof.
  intros Hb Hi Hr Ho. do 2 eexists. split; [apply pg_to_addr_la_high; lia|]. split; [apply pg_to_addr_pa_high; lia|].
  split; [rewrite w32_sub_l; f_equal; lia|]. rewrite !w32_add_l.
  split; [by apply la_addr_to_pg_page|by apply pa_addr_to_pg_page].
Qed.

(** Pages given back to an empty pool are dropped. *)
Theorem free_page_empty_pool_drops s p n fuel :
  dlist (k_mem s) free_pages_head [] -> (0 < fuel)%nat -> free_page fuel p n s = Ok tt s.
Proof.
  intros Hd Hfuel. destruct fuel; [lia|]. pose proof (dlist_first _ _ _ Hd) as Hf.
  unfold free_page. cbn [free_scan]. krun. unfold node_next. rewrite Hf.
  change (after free_pages_head []) with free_pages_head. rewrite Z.eqb_refl. krun. done.
Qed.

Variable swap_out : Z -> Z -> K unit.

(** No page is evicted by a request for [n] pages that the pool of the pages [ps]
    serves: memory management has not started, or more than one page is asked
    for, or the replacement has nothing to do in the states the request can lead
    to. *)
Definition alloc_quiet (s : kst) (ps : list Z) (n : nat) : Prop :=
  k_is_vmm_inited s <> 1 \/ n <> 1%nat \/
  forall s1, pool_step s s1 -> (forall a, off_pool ps a -> rd32 (k_mem s1) a = rd32 (k_mem s) a) ->
    swap_out (k_mm s) 1 s1 = Ok tt s1.

Lemma alloc_finish_quiet s ps n page s1 : alloc_quiet s ps n -> pool_step s s1 ->
  (forall a, off_pool ps a -> rd32 (k_mem s1) a = rd32 (k_mem s) a) ->
  exists l, alloc_finish swap_out (Z.of_nat n) page s1 = Ok (w32 (page + VERTUAL_MEM)) (set_log l s1).
Proof.
  intros Hq Hst Hf. assert (E : k_is_vmm_inited s1 = k_is_vmm_inited s /\ k_mm s1 = k_mm s) by (by rewrite Hst).
  destruct E as [E1 E2]. unfold alloc_finish. krun. rewrite E1, E2.
  assert ((if (k_is_vmm_inited s =? 1) && (Z.of_nat n =? 1) then swap_out (k_mm s) 1 else fun s0 => Ok tt s0) s1 = Ok tt s1) as ->.
  { destruct Hq as [Hq|[Hq|Hq]].
    - by rewrite (proj2 (Z.eqb_neq _ _) Hq).
    - rewrite (proj2 (Z.eqb_neq (Z.of_nat n) 1)) by lia. by rewrite andb_false_r.
    - destruct (_ && _); [|done]. by apply Hq. }
  unfold pg_to_addr_la. krun. eauto.
Qed.

Lemma alloc_page_front s p k rest n fuel :
  pool_ok s ((p, k) :: rest) -> (0 < n < k)%nat -> (0 < fuel)%nat ->
  alloc_quiet s (pool_pages ((p, k) :: rest)) n ->
  exists s', alloc_page swap_out fuel (Z.of_nat n) s = Ok (p + VERTUAL_MEM) s' /\ pool_step s s' /\
    pool_ok s' ((p + sizeof_Page * Z.of_nat n, (k - n)%nat) :: rest) /\
    (forall q, q ∈ pages_from (p + sizeof_Page) (n - 1) -> rd32 (k_mem s') (pg_free_pages q) = 0) /\
    (forall a, off_pool (pool_pages ((p, k) :: rest)) a -> rd32 (k_mem s') a = rd32 (k_mem s) a).
Proof.
  intros Hok Hn Hfuel Hno. destruct fuel as [|fuel]; [lia|].
  destruct (alloc_take_spec swap_out s p k rest n Hok Hn) as (m' & Hrun & Hok' & Hz & Hf).
  pose proof Hok as [Hg Hp Hnum]. pose proof (pool_size_bound _ _ _ Hg Hp) as Hsz.
  pose proof (pool_head_page _ _ _ _ _ Hp) as Hpg.
  assert (Hnk : Z.of_nat k <= pool_size ((p, k) :: rest)).
  { unfold pool_size. simpl. rewrite length_app, length_pages_from. lia. }
  unfold alloc_page. krun. rewrite Hnum.
  destruct (Z.ltb_spec (pool_size ((p, k) :: rest)) (Z.of_nat n)); [lia|].
  rewrite (alloc_scan_hit swap_out s p k rest) by (done || lia). rewrite Hrun.
  set (s1 := set_free_page_num (k_free_page_num s - Z.of_nat n) (set_mem m' s)) in *.
  destruct (alloc_finish_quiet s _ n p s1 Hno) as [l ->]; [by destruct s|exact Hf|].
  eexists. split; [|split; [|split; [|split]]].
  - f_equal. unfold is_page, sizeof_Page, VERTUAL_MEM in *. destruct Hg. wsmall. lia.
  - by destruct s.
  - destruct Hok' as [? [] ?]. constructor; [done|constructor; done|done].
  - exact Hz.
  - exact Hf.
Qed.

(** The interface of the pool for those who take pages from it (the kernel heap,
    the stacks of threads): where nothing is evicted, pages come from the front of
    the first block, and nothing outside the pool changes. *)
Class PageSource (take : Z -> K Z) (quiet : kst -> list Z -> nat -> Prop) : Prop := {
  take_front : forall s p k rest n, pool_ok s ((p, k) :: rest) -> (0 < n < k)%nat -> quiet s (pool_pages ((p, k) :: rest)) n ->
    exists s', take (Z.of_nat n) s = Ok (p + VERTUAL_MEM) s' /\ pool_step s s' /\
      pool_ok s' ((p + sizeof_Page * Z.of_nat n, (k - n)%nat) :: rest) /\
      forall a, off_pool (pool_pages ((p, k) :: rest)) a -> rd32 (k_mem s') a = rd32 (k_mem s) a
}.

Lemma alloc_page_source fuel : (0 < fuel)%nat -> PageSource (alloc_page swap_out fuel) alloc_quiet.
Proof.
  intros Hf. constructor. intros s p k rest n Hok Hn Hv.
  destruct (alloc_page_front s p k rest n fuel Hok Hn Hf Hv) as (s' & R & Hst & Hok' & _ & F). by exists s'.
Qed.

#[export] Instance alloc_page_source_S fuel : PageSource (alloc_page swap_out (S fuel)) alloc_quiet.
Proof. apply alloc_page_source. lia. Qed.

Theorem alloc_page_too_few s n fuel :
  k_free_page_num s < n -> alloc_page swap_out fuel n s = Ok NULL s.
Proof. intros Hn. unfold alloc_page. krun. destruct (Z.ltb_spec (k_free_page_num s) n); [done|lia]. Qed.

Lemma alloc_page_small_block s p k rest n fuel :
  pool_ok s ((p, k) :: rest) -> Z.of_nat k < n < 2 ^ 31 ->
  (length (pool_pages ((p, k) :: rest)) < fuel)%nat ->
  alloc_page swap_out fuel n s = Ok NULL s.
Proof.
  intros Hok Hn Hfuel. destruct (pool_first _ _ _ _ Hok) as (Hf & _ & Ho & Hk).
  unfold alloc_page. krun. destruct (Z.ltb_spec (k_free_page_num s) n); [done|].
  apply (alloc_scan_miss swap_out s n (pg_node <$> pool_pages ((p, k) :: rest)) []).
  - apply Hok.
  - rewrite Hf, Ho, Hk. wsmall. lia.
  - by rewrite length_fmap.
Qed.

(** C5: [alloc_page] of n pages on a pool of free runs, in a state where the request
    evicts nothing (memory management is off, n is not 1, or [swap_out] has nothing to
    do): when the first run is longer than n its first n pages are taken, what remains
    of it stays at the front, n is subtracted from the count of free pages and no word
    outside the pool changes; when the first run is shorter the result is NULL and
    nothing changes, whatever the other runs hold. *)
Theorem alloc_page_takes_front s p k rest n fuel :
  pool_ok s ((p, k) :: rest) -> (0 < n)%nat -> n <> k -> Z.of_nat n < 2 ^ 31 ->
  (length (pool_pages ((p, k) :: rest)) < fuel)%nat -> alloc_quiet s (pool_pages ((p, k) :: rest)) n ->
  if decide (n < k)%nat then
    exists s', alloc_page swap_out fuel (Z.of_nat n) s = Ok (p + VERTUAL_MEM) s' /\ pool_step s s' /\
      pool_ok s' ((p + sizeof_Page * Z.of_nat n, (k - n)%nat) :: rest) /\
      (forall q, q ∈ pages_from (p + sizeof_Page) (n - 1) -> rd32 (k_mem s') (pg_free_pages q) = 0) /\
      (forall a, off_pool (pool_pages ((p, k) :: rest)) a -> rd32 (k_mem s') a = rd32 (k_mem s) a)
  else alloc_page swap_out fuel (Z.of_nat n) s = Ok NULL s.
Proof.
  intros Hok Hn Hne Hn31 Hf Hq. destruct (decide (n < k)%nat).
  - apply alloc_page_front; [done|lia|lia|done].
  - by apply (alloc_page_small_block s p k rest); [|lia|].
Qed.

(** The run taken is a run again, in front of what is left of its block. *)
Lemma taken_room s s1 p k rest n :
  let q := p + sizeof_Page * Z.of_nat n in
  pool_ok s ((p, k) :: rest) -> (0 < n < k)%nat -> pool_ok s1 ((q, (k - n)%nat) :: rest) ->
  room (k_pages s) [] p n ((q, (k - n)%nat) :: rest).
Proof.
  intros q [Hg Hp _] Hn Hok1. pose proof (pool_split_head _ _ _ _ _ n Hp ltac:(lia)) as Hsplit. fold q in Hsplit.
  split; [lia|..].
  - intros x Hx. apply (pl_pages _ _ _ Hp). rewrite Hsplit. revert Hx. elt.
  - intros x ?%elem_of_nil. done.
  - intros x. pose proof (pl_sorted _ _ _ (po_pool _ _ Hok1)) as Hso.
    cbn [pool_pages] in *. destruct (k - n)%nat eqn:E; [lia|]. cbn [pages_from app] in *.
    apply StronglySorted_cons in Hso as [Hso _]. rewrite Forall_forall in Hso.
    intros [->|Hx%Hso]%elem_of_cons; lia.
Qed.

(** The page structure [alloc_page] hands out has an address that leads back to the
    structure in the pool. *)
Lemma page_there_and_back s p : geom (k_pages s) -> is_page (k_pages s) p -> p < k_pages s + sizeof_Page * 2 ^ 20 ->
  exists la, pg_to_addr_la (p + VERTUAL_MEM) s = Ok la s /\ la_addr_to_pg la s = Ok p s.
Proof.
  intros Hg (Hlo & Hhi & Hmod) H20. unfold sizeof_Page, VERTUAL_MEM in *. destruct Hg.
  assert (E : p = k_pages s + 24 * ((p - k_pages s) / 24)) by lia_div.
  set (i := (p - k_pages s) / 24) in *. rewrite E. exists (w32 (i * PAGE_SIZE + k_pt_begin s + VERTUAL_MEM)). split.
  - rewrite <- (pg_to_addr_la_high s i) by lia. f_equal. unfold VERTUAL_MEM. wsmall. lia.
  - rewrite <- (Z.add_0_r (_ + VERTUAL_MEM)). apply la_addr_to_pg_page; unfold PAGE_SIZE; lia.
Qed.

(** C7: Pages taken from a first run that is longer, in a state where nothing is
    evicted, and given back the way the kernel does it, by the address of their frame
    ([pg_to_addr_la] of what [alloc_page] returned, [la_addr_to_pg] of that,
    [free_page]), leave the pool with the same free runs as before, and no word outside
    the pool changes. The words in front of the list head must not read as a page that
    ends where the run starts. *)
Theorem alloc_free_roundtrip s p k rest n fuel :
  pool_ok s ((p, k) :: rest) -> (0 < n < k)%nat -> (0 < fuel)%nat ->
  alloc_quiet s (pool_pages ((p, k) :: rest)) n -> no_ghost (k_mem s) p -> p < k_pages s + sizeof_Page * 2 ^ 20 ->
  exists s', (pg ← alloc_page swap_out fuel (Z.of_nat n); la ← pg_to_addr_la pg;
      q ← la_addr_to_pg la; free_page fuel q (Z.of_nat n)) s = Ok tt s' /\
    pool_ok s' ((p, k) :: rest) /\
    (forall a, off_pool (pool_pages ((p, k) :: rest)) a -> rd32 (k_mem s') a = rd32 (k_mem s) a).
Proof.
  intros Hok Hn Hfuel Hno Hghost Hi20.
  destruct (alloc_page_front s p k rest n fuel Hok Hn Hfuel Hno) as (s1 & Hrun & Hst & Hok1 & Hz & Hf).
  pose proof Hok as [Hg Hp _]. assert (Ep : k_pages s1 = k_pages s) by (by rewrite Hst).
  assert (Hpg : is_page (k_pages s) p) by (by eapply pool_head_page).
  pose proof (taken_room _ _ _ _ _ _ Hok Hn Hok1) as Hroom. set (q := p + sizeof_Page * Z.of_nat n) in *.
  destruct (free_page_run s1 [] p n ((q, (k - n)%nat) :: rest) fuel) as (s2 & Hfree & _ & Hok2 & F2); [done|done| | |done|].
  - rewrite Ep. by split.
  - unfold no_ghost. rewrite Hf; [exact Hghost|]. eapply ghost_off; [exact Hg|apply Hp].
  - exists s2. destruct (page_there_and_back s1 p) as (la & R1 & R2); [by rewrite Ep..|].
    split; [|split].
    + unfold mbind, K_bind. rewrite Hrun, R1, R2. exact Hfree.
    + unfold down in Hok2. cbn [fst snd] in Hok2. fold q in Hok2. rewrite Z.eqb_refl in Hok2. cbn [up] in Hok2.
      by replace (n + (k - n))%nat with k in Hok2 by lia.
    + intros x Hx. rewrite F2; [by apply Hf|]. cbn [app]. pose proof (pool_split_head _ _ _ _ _ n Hp ltac:(lia)) as E.
      fold q in E. cbn [pool_pages] in *. by rewrite <- E.
Qed.

(** * What the allocator loses *)

(** A block taken whole leaves the next block with a count of zero. *)
Lemma alloc_take_exact s p k q j rest :
  pool_ok s ((p, k) :: (q, j) :: rest) -> k_is_vmm_inited s <> 1 \/ k <> 1%nat ->
  exists s1, alloc_take swap_out (Z.of_nat k) p s = Ok (w32 (p + VERTUAL_MEM)) s1 /\
    k_free_page_num s1 = pool_size ((q, j) :: rest) /\ k_pages s1 = k_pages s /\
    dlist (k_mem s1) free_pages_head (pg_node <$> pool_pages ((q, j) :: rest)) /\
    rd32 (k_mem s1) (pg_free_pages q) = 0.
Proof.
  intros Hok Hno. pose proof (pool_first _ _ _ _ Hok) as (_ & _ & Hpp & Hk).
  destruct Hok as [Hg Hp Hnum]. pose proof (pool_size_bound _ _ _ Hg Hp) as Hsz.
  pose proof (pl_dlist _ _ _ Hp) as Hdl. cbn [pool_pages] in Hdl. rewrite fmap_app in Hdl.
  pose proof (pl_count _ _ _ Hp) as Hc. apply Forall_cons in Hc as [(Hk0 & _ & _) Hc].
  apply Forall_cons in Hc as [(Hj & _ & _) _]. cbn [fst snd] in *.
  apply (alloc_unlink_spec _ _ s _ (pg_node p)) in Hdl as (m1 & Hrun & Hd1 & Hf1).
  2:{ destruct k; [lia|]. done. }
  change (pages_from q j ++ pool_pages rest) with (pool_pages ((q, j) :: rest)) in *.
  rewrite length_fmap, length_pages_from, after_pool in Hrun by done.
  assert (Hq : is_page (k_pages s) q).
  { apply (pl_pages _ _ _ Hp). cbn [pool_pages]. destruct j; [lia|]. simpl. elt. }
  assert (Hps : forall x, x ∈ pool_pages ((q, j) :: rest) -> is_page (k_pages s) x).
  { intros x Hx. apply (pl_pages _ _ _ Hp). cbn [pool_pages] in *. revert Hx. elt. }
  assert (Esz : pool_size ((p, k) :: (q, j) :: rest) = Z.of_nat k + pool_size ((q, j) :: rest)).
  { unfold pool_size. cbn [pool_pages]. rewrite length_app, length_pages_from. lia. }
  unfold alloc_take. krun. rewrite Nat2Z.id. unfold node_next. rewrite Hrun. krun.
  rewrite (page_of_pg_node (k_pages s) q) by (done || apply Hg). rewrite Hk, Hnum.
  replace (Z.of_nat k - Z.of_nat k) with 0 by lia. rewrite Esz.
  replace (Z.of_nat k + pool_size ((q, j) :: rest) - Z.of_nat k) with (pool_size ((q, j) :: rest)) by lia.
  assert (0 <= pool_size ((q, j) :: rest)) by (unfold pool_size; lia). wsmall.
  unfold alloc_finish, pg_to_addr_la. krun.
  assert ((k_is_vmm_inited s =? 1) && (Z.of_nat k =? 1) = false) as ->.
  { apply andb_false_iff. destruct Hno; [left|right]; apply Z.eqb_neq; lia. }
  krun. eexists. split; [done|]. cbn. split; [done|split; [done|split]].
  - apply dlist_wr32; [eapply page_words_off; eauto; lia|].
    apply dlist_wr32; [eapply page_words_off; eauto; lia|]. done.
  - destruct Hg. rewrite rd32_wr32_ne by wds. by apply rd32_wr32_small.
Qed.

Theorem alloc_page_exact_fit_starves s p k q j rest fuel n' :
  pool_ok s ((p, k) :: (q, j) :: rest) -> k_is_vmm_inited s <> 1 \/ k <> 1%nat ->
  (length (pool_pages ((p, k) :: (q, j) :: rest)) < fuel)%nat -> 0 < n' < 2 ^ 31 ->
  exists s1, alloc_page swap_out fuel (Z.of_nat k) s = Ok (w32 (p + VERTUAL_MEM)) s1 /\
    0 < k_free_page_num s1 /\ alloc_page swap_out fuel n' s1 = Ok NULL s1.
Proof.
  intros Hok Hno Hfuel Hn'. destruct (alloc_take_exact _ _ _ _ _ _ Hok Hno) as (s1 & Hrun & Hnum & Epg & Hd & Hz).
  pose proof Hok as [Hg Hp Hnum0]. pose proof (pool_size_bound _ _ _ Hg Hp) as Hsz.
  pose proof (pl_count _ _ _ Hp) as Hc. apply Forall_cons in Hc as [(Hk0 & _ & _) Hc].
  apply Forall_cons in Hc as [(Hj & _ & _) _]. cbn [fst snd] in *.
  assert (Esz : pool_size ((p, k) :: (q, j) :: rest) = Z.of_nat k + pool_size ((q, j) :: rest)).
  { unfold pool_size. cbn [pool_pages]. rewrite length_app, length_pages_from. lia. }
  assert (0 < pool_size ((q, j) :: rest)).
  { unfold pool_size. cbn [pool_pages]. rewrite length_app, length_pages_from. lia. }
  exists s1. split; [|split; [lia|]].
  - destruct fuel as [|fuel]; [lia|]. unfold alloc_page. krun. rewrite Hnum0.
    destruct (Z.ltb_spec (pool_size ((p, k) :: (q, j) :: rest)) (Z.of_nat k)); [lia|].
    rewrite (alloc_scan_hit swap_out s p k ((q, j) :: rest)) by (done || lia). done.
  - unfold alloc_page. krun. destruct (Z.ltb_spec (k_free_page_num s1) n'); [done|].
    apply (alloc_scan_miss swap_out s1 n' (pg_node <$> pool_pages ((q, j) :: rest)) []).
    + done.
    + unfold node_next. rewrite (dlist_first _ _ _ Hd), after_pool by done.
      rewrite (page_of_pg_node (k_pages s)); [rewrite Hz; wsmall; lia|apply Hg|].
      apply (pl_pages _ _ _ Hp). cbn [pool_pages]. destruct j; [lia|]. simpl. elt.
    + rewrite length_fmap. cbn [pool_pages] in Hfuel |- *. rewrite !length_app in *. lia.
Qed.

End Properties.
