(* ===== verification/Paging.v ===== *)
(** Paging: the page directory and table entries of include/pmm.h, [get_pte],
    [map] and [unmap] of mm/pmm.c, the tables [kern_init] (entry/entry.c) turns
    paging on with, and [page_init], against the i386's two-level translation. *)

From S2P Require Import Prelude Machine DList Str Pmm.

Local Open Scope Z_scope.

(** * [struct pde_t] and [struct pte_t]: [sign:9], [os:3], address [:20] *)

Definition pte_sign (w : Z) : Z := bf_get 0 9 w.
Definition pte_os (w : Z) : Z := bf_get 9 3 w.
Definition pte_page_addr (w : Z) : Z := bf_get 12 20 w.

Definition set_pte_sign (a v : Z) : K unit := e ← load a; store a (bf_set 0 9 v e).
Definition set_pte_os (a v : Z) : K unit := e ← load a; store a (bf_set 9 3 v e).
Definition set_pte_page_addr (a v : Z) : K unit := e ← load a; store a (bf_set 12 20 v e).

(** [&pde[la >> 22]] *)
Definition pde_at (pde la : Z) : Z := w32 (pde + 4 * Z.shiftr la 22).

Definition get_pg_addr_la (pte : Z) : K Z :=
  e ← load pte; mret (w32 (w32 (Z.shiftl (pte_page_addr e) 12) + VERTUAL_MEM)).

Definition get_pg_addr_pa (pte : Z) : K Z :=
  e ← load pte; mret (w32 (Z.shiftl (pte_page_addr e) 12)).

(** The [return] of [get_pte]. *)
Definition get_pte_slot (pde la : Z) : K Z :=
  d ← load (pde_at pde la);
  mret (w32 (w32 (w32 (Z.shiftl (pte_page_addr d) 12) + VERTUAL_MEM)
             + 4 * Z.land (Z.shiftr la 12) 0x3ff)).

Section Paging.
Context `{Symbols}.
Variable alloc_page : Z -> K Z.
Variable fuel : nat.

Definition get_pte (pde la is_create : Z) : K Z :=
  d ← load (pde_at pde la);
  if Z.land (pte_sign d) 0x1 =? 0 then
    if is_create =? 0 then mret NULL
    else
      pg ← alloc_page 1;
      if pg =? NULL then mret NULL
      else
        store (pg_ref pg) 1;;
        a ← pg_to_addr_la pg;
        memset a 0 PAGE_SIZE;;
        set_pte_os (pde_at pde la) 0;;
        set_pte_sign (pde_at pde la) 0x7;;
        pa ← pg_to_addr_pa pg;
        set_pte_page_addr (pde_at pde la) (Z.shiftr pa 12);;
        get_pte_slot pde la
  else get_pte_slot pde la.

Definition unmap (pde la : Z) : K unit :=
  pte ← get_pte pde la 0;
  e ← load pte;
  when (Z.land (pte_sign e) 0x1 =? 1)
    (a ← get_pg_addr_la pte;
     pg ← la_addr_to_pg a;
     r ← load (pg_ref pg);
     store (pg_ref pg) (r - 1)%w;;
     r ← load (pg_ref pg);
     when (r =? 0) (free_page fuel pg 1);;
     set_pte_page_addr pte 0;;
     set_pte_sign pte 0;;
     emit (EvInvlpg la)).

Definition map (pde la pa bitsign : Z) : K unit :=
  pte ← get_pte pde la 1;
  new_pg ← pa_addr_to_pg pa;
  r ← load (pg_ref new_pg);
  store (pg_ref new_pg) (r + 1)%w;;
  e ← load pte;
  when (Z.land (pte_sign e) 0x1 =? 1)
    (a ← get_pg_addr_la pte;
     pg ← la_addr_to_pg a;
     if pg =? new_pg then r ← load (pg_ref pg); store (pg_ref pg) (r - 1)%w
     else a ← get_pg_addr_la pte; unmap pde a);;
  set_pte_sign pte (w8 bitsign);;
  set_pte_page_addr pte (Z.shiftr pa 12);;
  emit (EvInvlpg la).

(** * [page_init] *)

(** The BIOS memory map the boot sector left at 0x8000. *)
Definition memmap : Z := 0x8000 + VERTUAL_MEM.
Definition memmap_base_lo (i : Z) : Z := w32 (memmap + 4 + 20 * i).
Definition memmap_length_lo (i : Z) : Z := w32 (memmap + 4 + 20 * i + 8).
Definition memmap_type (i : Z) : Z := w32 (memmap + 4 + 20 * i + 16).

Fixpoint print_memory_loop (n : nat) (i : Z) : K unit :=
  match n with
  | O => mret tt
  | S n =>
      b ← load (memmap_base_lo i); l ← load (memmap_length_lo i); t ← load (memmap_type i);
      printf "base_address: %x  length: %x  type: %d\n" [b; l; t];;
      print_memory_loop n (i + 1)
  end.

Definition print_memory : K unit :=
  num ← load memmap; print_memory_loop (Z.to_nat (s32 num)) 0.

(** [list_insert_before(&free_pages.head, &(pages + i)->node)] for each page. *)
Fixpoint page_init_link (n : nat) (pages i : Z) : K unit :=
  match n with
  | O => mret tt
  | S n =>
      on_mem (list_insert_before free_pages_head (pg_node (page_add pages i)));;
      page_init_link n pages (i + 1)
  end.

(** The page structures of the region and the pool that holds them all. *)
Definition page_init_pool (free_page_num : Z) : K unit :=
  pages ← get k_pages;
  on_mem (list_init free_pages_head);;
  memset pages 0 (w32 (free_page_num * sizeof_Page));;
  store (pg_free_pages pages) free_page_num;;
  upd (set_free_page_num free_page_num);;
  page_init_link (Z.to_nat free_page_num) pages 0.

(** The loop that maps the free pages into the high window. *)
Fixpoint page_init_map (n : nat) (i last : Z) : K unit :=
  match n with
  | O => nofuel
  | S n =>
      if i <? last then
        pd ← get k_pd;
        pte ← get_pte pd i 1;
        set_pte_sign pte 0x3;;
        set_pte_page_addr pte (Z.shiftr (i - VERTUAL_MEM)%w 12);;
        page_init_map n (w32 (i + PAGE_SIZE)) last
      else mret tt
  end.

(** The number of pages of a region, [pages] being its first. *)
Definition region_pages (pages pt_end : Z) : Z :=
  let free_page_num := s32 (w32 (pt_end - pages) / PAGE_SIZE) in
  if MAX_PAGE_NUM <? free_page_num then MAX_PAGE_NUM else free_page_num.

Definition page_init_region (i : Z) : K unit :=
  let free_mem_begin := (kern_end - VERTUAL_MEM)%w in
  b ← load (memmap_base_lo i); l ← load (memmap_length_lo i);
  let free_mem_end := (b + l)%w in
  printf "free_mem_begin:===%x===, free_mem_end:===%x===\n" [free_mem_begin; free_mem_end];;
  upd (set_pages (ROUNDUP free_mem_begin));;
  pages ← get k_pages;
  let pt_end := ROUNDDOWN free_mem_end in
  let free_page_num := region_pages pages pt_end in
  upd (set_pt_begin (ROUNDUP (w32 (pages + free_page_num * sizeof_Page))));;
  pt_begin ← get k_pt_begin;
  printf "=====%x=====\n" [pt_begin];;
  page_init_pool free_page_num;;
  page_init_map fuel (w32 (pt_begin + VERTUAL_MEM)) (w32 (pt_end + VERTUAL_MEM));;
  pd ← get k_pd;
  emit (EvCr3 pd).

Fixpoint page_init_loop (n : nat) (i : Z) : K unit :=
  match n with
  | O => mret tt
  | S n =>
      t ← load (memmap_type i);
      when ((t =? 1) && negb (i =? 0)) (page_init_region i);;
      page_init_loop n (i + 1)
  end.

Definition page_init : K unit :=
  num ← load memmap; page_init_loop (Z.to_nat (s32 num)) 0.

End Paging.

(** * [kern_init]'s first page tables *)

Section Boot.
Context `{Symbols}.

(** The two pointers of the [.init.data] section. *)
Definition pd_init : Z := 0x0000.
Definition fst_init : Z := 0x1000.

Fixpoint kern_init_clear (n : nat) (i : Z) : K unit :=
  match n with
  | O => mret tt
  | S n => store (pd_init + 4 * i) 0;; kern_init_clear n (i + 1)
  end.

Definition kern_init_pde (i : Z) : K unit :=
  set_pte_page_addr (pd_init + 4 * i) (Z.shiftr fst_init 12);;
  set_pte_os (pd_init + 4 * i) 0;;
  set_pte_sign (pd_init + 4 * i) 0x7.

Fixpoint kern_init_table (n : nat) (i : Z) : K unit :=
  match n with
  | O => mret tt
  | S n =>
      set_pte_page_addr (fst_init + 4 * i) i;;
      set_pte_os (fst_init + 4 * i) 0;;
      set_pte_sign (fst_init + 4 * i) 0x7;;
      kern_init_table n (i + 1)
  end.

(** Up to the [orl] that turns paging on. *)
Definition kern_init_paging : K unit :=
  kern_init_clear (Z.to_nat (PAGE_SIZE / 4)) 0;;
  kern_init_pde 0;;
  kern_init_pde (Z.shiftr kern_start 22);;
  kern_init_table (Z.to_nat (PAGE_SIZE / 4)) 0;;
  emit (EvCr3 pd_init).

End Boot.

(** * The i386's translation

    [walk m pd la] is what the processor does with linear address [la] when
    [cr3] holds [pd]; the tables are read at their physical addresses. *)
Definition present (w : Z) : bool := Z.odd w.
Definition pde_slot (pd la : Z) : Z := pd + 4 * (la / 2 ^ 22).
Definition pte_slot (m : memory) (pd la : Z) : Z :=
  pte_page_addr (rd32 m (pde_slot pd la)) * PAGE_SIZE + 4 * (la / 2 ^ 12 mod 2 ^ 10).

Definition walk (m : memory) (pd la : Z) : option Z :=
  if present (rd32 m (pde_slot pd la)) then
    let e := rd32 m (pte_slot m pd la) in
    if present e then Some (pte_page_addr e * PAGE_SIZE + la mod PAGE_SIZE) else None
  else None.

(** The directory and the present page tables lie in the kernel's window, no
    page table on the directory. *)
Record tables (m : memory) (pd : Z) : Prop := {
  tb_pd : 0 <= pd /\ pd + PAGE_SIZE <= 2 ^ 30;
  tb_pt : forall la, 0 <= la < 2 ^ 32 -> present (rd32 m (pde_slot pd la)) = true ->
    let t := pte_page_addr (rd32 m (pde_slot pd la)) * PAGE_SIZE in
    t + PAGE_SIZE <= 2 ^ 30 /\ (t + PAGE_SIZE <= pd \/ pd + PAGE_SIZE <= t)
}.

(** A word no present table entry occupies. *)
Definition off_tables (m : memory) (pd a : Z) : Prop :=
  forall la, 0 <= la < 2 ^ 32 -> wd a (pde_slot pd la) /\
    (present (rd32 m (pde_slot pd la)) = true -> wd a (pte_slot m pd la)).

Lemma land_1 w : Z.land w 1 = Z.b2z (Z.odd w).
Proof. change 1 with (Z.ones 1). rewrite Z.land_ones by lia. apply Zmod_odd. Qed.

Lemma sign_present w : Z.land (pte_sign w) 1 = Z.b2z (present w).
Proof.
  rewrite land_1. unfold present, pte_sign. rewrite <- !Z.bit0_odd. f_equal.
  unfold bf_get. bits_spec. bits_case.
Qed.

Lemma pte_page_addr_range w : 0 <= pte_page_addr w < 2 ^ 20.
Proof. apply bf_get_range. lia. Qed.

Lemma page_addr_shift w : w32 (Z.shiftl (pte_page_addr w) 12) = pte_page_addr w * PAGE_SIZE.
Proof.
  pose proof (pte_page_addr_range w). unfold PAGE_SIZE.
  rewrite Z.shiftl_mul_pow2 by lia. wsmall. lia.
Qed.

(** ** The word two stores of [map] leave in an entry *)
Definition entry (e sign addr : Z) : Z := bf_set 12 20 addr (w32 (bf_set 0 9 sign e)).

Lemma bf_set_mod off len v w w' :
  0 <= off -> 0 <= len -> off + len <= 32 -> w32 w = w32 w' ->
  w32 (bf_set off len v w) = w32 (bf_set off len v w').
Proof.
  intros ? ? ? Hw. unfold w32 in *. rewrite <- !Z.land_ones in * by lia.
  apply Z.bits_inj'. intros n Hn. assert (Ht := f_equal (fun z => Z.testbit z n) Hw). cbn beta in Ht.
  rewrite !Z.land_spec, !Z.testbit_ones in * by lia. unfold bf_set. bits_spec.
  destruct (Z.leb_spec 0 n), (Z.ltb_spec n 32); try lia; rewrite ?andb_true_r, ?andb_false_r in *; try done.
  cbn [andb] in *. by rewrite Ht.
Qed.

Lemma entry_page_addr e sign addr : 0 <= addr < 2 ^ 20 -> pte_page_addr (w32 (entry e sign addr)) = addr.
Proof.
  intros. unfold pte_page_addr, entry. rewrite bf_get_w32, bf_get_set by lia. by apply land_ones_small.
Qed.

Lemma entry_sign e sign addr : 0 <= sign < 2 ^ 9 -> pte_sign (w32 (entry e sign addr)) = sign.
Proof.
  intros. unfold pte_sign, entry.
  rewrite bf_get_w32, bf_get_set_ne, bf_get_w32, bf_get_set by lia. by apply land_ones_small.
Qed.

Lemma entry_present e sign addr : 0 <= sign < 2 ^ 9 -> present (w32 (entry e sign addr)) = Z.odd sign.
Proof.
  intros Hs. pose proof (sign_present (w32 (entry e sign addr))) as Hp.
  rewrite entry_sign, land_1 in Hp by done. by destruct (present _), (Z.odd sign).
Qed.

Lemma walk_ext m m' pd la :
  rd32 m' (pde_slot pd la) = rd32 m (pde_slot pd la) ->
  (present (rd32 m (pde_slot pd la)) = true -> rd32 m' (pte_slot m pd la) = rd32 m (pte_slot m pd la)) ->
  walk m' pd la = walk m pd la.
Proof.
  intros Hd He. unfold walk, pte_slot in *. rewrite Hd.
  destruct (present _); [|done]. by rewrite He.
Qed.

(** ** Slots *)
Section Slots.
Context (m : memory) (pd : Z) (Htb : tables m pd).

Lemma pde_slot_range la : 0 <= la < 2 ^ 32 -> pd <= pde_slot pd la /\ pde_slot pd la + 4 <= pd + PAGE_SIZE.
Proof. intros. unfold pde_slot, PAGE_SIZE. lia_div. Qed.

Lemma pte_slot_range la : 0 <= la < 2 ^ 32 ->
  let t := pte_page_addr (rd32 m (pde_slot pd la)) * PAGE_SIZE in
  t <= pte_slot m pd la /\ pte_slot m pd la + 4 <= t + PAGE_SIZE.
Proof. intros. unfold pte_slot, PAGE_SIZE in *. cbn zeta. lia_div. Qed.

(** The address [get_pte] computes for the entry is the slot's, in the high window. *)
Lemma get_pte_slot_run s la :
  k_mem s = m -> 0 <= la < 2 ^ 32 -> present (rd32 m (pde_slot pd la)) = true ->
  get_pte_slot pd la s = Ok (pte_slot m pd la + VERTUAL_MEM) s.
Proof.
  intros Em Hla Hp. destruct Htb as [Hpd Hpt]. specialize (Hpt _ Hla Hp). cbn zeta in Hpt.
  pose proof (pde_slot_range la Hla) as Hd. pose proof (pte_slot_range la Hla) as He.
  pose proof (pte_page_addr_range (rd32 m (pde_slot pd la))) as Ha.
  unfold get_pte_slot, pde_at. krun. rewrite Em. rewrite Z.shiftr_div_pow2 by lia. fold (pde_slot pd la).
  rewrite (w32_small (pde_slot pd la)) by (unfold PAGE_SIZE in *; lia).
  rewrite page_addr_shift, w32_add_l. change 0x3ff with (Z.ones 10).
  rewrite Z.land_ones, Z.shiftr_div_pow2 by lia. f_equal.
  unfold pte_slot, PAGE_SIZE, VERTUAL_MEM in *. wsmall. lia.
Qed.

Lemma pde_at_slot la : 0 <= la < 2 ^ 32 -> pde_at pd la = pde_slot pd la.
Proof.
  intros Hla. destruct Htb as [Hpd _]. pose proof (pde_slot_range la Hla).
  unfold pde_at. rewrite Z.shiftr_div_pow2 by lia. apply w32_small. unfold PAGE_SIZE, pde_slot in *. lia.
Qed.

Lemma ka_slot la : 0 <= la < 2 ^ 32 -> present (rd32 m (pde_slot pd la)) = true ->
  ka (pte_slot m pd la + VERTUAL_MEM) = pte_slot m pd la /\ ka (pte_slot m pd la) = pte_slot m pd la.
Proof.
  intros Hla Hp. destruct Htb as [_ Hpt]. specialize (Hpt _ Hla Hp). cbn zeta in Hpt.
  pose proof (pte_slot_range la Hla) as He. pose proof (pte_page_addr_range (rd32 m (pde_slot pd la))).
  unfold PAGE_SIZE, VERTUAL_MEM in *. split; ka_simpl; unfold VERTUAL_MEM; lia.
Qed.

Lemma ka_pde_slot la : 0 <= la < 2 ^ 32 -> ka (pde_slot pd la) = pde_slot pd la.
Proof.
  intros Hla. destruct Htb as [Hpd _]. pose proof (pde_slot_range la Hla).
  unfold PAGE_SIZE in *. apply ka_low. unfold VERTUAL_MEM. lia.
Qed.

(** Entries are equal or apart, and apart from the directory's. *)
Lemma slots_apart la la' : 0 <= la < 2 ^ 32 -> 0 <= la' < 2 ^ 32 ->
  present (rd32 m (pde_slot pd la)) = true ->
  wd (pte_slot m pd la + VERTUAL_MEM) (pde_slot pd la') /\
  (present (rd32 m (pde_slot pd la')) = true -> pte_slot m pd la' <> pte_slot m pd la ->
   wd (pte_slot m pd la + VERTUAL_MEM) (pte_slot m pd la')).
Proof.
  intros Hla Hla' Hp. destruct (ka_slot la Hla Hp) as [Hk _].
  pose proof (pte_slot_range la Hla) as He. pose proof (pde_slot_range la' Hla') as Hd.
  destruct Htb as [_ Hpt]. pose proof (Hpt _ Hla Hp) as Ht. cbn zeta in *. split.
  - unfold wd. rewrite Hk, ka_pde_slot by done. lia.
  - intros Hp' Hne. destruct (ka_slot la' Hla' Hp') as [_ Hk']. unfold wd. rewrite Hk, Hk'.
    unfold pte_slot, PAGE_SIZE in *. lia_div.
Qed.

End Slots.

Lemma slot_low m pd la : tables m pd -> 0 <= la < 2 ^ 32 -> present (rd32 m (pde_slot pd la)) = true ->
  0 <= pte_slot m pd la < 2 ^ 30.
Proof.
  intros Ht Hla Hp. pose proof (tb_pt _ _ Ht la Hla Hp) as Hr. pose proof (pte_slot_range m pd la Hla) as Hsl. cbn zeta in *.
  pose proof (pte_page_addr_range (rd32 m (pde_slot pd la))). unfold PAGE_SIZE in *. lia.
Qed.

#[local] Opaque Z.to_nat.

(** * [get_pte] *)
Section GetPte.
Variable alloc_page : Z -> K Z.

Lemma present_test d : (Z.land (pte_sign d) 0x1 =? 0) = negb (present d).
Proof. rewrite sign_present. by destruct (present d). Qed.

Lemma present_test1 d : (Z.land (pte_sign d) 0x1 =? 1) = present d.
Proof. rewrite sign_present. by destruct (present d). Qed.

Lemma get_pte_present s pd la c :
  tables (k_mem s) pd -> 0 <= la < 2 ^ 32 -> present (rd32 (k_mem s) (pde_slot pd la)) = true ->
  get_pte alloc_page pd la c s = Ok (pte_slot (k_mem s) pd la + VERTUAL_MEM) s.
Proof.
  intros Ht Hla Hp. unfold get_pte. krun. rewrite (pde_at_slot _ _ Ht) by done.
  rewrite present_test, Hp. cbn [negb]. by apply get_pte_slot_run.
Qed.

Lemma get_pte_absent s pd la :
  tables (k_mem s) pd -> 0 <= la < 2 ^ 32 -> present (rd32 (k_mem s) (pde_slot pd la)) = false ->
  get_pte alloc_page pd la 0 s = Ok NULL s.
Proof.
  intros Ht Hla Hp. unfold get_pte. krun. rewrite (pde_at_slot _ _ Ht) by done.
  rewrite present_test, Hp. done.
Qed.

(** Without [is_create] nothing is allocated. *)
Lemma get_pte_no_create alloc' s pd la : get_pte alloc_page pd la 0 s = get_pte alloc' pd la 0 s.
Proof. reflexivity. Qed.

(** The page structure [q] and its frame [t] are free for a new table. *)
Record new_table (s : kst) (pd i t : Z) : Prop := {
  nt_i : 0 <= i ; nt_pages : 0 <= k_pages s /\ k_pages s + sizeof_Page * i + sizeof_Page <= 2 ^ 30 ;
  nt_t : t = i * PAGE_SIZE + k_pt_begin s /\ 0 <= k_pt_begin s /\ t + PAGE_SIZE <= 2 ^ 30 /\ t mod PAGE_SIZE = 0 ;
  nt_ref : off_tables (k_mem s) pd (k_pages s + sizeof_Page * i) ;
  nt_pd : t + PAGE_SIZE <= pd \/ pd + PAGE_SIZE <= t ;
  nt_pt : forall la, 0 <= la < 2 ^ 32 -> present (rd32 (k_mem s) (pde_slot pd la)) = true ->
    pte_page_addr (rd32 (k_mem s) (pde_slot pd la)) * PAGE_SIZE <> t
}.

(** The three stores into a directory entry. *)
Definition entry_os (e sign addr : Z) : Z := bf_set 12 20 addr (w32 (bf_set 0 9 sign (w32 (bf_set 9 3 0 e)))).

Lemma entry_os_entry e sign addr : entry_os e sign addr = entry (w32 (bf_set 9 3 0 e)) sign addr.
Proof. done. Qed.

Lemma rd32_page m a n x :
  span a n -> ka a <= ka x -> ka x + 4 <= ka a + n -> rd32 (memset_loop (Z.to_nat n) a 0 m) x = 0.
Proof. apply memset_zero_word. Qed.

Lemma get_pte_creates_run s s1 pd la i t :
  tables (k_mem s1) pd -> 0 <= la < 2 ^ 32 -> new_table s1 pd i t ->
  rd32 (k_mem s) (pde_slot pd la) = rd32 (k_mem s1) (pde_slot pd la) ->
  present (rd32 (k_mem s1) (pde_slot pd la)) = false ->
  alloc_page 1 s = Ok (k_pages s1 + sizeof_Page * i + VERTUAL_MEM) s1 ->
  let m1 := wr32 (k_mem s1) (k_pages s1 + sizeof_Page * i + VERTUAL_MEM) 1 in
  let m2 := memset_loop (Z.to_nat PAGE_SIZE) (t + VERTUAL_MEM) 0 m1 in
  let e := rd32 (k_mem s1) (pde_slot pd la) in
  exists m', get_pte alloc_page pd la 1 s = get_pte_slot pd la (set_mem m' s1) /\
    rd32 m' (pde_slot pd la) = w32 (entry_os e 7 (t / PAGE_SIZE)) /\
    forall a, wd (pde_slot pd la) a -> rd32 m' a = rd32 m2 a.
Proof.
  intros Ht Hla [Hi Hpg (Et & Hb & Htb & Htm) Href Hpd Hpt] Heq Hnp Hal m1 m2 e.
  pose proof (pde_slot_range pd la Hla) as Hd. pose proof (tb_pd _ _ Ht) as Hpd0.
  set (x := pde_slot pd la) in *.
  assert (Hk : ka x = x) by (by apply (ka_pde_slot (k_mem s1))).
  assert (E2 : rd32 m2 x = e).
  { unfold m2, m1, e. rewrite memset_frame.
    - apply rd32_wr32_ne, wd_alias; [unfold sizeof_Page in *; lia|]. by apply Href.
    - unfold span, PAGE_SIZE, VERTUAL_MEM in *. lia.
    - done.
    - rewrite Hk, ka_alias by (unfold PAGE_SIZE in *; lia).
      rewrite ka_low by (unfold PAGE_SIZE, VERTUAL_MEM in *; lia). unfold PAGE_SIZE in *. lia. }
  assert (Ei : 24 * i < 2 ^ 30) by (unfold sizeof_Page in Hpg; lia).
  unfold get_pte. krun. rewrite (pde_at_slot _ _ Ht) by done. fold x. rewrite Heq, present_test, Hnp.
  cbn [negb]. change (1 =? 0) with false. krun. rewrite Hal. krun.
  destruct (Z.eqb_spec (k_pages s1 + sizeof_Page * i + VERTUAL_MEM) NULL) as [E|_];
    [unfold NULL, VERTUAL_MEM, sizeof_Page in *; lia|]. krun.
  set (s2 := set_mem _ s1).
  assert (E0 : k_pages s1 + sizeof_Page * i + VERTUAL_MEM = w32 (k_pages s2 + 24 * i + VERTUAL_MEM)).
  { change (k_pages s2) with (k_pages s1). unfold sizeof_Page, VERTUAL_MEM in *. wsmall. done. }
  rewrite E0, pg_to_addr_la_high by lia. 
  unfold set_pte_os, set_pte_sign, set_pte_page_addr, memset. krun.
  assert (Em : memset_loop (Z.to_nat PAGE_SIZE) (i * PAGE_SIZE + k_pt_begin s2 + VERTUAL_MEM)%w 0 (k_mem s2) = m2).
  { change (k_pt_begin s2) with (k_pt_begin s1). rewrite <- Et, w32_small; [done|].
    unfold PAGE_SIZE, VERTUAL_MEM in *. lia. }
  rewrite !Em, !E2. clear Em.
  rewrite (pg_to_addr_pa_at _ (k_pages s1) i) by (done || lia).
  eexists. split; [cbv beta iota; reflexivity|]. krun.
  change (k_pt_begin s2) with (k_pt_begin s1). rewrite <- Et, !rd32_wr32_eq.
  split.
  - unfold entry_os. f_equal. f_equal. rewrite Z.shiftr_div_pow2, w32_small by (unfold PAGE_SIZE in *; lia).
    done.
  - intros a Ha. rewrite !rd32_wr32_ne by done. done.
Qed.

(** What the new table changes: one directory entry, one page of zeros, the
    reference count of the page structure. *)
Section NewTable.
Context (s1 : kst) (pd la i t : Z) (m' : memory).
Hypothesis Ht : tables (k_mem s1) pd.
Hypothesis Hla : 0 <= la < 2 ^ 32.
Hypothesis Hn : new_table s1 pd i t.
Hypothesis Hnp : present (rd32 (k_mem s1) (pde_slot pd la)) = false.
Hypothesis Hx : rd32 m' (pde_slot pd la) = w32 (entry_os (rd32 (k_mem s1) (pde_slot pd la)) 7 (t / PAGE_SIZE)).
Hypothesis Hf : forall a, wd (pde_slot pd la) a -> rd32 m' a =
  rd32 (memset_loop (Z.to_nat PAGE_SIZE) (t + VERTUAL_MEM) 0 (wr32 (k_mem s1) (k_pages s1 + sizeof_Page * i + VERTUAL_MEM) 1)) a.

Lemma new_table_entry : pte_page_addr (rd32 m' (pde_slot pd la)) = t / PAGE_SIZE /\ t / PAGE_SIZE * PAGE_SIZE = t /\
  present (rd32 m' (pde_slot pd la)) = true.
Proof.
  destruct Hn as [Hi Hpg (Et & Hb & Htb & Htm) Href Hpd Hpt].
  assert (Hta : 0 <= t / PAGE_SIZE < 2 ^ 20 /\ t / PAGE_SIZE * PAGE_SIZE = t) by (unfold PAGE_SIZE in *; lia_div).
  rewrite Hx, entry_os_entry. split; [apply entry_page_addr; lia|]. split; [lia|]. rewrite entry_present; done.
Qed.

Lemma new_table_slot la' : la' / 2 ^ 22 = la / 2 ^ 22 -> pte_slot m' pd la' = t + 4 * (la' / 2 ^ 12 mod 2 ^ 10).
Proof.
  intros E. destruct new_table_entry as (Hpa & Hta & _). unfold pte_slot, pde_slot. rewrite E. fold (pde_slot pd la).
  rewrite Hpa. lia.
Qed.

(** Words of the new table. *)
Lemma new_table_zero j : 0 <= j < 2 ^ 10 -> rd32 m' (t + 4 * j) = 0.
Proof.
  intros Hj. destruct Hn as [Hi Hpg (Et & Hb & Htb & Htm) Href Hpd Hpt]. rewrite Hf.
  - apply memset_zero_word; [unfold span, PAGE_SIZE, VERTUAL_MEM in *; lia|..];
      rewrite ka_alias by (unfold PAGE_SIZE in *; lia); unfold PAGE_SIZE in *; ka_simpl; lia.
  - unfold wd. rewrite (ka_pde_slot _ _ Ht) by done. pose proof (pde_slot_range pd la Hla).
    unfold PAGE_SIZE in *. ka_simpl. lia.
Qed.

(** Words of the other entries. *)
Lemma new_table_other a : ka a = a -> a + 4 <= t \/ t + PAGE_SIZE <= a ->
  wd (k_pages s1 + sizeof_Page * i) a -> wd (pde_slot pd la) a -> rd32 m' a = rd32 (k_mem s1) a.
Proof.
  intros Ha Hout Hw Hs. destruct Hn as [Hi Hpg (Et & Hb & Htb & Htm) Href Hpd Hpt]. rewrite Hf by done. rewrite memset_frame.
  - apply rd32_wr32_ne, wd_alias; [unfold sizeof_Page in *; lia|done].
  - unfold span, PAGE_SIZE, VERTUAL_MEM in *. lia.
  - done.
  - rewrite Ha, ka_alias, ka_low by (unfold PAGE_SIZE, VERTUAL_MEM in *; lia). lia.
Qed.

Lemma new_table_pde la' : 0 <= la' < 2 ^ 32 -> la' / 2 ^ 22 <> la / 2 ^ 22 ->
  rd32 m' (pde_slot pd la') = rd32 (k_mem s1) (pde_slot pd la').
Proof.
  intros Hla' Hne. destruct Hn as [Hi Hpg (Et & Hb & Htb & Htm) Href Hpd Hpt].
  pose proof (pde_slot_range pd la' Hla'). pose proof (ka_pde_slot _ _ Ht la' Hla') as Hk.
  apply new_table_other; [done|lia|by apply Href|].
  unfold wd. rewrite Hk, (ka_pde_slot _ _ Ht) by done. unfold pde_slot. lia.
Qed.

Lemma new_table_tables : tables m' pd.
Proof.
  destruct Hn as [Hi Hpg (Et & Hb & Htb & Htm) Href Hpd Hpt]. destruct new_table_entry as (Hpa & Hta & _).
  constructor; [apply Ht|]. intros la' Hla' Hpr. cbn zeta.
  destruct (decide (la' / 2 ^ 22 = la / 2 ^ 22)) as [E|Hne].
  - unfold pde_slot. rewrite E. fold (pde_slot pd la). rewrite Hpa. lia.
  - rewrite new_table_pde in * by done. by apply Ht.
Qed.

Lemma new_table_walk la' : 0 <= la' < 2 ^ 32 -> walk m' pd la' = walk (k_mem s1) pd la'.
Proof.
  intros Hla'. destruct new_table_entry as (_ & _ & Hp'). destruct (decide (la' / 2 ^ 22 = la / 2 ^ 22)) as [E|Hne].
  - assert (Es : pde_slot pd la' = pde_slot pd la) by (unfold pde_slot; by rewrite E).
    unfold walk. rewrite Es, Hnp, Hp', new_table_slot, new_table_zero by (done || (apply Z.mod_pos_bound; lia)). done.
  - apply walk_ext; [by apply new_table_pde|]. intros Hpr.
    destruct (ka_slot _ _ Ht la' Hla' Hpr) as [_ Hk]. destruct Hn as [Hi Hpg (Et & Hb & Htb & Htm) Href Hpd Hpt].
    pose proof (pte_slot_range (k_mem s1) pd la' Hla'). specialize (Hpt la' Hla' Hpr).
    apply new_table_other; [done| |by apply Href|].
    + pose proof (Z.div_exact t PAGE_SIZE). unfold PAGE_SIZE in *. cbn zeta in *. lia_div.
    + apply wd_sym. destruct (slots_apart _ _ Ht la' la Hla' Hla Hpr) as [Hw _].
      apply (wd_alias (pte_slot (k_mem s1) pd la')); [by apply slot_low|exact Hw].
Qed.

End NewTable.

Lemma get_pte_creates s s1 pd la i t :
  tables (k_mem s1) pd -> 0 <= la < 2 ^ 32 -> new_table s1 pd i t ->
  rd32 (k_mem s) (pde_slot pd la) = rd32 (k_mem s1) (pde_slot pd la) ->
  present (rd32 (k_mem s1) (pde_slot pd la)) = false ->
  alloc_page 1 s = Ok (k_pages s1 + sizeof_Page * i + VERTUAL_MEM) s1 ->
  exists m', get_pte alloc_page pd la 1 s =
      Ok (t + 4 * (la / 2 ^ 12 mod 2 ^ 10) + VERTUAL_MEM) (set_mem m' s1) /\
    tables m' pd /\ present (rd32 m' (pde_slot pd la)) = true /\
    (forall la', la' / 2 ^ 22 = la / 2 ^ 22 -> pte_slot m' pd la' = t + 4 * (la' / 2 ^ 12 mod 2 ^ 10)) /\
    (forall la', 0 <= la' < 2 ^ 32 -> la' / 2 ^ 22 <> la / 2 ^ 22 ->
      rd32 m' (pde_slot pd la') = rd32 (k_mem s1) (pde_slot pd la')) /\
    rd32 m' (pte_slot m' pd la) = 0 /\
    (forall la', 0 <= la' < 2 ^ 32 -> walk m' pd la' = walk (k_mem s1) pd la').
Proof.
  intros Ht Hla Hn Heq Hnp Hal.
  destruct (get_pte_creates_run s s1 pd la i t Ht Hla Hn Heq Hnp Hal) as (m' & Hrun & Hx & Hf).
  destruct (new_table_entry s1 pd la i t m' Hla Hn Hx) as (Hpa & Hta & Hp').
  pose proof (new_table_slot s1 pd la i t m' Hla Hn Hx) as Hslot.
  exists m'. split; [|split; [by apply (new_table_tables s1 pd la i t)|split; [done|split; [done|split]]]].
  - destruct Hn as [Hi Hpg (Et & Hb & Htb & Htm) Href Hpd Hpt].
    rewrite Hrun. unfold get_pte_slot. krun. rewrite (pde_at_slot _ _ Ht) by done. rewrite page_addr_shift, Hpa.
    change 0x3ff with (Z.ones 10). rewrite Z.land_ones, Z.shiftr_div_pow2, w32_add_l by lia. f_equal.
    unfold PAGE_SIZE, VERTUAL_MEM in *. rewrite w32_small by lia_div. lia.
  - by apply (new_table_pde s1 pd la i t).
  - split; [|by apply (new_table_walk s1 pd la i t)].
    rewrite Hslot by done. apply (new_table_zero s1 pd la i t); try done. apply Z.mod_pos_bound. lia.
Qed.
End GetPte.

(** * [map] *)

(** Page [i] of the pool: its structure and its frame. *)
Record frame_of (s : kst) (i pa : Z) : Prop := {
  fr_i : 0 <= i < 2 ^ 20 ;
  fr_pages : 0 <= k_pages s /\ k_pages s + sizeof_Page * i + sizeof_Page <= 2 ^ 30 ;
  fr_pa : pa = i * PAGE_SIZE + k_pt_begin s /\ 0 <= k_pt_begin s /\ pa + PAGE_SIZE <= 2 ^ 30 ;
  fr_align : pa mod PAGE_SIZE = 0
}.

(** The two addresses of the page of a frame. *)
Lemma frame_pa_run s s' i pa : frame_of s i pa -> k_pages s' = k_pages s -> k_pt_begin s' = k_pt_begin s ->
  pg_to_addr_pa (k_pages s + sizeof_Page * i + VERTUAL_MEM) s' = Ok pa s'.
Proof.
  intros [Hi Hpg (Ea & Hb & Hpa) _] E1 E2. pose proof (pg_to_addr_pa_high s' i) as Hx. unfold sizeof_Page in *.
  rewrite E1, E2, (w32_small (k_pages s + _ + _)), <- Ea in Hx by (unfold VERTUAL_MEM; lia).
  rewrite Hx, w32_small by (unfold PAGE_SIZE in *; lia). done.
Qed.

Lemma frame_la_run s s' i pa : frame_of s i pa -> k_pages s' = k_pages s -> k_pt_begin s' = k_pt_begin s ->
  pg_to_addr_la (k_pages s + sizeof_Page * i + VERTUAL_MEM) s' = Ok (pa + VERTUAL_MEM) s'.
Proof.
  intros [Hi Hpg (Ea & Hb & Hpa) _] E1 E2. pose proof (pg_to_addr_la_high s' i) as Hx. unfold sizeof_Page in *.
  rewrite E1, E2, (w32_small (k_pages s + _ + _)), <- Ea in Hx by (unfold VERTUAL_MEM; lia).
  rewrite Hx, w32_small by (unfold PAGE_SIZE, VERTUAL_MEM in *; lia). done.
Qed.

(** And back. *)
Lemma frame_pg_run s i pa : frame_of s i pa -> pa_addr_to_pg pa s = Ok (k_pages s + sizeof_Page * i) s.
Proof.
  intros [Hi Hpg (Epa & Hb & Hpa) _]. pose proof (pa_addr_to_pg_page s i 0) as Hq. rewrite Z.add_0_r, <- Epa in Hq.
  rewrite w32_small in Hq by (unfold PAGE_SIZE in *; lia). apply Hq; unfold sizeof_Page, PAGE_SIZE in *; lia.
Qed.

(** [m'] is [m] with one entry changed. *)
Lemma walk_other_entry m m' pd la la' :
  tables m pd -> 0 <= la < 2 ^ 32 -> 0 <= la' < 2 ^ 32 -> present (rd32 m (pde_slot pd la)) = true ->
  (forall a, wd (pte_slot m pd la + VERTUAL_MEM) a -> rd32 m' a = rd32 m a) ->
  (present (rd32 m (pde_slot pd la')) = true -> pte_slot m pd la' <> pte_slot m pd la) ->
  walk m' pd la' = walk m pd la'.
Proof.
  intros Ht Hla Hla' Hp Hf Hne. destruct (slots_apart _ _ Ht la la' Hla Hla' Hp) as [H1 H2].
  apply walk_ext; auto.
Qed.

Lemma walk_entry m m' pd la sign pa :
  tables m pd -> 0 <= la < 2 ^ 32 -> present (rd32 m (pde_slot pd la)) = true ->
  (forall a, wd (pte_slot m pd la + VERTUAL_MEM) a -> rd32 m' a = rd32 m a) ->
  (exists e, rd32 m' (pte_slot m pd la) = w32 (entry e sign (pa / PAGE_SIZE))) ->
  0 <= sign < 2 ^ 9 -> 0 <= pa < 2 ^ 32 -> pa mod PAGE_SIZE = 0 ->
  walk m' pd la = if Z.odd sign then Some (pa + la mod PAGE_SIZE) else None.
Proof.
  intros Ht Hla Hp Hf (e & He) Hsg Hpa Hal. destruct (slots_apart _ _ Ht la la Hla Hla Hp) as [H1 _].
  unfold walk. assert (Hd : rd32 m' (pde_slot pd la) = rd32 m (pde_slot pd la)) by auto.
  unfold pte_slot in *. rewrite Hd, Hp, He, entry_present by done.
  destruct (Z.odd sign); [|done]. rewrite entry_page_addr by (unfold PAGE_SIZE in *; lia_div).
  do 2 f_equal. unfold PAGE_SIZE in *. lia_div.
Qed.

Lemma walk_same_page m pd la la' : la' / PAGE_SIZE = la / PAGE_SIZE ->
  walk m pd la' = match walk m pd la with Some a => Some (a - la mod PAGE_SIZE + la' mod PAGE_SIZE) | None => None end.
Proof.
  unfold walk, pte_slot, pde_slot, PAGE_SIZE. intros E. change (2 ^ 12) with 4096.
  assert (la' / 2 ^ 22 = la / 2 ^ 22) as -> by lia_div. rewrite E.
  destruct (present _); [|done]. destruct (present _); [|done]. f_equal. lia.
Qed.

(** The addresses that go through the entry of [la]: the rest of its page, and the
    same page of every other window whose directory entry names the same table. *)
Definition same_entry (m : memory) (pd la la' : Z) : bool :=
  present (rd32 m (pde_slot pd la')) && (pte_slot m pd la' =? pte_slot m pd la).

Lemma same_entry_false m pd la la' : same_entry m pd la la' = false ->
  present (rd32 m (pde_slot pd la')) = true -> pte_slot m pd la' <> pte_slot m pd la.
Proof. unfold same_entry. intros E Hp. rewrite Hp in E. cbn [andb] in E. lia. Qed.

Lemma walk_same_entry m m' pd la la' :
  tables m pd -> 0 <= la < 2 ^ 32 -> 0 <= la' < 2 ^ 32 -> present (rd32 m (pde_slot pd la)) = true ->
  (forall b, 0 <= b < 2 ^ 32 -> rd32 m' (pde_slot pd b) = rd32 m (pde_slot pd b)) -> same_entry m pd la la' = true ->
  walk m' pd la' = match walk m' pd la with Some a => Some (a - la mod PAGE_SIZE + la' mod PAGE_SIZE) | None => None end.
Proof.
  intros Ht Hla Hla' Hp Hd (Hp' & E%Z.eqb_eq)%andb_prop. unfold walk, pte_slot in *.
  rewrite !Hd, Hp, Hp', E by done. destruct (present (rd32 m' _)); [|done]. f_equal. lia.
Qed.

(** A changed entry changes all the addresses that go through it, and no other. *)
Lemma walk_update m m' pd la v :
  tables m pd -> 0 <= la < 2 ^ 32 -> present (rd32 m (pde_slot pd la)) = true ->
  (forall b, 0 <= b < 2 ^ 32 -> rd32 m' (pde_slot pd b) = rd32 m (pde_slot pd b)) ->
  walk m' pd la = option_map (fun pa => pa + la mod PAGE_SIZE) v ->
  (forall la', 0 <= la' < 2 ^ 32 ->
    (present (rd32 m (pde_slot pd la')) = true -> pte_slot m pd la' <> pte_slot m pd la) -> walk m' pd la' = walk m pd la') ->
  forall la', 0 <= la' < 2 ^ 32 -> walk m' pd la' =
    if same_entry m pd la la' then option_map (fun pa => pa + la' mod PAGE_SIZE) v else walk m pd la'.
Proof.
  intros Ht Hla Hp Hd Hw Ho la' Hla'. destruct (same_entry m pd la la') eqn:E.
  - rewrite (walk_same_entry m m' pd la la'), Hw by done. destruct v; [|done]. cbn [option_map]. f_equal. lia.
  - apply Ho; [done|]. by apply same_entry_false.
Qed.

Section Map.
Context `{Symbols}.
Variable alloc_page : Z -> K Z.
Variable fuel : nat.

Lemma rd32_slot_alias m a : 0 <= a < 2 ^ 30 -> rd32 m (a + VERTUAL_MEM) = rd32 m a.
Proof. intros. apply rd32_move. intros i Hi. by rewrite ka_alias. Qed.

Lemma rd32_wr32_alias m a v : 0 <= a < 2 ^ 30 -> rd32 (wr32 m (a + VERTUAL_MEM) v) a = w32 v.
Proof. intros. rewrite <- (rd32_slot_alias _ a) by done. apply rd32_wr32_eq. Qed.

(** From the entry's address on, when the entry maps nothing. *)
Lemma map_from s s1 pd la pa sign i :
  tables (k_mem s1) pd -> 0 <= la < 2 ^ 32 -> frame_of s1 i pa -> 0 <= sign < 2 ^ 8 ->
  present (rd32 (k_mem s1) (pde_slot pd la)) = true ->
  present (rd32 (k_mem s1) (pte_slot (k_mem s1) pd la)) = false ->
  off_tables (k_mem s1) pd (k_pages s1 + sizeof_Page * i) ->
  get_pte alloc_page pd la 1 s = Ok (pte_slot (k_mem s1) pd la + VERTUAL_MEM) s1 ->
  exists m', map alloc_page fuel pd la pa sign s =
      Ok tt (set_log (EvInvlpg la :: k_log s1) (set_mem m' s1)) /\
    walk m' pd la = (if Z.odd sign then Some (pa + la mod PAGE_SIZE) else None) /\
    (forall la', 0 <= la' < 2 ^ 32 ->
      (present (rd32 (k_mem s1) (pde_slot pd la')) = true ->
       pte_slot (k_mem s1) pd la' <> pte_slot (k_mem s1) pd la) ->
      walk m' pd la' = walk (k_mem s1) pd la') /\
    rd32 m' (k_pages s1 + sizeof_Page * i) = w32 (rd32 (k_mem s1) (k_pages s1 + sizeof_Page * i) + 1) /\
    pte_sign (rd32 m' (pte_slot (k_mem s1) pd la)) = sign /\
    forall a, wd (pte_slot (k_mem s1) pd la) a -> wd (k_pages s1 + sizeof_Page * i) a -> rd32 m' a = rd32 (k_mem s1) a.
Proof.
  intros Ht Hla Hfr Hsg Hp Hnp Hoff Hget. pose proof (frame_pg_run _ _ _ Hfr) as Hpgof. destruct Hfr as [Hi Hpg (Epa & Hb & Hpa) Hal].
  pose proof (tb_pt _ _ Ht la Hla Hp) as Hr. pose proof (pte_slot_range (k_mem s1) pd la Hla) as Hsl.
  pose proof (pte_page_addr_range (rd32 (k_mem s1) (pde_slot pd la))) as Hrange.
  set (x := pte_slot (k_mem s1) pd la) in *. cbn zeta in *.
  set (r := k_pages s1 + sizeof_Page * i) in *.
  assert (Hx : 0 <= x < 2 ^ 30) by (by apply slot_low).
  set (m1 := wr32 (k_mem s1) r (rd32 (k_mem s1) r + 1)%w).
  assert (Hwr : wd r x) by (by apply Hoff).
  assert (Hwx : wd (x + VERTUAL_MEM) r) by (apply wd_alias; [done|by apply wd_sym]).
  assert (E1 : rd32 m1 (x + VERTUAL_MEM) = rd32 (k_mem s1) x).
  { unfold m1. rewrite rd32_slot_alias, rd32_wr32_ne; done. }
  assert (Htb1 : tables m1 pd).
  { constructor; [apply Ht|]. intros la'. unfold m1. intros Hla'. rewrite rd32_wr32_ne by (by apply Hoff).
    by apply Ht. }
  assert (Ed : forall la', 0 <= la' < 2 ^ 32 -> rd32 m1 (pde_slot pd la') = rd32 (k_mem s1) (pde_slot pd la')).
  { intros la' Hla'. apply rd32_wr32_ne. by apply Hoff. }
  eexists. split; [|split; [|split; [|split; [|split]]]].
  - unfold map, set_pte_sign, set_pte_page_addr. rewrite (w8_small sign) by done. krun. rewrite Hget. krun. rewrite Hpgof. krun.
    unfold pg_ref. fold m1. rewrite E1, present_test1, Hnp. krun. reflexivity.
  - apply (walk_entry m1); try done.
    + by rewrite Ed.
    + unfold pte_slot. rewrite Ed by done. fold (pte_slot (k_mem s1) pd la). fold x.
      intros a Ha. rewrite !rd32_wr32_ne by done. done.
    + unfold pte_slot. rewrite Ed by done. fold (pte_slot (k_mem s1) pd la). fold x.
      eexists. rewrite rd32_wr32_alias, rd32_wr32_eq by done. unfold entry. f_equal. f_equal.
      rewrite Z.shiftr_div_pow2 by lia. done.
    + lia.
    + unfold PAGE_SIZE in *. lia.
  - intros la' Hla' Hne. transitivity (walk m1 pd la').
    + apply (walk_other_entry m1 _ pd la); try done.
      * by rewrite Ed.
      * unfold pte_slot. rewrite Ed by done. fold (pte_slot (k_mem s1) pd la). fold x.
        intros a Ha. rewrite !rd32_wr32_ne by done. done.
      * unfold pte_slot. rewrite !Ed by done. exact Hne.
    + apply walk_ext; [by apply Ed|]. intros Hp'. apply rd32_wr32_ne. by apply Hoff.
  - rewrite !rd32_wr32_ne by done. unfold m1. rewrite rd32_wr32_eq. by rewrite w32_w32.
  - rewrite rd32_wr32_alias, rd32_wr32_eq by done. apply (entry_sign (rd32 m1 (x + VERTUAL_MEM))). lia.
  - intros a Ha1 Ha2. assert (wd (x + VERTUAL_MEM) a) by (by apply wd_alias). unfold m1. by rewrite !rd32_wr32_ne.
Qed.

(** * [unmap] *)

Definition entry_clear (e : Z) : Z := bf_set 0 9 0 (w32 (bf_set 12 20 0 e)).

Lemma entry_clear_absent e : present (w32 (entry_clear e)) = false.
Proof.
  pose proof (sign_present (w32 (entry_clear e))) as Hp. unfold pte_sign, entry_clear in *.
  rewrite bf_get_w32, bf_get_set, Z.land_0_l in Hp by lia. by destruct (present _).
Qed.

(** The page behind a present entry. *)
Definition mapped (s : kst) (pd la i : Z) : Prop :=
  let e := rd32 (k_mem s) (pte_slot (k_mem s) pd la) in
  present (rd32 (k_mem s) (pde_slot pd la)) = true /\ present e = true /\
  frame_of s i (pte_page_addr e * PAGE_SIZE) /\
  off_tables (k_mem s) pd (k_pages s + sizeof_Page * i).

Lemma page_of_entry s pd la i :
  tables (k_mem s) pd -> 0 <= la < 2 ^ 32 -> mapped s pd la i ->
  forall m, rd32 m (pte_slot (k_mem s) pd la) = rd32 (k_mem s) (pte_slot (k_mem s) pd la) ->
  exists a, get_pg_addr_la (pte_slot (k_mem s) pd la + VERTUAL_MEM) (set_mem m s) = Ok a (set_mem m s) /\
    la_addr_to_pg a (set_mem m s) = Ok (k_pages s + sizeof_Page * i) (set_mem m s) /\
    a = pte_page_addr (rd32 (k_mem s) (pte_slot (k_mem s) pd la)) * PAGE_SIZE + VERTUAL_MEM.
Proof.
  intros Ht Hla (Hp & Hpe & [Hi Hpg (Epa & Hb & Hpa) Hal] & Hoff) m Hm.
  pose proof (tb_pt _ _ Ht la Hla Hp) as Hr. pose proof (pte_slot_range (k_mem s) pd la Hla) as Hsl.
  pose proof (pte_page_addr_range (rd32 (k_mem s) (pde_slot pd la))). cbn zeta in *.
  set (x := pte_slot (k_mem s) pd la) in *.
  eexists. split; [|split].
  - unfold get_pg_addr_la. krun. rewrite rd32_slot_alias, Hm, page_addr_shift by (unfold PAGE_SIZE in *; lia).
    reflexivity.
  - rewrite Epa. pose proof (la_addr_to_pg_page (set_mem m s) i 0) as Hq. rewrite Z.add_0_r in Hq.
    apply Hq; cbn; unfold sizeof_Page, PAGE_SIZE in *; lia.
  - unfold PAGE_SIZE, VERTUAL_MEM in *. wsmall. lia.
Qed.

(** While other references remain, [unmap] clears the entry and drops one. *)
Lemma unmap_run s pd la i :
  tables (k_mem s) pd -> 0 <= la < 2 ^ 32 -> mapped s pd la i ->
  let r := k_pages s + sizeof_Page * i in let x := pte_slot (k_mem s) pd la in
  rd32 (k_mem s) r <> 1 ->
  exists m', unmap alloc_page fuel pd la s = Ok tt (set_log (EvInvlpg la :: k_log s) (set_mem m' s)) /\
    present (rd32 m' x) = false /\ rd32 m' r = w32 (rd32 (k_mem s) r - 1) /\
    forall a, wd (x + VERTUAL_MEM) a -> wd r a -> rd32 m' a = rd32 (k_mem s) a.
Proof.
  intros Ht Hla Hmp r x Hr. pose proof Hmp as (Hp & Hpe & Hfr & Hoff).
  pose proof (tb_pt _ _ Ht la Hla Hp) as Hrng. pose proof (pte_slot_range (k_mem s) pd la Hla) as Hsl.
  pose proof (pte_page_addr_range (rd32 (k_mem s) (pde_slot pd la))). cbn zeta in Hrng, Hsl. fold x in Hsl, Hpe.
  assert (Hx : 0 <= x < 2 ^ 30) by (unfold PAGE_SIZE in *; lia).
  assert (Hwr : wd r x) by (by apply Hoff).
  assert (Hwx : wd (x + VERTUAL_MEM) r) by (apply wd_alias; [done|by apply wd_sym]).
  set (m1 := wr32 (k_mem s) r (rd32 (k_mem s) r - 1)%w).
  destruct (page_of_entry s pd la i Ht Hla Hmp (k_mem s) eq_refl) as (a' & Ha' & Hpgo' & _).
  rewrite set_mem_id in Ha', Hpgo'. fold x in Ha'. fold r in Hpgo'.
  assert (Hr1 : rd32 m1 r <> 0).
  { unfold m1. rewrite rd32_wr32_eq, w32_w32. pose proof (rd32_range (k_mem s) r).
    unfold w32. intros E. apply Hr. lia_div. }
  eexists. split; [|split; [|split]].
  - unfold unmap, set_pte_sign, set_pte_page_addr. krun. rewrite get_pte_present by done. krun. fold x.
    rewrite rd32_slot_alias, present_test1, Hpe by done. krun. rewrite Ha'. krun. rewrite Hpgo'. krun.
    unfold pg_ref. fold m1. destruct (Z.eqb_spec (rd32 m1 r) 0); [done|]. krun. reflexivity.
  - rewrite rd32_wr32_alias, rd32_wr32_eq by done. apply entry_clear_absent.
  - rewrite !rd32_wr32_ne by done. unfold m1. rewrite rd32_wr32_eq. by rewrite w32_w32.
  - intros b Hb Hb'. rewrite !rd32_wr32_ne by done. unfold m1. by rewrite rd32_wr32_ne.
Qed.

(** The tables after [unmap]. *)
Lemma unmap_walk s pd la i m' :
  tables (k_mem s) pd -> 0 <= la < 2 ^ 32 -> mapped s pd la i ->
  let r := k_pages s + sizeof_Page * i in let x := pte_slot (k_mem s) pd la in
  present (rd32 m' x) = false ->
  (forall a, wd (x + VERTUAL_MEM) a -> wd r a -> rd32 m' a = rd32 (k_mem s) a) ->
  walk m' pd la = None /\
  forall la', 0 <= la' < 2 ^ 32 ->
    (present (rd32 (k_mem s) (pde_slot pd la')) = true -> pte_slot (k_mem s) pd la' <> x) ->
    walk m' pd la' = walk (k_mem s) pd la'.
Proof.
  intros Ht Hla (Hp & _ & _ & Hoff) r x Habs Hf. split.
  - subst x r. unfold walk, pte_slot in *. destruct (slots_apart _ _ Ht la la Hla Hla Hp) as [H1 _].
    rewrite (Hf (pde_slot pd la)) by (done || by apply Hoff). by rewrite Hp, Habs.
  - intros la' Hla' Hne. destruct (slots_apart _ _ Ht la la' Hla Hla' Hp) as [H1 H2].
    apply walk_ext; [apply Hf; [done|by apply Hoff]|]. intros Hp'. apply Hf; [auto|by apply Hoff].
Qed.

End Map.

(** * Properties of the page tables *)
Section Properties.
Context `{Symbols}.
Variable alloc_page : Z -> K Z.
Variable fuel : nat.

(** C13: [map] of an address the directory has a table for but no entry: every address
    that goes through the same entry (the rest of the page, and the same page in a
    window that shares the table) then translates into the given frame when the sign has
    the present bit, every other address translates as before, and the reference count
    of the frame's page goes up by one. *)
Theorem map_fresh s pd la pa sign i :
  tables (k_mem s) pd -> 0 <= la < 2 ^ 32 -> frame_of s i pa -> 0 <= sign < 2 ^ 8 ->
  present (rd32 (k_mem s) (pde_slot pd la)) = true -> walk (k_mem s) pd la = None ->
  off_tables (k_mem s) pd (k_pages s + sizeof_Page * i) ->
  exists m', map alloc_page fuel pd la pa sign s =
      Ok tt (set_log (EvInvlpg la :: k_log s) (set_mem m' s)) /\
    walk m' pd la = (if Z.odd sign then Some (pa + la mod PAGE_SIZE) else None) /\
    (forall la', 0 <= la' < 2 ^ 32 -> walk m' pd la' =
      if same_entry (k_mem s) pd la la' then (if Z.odd sign then Some (pa + la' mod PAGE_SIZE) else None)
      else walk (k_mem s) pd la') /\
    rd32 m' (k_pages s + sizeof_Page * i) = w32 (rd32 (k_mem s) (k_pages s + sizeof_Page * i) + 1).
Proof.
  intros Ht Hla Hfr Hsg Hp Hnone Hoff.
  destruct (map_from alloc_page fuel s s pd la pa sign i) as (m' & R & H1 & H2 & H3 & _ & F); try done.
  { unfold walk in Hnone. rewrite Hp in Hnone. cbn zeta in Hnone. by case_match. }
  { by apply get_pte_present. }
  exists m'. split; [exact R|split; [exact H1|split; [|exact H3]]]. intros la' Hla'.
  rewrite (walk_update (k_mem s) m' pd la (if Z.odd sign then Some pa else None)); try done.
  - by destruct (same_entry _ _ _ _), (Z.odd sign).
  - intros b Hb. apply F; [|by apply Hoff].
    by apply (wd_alias (pte_slot (k_mem s) pd la)); [apply slot_low|apply (slots_apart (k_mem s) pd Ht)].
  - rewrite H1. by destruct (Z.odd sign).
Qed.

(** C14: [unmap] of a mapped address whose page has further references: no address that
    goes through the same entry (the rest of the page, and the same page in a window
    that shares the table) translates any longer, every other address translates as
    before, the reference count goes down by one, and the TLB entry is invalidated. *)
Theorem unmap_removes s pd la i :
  tables (k_mem s) pd -> 0 <= la < 2 ^ 32 -> mapped s pd la i ->
  rd32 (k_mem s) (k_pages s + sizeof_Page * i) <> 1 ->
  exists m', unmap alloc_page fuel pd la s = Ok tt (set_log (EvInvlpg la :: k_log s) (set_mem m' s)) /\
    walk m' pd la = None /\
    (forall la', 0 <= la' < 2 ^ 32 -> walk m' pd la' =
      if same_entry (k_mem s) pd la la' then None else walk (k_mem s) pd la') /\
    rd32 m' (k_pages s + sizeof_Page * i) = w32 (rd32 (k_mem s) (k_pages s + sizeof_Page * i) - 1).
Proof.
  intros Ht Hla Hmp Hr. destruct (unmap_run alloc_page fuel s pd la i Ht Hla Hmp Hr) as (m' & Hrun & Habs & Href & Hf).
  destruct (unmap_walk s pd la i m' Ht Hla Hmp Habs Hf) as [Hw Ho]. exists m'.
  split; [exact Hrun|split; [exact Hw|split; [|exact Href]]]. destruct Hmp as (Hp & _ & _ & Hoff).
  apply (walk_update (k_mem s) m' pd la None); try done. intros b Hb.
  apply Hf; [|by apply Hoff]. by apply (slots_apart (k_mem s) pd Ht).
Qed.

(** [map] where the directory has no table yet, given the page the allocator hands out. *)
Lemma map_created s s1 pd la pa sign i t j :
  tables (k_mem s1) pd -> 0 <= la < 2 ^ 32 -> 0 <= sign < 2 ^ 8 ->
  rd32 (k_mem s) (pde_slot pd la) = rd32 (k_mem s1) (pde_slot pd la) ->
  present (rd32 (k_mem s1) (pde_slot pd la)) = false ->
  alloc_page 1 s = Ok (k_pages s1 + sizeof_Page * i + VERTUAL_MEM) s1 -> new_table s1 pd i t ->
  frame_of s1 j pa -> off_tables (k_mem s1) pd (k_pages s1 + sizeof_Page * j) ->
  apart t PAGE_SIZE (k_pages s1 + sizeof_Page * j) 4 ->
  exists m', map alloc_page fuel pd la pa sign s =
      Ok tt (set_log (EvInvlpg la :: k_log s1) (set_mem m' s1)) /\
    forall la', 0 <= la' < 2 ^ 32 -> walk m' pd la' =
      if decide (la' / PAGE_SIZE = la / PAGE_SIZE) then (if Z.odd sign then Some (pa + la' mod PAGE_SIZE) else None)
      else walk (k_mem s1) pd la'.
Proof.
  intros Ht Hla Hsg Heq Hnp Hal Hn Hfr Hoff Hap.
  destruct (get_pte_creates alloc_page s s1 pd la i t Ht Hla Hn Heq Hnp Hal) as
    (m1 & Hget & Ht1 & Hp1 & Hsl & Hpd & Hz & Hw).
  assert (Eslot : pte_slot m1 pd la = t + 4 * (la / 2 ^ 12 mod 2 ^ 10)) by (by apply Hsl).
  destruct Hn as [Hi _ (Et & Hb & Htb & Htm) _ _ Hpt].
  assert (Ht0 : 0 <= t) by (unfold PAGE_SIZE in *; lia).
  assert (Hoff1 : off_tables m1 pd (k_pages s1 + sizeof_Page * j)).
  { intros la' Hla'. split; [by apply Hoff|]. intros Hp'.
    destruct (decide (la' / 2 ^ 22 = la / 2 ^ 22)) as [E|Hne].
    - rewrite Hsl by done. unfold apart, wd, PAGE_SIZE in *.
      assert (0 <= la' / 2 ^ 12 mod 2 ^ 10 < 2 ^ 10) by (apply Z.mod_pos_bound; lia).
      rewrite (ka_low t) in Hap by (unfold VERTUAL_MEM; lia).
      rewrite (ka_low (t + _)) by (unfold VERTUAL_MEM; lia). lia.
    - unfold pte_slot in *. rewrite Hpd in * by done. by apply Hoff. }
  rewrite <- Eslot in Hget.
  destruct (map_from alloc_page fuel s (set_mem m1 s1) pd la pa sign j) as (m' & Hrun & Hw1 & Hw2 & _);
    try done.
  { destruct Hfr. by constructor. }
  { change (present (rd32 m1 (pte_slot m1 pd la)) = false). by rewrite Hz. }
  exists m'. split; [exact Hrun|]. intros la' Hla'. destruct (decide (la' / PAGE_SIZE = la / PAGE_SIZE)) as [Hs|Hne].
  { rewrite (walk_same_page m' pd la la'), Hw1 by done. destruct (Z.odd sign); [|done]. f_equal. lia. }
  rewrite Hw2; [by apply Hw|done|]. cbn. intros Hp'. rewrite Eslot.
  destruct (decide (la' / 2 ^ 22 = la / 2 ^ 22)) as [E|Hni]; [rewrite Hsl by done; unfold PAGE_SIZE in *; lia_div|].
  assert (Ep : present (rd32 (k_mem s1) (pde_slot pd la')) = true) by (by rewrite <- Hpd).
  specialize (Hpt la' Hla' Ep). pose proof (pte_slot_range m1 pd la' Hla') as Hr. rewrite Hpd in Hr by done.
  unfold PAGE_SIZE in *. cbn zeta in Hr. lia_div.
Qed.

(** ** [map] over a present entry *)

Lemma tables_ext m m' pd : tables m pd ->
  (forall la, 0 <= la < 2 ^ 32 -> rd32 m' (pde_slot pd la) = rd32 m (pde_slot pd la)) -> tables m' pd.
Proof. intros Ht He. constructor; [apply Ht|]. intros la Hla. rewrite He by done. by apply Ht. Qed.

Lemma slot_ext m m' pd la : rd32 m' (pde_slot pd la) = rd32 m (pde_slot pd la) ->
  pte_slot m' pd la = pte_slot m pd la.
Proof. intros E. unfold pte_slot. by rewrite E. Qed.

Lemma tables_wr32 m pd r v : tables m pd -> off_tables m pd r -> tables (wr32 m r v) pd.
Proof. intros Ht Hoff. apply (tables_ext m); [done|]. intros la Hla. apply rd32_wr32_ne. by apply Hoff. Qed.

Lemma slot_wr32 m pd r v la : off_tables m pd r -> 0 <= la < 2 ^ 32 ->
  pte_slot (wr32 m r v) pd la = pte_slot m pd la.
Proof. intros Hoff Hla. apply slot_ext, rd32_wr32_ne. by apply Hoff. Qed.

Lemma off_tables_wr32 m pd r v a : off_tables m pd r -> off_tables m pd a -> off_tables (wr32 m r v) pd a.
Proof.
  intros Hr Ha la Hla. rewrite slot_wr32 by done. rewrite rd32_wr32_ne by (by apply Hr). by apply Ha.
Qed.

Lemma mapped_wr32 s pd r v la i : off_tables (k_mem s) pd r -> 0 <= la < 2 ^ 32 ->
  mapped s pd la i -> mapped (set_mem (wr32 (k_mem s) r v) s) pd la i.
Proof.
  intros Hr Hla (Hp & Hpe & Hfr & Hoff). unfold mapped. cbn [k_mem k_pages set_mem].
  rewrite slot_wr32 by done. rewrite !rd32_wr32_ne by (by apply Hr).
  split; [done|split; [done|split]]; [|by apply off_tables_wr32].
  destruct Hfr. by constructor.
Qed.

(** A page mapped over another one: the entry is rewritten, but the address
    [map] unmaps is the old page's own place in the kernel window, so the
    kernel loses the old page. *)
Theorem map_over_drops_window s pd la pa sign i j a :
  tables (k_mem s) pd -> 0 <= la < 2 ^ 32 -> frame_of s i pa -> 0 <= sign < 2 ^ 8 -> Z.odd sign = true ->
  off_tables (k_mem s) pd (k_pages s + sizeof_Page * i) ->
  mapped s pd la j -> i <> j -> rd32 (k_mem s) (k_pages s + sizeof_Page * j) <> 1 ->
  a = pte_page_addr (rd32 (k_mem s) (pte_slot (k_mem s) pd la)) * PAGE_SIZE + VERTUAL_MEM ->
  mapped s pd a j -> pte_slot (k_mem s) pd a <> pte_slot (k_mem s) pd la ->
  exists m', map alloc_page fuel pd la pa sign s =
      Ok tt (set_log (EvInvlpg la :: EvInvlpg a :: k_log s) (set_mem m' s)) /\
    walk m' pd la = Some (pa + la mod PAGE_SIZE) /\ walk m' pd a = None.
Proof.
  intros Ht Hla Hfr Hsg Hodd Hoff Hmp Hij Href Ea Hmpa Hne. pose proof (frame_pg_run _ _ _ Hfr) as Hpgof.
  destruct Hfr as [Hi Hpg (Epa & Hb & Hpa) Hal].
  pose proof Hmp as (Hp & Hpe & Hfrj & Hoffj).
  pose proof (tb_pt _ _ Ht la Hla Hp) as Hr0. pose proof (pte_slot_range (k_mem s) pd la Hla) as Hsl.
  pose proof (pte_page_addr_range (rd32 (k_mem s) (pde_slot pd la))) as Hrange.
  assert (Hra : 0 <= a < 2 ^ 32) by (destruct Hfrj as [_ _ (_ & _ & ?) _]; subst a;
    pose proof (pte_page_addr_range (rd32 (k_mem s) (pte_slot (k_mem s) pd la))); unfold PAGE_SIZE, VERTUAL_MEM in *; lia).
  set (x := pte_slot (k_mem s) pd la) in Hsl, Hpe, Ea, Hne. cbn zeta in *.
  set (r := k_pages s + sizeof_Page * i) in *. set (rj := k_pages s + sizeof_Page * j) in *.
  assert (Hx : 0 <= x < 2 ^ 30) by (unfold PAGE_SIZE in *; lia).
  assert (Hrj : wd r rj) by (destruct Hfrj; unfold wd, r, rj, sizeof_Page, VERTUAL_MEM in *; ka_simpl; unfold VERTUAL_MEM; lia).
  set (m1 := wr32 (k_mem s) r (rd32 (k_mem s) r + 1)%w). set (s1 := set_mem m1 s).
  assert (Hwr : wd r x) by (by apply Hoff).
  assert (E1 : rd32 m1 x = rd32 (k_mem s) x) by (by apply rd32_wr32_ne).
  pose proof (mapped_wr32 s pd r (rd32 (k_mem s) r + 1)%w a j Hoff Hra Hmpa) as Hmpa1. fold m1 s1 in Hmpa1.
  assert (Ht1 : tables (k_mem s1) pd) by (by apply tables_wr32).
  assert (Hrefj : rd32 (k_mem s1) rj <> 1) by (cbn; unfold m1; by rewrite rd32_wr32_ne).
  destruct (unmap_run alloc_page fuel s1 pd a j Ht1 Hra Hmpa1 Hrefj) as (m2 & Hun & Habs & _ & Hf2).
  assert (Hslot : forall b, 0 <= b < 2 ^ 32 -> pte_slot m1 pd b = pte_slot (k_mem s) pd b) by (intros; by apply slot_wr32).
  destruct (unmap_walk s1 pd a j m2 Ht1 Hra Hmpa1 Habs Hf2) as [Hw2 _].
  change (k_pages s1 + sizeof_Page * j) with rj in Hf2. change (k_mem s1) with m1 in *.
  rewrite (Hslot a Hra) in *. set (y := pte_slot (k_mem s) pd a) in *.
  destruct (slots_apart _ _ Ht a la Hra Hla (proj1 Hmpa)) as [Hyd Hyx]. fold x y in Hyd, Hyx.
  assert (Hxy : wd (x + VERTUAL_MEM) y) by (apply (slots_apart _ _ Ht la a Hla Hra Hp); [apply Hmpa|done]).
  assert (Ed2 : forall b, 0 <= b < 2 ^ 32 -> rd32 m2 (pde_slot pd b) = rd32 (k_mem s) (pde_slot pd b)).
  { intros b Hrb. destruct (slots_apart _ _ Ht a b Hra Hrb (proj1 Hmpa)) as [Hyb _]. fold y in Hyb.
    rewrite Hf2 by (done || by apply Hoffj). apply rd32_wr32_ne. by apply Hoff. }
  assert (Ht2 : tables m2 pd) by (by apply (tables_ext (k_mem s))).
  assert (Hslot2 : forall b, 0 <= b < 2 ^ 32 -> pte_slot m2 pd b = pte_slot (k_mem s) pd b)
    by (intros; by apply slot_ext, Ed2).
  destruct (page_of_entry s pd la j Ht Hla Hmp m1 E1) as (a' & Ha' & Hpgo & Ea').
  assert (a' = a) as -> by (by rewrite Ea', Ea). fold x in Ha'. fold rj in Hpgo. fold s1 in Ha', Hpgo.
  eexists. split; [|split].
  - unfold map, set_pte_sign, set_pte_page_addr. rewrite (w8_small sign) by done. krun. rewrite get_pte_present by done. krun.
    rewrite Hpgof. krun. unfold pg_ref. fold m1. fold s1. fold x. rewrite rd32_slot_alias, E1 by done.
    rewrite present_test1, Hpe. krun. rewrite Ha'. krun. rewrite Hpgo. krun.
    destruct (Z.eqb_spec rj r) as [E|_]; [unfold r, rj, sizeof_Page in *; lia|]. rewrite Ha'. krun.
    rewrite Hun. krun. reflexivity.
  - rewrite (walk_entry m2 _ pd la sign pa); [by rewrite Hodd|done|done|by rewrite Ed2| | |lia|unfold PAGE_SIZE in *; lia|done].
    + rewrite Hslot2 by done. fold x. intros b Hxb. rewrite !rd32_wr32_ne by done. done.
    + rewrite Hslot2 by done. fold x. eexists. rewrite rd32_wr32_alias, rd32_wr32_eq by done.
      unfold entry. rewrite Z.shiftr_div_pow2 by lia. reflexivity.
  - transitivity (walk m2 pd a); [|exact Hw2]. apply (walk_other_entry m2 _ pd la); try done; [by rewrite Ed2| |].
    + rewrite Hslot2 by done. fold x. intros b Hxb. rewrite !rd32_wr32_ne by done. done.
    + rewrite !Hslot2 by done. intros _. exact Hne.
Qed.

End Properties.

(** ** [map] with the allocator of the pool behind it *)
Section MapAlloc.
Context `{Symbols}.
Variable swap_out : Z -> Z -> K unit.
Variable fuel : nat.

(** The directory and the tables of [pd] share no word with the pool. *)
Definition tables_off_pool (m : memory) (pd : Z) (ps : list Z) : Prop :=
  forall la, 0 <= la < 2 ^ 32 -> off_pool ps (pde_slot pd la) /\
    (present (rd32 m (pde_slot pd la)) = true -> off_pool ps (pte_slot m pd la)).

(** C30: [map] where the directory has no table yet, with the pool's own [alloc_page] in
    a state where the page for the table evicts nothing and the first run has more than
    one page, the tables being apart from the pool: [get_pte] takes the page, clears it
    and enters it; then the addresses of the page mapped translate into the frame when
    the sign has the present bit, and every other address translates as it did before
    the call. *)
Theorem map_new_table s pd la pa sign p k rest i t j :
  tables (k_mem s) pd -> 0 <= la < 2 ^ 32 -> 0 <= sign < 2 ^ 8 ->
  present (rd32 (k_mem s) (pde_slot pd la)) = false ->
  pool_ok s ((p, k) :: rest) -> (1 < k)%nat -> (0 < fuel)%nat -> alloc_quiet swap_out s (pool_pages ((p, k) :: rest)) 1 ->
  tables_off_pool (k_mem s) pd (pool_pages ((p, k) :: rest)) ->
  p = k_pages s + sizeof_Page * i -> new_table s pd i t ->
  frame_of s j pa -> off_tables (k_mem s) pd (k_pages s + sizeof_Page * j) ->
  apart t PAGE_SIZE (k_pages s + sizeof_Page * j) 4 ->
  exists s', map (Pmm.alloc_page swap_out fuel) fuel pd la pa sign s = Ok tt s' /\
    forall la', 0 <= la' < 2 ^ 32 -> walk (k_mem s') pd la' =
      if decide (la' / PAGE_SIZE = la / PAGE_SIZE) then (if Z.odd sign then Some (pa + la' mod PAGE_SIZE) else None)
      else walk (k_mem s) pd la'.
Proof.
  intros Ht Hla Hsg Hnp Hok Hk Hf Hq Htp Ep Hn Hfr Hoff Hap.
  destruct (alloc_page_front swap_out s p k rest 1 fuel Hok) as (s1 & R & Hst & _ & _ & F); [lia|done|done|].
  assert (E : k_pages s1 = k_pages s /\ k_pt_begin s1 = k_pt_begin s) by (by rewrite Hst). destruct E as [E1 E2].
  assert (Ed : forall b, 0 <= b < 2 ^ 32 -> rd32 (k_mem s1) (pde_slot pd b) = rd32 (k_mem s) (pde_slot pd b))
    by (intros b Hb; by apply F, Htp).
  assert (Es : forall b, 0 <= b < 2 ^ 32 -> pte_slot (k_mem s1) pd b = pte_slot (k_mem s) pd b)
    by (intros b Hb; by apply slot_ext, Ed).
  assert (Ho : forall a, off_tables (k_mem s) pd a -> off_tables (k_mem s1) pd a)
    by (intros a Ha b Hb; rewrite Ed, Es by done; by apply Ha).
  destruct (map_created (Pmm.alloc_page swap_out fuel) fuel s s1 pd la pa sign i t j) as (m' & Hrun & Hw);
    rewrite ?E1; try done.
  - by apply (tables_ext (k_mem s)).
  - by rewrite Ed.
  - by rewrite Ed.
  - by rewrite <- Ep.
  - destruct Hn as [? ? ? ? ? Hpt]. constructor; rewrite ?E1, ?E2; auto. intros b Hb. rewrite Ed by done. by apply Hpt.
  - destruct Hfr. by constructor; rewrite ?E1, ?E2.
  - by apply Ho.
  - eexists. split; [exact Hrun|]. intros la' Hla'. cbn [k_mem set_log set_mem]. rewrite Hw by done.
    destruct (decide _); [done|]. apply walk_ext; [by apply Ed|]. intros Hp'. rewrite <- (Es la') by done.
    rewrite Es by done. by apply F, Htp.
Qed.

End MapAlloc.

(** * What the kernel starts with *)
Section Start.
Context `{Symbols}.

(** ** The tables [kern_init] builds *)
Definition boot_entry (e addr : Z) : Z :=
  bf_set 0 9 7 (w32 (bf_set 9 3 0 (w32 (bf_set 12 20 addr e)))).

Lemma boot_entry_page_addr e addr : 0 <= addr < 2 ^ 20 -> pte_page_addr (w32 (boot_entry e addr)) = addr.
Proof.
  intros. unfold pte_page_addr, boot_entry.
  rewrite bf_get_w32, bf_get_set_ne, bf_get_w32, bf_get_set_ne, bf_get_w32, bf_get_set by lia.
  by apply land_ones_small.
Qed.

Lemma boot_entry_present e addr : present (w32 (boot_entry e addr)) = true.
Proof.
  pose proof (sign_present (w32 (boot_entry e addr))) as Hp. unfold pte_sign, boot_entry in *.
  rewrite bf_get_w32, bf_get_set in Hp by lia. change (Z.land 7 (Z.ones 9)) with 7 in Hp.
  by destruct (present _).
Qed.

Lemma boot_word_apart a b : 0 <= a -> 0 <= b -> 4 * a < 2 ^ 20 -> 4 * b < 2 ^ 20 -> a <> b -> wd (4 * a) (4 * b).
Proof. intros. unfold wd. ka_simpl. lia. Qed.

(** A store of one entry of the tables below 2^20. *)
Lemma boot_store_entry s x addr (K' : K unit) :
  exists m', (set_pte_page_addr x addr;; set_pte_os x 0;; set_pte_sign x 0x7;; K') s = K' (set_mem m' s) /\
    rd32 m' x = w32 (boot_entry (rd32 (k_mem s) x) addr) /\
    forall a, wd x a -> rd32 m' a = rd32 (k_mem s) a.
Proof.
  eexists. split; [unfold set_pte_page_addr, set_pte_os, set_pte_sign; krun; reflexivity|]. split.
  - rewrite !rd32_wr32_eq. done.
  - intros a Ha. by rewrite !rd32_wr32_ne.
Qed.

Lemma kern_init_clear_spec n : forall s i, 0 <= i -> i + Z.of_nat n <= 2 ^ 10 ->
  exists m', kern_init_clear n i s = Ok tt (set_mem m' s) /\
    (forall j, i <= j < i + Z.of_nat n -> rd32 m' (4 * j) = 0) /\
    (forall j, 0 <= j < 2 ^ 11 -> ~ (i <= j < i + Z.of_nat n) -> rd32 m' (4 * j) = rd32 (k_mem s) (4 * j)).
Proof.
  induction n as [|n IH]; intros s i Hi Hn; cbn [kern_init_clear].
  - exists (k_mem s). rewrite set_mem_id. split; [done|]. split; [lia|done].
  - destruct (IH (set_mem (wr32 (k_mem s) (4 * i) 0) s) (i + 1)) as (m' & Hrun & H0 & Hf); [lia..|].
    exists m'. split; [exact Hrun|]. cbn in Hf. split.
    + intros j Hj. destruct (decide (j = i)) as [->|]; [|apply H0; lia].
      rewrite Hf by lia. by rewrite rd32_wr32_eq.
    + intros j Hj Hnj. rewrite Hf by lia. apply rd32_wr32_ne, boot_word_apart; lia.
Qed.

Lemma kern_init_table_spec n : forall s i, 0 <= i -> i + Z.of_nat n <= 2 ^ 10 ->
  exists m', kern_init_table n i s = Ok tt (set_mem m' s) /\
    (forall j, i <= j < i + Z.of_nat n -> exists e, rd32 m' (4 * (2 ^ 10 + j)) = w32 (boot_entry e j)) /\
    (forall j, 0 <= j < 2 ^ 11 -> ~ (2 ^ 10 + i <= j < 2 ^ 10 + i + Z.of_nat n) ->
      rd32 m' (4 * j) = rd32 (k_mem s) (4 * j)).
Proof.
  induction n as [|n IH]; intros s i Hi Hn; cbn [kern_init_table].
  - exists (k_mem s). rewrite set_mem_id. split; [done|]. split; [lia|done].
  - unfold fst_init. replace (0x1000 + 4 * i) with (4 * (2 ^ 10 + i)) by lia.
    destruct (boot_store_entry s (4 * (2 ^ 10 + i)) i (kern_init_table n (i + 1))) as (m1 & Hrun1 & Hx & Hf1).
    destruct (IH (set_mem m1 s) (i + 1)) as (m' & Hrun & H0 & Hf); [lia..|].
    exists m'. split; [rewrite Hrun1; exact Hrun|]. cbn in Hf. split.
    + intros j Hj. destruct (decide (j = i)) as [->|]; [|apply H0; lia].
      rewrite Hf by lia. eauto.
    + intros j Hj Hnj. rewrite Hf by lia. apply Hf1, boot_word_apart; lia.
Qed.

Lemma kern_init_pde_spec s i : 0 <= i < 2 ^ 10 ->
  exists m', kern_init_pde i s = Ok tt (set_mem m' s) /\
    (exists e, rd32 m' (4 * i) = w32 (boot_entry e 1)) /\
    (forall j, 0 <= j < 2 ^ 11 -> j <> i -> rd32 m' (4 * j) = rd32 (k_mem s) (4 * j)).
Proof.
  intros Hi. unfold kern_init_pde, pd_init, fst_init. rewrite Z.add_0_l. change (Z.shiftr 0x1000 12) with 1.
  eexists. split; [unfold set_pte_page_addr, set_pte_os, set_pte_sign; krun; reflexivity|]. split.
  - eexists. rewrite !rd32_wr32_eq. reflexivity.
  - intros j Hj Hne. rewrite !rd32_wr32_ne by (apply boot_word_apart; lia). done.
Qed.

(** C31: After [kern_init] sets up paging, both 4 MB windows (at 0 and at 0xC0000000)
    translate to the same low physical memory, and no other address translates. *)
Theorem kern_init_identity s :
  VERTUAL_MEM <= kern_start < VERTUAL_MEM + 2 ^ 22 ->
  exists m', kern_init_paging s = Ok tt (set_log (EvCr3 0 :: k_log s) (set_mem m' s)) /\
    forall la, 0 <= la < 2 ^ 32 -> walk m' 0 la =
      if decide (la < 2 ^ 22 \/ VERTUAL_MEM <= la < VERTUAL_MEM + 2 ^ 22) then Some (ka la) else None.
Proof.
  intros Hks. assert (Ek : Z.shiftr kern_start 22 = 768).
  { rewrite Z.shiftr_div_pow2 by lia. unfold VERTUAL_MEM in *. lia_div. }
  unfold kern_init_paging. rewrite Ek. remember (Z.to_nat (PAGE_SIZE / 4)) as N eqn:EN.
  assert (HN : Z.of_nat N = 2 ^ 10) by (rewrite EN, Z2Nat.id; done). clear EN.
  destruct (kern_init_clear_spec N s 0) as (m1 & R1 & H1 & _); [lia..|].
  destruct (kern_init_pde_spec (set_mem m1 s) 0) as (m2 & R2 & (e2 & H2) & F2); [done|].
  destruct (kern_init_pde_spec (set_mem m2 s) 768) as (m3 & R3 & (e3 & H3) & F3); [done|].
  destruct (kern_init_table_spec N (set_mem m3 s) 0) as (m4 & R4 & H4 & F4); [lia..|].
  rewrite HN in *. cbn [k_mem set_mem] in *.
  exists m4. split.
  - krun. rewrite R1. krun.
    change (set_mem m2 (set_mem m1 s)) with (set_mem m2 s) in R2. rewrite R2. krun.
    change (set_mem m3 (set_mem m2 s)) with (set_mem m3 s) in R3. rewrite R3. krun.
    change (set_mem m4 (set_mem m3 s)) with (set_mem m4 s) in R4. rewrite R4. reflexivity.
  - intros la Hla. set (i := la / 2 ^ 22). assert (Hi : 0 <= i < 2 ^ 10) by (unfold i; lia_div).
    unfold walk, pte_slot, pde_slot. fold i. rewrite Z.add_0_l.
    assert (Hd : rd32 m4 (4 * i) = if decide (i = 0 \/ i = 768) then rd32 m4 (4 * i) else 0).
    { destruct (decide _); [done|]. rewrite F4, F3, F2 by lia. apply H1. lia. }
    assert (Hbe : i = 0 \/ i = 768 -> exists e, rd32 m4 (4 * i) = w32 (boot_entry e 1)).
    { intros [->| ->]; rewrite F4 by lia; [rewrite F3 by lia|]; eauto. }
    destruct (decide (i = 0 \/ i = 768)) as [Hw|Hw].
    + destruct (Hbe Hw) as [e He]. rewrite He, boot_entry_present, boot_entry_page_addr by lia.
      set (j := la / 2 ^ 12 mod 2 ^ 10). assert (Hj : 0 <= j < 2 ^ 10) by (apply Z.mod_pos_bound; lia).
      change (1 * PAGE_SIZE) with (4 * 2 ^ 10). rewrite <- Z.mul_add_distr_l.
      destruct (H4 j) as [e' He']; [lia|]. rewrite He', boot_entry_present, boot_entry_page_addr by lia.
      rewrite decide_True by (unfold i, VERTUAL_MEM in *; lia_div). f_equal.
      unfold ka, PAGE_SIZE. wsmall. unfold i, j, VERTUAL_MEM in *. destruct (Z.leb_spec 0xC0000000 la); lia_div.
    + rewrite Hd. change (present 0) with false. rewrite decide_False; [done|].
      unfold i, VERTUAL_MEM in *. lia_div.
Qed.

(** ** The pool [page_init] builds *)
Lemma page_init_link_spec s base n : forall m i l1,
  0 <= base -> geom base -> dlist m free_pages_head (pg_node <$> l1) ->
  (forall q, q ∈ l1 ++ pages_from (base + sizeof_Page * i) n -> is_page base q) ->
  NoDup (l1 ++ pages_from (base + sizeof_Page * i) n) ->
  exists m', page_init_link n base i (set_mem m s) = Ok tt (set_mem m' s) /\
    dlist m' free_pages_head (pg_node <$> l1 ++ pages_from (base + sizeof_Page * i) n) /\
    forall a, off_nodes (free_pages_head :: (pg_node <$> l1 ++ pages_from (base + sizeof_Page * i) n)) a ->
      rd32 m' a = rd32 m a.
Proof.
  induction n as [|n IH]; intros m i l1 Hb Hg Hd Hpg Hnd; cbn [page_init_link pages_from] in *.
  - exists m. rewrite app_nil_r. done.
  - set (x := base + sizeof_Page * i) in *.
    assert (Hx : is_page base x) by (apply Hpg; elt).
    assert (Ex : page_add base i = x).
    { unfold page_add. rewrite (Z.mul_comm i). fold x. unfold is_page, sizeof_Page in Hx. wsmall. lia. }
    assert (Ei : base + sizeof_Page * (i + 1) = x + sizeof_Page) by (unfold x; ring).
    assert (Hl : (l1 ++ [x]) ++ pages_from (x + sizeof_Page) n = l1 ++ x :: pages_from (x + sizeof_Page) n)
      by (by rewrite <- app_assoc).
    assert (Hns : nodes_sep (free_pages_head :: (pg_node <$> l1) ++ [pg_node x])).
    { change [pg_node x] with (pg_node <$> [x]). rewrite <- fmap_app. apply (pages_nodes_sep base); [done| |].
      - intros q Hq. apply Hpg. revert Hq. elt.
      - rewrite <- Hl in Hnd. by apply NoDup_app in Hnd as [? _]. }
    rewrite <- (app_nil_r (pg_node <$> l1)) in Hd.
    pose proof (list_insert_before_spec _ _ _ _ _ Hd Hns) as [Hd1 Hf1].
    cbn [after head default id from_option] in Hd1, Hf1. rewrite Ex. krun.
    set (m1 := list_insert_before free_pages_head (pg_node x) m) in *.
    destruct (IH m1 (i + 1) (l1 ++ [x])) as (m' & Hrun & Hd' & Hf'); rewrite ?Ei, ?Hl; try done.
    { rewrite fmap_app. done. }
    rewrite Ei, Hl in Hd', Hf'. exists m'. split; [exact Hrun|split; [exact Hd'|]].
    intros a Ha. rewrite Hf' by done. apply Hf1. eapply off_nodes_sub; [|exact Ha].
    change [pg_node x] with (pg_node <$> [x]). intros y.
    rewrite <- fmap_app, !elem_of_cons, !list_elem_of_fmap.
    intros [?|(z & ? & Hz)]; [by left|right; exists z; split; [done|revert Hz; elt]].
Qed.

Lemma pages_from_is_page base n : 0 <= base -> base + sizeof_Page * Z.of_nat n <= 2 ^ 30 ->
  forall q, q ∈ pages_from base n -> is_page base q.
Proof. intros ? ? q (i & ? & ->)%elem_of_pages_from. wds. Qed.

Lemma head_sep base : geom base -> nodes_sep [free_pages_head].
Proof. intros Hg. apply (pages_nodes_sep base []); [done|by intros q ?%elem_of_nil|constructor]. Qed.

(** The [n] structures become one block of [n] free pages. *)
Lemma page_init_pool_run s n :
  geom (k_pages s) -> (0 < n)%nat -> k_pages s + sizeof_Page * Z.of_nat n <= 2 ^ 30 ->
  exists s', page_init_pool (Z.of_nat n) s = Ok tt s' /\ pool_ok s' [(k_pages s, n)] /\
    s' = set_free_page_num (Z.of_nat n) (set_mem (k_mem s') s).
Proof.
  intros Hg Hn Hb. set (base := k_pages s) in *. pose proof Hg as [Hb0 Hh Hbe].
  pose proof (pages_from_is_page base n ltac:(lia) Hb) as Hpg.
  assert (Hp0 : base ∈ pages_from base n) by (apply elem_of_pages_from; exists 0; lia).
  assert (Ew : w32 (Z.of_nat n * sizeof_Page) = sizeof_Page * Z.of_nat n).
  { unfold sizeof_Page in *. wsmall. lia. }
  set (m1 := list_init free_pages_head (k_mem s)).
  set (m2 := memset_loop (Z.to_nat (sizeof_Page * Z.of_nat n)) base 0 m1).
  set (m3 := wr32 m2 (pg_free_pages base) (Z.of_nat n)).
  destruct (list_init_spec (k_mem s) free_pages_head (head_sep base Hg)) as [Hd1 _]. fold m1 in Hd1.
  assert (Hspan : span base (sizeof_Page * Z.of_nat n)) by (unfold span, VERTUAL_MEM; lia).
  assert (Hd2 : dlist m2 free_pages_head []).
  { apply (dlist_frame m1); [|done]. intros a (x & Hx & Ha). apply memset_frame; [done|unfold sizeof_Page; lia|].
    apply list_elem_of_singleton in Hx as ->. left. unfold VERTUAL_MEM, sizeof_Page in *.
    destruct Ha as [-> | ->]; ka_simpl; unfold VERTUAL_MEM; lia. }
  assert (Hd3 : dlist m3 free_pages_head []).
  { apply dlist_wr32; [|done]. apply (page_words_off base [] base 8); [done|by intros q ?%elem_of_nil|auto|lia]. }
  destruct (page_init_link_spec (set_free_page_num (Z.of_nat n) s) base n m3 0 []) as (m4 & Hrun & Hd4 & Hf4);
    rewrite ?Z.mul_0_r, ?Z.add_0_r; cbn [app]; try done; [lia|apply sorted_NoDup, pages_from_sorted|].
  rewrite Z.mul_0_r, Z.add_0_r in Hd4, Hf4. cbn [app] in Hd4, Hf4.
  assert (Hcnt : forall q, q ∈ pages_from base n ->
    rd32 m4 (pg_free_pages q) = if decide (q = base) then Z.of_nat n else 0).
  { intros q Hq. rewrite Hf4 by (apply (page_words_off base _ q 8); auto; lia). unfold m3.
    destruct (decide (q = base)) as [->|Hne]; [apply rd32_wr32_small; unfold sizeof_Page in *; lia|].
    pose proof (Hpg _ Hq). rewrite rd32_wr32_ne by wds. apply memset_zero_word; [done|wds|].
    apply elem_of_pages_from in Hq as (i & ? & ->). wds. }
  exists (set_free_page_num (Z.of_nat n) (set_mem m4 s)). split; [|split; [|done]].
  - unfold page_init_pool, memset. krun. fold base. rewrite Ew, Nat2Z.id. fold m1. fold m2. fold m3. exact Hrun.
  - constructor; [exact Hg| |unfold pool_size; cbn [pool_pages]; rewrite app_nil_r, length_pages_from; done].
    constructor; cbn [pool_pages]; rewrite ?app_nil_r; [exact Hpg|apply pages_from_sorted|exact Hd4|].
    apply Forall_singleton. split; [exact Hn|cbn [fst snd]; split].
    + cbn. rewrite Hcnt by done. by apply decide_True.
    + intros q (i & Hi & ->)%elem_of_pages_from. cbn. rewrite Hcnt, decide_False; [done|unfold sizeof_Page; lia|].
      apply elem_of_pages_from. exists (i + 1). unfold sizeof_Page. lia.
Qed.

(** The pool [page_init] builds is well formed with one run of all pages, and
    [alloc_page] serves it from the front. *)
Theorem page_init_pool_serves swap_out s n k fuel' :
  geom (k_pages s) -> k_pages s + sizeof_Page * Z.of_nat n <= 2 ^ 30 ->
  k_is_vmm_inited s <> 1 -> (0 < k < n)%nat -> (0 < fuel')%nat ->
  exists s1 s2, page_init_pool (Z.of_nat n) s = Ok tt s1 /\ pool_ok s1 [(k_pages s, n)] /\
    Pmm.alloc_page swap_out fuel' (Z.of_nat k) s1 = Ok (k_pages s + VERTUAL_MEM) s2 /\
    pool_ok s2 [(k_pages s + sizeof_Page * Z.of_nat k, (n - k)%nat)].
Proof.
  intros Hg Hb Hv Hk Hf. destruct (page_init_pool_run s n Hg ltac:(lia) Hb) as (s1 & Hrun & Hok & Hst).
  destruct (alloc_page_front swap_out s1 (k_pages s) n [] k fuel' Hok Hk Hf) as (s2 & Hal & _ & Hok2 & _).
  { left. by rewrite Hst. }
  by exists s1, s2.
Qed.

(** ** The size of the region *)

(** At most [MAX_PAGE_NUM] pages, none beyond the region, and their
    structures in front of the first one. *)
Theorem region_pages_bound pages pt_end :
  0 <= pages -> pages <= pt_end < 2 ^ 32 ->
  let n := region_pages pages pt_end in
  0 <= n <= MAX_PAGE_NUM /\ pages + n * PAGE_SIZE <= pt_end /\
  (pages + n * sizeof_Page < 2 ^ 32 - PAGE_SIZE ->
   let pt_begin := ROUNDUP (w32 (pages + n * sizeof_Page)) in
   pages + n * sizeof_Page < pt_begin <= pages + n * sizeof_Page + PAGE_SIZE /\ pt_begin mod PAGE_SIZE = 0).
Proof.
  intros Hp He n. unfold n, region_pages, MAX_PAGE_NUM, ROUNDUP, PAGE_SIZE, sizeof_Page.
  rewrite (w32_small (pt_end - pages)), s32_small by lia_div.
  set (k := (pt_end - pages) / 4096). assert (0 <= k /\ pages + k * 4096 <= pt_end) by (unfold k; lia_div).
  set (j := if 30000 <? k then 30000 else k). assert (0 <= j <= 30000 /\ j <= k).
  { unfold j. destruct (Z.ltb_spec 30000 k); lia. }
  split; [lia|split; [lia|]]. intros Hj. cbn zeta. wsmall. rewrite w32_small by lia_div. split; lia_div.
Qed.

(** Below the limit the pool has pages whose frames lie beyond the region: the
    space of the page structures is counted as free pages too. *)
Theorem page_init_overcounts pages pt_end :
  0 <= pages -> pages mod PAGE_SIZE = 0 -> pages + PAGE_SIZE <= pt_end < 2 ^ 31 -> pt_end mod PAGE_SIZE = 0 ->
  let n := region_pages pages pt_end in let pt_begin := ROUNDUP (w32 (pages + n * sizeof_Page)) in
  n < MAX_PAGE_NUM -> pt_end <= pt_begin + (n - 1) * PAGE_SIZE.
Proof.
  intros Hp Hm He Hme n. unfold n, region_pages, MAX_PAGE_NUM, ROUNDUP, PAGE_SIZE, sizeof_Page in *.
  rewrite (w32_small (pt_end - pages)), s32_small by lia_div.
  set (k := (pt_end - pages) / 4096). assert (1 <= k /\ pages + k * 4096 = pt_end) by (unfold k; lia_div).
  destruct (Z.ltb_spec 30000 k); [lia|]. intros _. wsmall. rewrite w32_small by lia_div. lia_div.
Qed.

End Start.
