(* ===== verification/Ports.v ===== *)
(** The port instructions of include/x86.h and the interrupt flag. What the
    devices answer is the stream [k_inq] of values that successive reads
    return; when it ends the device never answers. *)

From S2P Require Import Prelude Machine.

Local Open Scope Z_scope.

Definition outb (port value : Z) : K unit := emit (EvOutb (w16 port) (w8 value)).
Definition outw (port data : Z) : K unit := emit (EvOutw (w16 port) (w16 data)).

(** One value read from a device. *)
Definition device_read : K Z := fun s =>
  match k_inq s with
  | [] => Hang s
  | v :: q => Ok v (set_inq q s)
  end.

Definition inb (port : Z) : K Z := v ← device_read; mret (w8 v).

(** [rep insl]: [cnt] words into memory from [addr] on. *)
Fixpoint insl_loop (cnt : nat) (addr : Z) : K unit :=
  match cnt with
  | O => mret tt
  | S cnt => v ← device_read; store addr (w32 v);; insl_loop cnt (w32 (addr + 4))
  end.

Definition insl (port addr cnt : Z) : K unit := insl_loop (Z.to_nat cnt) addr.

(** The [cnt] words of memory from [addr] on. *)
Fixpoint words_at (cnt : nat) (m : memory) (addr : Z) : list Z :=
  match cnt with
  | O => []
  | S cnt => rd32 m addr :: words_at cnt m (w32 (addr + 4))
  end.

(** [rep outsl] *)
Definition outsl (port addr cnt : Z) : K unit := fun s =>
  emit (EvOutsl port (words_at (Z.to_nat cnt) (k_mem s) addr)) s.

Definition cli : K unit := upd (set_IF false).
Definition sti : K unit := upd (set_IF true).

(** Bit 9 of EFLAGS is the interrupt flag; the kernel looks at no other bit. *)
Definition read_eflags : K Z := f ← get k_IF; mret (if (f : bool) then 0x200 else 0).

Definition atom_disable_intr : K Z :=
  e ← read_eflags;
  if negb (Z.land e 0x200 =? 0) then cli;; mret 1 else mret 0.

Definition atom_enable_intr (flag : Z) : K unit := when (negb (flag =? 0)) sti.

(** A critical section leaves the flag as it found it, and runs with it off. *)
Theorem atom_section s :
  atom_disable_intr s = Ok (if k_IF s then 1 else 0) (set_IF false s) /\
  forall s', k_IF s' = false ->
    atom_enable_intr (if k_IF s then 1 else 0) s' = Ok tt (set_IF (k_IF s) s').
Proof.
  unfold atom_disable_intr, atom_enable_intr, read_eflags, cli, sti. krun. split.
  - destruct (k_IF s) eqn:E; krun; [done|]. change (negb (Z.land 0 0x200 =? 0)) with false. krun.
    f_equal. by destruct s; simpl in *; subst.
  - intros s' Hs'. destruct (k_IF s); krun; [done|]. f_equal. by destruct s'; simpl in *; subst.
Qed.

(** ** Blocks of words *)

Lemma insl_loop_step k b q v s :
  k_inq s = v :: q -> insl_loop (S k) b s = insl_loop k (w32 (b + 4)) (set_inq q (set_mem (wr32 (k_mem s) b (w32 v)) s)).
Proof. intros E. cbn [insl_loop]. unfold device_read. krun. rewrite E. krun. by destruct s. Qed.

Lemma insl_loop_spec n : forall a s vs q,
  span a (4 * Z.of_nat n) -> k_inq s = vs ++ q -> length vs = n ->
  exists m', insl_loop n a s = Ok tt (set_inq q (set_mem m' s)) /\
    words_at n m' a = (w32 <$> vs) /\
    forall x, ka x + 4 <= ka a \/ ka a + 4 * Z.of_nat n <= ka x -> rd32 m' x = rd32 (k_mem s) x.
Proof.
  induction n as [|n IH]; intros a s vs q Hs Hq Hl.
  - destruct vs; [|done]. exists (k_mem s). cbn. split; [|done]. f_equal. cbn in Hq. subst q. by destruct s.
  - destruct vs as [|v vs]; [done|]. cbn [length] in Hl. injection Hl as Hl. cbn [app] in Hq.
    rewrite (insl_loop_step _ _ (vs ++ q) v) by done.
    destruct (decide (n = 0)%nat) as [->|Hn].
    { destruct vs; [|done]. cbn. eexists. split; [done|]. rewrite rd32_wr32_eq, w32_w32. split; [done|].
      intros x Hx. apply rd32_wr32_ne. unfold wd. lia. }
    assert (Ea : ka (a + 4) = ka a + 4) by (apply (ka_span _ _ _ Hs); lia).
    assert (w32 (a + 4) = a + 4) as E4 by (apply w32_small; unfold span, VERTUAL_MEM in *; lia).
    rewrite E4. destruct (IH (a + 4) (set_inq (vs ++ q) (set_mem (wr32 (k_mem s) a (w32 v)) s)) vs q) as (m' & Hrun & Hw & Hf);
      [unfold span, VERTUAL_MEM in *; lia|done|done|].
    exists m'. split; [exact Hrun|]. cbn [words_at fmap list_fmap]. rewrite E4, Hw. rewrite Ea in Hf. split.
    + f_equal. rewrite Hf by lia. cbn. by rewrite rd32_wr32_eq, w32_w32.
    + intros x Hx. rewrite Hf by lia. cbn. apply rd32_wr32_ne. unfold wd. lia.
Qed.
