(* ===== verification/Swap.v ===== *)
(** The IDE driver and the page replacement of mm/swap.c. [swap_out] closes the
    loop with the page allocator: [alloc_page] calls it, and it frees pages. *)

From S2P Require Import Prelude Machine DList Str Pmm Paging Ports.

Local Open Scope Z_scope.

Definition SECTSIZE : Z := 512.

(** [swap.ideno] *)
Definition swap_ideno : Z := 1.

(** * [struct mm_struct] of include/vmm.h *)
Definition sizeof_mm : Z := 28.
Definition mm_pde (mm : Z) : Z := mm.
Definition mm_cache (mm : Z) : Z := mm + 4.
Definition mm_num (mm : Z) : Z := mm + 8.
Definition mm_node (mm : Z) : Z := mm + 12.
Definition mm_vm_fifo (mm : Z) : Z := mm + 20.

(** * The disk *)
Fixpoint waitdisk (fuel : nat) : K Z :=
  match fuel with
  | O => nofuel
  | S fuel =>
      b ← inb 0x1F7;
      let return_val := Z.land b 0xC0 in
      if negb (return_val =? 0x40) then waitdisk fuel
      else if negb (Z.land return_val 0x21 =? 0) then mret (-1) else mret 0
  end.

(** [n] words from the device into a local array. *)
Fixpoint insl_local (n : nat) : K (list Z) :=
  match n with
  | O => mret []
  | S n => v ← device_read; l ← insl_local n; mret (w32 v :: l)
  end.

Section Disk.
Variable fuel : nat.

(** The result is the pair [swap.cmdsets], [swap.sect_num]. *)
Definition swap_init : K (Z * Z) :=
  waitdisk fuel;;
  outb 0x1F6 (Z.lor 0xE0 (Z.shiftl (Z.land swap_ideno 1) 4));;
  waitdisk fuel;;
  outb 0x1F7 0xEC;;
  waitdisk fuel;;
  buffer ← insl_local 128;
  let cmdsets := nth 41 buffer 0 in
  let sect_num := if negb (Z.land cmdsets 0x4000000 =? 0) then nth 50 buffer 0 else nth 30 buffer 0 in
  printf "swap's sect_num: %d\n" [sect_num];;
  mret (cmdsets, sect_num).

(** The six writes that issue a command. *)
Definition ide_command (sectno ide_no sect_count cmd : Z) : K unit :=
  waitdisk fuel;;
  outb 0x1F2 sect_count;;
  outb 0x1F3 sectno;;
  outb 0x1F4 (Z.shiftr (w32 sectno) 8);;
  outb 0x1F5 (Z.shiftr (w32 sectno) 16);;
  outb 0x1F6 (Z.lor (Z.lor (Z.shiftr (w32 sectno) 24) 0xE0) (Z.shiftl (Z.land ide_no 0x1) 4));;
  outb 0x1F7 cmd.

Fixpoint readsect_loop (sect_count : nat) (dst : Z) : K unit :=
  match sect_count with
  | O => mret tt
  | S sect_count =>
      r ← waitdisk fuel;
      if r =? -1 then mret tt
      else insl 0x1F0 dst (SECTSIZE / 4);; readsect_loop sect_count (w32 (dst + SECTSIZE))
  end.

Definition readsect (dst sectno ide_no sect_count : Z) : K unit :=
  ide_command sectno ide_no sect_count 0x20;;
  readsect_loop (Z.to_nat sect_count) dst.

Fixpoint writesect_loop (sect_count : nat) (src : Z) : K unit :=
  match sect_count with
  | O => mret tt
  | S sect_count =>
      r ← waitdisk fuel;
      if r =? -1 then mret tt
      else outsl 0x1F0 src (SECTSIZE / 4);; writesect_loop sect_count (w32 (src + SECTSIZE))
  end.

Definition writesect (src sectno ide_no sect_count : Z) : K unit :=
  ide_command sectno ide_no sect_count 0x30;;
  writesect_loop (Z.to_nat sect_count) src.

(** The sector an entry of a page on disk names, and the one of a page's address. *)
Definition pte_sector (e : Z) : Z := w32 (Z.shiftr e 8 * PAGE_SIZE) / SECTSIZE.
Definition va_sector (va : Z) : Z := w32 (w32 (va / PAGE_SIZE + 1) * PAGE_SIZE) / SECTSIZE.
Definition swap_entry (va : Z) : Z := w32 (Z.shiftl (w32 (va / PAGE_SIZE + 1)) 8).

Definition swap_read (dst_page_addr pte : Z) : K unit :=
  e ← load pte;
  readsect dst_page_addr (pte_sector e) 1 (PAGE_SIZE / SECTSIZE).

Definition swap_write (src_page_addr sectno : Z) : K unit :=
  writesect src_page_addr sectno 1 (PAGE_SIZE / SECTSIZE).

End Disk.

(** * Page replacement *)
Section Replacement.
Context `{Symbols}.
Variable fuel : nat.

(** [get_pte] with [is_create] 0 allocates nothing. *)
Definition find_pte (pde la : Z) : K Z := get_pte (fun _ => nofuel) pde la 0.

Fixpoint swap_out_loop (k : nat) (mm begin n : Z) : K unit :=
  match k with
  | O => nofuel
  | S k =>
      next ← load (node_next begin);
      if negb (next =? mm_vm_fifo mm) && (0 <? n) then
        let page := page_of_node next in
        pde ← load (mm_pde mm);
        va ← load (pg_va page);
        pte ← find_pte pde va;
        a ← pg_to_addr_la page;
        swap_write fuel a (va_sector va);;
        a ← pg_to_addr_la page;
        printf "swap %x page to swap.img!\n" [a];;
        set_pte_sign pte 0;;
        set_pte_page_addr pte 0;;
        va ← load (pg_va page);
        store pte (swap_entry va);;
        next ← load (node_next begin);
        on_mem (list_delete next);;
        free_page fuel page 1;;
        begin ← load (node_next begin);
        swap_out_loop k mm begin (n - 1)
      else mret tt
  end.

Definition swap_out (mm n : Z) : K unit := swap_out_loop fuel mm (mm_vm_fifo mm) n.

(** [alloc_page] with [swap_out] behind it. *)
Definition kalloc_page (n : Z) : K Z := Pmm.alloc_page swap_out fuel n.

Definition swap_in (mm fault_addr flags : Z) : K unit :=
  printf "swap %x page come in!\n" [fault_addr];;
  pde ← load (mm_pde mm);
  wrong_pte ← find_pte pde fault_addr;
  page ← kalloc_page 1;
  a ← pg_to_addr_la page;
  swap_read fuel a wrong_pte;;
  pde ← load (mm_pde mm);
  pa ← pg_to_addr_pa page;
  map kalloc_page fuel pde fault_addr pa 0x7;;
  store (pg_va page) fault_addr;;
  on_mem (list_insert_before (mm_vm_fifo mm) (pg_node page)).

End Replacement.

(** * The disk protocol *)

(** The error branch of [waitdisk] is dead: the tested bits are masked away. *)
Lemma waitdisk_result fuel : forall s r s', waitdisk fuel s = Ok r s' -> r = 0.
Proof.
  induction fuel as [|fuel IH]; intros s r s'; cbn [waitdisk]; [done|].
  unfold inb, device_read. krun. destruct (k_inq s) as [|v q]; [done|]. krun.
  destruct (Z.eqb_spec (Z.land (w8 v) 0xC0) 0x40) as [->|]; cbn [negb]; [|apply IH].
  change (Z.land 0x40 0x21 =? 0) with true. cbn [negb]. krun. intros E. by injection E.
Qed.

(** A status byte that says ready. *)
Definition ready (v : Z) : Prop := Z.land (w8 v) 0xC0 = 0x40.

Lemma waitdisk_ready fuel s v q :
  (0 < fuel)%nat -> k_inq s = v :: q -> ready v -> waitdisk fuel s = Ok 0 (set_inq q s).
Proof.
  unfold ready. intros Hf Hq Hv. destruct fuel; [lia|]. cbn [waitdisk]. unfold inb, device_read. krun.
  rewrite Hq. krun. rewrite Hv. done.
Qed.

(** The device's answers to a transfer of the sectors [ss]: before each a
    ready status, then its words. *)
Fixpoint sector_answers (ss : list (list Z)) : list Z :=
  match ss with
  | [] => []
  | ws :: ss => 0x40 :: ws ++ sector_answers ss
  end.

Lemma words_at_ext n : forall m m' a,
  span a (4 * Z.of_nat n) ->
  (forall x, ka a <= ka x -> ka x + 4 <= ka a + 4 * Z.of_nat n -> rd32 m' x = rd32 m x) ->
  words_at n m' a = words_at n m a.
Proof.
  induction n as [|n IH]; intros m m' a Hs Hx; cbn [words_at]; [done|].
  rewrite Hx by lia. f_equal. destruct n as [|n]; [done|].
  assert (Ea : ka (a + 4) = ka a + 4) by (apply (ka_span _ _ _ Hs); lia).
  assert (w32 (a + 4) = a + 4) as -> by (apply w32_small; unfold span, VERTUAL_MEM in *; lia).
  apply IH; [unfold span, VERTUAL_MEM in *; lia|]. intros x ? ?. apply Hx; lia.
Qed.

Lemma words_at_lookup n m : forall a i, span a (4 * Z.of_nat n) -> (i < n)%nat ->
  words_at n m a !! i = Some (rd32 m (a + 4 * Z.of_nat i)).
Proof.
  induction n as [|n IH]; intros a i Hs Hi; [lia|]. cbn [words_at].
  destruct i as [|i]; cbn [lookup list_lookup]; [by rewrite Z.add_0_r|].
  rewrite (w32_small (a + 4)) by (unfold span, VERTUAL_MEM in Hs; lia).
  rewrite IH by (unfold span, VERTUAL_MEM in *; lia). do 2 f_equal. lia.
Qed.

Lemma words_at_app n k : forall m a, span a (4 * (Z.of_nat n + Z.of_nat k)) -> (0 < k)%nat ->
  words_at (n + k) m a = words_at n m a ++ words_at k m (a + 4 * Z.of_nat n).
Proof.
  induction n as [|n IH]; intros m a Hs Hk; cbn [words_at Nat.add app].
  - by rewrite Z.mul_0_r, Z.add_0_r.
  - f_equal. assert (w32 (a + 4) = a + 4) as -> by (apply w32_small; unfold span, VERTUAL_MEM in *; lia).
    rewrite IH by (unfold span, VERTUAL_MEM in *; lia). f_equal. f_equal. lia.
Qed.

Lemma readsect_loop_spec fuel ss : forall dst s q,
  (0 < fuel)%nat -> span dst (512 * Z.of_nat (length ss)) ->
  Forall (fun ws => length ws = 128%nat) ss -> k_inq s = sector_answers ss ++ q ->
  exists m', readsect_loop fuel (length ss) dst s = Ok tt (set_inq q (set_mem m' s)) /\
    words_at (128 * length ss) m' dst = (w32 <$> concat ss) /\
    forall x, ka x + 4 <= ka dst \/ ka dst + 512 * Z.of_nat (length ss) <= ka x -> rd32 m' x = rd32 (k_mem s) x.
Proof.
  induction ss as [|ws ss IH]; intros dst s q Hfu Hs Hl Hq.
  - exists (k_mem s). cbn. split; [|done]. cbn in Hq. subst q. by destruct s.
  - apply Forall_cons in Hl as [Hw Hl]. cbn [length readsect_loop sector_answers app] in *.
    rewrite <- app_assoc in Hq.
    unfold insl. krun. rewrite (waitdisk_ready _ _ 0x40 (ws ++ sector_answers ss ++ q)) by done. krun.
    change (0 =? -1) with false. krun.
    destruct (insl_loop_spec (Z.to_nat (SECTSIZE / 4)) dst (set_inq (ws ++ sector_answers ss ++ q) s) ws (sector_answers ss ++ q))
      as (m1 & R1 & W1 & F1).
    { change (Z.of_nat (Z.to_nat (SECTSIZE / 4))) with 128. unfold span, VERTUAL_MEM in *. lia. }
    { done. } { by rewrite Hw. }
    rewrite R1. change (Z.of_nat (Z.to_nat (SECTSIZE / 4))) with 128 in F1. cbn [k_mem set_inq] in F1.
    destruct ss as [|ws2 ss].
    { exists m1. cbn in Hq |- *. split; [done|]. rewrite app_nil_r. split; [exact W1|]. intros x Hx. apply F1. lia. }
    assert (Ea : ka (dst + 512) = ka dst + 512) by (apply (ka_span _ _ _ Hs); cbn; lia).
    unfold SECTSIZE. rewrite (w32_small (dst + 512)) by (unfold span, VERTUAL_MEM in *; cbn in Hs; lia).
    set (s1 := set_inq _ (set_mem m1 _)).
    destruct (IH (dst + 512) s1 q) as (m' & R & W & F); [done|unfold span, VERTUAL_MEM in *; lia|done|done|].
    exists m'. split; [exact R|]. rewrite Ea in F. cbn [k_mem s1 set_inq set_mem] in F. split.
    + change (concat (ws :: ws2 :: ss)) with (ws ++ concat (ws2 :: ss)). rewrite fmap_app, <- W, <- W1.
      replace (128 * S (length (ws2 :: ss)))%nat with (128 + 128 * length (ws2 :: ss))%nat by lia.
      rewrite words_at_app by (unfold span, VERTUAL_MEM in *; cbn [length] in *; lia). f_equal.
      change (Z.to_nat (SECTSIZE / 4)) with 128%nat.
      apply words_at_ext; [unfold span, VERTUAL_MEM in *; lia|]. intros x ? ?. apply F. lia.
    + intros x Hx. rewrite F by lia. apply F1. lia.
Qed.

(** The sectors of [n] times 128 words from [src] on. *)
Fixpoint sectors_at (n : nat) (m : memory) (src : Z) : list (list Z) :=
  match n with
  | O => []
  | S n => words_at 128 m src :: sectors_at n m (src + SECTSIZE)
  end.

Lemma sectors_at_length n m : forall src, Forall (fun ws => length ws = 128%nat) (sectors_at n m src).
Proof. induction n; intros src; cbn [sectors_at]; constructor; auto. Qed.

Lemma length_sectors_at n m : forall src, length (sectors_at n m src) = n.
Proof. induction n; intros src; cbn [sectors_at length]; auto. Qed.

Lemma concat_sectors_at n : forall m src, span src (512 * Z.of_nat n) ->
  concat (sectors_at n m src) = words_at (128 * n) m src.
Proof.
  induction n as [|n IH]; intros m src Hs; [done|]. cbn [sectors_at concat].
  destruct n as [|n]; [by rewrite app_nil_r|].
  rewrite IH by (unfold span, SECTSIZE, VERTUAL_MEM in *; lia).
  replace (128 * S (S n))%nat with (128 + 128 * S n)%nat by lia.
  rewrite words_at_app by (unfold span, VERTUAL_MEM in *; lia). done.
Qed.

Lemma sectors_at_ext n : forall m m' src, span src (512 * Z.of_nat n) ->
  (forall x, ka src <= ka x -> ka x + 4 <= ka src + 512 * Z.of_nat n -> rd32 m' x = rd32 m x) ->
  sectors_at n m' src = sectors_at n m src.
Proof.
  induction n as [|n IH]; intros m m' src Hs Hx; [done|]. cbn [sectors_at]. f_equal.
  - apply words_at_ext; [unfold span, VERTUAL_MEM in *; lia|]. intros x X1 X2. apply Hx; lia.
  - destruct n as [|n]; [done|]. assert (ka (src + SECTSIZE) = ka src + SECTSIZE) as E by (apply (ka_span _ _ _ Hs); unfold SECTSIZE; lia).
    apply IH; [unfold span, SECTSIZE, VERTUAL_MEM in *; lia|]. rewrite E. unfold SECTSIZE. intros x X1 X2. apply Hx; lia.
Qed.

Lemma words_at_w32 n m : forall a, w32 <$> words_at n m a = words_at n m a.
Proof.
  induction n as [|n IH]; intros a; cbn [words_at fmap list_fmap]; [done|].
  rewrite IH, w32_small by apply rd32_range. done.
Qed.

Lemma writesect_loop_spec fuel n : forall src s q,
  (0 < fuel)%nat -> span src (512 * Z.of_nat n) -> k_inq s = replicate n 0x40 ++ q ->
  writesect_loop fuel n src s =
    Ok tt (set_log (rev (EvOutsl 0x1F0 <$> sectors_at n (k_mem s) src) ++ k_log s) (set_inq q s)).
Proof.
  induction n as [|n IH]; intros src s q Hf Hs Hq; cbn [writesect_loop replicate sectors_at app] in *.
  - cbn. subst q. by destruct s.
  - unfold outsl. krun. rewrite (waitdisk_ready _ _ 0x40 (replicate n 0x40 ++ q)) by done. krun.
    change (0 =? -1) with false. krun. change (Z.to_nat (SECTSIZE / 4)) with 128%nat.
    destruct n as [|n]; [by destruct s|].
    rewrite (w32_small (src + SECTSIZE)) by (unfold span, SECTSIZE, VERTUAL_MEM in *; lia).
    rewrite (IH _ _ q) by (done || (unfold span, SECTSIZE, VERTUAL_MEM in *; lia)).
    krun. f_equal. cbn [fmap list_fmap rev]. by rewrite <- app_assoc.
Qed.

(** The bytes a command leaves at the ports, latest first. *)
Definition command_log (sectno ide_no n cmd : Z) : list event :=
  [EvOutb 0x1F7 (w8 cmd);
   EvOutb 0x1F6 (w8 (Z.lor (Z.lor (Z.shiftr (w32 sectno) 24) 0xE0) (Z.shiftl (Z.land ide_no 1) 4)));
   EvOutb 0x1F5 (w8 (Z.shiftr (w32 sectno) 16)); EvOutb 0x1F4 (w8 (Z.shiftr (w32 sectno) 8));
   EvOutb 0x1F3 (w8 sectno); EvOutb 0x1F2 (w8 n)].

Lemma ide_command_run fuel s sectno ide_no n cmd q :
  (0 < fuel)%nat -> k_inq s = 0x40 :: q ->
  ide_command fuel sectno ide_no n cmd s =
    Ok tt (set_log (command_log sectno ide_no n cmd ++ k_log s) (set_inq q s)).
Proof. intros Hf Hq. unfold ide_command, outb. krun. rewrite (waitdisk_ready _ _ 0x40 q) by done. done. Qed.

Lemma swap_entry_val va : 0 <= va < 2 ^ 32 - PAGE_SIZE ->
  0 <= va / PAGE_SIZE + 1 < 2 ^ 20 /\ swap_entry va = (va / PAGE_SIZE + 1) * 2 ^ 8.
Proof.
  intros Hva. unfold swap_entry, PAGE_SIZE in *. split; [lia_div|].
  rewrite (w32_small (va / 4096 + 1)) by lia_div. rewrite Z.shiftl_mul_pow2, w32_small by lia_div. done.
Qed.

Lemma swap_write_run fuel s src va q :
  (0 < fuel)%nat -> span src PAGE_SIZE -> k_inq s = 0x40 :: replicate 8 0x40 ++ q ->
  swap_write fuel src (va_sector va) s =
    Ok tt (set_log (rev (EvOutsl 0x1F0 <$> sectors_at 8 (k_mem s) src) ++ command_log (va_sector va) 1 8 0x30 ++ k_log s)
      (set_inq q s)).
Proof.
  intros Hf Hs Hq. unfold PAGE_SIZE in Hs. unfold swap_write, writesect. krun. change (PAGE_SIZE / SECTSIZE) with 8.
  rewrite (ide_command_run _ _ _ _ _ _ (replicate 8 0x40 ++ q)) by done. change (Z.to_nat 8) with 8%nat.
  rewrite (writesect_loop_spec _ 8 _ _ q) by done. done.
Qed.

(** The sector an entry names is that of the address it was made from. *)
Lemma swap_entry_sector va : 0 <= va < 2 ^ 32 - PAGE_SIZE -> pte_sector (swap_entry va) = va_sector va.
Proof.
  intros Hva. destruct (swap_entry_val va Hva) as [Hr ->]. unfold pte_sector, va_sector.
  rewrite Z.shiftr_div_pow2, Z.div_mul, (w32_small (va / PAGE_SIZE + 1)) by lia. done.
Qed.

(** A page of eight sectors comes in. *)
Lemma swap_read_run fuel s dst pte va data q :
  (0 < fuel)%nat -> span dst PAGE_SIZE -> 0 <= va < 2 ^ 32 - PAGE_SIZE -> rd32 (k_mem s) pte = swap_entry va ->
  length data = 8%nat -> Forall (fun ws => length ws = 128%nat) data -> k_inq s = 0x40 :: sector_answers data ++ q ->
  exists m', swap_read fuel dst pte s =
      Ok tt (set_log (command_log (va_sector va) 1 8 0x20 ++ k_log s) (set_inq q (set_mem m' s))) /\
    words_at 1024 m' dst = (w32 <$> concat data) /\
    forall x, ka x + 4 <= ka dst \/ ka dst + PAGE_SIZE <= ka x -> rd32 m' x = rd32 (k_mem s) x.
Proof.
  intros Hf Hs Hva Hpte Hl Hw Hq. unfold PAGE_SIZE in Hs |- *.
  destruct (readsect_loop_spec fuel data dst (set_log (command_log (va_sector va) 1 8 0x20 ++ k_log s)
    (set_inq (sector_answers data ++ q) s)) q) as (m' & R & W & F); [done|by rewrite Hl|done|done|].
  rewrite Hl in R, W, F. change (128 * 8)%nat with 1024%nat in W. change (512 * Z.of_nat 8) with 4096 in F.
  exists m'. split; [|split; [exact W|exact F]].
  unfold swap_read, readsect. krun. rewrite Hpte, swap_entry_sector by done. change (PAGE_SIZE / SECTSIZE) with 8.
  rewrite (ide_command_run _ _ _ _ _ _ (sector_answers data ++ q)) by done. exact R.
Qed.

(** A page written to the disk and read back: the commands address the same sectors
    of the swap drive, and a drive that answers the data written restores the page,
    wherever it is read to. *)
Theorem swap_page_roundtrip fuel s s2 src dst pte va q q2 :
  (0 < fuel)%nat -> span src PAGE_SIZE -> span dst PAGE_SIZE -> 0 <= va < 2 ^ 32 - PAGE_SIZE ->
  k_inq s = 0x40 :: replicate 8 0x40 ++ q ->
  let data := sectors_at 8 (k_mem s) src in
  rd32 (k_mem s2) pte = swap_entry va -> k_inq s2 = 0x40 :: sector_answers data ++ q2 ->
  swap_write fuel src (va_sector va) s =
    Ok tt (set_log (rev (EvOutsl 0x1F0 <$> data) ++ command_log (va_sector va) 1 8 0x30 ++ k_log s) (set_inq q s)) /\
  exists m', swap_read fuel dst pte s2 =
      Ok tt (set_log (command_log (va_sector va) 1 8 0x20 ++ k_log s2) (set_inq q2 (set_mem m' s2))) /\
    words_at 1024 m' dst = words_at 1024 (k_mem s) src.
Proof.
  intros Hf Hs Hd Hva Hq data Hpte Hq2. split; [by apply swap_write_run|].
  destruct (swap_read_run fuel s2 dst pte va data q2) as (m' & R & W & _);
    [done..|apply length_sectors_at|apply sectors_at_length|done|].
  exists m'. split; [exact R|]. rewrite W. unfold data. rewrite concat_sectors_at by done. apply words_at_w32.
Qed.

(** Different pages go to disjoint ranges of eight sectors, and the entry of a page
    on disk is not present. *)
Theorem swap_sectors_disjoint va va' :
  0 <= va < 2 ^ 32 - PAGE_SIZE -> 0 <= va' < 2 ^ 32 - PAGE_SIZE -> va / PAGE_SIZE <> va' / PAGE_SIZE ->
  present (swap_entry va) = false /\ 8 <= va_sector va /\
  (va_sector va + 8 <= va_sector va' \/ va_sector va' + 8 <= va_sector va).
Proof.
  intros Hva Hva' Hne. destruct (swap_entry_val va Hva) as [Hr ->], (swap_entry_val va' Hva') as [Hr' _].
  unfold va_sector. rewrite (w32_small (va / _ + 1)), (w32_small (va' / _ + 1)) by lia.
  unfold PAGE_SIZE, SECTSIZE in *. rewrite !w32_small by lia. split; [|lia_div].
  unfold present. rewrite Z.odd_mul. by rewrite andb_false_r.
Qed.

(** The page-fault handler's test for "never mapped" ([page_addr] and [sign]
    both zero) also holds for these pages on disk: their data is lost. *)
Theorem swap_entry_lost va : 0 <= va < 2 ^ 32 - PAGE_SIZE ->
  (pte_page_addr (swap_entry va) = 0 /\ pte_sign (swap_entry va) = 0) <->
  (va / PAGE_SIZE) mod 2 = 1 /\ va / PAGE_SIZE < 15.
Proof.
  intros Hva. destruct (swap_entry_val va Hva) as [Hr ->].
  unfold pte_page_addr, pte_sign. rewrite !bf_get_div by lia. set (p := va / PAGE_SIZE) in *.
  split; intros [H1 H2]; split; lia_div.
Qed.

(** [waitdisk] spins until the drive is ready and never reports an error, so
    the transfers never stop early. *)
Theorem waitdisk_never_fails fuel s r s' : waitdisk fuel s = Ok r s' ->
  r = 0 /\ exists vs v, k_inq s = vs ++ v :: k_inq s' /\ ready v /\ Forall (fun v => ~ ready v) vs.
Proof.
  revert s. induction fuel as [|fuel IH]; intros s; cbn [waitdisk]; [done|].
  unfold inb, device_read. krun. destruct (k_inq s) as [|v q] eqn:Hq; [done|]. krun.
  destruct (Z.eqb_spec (Z.land (w8 v) 0xC0) 0x40) as [E|E]; cbn [negb].
  - rewrite E. change (Z.land 0x40 0x21 =? 0) with true. cbn [negb]. krun. intros [= <- <-].
    split; [done|]. exists [], v. cbn. done.
  - intros (Hr & vs & v' & Hv & Hrd & Hall)%IH. split; [done|]. exists (v :: vs), v'. cbn in Hv. rewrite Hv.
    split; [done|split; [done|]]. by constructor.
Qed.
