(* ===== verification/Malloc.v ===== *)
(** The kernel heap of mm/malloc.c: a circular list of chunks in address-tagged
    headers, and the refinement of [malloc] and [free] to a list of chunks. *)

From S2P Require Import Prelude Machine DList Str Pmm.

Local Open Scope Z_scope.

(** * [struct Chunk]: [allocated:1], [size:31], the list node *)
Definition sizeof_Chunk : Z := 12.
Definition chunk_node (c : Z) : Z := c + 4.
Definition chunk_of_node (node : Z) : Z := w32 (node - 4).
Definition chunk_allocated (w : Z) : Z := bf_get 0 1 w.
Definition chunk_size (w : Z) : Z := bf_get 1 31 w.
Definition set_chunk_allocated (c v : Z) : K unit := w ← load c; store c (bf_set 0 1 v w).
Definition set_chunk_size (c v : Z) : K unit := w ← load c; store c (bf_set 1 31 v w).

Section Heap.
Context `{Symbols}.

(** pmm.c's page source. *)
Variable alloc_page : Z -> K Z.

Definition malloc_init : K unit := on_mem (list_init chunk_head).

(** The [while] loop: the first free chunk that is large enough, or [NULL]. *)
Fixpoint malloc_scan (fuel : nat) (node total_alloc_size : Z) : K Z :=
  match fuel with
  | O => nofuel
  | S fuel =>
      next ← load (node_next node);
      if next =? chunk_head then mret NULL
      else
        let chunk := chunk_of_node next in
        w ← load chunk;
        if (chunk_allocated w =? 0) && (total_alloc_size <=? chunk_size w) then mret chunk
        else
          nn ← load (node_next (chunk_node chunk));
          if nn =? chunk_head then mret NULL
          else node ← load (node_next node); malloc_scan fuel node total_alloc_size
  end.

Definition malloc_split (chunk total_alloc_size : Z) : K Z :=
  let next := w32 (chunk + total_alloc_size) in
  set_chunk_allocated next 0;;
  w ← load chunk;
  set_chunk_size next (w32 (chunk_size w - total_alloc_size));;
  on_mem (list_insert_after (chunk_node chunk) (chunk_node next));;
  set_chunk_allocated chunk 1;;
  set_chunk_size chunk (w32 (total_alloc_size - sizeof_Chunk));;
  mret (w32 (chunk + sizeof_Chunk)).

Definition malloc_pages (size total_alloc_size : Z) : K Z :=
  let need_page_num :=
    if 0 <? total_alloc_size mod PAGE_SIZE then total_alloc_size / PAGE_SIZE + 1
    else total_alloc_size / PAGE_SIZE in
  pages ← alloc_page need_page_num;
  new_chunk ← pg_to_addr_la pages;
  set_chunk_allocated new_chunk 1;;
  set_chunk_size new_chunk size;;
  on_mem (list_insert_before chunk_head (chunk_node new_chunk));;
  let remain_mem := w32 (need_page_num * PAGE_SIZE - total_alloc_size) in
  when (sizeof_Chunk <? remain_mem)
    (let remain_chunk := w32 (new_chunk + total_alloc_size) in
     set_chunk_allocated remain_chunk 0;;
     set_chunk_size remain_chunk (w32 (remain_mem - sizeof_Chunk));;
     on_mem (list_insert_before chunk_head (chunk_node remain_chunk)));;
  mret (w32 (new_chunk + sizeof_Chunk)).

Definition malloc (fuel : nat) (size : Z) : K Z :=
  let total_alloc_size := w32 (sizeof_Chunk + size) in
  chunk ← malloc_scan fuel chunk_head total_alloc_size;
  if chunk =? NULL then malloc_pages size total_alloc_size
  else malloc_split chunk total_alloc_size.

(** [prev] and [next] are [NULL] at the ends of the list. *)
Definition free_neighbour (node : Z) : Z := if node =? chunk_head then NULL else chunk_of_node node.

(** The upward merge; the result is the chunk the second merge starts from. *)
Definition free_merge_prev (chunk prev this_size : Z) : K Z :=
  if negb (prev =? NULL) then
    w ← load prev;
    if (chunk_allocated w =? 0) && (w32 (prev + sizeof_Chunk + chunk_size w) =? chunk) then
      on_mem (list_delete (chunk_node chunk));;
      w ← load prev;
      set_chunk_size prev (w32 (chunk_size w + (this_size + sizeof_Chunk)));;
      mret prev
    else mret chunk
  else mret chunk.

Definition free_merge_next (chunk next : Z) : K unit :=
  when (negb (next =? NULL))
    (w ← load next; c ← load chunk;
     when ((chunk_allocated w =? 0) && (w32 (chunk + sizeof_Chunk + chunk_size c) =? next))
       (on_mem (list_delete (chunk_node next));;
        w ← load next; c ← load chunk;
        set_chunk_size chunk (w32 (chunk_size c + (chunk_size w + sizeof_Chunk))))).

Definition free (addr : Z) : K unit :=
  let chunk := w32 (addr - sizeof_Chunk) in
  set_chunk_allocated chunk 0;;
  w ← load chunk;
  let this_size := chunk_size w in
  p ← load (node_prev (chunk_node chunk));
  let prev := free_neighbour p in
  n ← load (node_next (chunk_node chunk));
  let next := free_neighbour n in
  chunk ← free_merge_prev chunk prev this_size;
  free_merge_next chunk next.

End Heap.

(** * Headers *)
Lemma word_fields w : 0 <= w < 2 ^ 32 -> w = 2 * chunk_size w + chunk_allocated w.
Proof. intros. unfold chunk_size, chunk_allocated. rewrite !bf_get_div by lia. lia_div. Qed.

Definition header (sz : Z) (b : bool) : Z := 2 * sz + Z.b2z b.

Lemma header_size sz b : 0 <= sz < 2 ^ 31 -> chunk_size (header sz b) = sz.
Proof. intros. unfold chunk_size, header. rewrite bf_get_div by lia. destruct b; cbn [Z.b2z]; lia_div. Qed.

Lemma header_allocated sz b : 0 <= sz < 2 ^ 31 -> (chunk_allocated (header sz b) =? 0) = negb b.
Proof.
  intros. unfold chunk_allocated, header. rewrite bf_get_div by lia.
  destruct b; cbn [Z.b2z negb]; [apply Z.eqb_neq|apply Z.eqb_eq]; lia_div.
Qed.

Lemma header_set sz b w : 0 <= sz < 2 ^ 31 ->
  w32 (bf_set 1 31 sz (w32 (bf_set 0 1 (Z.b2z b) w))) = header sz b.
Proof.
  intros Hsz. rewrite (word_fields (w32 _)) by apply w32_range. unfold header. f_equal.
  - unfold chunk_size. rewrite bf_get_w32, bf_get_set, land_ones_small by lia. done.
  - unfold chunk_allocated. rewrite bf_get_w32, bf_get_set_ne, bf_get_w32, bf_get_set by lia.
    by destruct b.
Qed.

Lemma header_set_allocated sz b b' : 0 <= sz < 2 ^ 31 ->
  w32 (bf_set 0 1 (Z.b2z b') (header sz b)) = header sz b'.
Proof.
  intros Hsz. rewrite (word_fields (w32 _)) by apply w32_range. unfold header at 3. f_equal.
  - unfold chunk_size. rewrite bf_get_w32, bf_get_set_ne by lia.
    fold (chunk_size (header sz b)). by rewrite header_size.
  - unfold chunk_allocated. rewrite bf_get_w32, bf_get_set by lia. by destruct b'.
Qed.

Lemma header_set_size sz sz' b : 0 <= sz < 2 ^ 31 -> 0 <= sz' < 2 ^ 31 ->
  w32 (bf_set 1 31 sz' (header sz b)) = header sz' b.
Proof.
  intros Hsz Hsz'. rewrite (word_fields (w32 _)) by apply w32_range. unfold header at 3. f_equal.
  - unfold chunk_size. rewrite bf_get_w32, bf_get_set, land_ones_small by lia. done.
  - unfold chunk_allocated. rewrite bf_get_w32, bf_get_set_ne by lia. unfold header.
    rewrite bf_get_div by lia. destruct b; cbn [Z.b2z]; lia_div.
Qed.

(** * The heap as a list of chunks *)
Record chunk := mk_chunk { ck_addr : Z ; ck_used : bool ; ck_size : Z }.

#[export] Instance chunk_eq_dec : EqDecision chunk.
Proof. solve_decision. Defined.

Definition ck_end (c : chunk) : Z := ck_addr c + sizeof_Chunk + ck_size c.
Definition ck_node (c : chunk) : Z := chunk_node (ck_addr c).

(** A chunk lies in the kernel window, [lo] being the end of the kernel's globals. *)
Definition ck_ok (lo : Z) (c : chunk) : Prop :=
  lo <= ck_addr c /\ 0 <= ck_size c < 2 ^ 31 /\ ck_end c < 2 ^ 32.

Definition ck_apart (c d : chunk) : Prop := ck_end c <= ck_addr d \/ ck_end d <= ck_addr c.

Fixpoint chunks_sep (cs : list chunk) : Prop :=
  match cs with
  | [] => True
  | c :: cs => Forall (ck_apart c) cs /\ chunks_sep cs
  end.

Section HeapModel.
Context `{Symbols}.

Record heap (m : memory) (cs : list chunk) : Prop := {
  hp_low : VERTUAL_MEM <= chunk_head /\ chunk_head + 8 < 2 ^ 32 ;
  hp_ok : Forall (ck_ok (chunk_head + 8)) cs ;
  hp_sep : chunks_sep cs ;
  hp_dlist : dlist m chunk_head (ck_node <$> cs) ;
  hp_hdr : Forall (fun c => rd32 m (ck_addr c) = header (ck_size c) (ck_used c)) cs
}.

Lemma ck_apart_sym c d : ck_apart c d -> ck_apart d c.
Proof. unfold ck_apart. tauto. Qed.

Lemma chunks_sep_app l1 l2 : chunks_sep (l1 ++ l2) <->
  chunks_sep l1 /\ chunks_sep l2 /\ Forall (fun c => Forall (ck_apart c) l2) l1.
Proof.
  induction l1 as [|c l1 IH]; cbn [chunks_sep app].
  - split; [|tauto]. intros ?. split; [done|split; [done|constructor]].
  - rewrite Forall_app, Forall_cons, IH. tauto.
Qed.

Lemma chunks_sep_mid l1 c l2 : chunks_sep (l1 ++ c :: l2) <->
  chunks_sep (l1 ++ l2) /\ Forall (ck_apart c) (l1 ++ l2).
Proof.
  rewrite !chunks_sep_app, Forall_app. cbn [chunks_sep].
  assert (Forall (fun d => Forall (ck_apart d) (c :: l2)) l1 <->
    Forall (ck_apart c) l1 /\ Forall (fun d => Forall (ck_apart d) l2) l1) as ->; [|tauto].
  rewrite !Forall_forall. setoid_rewrite Forall_cons. split.
  - intros Hx. split; intros d Hd; [apply ck_apart_sym|]; by apply Hx.
  - intros [H1 H2] d Hd. split; [apply ck_apart_sym|]; auto.
Qed.

(** Words of the headers of separate chunks, in the high window. *)
Ltac hwords := unfold wd, ck_ok, ck_apart, ck_end, ck_node, chunk_node, sizeof_Chunk, VERTUAL_MEM in *;
  cbn [ck_addr ck_size] in *; ka_simpl; unfold VERTUAL_MEM; lia.

Lemma heap_nodes_sep cs :
  VERTUAL_MEM <= chunk_head /\ chunk_head + 8 < 2 ^ 32 -> Forall (ck_ok (chunk_head + 8)) cs ->
  chunks_sep cs -> nodes_sep (chunk_head :: (ck_node <$> cs)).
Proof.
  intros Hh Hok. induction cs as [|c cs IH]; intros Hsep.
  - cbn [fmap list_fmap]. constructor.
    + apply NoDup_singleton.
    + intros x ->%list_elem_of_singleton. hwords.
    + intros x y ->%list_elem_of_singleton ->%list_elem_of_singleton. hwords.
    + intros x y ->%list_elem_of_singleton ->%list_elem_of_singleton. done.
    + intros x y ->%list_elem_of_singleton ->%list_elem_of_singleton. done.
  - apply Forall_cons in Hok as [Hc Hok]. destruct Hsep as [Ha Hsep].
    apply (nodes_sep_perm (ck_node c :: chunk_head :: (ck_node <$> cs))); [constructor|].
    assert (Hx : forall x, x ∈ chunk_head :: (ck_node <$> cs) -> x <> ck_node c /\ 0 <= x < 2 ^ 32 /\
      wd (ck_node c + 4) x /\ wd (x + 4) (ck_node c) /\ wd (ck_node c) x /\ wd (ck_node c + 4) (x + 4)).
    { intros x [->|(d & -> & Hd)%list_elem_of_fmap]%elem_of_cons.
      - split; [hwords|split; [hwords|split; [hwords|split; [hwords|split; hwords]]]].
      - rewrite Forall_forall in Ha, Hok. specialize (Ha _ Hd). specialize (Hok _ Hd).
        split; [hwords|split; [hwords|split; [hwords|split; [hwords|split; hwords]]]]. }
    destruct (IH Hok Hsep) as [I1 I2 I3 I4 I5]. constructor.
    + constructor; [|done]. intros Hin. by apply Hx in Hin as [? _].
    + intros x [->|Hin]%elem_of_cons; [hwords|by apply I2].
    + intros x y [->|Hin]%elem_of_cons [->|Hin']%elem_of_cons; [hwords|by apply Hx|by apply Hx|by apply I3].
    + intros x y [->|Hin]%elem_of_cons [->|Hin']%elem_of_cons Hne; [done|by apply Hx| |by apply I4].
      apply wd_sym. by apply Hx.
    + intros x y [->|Hin]%elem_of_cons [->|Hin']%elem_of_cons Hne; [done|by apply Hx| |by apply I5].
      apply wd_sym. by apply Hx.
Qed.

Lemma chunks_sep_elem cs c d : chunks_sep cs -> c ∈ cs -> d ∈ cs -> c = d \/ ck_apart c d.
Proof.
  induction cs as [|e cs IH]; intros Hs Hc Hd; [by apply elem_of_nil in Hc|].
  destruct Hs as [Ha Hs]. rewrite Forall_forall in Ha.
  apply elem_of_cons in Hc. apply elem_of_cons in Hd.
  destruct Hc as [->|Hc], Hd as [->|Hd].
  - by left.
  - right. by apply Ha.
  - right. apply ck_apart_sym. by apply Ha.
  - by apply IH.
Qed.

(** The word [x] is the header of [c] or lies in its payload. *)
Definition own_word (c : chunk) (x : Z) : Prop :=
  x = ck_addr c \/ ck_addr c + sizeof_Chunk <= x /\ x + 4 <= ck_end c.

Definition payload_word (c : chunk) (x : Z) : Prop :=
  ck_addr c + sizeof_Chunk <= x /\ x + 4 <= ck_end c.

Section Layout.
Context (cs : list chunk) (Hh : VERTUAL_MEM <= chunk_head /\ chunk_head + 8 < 2 ^ 32)
  (Hok : Forall (ck_ok (chunk_head + 8)) cs) (Hsep : chunks_sep cs).

Lemma own_word_off c x : c ∈ cs -> own_word c x -> off_nodes (chunk_head :: (ck_node <$> cs)) x.
Proof.
  intros Hc Hx y [->|(d & -> & Hd)%list_elem_of_fmap]%elem_of_cons.
  - rewrite Forall_forall in Hok. specialize (Hok _ Hc). unfold own_word in Hx. split; hwords.
  - destruct (chunks_sep_elem _ _ _ Hsep Hc Hd) as [<-|Ha]; rewrite Forall_forall in Hok;
      pose proof (Hok _ Hc); pose proof (Hok _ Hd); unfold own_word in Hx; split; hwords.
Qed.

Lemma own_word_hdr c d x : c ∈ cs -> d ∈ cs -> own_word c x -> x <> ck_addr d -> wd (ck_addr d) x.
Proof.
  intros Hc Hd Hx Hne. rewrite Forall_forall in Hok. pose proof (Hok _ Hc). pose proof (Hok _ Hd).
  unfold own_word in Hx. destruct (chunks_sep_elem _ _ _ Hsep Hc Hd) as [<-|Ha]; hwords.
Qed.

Lemma addr_inj c d : c ∈ cs -> d ∈ cs -> c <> d -> ck_addr c <> ck_addr d.
Proof.
  intros Hc Hd Hne. rewrite Forall_forall in Hok. pose proof (Hok _ Hc). pose proof (Hok _ Hd).
  destruct (chunks_sep_elem _ _ _ Hsep Hc Hd) as [|Ha]; [done|]. hwords.
Qed.
End Layout.

Lemma chunk_of_ck_node lo c : 0 <= lo -> ck_ok lo c -> chunk_of_node (ck_node c) = ck_addr c.
Proof. intros. unfold chunk_of_node, ck_node, chunk_node, ck_ok, ck_end, sizeof_Chunk in *. wsmall. lia. Qed.

(** ** The search *)
Definition ck_fits (total : Z) (c : chunk) : bool := negb (ck_used c) && (total <=? ck_size c).

Definition first_fit (total : Z) (cs : list chunk) : Z :=
  default NULL (ck_addr <$> List.find (ck_fits total) cs).

Lemma malloc_scan_spec s cs total : heap (k_mem s) cs -> forall l2 l1 fuel,
  cs = l1 ++ l2 -> (length l2 < fuel)%nat ->
  malloc_scan fuel (before chunk_head (ck_node <$> l1)) total s = Ok (first_fit total l2) s.
Proof.
  intros [Hh Hok Hsep Hd Hhdr]. assert (Hd0 := Hd).
  induction l2 as [|c l2 IH]; intros l1 fuel Ecs Hf; (destruct fuel as [|fuel]; cbn [length] in Hf; [lia|]);
    cbn [malloc_scan]; krun; unfold node_next.
  - rewrite app_nil_r in Ecs. subst cs. rewrite <- (app_nil_r (ck_node <$> l1)) in Hd.
    destruct (dseg_neighbours _ _ _ _ (proj2 Hd)) as [Hn _]. rewrite Hn. cbn [after head default id from_option].
    rewrite Z.eqb_refl. done.
  - assert (Hc : c ∈ cs) by (subst; elt). rewrite Ecs, fmap_app, fmap_cons in Hd.
    destruct (dseg_neighbours _ _ _ _ (proj2 Hd)) as [Hn _]. rewrite Hn.
    cbn [after head default id from_option].
    destruct (Z.eqb_spec (ck_node c) chunk_head) as [E|_].
    { exfalso. apply (dlist_not_head _ _ _ (ck_node c) Hd); [elt|done]. }
    rewrite Forall_forall in Hok, Hhdr. pose proof (Hok _ Hc) as Hcok.
    rewrite (chunk_of_ck_node (chunk_head + 8)) by (done || (unfold VERTUAL_MEM in *; lia)). krun.
    rewrite Hhdr by done. rewrite header_allocated, header_size by apply Hcok.
    unfold first_fit. cbn [List.find]. unfold ck_fits at 1. destruct (negb (ck_used c) && _).
    { done. }
    krun. fold (ck_node c). rewrite (dlist_next _ _ _ _ _ Hd).
    destruct l2 as [|d l2].
    + cbn [fmap list_fmap after head default id from_option]. rewrite Z.eqb_refl. done.
    + cbn [fmap list_fmap after head default id from_option].
      destruct (Z.eqb_spec (ck_node d) chunk_head) as [E|_].
      { exfalso. apply (dlist_not_head _ _ _ (ck_node d) Hd); [cbn [fmap list_fmap]; elt|done]. }
      krun. rewrite Hn. replace (ck_node c) with (before chunk_head (ck_node <$> l1 ++ [c]))
        by (unfold before; rewrite fmap_app; change (ck_node <$> [c]) with [ck_node c]; by rewrite last_snoc).
      apply IH; [|lia]. by rewrite <- app_assoc.
Qed.

Lemma find_split total cs c : List.find (ck_fits total) cs = Some c ->
  exists l1 l2, cs = l1 ++ c :: l2 /\ List.find (ck_fits total) l1 = None /\
    ck_used c = false /\ total <= ck_size c.
Proof.
  induction cs as [|d cs IH]; cbn [List.find]; [done|]. destruct (ck_fits total d) eqn:E.
  - intros [= ->]. exists [], cs. apply andb_prop in E as [E1 E2]. destruct (ck_used c); [done|].
    split; [done|split; [done|split; [done|lia]]].
  - intros (l1 & l2 & -> & Hn & Hu)%IH. exists (d :: l1), l2. cbn [List.find app]. rewrite E. done.
Qed.

(** A word of a header rewritten in two stores. *)
Lemma header_stores m a sz b x : 0 <= sz < 2 ^ 31 ->
  let m1 := wr32 m a (bf_set 0 1 (Z.b2z b) (rd32 m a)) in
  let m2 := wr32 m1 a (bf_set 1 31 sz (rd32 m1 a)) in
  rd32 m2 a = header sz b /\ (wd a x -> rd32 m2 x = rd32 m x).
Proof.
  intros Hsz m1 m2. unfold m2, m1. split; [|by intros; rewrite !rd32_wr32_ne].
  rewrite !rd32_wr32_eq. by apply header_set.
Qed.

(** A word that is no chunk's metadata. *)
Definition off_heap (cs : list chunk) (x : Z) : Prop :=
  off_nodes (chunk_head :: (ck_node <$> cs)) x /\ forall d, d ∈ cs -> wd (ck_addr d) x.

Lemma payload_off_heap m cs d x : heap m cs -> d ∈ cs -> payload_word d x -> off_heap cs x.
Proof.
  intros [Hh Hok Hsep _ _] Hd Hx.
  split; [apply (own_word_off _ Hh Hok Hsep d); [done|by right]|].
  intros e He. apply (own_word_hdr _ Hh Hok Hsep d e); [done|done|by right|]. unfold payload_word in Hx.
  rewrite Forall_forall in Hok. pose proof (Hok _ Hd). pose proof (Hok _ He).
  destruct (chunks_sep_elem _ _ _ Hsep Hd He) as [<-|Ha]; hwords.
Qed.

(** Rewriting the header of one chunk. *)
Lemma heap_set_header m m' l1 c l2 sz b :
  heap m (l1 ++ c :: l2) -> 0 <= sz <= ck_size c ->
  rd32 m' (ck_addr c) = header sz b -> (forall x, wd (ck_addr c) x -> rd32 m' x = rd32 m x) ->
  heap m' (l1 ++ mk_chunk (ck_addr c) b sz :: l2).
Proof.
  intros [Hh Hok Hsep Hd Hhdr] Hsz Hw Hf. set (c' := mk_chunk (ck_addr c) b sz).
  assert (Hc : c ∈ l1 ++ c :: l2) by elt.
  assert (Hnode : ck_node <$> l1 ++ c' :: l2 = ck_node <$> l1 ++ c :: l2) by (by rewrite !fmap_app, !fmap_cons).
  pose proof (own_word_off _ Hh Hok Hsep c (ck_addr c) Hc (or_introl eq_refl)) as Hoff.
  assert (Hkeep : forall d, d ∈ l1 ++ l2 -> rd32 m' (ck_addr d) = header (ck_size d) (ck_used d)).
  { intros d Hin. assert (Hd' : d ∈ l1 ++ c :: l2) by (revert Hin; elt).
    rewrite Hf; [rewrite Forall_forall in Hhdr; by apply Hhdr|].
    apply chunks_sep_mid in Hsep as [Hsep Hap]. rewrite Forall_forall in Hap, Hok.
    pose proof (Hap _ Hin). pose proof (Hok _ Hc). pose proof (Hok _ Hd'). hwords. }
  constructor; [done|..].
  - apply Forall_app in Hok as [Ho1 Ho]. apply Forall_cons in Ho as [Hoc Ho2].
    apply Forall_app. split; [done|]. apply Forall_cons. split; [|done]. unfold c', ck_ok, ck_end in *. cbn. lia.
  - apply chunks_sep_mid in Hsep as [Hsep Hap]. apply chunks_sep_mid. split; [done|].
    eapply Forall_impl; [exact Hap|]. unfold c', ck_apart, ck_end. cbn. intros d. lia.
  - rewrite Hnode. eapply dlist_frame; [|exact Hd]. intros a (x & Hx & Ha).
    destruct (Hoff x Hx). apply Hf. destruct Ha as [-> | ->]; by apply wd_sym.
  - apply Forall_app. split; [|apply Forall_cons; split; [exact Hw|]];
      apply Forall_forall; intros d Hin; apply Hkeep; revert Hin; elt.
Qed.

(** Splitting keeps the layout. *)
Lemma split_layout lo l1 c l2 size :
  let total := sizeof_Chunk + size in
  let c2 := mk_chunk (ck_addr c + total) false (ck_size c - total) in
  let cs' := l1 ++ mk_chunk (ck_addr c) true size :: c2 :: l2 in
  Forall (ck_ok lo) (l1 ++ c :: l2) -> chunks_sep (l1 ++ c :: l2) -> 0 <= size -> total <= ck_size c ->
  Forall (ck_ok lo) cs' /\ chunks_sep cs' /\ own_word c (ck_addr c2).
Proof.
  intros total c2 cs' Hok Hsep Hsz Hfit. set (c1 := mk_chunk (ck_addr c) true size) in *.
  apply Forall_app in Hok as [Ho1 Ho2]. apply Forall_cons in Ho2 as [Hcok Ho2].
  assert (Hc2 : ck_ok lo c2 /\ ck_ok lo c1 /\ ck_apart c1 c2).
  { unfold c1, c2, total, ck_ok, ck_apart, ck_end, sizeof_Chunk in *. cbn. lia. }
  destruct Hc2 as (Hc2 & Hc1 & H12). split; [|split].
  - apply Forall_app. split; [done|]. by apply Forall_cons; split; [|apply Forall_cons].
  - apply chunks_sep_mid in Hsep as [Hs Ha]. apply Forall_app in Ha as [Ha1 Ha2].
    assert (Hsub : forall d, ck_apart c d -> ck_apart c1 d /\ ck_apart c2 d).
    { intros d. unfold c1, c2, ck_apart, ck_end, total, sizeof_Chunk in *. cbn. lia. }
    apply chunks_sep_mid. split; [apply chunks_sep_mid; split; [done|]|].
    + apply Forall_app. split; (eapply Forall_impl; [eassumption|]; intros d ?; by apply Hsub).
    + apply Forall_app. split; [|apply Forall_cons; split; [done|]];
        (eapply Forall_impl; [eassumption|]; intros d ?; by apply Hsub).
  - right. unfold c2, total, ck_end, sizeof_Chunk in *. cbn. lia.
Qed.

(** The header of what is left, then its node, then the header of the block. *)
Definition split_rest (c : chunk) (size : Z) (m : memory) : memory :=
  let a := ck_addr c + (sizeof_Chunk + size) in
  let m1 := wr32 m a (bf_set 0 1 0 (rd32 m a)) in
  wr32 m1 a (bf_set 1 31 (ck_size c - (sizeof_Chunk + size)) (rd32 m1 a)).

Definition split_link (c : chunk) (size : Z) (m : memory) : memory :=
  list_insert_after (ck_node c) (chunk_node (ck_addr c + (sizeof_Chunk + size))) (split_rest c size m).

Definition split_mem (c : chunk) (size : Z) (m : memory) : memory :=
  let m2 := split_link c size m in
  let m3 := wr32 m2 (ck_addr c) (bf_set 0 1 1 (rd32 m2 (ck_addr c))) in
  wr32 m3 (ck_addr c) (bf_set 1 31 size (rd32 m3 (ck_addr c))).

Section Split.
Context (m : memory) (l1 : list chunk) (c : chunk) (l2 : list chunk) (size : Z).
Hypothesis Hp : heap m (l1 ++ c :: l2).
Hypothesis Hsz : 0 <= size.
Hypothesis Hfit : sizeof_Chunk + size <= ck_size c.

Let total : Z := sizeof_Chunk + size.
Let c1 : chunk := mk_chunk (ck_addr c) true size.
Let c2 : chunk := mk_chunk (ck_addr c + total) false (ck_size c - total).
Let cs' : list chunk := l1 ++ c1 :: c2 :: l2.

Lemma split_in : c1 ∈ cs' /\ c2 ∈ cs' /\ ck_ok (chunk_head + 8) c.
Proof.
  split; [unfold cs'; elt|split; [unfold cs'; elt|]].
  pose proof (hp_ok _ _ Hp) as Hok. rewrite Forall_forall in Hok. apply Hok. elt.
Qed.

Lemma split_headers_apart : wd (ck_addr c2) (ck_addr c).
Proof. pose proof (hp_low _ _ Hp). destruct split_in as (_ & _ & ?). unfold c2, total. hwords. Qed.

Lemma split_rest_header : rd32 (split_rest c size m) (ck_addr c2) = header (ck_size c2) false /\
  forall x, wd (ck_addr c2) x -> rd32 (split_rest c size m) x = rd32 m x.
Proof.
  destruct split_in as (_ & _ & Hc).
  destruct (header_stores m (ck_addr c2) (ck_size c - total) false 0) as [Hw _]; [unfold ck_ok, total, sizeof_Chunk in *; lia|].
  split; [exact Hw|]. intros x Hx. unfold split_rest. fold total. by rewrite !rd32_wr32_ne.
Qed.

Lemma split_linked : dlist (split_link c size m) chunk_head (ck_node <$> cs') /\
  forall x, off_nodes (chunk_head :: (ck_node <$> cs')) x -> rd32 (split_link c size m) x = rd32 (split_rest c size m) x.
Proof.
  pose proof Hp as [Hh Hok Hsep Hd Hhdr].
  destruct (split_layout (chunk_head + 8) l1 c l2 size Hok Hsep Hsz Hfit) as (Hok' & Hsep' & Hown).
  pose proof (heap_nodes_sep _ Hh Hok' Hsep') as Hns. fold total c1 c2 cs' in Hns, Hown.
  assert (Hd1 : dlist (split_rest c size m) chunk_head ((ck_node <$> l1 ++ [c1]) ++ (ck_node <$> l2))).
  { rewrite <- fmap_app, <- app_assoc. cbn [app].
    replace (ck_node <$> l1 ++ c1 :: l2) with (ck_node <$> l1 ++ c :: l2) by (by rewrite !fmap_app, !fmap_cons).
    pose proof (own_word_off _ Hh Hok Hsep c _ ltac:(elt) Hown). unfold split_rest. fold total.
    by repeat (apply dlist_wr32; [done|]). }
  destruct (list_insert_after_spec _ chunk_head _ _ (ck_node c2) Hd1) as [Hd2 Hf2].
  { rewrite <- fmap_cons, <- fmap_app, <- app_assoc. exact Hns. }
  rewrite <- fmap_cons, <- fmap_app, <- app_assoc in Hd2, Hf2. cbn [app] in Hd2, Hf2.
  replace (before chunk_head (ck_node <$> l1 ++ [c1])) with (ck_node c) in Hd2, Hf2
    by (unfold before; rewrite fmap_app; change (ck_node <$> [c1]) with [ck_node c]; by rewrite last_snoc).
  split; [exact Hd2|exact Hf2].
Qed.

Lemma split_mem_header : rd32 (split_mem c size m) (ck_addr c) = header size true /\
  forall x, wd (ck_addr c) x -> off_nodes (chunk_head :: (ck_node <$> cs')) x ->
    rd32 (split_mem c size m) x = rd32 (split_rest c size m) x.
Proof.
  destruct split_in as (_ & _ & Hc).
  destruct (header_stores (split_link c size m) (ck_addr c) size true 0) as [Hw _]; [unfold ck_ok, sizeof_Chunk in *; lia|].
  split; [exact Hw|]. intros x Hx Ho. unfold split_mem. rewrite !rd32_wr32_ne by done. by apply split_linked.
Qed.

Lemma split_heap : heap (split_mem c size m) cs' /\ forall x, off_heap cs' x -> rd32 (split_mem c size m) x = rd32 m x.
Proof.
  pose proof Hp as [Hh Hok Hsep Hd Hhdr]. destruct split_in as (Hin1 & Hin2 & Hcok).
  destruct (split_layout (chunk_head + 8) l1 c l2 size Hok Hsep Hsz Hfit) as (Hok' & Hsep' & _). fold total c1 c2 cs' in Hok', Hsep'.
  destruct split_rest_header as [Hw1 F1], split_mem_header as [Hw3 F3]. pose proof split_headers_apart as H12.
  assert (Hoff : forall d, d ∈ cs' -> off_nodes (chunk_head :: (ck_node <$> cs')) (ck_addr d))
    by (intros d Hd'; apply (own_word_off _ Hh Hok' Hsep' d); [done|by left]).
  assert (Hhd : forall d, d ∈ l1 ++ l2 -> rd32 (split_mem c size m) (ck_addr d) = header (ck_size d) (ck_used d)).
  { intros d Hin. assert (Hd' : d ∈ cs') by (unfold cs'; revert Hin; elt).
    apply chunks_sep_mid in Hsep as [_ Hap]. rewrite Forall_forall in Hap, Hok, Hhdr.
    pose proof (Hap _ Hin). assert (Hin0 : d ∈ l1 ++ c :: l2) by (revert Hin; elt). pose proof (Hok _ Hin0).
    rewrite F3; [|hwords|by apply Hoff]. rewrite F1 by (unfold c2, total, ck_ok in *; hwords). by apply Hhdr. }
  split; [constructor; [done|done|done| |]|].
  - pose proof (Hoff c1 Hin1). unfold split_mem. by repeat (apply dlist_wr32; [done|]); apply split_linked.
  - unfold cs'. apply Forall_app. split; [|apply Forall_cons; split; [exact Hw3|apply Forall_cons; split]];
      [apply Forall_forall; intros d Hin; apply Hhd; elt| |apply Forall_forall; intros d Hin; apply Hhd; elt].
    rewrite F3; [exact Hw1|by apply wd_sym|by apply Hoff].
  - intros x [Ho Hx]. rewrite F3 by (apply (Hx c1 Hin1) || done). apply F1. by apply Hx.
Qed.

End Split.

Lemma malloc_split_spec s l1 c l2 size :
  heap (k_mem s) (l1 ++ c :: l2) -> ck_used c = false -> 0 <= size -> sizeof_Chunk + size <= ck_size c ->
  let total := sizeof_Chunk + size in
  let cs' := l1 ++ mk_chunk (ck_addr c) true size :: mk_chunk (ck_addr c + total) false (ck_size c - total) :: l2 in
  exists m', malloc_split (ck_addr c) total s = Ok (ck_addr c + sizeof_Chunk) (set_mem m' s) /\
    heap m' cs' /\ forall x, off_heap cs' x -> rd32 m' x = rd32 (k_mem s) x.
Proof.
  intros Hp Hfree Hsz Hfit total cs'. set (m := k_mem s) in *.
  destruct (split_heap m l1 c l2 size Hp Hsz Hfit) as [Hheap F]. fold total in Hheap, F.
  destruct (split_in m l1 c l2 size Hp) as (_ & _ & Hcok). pose proof (split_headers_apart m l1 c l2 size Hp Hsz Hfit) as H12.
  fold total in H12. cbn [ck_addr] in H12. pose proof (hp_low _ _ Hp). pose proof (hp_hdr _ _ Hp) as Hhdr. rewrite Forall_forall in Hhdr.
  assert (Hhc : rd32 m (ck_addr c) = header (ck_size c) false) by (rewrite <- Hfree; apply Hhdr; elt).
  exists (split_mem c size m). split; [|split; [exact Hheap|exact F]].
  assert (Hn : w32 (ck_addr c + total) = ck_addr c + total).
  { unfold total, ck_ok, ck_end, VERTUAL_MEM, sizeof_Chunk in *. wsmall. lia. }
  unfold malloc_split, set_chunk_allocated, set_chunk_size. krun. rewrite Hn. fold m. rewrite rd32_wr32_ne, Hhc by exact H12.
  rewrite header_size by apply Hcok. rewrite (w32_small (ck_size c - total)) by (unfold ck_ok, total, sizeof_Chunk in *; lia).
  replace (total - sizeof_Chunk) with size by (unfold total; lia). rewrite (w32_small size) by (unfold ck_ok, sizeof_Chunk in *; lia).
  unfold split_mem, split_link, split_rest. fold total. rewrite w32_small; [reflexivity|].
  unfold ck_ok, ck_end, VERTUAL_MEM, sizeof_Chunk in *. lia.
Qed.

(** ** Chunks on fresh pages *)
Definition append_chunk (d : chunk) (m : memory) : memory :=
  let m1 := wr32 m (ck_addr d) (bf_set 0 1 (Z.b2z (ck_used d)) (rd32 m (ck_addr d))) in
  let m2 := wr32 m1 (ck_addr d) (bf_set 1 31 (ck_size d) (rd32 m1 (ck_addr d))) in
  list_insert_before chunk_head (ck_node d) m2.

Lemma append_chunk_spec m cs d :
  heap m cs -> ck_ok (chunk_head + 8) d -> Forall (ck_apart d) cs ->
  heap (append_chunk d m) (cs ++ [d]) /\
  forall x, off_heap (cs ++ [d]) x -> rd32 (append_chunk d m) x = rd32 m x.
Proof.
  intros [Hh Hok Hsep Hd Hhdr] Hdok Hap. set (cs' := cs ++ [d]).
  assert (Hok' : Forall (ck_ok (chunk_head + 8)) cs') by (apply Forall_app; split; [done|by apply Forall_singleton]).
  assert (Hsep' : chunks_sep cs') by (apply chunks_sep_mid; by rewrite app_nil_r).
  pose proof (heap_nodes_sep _ Hh Hok' Hsep') as Hns.
  assert (Hdin : d ∈ cs') by (unfold cs'; elt).
  set (m1 := wr32 m (ck_addr d) (bf_set 0 1 (Z.b2z (ck_used d)) (rd32 m (ck_addr d)))).
  set (m2 := wr32 m1 (ck_addr d) (bf_set 1 31 (ck_size d) (rd32 m1 (ck_addr d)))).
  destruct (header_stores m (ck_addr d) (ck_size d) (ck_used d) 0) as [Hw _]; [apply Hdok|]. fold m1 in Hw. fold m2 in Hw.
  pose proof (own_word_off _ Hh Hok' Hsep' d _ Hdin (or_introl eq_refl)) as Hoffd.
  assert (Hd2 : dlist m2 chunk_head ((ck_node <$> cs) ++ [])).
  { rewrite app_nil_r. assert (off_nodes (chunk_head :: (ck_node <$> cs)) (ck_addr d)).
    { intros x Hx. apply Hoffd. revert Hx. unfold cs'. rewrite fmap_app. elt. }
    unfold m2, m1. by repeat (apply dlist_wr32; [done|]). }
  unfold cs' in Hns. rewrite fmap_app in Hns. cbn [fmap list_fmap] in Hns.
  destruct (list_insert_before_spec _ _ _ _ _ Hd2 Hns) as [Hd3 Hf3].
  change (after chunk_head []) with chunk_head in Hd3, Hf3. change [ck_node d] with (ck_node <$> [d]) in Hd3, Hf3.
  rewrite <- fmap_app in Hd3, Hf3. fold cs' in Hd3, Hf3.
  change (append_chunk d m) with (list_insert_before chunk_head (ck_node d) m2).
  assert (Hf2 : forall x, wd (ck_addr d) x -> rd32 m2 x = rd32 m x).
  { intros x Hx. unfold m2, m1. by rewrite !rd32_wr32_ne. }
  split.
  - constructor; [done|done|done|exact Hd3|]. apply Forall_app. split.
    + apply Forall_forall. intros e He. assert (He' : e ∈ cs') by (unfold cs'; elt).
      rewrite Hf3 by (apply (own_word_off _ Hh Hok' Hsep' e); [done|by left]).
      rewrite Forall_forall in Hap, Hhdr, Hok. pose proof (Hap _ He). pose proof (Hok _ He).
      rewrite Hf2 by hwords. by apply Hhdr.
    + apply Forall_singleton. rewrite Hf3 by exact Hoffd. exact Hw.
  - intros x [Ho Hx]. rewrite Hf3 by exact Ho. by apply Hf2, Hx.
Qed.

(** The pages [alloc_page] gave are a region of their own. *)
Record fresh_pages (cs : list chunk) (la n : Z) : Prop := {
  fp_range : chunk_head + 8 <= la /\ la + n < 2 ^ 32 ;
  fp_apart : forall c, c ∈ cs -> ck_end c <= la \/ la + n <= ck_addr c
}.

(** The chunks [malloc_pages] makes of [n] bytes of pages at [la]. *)
Definition pages_chunks (la n size : Z) : list chunk :=
  let total := sizeof_Chunk + size in
  mk_chunk la true size ::
  if sizeof_Chunk <? n - total then [mk_chunk (la + total) false (n - total - sizeof_Chunk)] else [].

Definition pages_needed (total : Z) : Z :=
  if 0 <? total mod PAGE_SIZE then total / PAGE_SIZE + 1 else total / PAGE_SIZE.

Lemma pages_needed_bound total : 0 < total ->
  0 < pages_needed total /\ total <= pages_needed total * PAGE_SIZE < total + PAGE_SIZE.
Proof. intros. unfold pages_needed, PAGE_SIZE. destruct (Z.ltb_spec 0 (total mod 4096)); lia_div. Qed.

Lemma malloc_pages_spec alloc_page s s1 pg la cs size :
  let total := sizeof_Chunk + size in let n := pages_needed total * PAGE_SIZE in
  0 <= size -> n < 2 ^ 31 ->
  alloc_page (pages_needed total) s = Ok pg s1 -> pg_to_addr_la pg s1 = Ok la s1 ->
  heap (k_mem s1) cs -> fresh_pages cs la n ->
  let cs' := cs ++ pages_chunks la n size in
  exists m', malloc_pages alloc_page size total s = Ok (la + sizeof_Chunk) (set_mem m' s1) /\
    heap m' cs' /\ forall x, off_heap cs' x -> rd32 m' x = rd32 (k_mem s1) x.
Proof.
  intros total n Hsz Hn Hal Hla Hp [Hr Hap] cs'. pose proof Hp as [Hh _ _ _ _].
  destruct (pages_needed_bound total) as [Hpos Hbound]; [unfold total, sizeof_Chunk; lia|].
  assert (Hn0 : PAGE_SIZE <= n /\ total <= n) by (unfold n, PAGE_SIZE in *; lia).
  set (c1 := mk_chunk la true size). set (m1 := append_chunk c1 (k_mem s1)).
  destruct (append_chunk_spec (k_mem s1) cs c1 Hp) as [Hp1 Hf1].
  { unfold ck_ok, ck_end, c1, total, n, PAGE_SIZE, sizeof_Chunk in *. cbn. lia. }
  { apply Forall_forall. intros c Hc. specialize (Hap c Hc).
    unfold ck_apart, ck_end, c1, total, n, PAGE_SIZE, sizeof_Chunk in *. cbn. lia. }
  fold m1 in Hp1, Hf1.
  assert (Hrun : malloc_pages alloc_page size total s =
    (when (sizeof_Chunk <? n - total)
      (on_mem (append_chunk (mk_chunk (la + total) false (n - total - sizeof_Chunk))));;
     mret (la + sizeof_Chunk)) (set_mem m1 s1)).
  { unfold malloc_pages, set_chunk_allocated, set_chunk_size. krun. fold (pages_needed total).
    rewrite Hal. krun. rewrite Hla. krun.
    change (list_insert_before chunk_head (chunk_node la) _) with m1.
    fold n. assert (E1 : w32 (n - total) = n - total) by (apply w32_small; unfold total, sizeof_Chunk in *; lia).
    assert (E2 : w32 (la + sizeof_Chunk) = la + sizeof_Chunk)
      by (apply w32_small; unfold sizeof_Chunk, PAGE_SIZE, VERTUAL_MEM in *; lia).
    rewrite E1, E2.
    destruct (Z.ltb_spec sizeof_Chunk (n - total)); krun.
    - rewrite (w32_small (la + total)), (w32_small (n - total - _)) by (unfold total, sizeof_Chunk, VERTUAL_MEM in *; lia).
      done.
    - done. }
  rewrite Hrun. unfold cs', pages_chunks. fold total. fold c1.
  destruct (Z.ltb_spec sizeof_Chunk (n - total)) as [Hrem|Hrem]; krun.
  - set (c2 := mk_chunk (la + total) false (n - total - sizeof_Chunk)).
    destruct (append_chunk_spec m1 (cs ++ [c1]) c2 Hp1) as [Hp2 Hf2].
    { unfold ck_ok, ck_end, c2, total, n, PAGE_SIZE, sizeof_Chunk in *. cbn. lia. }
    { apply Forall_app. split; [|apply Forall_singleton].
      - apply Forall_forall. intros c Hc. specialize (Hap c Hc).
        unfold ck_apart, ck_end, c2, total, n, PAGE_SIZE, sizeof_Chunk in *. cbn. lia.
      - unfold ck_apart, ck_end, c1, c2, total, sizeof_Chunk in *. cbn. lia. }
    exists (append_chunk c2 m1). split; [done|]. change [c1; c2] with ([c1] ++ [c2]).
    rewrite app_assoc. split; [exact Hp2|]. intros x Hx. rewrite Hf2 by exact Hx. apply Hf1.
    destruct Hx as [Ho Hx]. split; [|intros d Hd'; apply Hx; revert Hd'; elt].
    intros y Hy. apply Ho. revert Hy. rewrite (fmap_app _ (cs ++ [c1])). elt.
  - exists m1. split; [done|]. split; [exact Hp1|exact Hf1].
Qed.

(** ** Freeing *)

(** Two adjacent chunks as one. *)
Definition join (p c : chunk) : chunk :=
  mk_chunk (ck_addr p) (ck_used p) (ck_size p + (ck_size c + sizeof_Chunk)).

Lemma ck_ok_size lo c : VERTUAL_MEM <= lo -> ck_ok lo c -> 0 <= ck_size c < 2 ^ 30 /\ VERTUAL_MEM <= ck_addr c < 2 ^ 32.
Proof. unfold ck_ok, ck_end, VERTUAL_MEM, sizeof_Chunk. lia. Qed.

Lemma heap_join m l1 p c l2 :
  heap m (l1 ++ p :: c :: l2) -> ck_end p = ck_addr c ->
  let m1 := list_delete (ck_node c) m in
  let m' := wr32 m1 (ck_addr p) (bf_set 1 31 (ck_size p + (ck_size c + sizeof_Chunk)) (rd32 m1 (ck_addr p))) in
  let cs' := l1 ++ join p c :: l2 in
  rd32 m1 (ck_addr p) = header (ck_size p) (ck_used p) /\
  rd32 m1 (ck_addr c) = header (ck_size c) (ck_used c) /\
  heap m' cs' /\ forall x, off_heap cs' x -> rd32 m' x = rd32 m x.
Proof.
  intros Hp Hadj m1 m' cs'. pose proof Hp as [Hh Hok Hsep Hd Hhdr].
  assert (Hpin : p ∈ l1 ++ p :: c :: l2) by elt. assert (Hcin : c ∈ l1 ++ p :: c :: l2) by elt.
  assert (Hsub : forall y, y ∈ chunk_head :: (ck_node <$> l1 ++ p :: l2) ->
    y ∈ chunk_head :: (ck_node <$> l1 ++ p :: c :: l2)).
  { intros y. rewrite !fmap_app, !fmap_cons. elt. }
  pose proof (own_word_off _ Hh Hok Hsep) as Hoff.
  change (l1 ++ p :: c :: l2) with (l1 ++ [p] ++ c :: l2) in Hd. rewrite app_assoc, fmap_app, fmap_cons in Hd.
  destruct (list_delete_spec _ _ _ _ _ Hd) as [Hd1 Hf1]. rewrite <- fmap_app, <- app_assoc in Hd1, Hf1.
  cbn [app] in Hd1, Hf1. fold m1 in Hd1, Hf1.
  assert (Hhd1 : forall d, d ∈ l1 ++ p :: c :: l2 -> rd32 m1 (ck_addr d) = header (ck_size d) (ck_used d)).
  { intros d Hin. rewrite Hf1; [rewrite Forall_forall in Hhdr; by apply Hhdr|].
    intros y Hy. by apply (Hoff d (ck_addr d) Hin (or_introl eq_refl)), Hsub. }
  pose proof Hok as Hok0. rewrite Forall_forall in Hok0. pose proof (Hok0 _ Hpin) as Hpok. pose proof (Hok0 _ Hcin) as Hcok.
  destruct (ck_ok_size (chunk_head + 8) p) as [Hps Hpa]; [unfold VERTUAL_MEM in *; lia|done|].
  destruct (ck_ok_size (chunk_head + 8) c) as [Hcs Hca]; [unfold VERTUAL_MEM in *; lia|done|].
  assert (Hjs : 0 <= ck_size (join p c) < 2 ^ 30).
  { unfold ck_ok, ck_end, VERTUAL_MEM, join, sizeof_Chunk in *. cbn. lia. }
  assert (Hm' : rd32 m' (ck_addr p) = header (ck_size (join p c)) (ck_used p)).
  { unfold m'. rewrite rd32_wr32_eq, Hhd1 by done. apply header_set_size; cbn in Hjs |- *; lia. }
  assert (Hj : forall d, d ∈ l1 ++ l2 -> ck_apart (join p c) d /\ wd (ck_addr p) (ck_addr d)).
  { intros d Hin. assert (Hdin : d ∈ l1 ++ p :: c :: l2) by (revert Hin; elt). pose proof (Hok0 _ Hdin).
    pose proof Hsep as Hs1. apply chunks_sep_mid in Hs1 as [_ Ha1].
    replace (l1 ++ p :: c :: l2) with ((l1 ++ [p]) ++ c :: l2) in Hsep by (by rewrite <- app_assoc).
    apply chunks_sep_mid in Hsep as [_ Ha2]. rewrite Forall_forall in Ha1, Ha2.
    pose proof (Ha1 d ltac:(revert Hin; elt)) as A1. pose proof (Ha2 d ltac:(revert Hin; elt)) as A2. split.
    - unfold ck_apart, ck_ok, ck_end, join, sizeof_Chunk in *. cbn in *. lia.
    - hwords. }
  split; [by apply Hhd1|split; [by apply Hhd1|split]].
  - constructor; [done|..].
    + apply Forall_app in Hok as [Ho1 Ho2]. apply Forall_cons in Ho2 as [_ Ho2]. apply Forall_cons in Ho2 as [_ Ho2].
      apply Forall_app. split; [done|]. apply Forall_cons. split; [|done].
      unfold ck_ok, ck_end, join, sizeof_Chunk in *. cbn in *. split; [|split]; lia.
    + apply chunks_sep_mid in Hsep as [Hs _]. apply chunks_sep_mid in Hs as [Hs _].
      apply chunks_sep_mid. split; [done|]. apply Forall_forall. intros d Hin. by apply Hj.
    + replace (ck_node <$> cs') with (ck_node <$> l1 ++ p :: l2) by (unfold cs'; by rewrite !fmap_app, !fmap_cons).
      apply dlist_wr32; [|done]. intros y Hy. by apply (Hoff p (ck_addr p) Hpin (or_introl eq_refl)), Hsub.
    + apply Forall_app. split; [|apply Forall_cons; split; [exact Hm'|]]; apply Forall_forall; intros d Hin;
        unfold m'; (rewrite rd32_wr32_ne; [apply Hhd1; revert Hin; elt|apply Hj; elt]).
  - intros x [Ho Hx]. unfold m'. rewrite rd32_wr32_ne.
    + apply Hf1. intros y Hy. apply Ho. unfold cs'. revert Hy. by rewrite !fmap_app, !fmap_cons.
    + apply (Hx (join p c)). unfold cs'. elt.
Qed.

(** What [free] does to the chunk before and after the freed one. *)
Definition merges (c d : chunk) : bool := negb (ck_used c) && negb (ck_used d) && (ck_end c =? ck_addr d).

Definition merge_prev_model (l1 : list chunk) (c : chunk) : list chunk * chunk :=
  match rev l1 with
  | p :: r => if merges p c then (rev r, join p c) else (l1, c)
  | [] => (l1, c)
  end.

Definition merge_next_model (c : chunk) (l2 : list chunk) : list chunk :=
  match l2 with
  | n :: l => if merges c n then join c n :: l else c :: l2
  | [] => [c]
  end.

Definition free_model (l1 : list chunk) (c : chunk) (l2 : list chunk) : list chunk :=
  let c0 := mk_chunk (ck_addr c) false (ck_size c) in
  let '(l, cur) := merge_prev_model l1 c0 in l ++ merge_next_model cur l2.

Lemma free_merge_next_spec s l c l2 :
  heap (k_mem s) (l ++ c :: l2) -> ck_used c = false ->
  exists m', free_merge_next (ck_addr c) (free_neighbour (after chunk_head (ck_node <$> l2))) s = Ok tt (set_mem m' s) /\
    heap m' (l ++ merge_next_model c l2) /\
    forall x, off_heap (l ++ merge_next_model c l2) x -> rd32 m' x = rd32 (k_mem s) x.
Proof.
  intros Hp Hu. pose proof Hp as [Hh Hok Hsep Hd Hhdr]. unfold free_neighbour.
  destruct l2 as [|n l2]; cbn [fmap list_fmap after head default id from_option].
  - rewrite Z.eqb_refl. exists (k_mem s). unfold free_merge_next. change (NULL =? NULL) with true. krun.
    by rewrite set_mem_id.
  - destruct (Z.eqb_spec (ck_node n) chunk_head) as [E|_].
    { exfalso. apply (dlist_not_head _ _ _ (ck_node n) Hd); [rewrite fmap_app, !fmap_cons; elt|done]. }
    rewrite Forall_forall in Hok, Hhdr.
    assert (Hnin : n ∈ l ++ c :: n :: l2) by elt. assert (Hcin : c ∈ l ++ c :: n :: l2) by elt.
    pose proof (Hok _ Hnin) as Hnok. pose proof (Hok _ Hcin) as Hcok.
    destruct (ck_ok_size (chunk_head + 8) n) as [Hns Hna]; [unfold VERTUAL_MEM in *; lia|done|].
    destruct (ck_ok_size (chunk_head + 8) c) as [Hcs Hca]; [unfold VERTUAL_MEM in *; lia|done|].
    rewrite (chunk_of_ck_node (chunk_head + 8)) by (done || (unfold VERTUAL_MEM in *; lia)).
    unfold free_merge_next, set_chunk_size. krun. destruct (Z.eqb_spec (ck_addr n) NULL) as [E|_];
      [unfold NULL, VERTUAL_MEM in *; lia|]. cbn [negb]. krun.
    rewrite (Hhdr _ Hnin), (Hhdr _ Hcin), header_allocated, !header_size by lia.
    rewrite (w32_small (ck_addr c + _ + _)) by (unfold ck_ok, ck_end, VERTUAL_MEM, sizeof_Chunk in *; lia).
    fold (ck_end c). unfold merge_next_model, merges. rewrite Hu. cbn [negb andb].
    destruct (negb (ck_used n) && (ck_end c =? ck_addr n)) eqn:E.
    + apply andb_prop in E as [_ E]. apply Z.eqb_eq in E.
      destruct (heap_join (k_mem s) l c n l2 Hp E) as (E1 & E2 & Hp' & Hf'). krun. fold (ck_node n). rewrite E1, E2, !header_size by lia.
      rewrite <- E1. rewrite (w32_small (ck_size c + _)) by (unfold sizeof_Chunk; lia). eauto.
    + krun. exists (k_mem s). by rewrite set_mem_id.
Qed.

Lemma merge_prev_snoc l1 p c :
  merge_prev_model (l1 ++ [p]) c = if merges p c then (l1, join p c) else (l1 ++ [p], c).
Proof. unfold merge_prev_model. rewrite rev_app_distr. cbn [rev app]. by rewrite rev_involutive. Qed.

Lemma free_merge_prev_spec s l1 c l2 :
  heap (k_mem s) (l1 ++ c :: l2) -> ck_used c = false ->
  exists m', free_merge_prev (ck_addr c) (free_neighbour (before chunk_head (ck_node <$> l1))) (ck_size c) s =
      Ok (ck_addr (merge_prev_model l1 c).2) (set_mem m' s) /\
    ck_used (merge_prev_model l1 c).2 = false /\
    heap m' ((merge_prev_model l1 c).1 ++ (merge_prev_model l1 c).2 :: l2) /\
    forall x, off_heap ((merge_prev_model l1 c).1 ++ (merge_prev_model l1 c).2 :: l2) x ->
      rd32 m' x = rd32 (k_mem s) x.
Proof.
  intros Hp Hu. pose proof Hp as [Hh Hok Hsep Hd Hhdr]. unfold free_neighbour.
  destruct l1 as [|p l1 _] using rev_ind.
  - change (before chunk_head (ck_node <$> [])) with chunk_head. rewrite Z.eqb_refl.
    exists (k_mem s). unfold free_merge_prev. change (NULL =? NULL) with true. krun.
    by rewrite set_mem_id.
  - rewrite fmap_app. change (ck_node <$> [p]) with [ck_node p]. rewrite before_snoc, merge_prev_snoc.
    rewrite <- app_assoc in *. cbn [app] in *.
    destruct (Z.eqb_spec (ck_node p) chunk_head) as [E|_].
    { exfalso. apply (dlist_not_head _ _ _ (ck_node p) Hd); [rewrite fmap_app, !fmap_cons; elt|done]. }
    rewrite Forall_forall in Hok, Hhdr.
    assert (Hpin : p ∈ l1 ++ p :: c :: l2) by elt. assert (Hcin : c ∈ l1 ++ p :: c :: l2) by elt.
    pose proof (Hok _ Hpin) as Hpok. pose proof (Hok _ Hcin) as Hcok.
    destruct (ck_ok_size (chunk_head + 8) p) as [Hps Hpa]; [unfold VERTUAL_MEM in *; lia|done|].
    destruct (ck_ok_size (chunk_head + 8) c) as [Hcs Hca]; [unfold VERTUAL_MEM in *; lia|done|].
    rewrite (chunk_of_ck_node (chunk_head + 8)) by (done || (unfold VERTUAL_MEM in *; lia)).
    unfold free_merge_prev, set_chunk_size. destruct (Z.eqb_spec (ck_addr p) NULL) as [E|_];
      [unfold NULL, VERTUAL_MEM in *; lia|]. cbn [negb]. krun.
    rewrite (Hhdr _ Hpin), header_allocated, header_size by lia.
    rewrite (w32_small (ck_addr p + _ + _)) by (unfold ck_ok, ck_end, VERTUAL_MEM, sizeof_Chunk in *; lia).
    fold (ck_end p). unfold merges. rewrite Hu, andb_true_r.
    destruct (negb (ck_used p) && (ck_end p =? ck_addr c)) eqn:E.
    + apply andb_prop in E as [Eu E]. apply Z.eqb_eq in E.
      destruct (heap_join (k_mem s) l1 p c l2 Hp E) as (E1 & _ & Hp' & Hf'). krun. fold (ck_node c).
      rewrite E1, header_size by lia. rewrite <- E1. rewrite (w32_small (ck_size p + _)) by (unfold sizeof_Chunk; lia).
      cbn [fst snd]. eexists. split; [done|]. split; [|split; [exact Hp'|exact Hf']].
      cbn. by destruct (ck_used p).
    + krun. exists (k_mem s). cbn [fst snd]. rewrite set_mem_id, <- app_assoc. done.
Qed.

Lemma off_heap_incl cs cs' x :
  (forall y, y ∈ cs -> exists z, z ∈ cs' /\ ck_addr z = ck_addr y) -> off_heap cs' x -> off_heap cs x.
Proof.
  intros Hsub [Ho Hx]. split.
  - intros y [->|(d & -> & Hd)%list_elem_of_fmap]%elem_of_cons; [apply Ho; elt|].
    destruct (Hsub _ Hd) as (z & Hz & E). unfold ck_node. rewrite <- E. apply Ho.
    apply elem_of_cons. right. apply list_elem_of_fmap. by exists z.
  - intros d Hd. destruct (Hsub _ Hd) as (z & Hz & <-). by apply Hx.
Qed.

Lemma merge_prev_addr l1 c l2 y :
  y ∈ (merge_prev_model l1 c).1 ++ (merge_prev_model l1 c).2 :: l2 ->
  exists z, z ∈ l1 ++ c :: l2 /\ ck_addr z = ck_addr y.
Proof.
  destruct l1 as [|p l1 _] using rev_ind; [intros Hy; by exists y|]. rewrite merge_prev_snoc.
  destruct (merges p c); cbn [fst snd]; [|intros Hy; by exists y].
  intros [Hy|[->|Hy]%elem_of_cons]%elem_of_app; [exists y|exists p|exists y]; (split; [|done]); elt.
Qed.

Lemma merge_next_addr l c l2 y :
  y ∈ l ++ merge_next_model c l2 -> exists z, z ∈ l ++ c :: l2 /\ ck_addr z = ck_addr y.
Proof.
  destruct l2 as [|n l2]; cbn [merge_next_model]; [intros Hy; by exists y|].
  destruct (merges c n); [|intros Hy; by exists y].
  intros [Hy|[->|Hy]%elem_of_cons]%elem_of_app; [exists y|exists c|exists y]; (split; [|done]); elt.
Qed.

Lemma free_spec s l1 c l2 :
  heap (k_mem s) (l1 ++ c :: l2) -> ck_used c = true ->
  exists m', free (ck_addr c + sizeof_Chunk) s = Ok tt (set_mem m' s) /\
    heap m' (free_model l1 c l2) /\
    forall x, off_heap (l1 ++ c :: l2) x -> rd32 m' x = rd32 (k_mem s) x.
Proof.
  intros Hp Hu. pose proof Hp as [Hh Hok Hsep Hd Hhdr].
  assert (Hcin : c ∈ l1 ++ c :: l2) by elt. rewrite Forall_forall in Hok, Hhdr.
  pose proof (Hok _ Hcin) as Hcok. pose proof (Hhdr _ Hcin) as Hc. rewrite Hu in Hc. cbn beta in Hc.
  destruct (ck_ok_size (chunk_head + 8) c) as [Hcs Hca]; [unfold VERTUAL_MEM in *; lia|done|].
  set (c0 := mk_chunk (ck_addr c) false (ck_size c)).
  set (m0 := wr32 (k_mem s) (ck_addr c) (bf_set 0 1 0 (header (ck_size c) true))).
  assert (H0 : rd32 m0 (ck_addr c) = header (ck_size c) false).
  { unfold m0. rewrite rd32_wr32_eq. apply (header_set_allocated _ true false). lia. }
  assert (Hp0 : heap m0 (l1 ++ c0 :: l2)).
  { apply (heap_set_header (k_mem s)); [done|lia|done|]. intros x Hx. by apply rd32_wr32_ne. }
  destruct (free_merge_prev_spec (set_mem m0 s) l1 c0 l2 Hp0 eq_refl) as (m1 & R1 & U1 & Hp1 & F1).
  unfold free_model. fold c0. destruct (merge_prev_model l1 c0) as [l cur] eqn:Em. cbn [fst snd] in *.
  destruct (free_merge_next_spec (set_mem m1 s) l cur l2 Hp1 U1) as (m2 & R2 & Hp2 & F2).
  pose proof (hp_dlist _ _ Hp0) as Hd0. rewrite fmap_app, fmap_cons in Hd0.
  exists m2. split; [|split; [exact Hp2|]].
  - unfold free, set_chunk_allocated. krun. replace (ck_addr c + sizeof_Chunk - sizeof_Chunk) with (ck_addr c) by lia.
    rewrite (w32_small (ck_addr c)), Hc by (unfold VERTUAL_MEM in *; lia). fold m0. rewrite H0, header_size by lia.
    fold (ck_node c0). change (chunk_node (ck_addr c)) with (ck_node c0).
    unfold node_prev, node_next. rewrite (dlist_prev _ _ _ _ _ Hd0), (dlist_next _ _ _ _ _ Hd0).
    change (ck_addr c) with (ck_addr c0). change (ck_size c) with (ck_size c0).
    rewrite R1. exact R2.
  - intros x Hx. assert (Hx0 : off_heap (l1 ++ c0 :: l2) x).
    { eapply off_heap_incl; [|exact Hx]. intros y [Hy|[->|Hy]%elem_of_cons]%elem_of_app;
        [exists y|exists c|exists y]; (split; [|done]); elt. }
    assert (Hx1 : off_heap (l ++ cur :: l2) x).
    { eapply off_heap_incl; [|exact Hx0]. intros y Hy.
      apply (merge_prev_addr l1 c0 l2). rewrite Em. exact Hy. }
    rewrite F2 by (eapply off_heap_incl; [apply merge_next_addr|exact Hx1]).
    cbn. rewrite F1 by exact Hx1. cbn. apply rd32_wr32_ne. by apply Hx.
Qed.

(** ** Coalesced heaps: no two free chunks touch along the list. *)
Fixpoint coalesced (cs : list chunk) : Prop :=
  match cs with
  | c :: ((d :: _) as t) => merges c d = false /\ coalesced t
  | _ => True
  end.

Lemma coalesced_mid l1 c l2 : coalesced (l1 ++ c :: l2) <-> coalesced (l1 ++ [c]) /\ coalesced (c :: l2).
Proof.
  induction l1 as [|d l1 IH]; [cbn [app]; split; [by split|by intros [_ ?]]|].
  destruct l1 as [|e l1]; cbn [app coalesced] in *; [tauto|].
  cbn [app] in IH. rewrite IH. tauto.
Qed.

(** Neighbours matter only through whether they merge. *)
Lemma coalesced_end l1 c c' : (forall d, merges d c' = true -> merges d c = true) ->
  coalesced (l1 ++ [c]) -> coalesced (l1 ++ [c']).
Proof.
  intros Hm. induction l1 as [|d l1 IH]; [done|]. destruct l1 as [|e l1]; cbn [app coalesced] in *.
  - intros [H1 _]. split; [|done]. specialize (Hm d). destruct (merges d c'); [|done]. rewrite Hm in H1; done.
  - intros [H1 H2]. split; [done|]. by apply IH.
Qed.

Lemma coalesced_start c c' l2 : (forall d, merges c' d = true -> merges c d = true) ->
  coalesced (c :: l2) -> coalesced (c' :: l2).
Proof.
  intros Hm. destruct l2 as [|d l2]; [done|]. cbn [coalesced]. intros [H1 H2]. split; [|done].
  specialize (Hm d). destruct (merges c' d); [|done]. rewrite Hm in H1; done.
Qed.

(** Freeing coalesces: what [free_model] builds from a coalesced heap is coalesced. *)
Lemma free_model_coalesced l1 c l2 :
  ck_used c = true -> coalesced (l1 ++ c :: l2) -> coalesced (free_model l1 c l2).
Proof.
  intros Hu Hco. unfold free_model. set (c0 := mk_chunk (ck_addr c) false (ck_size c)).
  apply coalesced_mid in Hco as [H1 H2].
  assert (Hl : exists l cur, merge_prev_model l1 c0 = (l, cur) /\ coalesced (l ++ [cur]) /\
    ck_end cur = ck_end c /\ ck_used cur = false).
  { destruct l1 as [|p l1 _] using rev_ind; [by exists [], c0|]. rewrite merge_prev_snoc.
    destruct (merges p c0) eqn:E.
    - exists l1, (join p c0). split; [done|]. unfold merges in E. cbn in E.
      apply andb_prop in E as [E1 E2]. apply andb_prop in E1 as [E1 _]. split; [|split].
      + rewrite <- app_assoc in H1. apply (coalesced_mid l1 p [c]) in H1 as [H1 _].
        eapply coalesced_end; [|exact H1]. intros d. unfold merges, join. cbn. destruct (ck_used p); done.
      + unfold ck_end, join in *. cbn. lia.
      + cbn. by destruct (ck_used p).
    - exists (l1 ++ [p]), c0. split; [done|]. split; [|done]. rewrite <- app_assoc in *.
      cbn [app] in *. apply (coalesced_mid l1 p [c]) in H1 as [H1 _]. apply coalesced_mid. split; [done|].
      cbn [coalesced]. done. }
  destruct Hl as (l & cur & -> & Hl & Ee & Eu).
  destruct l2 as [|n l2]; cbn [merge_next_model]; [done|].
  destruct (merges cur n) eqn:E.
  - apply coalesced_mid. split.
    + eapply coalesced_end; [|exact Hl]. intros d. unfold merges, join. cbn. by rewrite Eu.
    + destruct H2 as [_ H2]. eapply coalesced_start; [|exact H2]. intros d. unfold merges, join, ck_end in *. cbn in *.
      rewrite Eu in *. cbn [negb andb] in *. apply andb_prop in E as [E1 E2]. rewrite E1. cbn [andb].
      intros Hd. apply andb_prop in Hd as [-> Hd]. cbn [andb]. lia.
  - apply coalesced_mid. split; [exact Hl|]. destruct H2 as [_ H2]. by split.
Qed.

End HeapModel.

(** * Properties of the heap *)
Section Properties.
Context `{Symbols}.

(** What [malloc] makes of the first chunk that fits. *)
Fixpoint place (size : Z) (cs : list chunk) : list chunk :=
  match cs with
  | [] => []
  | c :: cs =>
      if ck_fits (sizeof_Chunk + size) c then
        mk_chunk (ck_addr c) true size ::
        mk_chunk (ck_addr c + (sizeof_Chunk + size)) false (ck_size c - (sizeof_Chunk + size)) :: cs
      else c :: place size cs
  end.

Lemma place_split size l1 c l2 :
  List.find (ck_fits (sizeof_Chunk + size)) l1 = None -> ck_fits (sizeof_Chunk + size) c = true ->
  place size (l1 ++ c :: l2) = l1 ++ mk_chunk (ck_addr c) true size ::
    mk_chunk (ck_addr c + (sizeof_Chunk + size)) false (ck_size c - (sizeof_Chunk + size)) :: l2.
Proof.
  induction l1 as [|d l1 IH]; cbn [List.find app place]; intros Hn Hf; [by rewrite Hf|].
  destruct (ck_fits _ d); [done|]. by rewrite IH.
Qed.

Lemma find_fits total cs c : List.find (ck_fits total) cs = Some c -> ck_fits total c = true.
Proof. intros Hf. by apply List.find_some in Hf as [_ ?]. Qed.

Lemma malloc_reuse_run alloc_page s cs size c fuel :
  heap (k_mem s) cs -> 0 <= size < 2 ^ 31 -> (length cs < fuel)%nat ->
  List.find (ck_fits (sizeof_Chunk + size)) cs = Some c ->
  exists m', malloc alloc_page fuel size s = Ok (ck_addr c + sizeof_Chunk) (set_mem m' s) /\
    heap m' (place size cs) /\ forall x, off_heap (place size cs) x -> rd32 m' x = rd32 (k_mem s) x.
Proof.
  intros Hp Hsz Hf Hfind. pose proof (malloc_scan_spec s cs (sizeof_Chunk + size) Hp cs [] fuel eq_refl Hf) as Hscan.
  change (before chunk_head (ck_node <$> [])) with chunk_head in Hscan.
  unfold first_fit in Hscan. rewrite Hfind in Hscan. cbn [fmap option_fmap option_map default id from_option] in Hscan.
  pose proof (find_fits _ _ _ Hfind) as Hfits.
  apply find_split in Hfind as (l1 & l2 & -> & Hn & Hu & Hfit).
  destruct (malloc_split_spec s l1 c l2 size Hp Hu ltac:(lia) Hfit) as (m' & R & Hp' & F).
  exists m'. rewrite place_split by done. split; [|split; [exact Hp'|exact F]].
  assert (Hc : ck_ok (chunk_head + 8) c).
  { pose proof (hp_ok _ _ Hp) as Hok. rewrite Forall_forall in Hok. apply Hok. elt. }
  pose proof (hp_low _ _ Hp) as Hl.
  unfold malloc. rewrite (w32_small (sizeof_Chunk + size)) by (unfold sizeof_Chunk; lia). krun. rewrite Hscan.
  destruct (Z.eqb_spec (ck_addr c) NULL) as [E|_]; [|exact R].
  unfold ck_ok, NULL, VERTUAL_MEM in *. lia.
Qed.

(** [malloc] takes the first free chunk of the heap with room for the block and one
    more header, and always splits off what is left; the heap stays well formed, the
    block lies apart from every other allocated one, and no allocated payload changes.
    *)
Theorem malloc_reuses alloc_page s cs size c fuel :
  heap (k_mem s) cs -> 0 <= size < 2 ^ 31 -> (length cs < fuel)%nat ->
  List.find (ck_fits (sizeof_Chunk + size)) cs = Some c ->
  exists m', malloc alloc_page fuel size s = Ok (ck_addr c + sizeof_Chunk) (set_mem m' s) /\
    heap m' (place size cs) /\
    forall d, d ∈ cs -> ck_used d = true ->
      (ck_end d <= ck_addr c \/ ck_addr c + sizeof_Chunk + size <= ck_addr d) /\
      forall x, payload_word d x -> rd32 m' x = rd32 (k_mem s) x.
Proof.
  intros Hp Hsz Hf Hfind. destruct (malloc_reuse_run alloc_page s cs size c fuel Hp Hsz Hf Hfind) as (m' & R & Hp' & F).
  pose proof (find_fits _ _ _ Hfind) as Hfits.
  apply find_split in Hfind as (l1 & l2 & -> & Hn & Hu & Hfit). rewrite place_split in Hp', F by done.
  exists m'. rewrite place_split by done. split; [exact R|split; [exact Hp'|]]. intros d Hd Hud.
  assert (Hd12 : d ∈ l1 ++ l2).
  { apply elem_of_app in Hd as [Hd|[->|Hd]%elem_of_cons]; [elt|congruence|elt]. }
  pose proof (hp_sep _ _ Hp) as Hsep. apply chunks_sep_mid in Hsep as [_ Hap]. rewrite Forall_forall in Hap.
  specialize (Hap _ Hd12). split.
  - unfold ck_apart, ck_end, sizeof_Chunk in *. lia.
  - intros x Hx. apply F. eapply payload_off_heap; [exact Hp'| |exact Hx]. revert Hd12. elt.
Qed.

Lemma malloc_grow_run alloc_page s s1 pg la cs size fuel :
  let total := sizeof_Chunk + size in let n := pages_needed total * PAGE_SIZE in
  heap (k_mem s) cs -> 0 <= size -> n < 2 ^ 31 -> (length cs < fuel)%nat ->
  List.find (ck_fits total) cs = None ->
  alloc_page (pages_needed total) s = Ok pg s1 -> pg_to_addr_la pg s1 = Ok la s1 ->
  heap (k_mem s1) cs -> fresh_pages cs la n ->
  exists m', malloc alloc_page fuel size s = Ok (la + sizeof_Chunk) (set_mem m' s1) /\
    heap m' (cs ++ pages_chunks la n size) /\
    forall x, off_heap (cs ++ pages_chunks la n size) x -> rd32 m' x = rd32 (k_mem s1) x.
Proof.
  intros total n Hp Hsz Hn Hf Hfind Hal Hla Hp1 Hfr.
  pose proof (malloc_scan_spec s cs total Hp cs [] fuel eq_refl Hf) as Hscan.
  change (before chunk_head (ck_node <$> [])) with chunk_head in Hscan.
  unfold first_fit in Hscan. rewrite Hfind in Hscan.
  destruct (malloc_pages_spec alloc_page s s1 pg la cs size Hsz Hn Hal Hla Hp1 Hfr) as (m' & R & Hp' & F).
  exists m'. destruct (pages_needed_bound total) as [_ Hb]; [unfold total, sizeof_Chunk; lia|]. split; [|by split].
  unfold malloc. rewrite (w32_small (sizeof_Chunk + size)) by (unfold n, total, sizeof_Chunk in *; lia).
  krun. fold total. rewrite Hscan. exact R.
Qed.

(** When no free chunk is large enough [malloc] takes whole pages from
    [alloc_page], appends a chunk of the requested size, and makes what is left of the
    pages a free chunk of its own when a header fits. *)
Theorem malloc_grows alloc_page s s1 pg la cs size fuel :
  let total := sizeof_Chunk + size in let n := pages_needed total * PAGE_SIZE in
  heap (k_mem s) cs -> 0 <= size -> n < 2 ^ 31 -> (length cs < fuel)%nat ->
  List.find (ck_fits total) cs = None ->
  alloc_page (pages_needed total) s = Ok pg s1 -> pg_to_addr_la pg s1 = Ok la s1 ->
  heap (k_mem s1) cs -> fresh_pages cs la n ->
  exists m', malloc alloc_page fuel size s = Ok (la + sizeof_Chunk) (set_mem m' s1) /\
    heap m' (cs ++ pages_chunks la n size) /\
    forall d, d ∈ cs -> forall x, payload_word d x -> rd32 m' x = rd32 (k_mem s1) x.
Proof.
  intros total n Hp Hsz Hn Hf Hfind Hal Hla Hp1 Hfr.
  destruct (malloc_grow_run alloc_page s s1 pg la cs size fuel Hp Hsz Hn Hf Hfind Hal Hla Hp1 Hfr) as (m' & R & Hp' & F).
  exists m'. split; [exact R|split; [exact Hp'|]].
  intros d Hd x Hx. apply F. eapply payload_off_heap; [exact Hp'| |exact Hx]. elt.
Qed.

(** [free] marks the chunk free and merges it with its free neighbours where they
    are adjacent in memory; allocated payloads are kept, and a coalesced heap stays
    coalesced. *)
Theorem free_coalesces s l1 c l2 :
  heap (k_mem s) (l1 ++ c :: l2) -> ck_used c = true ->
  exists m', free (ck_addr c + sizeof_Chunk) s = Ok tt (set_mem m' s) /\
    heap m' (free_model l1 c l2) /\
    (coalesced (l1 ++ c :: l2) -> coalesced (free_model l1 c l2)) /\
    forall d, d ∈ l1 ++ c :: l2 -> forall x, payload_word d x -> rd32 m' x = rd32 (k_mem s) x.
Proof.
  intros Hp Hu. destruct (free_spec s l1 c l2 Hp Hu) as (m' & R & Hp' & F).
  exists m'. split; [exact R|split; [exact Hp'|split; [by apply free_model_coalesced|]]].
  intros d Hd x Hx. apply F. by eapply payload_off_heap.
Qed.

(** C12: On a coalesced heap, freeing a block just allocated from a free chunk restores
    the heap. *)
Theorem malloc_free_roundtrip alloc_page s cs size c fuel :
  heap (k_mem s) cs -> coalesced cs -> 0 <= size < 2 ^ 31 -> (length cs < fuel)%nat ->
  List.find (ck_fits (sizeof_Chunk + size)) cs = Some c ->
  exists p s1 s2, malloc alloc_page fuel size s = Ok p s1 /\ free p s1 = Ok tt s2 /\ heap (k_mem s2) cs.
Proof.
  intros Hp Hco Hsz Hf Hfind. destruct (malloc_reuse_run alloc_page s cs size c fuel Hp Hsz Hf Hfind) as (m1 & R & Hp1 & _).
  pose proof (find_fits _ _ _ Hfind) as Hfits.
  apply find_split in Hfind as (l1 & l2 & -> & Hn & Hu & Hfit). rewrite place_split in Hp1 by done.
  set (c1 := mk_chunk (ck_addr c) true size) in *.
  set (c2 := mk_chunk (ck_addr c + (sizeof_Chunk + size)) false (ck_size c - (sizeof_Chunk + size))) in *.
  destruct (free_spec (set_mem m1 s) l1 c1 (c2 :: l2) Hp1 eq_refl) as (m2 & R2 & Hp2 & _).
  exists (ck_addr c + sizeof_Chunk), (set_mem m1 s), (set_mem m2 s).
  split; [exact R|split; [exact R2|]]. cbn [k_mem set_mem].
  assert (Ec : join (mk_chunk (ck_addr c) false size) c2 = c).
  { unfold join, c2. destruct c as [a u sz]. cbn in *. subst u. f_equal. lia. }
  assert (free_model l1 c1 (c2 :: l2) = l1 ++ c :: l2) as <-; [|exact Hp2].
  apply coalesced_mid in Hco as [H1 _]. unfold free_model. change (mk_chunk (ck_addr c1) false (ck_size c1)) with
    (mk_chunk (ck_addr c) false size).
  assert (merge_prev_model l1 (mk_chunk (ck_addr c) false size) = (l1, mk_chunk (ck_addr c) false size)) as ->.
  { destruct l1 as [|p l1 _] using rev_ind; [done|]. rewrite merge_prev_snoc.
    rewrite <- app_assoc in H1. apply (coalesced_mid l1 p [c]) in H1 as [_ [H1 _]].
    assert (merges p (mk_chunk (ck_addr c) false size) = merges p c) as ->; [|by rewrite H1].
    unfold merges. cbn. by rewrite Hu. }
  cbn [merge_next_model]. assert (merges (mk_chunk (ck_addr c) false size) c2 = true) as ->; [|by rewrite Ec].
  unfold merges, ck_end. cbn. lia.
Qed.

End Properties.
