(* ===== verification/Vmm.v ===== *)
(** Virtual memory areas and the page-fault handler of mm/vmm.c. *)

From S2P Require Import Prelude Machine DList Str Pmm Paging Ports Swap Malloc.

Local Open Scope Z_scope.

(** * [struct vma_struct] of include/vmm.h *)
Definition sizeof_vma : Z := 24.
Definition vma_start (v : Z) : Z := v.
Definition vma_end (v : Z) : Z := v + 4.
Definition vma_flags (v : Z) : Z := v + 8.
Definition vma_back_link (v : Z) : Z := v + 12.
Definition vma_node (v : Z) : Z := v + 16.
Definition vma_of_node (node : Z) : Z := w32 (node - 16).

(** [panic] of debug_/debug.c prints the message between two rules and never
    returns. The call frames [print_backtrace] walks over are not part of the
    state; the walk itself is in Debug.v. *)
Definition panic {A} (msg : string) : K A :=
  printf "====================\n" [];;
  printf (msg ++ "\n")%string [];;
  emit EvBacktrace;;
  printf "====================\n" [];;
  hang.

Section Areas.
Context `{Symbols}.
Variable alloc_page : Z -> K Z.
Variable fuel : nat.

Definition create_mm (pde : Z) : K Z :=
  mm ← malloc alloc_page fuel sizeof_mm;
  store (mm_num mm) 0;;
  store (mm_pde mm) pde;;
  store (mm_cache mm) NULL;;
  on_mem (list_init (mm_node mm));;
  on_mem (list_init (mm_vm_fifo mm));;
  mret mm.

Definition vmm_init : K unit :=
  pd ← get k_pd;
  mm ← create_mm pd;
  upd (set_mm mm);;
  upd (set_is_vmm_inited 1).

(** [mm->num ++] *)
Definition mm_num_incr (mm : Z) : K unit := n ← load (mm_num mm); store (mm_num mm) (n + 1)%w.

(** The insertion loop; the result is [begin] where it stops. *)
Fixpoint create_vma_loop (k : nat) (mm vma vmm_start begin : Z) : K Z :=
  match k with
  | O => nofuel
  | S k =>
      next ← load (node_next begin);
      if next =? mm_node mm then mret begin
      else
        let temp := vma_of_node next in
        start ← load (vma_start temp);
        if vmm_start <? start then
          on_mem (list_insert_after begin (vma_node vma));;
          mm_num_incr mm;;
          mret begin
        else begin ← load (node_next begin); create_vma_loop k mm vma vmm_start begin
  end.

(** The part of [create_vma] after the fields are set. *)
Definition create_vma_insert (mm vma vmm_start : Z) : K unit :=
  begin ← create_vma_loop fuel mm vma vmm_start (mm_node mm);
  when (begin =? mm_node mm)
    (on_mem (list_insert_after (mm_node mm) (vma_node vma));; mm_num_incr mm).

Definition create_vma (mm vmm_start vmm_end flags : Z) : K Z :=
  vma ← malloc alloc_page fuel sizeof_vma;
  store (vma_start vma) vmm_start;;
  store (vma_end vma) vmm_end;;
  store (vma_back_link vma) mm;;
  store (vma_flags vma) flags;;
  create_vma_insert mm vma vmm_start;;
  mret vma.

Fixpoint find_vma_loop (k : nat) (mm addr begin : Z) : K Z :=
  match k with
  | O => nofuel
  | S k =>
      next ← load (node_next begin);
      if next =? mm_node mm then mret NULL
      else
        let temp := vma_of_node next in
        start ← load (vma_start temp); last ← load (vma_end temp);
        if (start <=? addr) && (addr <? last) then
          store (mm_cache mm) temp;; mret temp
        else begin ← load (node_next begin); find_vma_loop k mm addr begin
  end.

Definition find_vma (mm addr : Z) : K Z :=
  cache ← load (mm_cache mm);
  hit ← (if cache =? NULL then mret false
         else start ← load (vma_start cache); last ← load (vma_end cache);
              mret ((start <? addr) && (addr <? last)) : K bool);
  if (hit : bool) then load (mm_cache mm)
  else find_vma_loop fuel mm addr (mm_node mm).

Definition free_vma (vma : Z) : K unit := free vma.

Fixpoint free_mm_loop (k : nat) (mm prev next : Z) : K unit :=
  match k with
  | O => nofuel
  | S k =>
      if negb (prev =? mm_node mm) then
        let temp := vma_of_node prev in
        on_mem (list_delete (vma_node temp));;
        free_vma temp;;
        let prev := next in
        next ← load (node_next prev);
        free_mm_loop k mm prev next
      else mret tt
  end.

Definition free_mm (mm : Z) : K unit :=
  prev ← load (node_next (mm_node mm));
  next ← load (node_next prev);
  free_mm_loop fuel mm prev next;;
  free mm.

End Areas.

Section Faults.
Context `{Symbols}.
Variable fuel : nat.

(** The checks at the top of [do_swap]. *)
Definition do_swap_check (vma is_write : Z) : K unit :=
  if vma =? NULL then panic "didn't find vma... wrong.\n"
  else
    flags ← load (vma_flags vma);
    if negb (is_write =? 0) && (Z.land flags 0x2 =? 0) then
      panic "vma struct's flag said cannot write! wrong.\n"
    else if (is_write =? 0) && (Z.land flags (Z.lor 0x1 0x4) =? 0) then
      panic "vma struct's flag said cannot read or exec! wrong.\n"
    else mret tt.

Definition do_swap (cr2 is_write : Z) : K unit :=
  let fault_pg_addr := ROUNDDOWN cr2 in
  mm ← get k_mm;
  vma ← find_vma fuel mm fault_pg_addr;
  do_swap_check vma is_write;;
  flags ← load (vma_flags vma);
  let sign := if Z.land flags 0x2 =? 1 then 0x7 else 0x5 in
  pde ← load (mm_pde mm);
  pte ← get_pte (kalloc_page fuel) pde fault_pg_addr 1;
  e ← load pte;
  if (pte_page_addr e =? 0) && (pte_sign e =? 0) then
    pg ← kalloc_page fuel 1;
    a ← pg_to_addr_la pg;
    printf "no page linked. so alloc a page, la: %x\n" [a];;
    if pg =? NULL then mret tt
    else
      store (pg_va pg) fault_pg_addr;;
      pde ← load (mm_pde mm);
      pa ← pg_to_addr_pa pg;
      map (kalloc_page fuel) fuel pde fault_pg_addr pa sign;;
      on_mem (list_insert_before (mm_vm_fifo mm) (pg_node pg))
  else swap_in fuel mm fault_pg_addr sign.

(** [cr2] and the frame's error code are what the processor supplies. *)
Definition page_fault (cr2 errorCode : Z) : K unit :=
  printf "page_fault triggered==> at cr2: %x.\n" [cr2];;
  (let c := Z.land errorCode 0x3 in
   if c =? 0 then do_swap cr2 0
   else if c =? 1 then
     (if Z.land errorCode 0x4 =? 0x4 then
        printf "The privilege of this page is so high～, you read it in user mode.\n" [];; hang
      else printf "cannot be there...\n" [];; hang)
   else if c =? 2 then do_swap cr2 1
   else printf "COW is not supported...\n" [];; hang);;
  when (negb (Z.land errorCode 0x8 =? 0)) (printf "Reserved bits being overwritten.\n" []);;
  when (negb (Z.land errorCode 0x10 =? 0)) (printf "The fault occurred during an instruction fetch.\n" []).

End Faults.

(** * The list of areas *)
Record area := mk_area { ar_addr : Z ; ar_start : Z ; ar_end : Z }.

Definition ar_node (a : area) : Z := vma_node (ar_addr a).
Definition ar_has (addr : Z) (a : area) : bool := (ar_start a <=? addr) && (addr <? ar_end a).

Section AreaModel.
Context `{Symbols}.

(** The areas of [mm], in list order, with their bounds in memory. *)
Record areas (m : memory) (mm : Z) (l : list area) : Prop := {
  as_mm : 0 <= mm < 2 ^ 32 - sizeof_mm ;
  as_range : forall a, a ∈ l -> 0 < ar_addr a /\ ar_addr a + sizeof_vma < 2 ^ 32 ;
  as_dlist : dlist m (mm_node mm) (ar_node <$> l) ;
  as_fields : forall a, a ∈ l -> rd32 m (vma_start (ar_addr a)) = ar_start a /\ rd32 m (vma_end (ar_addr a)) = ar_end a
}.

Lemma vma_of_ar_node a : 0 < ar_addr a /\ ar_addr a + sizeof_vma < 2 ^ 32 -> vma_of_node (ar_node a) = ar_addr a.
Proof. intros. unfold vma_of_node, ar_node, vma_node, sizeof_vma in *. wsmall. lia. Qed.

Definition first_area (addr : Z) (l : list area) : option area := List.find (ar_has addr) l.

Lemma find_vma_loop_spec s mm addr l : areas (k_mem s) mm l -> forall l2 l1 fuel,
  l = l1 ++ l2 -> (length l2 < fuel)%nat ->
  find_vma_loop fuel mm addr (before (mm_node mm) (ar_node <$> l1)) s =
    match first_area addr l2 with
    | Some a => Ok (ar_addr a) (set_mem (wr32 (k_mem s) (mm_cache mm) (ar_addr a)) s)
    | None => Ok NULL s
    end.
Proof.
  intros [Hm Hr Hd Hf]. unfold first_area.
  induction l2 as [|a l2 IH]; intros l1 fuel El Hfu; (destruct fuel as [|fuel]; cbn [length] in Hfu; [lia|]);
    cbn [find_vma_loop List.find]; krun; unfold node_next.
  - rewrite app_nil_r in El. subst l1. assert (Hd0 := Hd). rewrite <- (app_nil_r (ar_node <$> l)) in Hd0.
    destruct (dseg_neighbours _ _ _ _ (proj2 Hd0)) as [Hn _]. rewrite Hn. cbn [after head default id from_option].
    by rewrite Z.eqb_refl.
  - assert (Hin : a ∈ l) by (subst; elt). assert (Hd0 := Hd). rewrite El, fmap_app, fmap_cons in Hd0.
    destruct (dseg_neighbours _ _ _ _ (proj2 Hd0)) as [Hn _]. rewrite Hn.
    cbn [after head default id from_option].
    destruct (Z.eqb_spec (ar_node a) (mm_node mm)) as [E|_].
    { exfalso. apply (dlist_not_head _ _ _ (ar_node a) Hd0); [elt|done]. }
    krun. rewrite vma_of_ar_node by (by apply Hr). destruct (Hf _ Hin) as [-> ->].
    unfold ar_has at 1. destruct (_ && _); krun; [done|].
    rewrite Hn. replace (ar_node a) with (before (mm_node mm) (ar_node <$> l1 ++ [a]))
      by (rewrite fmap_app; apply before_snoc).
    apply IH; [|lia]. by rewrite <- app_assoc.
Qed.

(** The cache is [NULL] or one of the areas. *)
Definition cache_ok (m : memory) (mm : Z) (l : list area) : Prop :=
  rd32 m (mm_cache mm) = NULL \/ exists a, a ∈ l /\ rd32 m (mm_cache mm) = ar_addr a.

(** The cache word is apart from what [areas] speaks of. *)
Definition cache_off (mm : Z) (l : list area) : Prop :=
  off_nodes (mm_node mm :: (ar_node <$> l)) (mm_cache mm) /\
  forall a, a ∈ l -> wd (mm_cache mm) (vma_start (ar_addr a)) /\ wd (mm_cache mm) (vma_end (ar_addr a)).

Lemma find_vma_run s mm addr l fuel :
  areas (k_mem s) mm l -> cache_ok (k_mem s) mm l -> cache_off mm l -> (length l < fuel)%nat ->
  exists r m', find_vma fuel mm addr s = Ok r (set_mem m' s) /\
    areas m' mm l /\ cache_ok m' mm l /\
    (if r =? NULL then forall a, a ∈ l -> ar_has addr a = false
     else exists a, a ∈ l /\ r = ar_addr a /\ ar_has addr a = true) /\
    forall x, wd (mm_cache mm) x -> rd32 m' x = rd32 (k_mem s) x.
Proof.
  intros Ha Hc [Hoff1 Hoff2] Hf. pose proof (find_vma_loop_spec s mm addr l Ha l [] fuel eq_refl Hf) as Hloop.
  change (before (mm_node mm) (ar_node <$> [])) with (mm_node mm) in Hloop.
  assert (Hslow : exists r m', find_vma_loop fuel mm addr (mm_node mm) s = Ok r (set_mem m' s) /\
    areas m' mm l /\ cache_ok m' mm l /\
    (if r =? NULL then forall a, a ∈ l -> ar_has addr a = false
     else exists a, a ∈ l /\ r = ar_addr a /\ ar_has addr a = true) /\
    forall x, wd (mm_cache mm) x -> rd32 m' x = rd32 (k_mem s) x).
  { rewrite Hloop. destruct (first_area addr l) as [a|] eqn:E.
    - apply List.find_some in E as [Hin Hhas]. apply list_elem_of_In in Hin.
      pose proof Ha as [Hm Hr Hd Hfl]. pose proof (Hr _ Hin) as Hra.
      exists (ar_addr a), (wr32 (k_mem s) (mm_cache mm) (ar_addr a)). split; [done|].
      assert (Hs : rd32 (wr32 (k_mem s) (mm_cache mm) (ar_addr a)) (mm_cache mm) = ar_addr a).
      { apply rd32_wr32_small. unfold sizeof_vma in *. lia. }
      split; [|split].
      + constructor; [done|done|by apply dlist_wr32|]. intros b Hb. destruct (Hoff2 _ Hb).
        rewrite !rd32_wr32_ne by done. by apply Hfl.
      + right. by exists a.
      + split; [|intros x Hx; by apply rd32_wr32_ne].
        destruct (Z.eqb_spec (ar_addr a) NULL); [unfold NULL in *; lia|]. by exists a.
    - exists NULL, (k_mem s). rewrite set_mem_id. split; [done|split; [done|split; [done|]]].
      rewrite Z.eqb_refl. split; [|done]. intros a Hin. apply (List.find_none _ _ E). by apply list_elem_of_In. }
  unfold find_vma. krun. destruct Hc as [Hc|(a & Hin & Hc)]; rewrite Hc.
  - rewrite Z.eqb_refl. krun. exact Hslow.
  - pose proof Ha as [_ Hr _ Hfl]. pose proof (Hr _ Hin) as Hra. destruct (Hfl _ Hin) as [E1 E2].
    destruct (Z.eqb_spec (ar_addr a) NULL) as [E|_]; [unfold NULL in *; lia|]. krun. rewrite E1, E2.
    destruct ((ar_start a <? addr) && (addr <? ar_end a)) eqn:Eh; [|exact Hslow]. krun.
    exists (ar_addr a), (k_mem s). rewrite set_mem_id, Hc. split; [done|split; [done|split; [right; eauto|split; [|done]]]].
    destruct (Z.eqb_spec (ar_addr a) NULL); [unfold NULL in *; lia|]. exists a. split; [done|split; [done|]].
    unfold ar_has. lia.
Qed.


(** ** Insertion *)

(** The words of the areas [l] are apart from the list nodes and the counter. *)
Record area_words (mm : Z) (l : list area) : Prop := {
  aw_fields : forall a, a ∈ l ->
    off_nodes (mm_node mm :: (ar_node <$> l)) (vma_start (ar_addr a)) /\
    off_nodes (mm_node mm :: (ar_node <$> l)) (vma_end (ar_addr a)) /\
    wd (mm_num mm) (vma_start (ar_addr a)) /\ wd (mm_num mm) (vma_end (ar_addr a)) ;
  aw_num : off_nodes (mm_node mm :: (ar_node <$> l)) (mm_num mm)
}.

Definition num_incr (mm : Z) (m : memory) : memory := wr32 m (mm_num mm) (rd32 m (mm_num mm) + 1)%w.

Lemma mm_num_incr_run mm s : mm_num_incr mm s = Ok tt (set_mem (num_incr mm (k_mem s)) s).
Proof. done. Qed.

(** Where the loop stops: at the first area that starts above. *)
Lemma create_vma_loop_spec s mm v start l : areas (k_mem s) mm l -> forall l2 l1 l3 fuel,
  l = l1 ++ l2 ++ l3 -> (forall a, a ∈ l2 -> ar_start a <= start) ->
  (forall a, head l3 = Some a -> start < ar_start a) -> (length l2 < fuel)%nat ->
  let b := before (mm_node mm) (ar_node <$> l1 ++ l2) in
  create_vma_loop fuel mm v start (before (mm_node mm) (ar_node <$> l1)) s =
    match l3 with
    | [] => Ok b s
    | _ => Ok b (set_mem (num_incr mm (list_insert_after b (vma_node v) (k_mem s))) s)
    end.
Proof.
  intros [Hm Hr Hd Hf]. induction l2 as [|a l2 IH]; intros l1 l3 fuel El Hle Hgt Hfu;
    (destruct fuel as [|fuel]; cbn [length] in Hfu; [lia|]); cbn [create_vma_loop]; krun; unfold node_next;
    cbn [app] in El; assert (Hd0 := Hd); rewrite El, fmap_app in Hd0;
    destruct (dseg_neighbours _ _ _ _ (proj2 Hd0)) as [Hn _]; rewrite Hn.
  - rewrite app_nil_r. destruct l3 as [|a l3]; cbn [fmap list_fmap after head default id from_option] in *.
    { by rewrite Z.eqb_refl. }
    destruct (Z.eqb_spec (ar_node a) (mm_node mm)) as [E|_].
    { exfalso. apply (dlist_not_head _ _ _ (ar_node a) Hd0); [elt|done]. }
    assert (Hin : a ∈ l) by (subst; elt). krun. rewrite vma_of_ar_node by (by apply Hr).
    rewrite (proj1 (Hf _ Hin)). specialize (Hgt a eq_refl).
    destruct (Z.ltb_spec start (ar_start a)); [|lia]. krun. rewrite mm_num_incr_run. done.
  - cbn [fmap list_fmap after head default id from_option app] in *.
    destruct (Z.eqb_spec (ar_node a) (mm_node mm)) as [E|_].
    { exfalso. apply (dlist_not_head _ _ _ (ar_node a) Hd0); [elt|done]. }
    assert (Hin : a ∈ l) by (subst; elt). krun. rewrite vma_of_ar_node by (by apply Hr).
    rewrite (proj1 (Hf _ Hin)). pose proof (Hle a ltac:(elt)).
    destruct (Z.ltb_spec start (ar_start a)); [lia|]. krun. rewrite Hn.
    replace (ar_node a) with (before (mm_node mm) (ar_node <$> l1 ++ [a]))
      by (rewrite fmap_app; apply before_snoc).
    specialize (IH (l1 ++ [a]) l3 fuel). rewrite <- !app_assoc in IH. cbn [app] in IH.
    apply IH; [done|intros; apply Hle; elt|done|lia].
Qed.

Lemma create_vma_insert_spec s mm v start l1 l2 fuel :
  areas (k_mem s) mm (l1 ++ l2) -> (forall a, a ∈ l1 -> ar_start a <= start) ->
  (forall a, head l2 = Some a -> start < ar_start a) -> (length l1 < fuel)%nat ->
  let b := before (mm_node mm) (ar_node <$> l1) in
  create_vma_insert fuel mm v start s =
    match l2 with
    | [] => when (b =? mm_node mm) (on_mem (list_insert_after (mm_node mm) (vma_node v));; mm_num_incr mm) s
    | _ => when (b =? mm_node mm) (on_mem (list_insert_after (mm_node mm) (vma_node v));; mm_num_incr mm)
             (set_mem (num_incr mm (list_insert_after b (vma_node v) (k_mem s))) s)
    end.
Proof.
  intros Ha Hle Hgt Hf b. pose proof (create_vma_loop_spec s mm v start _ Ha l1 [] l2 fuel eq_refl Hle Hgt Hf) as Hl.
  cbn [app] in Hl. fold b in Hl. change (before (mm_node mm) (ar_node <$> [])) with (mm_node mm) in Hl.
  unfold create_vma_insert. krun. rewrite Hl. by destruct l2.
Qed.

Lemma areas_insert m mm l1 v l2 :
  areas m mm (l1 ++ l2) -> 0 < ar_addr v /\ ar_addr v + sizeof_vma < 2 ^ 32 ->
  rd32 m (vma_start (ar_addr v)) = ar_start v /\ rd32 m (vma_end (ar_addr v)) = ar_end v ->
  nodes_sep (mm_node mm :: (ar_node <$> l1 ++ v :: l2)) -> area_words mm (l1 ++ v :: l2) ->
  areas (num_incr mm (list_insert_after (before (mm_node mm) (ar_node <$> l1)) (ar_node v) m)) mm (l1 ++ v :: l2).
Proof.
  intros [Hm Hr Hd Hf] Hv Hvf Hns [Haw Han]. rewrite !fmap_app in *. rewrite fmap_cons in *.
  destruct (list_insert_after_spec m _ _ _ (ar_node v) Hd Hns) as [Hd1 Hf1].
  constructor; [done| |rewrite fmap_app, fmap_cons; by apply dlist_wr32|].
  - intros a [Ha|[->|Ha]%elem_of_cons]%elem_of_app; [apply Hr; elt|done|apply Hr; elt].
  - intros a Ha. destruct (Haw a Ha) as (O1 & O2 & W1 & W2). rewrite ?fmap_app, ?fmap_cons in O1, O2.
    unfold num_incr. rewrite !rd32_wr32_ne, !Hf1 by done.
    apply elem_of_app in Ha as [Ha|[->|Ha]%elem_of_cons]; [apply Hf; elt|done|apply Hf; elt].
Qed.

Lemma before_not_head m mm l1 l2 : areas m mm (l1 ++ l2) -> l1 <> [] ->
  before (mm_node mm) (ar_node <$> l1) <> mm_node mm.
Proof.
  intros [_ _ Hd _] Hne. destruct l1 as [|a l1 _] using rev_ind; [done|].
  rewrite fmap_app. change (ar_node <$> [a]) with [ar_node a]. rewrite before_snoc.
  intros E. apply (dlist_not_head _ _ _ (ar_node a) Hd); [|done].
  rewrite !fmap_app. change (ar_node <$> [a]) with [ar_node a]. elt.
Qed.

(** C33: [create_vma] keeps the list of areas sorted: an area that starts between two
    areas of the list is linked between them, and the list stays well formed. *)
Theorem create_vma_in_order s mm l1 v l2 fuel :
  areas (k_mem s) mm (l1 ++ l2) -> l1 <> [] -> l2 <> [] -> (length l1 < fuel)%nat ->
  (forall a, a ∈ l1 -> ar_start a <= ar_start v) -> (forall a, head l2 = Some a -> ar_start v < ar_start a) ->
  0 < ar_addr v /\ ar_addr v + sizeof_vma < 2 ^ 32 ->
  rd32 (k_mem s) (vma_start (ar_addr v)) = ar_start v /\ rd32 (k_mem s) (vma_end (ar_addr v)) = ar_end v ->
  nodes_sep (mm_node mm :: (ar_node <$> l1 ++ v :: l2)) -> area_words mm (l1 ++ v :: l2) ->
  exists m', create_vma_insert fuel mm (ar_addr v) (ar_start v) s = Ok tt (set_mem m' s) /\
    areas m' mm (l1 ++ v :: l2).
Proof.
  intros Ha Hn1 Hn2 Hfu Hle Hgt Hv Hvf Hns Haw. eexists. split.
  - rewrite (create_vma_insert_spec s mm _ _ l1 l2 fuel Ha Hle Hgt Hfu).
    rewrite (proj2 (Z.eqb_neq _ _) (before_not_head _ _ _ _ Ha Hn1)). destruct l2; [done|]. reflexivity.
  - by apply areas_insert.
Qed.

(** The first area of an empty list goes in. *)
Theorem create_vma_first s mm v fuel :
  areas (k_mem s) mm [] -> (0 < fuel)%nat ->
  0 < ar_addr v /\ ar_addr v + sizeof_vma < 2 ^ 32 ->
  rd32 (k_mem s) (vma_start (ar_addr v)) = ar_start v /\ rd32 (k_mem s) (vma_end (ar_addr v)) = ar_end v ->
  nodes_sep [mm_node mm; ar_node v] -> area_words mm [v] ->
  exists m', create_vma_insert fuel mm (ar_addr v) (ar_start v) s = Ok tt (set_mem m' s) /\ areas m' mm [v].
Proof.
  intros Ha Hfu Hv Hvf Hns Haw. eexists. split.
  - rewrite (create_vma_insert_spec s mm _ _ [] [] fuel Ha); [|by intros a ?%elem_of_nil|done|done].
    change (before (mm_node mm) (ar_node <$> [])) with (mm_node mm). rewrite Z.eqb_refl. reflexivity.
  - by apply (areas_insert _ _ [] v []).
Qed.

(** An area above all others is dropped. *)
Theorem create_vma_loses_last s mm v start l fuel :
  areas (k_mem s) mm l -> l <> [] -> (forall a, a ∈ l -> ar_start a <= start) -> (length l < fuel)%nat ->
  create_vma_insert fuel mm v start s = Ok tt s.
Proof.
  intros Ha Hne Hle Hfu. rewrite <- (app_nil_r l) in Ha.
  rewrite (create_vma_insert_spec s mm _ _ l [] fuel Ha Hle); [|done|done].
  by rewrite (proj2 (Z.eqb_neq _ _) (before_not_head _ _ _ _ Ha Hne)).
Qed.

(** An area below all others is linked in twice, and its [next] is itself:
    every later walk that passes it never ends. *)
Theorem create_vma_self_loop s mm v a l2 fuel :
  areas (k_mem s) mm (a :: l2) -> ar_start v < ar_start a -> (0 < fuel)%nat ->
  nodes_sep (mm_node mm :: ar_node v :: (ar_node <$> a :: l2)) ->
  off_nodes (mm_node mm :: ar_node v :: (ar_node <$> a :: l2)) (mm_num mm) ->
  exists m', create_vma_insert fuel mm (ar_addr v) (ar_start v) s = Ok tt (set_mem m' s) /\
    rd32 m' (node_next (mm_node mm)) = ar_node v /\ rd32 m' (node_next (ar_node v)) = ar_node v.
Proof.
  intros Ha Hlt Hfu Hns Hnum. pose proof (as_dlist _ _ _ Ha) as Hd.
  destruct (list_insert_after_spec (k_mem s) (mm_node mm) [] (ar_node <$> a :: l2) (ar_node v) Hd Hns) as [Hd1 _].
  set (m1 := num_incr mm (list_insert_after (mm_node mm) (ar_node v) (k_mem s))).
  assert (Hd2 : dlist m1 (mm_node mm) ([] ++ ar_node v :: (ar_node <$> a :: l2))) by (by apply dlist_wr32).
  pose proof (dlist_first _ _ _ Hd2) as Hfirst. cbn [app after head default id from_option] in Hfirst.
  exists (num_incr mm (list_insert_after (mm_node mm) (ar_node v) m1)). split.
  - rewrite (create_vma_insert_spec s mm _ _ [] (a :: l2) fuel Ha); [|by intros b ?%elem_of_nil|by intros b [= <-]|done].
    change (before (mm_node mm) (ar_node <$> [])) with (mm_node mm). rewrite Z.eqb_refl. reflexivity.
  - destruct (Hnum (mm_node mm) ltac:(elt)) as [_ W1]. destruct (Hnum (ar_node v) ltac:(elt)) as [_ W2].
    unfold num_incr at 1 2. rewrite !rd32_wr32_ne by (by apply wd_sym).
    unfold list_insert_after, node_next, node_prev. cbn zeta. rewrite Hfirst.
    pose proof (ns_range _ Hns (ar_node v) ltac:(elt)) as Hrv.
    pose proof (ns_next_prev _ Hns (ar_node v) (ar_node v) ltac:(elt) ltac:(elt)) as S1.
    pose proof (ns_next_prev _ Hns (mm_node mm) (ar_node v) ltac:(elt) ltac:(elt)) as S2.
    assert (Hne : ar_node v <> mm_node mm).
    { intros E. pose proof (ns_nodup _ Hns) as Hnd. rewrite E in Hnd. apply NoDup_cons in Hnd as [Hn _]. apply Hn. elt. }
    pose proof (ns_next _ Hns (mm_node mm) (ar_node v) ltac:(elt) ltac:(elt) ltac:(done)) as S3.
    rewrite (rd32_wr32_ne _ (ar_node v + 4) (mm_node mm + 4)) by (by apply wd_sym). rewrite Hfirst.
    split; [by apply rd32_wr32_small|].
    rewrite !(rd32_wr32_ne _ _ (ar_node v + 4)) by (done || by apply wd_sym). by apply rd32_wr32_small.
Qed.

End AreaModel.

(** * Faults the handler refuses *)
Section FaultProperties.
Context `{Symbols}.

Lemma land_3_cases e : Z.land e 0x3 = e mod 4.
Proof. change 0x3 with (Z.ones 2). by rewrite Z.land_ones. Qed.

(** C21: A fault on a present page or at an address in no area, a write where every area
    that contains the address lacks the write flag, or a read where every such area
    lacks the read and the execute flag, stops the machine; memory is as it was, but for
    the lookup cache. *)
Theorem page_fault_refuses s cr2 errorCode l fuel :
  areas (k_mem s) (k_mm s) l -> cache_ok (k_mem s) (k_mm s) l -> cache_off (k_mm s) l -> (length l < fuel)%nat ->
  (forall a, a ∈ l -> wd (mm_cache (k_mm s)) (vma_flags (ar_addr a))) ->
  Z.odd errorCode = true \/
  (forall a, a ∈ l -> ar_has (ROUNDDOWN cr2) a = false) \/
  (forall a, a ∈ l -> ar_has (ROUNDDOWN cr2) a = true ->
    let flags := rd32 (k_mem s) (vma_flags (ar_addr a)) in
    errorCode mod 4 = 2 /\ Z.land flags 0x2 = 0 \/ errorCode mod 4 = 0 /\ Z.land flags (Z.lor 0x1 0x4) = 0) ->
  exists s', page_fault fuel cr2 errorCode s = Hang s' /\
    forall x, wd (mm_cache (k_mm s)) x -> rd32 (k_mem s') x = rd32 (k_mem s) x.
Proof.
  intros Ha Hc Hoff Hf Hfl Hcase. unfold page_fault, printf, emit. krun. rewrite land_3_cases.
  set (s0 := set_log _ s).
  assert (Hmod : Z.odd errorCode = Z.odd (errorCode mod 4)).
  { rewrite !Zodd_mod. f_equal. lia_div. }
  assert (Hr : 0 <= errorCode mod 4 < 4) by (apply Z.mod_pos_bound; lia).
  assert (Hs : forall w, (w = 0 /\ errorCode mod 4 = 0 \/ w = 1 /\ errorCode mod 4 = 2) ->
    exists s', do_swap fuel cr2 w s0 = Hang s' /\
      forall x, wd (mm_cache (k_mm s)) x -> rd32 (k_mem s') x = rd32 (k_mem s) x).
  { intros w Hw. destruct (find_vma_run s0 (k_mm s) (ROUNDDOWN cr2) l fuel Ha Hc Hoff Hf) as (r & m' & R & _ & _ & Hres & Hfr).
    unfold do_swap, do_swap_check, panic, printf, emit. krun. change (k_mm s0) with (k_mm s). rewrite R. krun.
    destruct (Z.eqb_spec r NULL) as [->|Hne]; krun; [eexists; split; [done|exact Hfr]|].
    destruct Hres as (a & Hin & -> & Hhas).
    destruct Hcase as [Hodd|[Hno|Hfz]].
    - rewrite Hmod in Hodd. destruct Hw as [[_ E]|[_ E]]; by rewrite E in Hodd.
    - by rewrite Hno in Hhas.
    - rewrite Hfr by (by apply Hfl). change (k_mem s0) with (k_mem s).
      destruct Hw as [[-> E]|[-> E]], (Hfz a Hin Hhas) as [[E2 ->]|[E2 Hro]]; try lia.
      + rewrite Hro. change (negb (0 =? 0)) with false. cbn [andb]. krun. eexists. split; [done|exact Hfr].
      + change (negb (1 =? 0)) with true. rewrite Z.eqb_refl. krun. eexists. split; [done|exact Hfr]. }
  destruct (Z.eqb_spec (errorCode mod 4) 0) as [E0|E0].
  { destruct (Hs 0 ltac:(by left)) as (s' & R & Hfr). rewrite R. eauto. }
  destruct (Z.eqb_spec (errorCode mod 4) 1) as [E1|E1].
  { destruct (_ =? _); krun; (eexists; split; [done|done]). }
  destruct (Z.eqb_spec (errorCode mod 4) 2) as [E2|E2].
  { destruct (Hs 1 ltac:(by right)) as (s' & R & Hfr). rewrite R. eauto. }
  krun. eexists. split; [done|done].
Qed.

End FaultProperties.
