(* ===== verification/Kernel.v ===== *)
(** The memory managers together: the free pages, the page frames and the kernel
    heap as one invariant, which [kmalloc] and [free] preserve and which the
    start of the kernel establishes (mm/pmm.c, mm/malloc.c, mm/vmm.c in the order
    of [init] of entry/entry.c). *)

From stdpp Require Import sorting.
From S2P Require Import Prelude Machine DList Str Pmm Paging Ports Swap Malloc Vmm.

Local Open Scope Z_scope.

Section Kernel.
Context `{Symbols}.

(** * The invariant *)

(** The frame of the page structure [q], in the kernel window. *)
Definition frame_la (s : kst) (q : Z) : Z := (q - k_pages s) / sizeof_Page * PAGE_SIZE + k_pt_begin s + VERTUAL_MEM.

(** Physical memory: the kernel with its two list heads, the structures of the
    [N] pages, their frames. *)
Record arena (N : Z) (s : kst) : Prop := {
  ar_geom : geom (k_pages s) ;
  ar_heads : chunk_head + 8 <= free_pages_head \/ free_pages_head + 8 <= chunk_head ;
  ar_chunk_head : VERTUAL_MEM <= chunk_head /\ chunk_head + 8 - VERTUAL_MEM <= k_pages s ;
  ar_pages : 0 <= N /\ k_pages s + sizeof_Page * N <= k_pt_begin s ;
  ar_frames : k_pt_begin s + N * PAGE_SIZE < 2 ^ 30
}.

(** The chunk [c] is made of frames whose pages are not in the pool. *)
Record in_frames (s : kst) (ps : list Z) (c : chunk) : Prop := {
  if_low : k_pt_begin s + VERTUAL_MEM <= ck_addr c ;
  if_apart : forall q, q ∈ ps -> ck_end c <= frame_la s q \/ frame_la s q + PAGE_SIZE <= ck_addr c
}.

(** The free pages are the blocks [bs], the heap is [cs]. *)
Record kmem (N : Z) (s : kst) (bs : list block) (cs : list chunk) : Prop := {
  km_arena : arena N s ;
  km_pool : pool_ok s bs ;
  km_index : forall q, q ∈ pool_pages bs -> q + sizeof_Page <= k_pages s + sizeof_Page * N ;
  km_heap : heap (k_mem s) cs ;
  km_frames : forall c, c ∈ cs -> in_frames s (pool_pages bs) c
}.

(** * The words of the two lists are apart *)
Definition heap_word (cs : list chunk) (x : Z) : Prop :=
  (exists n, n ∈ chunk_head :: (ck_node <$> cs) /\ (x = n \/ x = n + 4)) \/ exists d, d ∈ cs /\ x = ck_addr d.

Definition pool_word (ps : list Z) (a : Z) : Prop :=
  (exists n, n ∈ free_pages_head :: (pg_node <$> ps) /\ (a = n \/ a = n + 4)) \/
  exists q, q ∈ ps /\ (a = pg_flags q \/ a = pg_free_pages q).

Section Apart.
Context (N : Z) (s : kst) (ps : list Z) (cs : list chunk).
Hypothesis Ha : arena N s.
Hypothesis Hps : forall q, q ∈ ps -> is_page (k_pages s) q /\ q + sizeof_Page <= k_pages s + sizeof_Page * N.
Hypothesis Hcs : forall c, c ∈ cs -> k_pt_begin s + VERTUAL_MEM <= ck_addr c /\ ck_ok (chunk_head + 8) c.

(** Where the words of the two structures lie: those of the heap and of its
    payloads above the frames' beginning, those of the pool below it; the globals
    lie below both. *)
Definition high_word (x : Z) : Prop :=
  VERTUAL_MEM <= x /\ x + 4 <= 2 ^ 32 /\
  ((x + 4 <= free_pages_head \/ free_pages_head + 8 <= x) /\ x + 4 - VERTUAL_MEM <= k_pages s \/
   k_pt_begin s + VERTUAL_MEM <= x).

Lemma heap_word_high x : heap_word cs x -> high_word x.
Proof.
  destruct Ha as [[] H1 [H2 H3] H4 H5]. unfold PAGE_SIZE in H5.
  intros [(n & [->|(c & -> & Hc)%list_elem_of_fmap]%elem_of_cons & Hx)|(d & Hd & ->)]; unfold high_word;
    [|destruct (Hcs _ Hc) as (? & ? & ? & ?)|destruct (Hcs _ Hd) as (? & ? & ? & ?)];
    unfold ck_end, ck_node, chunk_node, sizeof_Chunk, VERTUAL_MEM in *; lia.
Qed.

Lemma payload_word_high d x : d ∈ cs -> payload_word d x -> high_word x.
Proof.
  intros Hd [Hx1 Hx2]. destruct Ha as [[] H1 [H2 H3] H4 H5]. destruct (Hcs _ Hd) as (? & ? & ? & ?).
  unfold high_word, ck_end, sizeof_Chunk, sizeof_Page, VERTUAL_MEM in *. lia.
Qed.

Lemma pool_word_at a : pool_word ps a ->
  0 <= a /\ (free_pages_head <= a /\ a + 4 <= free_pages_head + 8 /\ a + 4 <= 2 ^ 32 \/
             k_pages s <= a /\ a + 4 <= k_pt_begin s).
Proof.
  destruct Ha as [[] H1 [H2 H3] H4 H5].
  intros [(n & [->|(q & -> & Hq)%list_elem_of_fmap]%elem_of_cons & Hx)|(q & Hq & Hx)];
    [|destruct (Hps _ Hq) as [(? & ? & ?) ?]..];
    unfold pg_node, pg_flags, pg_free_pages, sizeof_Page, VERTUAL_MEM in *; lia.
Qed.

Lemma words_apart x a : high_word x -> pool_word ps a -> wd x a.
Proof.
  intros Hx Hp%pool_word_at. unfold high_word in Hx. destruct Ha as [[] H1 [H2 H3] H4 H5].
  unfold PAGE_SIZE in H5. unfold wd. rewrite (ka_high x) by lia.
  destruct Hp as [Hp0 [Hp|Hp]]; [rewrite (ka_high a) by lia|rewrite (ka_low a) by (unfold VERTUAL_MEM; lia)];
    unfold VERTUAL_MEM, sizeof_Page in *; lia.
Qed.

Lemma high_word_off_pool x : high_word x -> off_pool ps x.
Proof.
  intros Hx. assert (Hw : forall a, pool_word ps a -> wd a x) by (intros; apply wd_sym; by apply words_apart).
  split.
  - intros n Hn. split; apply Hw; left; exists n; auto.
  - intros q Hq. split; apply Hw; right; exists q; auto.
Qed.

Lemma pool_word_off_heap a : pool_word ps a -> off_heap cs a.
Proof.
  intros Hp. split.
  - intros n Hn. split; apply words_apart; try done; apply heap_word_high; left; exists n; auto.
  - intros d Hd. apply words_apart; [|done]. apply heap_word_high. right. exists d. auto.
Qed.

End Apart.

(** * Frames of the two structures *)
Lemma heap_frame m m' cs : (forall x, heap_word cs x -> rd32 m' x = rd32 m x) -> heap m cs -> heap m' cs.
Proof.
  intros Hf [Hh Hok Hsep Hd Hhdr]. constructor; try done.
  - apply (dlist_frame m); [|done]. intros a (x & Hx & Ha). apply Hf. left. exists x. auto.
  - rewrite Forall_forall in Hhdr |- *. intros c Hc. rewrite Hf; [by apply Hhdr|]. right. exists c. auto.
Qed.

Lemma pool_frame base m m' bs :
  (forall a, pool_word (pool_pages bs) a -> rd32 m' a = rd32 m a) -> pool base m bs -> pool base m' bs.
Proof.
  intros Hf [Hps Hso Hd Hc]. constructor; try done.
  - apply (dlist_frame m); [|done]. intros a (x & Hx & Ha). apply Hf. left. exists x. auto.
  - apply (block_counts_frame m); [|done]. intros q Hq. apply Hf. right. exists q. auto.
Qed.

(** The state but for the memory is the same. *)
Lemma arena_mem N s m : arena N s -> arena N (set_mem m s).
Proof. intros []. by constructor. Qed.

(** The heap changes within its own words. *)
Lemma kmem_heap_step N s bs cs cs' m :
  kmem N s bs cs -> heap m cs' -> (forall c, c ∈ cs' -> in_frames s (pool_pages bs) c) ->
  (forall x, off_heap cs x -> off_heap cs' x -> rd32 m x = rd32 (k_mem s) x) -> kmem N (set_mem m s) bs cs'.
Proof.
  intros [Ha [Hg Hp Hn] Hi Hh Hfr] Hh' Hfr' Hf.
  assert (Hoff : forall l m0, heap m0 l -> (forall c, c ∈ l -> in_frames s (pool_pages bs) c) ->
    forall a, pool_word (pool_pages bs) a -> off_heap l a).
  { intros l m0 Hl Hlf. apply (pool_word_off_heap N s); [done|..].
    - intros q Hq. split; [by apply (pl_pages _ _ _ Hp)|by apply Hi].
    - intros c Hc. split; [by destruct (Hlf c Hc)|]. pose proof (hp_ok _ _ Hl) as Hok. rewrite Forall_forall in Hok. by apply Hok. }
  constructor; [by apply arena_mem|..|exact Hi|exact Hh'|intros c Hc; destruct (Hfr' c Hc); by constructor].
  constructor; [done| |done]. apply (pool_frame _ (k_mem s)); [|done]. intros a Hw.
  apply Hf; [by apply (Hoff cs (k_mem s))|by apply (Hoff cs' m)].
Qed.

(** * What the chunks are made of *)
Lemma in_frames_sub s ps c d : in_frames s ps c -> ck_addr c <= ck_addr d -> ck_end d <= ck_end c -> in_frames s ps d.
Proof. intros [Hl Ha] H1 H2. constructor; [lia|]. intros q Hq. destruct (Ha q Hq); lia. Qed.

Lemma in_frames_incl s ps ps' c : (forall q, q ∈ ps' -> q ∈ ps) -> in_frames s ps c -> in_frames s ps' c.
Proof. intros Hs [Hl Ha]. constructor; [done|]. auto. Qed.

Lemma in_frames_join s ps p c : ck_end p = ck_addr c -> 0 <= ck_size p -> 0 <= ck_size c ->
  in_frames s ps p -> in_frames s ps c -> in_frames s ps (join p c).
Proof.
  intros He Hp Hc [Hl1 Ha1] [Hl2 Ha2]. constructor; [exact Hl1|]. intros q Hq.
  specialize (Ha1 q Hq); specialize (Ha2 q Hq); unfold join, ck_end, PAGE_SIZE, sizeof_Chunk in *; cbn [ck_addr ck_size] in *; lia.
Qed.

Lemma in_frames_eq s s1 ps c : k_pages s1 = k_pages s -> k_pt_begin s1 = k_pt_begin s -> in_frames s ps c -> in_frames s1 ps c.
Proof. intros E1 E2 [H1 H2]. constructor; [by rewrite E2|]. unfold frame_la in *. rewrite E1, E2. exact H2. Qed.

Section Chunks.
Context (s : kst) (ps : list Z).

Definition framed (l : list chunk) : Prop := Forall (fun c => in_frames s ps c /\ 0 <= ck_size c) l.

Lemma framed_place size cs c : 0 <= size -> List.find (ck_fits (sizeof_Chunk + size)) cs = Some c ->
  framed cs -> framed (place size cs).
Proof.
  intros Hsz Hf Hc. pose proof (find_fits _ _ _ Hf) as Hfits. apply find_split in Hf as (l1 & l2 & -> & Hn & Hu & Hfit).
  rewrite place_split by done. unfold framed in *. rewrite Forall_app, Forall_cons in Hc. destruct Hc as (H1 & [H2 H0] & H3).
  rewrite Forall_app, !Forall_cons. split_and!; try done; cbn [ck_size]; try (unfold sizeof_Chunk in *; lia);
    apply (in_frames_sub s ps c); try done; unfold ck_end, sizeof_Chunk in *; cbn [ck_addr ck_size]; lia.
Qed.

Lemma framed_merge_next c l2 : framed (c :: l2) -> framed (merge_next_model c l2).
Proof.
  destruct l2 as [|d l2]; cbn [merge_next_model]; [done|]. destruct (merges c d) eqn:E; [|done].
  unfold framed. rewrite !Forall_cons. intros ([H1 H2] & [H3 H4] & H5). split; [split|done].
  - apply in_frames_join; try done. unfold merges in E. lia.
  - unfold join, sizeof_Chunk. cbn. lia.
Qed.

Lemma framed_free l1 c l2 : framed (l1 ++ c :: l2) -> framed (free_model l1 c l2).
Proof.
  intros Hc. unfold free_model. set (c0 := mk_chunk (ck_addr c) false (ck_size c)).
  assert (H0 : framed (l1 ++ c0 :: l2)).
  { unfold framed in *. rewrite Forall_app, Forall_cons in Hc |- *. destruct Hc as (H1 & [H2 H3] & H4).
    split; [done|]. split; [|done]. split; [|done]. by apply (in_frames_sub s ps c). }
  clearbody c0. clear Hc c. destruct l1 as [|p l1 _] using rev_ind.
  { cbn [merge_prev_model rev]. by apply framed_merge_next. }
  rewrite merge_prev_snoc. destruct (merges p c0) eqn:E; unfold framed in *.
  - rewrite <- app_assoc, Forall_app in H0. destruct H0 as [H1 H0]. rewrite Forall_app. split; [done|].
    apply framed_merge_next. cbn [app] in H0. apply Forall_cons in H0 as [[H2 H3] H0].
    apply Forall_cons in H0 as [[H4 H5] H6]. apply Forall_cons. split; [split|done].
    + apply in_frames_join; try done. unfold merges in E. lia.
    + unfold join, sizeof_Chunk. cbn. lia.
  - rewrite Forall_app in H0 |- *. destruct H0 as [H1 H2]. split; [done|]. by apply framed_merge_next.
Qed.

End Chunks.

Lemma kmem_framed N s bs cs : kmem N s bs cs -> framed s (pool_pages bs) cs.
Proof.
  intros [Ha Hp Hi Hh Hf]. pose proof (hp_ok _ _ Hh) as Hok. unfold framed. rewrite Forall_forall in Hok |- *.
  intros c Hc. split; [by apply Hf|]. destruct (Hok c Hc). lia.
Qed.

(** * Frames in a row *)
Lemma frame_la_add s q i : frame_la s (q + sizeof_Page * i) = frame_la s q + i * PAGE_SIZE.
Proof.
  unfold frame_la, sizeof_Page. replace (q + 24 * i - k_pages s) with (q - k_pages s + i * 24) by lia.
  rewrite Z.div_add by lia. lia.
Qed.

Lemma frame_la_of N s q : arena N s -> is_page (k_pages s) q -> q + sizeof_Page <= k_pages s + sizeof_Page * N ->
  pg_to_addr_la (q + VERTUAL_MEM) s = Ok (frame_la s q) s /\
  k_pt_begin s + VERTUAL_MEM <= frame_la s q /\ frame_la s q + PAGE_SIZE <= k_pt_begin s + N * PAGE_SIZE + VERTUAL_MEM.
Proof.
  intros [[] H1 H2 [H3 H4] H5] (Hq1 & Hq2 & Hq3) Hq. unfold frame_la, sizeof_Page in *.
  set (i := (q - k_pages s) / 24) in *. assert (Ei : q = k_pages s + 24 * i) by (unfold i; lia_div).
  assert (Hi : 0 <= i < N) by lia. unfold PAGE_SIZE, VERTUAL_MEM in *. split; [|lia].
  pose proof (pg_to_addr_la_high s i ltac:(lia) ltac:(lia)) as R. unfold VERTUAL_MEM in R.
  rewrite (w32_small (_ + 3221225472)), (w32_small (i * _ + _ + _)), <- Ei in R by (unfold PAGE_SIZE; lia). exact R.
Qed.

(** A chunk apart from each of [n] consecutive frames is apart from all. *)
Lemma apart_run c la (n : nat) : ck_addr c < ck_end c ->
  (forall i : nat, (i < n)%nat -> ck_end c <= la + Z.of_nat i * PAGE_SIZE \/ la + (Z.of_nat i + 1) * PAGE_SIZE <= ck_addr c) ->
  ck_end c <= la \/ la + Z.of_nat n * PAGE_SIZE <= ck_addr c \/ n = O.
Proof.
  intros Hc. induction n as [|n IH]; [auto|]. intros Hi. destruct IH as [H1|[H1| ->]]; [intros i Hin; apply Hi; lia|auto|..].
  - destruct (Hi n ltac:(lia)); right; left; lia.
  - destruct (Hi O ltac:(lia)); lia.
Qed.

(** The first [n] pages of the pool's first block leave it. *)
Lemma pool_rest s p k rest (n : nat) : pool_ok s ((p, k) :: rest) -> (0 < n < k)%nat ->
  let rest' := ((p + sizeof_Page * Z.of_nat n, (k - n)%nat) :: rest) : list block in
  (forall q, q ∈ pages_from p n ++ pool_pages rest' -> q ∈ pool_pages ((p, k) :: rest)) /\
  forall q, q ∈ pool_pages rest' -> p + sizeof_Page * Z.of_nat n <= q.
Proof.
  intros [Hg Hp _] Hn rest'. pose proof (pool_split_head _ _ _ _ _ n Hp ltac:(lia)) as Hsp. fold rest' in Hsp.
  split; [by rewrite Hsp|]. pose proof (pl_sorted _ _ _ Hp) as Hso. rewrite Hsp in Hso.
  intros q Hq. set (b := p + sizeof_Page * Z.of_nat n) in *.
  assert (Hb : pool_pages rest' = b :: (pages_from (b + sizeof_Page) (k - n - 1) ++ pool_pages rest)).
  { cbn [pool_pages rest']. replace (k - n)%nat with (S (k - n - 1)) at 1 by lia. done. }
  rewrite Hb in Hq, Hso. apply elem_of_cons in Hq as [->|Hq]; [lia|].
  apply StronglySorted_app_1_r in Hso.
  apply StronglySorted_cons in Hso as [Hf _]. rewrite Forall_forall in Hf. specialize (Hf q Hq). lia.
Qed.

(** * [kmalloc] and [free] keep the invariant *)

(** The result, the pool and the heap after [kmalloc]: the first free chunk that
    is large enough is split; else pages of the pool's first block are taken. *)
Definition kmalloc_model (s : kst) (bs : list block) (cs : list chunk) (size : Z) :
    option (Z * list block * list chunk) :=
  let total := sizeof_Chunk + size in let n := Z.to_nat (pages_needed total) in
  match List.find (ck_fits total) cs, bs with
  | Some c, _ => Some (ck_addr c + sizeof_Chunk, bs, place size cs)
  | None, (p, k) :: rest =>
      if decide (n < k)%nat then
        Some (frame_la s p + sizeof_Chunk, (p + sizeof_Page * Z.of_nat n, (k - n)%nat) :: rest,
          cs ++ pages_chunks (frame_la s p) (Z.of_nat n * PAGE_SIZE) size)
      else None
  | None, [] => None
  end.

(** The new chunks are made of the frames taken. *)
Lemma framed_grow N s p k rest (n : nat) size cs :
  kmem N s ((p, k) :: rest) cs -> (0 < n < k)%nat -> 0 <= size -> sizeof_Chunk + size <= Z.of_nat n * PAGE_SIZE ->
  let la := frame_la s p in let rest' := ((p + sizeof_Page * Z.of_nat n, (k - n)%nat) :: rest) : list block in
  fresh_pages cs la (Z.of_nat n * PAGE_SIZE) /\
  framed s (pool_pages rest') (cs ++ pages_chunks la (Z.of_nat n * PAGE_SIZE) size).
Proof.
  intros Hk Hn Hsz Ht la rest'. pose proof (kmem_framed _ _ _ _ Hk) as Hfr. pose proof Hk as [Ha Hp Hi Hh _].
  destruct (pool_rest s p k rest n Hp Hn) as [Hin Hab]. fold rest' in Hin, Hab.
  assert (Hpg : forall q, q ∈ pool_pages ((p, k) :: rest) -> is_page (k_pages s) q) by apply (pl_pages _ _ _ (po_pool _ _ Hp)).
  assert (Hrow : forall i : nat, (i < n)%nat -> p + sizeof_Page * Z.of_nat i ∈ pool_pages ((p, k) :: rest)).
  { intros i Hin'. apply Hin, elem_of_app. left. apply elem_of_pages_from. exists (Z.of_nat i). lia. }
  pose proof (Hrow O ltac:(lia)) as Hp0. rewrite Z.mul_0_r, Z.add_0_r in Hp0.
  destruct (frame_la_of N s p Ha (Hpg _ Hp0) (Hi _ Hp0)) as (_ & Hl & _).
  destruct (frame_la_of N s _ Ha (Hpg _ (Hrow (n - 1)%nat ltac:(lia))) (Hi _ (Hrow (n - 1)%nat ltac:(lia)))) as (_ & _ & Hu).
  rewrite frame_la_add in Hu. fold la in Hl, Hu. destruct Ha as [[] H1 [H2 H3] [H4 H5] H6].
  unfold PAGE_SIZE, VERTUAL_MEM, sizeof_Page in *. split.
  - constructor; [lia|]. intros c Hc. unfold framed in Hfr. rewrite Forall_forall in Hfr. destruct (Hfr c Hc) as [[Hlo Hap] Hcs].
    destruct (apart_run c la n) as [?|[?|?]]; [unfold ck_end, sizeof_Chunk; lia| |left; done|right; done|lia].
    intros i Hin'. pose proof (Hap _ (Hrow i Hin')) as Hx. pose proof (frame_la_add s p (Z.of_nat i)) as E.
    unfold sizeof_Page, PAGE_SIZE in *. rewrite E in Hx. fold la in Hx. lia.
  - unfold framed in *. rewrite Forall_app. split.
    + rewrite Forall_forall in Hfr |- *. intros c Hc. destruct (Hfr c Hc) as [Hx Hcs]. split; [|done].
      apply (in_frames_incl s (pool_pages ((p, k) :: rest))); [|done]. intros q Hq. apply Hin, elem_of_app. by right.
    + assert (Hq : forall q, q ∈ pool_pages rest' -> la + Z.of_nat n * 4096 <= frame_la s q).
      { intros q Hq. pose proof (Hab q Hq) as Hx. unfold la, frame_la, sizeof_Page, PAGE_SIZE.
        assert (Hp1 : is_page (k_pages s) p) by (by apply Hpg). destruct Hp1 as (_ & _ & Hp1). lia_div. }
      unfold pages_chunks. apply Forall_cons. split; [|destruct (Z.ltb_spec sizeof_Chunk (Z.of_nat n * 4096 - (sizeof_Chunk + size)));
        [apply Forall_cons; split; [|by apply Forall_nil]|by apply Forall_nil]];
        (split; [constructor; [|intros q Hq'; specialize (Hq q Hq'); left]|]);
        unfold ck_end, sizeof_Chunk, VERTUAL_MEM in *; cbn [ck_addr ck_size]; lia.
Qed.

Section Calls.
Context (take : Z -> K Z) (quiet : kst -> list Z -> nat -> Prop) {Hsrc : PageSource take quiet}.

(** The words of the pool and of the heap, from the invariant. *)
Lemma kmem_off_pool N s bs cs x : kmem N s bs cs ->
  heap_word cs x \/ (exists d, d ∈ cs /\ payload_word d x) -> off_pool (pool_pages bs) x.
Proof.
  intros [Ha Hp Hi Hh Hfr] Hx.
  assert (Hps : forall q, q ∈ pool_pages bs -> is_page (k_pages s) q /\ q + sizeof_Page <= k_pages s + sizeof_Page * N).
  { intros q Hq. split; [by apply (pl_pages _ _ _ (po_pool _ _ Hp))|by apply Hi]. }
  assert (Hcs : forall c, c ∈ cs -> k_pt_begin s + VERTUAL_MEM <= ck_addr c /\ ck_ok (chunk_head + 8) c).
  { intros c Hc. split; [apply (Hfr c Hc)|]. pose proof (hp_ok _ _ Hh) as Hok. rewrite Forall_forall in Hok. by apply Hok. }
  apply (high_word_off_pool N s _ Ha Hps). destruct Hx as [Hx|(d & Hd & Hx)].
  - by apply (heap_word_high N s cs Ha Hcs).
  - by apply (payload_word_high N s cs Ha Hcs d).
Qed.

(** The words the two structures are made of, and those they leave to others:
    the payloads of the chunks, the frames in neither, the other globals. *)
Definition meta_word (bs : list block) (cs : list chunk) (w : Z) : Prop := heap_word cs w \/ pool_word (pool_pages bs) w.
Definition client_word (bs : list block) (cs : list chunk) (x : Z) : Prop := off_heap cs x /\ off_pool (pool_pages bs) x.

Lemma heap_off_wd cs w x : heap_word cs w -> off_heap cs x -> wd w x.
Proof. intros [(n & Hn & [-> | ->])|(d & Hd & ->)] [H1 H2]; [apply (H1 n Hn)|apply (H1 n Hn)|by apply H2]. Qed.

Lemma pool_off_wd ps w x : pool_word ps w -> off_pool ps x -> wd w x.
Proof.
  intros [(n & Hn & [-> | ->])|(q & Hq & [-> | ->])] [H1 H2]; [apply (H1 n Hn)|apply (H1 n Hn)|apply (H2 q Hq)|apply (H2 q Hq)].
Qed.

Lemma meta_client_wd bs cs w x : meta_word bs cs w -> client_word bs cs x -> wd w x.
Proof. intros [Hw|Hw] [H1 H2]; [by apply (heap_off_wd cs)|by apply (pool_off_wd (pool_pages bs))]. Qed.

Lemma kmem_ext N s bs cs m : kmem N s bs cs ->
  (forall w, meta_word bs cs w -> rd32 m w = rd32 (k_mem s) w) -> kmem N (set_mem m s) bs cs.
Proof.
  intros [Ha [Hg Hp Hn] Hi Hh Hfr] Hf.
  constructor; [by apply arena_mem|constructor; [done| |done]|exact Hi| |intros c Hc; destruct (Hfr c Hc); by constructor].
  - apply (pool_frame _ (k_mem s)); [|done]. intros a Hw. apply Hf. by right.
  - apply (heap_frame (k_mem s)); [|done]. intros a Hw. apply Hf. by left.
Qed.

Lemma kmem_wr32 N s bs cs x v : kmem N s bs cs -> client_word bs cs x -> kmem N (set_mem (wr32 (k_mem s) x v) s) bs cs.
Proof.
  intros Hk Hx. apply kmem_ext; [done|]. intros w Hw. apply rd32_wr32_ne, wd_sym. by apply (meta_client_wd bs cs).
Qed.

(** Only the memory, the count and the two addresses matter. *)
Lemma kmem_same N s s' bs cs : k_mem s' = k_mem s -> k_pages s' = k_pages s -> k_pt_begin s' = k_pt_begin s ->
  k_free_page_num s' = k_free_page_num s -> kmem N s bs cs -> kmem N s' bs cs.
Proof.
  intros E1 E2 E3 E4 [Ha [Hg Hp Hn] Hi Hh Hfr].
  constructor; [destruct Ha; constructor; by rewrite ?E2, ?E3|constructor; by rewrite ?E1, ?E2, ?E4|by rewrite E2|by rewrite E1|].
  intros c Hc. by apply (in_frames_eq s), Hfr.
Qed.

Lemma payload_client N s bs cs d x : kmem N s bs cs -> d ∈ cs -> payload_word d x -> client_word bs cs x.
Proof.
  intros Hk Hd Hx. split; [eapply payload_off_heap; [apply Hk|exact Hd|exact Hx]|].
  eapply kmem_off_pool; [exact Hk|right; by exists d].
Qed.

(** A word of a frame no chunk has. *)
Lemma frame_client N s bs cs x : kmem N s bs cs -> k_pt_begin s + VERTUAL_MEM <= x -> x + 4 <= 2 ^ 32 ->
  (forall c, c ∈ cs -> x + 4 <= ck_addr c \/ ck_end c <= x) -> client_word bs cs x.
Proof.
  intros [Ha Hp Hi Hh Hfr] Hlo Hhi Hap. pose proof (hp_low _ _ Hh) as [Hl1 Hl2].
  pose proof (hp_ok _ _ Hh) as Hok. rewrite Forall_forall in Hok.
  assert (Hc : forall c, c ∈ cs -> VERTUAL_MEM <= ck_addr c /\ ck_addr c + 12 <= ck_end c /\ ck_end c < 2 ^ 32).
  { intros c Hc. destruct (Hok c Hc) as (? & ? & ?). unfold ck_end, sizeof_Chunk in *. lia. }
  assert (Hbase : chunk_head + 8 <= x).
  { destruct Ha as [[] ? ? ?]. unfold sizeof_Page in *. lia. }
  split.
  - split.
    + intros n [->|(c & -> & Hn)%list_elem_of_fmap]%elem_of_cons.
      * unfold wd. rewrite !ka_high by (unfold VERTUAL_MEM in *; lia). lia.
      * destruct (Hc c Hn), (Hap c Hn); unfold wd, ck_node, chunk_node; rewrite !ka_high by (unfold VERTUAL_MEM in *; lia); lia.
    + intros c Hn. destruct (Hc c Hn), (Hap c Hn); unfold wd; rewrite !ka_high by (unfold VERTUAL_MEM in *; lia); lia.
  - eapply (high_word_off_pool N s (pool_pages bs)); [done| |].
    + intros q Hq. split; [by apply (pl_pages _ _ _ (po_pool _ _ Hp))|by apply Hi].
    + unfold high_word. lia.
Qed.

(** A global of the kernel that is neither of the two list heads. *)
Lemma global_client N s bs cs x : kmem N s bs cs -> VERTUAL_MEM <= x -> x + 4 - VERTUAL_MEM <= k_pages s ->
  x + 4 <= chunk_head \/ chunk_head + 8 <= x -> x + 4 <= free_pages_head \/ free_pages_head + 8 <= x -> client_word bs cs x.
Proof.
  intros [Ha Hp Hi Hh Hfr] Hlo Hhi Hc Hf. pose proof Ha as [[] H1 [H2 H3] [H4 H5] H6].
  pose proof (hp_ok _ _ Hh) as Hok. rewrite Forall_forall in Hok. unfold PAGE_SIZE, sizeof_Page in *.
  assert (Hck : forall c, c ∈ cs -> k_pt_begin s + VERTUAL_MEM <= ck_addr c /\ ck_end c < 2 ^ 32).
  { intros c Hc'. destruct (Hok c Hc') as (? & ? & ?). by destruct (Hfr c Hc'). }
  assert (Hx : ka x = x - VERTUAL_MEM) by (apply ka_high; unfold VERTUAL_MEM in *; lia).
  split; [split|].
  - intros n [->|(c & -> & Hn)%list_elem_of_fmap]%elem_of_cons; unfold wd; rewrite Hx.
    + rewrite !ka_high by (unfold VERTUAL_MEM in *; lia). lia.
    + destruct (Hok c Hn) as (? & ? & ?), (Hck c Hn). unfold ck_node, chunk_node, ck_end, sizeof_Chunk in *.
      rewrite !ka_high by (unfold VERTUAL_MEM in *; lia). unfold VERTUAL_MEM in *. lia.
  - intros c Hn. destruct (Hok c Hn) as (? & ? & ?), (Hck c Hn). unfold wd, ck_end, sizeof_Chunk in *. rewrite Hx.
    rewrite ka_high by (unfold VERTUAL_MEM in *; lia). unfold VERTUAL_MEM in *. lia.
  - apply (high_word_off_pool N s); [done| |].
    + intros q Hq. split; [by apply (pl_pages _ _ _ (po_pool _ _ Hp))|by apply Hi].
    + unfold high_word, VERTUAL_MEM in *. lia.
Qed.

(** Taking pages leaves the heap. *)
Lemma alloc_keeps_heap N s p k rest n cs :
  kmem N s ((p, k) :: rest) cs -> (0 < n < k)%nat -> quiet s (pool_pages ((p, k) :: rest)) n ->
  exists s1, take (Z.of_nat n) s = Ok (p + VERTUAL_MEM) s1 /\ pool_step s s1 /\
    pool_ok s1 ((p + sizeof_Page * Z.of_nat n, (k - n)%nat) :: rest) /\ heap (k_mem s1) cs /\
    pg_to_addr_la (p + VERTUAL_MEM) s1 = Ok (frame_la s p) s1 /\
    forall x, off_pool (pool_pages ((p, k) :: rest)) x -> rd32 (k_mem s1) x = rd32 (k_mem s) x.
Proof.
  intros Hk Hn Hv. pose proof Hk as [Ha Hp Hi Hh _].
  destruct (take_front s p k rest n Hp Hn Hv) as (s1 & R & Hst & Hp1 & F).
  exists s1. assert (Hp0 : p ∈ pool_pages ((p, k) :: rest)) by (destruct k; [lia|]; cbn [pool_pages pages_from app]; left).
  assert (Ha1 : arena N s1) by (destruct Ha; rewrite Hst; by constructor).
  assert (E : k_pages s1 = k_pages s /\ k_pt_begin s1 = k_pt_begin s) by (by rewrite Hst). destruct E as [E1 E2].
  split_and!; try done.
  - apply (heap_frame (k_mem s)); [|done]. intros x Hx. apply F. eapply kmem_off_pool; [exact Hk|by left].
  - destruct (frame_la_of N s1 p Ha1) as [E _]; rewrite ?E1;
      [by apply (pl_pages _ _ _ (po_pool _ _ Hp))|by apply Hi|].
    rewrite E. unfold frame_la. by rewrite E1, E2.
Qed.

(** The pages taken are a region of their own, and the rest keeps the invariant. *)
Lemma kmem_alloc N s p k rest n cs :
  kmem N s ((p, k) :: rest) cs -> (0 < n < k)%nat -> quiet s (pool_pages ((p, k) :: rest)) n ->
  let la := frame_la s p in
  exists s1, take (Z.of_nat n) s = Ok (p + VERTUAL_MEM) s1 /\ pool_step s s1 /\
    kmem N s1 ((p + sizeof_Page * Z.of_nat n, (k - n)%nat) :: rest) cs /\
    pg_to_addr_la (p + VERTUAL_MEM) s1 = Ok la s1 /\ fresh_pages cs la (Z.of_nat n * PAGE_SIZE) /\
    k_pt_begin s + VERTUAL_MEM <= la /\ 0 < p + VERTUAL_MEM /\
    forall x, off_pool (pool_pages ((p, k) :: rest)) x -> rd32 (k_mem s1) x = rd32 (k_mem s) x.
Proof.
  intros Hk Hn Hv la. pose proof Hk as [Ha Hp Hi Hh Hfr].
  destruct (alloc_keeps_heap N s p k rest n cs Hk Hn Hv) as (s1 & R & Hst & Hp1 & Hh1 & Hla & F1).
  destruct (framed_grow N s p k rest n 0 cs Hk Hn ltac:(lia)) as [Hfresh _]; [unfold sizeof_Chunk, PAGE_SIZE; lia|].
  assert (E : k_pages s1 = k_pages s /\ k_pt_begin s1 = k_pt_begin s) by (by rewrite Hst). destruct E as [E1 E2].
  pose proof (proj1 (pool_rest s p k rest n Hp Hn)) as Hsub.
  assert (Hp0 : p ∈ pool_pages ((p, k) :: rest)) by (destruct k; [lia|]; cbn [pool_pages pages_from app]; left).
  destruct (frame_la_of N s p Ha) as (_ & Hlo & _); [by apply (pl_pages _ _ _ (po_pool _ _ Hp))|by apply Hi|].
  exists s1. split; [exact R|]. split; [exact Hst|]. split; [|split; [exact Hla|split; [exact Hfresh|split; [exact Hlo|split; [|exact F1]]]]].
  - constructor; [destruct Ha; constructor; by rewrite ?E1, ?E2|exact Hp1| |exact Hh1|].
    + rewrite E1. intros q Hq. apply Hi, Hsub, elem_of_app. by right.
    + intros c Hc. apply (in_frames_eq s); [done..|]. eapply in_frames_incl; [|by apply Hfr].
      intros q Hq. apply Hsub, elem_of_app. by right.
  - destruct (pl_pages _ _ _ (po_pool _ _ Hp) p Hp0) as [? _]. destruct Ha as [[] _ _ _ _]. unfold VERTUAL_MEM. lia.
Qed.

(** The two ways of [kmalloc]. *)
Definition kmem_step (N : Z) (s s' : kst) (ps : list Z) (bs : list block) (cs cs' : list chunk) : Prop :=
  pool_step s s' /\ kmem N s' bs cs' /\ (forall d, d ∈ cs -> ck_used d = true -> d ∈ cs') /\
  forall x, off_heap cs' x -> off_pool ps x -> rd32 (k_mem s') x = rd32 (k_mem s) x.

Lemma kmalloc_reuse N s bs cs size fuel c :
  kmem N s bs cs -> 0 <= size < 2 ^ 30 -> (length cs < fuel)%nat -> List.find (ck_fits (sizeof_Chunk + size)) cs = Some c ->
  exists m', malloc take fuel size s = Ok (ck_addr c + sizeof_Chunk) (set_mem m' s) /\
    kmem_step N s (set_mem m' s) (pool_pages bs) bs cs (place size cs).
Proof.
  intros Hk Hsz Hf Hfind. pose proof Hk as [_ _ _ Hh _].
  destruct (malloc_reuse_run take s cs size c fuel Hh ltac:(lia) Hf Hfind) as (m' & R & Hh' & F).
  exists m'. split; [exact R|]. split; [by destruct s|]. split.
  - apply (kmem_heap_step N s bs cs); try done; [|intros x _; apply F]. pose proof (framed_place s _ size cs c ltac:(lia) Hfind (kmem_framed _ _ _ _ Hk)) as Hfp.
    unfold framed in Hfp. rewrite Forall_forall in Hfp. intros d Hd. by apply Hfp.
  - split; [|intros x Hx _; by apply F]. intros d Hd Hu.
    pose proof (find_fits _ _ _ Hfind) as Hfits. apply find_split in Hfind as (l1 & l2 & -> & Hn & Hu' & _).
    rewrite place_split by done. apply elem_of_app in Hd as [Hd|[->|Hd]%elem_of_cons]; [elt|congruence|elt].
Qed.

Lemma kmalloc_grow N s p k rest cs size fuel :
  let total := sizeof_Chunk + size in let n := Z.to_nat (pages_needed total) in
  kmem N s ((p, k) :: rest) cs -> 0 <= size < 2 ^ 30 -> (length cs < fuel)%nat ->
  quiet s (pool_pages ((p, k) :: rest)) n -> List.find (ck_fits total) cs = None -> (n < k)%nat ->
  exists s', malloc take fuel size s = Ok (frame_la s p + sizeof_Chunk) s' /\
    kmem_step N s s' (pool_pages ((p, k) :: rest)) ((p + sizeof_Page * Z.of_nat n, (k - n)%nat) :: rest) cs
      (cs ++ pages_chunks (frame_la s p) (Z.of_nat n * PAGE_SIZE) size).
Proof.
  intros total n Hk Hsz Hf Hv Hfind Hn. pose proof Hk as [Ha Hp Hi Hh Hfr].
  destruct (pages_needed_bound total) as [Hpos Hb]; [unfold total, sizeof_Chunk; lia|].
  assert (En : Z.of_nat n = pages_needed total) by lia.
  destruct (kmem_alloc N s p k rest n cs Hk) as (s1 & R & Hst & Hk1 & Hla & Hfresh & _ & _ & F1); [lia|exact Hv|].
  destruct (framed_grow N s p k rest n size cs Hk ltac:(lia) ltac:(lia)) as [_ Hfr']; [unfold total in *; lia|].
  assert (Hn31 : pages_needed total * PAGE_SIZE < 2 ^ 31) by (unfold total, sizeof_Chunk, PAGE_SIZE in *; lia).
  rewrite En in R, Hfresh.
  destruct (malloc_grow_run take s s1 (p + VERTUAL_MEM) (frame_la s p) cs size fuel Hh ltac:(lia)
    Hn31 Hf Hfind R Hla (km_heap _ _ _ _ Hk1) Hfresh) as (m' & R' & Hh' & F').
  fold total in R', Hh', F'. rewrite <- En in Hh', F'. exists (set_mem m' s1).
  assert (E : k_pages s1 = k_pages s /\ k_pt_begin s1 = k_pt_begin s) by (by rewrite Hst). destruct E as [E1 E2].
  split; [exact R'|]. split; [rewrite Hst; by destruct s|]. split.
  - apply (kmem_heap_step N s1 _ cs); [exact Hk1|exact Hh'| |intros x _; apply F'].
    intros c Hc. unfold framed in Hfr'. rewrite Forall_forall in Hfr'. destruct (Hfr' c Hc) as [Hin _].
    by apply (in_frames_eq s).
  - split; [intros d Hd _; apply elem_of_app; by left|]. intros x Hx Hox. rewrite <- (F1 x Hox). by apply F'.
Qed.

Lemma kmalloc_run N s bs cs size fuel r bs' cs' :
  kmem N s bs cs -> 0 <= size < 2 ^ 30 -> (length cs < fuel)%nat ->
  (List.find (ck_fits (sizeof_Chunk + size)) cs = None ->
    quiet s (pool_pages bs) (Z.to_nat (pages_needed (sizeof_Chunk + size)))) ->
  kmalloc_model s bs cs size = Some (r, bs', cs') ->
  exists s', malloc take fuel size s = Ok r s' /\ kmem_step N s s' (pool_pages bs) bs' cs cs'.
Proof.
  intros Hk Hsz Hf Hv Hm. unfold kmalloc_model in Hm. destruct (List.find _ cs) as [c|] eqn:Hfind.
  - injection Hm as <- <- <-. destruct (kmalloc_reuse N s bs cs size fuel c Hk Hsz Hf Hfind) as (m' & R & K). by exists (set_mem m' s).
  - destruct bs as [|[p k] rest]; [done|]. destruct (decide _) as [Hn|]; [|done]. injection Hm as <- <- <-.
    apply kmalloc_grow; auto.
Qed.

End Calls.

(** No user page is in the queue of the replacement, and its head is a word of its own. *)
Definition queue_empty (s : kst) (bs : list block) : Prop :=
  let q := mm_vm_fifo (k_mm s) in rd32 (k_mem s) (node_next q) = q /\ off_pool (pool_pages bs) (node_next q).

(** Then [swap_out] has nothing to do. *)
Lemma queue_empty_quiet s bs n fuel : queue_empty s bs -> (0 < fuel)%nat ->
  alloc_quiet (swap_out fuel) s (pool_pages bs) n.
Proof.
  intros [Hq Hoff] Hf. right. right. intros s1 _ F. destruct fuel as [|fuel]; [lia|].
  unfold swap_out. cbn [swap_out_loop]. krun. rewrite F, Hq, Z.eqb_refl by done. done.
Qed.

Section Services.
Context (fuel : nat).

Lemma kmalloc_quiet s bs cs size : 0 <= size < 2 ^ 30 -> (0 < fuel)%nat ->
  List.find (ck_fits (sizeof_Chunk + size)) cs <> None \/ k_is_vmm_inited s <> 1 \/
    PAGE_SIZE < sizeof_Chunk + size \/ queue_empty s bs ->
  List.find (ck_fits (sizeof_Chunk + size)) cs = None ->
  alloc_quiet (swap_out fuel) s (pool_pages bs) (Z.to_nat (pages_needed (sizeof_Chunk + size))).
Proof.
  intros Hsz Hf [Hv|[Hv|[Hv|Hv]]] Hn; [done|by left| |by apply queue_empty_quiet].
  right. left. destruct (pages_needed_bound (sizeof_Chunk + size)); unfold sizeof_Chunk, PAGE_SIZE in *; lia.
Qed.

(** C8: [kmalloc] of less than 2^30 bytes, when a free chunk fits or, if none does, the
    first run of free pages is longer than the pages needed and nothing has to be
    evicted for them (memory management is off, more than one page is needed, or the
    queue of the replacement is empty): the request is served with a chunk of the heap
    of the requested size, the pool and the heap stay apart and well formed, and no
    payload of a block in use changes. *)
Theorem kmalloc_keeps N s bs cs size r bs' cs' :
  kmem N s bs cs -> 0 <= size < 2 ^ 30 -> (length cs < fuel)%nat ->
  List.find (ck_fits (sizeof_Chunk + size)) cs <> None \/ k_is_vmm_inited s <> 1 \/
    PAGE_SIZE < sizeof_Chunk + size \/ queue_empty s bs ->
  kmalloc_model s bs cs size = Some (r, bs', cs') ->
  exists s', malloc (kalloc_page fuel) fuel size s = Ok r s' /\ pool_step s s' /\ kmem N s' bs' cs' /\
    (exists c, c ∈ cs' /\ ck_used c = true /\ ck_size c = size /\ r = ck_addr c + sizeof_Chunk) /\
    forall d, d ∈ cs -> ck_used d = true -> forall x, payload_word d x -> rd32 (k_mem s') x = rd32 (k_mem s) x.
Proof.
  intros Hk Hsz Hf Hv Hm. pose proof (alloc_page_source (swap_out fuel) fuel ltac:(lia)) as Hsrc.
  destruct (kmalloc_run (kalloc_page fuel) _ N s bs cs size fuel r bs' cs' Hk Hsz Hf (kmalloc_quiet _ _ _ _ Hsz ltac:(lia) Hv) Hm) as (s' & R & Hst & Hk' & Hin & F).
  exists s'. split_and!; try done; [|intros d Hd Hu x Hx; apply F; [eapply payload_off_heap; [apply Hk'|by apply Hin|exact Hx]|
    eapply kmem_off_pool; [exact Hk|right; by exists d]]]. unfold kmalloc_model in Hm. destruct (List.find _ cs) as [c|] eqn:Hfind.
  - injection Hm as <- <- <-. pose proof (find_fits _ _ _ Hfind) as Hfits. apply find_split in Hfind as (l1 & l2 & -> & Hn & _).
    rewrite place_split by done. exists (mk_chunk (ck_addr c) true size). split_and!; try done. elt.
  - destruct bs as [|[p k] rest]; [done|]. destruct (decide _) as [Hn|]; [|done]. injection Hm as <- <- <-.
    eexists. split; [apply elem_of_app; right; left|]. done.
Qed.

Lemma kfree_run N s bs l1 c l2 :
  kmem N s bs (l1 ++ c :: l2) -> ck_used c = true ->
  exists m', free (ck_addr c + sizeof_Chunk) s = Ok tt (set_mem m' s) /\ kmem N (set_mem m' s) bs (free_model l1 c l2) /\
    forall x, off_heap (l1 ++ c :: l2) x -> rd32 m' x = rd32 (k_mem s) x.
Proof.
  intros Hk Hu. pose proof Hk as [Ha Hp Hi Hh _]. destruct (free_spec s l1 c l2 Hh Hu) as (m' & R & Hh' & F).
  exists m'. split; [exact R|]. split; [|exact F].
  pose proof (framed_free _ _ _ _ _ (kmem_framed _ _ _ _ Hk)) as Hfr. unfold framed in Hfr. rewrite Forall_forall in Hfr.
  apply (kmem_heap_step N s bs (l1 ++ c :: l2)); [done|done|intros d Hd; by apply Hfr|]. intros x Hx _. by apply F.
Qed.

(** C9: [free] of a block in use marks its chunk free and merges it with its free
    neighbours; the pool is untouched, pool and heap stay apart and well formed, and no
    payload changes. *)
Theorem kfree_keeps N s bs l1 c l2 :
  kmem N s bs (l1 ++ c :: l2) -> ck_used c = true ->
  exists m', free (ck_addr c + sizeof_Chunk) s = Ok tt (set_mem m' s) /\ kmem N (set_mem m' s) bs (free_model l1 c l2) /\
    forall d, d ∈ l1 ++ c :: l2 -> forall x, payload_word d x -> rd32 m' x = rd32 (k_mem s) x.
Proof.
  intros Hk Hu. destruct (kfree_run N s bs l1 c l2 Hk Hu) as (m' & R & Hk' & F).
  exists m'. split; [exact R|]. split; [exact Hk'|]. intros d Hd x Hx. apply F. by eapply payload_off_heap; [apply Hk|..].
Qed.

(** * The start *)

(** Stores within the payload of a chunk. *)
Lemma kmem_payload N s bs cs d m : kmem N s bs cs -> d ∈ cs ->
  (forall x, (forall p, payload_word d p -> wd p x) -> rd32 m x = rd32 (k_mem s) x) -> kmem N (set_mem m s) bs cs.
Proof.
  intros Hk Hd Hf. apply kmem_ext; [done|]. intros w Hw. apply Hf. intros x Hx. apply wd_sym.
  apply (meta_client_wd bs cs); [done|]. by apply (payload_client N s bs cs d).
Qed.

(** The empty heap beside the pool. *)
Lemma heap_start N s bs : arena N s -> pool_ok s bs ->
  (forall q, q ∈ pool_pages bs -> q + sizeof_Page <= k_pages s + sizeof_Page * N) ->
  exists m', malloc_init s = Ok tt (set_mem m' s) /\ kmem N (set_mem m' s) bs [].
Proof.
  intros Ha [Hg Hp Hnum] Hidx. pose proof Ha as [_ H1 [H2 H3] [H4 H5] H6].
  assert (Hlow : VERTUAL_MEM <= chunk_head /\ chunk_head + 8 < 2 ^ 32).
  { destruct Hg. unfold PAGE_SIZE, VERTUAL_MEM, sizeof_Page in *. lia. }
  pose proof (heap_nodes_sep [] Hlow (Forall_nil_2 _) I) as Hns. cbn [fmap list_fmap] in Hns.
  destruct (list_init_spec (k_mem s) chunk_head Hns) as [Hd F].
  exists (list_init chunk_head (k_mem s)). split; [unfold malloc_init; by krun|].
  constructor; [by apply arena_mem| |exact Hidx|by constructor|by intros c ?%elem_of_nil].
  constructor; [done| |done]. apply (pool_frame _ (k_mem s)); [|done]. intros a Hw. apply F.
  apply (pool_word_off_heap N s (pool_pages bs) []); [done|..|by intros c ?%elem_of_nil|done].
  intros q Hq. split; [by apply (pl_pages _ _ _ Hp)|by apply Hidx].
Qed.

(** The pool of all pages and the empty heap. *)
Lemma pool_start s (n : nat) : arena (Z.of_nat n) s -> (0 < n)%nat ->
  exists s', (page_init_pool (Z.of_nat n);; malloc_init) s = Ok tt s' /\ kmem (Z.of_nat n) s' [(k_pages s, n)] [] /\
    s' = set_free_page_num (Z.of_nat n) (set_mem (k_mem s') s).
Proof.
  intros Ha Hn. pose proof Ha as [Hg H1 [H2 H3] [H4 H5] H6].
  destruct (page_init_pool_run s n Hg Hn) as (s1 & R & Hp & Hst); [unfold PAGE_SIZE in *; lia|].
  assert (E : k_pages s1 = k_pages s /\ k_pt_begin s1 = k_pt_begin s) by (by rewrite Hst). destruct E as [E1 E2].
  destruct (heap_start (Z.of_nat n) s1 [(k_pages s, n)]) as (m' & R' & Hk); [constructor; by rewrite ?E1, ?E2|exact Hp| |].
  { rewrite E1. cbn [pool_pages]. rewrite app_nil_r. intros q (i & Hi & ->)%elem_of_pages_from. unfold sizeof_Page. lia. }
  exists (set_mem m' s1). split; [|split; [exact Hk|rewrite Hst; by destruct s]].
  unfold mbind, K_bind. by rewrite R, R'.
Qed.

(** A new address space in the payload of [d]. *)
Lemma create_mm_memory N s bs cs d pd : kmem N s bs cs -> d ∈ cs -> ck_size d = sizeof_mm -> 0 <= pd < 2 ^ 32 ->
  let mm := ck_addr d + sizeof_Chunk in
  let m := list_init (mm_vm_fifo mm) (list_init (mm_node mm)
    (wr32 (wr32 (wr32 (k_mem s) (mm_num mm) 0) (mm_pde mm) pd) (mm_cache mm) NULL)) in
  kmem N (set_mem m s) bs cs /\ areas m mm [] /\ dlist m (mm_vm_fifo mm) [] /\ rd32 m (mm_pde mm) = pd /\
  rd32 m (mm_cache mm) = NULL /\ rd32 m (mm_num mm) = 0.
Proof.
  intros Hk Hd Hsz Hpd mm m. pose proof Hk as [Ha _ _ Hh Hfr]. pose proof (hp_ok _ _ Hh) as Hok. rewrite Forall_forall in Hok.
  destruct (Hok d Hd) as (Hlo & _ & Hend). pose proof (hp_low _ _ Hh) as [Hv _].
  unfold ck_end in Hend. rewrite Hsz in Hend.
  assert (Hmm : VERTUAL_MEM <= mm /\ mm + 28 < 2 ^ 32) by (unfold mm, sizeof_Chunk, sizeof_mm in *; lia).
  assert (Hns : forall h, h = mm + 12 \/ h = mm + 20 -> nodes_sep [h]).
  { intros h Hh'. assert (Hw : wd (h + 4) h) by (unfold wd, VERTUAL_MEM in *; rewrite !ka_high by (unfold VERTUAL_MEM; lia); lia).
    constructor; [apply NoDup_singleton|intros x ->%list_elem_of_singleton; unfold VERTUAL_MEM in *; lia|..];
      intros x y ->%list_elem_of_singleton ->%list_elem_of_singleton; done. }
  set (m0 := wr32 (wr32 (wr32 (k_mem s) (mm_num mm) 0) (mm_pde mm) pd) (mm_cache mm) NULL) in *.
  destruct (list_init_spec m0 (mm_node mm) (Hns _ (or_introl eq_refl))) as [D1 F1].
  destruct (list_init_spec (list_init (mm_node mm) m0) (mm_vm_fifo mm) (Hns _ (or_intror eq_refl))) as [D2 F2].
  assert (Hka : forall i, 0 <= i < 28 -> ka (mm + i) = mm + i - VERTUAL_MEM) by (intros; apply ka_high; lia).
  assert (Hoff : forall h i, h = 12 \/ h = 20 -> 0 <= i <= 24 -> i + 4 <= h \/ h + 8 <= i -> off_nodes [mm + h] (mm + i)).
  { intros h i Hh' Hi Hc x ->%list_elem_of_singleton. unfold wd. rewrite <- !Z.add_assoc, !Hka by lia. lia. }
  assert (Hlow : forall i, 0 <= i <= 8 -> rd32 m (mm + i) = rd32 m0 (mm + i)).
  { intros i Hi. unfold m. rewrite F2, F1 by (apply Hoff; lia). done. }
  assert (Hwd : forall i j, 0 <= i <= 8 -> 0 <= j <= 8 -> i + 4 <= j \/ j + 4 <= i -> wd (mm + i) (mm + j))
    by (intros; unfold wd; rewrite !Hka by lia; lia).
  rewrite <- (Z.add_0_r (mm_pde mm)). unfold mm_pde, mm_cache, mm_num, mm_node, mm_vm_fifo in *. split; [|split; [|split]].
  - apply (kmem_payload N s bs cs d); [done|done|]. intros x Hx.
    assert (Hp : forall i, 0 <= i <= 24 -> wd (mm + i) x).
    { intros i Hi. apply Hx. unfold payload_word, ck_end. rewrite Hsz. unfold mm, sizeof_mm. lia. }
    assert (Hh12 : forall h, h = 12 \/ h = 20 -> off_nodes [mm + h] x).
    { intros h Hh' y ->%list_elem_of_singleton. rewrite <- Z.add_assoc. split; apply Hp; lia. }
    unfold m. rewrite F2, F1 by (apply Hh12; auto). unfold m0.
    rewrite !rd32_wr32_ne; [done|apply (Hp 8); lia|rewrite <- (Z.add_0_r mm); apply Hp; lia|apply (Hp 4); lia].
  - constructor; [unfold VERTUAL_MEM, sizeof_mm in *; lia|by intros a ?%elem_of_nil| |by intros a ?%elem_of_nil].
    apply (dlist_frame (list_init (mm + 12) m0)); [|exact D1]. intros a (x & ->%list_elem_of_singleton & Hx).
    unfold m. apply F2. unfold mm_node in Hx. destruct Hx as [-> | ->]; [|rewrite <- Z.add_assoc]; apply Hoff; lia.
  - exact D2.
  - rewrite !Hlow by lia. unfold m0. rewrite (rd32_wr32_ne _ _ (mm + 0)), Z.add_0_r by (apply Hwd; lia).
    split; [by apply rd32_wr32_small|split; [by apply rd32_wr32_small|]].
    rewrite (rd32_wr32_ne _ (mm + 4)) by (apply Hwd; lia).
    rewrite (rd32_wr32_ne _ mm) by (rewrite <- (Z.add_0_r mm) at 1; apply Hwd; lia). by apply rd32_wr32_small.
Qed.

(** C10: [malloc_init] and then [vmm_init], over the pool that [page_init] leaves,
    whatever pages its mapping loop has taken for tables, as long as the first run has
    two pages or more: one page is taken from the front of the pool, the heap lies on
    the frame of that page and holds the address space of the kernel, which has the
    kernel's directory, no areas and no page in its queue; pool and heap are well formed
    and apart, and the manager counts as started. *)
Theorem memory_start N s q k bs :
  arena N s -> pool_ok s ((q, k) :: bs) ->
  (forall p, p ∈ pool_pages ((q, k) :: bs) -> p + sizeof_Page <= k_pages s + sizeof_Page * N) ->
  (1 < k)%nat -> (0 < fuel)%nat -> k_is_vmm_inited s <> 1 -> 0 <= k_pd s < 2 ^ 32 ->
  let la := frame_la s q in let mm := la + sizeof_Chunk in
  exists s', (malloc_init;; vmm_init (kalloc_page fuel) fuel) s = Ok tt s' /\
    kmem N s' ((q + sizeof_Page, (k - 1)%nat) :: bs) [mk_chunk la true 28; mk_chunk (la + 40) false 4044] /\
    k_mm s' = mm /\ k_is_vmm_inited s' = 1 /\ areas (k_mem s') mm [] /\ dlist (k_mem s') (mm_vm_fifo mm) [] /\
    rd32 (k_mem s') (mm_pde mm) = k_pd s.
Proof.
  intros Ha Hp Hidx Hn Hf Hv Hpd la mm. destruct (heap_start N s _ Ha Hp Hidx) as (m1 & R1 & Hk1).
  set (s1 := set_mem m1 s) in *. pose proof (alloc_page_source (swap_out fuel) fuel Hf) as Hsrc.
  destruct (kmalloc_run (kalloc_page fuel) _ N s1 ((q, k) :: bs) [] sizeof_mm fuel (la + sizeof_Chunk)
    ((q + sizeof_Page, (k - 1)%nat) :: bs) [mk_chunk la true 28; mk_chunk (la + 40) false 4044] Hk1) as (s2 & R2 & Hst2 & Hk2 & _ & _).
  - unfold sizeof_mm. lia.
  - done.
  - intros _. by left.
  - unfold kmalloc_model. cbn [List.find]. change (Z.to_nat _) with 1%nat. rewrite decide_True by lia.
    change (frame_la s1 q) with la. by replace (q + sizeof_Page * Z.of_nat 1) with (q + sizeof_Page) by lia.
  - destruct (create_mm_memory N s2 _ _ (mk_chunk la true 28) (k_pd s) Hk2) as (Hk3 & A & D & E1 & _); [left|done|done|].
    change (ck_addr (mk_chunk la true 28) + sizeof_Chunk) with mm in *. set (m := list_init _ _) in Hk3, A, D, E1.
    exists (set_is_vmm_inited 1 (set_mm mm (set_mem m s2))). split; [|split; [|done]].
    + unfold vmm_init, create_mm. unfold mbind at 1, K_bind at 1. rewrite R1. krun.
      rewrite R2. krun. reflexivity.
    + destruct Hk3 as [B1 [B2 B3 B4] B5 B6 B7]. destruct B1. constructor; [by constructor|by constructor|done|done|].
      intros c Hc. destruct (B7 c Hc). by constructor.
Qed.

End Services.
End Kernel.
