(* ===== verification/Demand.v ===== *)
(** Demand paging end to end: what the fault handler of mm/vmm.c leaves in the
    page tables and in the replacement queue when it supplies a page. *)

From S2P Require Import Prelude Machine DList Str Pmm Paging Ports Swap Malloc Vmm.

Local Open Scope Z_scope.

(** * Pages of addresses *)

Lemma ROUNDDOWN_small a : 0 <= a < 2 ^ 32 -> ROUNDDOWN a = a - a mod PAGE_SIZE /\ 0 <= ROUNDDOWN a < 2 ^ 32.
Proof. intros Ha. unfold ROUNDDOWN. rewrite w32_small; unfold PAGE_SIZE; lia_div. Qed.

(** The walk depends on the page only. *)
Lemma walk_page m pd a : 0 <= a < 2 ^ 32 ->
  walk m pd a = (fun p => p + a mod PAGE_SIZE) <$> walk m pd (ROUNDDOWN a).
Proof.
  intros Ha. destruct (ROUNDDOWN_small a Ha) as [-> _]. unfold PAGE_SIZE. set (la := a - a mod 4096).
  assert (E1 : la / 2 ^ 22 = a / 2 ^ 22) by (unfold la; lia_div).
  assert (E2 : la / 2 ^ 12 mod 2 ^ 10 = a / 2 ^ 12 mod 2 ^ 10) by (unfold la; lia_div).
  assert (E3 : la mod 4096 = 0) by (unfold la; lia_div).
  unfold walk, pte_slot, pde_slot, PAGE_SIZE. rewrite E1, E2, E3.
  destruct (present _); [|done]. destruct (present _); cbn; [|done]. f_equal. lia.
Qed.

(** A word that no present entry occupies stays so while the directory is kept. *)
Lemma off_tables_ext m m' pd a :
  (forall la, 0 <= la < 2 ^ 32 -> rd32 m' (pde_slot pd la) = rd32 m (pde_slot pd la)) ->
  off_tables m pd a -> off_tables m' pd a.
Proof.
  intros He Hoff la Hla. rewrite He by done. rewrite (slot_ext m m') by (by apply He). by apply Hoff.
Qed.

Section Demand.
Context `{Symbols}.

(** The nodes of the replacement queue when [node] joins [fifo]. *)
Definition queue_nodes (mm : Z) (fifo : list Z) (node : Z) : list Z := mm_vm_fifo mm :: fifo ++ [node].

(** The page of frame [i] can be given out: its descriptor, at [p] in the high
    window, and the queue keep clear of the page tables and of each other. *)
Record page_free (s : kst) (mm pd i : Z) (fifo : list Z) (p : Z) : Prop := {
  pf_addr : p = k_pages s + sizeof_Page * i + VERTUAL_MEM ;
  pf_queue : dlist (k_mem s) (mm_vm_fifo mm) fifo ;
  pf_sep : nodes_sep (queue_nodes mm fifo (pg_node p)) ;
  pf_nodes : forall n, n ∈ queue_nodes mm fifo (pg_node p) ->
    off_tables (k_mem s) pd n /\ off_tables (k_mem s) pd (n + 4) ;
  pf_ref : off_tables (k_mem s) pd (k_pages s + sizeof_Page * i) ;
  pf_va : off_tables (k_mem s) pd (pg_va p) ;
  pf_ref_queue : off_nodes (queue_nodes mm fifo (pg_node p)) (k_pages s + sizeof_Page * i) ;
  pf_va_queue : off_nodes (queue_nodes mm fifo (pg_node p)) (pg_va p) ;
  pf_va_mm : wd (pg_va p) (mm_pde mm) ;
  pf_va_ref : wd (k_pages s + sizeof_Page * i) (pg_va p)
}.

Lemma queue_nodes_sub mm fifo node y : y ∈ mm_vm_fifo mm :: fifo -> y ∈ queue_nodes mm fifo node.
Proof. unfold queue_nodes. rewrite !elem_of_cons, elem_of_app. tauto. Qed.

(** After stores off its words, [node] joins the queue. *)
Lemma queue_append m m' mm fifo node :
  dlist m (mm_vm_fifo mm) fifo -> nodes_sep (queue_nodes mm fifo node) ->
  (forall n, n ∈ queue_nodes mm fifo node -> rd32 m' n = rd32 m n /\ rd32 m' (n + 4) = rd32 m (n + 4)) ->
  dlist (list_insert_before (mm_vm_fifo mm) node m') (mm_vm_fifo mm) (fifo ++ [node]) /\
  forall a, off_nodes (queue_nodes mm fifo node) a -> rd32 (list_insert_before (mm_vm_fifo mm) node m') a = rd32 m' a.
Proof.
  intros Hd Hsep Hw. assert (Hd' : dlist m' (mm_vm_fifo mm) (fifo ++ [])).
  { rewrite app_nil_r. apply (dlist_frame m); [|exact Hd]. intros a (n & Hn & Ha).
    destruct (Hw n) as [W1 W2]; [by apply queue_nodes_sub|]. by destruct Ha as [-> | ->]. }
  exact (list_insert_before_spec m' (mm_vm_fifo mm) fifo [] node Hd' Hsep).
Qed.

(** The page joins the queue after its entry, its count of references and its
    label have been written: translation, label and entry stay. *)
Lemma queue_page s mm pd la i fifo p m2 :
  let x := pte_slot (k_mem s) pd la in
  let m3 := list_insert_before (mm_vm_fifo mm) (pg_node p) m2 in
  tables (k_mem s) pd -> 0 <= la < 2 ^ 32 -> present (rd32 (k_mem s) (pde_slot pd la)) = true ->
  page_free s mm pd i fifo p ->
  (forall a, wd x a -> wd (k_pages s + sizeof_Page * i) a -> wd (pg_va p) a -> rd32 m2 a = rd32 (k_mem s) a) ->
  walk m3 pd la = walk m2 pd la /\ dlist m3 (mm_vm_fifo mm) (fifo ++ [pg_node p]) /\ rd32 m3 (pg_va p) = rd32 m2 (pg_va p) /\
  rd32 m3 (pde_slot pd la) = rd32 (k_mem s) (pde_slot pd la) /\ rd32 m3 x = rd32 m2 x /\
  forall a, off_nodes (queue_nodes mm fifo (pg_node p)) a -> rd32 m3 a = rd32 m2 a.
Proof.
  intros x m3 Ht Hla Hp [Ep Hq Hsep Hn Href Hva Hrq Hvq Hvm Hvr] F.
  assert (Hxn : forall n, n ∈ queue_nodes mm fifo (pg_node p) -> wd x n /\ wd x (n + 4)).
  { intros n Hin. destruct (Hn n Hin) as [H1 H2]. split; apply wd_sym; [by apply H1|by apply H2]. }
  destruct (queue_append (k_mem s) m2 mm fifo (pg_node p) Hq Hsep) as [Hd3 F3].
  { intros n Hin. destruct (Hxn n Hin), (Hrq n Hin), (Hvq n Hin). split; apply F; by apply wd_sym || done. }
  fold m3 in Hd3, F3. assert (Ex : rd32 m3 x = rd32 m2 x).
  { apply F3. intros n Hin. destruct (Hxn n Hin). auto using wd_sym. }
  assert (E32 : rd32 m3 (pde_slot pd la) = rd32 m2 (pde_slot pd la)).
  { apply F3. intros n Hin. destruct (Hn n Hin) as [H1 H2]. by split; [apply H1|apply H2]. }
  assert (E2 : rd32 m2 (pde_slot pd la) = rd32 (k_mem s) (pde_slot pd la)).
  { apply F; [|by apply Href|by apply Hva]. apply (wd_alias x); [by apply slot_low|].
    by apply (slots_apart (k_mem s) pd Ht la la Hla Hla Hp). }
  split; [|split; [exact Hd3|split; [by apply F3|split; [by rewrite E32|split; [exact Ex|exact F3]]]]].
  apply walk_ext; [exact E32|]. intros _. rewrite (slot_ext (k_mem s) m2) by done. exact Ex.
Qed.

(** A store off the tables keeps a translation. *)
Lemma walk_wr32 m pd a v la : off_tables m pd a -> 0 <= la < 2 ^ 32 -> walk (wr32 m a v) pd la = walk m pd la.
Proof. intros Ho Hla. apply walk_ext; [|intros Hp]; apply rd32_wr32_ne; [by apply Ho|by apply (Ho la Hla)]. Qed.

(** Give page [i] to [la]: record the address, map it, queue it. *)
Lemma supply_page alloc_page fuel s mm pd la i pa fifo p sign :
  tables (k_mem s) pd -> 0 <= la < 2 ^ 32 -> la mod PAGE_SIZE = 0 -> 0 <= sign < 2 ^ 8 -> Z.odd sign = true ->
  present (rd32 (k_mem s) (pde_slot pd la)) = true -> walk (k_mem s) pd la = None ->
  frame_of s i pa -> page_free s mm pd i fifo p -> rd32 (k_mem s) (mm_pde mm) = pd ->
  exists m', (store (pg_va p) la;;
      pde ← load (mm_pde mm);
      pa ← pg_to_addr_pa p;
      map alloc_page fuel pde la pa sign;;
      on_mem (list_insert_before (mm_vm_fifo mm) (pg_node p))) s =
    Ok tt (set_log (EvInvlpg la :: k_log s) (set_mem m' s)) /\
    walk m' pd la = Some pa /\ dlist m' (mm_vm_fifo mm) (fifo ++ [pg_node p]) /\ rd32 m' (pg_va p) = la /\
    rd32 m' (pde_slot pd la) = rd32 (k_mem s) (pde_slot pd la) /\ pte_sign (rd32 m' (pte_slot (k_mem s) pd la)) = sign /\
    forall a, wd (pte_slot (k_mem s) pd la) a -> wd p a -> wd (pg_va p) a -> off_nodes (queue_nodes mm fifo (pg_node p)) a ->
      rd32 m' a = rd32 (k_mem s) a.
Proof.
  intros Ht Hla Hal Hsg Hodd Hp Hnone Hfr Hpf Hpd. pose proof Hpf as [Ep _ _ _ Href Hva _ _ Hvm Hvr].
  set (m1 := wr32 (k_mem s) (pg_va p) la). set (s1 := set_mem m1 s). set (x := pte_slot (k_mem s) pd la).
  assert (Hd1 : forall a, 0 <= a < 2 ^ 32 -> rd32 m1 (pde_slot pd a) = rd32 (k_mem s) (pde_slot pd a)).
  { intros a Ha. apply rd32_wr32_ne. by apply Hva. }
  assert (Hs1 : pte_slot m1 pd la = x) by (by apply slot_ext, Hd1).
  assert (Hnone1 : walk m1 pd la = None) by (by rewrite <- Hnone; apply walk_wr32).
  destruct (map_from alloc_page fuel s1 s1 pd la pa sign i) as (m2 & R & W & _ & _ & G & F).
  - by apply tables_wr32.
  - done.
  - destruct Hfr. by constructor.
  - done.
  - cbn [s1 k_mem set_mem]. by rewrite Hd1.
  - unfold walk in Hnone1. cbn [s1 k_mem set_mem]. rewrite Hd1, Hp in Hnone1 by done. cbn zeta in Hnone1. by case_match.
  - by apply (off_tables_ext (k_mem s)).
  - apply get_pte_present; [by apply tables_wr32|done|cbn [s1 k_mem set_mem]; by rewrite Hd1].
  - cbn [s1 k_mem set_mem k_pages] in F, G. change (k_pages s1) with (k_pages s) in F. rewrite Hs1 in F, G.
    destruct (queue_page s mm pd la i fifo p m2) as (W3 & D3 & V3 & P3 & X3 & F3); try done.
    { intros a A1 A2 A3. rewrite F by done. by apply rd32_wr32_ne. }
    fold x in X3. eexists. split; [|split; [rewrite W3, W, Hodd, Hal; f_equal; lia|split; [exact D3|split; [|split; [exact P3|split; [by rewrite X3, G|]]]]]].
    + krun. rewrite rd32_wr32_ne, Hpd by done. fold m1.
      assert (Epa : pg_to_addr_pa p (set_mem m1 s) = Ok pa (set_mem m1 s)) by (rewrite Ep; by apply (frame_pa_run s)).
      rewrite Epa. fold s1. rewrite R. reflexivity.
    + rewrite V3, F; [apply rd32_wr32_small; lia|apply wd_sym; by apply Hva|exact Hvr].
    + intros a A1 A2 A3 A4. rewrite F3 by done. rewrite F; [by apply rd32_wr32_ne|exact A1|].
      revert A2. rewrite Ep. apply wd_alias. destruct Hfr. unfold sizeof_Page in *. lia.
Qed.

(** What an area allows: a read or a write ([w] as in the error code). *)
Definition allows (flags w : Z) : Prop :=
  w = 0 /\ Z.land flags (Z.lor 0x1 0x4) <> 0 \/ w = 1 /\ Z.land flags 0x2 <> 0.

(** The entry maps nothing and nothing of the page is on disk. *)
Definition untouched (m : memory) (pd la : Z) : Prop :=
  let e := rd32 m (pte_slot m pd la) in pte_page_addr e = 0 /\ pte_sign e = 0.

(** The write flag is tested against the wrong value, so the page is always
    mapped for reading only. *)
Lemma sign_is_5 flags : (if Z.land flags 0x2 =? 1 then 0x7 else 0x5) = 0x5.
Proof.
  assert (Z.land flags 2 <> 1) as H0.
  { intros E. assert (Z.testbit (Z.land flags 2) 0 = Z.testbit 1 0) as Hb by (by rewrite E).
    rewrite Z.land_spec in Hb. change (Z.testbit 2 0) with false in Hb. rewrite andb_false_r in Hb. done. }
  by rewrite (proj2 (Z.eqb_neq _ _) H0).
Qed.

(** The handler can serve an access [w] at [cr2]: the area [vma] is found (in
    [s1]) and allows it, the page is untouched, and the page [p] of frame [i] is
    taken (in [s2]) and can be given out. *)
Record serves (fuel : nat) (s : kst) (cr2 w vma : Z) (s1 s2 : kst) (pd i pa : Z) (fifo : list Z) (p : Z) : Prop := {
  sv_addr : 0 <= cr2 < 2 ^ 32 ;
  sv_found : find_vma fuel (k_mm s) (ROUNDDOWN cr2) s = Ok vma s1 ;
  sv_area : vma <> NULL /\ allows (rd32 (k_mem s1) (vma_flags vma)) w ;
  sv_tables : rd32 (k_mem s1) (mm_pde (k_mm s)) = pd /\ tables (k_mem s1) pd ;
  sv_untouched : present (rd32 (k_mem s1) (pde_slot pd (ROUNDDOWN cr2))) = true /\ untouched (k_mem s1) pd (ROUNDDOWN cr2) ;
  sv_taken : kalloc_page fuel 1 s1 = Ok p s2 ;
  sv_kept : tables (k_mem s2) pd /\ rd32 (k_mem s2) (mm_pde (k_mm s)) = pd ;
  sv_absent : present (rd32 (k_mem s2) (pde_slot pd (ROUNDDOWN cr2))) = true /\ walk (k_mem s2) pd (ROUNDDOWN cr2) = None ;
  sv_frame : frame_of s2 i pa ;
  sv_free : page_free s2 (k_mm s) pd i fifo p
}.

(** What is left: the translation, the queue, the label and the entry. *)
Record served (m' : memory) (s2 : kst) (mm cr2 pd pa : Z) (fifo : list Z) (p : Z) : Prop := {
  sd_walk : walk m' pd cr2 = Some (pa + cr2 mod PAGE_SIZE) ;
  sd_queue : dlist m' (mm_vm_fifo mm) (fifo ++ [pg_node p]) ;
  sd_label : rd32 m' (pg_va p) = ROUNDDOWN cr2 ;
  sd_pde : rd32 m' (pde_slot pd (ROUNDDOWN cr2)) = rd32 (k_mem s2) (pde_slot pd (ROUNDDOWN cr2)) ;
  sd_sign : pte_sign (rd32 m' (pte_slot m' pd (ROUNDDOWN cr2))) = 5 ;
  sd_frame : forall a, wd (pte_slot (k_mem s2) pd (ROUNDDOWN cr2)) a -> wd p a -> wd (pg_va p) a ->
    off_nodes (queue_nodes mm fifo (pg_node p)) a -> rd32 m' a = rd32 (k_mem s2) a
}.

Lemma do_swap_check_ok s vma w : vma <> NULL -> allows (rd32 (k_mem s) (vma_flags vma)) w -> do_swap_check vma w s = Ok tt s.
Proof.
  intros Hv Hall. unfold do_swap_check. rewrite (proj2 (Z.eqb_neq _ _) Hv). krun.
  destruct Hall as [[-> Hn]|[-> Hn]]; cbn [Z.eqb negb andb]; rewrite (proj2 (Z.eqb_neq _ _) Hn); krun; done.
Qed.

(** A fault on an absent page is a call of [do_swap]. *)
Lemma page_fault_absent fuel s cr2 errorCode w s' :
  errorCode mod 4 = 2 * w -> w = 0 \/ w = 1 -> Z.land errorCode 0x8 = 0 -> Z.land errorCode 0x10 = 0 ->
  do_swap fuel cr2 w (set_log (EvPrintf "page_fault triggered==> at cr2: %x.\n" [cr2] :: k_log s) s) = Ok tt s' ->
  page_fault fuel cr2 errorCode s = Ok tt s'.
Proof.
  intros He Hw H8 H16 R. unfold page_fault, printf, emit. krun. rewrite land_3_cases, H8, H16, He.
  destruct Hw as [-> | ->]; [change (2 * 0) with 0|change (2 * 1) with 2]; cbn [Z.eqb Pos.eqb]; rewrite R; reflexivity.
Qed.

Lemma do_swap_supplies fuel s cr2 w vma s1 s2 pd i pa fifo p :
  serves fuel s cr2 w vma s1 s2 pd i pa fifo p ->
  exists m', do_swap fuel cr2 w s =
      Ok tt (set_log (EvInvlpg (ROUNDDOWN cr2) :: EvPrintf "no page linked. so alloc a page, la: %x\n" [pa + VERTUAL_MEM] :: k_log s2) (set_mem m' s2)) /\
    served m' s2 (k_mm s) cr2 pd pa fifo p.
Proof.
  intros [Hcr Hfind [Hv Hall] [Hpd Ht] [Hp [Hu1 Hu2]] Hal [Ht2 Hpd2] [Hp2 Hnone2] Hfr Hfree].
  set (la := ROUNDDOWN cr2) in *. set (mm := k_mm s) in *.
  destruct (ROUNDDOWN_small cr2 Hcr) as [El Hla]. fold la in El, Hla.
  assert (Hmod : la mod PAGE_SIZE = 0) by (rewrite El; unfold PAGE_SIZE; lia_div).
  set (s2' := set_log (EvPrintf "no page linked. so alloc a page, la: %x\n" [pa + VERTUAL_MEM] :: k_log s2) s2).
  destruct (supply_page (kalloc_page fuel) fuel s2' mm pd la i pa fifo p 0x5) as (m' & R & W & D & V & P1 & P2 & P3);
    try done; [destruct Hfr; by constructor|destruct Hfree; by constructor|].
  exists m'. split.
  2: { constructor; try done; [rewrite walk_page by done; fold la; by rewrite W|].
    rewrite (slot_ext (k_mem s2)) by exact P1. exact P2. }
  unfold do_swap. krun. fold la mm. rewrite Hfind. rewrite do_swap_check_ok by done. krun. rewrite Hpd. rewrite sign_is_5.
  rewrite (get_pte_present (kalloc_page fuel) s1 pd la 1 Ht Hla Hp). krun.
  rewrite rd32_slot_alias by (by apply slot_low). cbn zeta in Hu1, Hu2. rewrite Hu1, Hu2. cbn [Z.eqb andb]. rewrite Hal. krun.
  pose proof (pf_addr _ _ _ _ _ _ Hfree) as Ep.
  assert (Hla2 : pg_to_addr_la p s2 = Ok (pa + VERTUAL_MEM) s2) by (rewrite Ep; by apply (frame_la_run s2)).
  rewrite Hla2. krun. assert (Hpn : p <> NULL) by (destruct Hfr; rewrite Ep; unfold NULL, VERTUAL_MEM, sizeof_Page in *; lia).
  rewrite (proj2 (Z.eqb_neq _ _) Hpn). fold s2'. revert R. krun. intros R. rewrite R. reflexivity.
Qed.

Lemma page_fault_run fuel s cr2 errorCode w vma s1 s2 pd i pa fifo p :
  let s0 := set_log (EvPrintf "page_fault triggered==> at cr2: %x.\n" [cr2] :: k_log s) s in
  errorCode mod 4 = 2 * w -> Z.land errorCode 0x8 = 0 -> Z.land errorCode 0x10 = 0 ->
  serves fuel s0 cr2 w vma s1 s2 pd i pa fifo p ->
  exists m' log, page_fault fuel cr2 errorCode s = Ok tt (set_log log (set_mem m' s2)) /\
    served m' s2 (k_mm s) cr2 pd pa fifo p.
Proof.
  intros s0 He H8 H16 Hs. destruct (do_swap_supplies fuel s0 cr2 w vma s1 s2 pd i pa fifo p Hs) as (m' & R & Hres).
  eexists m', _. split; [|exact Hres]. apply (page_fault_absent fuel s cr2 errorCode w); try done.
  destruct (sv_area _ _ _ _ _ _ _ _ _ _ _ _ Hs) as [_ [[-> _]|[-> _]]]; auto.
Qed.

(** C15: A fault on an address of an area, in a region of 4 MB that has a page table,
    with the access the area allows, on a page the process has not touched: the handler
    returns, the page tables then translate the address into the frame of the new page,
    and the page is last in the replacement queue, labelled with its address. *)
Theorem page_fault_supplies_page fuel s cr2 errorCode w vma s1 s2 pd i pa fifo p :
  let s0 := set_log (EvPrintf "page_fault triggered==> at cr2: %x.\n" [cr2] :: k_log s) s in
  errorCode mod 4 = 2 * w -> Z.land errorCode 0x8 = 0 -> Z.land errorCode 0x10 = 0 ->
  serves fuel s0 cr2 w vma s1 s2 pd i pa fifo p ->
  exists m' log, page_fault fuel cr2 errorCode s = Ok tt (set_log log (set_mem m' s2)) /\
    served m' s2 (k_mm s) cr2 pd pa fifo p.
Proof. apply page_fault_run. Qed.

End Demand.
