(* ===== verification/Mmu.v ===== *)
(** Accesses that go through the page tables: what the processor does with an
    address, the page fault it takes and the retry, the self test of the swapper
    (mm/swap.c), and the first touch of a page from either ring. *)

From S2P Require Import Prelude Machine DList Str Pmm Paging Ports Swap Malloc Vmm Demand.

Local Open Scope Z_scope.

(** * The processor *)
Inductive ring := Supervisor | User.

#[export] Instance ring_eq_dec : EqDecision ring.
Proof. solve_decision. Defined.

(** Bits 1 and 2 of an entry allow writes and user accesses. CR0.WP is never
    set, so they do not bind the supervisor. *)
Definition permits (r : ring) (w : bool) (e : Z) : bool :=
  match r with Supervisor => true | User => Z.testbit e 2 && (negb w || Z.testbit e 1) end.

(** The error code of a fault: present, write, user. *)
Definition fault_code (r : ring) (w p : bool) : Z :=
  Z.b2z p + 2 * Z.b2z w + (match r with User => 4 | Supervisor => 0 end).

(** The physical address, or the error code. *)
Definition translate (m : memory) (pd : Z) (r : ring) (w : bool) (la : Z) : Z + Z :=
  match walk m pd la with
  | None => inr (fault_code r w false)
  | Some pa =>
      if permits r w (rd32 m (pde_slot pd la)) && permits r w (rd32 m (pte_slot m pd la)) then inl pa
      else inr (fault_code r w true)
  end.

Section Mmu.
Context `{Symbols}.
Variable fuel : nat.

(** An access under the directory [pd]: the handler runs until the translation
    succeeds; the result is the physical address. *)
Fixpoint access (k : nat) (pd : Z) (r : ring) (w : bool) (la : Z) : K Z :=
  match k with
  | O => nofuel
  | S k => fun s =>
      match translate (k_mem s) pd r w la with
      | inl pa => Ok pa s
      | inr code => (page_fault fuel la code;; access k pd r w la) s
      end
  end.

(** A byte, and a word that lies within a page. *)
Definition peek8 (pd : Z) (r : ring) (la : Z) : K Z := pa ← access fuel pd r false la; load8 pa.
Definition poke8 (pd : Z) (r : ring) (la v : Z) : K unit := pa ← access fuel pd r true la; store8 pa v.
Definition peek (pd : Z) (r : ring) (la : Z) : K Z := pa ← access fuel pd r false la; load pa.

(** * The self test *)
Definition show_word (pd : Z) (fmt : string) (la : Z) : K unit := v ← peek pd Supervisor la; printf fmt [v].

Definition test_swap : K unit :=
  mm ← get k_mm;
  vma ← create_vma (kalloc_page fuel) fuel mm 0xf00000 0xf04000 0x7;
  found ← find_vma fuel mm 0xf00230;
  (if found =? vma then printf "right.\n" [] else panic "wrong!\n");;
  pd ← get k_pd;
  printf "======================\n" [];;
  printf "write 0x12 -> 0xf00000 && write 0xaa -> 0xf00004\n" [];;
  poke8 pd Supervisor 0xf00000 0x12;;
  poke8 pd Supervisor 0xf00004 0xaa;;
  show_word pd "0xf00000: %x\n" 0xf00000;;
  printf "======================\n" [];;
  printf "write 0x34 -> 0xf02000\n" [];;
  poke8 pd Supervisor 0xf02000 0x34;;
  show_word pd "0xf02000: %x\n" 0xf02000;;
  printf "======================\n" [];;
  printf "write 0x56 -> 0xf00004\n" [];;
  poke8 pd Supervisor 0xf00008 0x56;;
  show_word pd "0xf00000: %x\n" 0xf00000;;
  show_word pd "0xf00004: %x\n" 0xf00004;;
  show_word pd "0xf00008: %x\n" 0xf00008;;
  printf "======================\n" [];;
  printf "write 0x38 -> 0xf02004\n" [];;
  poke8 pd Supervisor 0xf02004 0x38;;
  show_word pd "0xf02000: %x\n" 0xf02000;;
  show_word pd "0xf02004: %x\n" 0xf02004;;
  printf "======================\n" [];;
  printf "write 0x11 -> 0xf00008\n" [];;
  poke8 pd Supervisor 0xf0000C 0x11;;
  show_word pd "0xf00000: %x\n" 0xf00000;;
  show_word pd "0xf00004: %x\n" 0xf00004;;
  show_word pd "0xf00008: %x\n" 0xf00008;;
  show_word pd "0xf0000C: %x\n" 0xf0000C;;
  printf "======================\n" [].

(** * First touch *)

Lemma access_hit k pd r w la s pa : translate (k_mem s) pd r w la = inl pa -> access (S k) pd r w la s = Ok pa s.
Proof. intros E. cbn [access]. by rewrite E. Qed.

Lemma access_now k pd r w la s pa : (0 < k)%nat -> translate (k_mem s) pd r w la = inl pa -> access k pd r w la s = Ok pa s.
Proof. intros Hk. destruct k; [lia|]. apply access_hit. Qed.

Lemma access_fault k pd r w la s code s1 : translate (k_mem s) pd r w la = inr code ->
  page_fault fuel la code s = Ok tt s1 -> access (S k) pd r w la s = access k pd r w la s1.
Proof. intros E R. cbn [access]. rewrite E. unfold mbind, K_bind. by rewrite R. Qed.

Lemma access_stops k pd r w la s code s1 : translate (k_mem s) pd r w la = inr code ->
  page_fault fuel la code s = Hang s1 -> access (S k) pd r w la s = Hang s1.
Proof. intros E R. cbn [access]. rewrite E. unfold mbind, K_bind. by rewrite R. Qed.

(** The codes of the two kinds of fault. *)
Lemma fault_code_absent r w : let c := fault_code r w false in
  c mod 4 = 2 * Z.b2z w /\ Z.land c 0x8 = 0 /\ Z.land c 0x10 = 0.
Proof. by destruct r, w. Qed.

Lemma fault_code_present r w : fault_code r w true mod 4 = 1 + 2 * Z.b2z w.
Proof. by destruct r, w. Qed.

(** A fault on a present page is never served. *)
Lemma present_fault_hangs la r w s : exists s', page_fault fuel la (fault_code r w true) s = Hang s' /\ k_mem s' = k_mem s.
Proof.
  unfold page_fault, printf, emit. krun. rewrite land_3_cases, fault_code_present.
  destruct w; cbn [Z.b2z]; [change (1 + 2 * 1) with 3|change (1 + 2 * 0) with 1]; cbn [Z.eqb Pos.eqb]; krun;
    [|destruct (Z.land _ 0x4 =? 0x4); krun]; by eexists.
Qed.

(** What the supplied entry permits: its sign is 5, which lacks the write bit. *)
Lemma sign_5_permits e w r : pte_sign e = 5 -> permits r w e = match r with Supervisor => true | User => negb w end.
Proof.
  intros Hs. assert (Hb : forall n, 0 <= n < 9 -> Z.testbit e n = Z.testbit 5 n).
  { intros n Hn. rewrite <- Hs. unfold pte_sign, bf_get. bits_spec. bits_case. }
  destruct r; [done|]. cbn [permits]. rewrite !Hb by lia. by destruct w.
Qed.

(** The frame lies clear of the directory's entry and of the slot of [la]. *)
Definition frame_clear (m : memory) (pd la pa : Z) : Prop :=
  forall a, a = pde_slot pd la \/ a = pte_slot m pd la -> ka a + 4 <= pa \/ pa + PAGE_SIZE <= ka a.

Section Touch.
Context (s : kst) (cr2 w vma : Z) (s1 s2 : kst) (pd i pa : Z) (fifo : list Z) (p : Z).
Let s0 : kst := set_log (EvPrintf "page_fault triggered==> at cr2: %x.\n" [cr2] :: k_log s) s.
Hypothesis Hs : serves fuel s0 cr2 w vma s1 s2 pd i pa fifo p.
Hypothesis Habs : walk (k_mem s) pd cr2 = None.

Lemma touch_fault r : exists m' log,
  page_fault fuel cr2 (fault_code r (negb (w =? 0)) false) s = Ok tt (set_log log (set_mem m' s2)) /\
  served m' s2 (k_mm s) cr2 pd pa fifo p.
Proof.
  destruct (fault_code_absent r (negb (w =? 0))) as (C1 & C2 & C3).
  apply (page_fault_run fuel s cr2 _ w vma s1 s2 pd i pa fifo p); [|done|done|exact Hs].
  rewrite C1. destruct (sv_area _ _ _ _ _ _ _ _ _ _ _ _ Hs) as [_ [[-> _]|[-> _]]]; done.
Qed.

Lemma served_page_slots m' : served m' s2 (k_mm s) cr2 pd pa fifo p ->
  pde_slot pd (ROUNDDOWN cr2) = pde_slot pd cr2 /\ pte_slot m' pd (ROUNDDOWN cr2) = pte_slot m' pd cr2.
Proof.
  intros _. pose proof (sv_addr _ _ _ _ _ _ _ _ _ _ _ _ Hs) as Ha. destruct (ROUNDDOWN_small cr2 Ha) as [-> _].
  assert (E1 : (cr2 - cr2 mod PAGE_SIZE) / 2 ^ 22 = cr2 / 2 ^ 22) by (unfold PAGE_SIZE; lia_div).
  assert (E2 : (cr2 - cr2 mod PAGE_SIZE) / 2 ^ 12 mod 2 ^ 10 = cr2 / 2 ^ 12 mod 2 ^ 10) by (unfold PAGE_SIZE; lia_div).
  unfold pte_slot, pde_slot. by rewrite E1, E2.
Qed.

(** The first access of the kernel faults once. *)
Lemma supervisor_touch k : (2 <= k)%nat -> exists m' log,
  access k pd Supervisor (negb (w =? 0)) cr2 s = Ok (pa + cr2 mod PAGE_SIZE) (set_log log (set_mem m' s2)) /\
  served m' s2 (k_mm s) cr2 pd pa fifo p.
Proof.
  intros Hk. destruct (touch_fault Supervisor) as (m' & log & R & Hsd). exists m', log. split; [|exact Hsd].
  destruct k as [|[|k]]; [lia|lia|]. rewrite (access_fault _ _ _ _ _ s _ _ ltac:(unfold translate; by rewrite Habs) R).
  apply access_hit. unfold translate. kproj. by rewrite (sd_walk _ _ _ _ _ _ _ _ Hsd).
Qed.

(** The translation is kept by a store to the frame. *)
Lemma frame_store_walk m' v : served m' s2 (k_mm s) cr2 pd pa fifo p -> frame_clear (k_mem s2) pd cr2 pa ->
  let a := pa + cr2 mod PAGE_SIZE in walk (wr8 m' a v) pd cr2 = Some a /\ rd8 (wr8 m' a v) a = w8 v.
Proof.
  intros Hsd Hc a. destruct (served_page_slots m' Hsd) as [E1 E2]. split; [|apply rd8_wr8_eq].
  pose proof (sd_walk _ _ _ _ _ _ _ _ Hsd) as Hw. fold a in Hw. rewrite <- Hw.
  assert (Ea : ka a = a /\ pa <= a < pa + PAGE_SIZE).
  { destruct (sv_frame _ _ _ _ _ _ _ _ _ _ _ _ Hs) as [Hi Hpg (Ea & Hb & Hpa) Hal].
    assert (0 <= cr2 mod PAGE_SIZE < PAGE_SIZE) by (apply Z.mod_pos_bound; done).
    split; [apply ka_low; unfold a, PAGE_SIZE, VERTUAL_MEM in *; lia|unfold a; lia]. }
  destruct Ea as [Ea Hr].
  assert (Ed : rd32 m' (pde_slot pd cr2) = rd32 (k_mem s2) (pde_slot pd cr2)) by (rewrite <- E1; apply Hsd).
  assert (Hx : pte_slot m' pd cr2 = pte_slot (k_mem s2) pd cr2) by (by apply slot_ext).
  apply walk_ext; [|intros _; rewrite Hx]; apply rd32_wr8_ne; rewrite Ea;
    [destruct (Hc (pde_slot pd cr2)); auto; lia|destruct (Hc (pte_slot (k_mem s2) pd cr2)); auto; lia].
Qed.

(** A store in user mode faults twice, the second time on a present page. *)
Lemma user_retry m' log : served m' s2 (k_mm s) cr2 pd pa fifo p ->
  translate m' pd User true cr2 = inr (fault_code User true true) /\
  exists s', page_fault fuel cr2 (fault_code User true true) (set_log log (set_mem m' s2)) = Hang s' /\ k_mem s' = m'.
Proof.
  intros Hsd. destruct (served_page_slots m' Hsd) as [_ E2]. split; [|apply (present_fault_hangs cr2 User true)].
  unfold translate. rewrite (sd_walk _ _ _ _ _ _ _ _ Hsd). pose proof (sd_sign _ _ _ _ _ _ _ _ Hsd) as Hsg.
  rewrite E2 in Hsg. rewrite (sign_5_permits (rd32 m' (pte_slot m' pd cr2)) true User Hsg). cbn [negb]. by rewrite andb_false_r.
Qed.

Lemma user_touch k m' log s' : w = 1 -> (2 <= k)%nat -> served m' s2 (k_mm s) cr2 pd pa fifo p ->
  page_fault fuel cr2 (fault_code User true false) s = Ok tt (set_log log (set_mem m' s2)) ->
  page_fault fuel cr2 (fault_code User true true) (set_log log (set_mem m' s2)) = Hang s' ->
  access k pd User true cr2 s = Hang s'.
Proof.
  intros Hw Hk Hsd R Hh. destruct k as [|[|k]]; [lia|lia|].
  rewrite (access_fault _ _ _ _ _ s _ _ ltac:(unfold translate; by rewrite Habs) R).
  rewrite (access_stops _ _ _ _ _ _ (fault_code User true true) s'); [done| |exact Hh]. kproj. by apply (user_retry m' log).
Qed.

End Touch.

(** C19: The kernel stores a byte at an address of an untouched page of an area and
    reads it back through the page tables: it faults once, the page is supplied, mapped
    and queued, and the byte read is the byte stored. *)
Theorem kernel_store_load s cr2 v vma s1 s2 pd i pa fifo p :
  let s0 := set_log (EvPrintf "page_fault triggered==> at cr2: %x.\n" [cr2] :: k_log s) s in
  serves fuel s0 cr2 1 vma s1 s2 pd i pa fifo p -> walk (k_mem s) pd cr2 = None ->
  frame_clear (k_mem s2) pd cr2 pa -> (2 <= fuel)%nat ->
  exists m' log, (poke8 pd Supervisor cr2 v;; peek8 pd Supervisor cr2) s =
      Ok (w8 v) (set_log log (set_mem (wr8 m' (pa + cr2 mod PAGE_SIZE) v) s2)) /\
    served m' s2 (k_mm s) cr2 pd pa fifo p.
Proof.
  intros s0 Hs Habs Hc Hf. destruct (supervisor_touch s cr2 1 vma s1 s2 pd i pa fifo p Hs Habs fuel Hf) as (m' & log & R & Hsd).
  destruct (frame_store_walk s cr2 1 vma s1 s2 pd i pa fifo p Hs m' v Hsd Hc) as [W Rd].
  exists m', log. split; [|exact Hsd]. unfold poke8, peek8. krun. change (negb (1 =? 0)) with true in R. rewrite R.
  rewrite (access_now fuel pd Supervisor false cr2 _ (pa + cr2 mod PAGE_SIZE)); [krun; by rewrite Rd|lia|].
  unfold translate. kproj. by rewrite W.
Qed.

(** C20: A store in user mode to an untouched page of an area that may be written stops
    the machine: the first fault is served, the page translates into its new frame, but
    its entry has the sign 5, without the write bit; the retry faults on a present page,
    and that second call of the handler never returns. The store is not made. *)
Theorem user_store_stops s cr2 v vma s1 s2 pd i pa fifo p :
  let s0 := set_log (EvPrintf "page_fault triggered==> at cr2: %x.\n" [cr2] :: k_log s) s in
  serves fuel s0 cr2 1 vma s1 s2 pd i pa fifo p -> walk (k_mem s) pd cr2 = None -> (2 <= fuel)%nat ->
  exists m' log s', let sf := set_log log (set_mem m' s2) in
    page_fault fuel cr2 (fault_code User true false) s = Ok tt sf /\
    walk m' pd cr2 = Some (pa + cr2 mod PAGE_SIZE) /\ pte_sign (rd32 m' (pte_slot m' pd cr2)) = 5 /\
    translate m' pd User true cr2 = inr (fault_code User true true) /\
    page_fault fuel cr2 (fault_code User true true) sf = Hang s' /\
    poke8 pd User cr2 v s = Hang s' /\ k_mem s' = m'.
Proof.
  intros s0 Hs Habs Hf. destruct (touch_fault s cr2 1 vma s1 s2 pd i pa fifo p Hs User) as (m' & log & R & Hsd).
  change (negb (1 =? 0)) with true in R.
  destruct (user_retry s cr2 1 vma s1 s2 pd i pa fifo p Hs m' log Hsd) as (Ht & s' & Hh & Em).
  exists m', log, s'. destruct (served_page_slots s cr2 1 vma s1 s2 pd i pa fifo p Hs m' Hsd) as [_ E2].
  split_and!; try done; [apply (sd_walk _ _ _ _ _ _ _ _ Hsd)|rewrite <- E2; apply (sd_sign _ _ _ _ _ _ _ _ Hsd)|].
  unfold poke8, mbind, K_bind.
  by rewrite (user_touch s cr2 1 vma s1 s2 pd i pa fifo p Hs Habs fuel m' log s' eq_refl Hf Hsd R Hh).
Qed.

End Mmu.
