(* ===== verification/Evict.v ===== *)
(** Page replacement end to end: what [swap_out] of mm/swap.c leaves on the
    disk, in the page tables, in the replacement queue and in the list of free
    pages, and what [free_page] of mm/pmm.c does with a page above all free ones. *)

From S2P Require Import Prelude Machine DList Str Pmm Paging Ports Swap Demand.

Local Open Scope Z_scope.

Section Evict.
Context `{Symbols}.

(** * A page above all free pages *)

(** Structures within the 32-bit space. *)
Definition page_words (l : list Z) : Prop := forall q, q ∈ l -> 0 <= q /\ q + sizeof_Page < 2 ^ 32.

Lemma page_of_word q : 0 <= q /\ q + sizeof_Page < 2 ^ 32 -> page_of_node (pg_node q) = q.
Proof. unfold page_of_node, pg_node, sizeof_Page. intros. wsmall. lia. Qed.

(** The scan finds nothing above and ends with the last page. *)
Lemma free_scan_above s p l2 : forall l1 target fuel,
  dlist (k_mem s) free_pages_head (pg_node <$> l1 ++ l2) -> page_words l2 ->
  (forall q, q ∈ l2 -> q <= p) -> (length l2 < fuel)%nat ->
  free_scan fuel p (before free_pages_head (pg_node <$> l1)) target s = Ok (default target (last l2)) s.
Proof.
  induction l2 as [|x l2 IH]; intros l1 target fuel Hd Hw Hle Hf; (destruct fuel as [|fuel]; cbn [length] in Hf; [lia|]);
    cbn [free_scan]; krun; assert (Hd0 := Hd); rewrite fmap_app in Hd0;
    destruct (dseg_neighbours _ _ _ _ (proj2 Hd0)) as [Hn _]; unfold node_next; rewrite Hn;
    cbn [fmap list_fmap after head default id from_option].
  - by rewrite Z.eqb_refl.
  - rewrite (proj2 (Z.eqb_neq _ _)) by (apply (dlist_not_head _ _ _ _ Hd0), elem_of_app; right; left). krun.
    rewrite page_of_word by (apply Hw; left). rewrite (proj2 (Z.ltb_ge _ _)) by (apply Hle; left). krun. rewrite Hn.
    cbn [fmap list_fmap after head default id from_option].
    replace (pg_node x) with (before free_pages_head (pg_node <$> l1 ++ [x]))
      by (unfold before; rewrite fmap_app; change (pg_node <$> [x]) with [pg_node x]; by rewrite last_snoc).
    rewrite IH; [|by rewrite <- app_assoc|intros q Hq; apply Hw; by right|intros q Hq; apply Hle; by right|lia].
    rewrite last_cons. by destruct (last l2).
Qed.

(** What the two metadata words of [p] are apart from. *)
Record above (m : memory) (l : list Z) (t p : Z) : Prop := {
  ab_words : page_words (l ++ [p; t]) ;
  ab_le : forall q, q ∈ l ++ [t] -> q < p ;
  ab_null : t <> NULL ;
  ab_sep : nodes_sep (free_pages_head :: (pg_node <$> l ++ [p; t])) ;
  ab_flags : off_nodes (free_pages_head :: (pg_node <$> l ++ [p; t])) (pg_flags p) ;
  ab_count : off_nodes (free_pages_head :: (pg_node <$> l ++ [p; t])) (pg_free_pages p) ;
  ab_prev : let q := page_of_node (before free_pages_head (pg_node <$> l)) in
    wd (pg_flags p) (pg_free_pages q) /\ wd (pg_free_pages p) (pg_free_pages q) /\
    off_nodes (free_pages_head :: (pg_node <$> l ++ [p; t])) (pg_free_pages q) /\
    page_add q (rd32 m (pg_free_pages q)) <> p
}.

Lemma free_page_above_run s l t p fuel :
  dlist (k_mem s) free_pages_head (pg_node <$> l ++ [t]) -> above (k_mem s) l t p -> (length l + 1 < fuel)%nat ->
  exists m', free_page fuel p 1 s = Ok tt (set_free_page_num (s32 (k_free_page_num s + 1)) (set_mem m' s)) /\
    dlist m' free_pages_head (pg_node <$> l ++ [p; t]) /\ rd32 m' (pg_free_pages p) = 1 /\
    forall a, off_nodes (free_pages_head :: (pg_node <$> l ++ [p; t])) a -> wd (pg_flags p) a -> wd (pg_free_pages p) a ->
      rd32 m' a = rd32 (k_mem s) a.
Proof.
  intros Hd [Hw Hle Hnull Hsep Hfl Hct (Q1 & Q2 & Q3 & Q4)] Hf.
  pose proof (free_scan_above s p (l ++ [t]) [] 0 fuel Hd) as Hscan. cbn [fmap list_fmap] in Hscan.
  rewrite last_snoc in Hscan. change (before free_pages_head []) with free_pages_head in Hscan.
  assert (Hpw : 0 <= p /\ p + sizeof_Page < 2 ^ 32) by (apply Hw; elt).
  assert (Hpt : t < p) by (apply Hle; elt).
  rewrite !fmap_app in *. cbn [fmap list_fmap] in *.
  set (m1 := list_insert_before (pg_node t) (pg_node p) (k_mem s)).
  destruct (list_insert_before_spec (k_mem s) free_pages_head (pg_node <$> l) [pg_node t] (pg_node p) Hd Hsep) as [Hd1 F1].
  change (after free_pages_head [pg_node t]) with (pg_node t) in Hd1, F1. fold m1 in Hd1, F1.
  set (m2 := wr32 m1 (pg_flags p) 0). set (m3 := wr32 m2 (pg_free_pages p) 1).
  assert (Hd3 : dlist m3 free_pages_head ((pg_node <$> l) ++ [pg_node p; pg_node t])).
  { apply dlist_wr32; [done|]. by apply dlist_wr32. }
  assert (F3 : forall a, off_nodes (free_pages_head :: (pg_node <$> l) ++ [pg_node p; pg_node t]) a ->
    wd (pg_flags p) a -> wd (pg_free_pages p) a -> rd32 m3 a = rd32 (k_mem s) a).
  { intros a A1 A2 A3. unfold m3, m2. rewrite !rd32_wr32_ne by done. by apply F1. }
  exists m3. split; [|split; [done|split; [by apply rd32_wr32_small|done]]].
  assert (Ep0 : page_add p 0 = p) by (unfold page_add, sizeof_Page in *; rewrite Z.mul_0_l, Z.add_0_r; apply w32_small; lia).
  unfold free_page. krun. rewrite Hscan; [|intros q Hq; apply Hw; revert Hq; rewrite !elem_of_app; elt|
    intros q Hq; specialize (Hle q Hq); lia|rewrite length_app; cbn; lia]. cbn [default from_option id].
  rewrite (proj2 (Z.eqb_neq _ _) Hnull). cbn [free_insert]. change (Z.to_nat 1) with 1%nat. cbn [free_insert]. krun.
  rewrite Ep0. fold m1. fold m2. fold m3.
  assert (Ep1 : (page_add p 1 =? t) = false).
  { apply Z.eqb_neq. unfold page_add, sizeof_Page in *. rewrite w32_small by lia. lia. }
  unfold merge_down. rewrite Ep1. krun. unfold merge_up. krun.
  assert (Eprev : rd32 m3 (node_prev (pg_node p)) = before free_pages_head (pg_node <$> l)) by apply (dlist_prev _ _ _ _ _ Hd3).
  rewrite Eprev, F3 by done. rewrite (proj2 (Z.eqb_neq _ _) Q4). krun. reflexivity.
Qed.

(** A page above all free ones is linked below the last of them: the list is
    no longer in the order of the addresses, although the count is right. *)
Theorem free_page_above_misplaced s l t p fuel :
  dlist (k_mem s) free_pages_head (pg_node <$> l ++ [t]) -> above (k_mem s) l t p -> (length l + 1 < fuel)%nat ->
  exists m', free_page fuel p 1 s = Ok tt (set_free_page_num (s32 (k_free_page_num s + 1)) (set_mem m' s)) /\
    dlist m' free_pages_head (pg_node <$> l ++ [p; t]) /\ t < p.
Proof.
  intros Hd Ha Hf. destruct (free_page_above_run s l t p fuel Hd Ha Hf) as (m' & R & D & _ & _).
  exists m'. split; [done|split; [done|]]. apply (ab_le _ _ _ _ Ha). elt.
Qed.

(** * Evicting the oldest page *)

(** The page [p] of frame [i], mapped at [va], is first in the queue before the
    nodes [rest]; the free pages are [l ++ [t]]; all the words involved keep
    clear of each other and of the page tables. *)
Record evictable (s : kst) (mm pd i pa va p : Z) (rest l : list Z) (t : Z) : Prop := {
  ev_page : p = k_pages s + sizeof_Page * i + VERTUAL_MEM ;
  ev_frame : frame_of s i pa ;
  ev_va : rd32 (k_mem s) (pg_va p) = va /\ 0 <= va < 2 ^ 32 - PAGE_SIZE ;
  ev_pd : rd32 (k_mem s) (mm_pde mm) = pd ;
  ev_tables : tables (k_mem s) pd ;
  ev_present : present (rd32 (k_mem s) (pde_slot pd va)) = true ;
  ev_queue : dlist (k_mem s) (mm_vm_fifo mm) (pg_node p :: rest) ;
  ev_free : dlist (k_mem s) free_pages_head (pg_node <$> l ++ [t]) ;
  ev_above : above (k_mem s) l t p ;
  ev_off : forall a, a ∈ [pg_va p; mm_pde mm; pg_free_pages (page_of_node (before free_pages_head (pg_node <$> l)))] \/
    (exists n, n ∈ mm_vm_fifo mm :: pg_node p :: rest ++ free_pages_head :: (pg_node <$> l ++ [t]) /\ (a = n \/ a = n + 4)) ->
    off_tables (k_mem s) pd a ;
  ev_queue_free : forall n, n ∈ mm_vm_fifo mm :: rest ->
    (off_nodes (free_pages_head :: (pg_node <$> l ++ [p; t])) n /\ wd (pg_flags p) n /\ wd (pg_free_pages p) n) /\
    (off_nodes (free_pages_head :: (pg_node <$> l ++ [p; t])) (n + 4) /\ wd (pg_flags p) (n + 4) /\ wd (pg_free_pages p) (n + 4)) ;
  ev_free_queue : forall n, n ∈ free_pages_head :: (pg_node <$> l ++ [t]) ->
    off_nodes (mm_vm_fifo mm :: rest) n /\ off_nodes (mm_vm_fifo mm :: rest) (n + 4) ;
  ev_count_queue : off_nodes (mm_vm_fifo mm :: rest) (pg_free_pages (page_of_node (before free_pages_head (pg_node <$> l)))) ;
  ev_slot : let x := pte_slot (k_mem s) pd va in
    off_nodes (mm_vm_fifo mm :: rest) x /\ off_nodes (free_pages_head :: (pg_node <$> l ++ [p; t])) x /\
    wd (pg_flags p) x /\ wd (pg_free_pages p) x ;
  ev_dir : let x := pde_slot pd va in
    off_nodes (mm_vm_fifo mm :: rest) x /\ off_nodes (free_pages_head :: (pg_node <$> l ++ [p; t])) x /\
    wd (pg_flags p) x /\ wd (pg_free_pages p) x
}.

(** The words that [swap_out] of one page leaves as they are. *)
Record evict_off (s : kst) (mm pd va p : Z) (rest l : list Z) (t a : Z) : Prop := {
  eo_slot : wd (pte_slot (k_mem s) pd va) a ;
  eo_queue : off_nodes (mm_vm_fifo mm :: rest) a ;
  eo_free : off_nodes (free_pages_head :: (pg_node <$> l ++ [p; t])) a ;
  eo_flags : wd (pg_flags p) a ;
  eo_count : wd (pg_free_pages p) a
}.

(** The three stores to the entry. *)
Definition evict_entry (m : memory) (x va : Z) : memory :=
  let m := wr32 m x (bf_set 0 9 0 (rd32 m x)) in
  let m := wr32 m x (bf_set 12 20 0 (rd32 m x)) in
  wr32 m x (swap_entry va).

Lemma evict_entry_spec m x va : 0 <= x < 2 ^ 30 -> 0 <= va < 2 ^ 32 - PAGE_SIZE ->
  rd32 (evict_entry m (x + VERTUAL_MEM) va) x = swap_entry va /\
  forall a, wd (x + VERTUAL_MEM) a -> rd32 (evict_entry m (x + VERTUAL_MEM) va) a = rd32 m a.
Proof.
  intros Hx Hva. unfold evict_entry. split.
  - rewrite rd32_wr32_alias by done. destruct (swap_entry_val va Hva) as [Hr ->]. apply w32_small. lia.
  - intros a Ha. by rewrite !rd32_wr32_ne.
Qed.

(** Memory and queue after the entry is stored and the page is unlinked. *)
Lemma evict_unlink s mm pd i pa va p rest l t : evictable s mm pd i pa va p rest l t ->
  let x := pte_slot (k_mem s) pd va in
  let m2 := list_delete (pg_node p) (evict_entry (k_mem s) (x + VERTUAL_MEM) va) in
  rd32 m2 x = swap_entry va /\ rd32 m2 (pde_slot pd va) = rd32 (k_mem s) (pde_slot pd va) /\
  dlist m2 (mm_vm_fifo mm) rest /\ dlist m2 free_pages_head (pg_node <$> l ++ [t]) /\ above m2 l t p /\
  rd32 (evict_entry (k_mem s) (x + VERTUAL_MEM) va) (node_next (mm_vm_fifo mm)) = pg_node p /\
  forall a, wd x a -> off_nodes (mm_vm_fifo mm :: rest) a -> rd32 m2 a = rd32 (k_mem s) a.
Proof.
  intros [Ep Hfr [Eva Hva] Epd Ht Hp Hq Hfree Hab Hoff Hqf Hfq Hcq (S1 & S2 & S3 & S4) (D1 & D2 & D3 & D4)] x m2.
  assert (Hva' : 0 <= va < 2 ^ 32) by (unfold PAGE_SIZE in Hva; lia).
  assert (Hx : 0 <= x < 2 ^ 30) by (by apply slot_low).
  set (m1 := evict_entry (k_mem s) (x + VERTUAL_MEM) va) in *.
  destruct (evict_entry_spec (k_mem s) x va Hx Hva) as [E1 F1]. fold m1 in E1, F1.
  assert (Fo : forall a, off_tables (k_mem s) pd a -> rd32 m1 a = rd32 (k_mem s) a).
  { intros a Ha. apply F1. destruct (Ha va Hva') as [_ Hw]. specialize (Hw Hp). unfold wd in *. rewrite ka_alias by done. fold x in Hw. lia. }
  assert (Hq1 : dlist m1 (mm_vm_fifo mm) (pg_node p :: rest)).
  { apply (dlist_frame (k_mem s)); [|exact Hq]. intros a (n & Hn & Ha). apply Fo, Hoff. right. exists n. split; [|done].
    revert Hn. rewrite !elem_of_cons, elem_of_app. tauto. }
  destruct (list_delete_spec m1 (mm_vm_fifo mm) [] (pg_node p) rest Hq1) as [Hq2 F2]. fold m2 in Hq2, F2. cbn [app] in Hq2, F2.
  assert (Hcnt : let c := pg_free_pages (page_of_node (before free_pages_head (pg_node <$> l))) in rd32 m2 c = rd32 (k_mem s) c).
  { cbv zeta. rewrite F2 by done. apply Fo, Hoff. left. rewrite !elem_of_cons. auto. }
  split_and!; try done.
  - by rewrite F2.
  - rewrite F2 by done. apply F1. by apply (slots_apart (k_mem s) pd Ht va va).
  - apply (dlist_frame (k_mem s)); [|exact Hfree]. intros a (n & Hn & Ha). destruct (Hfq n Hn) as [Q1 Q2].
    rewrite F2 by (by destruct Ha as [-> | ->]). apply Fo, Hoff. right. exists n. split; [|done].
    rewrite !elem_of_cons, elem_of_app. tauto.
  - destruct Hab as [A1 A2 A3 A4 A5 A6 (A7 & A8 & A9 & A10)]. constructor; try done. cbv zeta in *. by rewrite Hcnt.
  - apply (dlist_first _ _ _ Hq1).
  - intros a A1 A2. rewrite F2 by done. apply F1. by apply (wd_alias x).
Qed.

Lemma swap_out_run s mm pd i pa va p rest l t q fuel :
  evictable s mm pd i pa va p rest l t -> (length l + 1 < fuel)%nat ->
  k_inq s = 0x40 :: replicate 8 0x40 ++ q ->
  let la := pa + VERTUAL_MEM in
  exists m', swap_out fuel mm 1 s = Ok tt (set_free_page_num (s32 (k_free_page_num s + 1)) (set_log
      (EvPrintf "swap %x page to swap.img!\n" [la] :: rev (EvOutsl 0x1F0 <$> sectors_at 8 (k_mem s) la) ++
        command_log (va_sector va) 1 8 0x30 ++ k_log s) (set_inq q (set_mem m' s)))) /\
    rd32 m' (pte_slot (k_mem s) pd va) = swap_entry va /\ walk m' pd va = None /\
    dlist m' (mm_vm_fifo mm) rest /\ dlist m' free_pages_head (pg_node <$> l ++ [p; t]) /\ rd32 m' (pg_free_pages p) = 1 /\
    forall a, evict_off s mm pd va p rest l t a -> rd32 m' a = rd32 (k_mem s) a.
Proof.
  intros He Hf Hinq la. destruct (evict_unlink _ _ _ _ _ _ _ _ _ _ He) as (E2 & P2 & Q2 & L2 & A2 & N1 & F1).
  pose proof He as [Ep Hfr [Eva Hva] Epd Ht Hp Hq Hfree Hab Hoff Hqf Hfq Hcq (S1 & S2 & S3 & S4) (D1 & D2 & D3 & D4)].
  set (x := pte_slot (k_mem s) pd va) in *. set (m1 := evict_entry _ _ _) in *. set (m2 := list_delete _ m1) in *.
  assert (Hva' : 0 <= va < 2 ^ 32) by (unfold PAGE_SIZE in Hva; lia).
  assert (Hx : 0 <= x < 2 ^ 30) by (by apply slot_low).
  assert (Hpw : 0 <= p /\ p + sizeof_Page < 2 ^ 32) by (apply (ab_words _ _ _ _ Hab); elt).
  assert (Ela : forall s', k_pages s' = k_pages s -> k_pt_begin s' = k_pt_begin s -> pg_to_addr_la p s' = Ok la s').
  { intros s' E1 E3. rewrite Ep. by apply (frame_la_run s). }
  assert (Hsp : span la PAGE_SIZE).
  { destruct Hfr as [Hi Hpg (Ea & Hb & Hpa) Hal]. unfold span, la, PAGE_SIZE, VERTUAL_MEM in *. lia. }
  assert (Hva_kept : forall v w, rd32 (wr32 (wr32 (k_mem s) (x + VERTUAL_MEM) v) (x + VERTUAL_MEM) w) (pg_va p) = va).
  { intros v w. assert (off_tables (k_mem s) pd (pg_va p)) as Ho by (apply Hoff; left; left).
    destruct (Ho va Hva') as [_ Hw]. specialize (Hw Hp). fold x in Hw.
    rewrite !rd32_wr32_ne; [done|unfold wd in *; rewrite ka_alias by done; lia..]. }
  destruct fuel as [|[|k]]; [lia|lia|].
  set (lg := EvPrintf "swap %x page to swap.img!\n" [la] :: rev (EvOutsl 0x1F0 <$> sectors_at 8 (k_mem s) la) ++
        command_log (va_sector va) 1 8 0x30 ++ k_log s).
  set (s2 := set_mem m2 (set_log lg (set_inq q s))).
  destruct (free_page_above_run s2 l t p (S (S k)) L2 A2 Hf) as (m' & R & L3 & C3 & F3).
  change (k_mem s2) with m2 in F3. assert (En0 : present (swap_entry va) = false).
  { destruct (swap_entry_val va Hva) as [_ ->]. unfold present. rewrite Z.odd_mul. by rewrite andb_false_r. }
  exists m'. split; [|split; [|split; [|split; [|split; [done|split; [done|]]]]]].
  - unfold swap_out. cbn [swap_out_loop]. krun.
    assert (En : rd32 (k_mem s) (node_next (mm_vm_fifo mm)) = pg_node p) by apply (dlist_first _ _ _ Hq). rewrite En.
    rewrite (proj2 (Z.eqb_neq _ _)) by (apply (dlist_not_head _ _ _ _ Hq); left). change (0 <? 1) with true. cbn [negb andb]. krun.
    rewrite page_of_word, Epd, Eva by done. unfold find_pte. rewrite (get_pte_present _ s pd va 0 Ht Hva' Hp). fold x.
    rewrite (Ela s) by done. rewrite (swap_write_run (S (S k)) s la va q) by (done || lia).
    rewrite Ela by done. krun. unfold set_pte_sign, set_pte_page_addr. krun. rewrite Hva_kept.
    fold (evict_entry (k_mem s) (x + VERTUAL_MEM) va). fold m1. rewrite N1. fold m2.
    match goal with |- context [free_page (S (S k)) p 1 ?st] => change st with s2 end. rewrite R.
    change (0 <? 1 - 1) with false. rewrite andb_false_r. reflexivity.
  - rewrite F3 by done. exact E2.
  - unfold walk. rewrite F3, P2, Hp by done. rewrite (slot_ext (k_mem s) m' pd va) by (by rewrite F3, P2 by done). fold x.
    rewrite F3, E2 by done. by rewrite En0.
  - apply (dlist_frame m2); [|exact Q2]. intros a (n & Hn & [-> | ->]); destruct (Hqf n Hn) as [(B1 & B2 & B3) (C1 & C2 & C4)];
    by apply F3.
  - intros a [O1 O2 O3 O4 O5]. rewrite F3 by done. by apply F1.
Qed.

(** [swap_out] of one page: the oldest one goes to the eight sectors that belong to
    its address, its entry then names these sectors and is not present, it leaves the
    queue and joins the free pages (below the last one), and the count of free pages
    goes up. The TLB is not told. *)
Theorem swap_out_evicts s mm pd i pa va p rest l t q fuel :
  evictable s mm pd i pa va p rest l t -> (length l + 1 < fuel)%nat ->
  k_inq s = 0x40 :: replicate 8 0x40 ++ q ->
  let la := pa + VERTUAL_MEM in
  exists m', swap_out fuel mm 1 s = Ok tt (set_free_page_num (s32 (k_free_page_num s + 1)) (set_log
      (EvPrintf "swap %x page to swap.img!\n" [la] :: rev (EvOutsl 0x1F0 <$> sectors_at 8 (k_mem s) la) ++
        command_log (va_sector va) 1 8 0x30 ++ k_log s) (set_inq q (set_mem m' s)))) /\
    rd32 m' (pte_slot (k_mem s) pd va) = swap_entry va /\ walk m' pd va = None /\
    dlist m' (mm_vm_fifo mm) rest /\ dlist m' free_pages_head (pg_node <$> l ++ [p; t]) /\ rd32 m' (pg_free_pages p) = 1 /\
    forall a, evict_off s mm pd va p rest l t a -> rd32 m' a = rd32 (k_mem s) a.
Proof. apply swap_out_run. Qed.

End Evict.
