(* ===== verification/Restore.v ===== *)
(** A page that comes back from the disk: the fault handler of mm/vmm.c with
    [swap_in] of mm/swap.c behind it, and the way of a page out and in again. *)

From S2P Require Import Prelude Machine DList Str Pmm Paging Ports Swap Malloc Vmm Demand Evict.

Local Open Scope Z_scope.

(** The word at [a] is not in the frame at [pa]. *)
Definition off_frame (pa a : Z) : Prop := ka a + 4 <= pa \/ pa + PAGE_SIZE <= ka a.

Lemma off_frame_wd pa a x : off_frame pa a -> pa <= ka x -> ka x + 4 <= pa + PAGE_SIZE -> wd a x.
Proof. unfold off_frame, wd. lia. Qed.

Section Restore.
Context `{Symbols}.

(** The tables, the queue and the descriptor of page [i] are not in its frame. *)
Record frame_apart (s : kst) (mm pd i pa : Z) (fifo : list Z) (p : Z) : Prop := {
  fa_mm : off_frame pa (mm_pde mm) ;
  fa_ref : off_frame pa (k_pages s + sizeof_Page * i) ;
  fa_va : off_frame pa (pg_va p) ;
  fa_nodes : forall n, n ∈ queue_nodes mm fifo (pg_node p) -> off_frame pa n /\ off_frame pa (n + 4) ;
  fa_tables : forall la, 0 <= la < 2 ^ 32 -> off_frame pa (pde_slot pd la) /\
    (present (rd32 (k_mem s) (pde_slot pd la)) = true -> off_frame pa (pte_slot (k_mem s) pd la))
}.

Section Frame.
Context (s : kst) (mm pd i pa : Z) (fifo : list Z) (p : Z) (m : memory).
Hypothesis Hap : frame_apart s mm pd i pa fifo p.
Hypothesis Hm : forall x, off_frame pa x -> rd32 m x = rd32 (k_mem s) x.

(** Data that comes into the frame leaves the tables and the queue. *)
Lemma frame_pde la : 0 <= la < 2 ^ 32 -> rd32 m (pde_slot pd la) = rd32 (k_mem s) (pde_slot pd la).
Proof. intros Hla. by apply Hm, (fa_tables _ _ _ _ _ _ _ Hap). Qed.

Lemma frame_slot la : 0 <= la < 2 ^ 32 -> present (rd32 (k_mem s) (pde_slot pd la)) = true ->
  pte_slot m pd la = pte_slot (k_mem s) pd la /\ rd32 m (pte_slot (k_mem s) pd la) = rd32 (k_mem s) (pte_slot (k_mem s) pd la).
Proof.
  intros Hla Hp. split; [by apply slot_ext, frame_pde|]. by apply Hm, (fa_tables _ _ _ _ _ _ _ Hap).
Qed.

Lemma frame_off_tables a : off_tables (k_mem s) pd a -> off_tables m pd a.
Proof. apply off_tables_ext, frame_pde. Qed.

Lemma frame_page_free s' : k_mem s' = m -> k_pages s' = k_pages s ->
  page_free s mm pd i fifo p -> page_free s' mm pd i fifo p.
Proof.
  intros E1 E2 [P1 P2 P3 Hn P5 P6 P7 P8 P9 P10]. constructor; rewrite ?E1, ?E2; try done.
  - apply (dlist_frame (k_mem s)); [|done]. intros a (x & Hx & Ha). apply Hm.
    destruct (fa_nodes _ _ _ _ _ _ _ Hap x); [by apply queue_nodes_sub|]. by destruct Ha as [-> | ->].
  - intros n Hin. destruct (Hn n Hin). split; by apply frame_off_tables.
  - by apply frame_off_tables.
  - by apply frame_off_tables.
Qed.

End Frame.

(** A page whose data is in its frame is mapped, labelled and queued: the last
    part of [swap_in]. *)
Lemma enter_page alloc_page fuel s mm pd la i pa fifo p :
  tables (k_mem s) pd -> 0 <= la < 2 ^ 32 -> la mod PAGE_SIZE = 0 ->
  present (rd32 (k_mem s) (pde_slot pd la)) = true -> present (rd32 (k_mem s) (pte_slot (k_mem s) pd la)) = false ->
  frame_of s i pa -> page_free s mm pd i fifo p -> frame_apart s mm pd i pa fifo p -> rd32 (k_mem s) (mm_pde mm) = pd ->
  exists m', (pde ← load (mm_pde mm);
      pa ← pg_to_addr_pa p;
      map alloc_page fuel pde la pa 0x7;;
      store (pg_va p) la;;
      on_mem (list_insert_before (mm_vm_fifo mm) (pg_node p))) s =
    Ok tt (set_log (EvInvlpg la :: k_log s) (set_mem m' s)) /\
    walk m' pd la = Some pa /\ dlist m' (mm_vm_fifo mm) (fifo ++ [pg_node p]) /\ rd32 m' (pg_va p) = la /\
    rd32 m' (pde_slot pd la) = rd32 (k_mem s) (pde_slot pd la) /\ pte_sign (rd32 m' (pte_slot (k_mem s) pd la)) = 7 /\
    forall x, pa <= ka x -> ka x + 4 <= pa + PAGE_SIZE -> rd32 m' x = rd32 (k_mem s) x.
Proof.
  intros Ht Hla Hal Hp Hnp Hfr Hpf Hap Hpd. pose proof Hpf as [Ep _ _ _ Href Hva _ _ _ _]. set (x := pte_slot (k_mem s) pd la).
  destruct (map_from alloc_page fuel s s pd la pa 7 i) as (m1 & R & W & _ & _ & G & F); try done.
  { by apply get_pte_present. }
  fold x in G, F. set (m2 := wr32 m1 (pg_va p) la).
  assert (Ft : forall a, 0 <= a < 2 ^ 32 -> rd32 m1 (pde_slot pd a) = rd32 (k_mem s) (pde_slot pd a)).
  { intros a Ha. apply F; [|by apply Href]. apply (wd_alias x); [by apply slot_low|]. by apply (slots_apart (k_mem s) pd Ht la a Hla Ha Hp). }
  assert (F2 : forall a, wd x a -> wd (k_pages s + sizeof_Page * i) a -> wd (pg_va p) a -> rd32 m2 a = rd32 (k_mem s) a).
  { intros a A1 A2 A3. unfold m2. rewrite rd32_wr32_ne by done. by apply F. }
  destruct (queue_page s mm pd la i fifo p m2 Ht Hla Hp Hpf F2) as (W3 & D3 & V3 & P3 & X3 & F3). fold x in X3.
  exists (list_insert_before (mm_vm_fifo mm) (pg_node p) m2). split; [|split; [|split; [exact D3|split; [|split; [exact P3|split]]]]].
  - krun. rewrite Hpd. rewrite Ep at 1. rewrite (frame_pa_run s s i pa) by done. rewrite R. krun. fold m2. done.
  - rewrite W3. unfold m2. rewrite walk_wr32, W, Hal by (done || by apply (off_tables_ext (k_mem s))).
    change (Z.odd 7) with true. by rewrite Z.add_0_r.
  - rewrite V3. by apply rd32_wr32_small.
  - rewrite X3. unfold m2. rewrite rd32_wr32_ne; [done|]. by apply Hva.
  - intros a A1 A2. destruct Hap as [_ Aref Ava Anode Atab]. rewrite F3; [apply F2|].
    + eapply off_frame_wd; [|done..]. by apply Atab.
    + eapply off_frame_wd; [|done..]. done.
    + eapply off_frame_wd; [|done..]. done.
    + intros n Hn. destruct (Anode n Hn). split; by eapply off_frame_wd.
Qed.

Variable fuel : nat.

(** The handler can bring the page of [cr2] in: the area [vma] is found (in
    [s1]) and allows the access [w], the entry names the sectors of the page, the
    page [p] of frame [i] is taken (in [s2]), and the drive then answers [data]. *)
Record restores (s : kst) (cr2 w vma : Z) (s1 s2 : kst) (pd i pa : Z) (fifo : list Z) (p : Z) (data : list (list Z)) (q : list Z) : Prop := {
  rs_addr : 0 <= cr2 < 2 ^ 32 - PAGE_SIZE ;
  rs_found : find_vma fuel (k_mm s) (ROUNDDOWN cr2) s = Ok vma s1 ;
  rs_area : vma <> NULL /\ allows (rd32 (k_mem s1) (vma_flags vma)) w ;
  rs_tables : k_mm s1 = k_mm s /\ rd32 (k_mem s1) (mm_pde (k_mm s)) = pd /\ tables (k_mem s1) pd ;
  rs_entry : present (rd32 (k_mem s1) (pde_slot pd (ROUNDDOWN cr2))) = true /\
    rd32 (k_mem s1) (pte_slot (k_mem s1) pd (ROUNDDOWN cr2)) = swap_entry (ROUNDDOWN cr2) /\ ~ untouched (k_mem s1) pd (ROUNDDOWN cr2) ;
  rs_taken : kalloc_page fuel 1 (set_log (EvPrintf "swap %x page come in!\n" [ROUNDDOWN cr2] :: k_log s1) s1) = Ok p s2 ;
  rs_kept : tables (k_mem s2) pd /\ rd32 (k_mem s2) (mm_pde (k_mm s)) = pd /\
    rd32 (k_mem s2) (pde_slot pd (ROUNDDOWN cr2)) = rd32 (k_mem s1) (pde_slot pd (ROUNDDOWN cr2)) /\
    rd32 (k_mem s2) (pte_slot (k_mem s2) pd (ROUNDDOWN cr2)) = swap_entry (ROUNDDOWN cr2) ;
  rs_frame : frame_of s2 i pa ;
  rs_free : page_free s2 (k_mm s) pd i fifo p ;
  rs_apart : frame_apart s2 (k_mm s) pd i pa fifo p ;
  rs_data : length data = 8%nat /\ Forall (fun ws => length ws = 128%nat) data ;
  rs_drive : k_inq s2 = 0x40 :: sector_answers data ++ q
}.

(** What is left: as after a first touch, but the page has its data, and its entry
    allows writes whatever the area says. *)
Record restored (m' : memory) (s2 : kst) (mm cr2 pd pa : Z) (fifo : list Z) (p : Z) (data : list (list Z)) : Prop := {
  rd_walk : walk m' pd cr2 = Some (pa + cr2 mod PAGE_SIZE) ;
  rd_queue : dlist m' (mm_vm_fifo mm) (fifo ++ [pg_node p]) ;
  rd_label : rd32 m' (pg_va p) = ROUNDDOWN cr2 ;
  rd_pde : rd32 m' (pde_slot pd (ROUNDDOWN cr2)) = rd32 (k_mem s2) (pde_slot pd (ROUNDDOWN cr2)) ;
  rd_sign : pte_sign (rd32 m' (pte_slot m' pd (ROUNDDOWN cr2))) = 7 ;
  rd_data : words_at 1024 m' (pa + VERTUAL_MEM) = (w32 <$> concat data)
}.

Lemma swap_entry_absent va : 0 <= va < 2 ^ 32 - PAGE_SIZE -> present (swap_entry va) = false.
Proof. intros Hva. destruct (swap_entry_val va Hva) as [_ ->]. unfold present. rewrite Z.odd_mul. by rewrite andb_false_r. Qed.

Section Run.
Context (s : kst) (cr2 w vma : Z) (s1 s2 : kst) (pd i pa : Z) (fifo : list Z) (p : Z) (data : list (list Z)) (q : list Z).
Hypothesis Hr : restores s cr2 w vma s1 s2 pd i pa fifo p data q.
Hypothesis Hf : (0 < fuel)%nat.

Let la : Z := ROUNDDOWN cr2.
Let mm : Z := k_mm s.

Lemma restores_page : la = cr2 - cr2 mod PAGE_SIZE /\ 0 <= la < 2 ^ 32 - PAGE_SIZE /\ la mod PAGE_SIZE = 0.
Proof.
  pose proof (rs_addr _ _ _ _ _ _ _ _ _ _ _ _ _ Hr) as Ha. unfold la. destruct (ROUNDDOWN_small cr2) as [-> _]; unfold PAGE_SIZE in *; lia_div.
Qed.

Lemma restores_span : span (pa + VERTUAL_MEM) PAGE_SIZE /\ ka (pa + VERTUAL_MEM) = pa.
Proof.
  destruct (rs_frame _ _ _ _ _ _ _ _ _ _ _ _ _ Hr) as [Hi Hpg (Ea & Hb & Hpa) Hal]. unfold span, PAGE_SIZE, VERTUAL_MEM in *.
  split; [lia|]. rewrite ka_high; unfold VERTUAL_MEM; lia.
Qed.

(** The transfer and what follows it. *)
Lemma swap_in_run : exists m', swap_in fuel mm la 0x5 s1 =
    Ok tt (set_log (EvInvlpg la :: command_log (va_sector la) 1 8 0x20 ++ k_log s2) (set_inq q (set_mem m' s2))) /\
  restored m' s2 mm cr2 pd pa fifo p data.
Proof.
  pose proof Hr as [Ha Hfind [Hv Hall] (Hmm & Hpd & Ht) (Hp & He & Hu) Hal (Ht2 & Hpd2 & Epd2 & He2) Hfr Hpf Hap [Hl Hw] Hq].
  destruct restores_page as (Ela & Hla & Hmod). destruct restores_span as [Hsp Eka].
  fold la mm in Hfind, Hmm, Hpd, Hp, He, Hu, Hal, Hpd2, Epd2, He2, Hpf, Hap.
  assert (Hla' : 0 <= la < 2 ^ 32) by (unfold PAGE_SIZE in Hla; lia).
  assert (Hp2 : present (rd32 (k_mem s2) (pde_slot pd la)) = true) by (by rewrite Epd2).
  assert (Ex : pte_slot (k_mem s1) pd la = pte_slot (k_mem s2) pd la) by (by symmetry; apply slot_ext).
  set (x := pte_slot (k_mem s2) pd la) in *. assert (Hx : 0 <= x < 2 ^ 30) by (by apply slot_low).
  destruct (swap_read_run fuel s2 (pa + VERTUAL_MEM) (x + VERTUAL_MEM) la data q Hf Hsp Hla) as (m3 & R3 & W3 & F3);
    [by rewrite rd32_slot_alias|done|done|done|].
  set (s3 := set_log (command_log (va_sector la) 1 8 0x20 ++ k_log s2) (set_inq q (set_mem m3 s2))).
  assert (F3' : forall a, off_frame pa a -> rd32 m3 a = rd32 (k_mem s2) a) by (intros a Ao; apply F3; by rewrite Eka).
  destruct (frame_slot s2 mm pd i pa fifo p m3 Hap F3' la Hla' Hp2) as [Es3 Ee3]. fold x in Es3, Ee3.
  pose proof (frame_pde s2 mm pd i pa fifo p m3 Hap F3') as Fp.
  assert (Ht3 : tables m3 pd) by (by apply (tables_ext (k_mem s2))).
  destruct (enter_page (kalloc_page fuel) fuel s3 mm pd la i pa fifo p) as (m' & R & Wk & D & V & P & G & C).
  - exact Ht3.
  - done.
  - done.
  - cbn [s3 k_mem set_mem set_inq set_log]. by rewrite Fp.
  - cbn [s3 k_mem set_mem set_inq set_log]. rewrite Es3, Ee3, He2. by apply swap_entry_absent.
  - destruct Hfr. by constructor.
  - by apply (frame_page_free s2 mm pd i pa fifo p m3 Hap F3').
  - destruct Hap as [A1 A2 A3 A4 A5]. constructor; try done. cbn [s3 k_mem set_mem set_inq set_log]. intros a Hra.
    rewrite Fp by done. destruct (A5 a Hra) as [B1 B2]. split; [done|]. intros Hpa. rewrite (slot_ext (k_mem s2)) by (by apply Fp). by apply B2.
  - cbn [s3 k_mem set_mem set_inq set_log]. rewrite F3' by apply Hap. exact Hpd2.
  - cbn [s3 k_mem set_mem set_inq set_log k_log k_inq] in R, P, G, C. exists m'. split.
    + unfold swap_in, find_pte. krun. rewrite Hpd.
      rewrite (get_pte_present _ (set_log _ s1) pd la 0 Ht Hla' Hp). cbn [k_mem set_log]. rewrite Ex. krun. rewrite Hal.
      rewrite (pf_addr _ _ _ _ _ _ Hpf) at 1. rewrite (frame_la_run s2 s2 i pa) by done. rewrite R3. fold s3. revert R. krun. intros R. rewrite R. done.
    + constructor; [|exact D|exact V|fold la; rewrite P; by apply Fp| |].
      * rewrite walk_page by (unfold PAGE_SIZE in *; lia). fold la. by rewrite Wk.
      * rewrite (slot_ext m3) by exact P. fold la. rewrite Es3 in G |- *. exact G.
      * rewrite <- W3. apply words_at_ext; [exact Hsp|]. intros a A1 A2. apply C; unfold PAGE_SIZE in *; lia.
Qed.

Lemma do_swap_restores : exists m', do_swap fuel cr2 w s =
    Ok tt (set_log (EvInvlpg la :: command_log (va_sector la) 1 8 0x20 ++ k_log s2) (set_inq q (set_mem m' s2))) /\
  restored m' s2 mm cr2 pd pa fifo p data.
Proof.
  destruct swap_in_run as (m' & R & Hres). exists m'. split; [|exact Hres].
  pose proof Hr as [_ Hfind [Hv Hall] (_ & Hpd & Ht) (Hp & _ & Hu) _ _ _ _ _ _ _]. destruct restores_page as (_ & Hla & _).
  assert (Hla' : 0 <= la < 2 ^ 32) by (unfold PAGE_SIZE in Hla; lia). fold la mm in Hfind, Hpd, Hp, Hu.
  unfold do_swap. krun. fold la mm. rewrite Hfind, do_swap_check_ok by done. krun. rewrite Hpd, sign_is_5.
  rewrite (get_pte_present (kalloc_page fuel) s1 pd la 1 Ht Hla' Hp). krun. rewrite rd32_slot_alias by (by apply slot_low).
  destruct (_ && _) eqn:E; [|by rewrite R]. destruct Hu. unfold untouched. cbn zeta.
  apply andb_true_iff in E as [E1%Z.eqb_eq E2%Z.eqb_eq]. done.
Qed.

End Run.

Lemma page_fault_restores_run s cr2 errorCode w vma s1 s2 pd i pa fifo p data q :
  let s0 := set_log (EvPrintf "page_fault triggered==> at cr2: %x.\n" [cr2] :: k_log s) s in
  errorCode mod 4 = 2 * w -> Z.land errorCode 0x8 = 0 -> Z.land errorCode 0x10 = 0 ->
  restores s0 cr2 w vma s1 s2 pd i pa fifo p data q -> (0 < fuel)%nat ->
  exists m', page_fault fuel cr2 errorCode s =
    Ok tt (set_log (EvInvlpg (ROUNDDOWN cr2) :: command_log (va_sector (ROUNDDOWN cr2)) 1 8 0x20 ++ k_log s2) (set_inq q (set_mem m' s2))) /\
    restored m' s2 (k_mm s) cr2 pd pa fifo p data.
Proof.
  intros s0 He H8 H16 Hr Hf. destruct (do_swap_restores s0 cr2 w vma s1 s2 pd i pa fifo p data q Hr Hf) as (m' & R & Hres).
  exists m'. split; [|exact Hres]. apply (page_fault_absent fuel s cr2 errorCode w); try done.
  destruct (rs_area _ _ _ _ _ _ _ _ _ _ _ _ _ Hr) as [_ [[-> _]|[-> _]]]; auto.
Qed.

(** C18: A fault on a page that is on the disk, with an access its area allows: the
    handler takes a page, reads the eight sectors the entry names into its frame, maps
    it, with all rights, and queues it last under its address; the frame then holds what
    the drive answered. *)
Theorem page_fault_restores s cr2 errorCode w vma s1 s2 pd i pa fifo p data q :
  let s0 := set_log (EvPrintf "page_fault triggered==> at cr2: %x.\n" [cr2] :: k_log s) s in
  errorCode mod 4 = 2 * w -> Z.land errorCode 0x8 = 0 -> Z.land errorCode 0x10 = 0 ->
  restores s0 cr2 w vma s1 s2 pd i pa fifo p data q -> (0 < fuel)%nat ->
  exists m', page_fault fuel cr2 errorCode s =
    Ok tt (set_log (EvInvlpg (ROUNDDOWN cr2) :: command_log (va_sector (ROUNDDOWN cr2)) 1 8 0x20 ++ k_log s2) (set_inq q (set_mem m' s2))) /\
    restored m' s2 (k_mm s) cr2 pd pa fifo p data.
Proof. apply page_fault_restores_run. Qed.

(** Every word of the page at its address, by the two records. *)
Lemma restored_word m' s2 mm cr2 pd i pa fifo p data off :
  restored m' s2 mm cr2 pd pa fifo p data -> 0 <= cr2 < 2 ^ 32 - PAGE_SIZE -> frame_of s2 i pa ->
  0 <= off < PAGE_SIZE -> off mod 4 = 0 ->
  walk m' pd (ROUNDDOWN cr2 + off) = Some (pa + off) /\
  Some (rd32 m' (pa + off)) = (w32 <$> concat data) !! Z.to_nat (off / 4).
Proof.
  intros [W _ _ _ _ D] Hcr [Hi Hpg (Ea & Hb & Hpa) Hal] Hoff H4. unfold PAGE_SIZE in *.
  destruct (ROUNDDOWN_small cr2 ltac:(lia)) as [El Hl]. unfold PAGE_SIZE in *. split.
  - rewrite walk_page in W by lia. unfold PAGE_SIZE in W.
    destruct (walk m' pd (ROUNDDOWN cr2)) as [a|] eqn:Ew; [|done]. injection W as W. assert (a = pa) as -> by lia.
    set (la := ROUNDDOWN cr2) in *. assert (Hla : 0 <= la + off < 2 ^ 32) by lia_div.
    destruct (ROUNDDOWN_small (la + off) Hla) as [E _]. unfold PAGE_SIZE in *.
    assert (Eo : (la + off) mod 4096 = off) by lia_div. rewrite Eo in E.
    assert (El2 : ROUNDDOWN (la + off) = la) by lia.
    rewrite walk_page by done. unfold PAGE_SIZE. by rewrite El2, Ew, Eo.
  - rewrite <- D, words_at_lookup by (unfold span, VERTUAL_MEM; lia_div). f_equal. rewrite Z2Nat.id by lia_div.
    replace (pa + VERTUAL_MEM + 4 * (off / 4)) with (pa + off + VERTUAL_MEM) by lia_div. rewrite rd32_slot_alias; [done|lia].
Qed.

(** C17: Out and in again: [swap_out] gives the drive the contents of the oldest page
    and leaves an entry that is not present; whatever happens meanwhile, a later fault
    on that page, served with the entry still there and a drive that answers what it was
    given, maps the address to a frame with the same contents, word by word. *)
Theorem evict_restore_roundtrip s mm pd i pa va p rest l t q0 :
  evictable s mm pd i pa va p rest l t -> (length l + 1 < fuel)%nat -> k_inq s = 0x40 :: replicate 8 0x40 ++ q0 ->
  let data := sectors_at 8 (k_mem s) (pa + VERTUAL_MEM) in
  (exists m1, swap_out fuel mm 1 s = Ok tt (set_free_page_num (s32 (k_free_page_num s + 1)) (set_log
      (EvPrintf "swap %x page to swap.img!\n" [pa + VERTUAL_MEM] :: rev (EvOutsl 0x1F0 <$> data) ++
        command_log (va_sector va) 1 8 0x30 ++ k_log s) (set_inq q0 (set_mem m1 s)))) /\
    rd32 m1 (pte_slot (k_mem s) pd va) = swap_entry va /\ walk m1 pd va = None) /\
  forall sB cr2 errorCode w vma s1 s2 pd' i' pa' fifo p' q,
    let s0 := set_log (EvPrintf "page_fault triggered==> at cr2: %x.\n" [cr2] :: k_log sB) sB in
    ROUNDDOWN cr2 = va -> errorCode mod 4 = 2 * w -> Z.land errorCode 0x8 = 0 -> Z.land errorCode 0x10 = 0 ->
    restores s0 cr2 w vma s1 s2 pd' i' pa' fifo p' data q ->
    exists m', page_fault fuel cr2 errorCode sB =
        Ok tt (set_log (EvInvlpg va :: command_log (va_sector va) 1 8 0x20 ++ k_log s2) (set_inq q (set_mem m' s2))) /\
      forall off, 0 <= off < PAGE_SIZE -> off mod 4 = 0 ->
        walk m' pd' (va + off) = Some (pa' + off) /\ rd32 m' (pa' + off) = rd32 (k_mem s) (pa + off).
Proof.
  intros He Hl Hq data. split.
  { destruct (swap_out_run s mm pd i pa va p rest l t q0 fuel He Hl Hq) as (m1 & R & E & W & _). by exists m1. }
  intros sB cr2 errorCode w vma s1 s2 pd' i' pa' fifo p' q s0 Eva Hc H8 H16 Hr.
  destruct (page_fault_restores_run sB cr2 errorCode w vma s1 s2 pd' i' pa' fifo p' data q Hc H8 H16 Hr ltac:(lia)) as (m' & R & Hres).
  rewrite Eva in R. exists m'. split; [exact R|]. intros off Hoff H4.
  destruct (restored_word m' s2 _ cr2 pd' i' pa' fifo p' data off Hres (rs_addr _ _ _ _ _ _ _ _ _ _ _ _ _ Hr)
    (rs_frame _ _ _ _ _ _ _ _ _ _ _ _ _ Hr) Hoff H4) as [W D].
  rewrite Eva in W. split; [exact W|].
  destruct (ev_frame _ _ _ _ _ _ _ _ _ _ He) as [Hi _ (Ea & Hb & Hpa) _]. unfold PAGE_SIZE in *.
  unfold data in D. rewrite concat_sectors_at, words_at_w32 in D by (unfold span, VERTUAL_MEM; lia).
  change (128 * 8)%nat with 1024%nat in D. rewrite words_at_lookup in D by (unfold span, VERTUAL_MEM; lia_div). injection D as ->.
  rewrite Z2Nat.id by lia_div. replace (pa + VERTUAL_MEM + 4 * (off / 4)) with (pa + off + VERTUAL_MEM) by lia_div.
  rewrite rd32_slot_alias; [done|lia].
Qed.

End Restore.
