(* ===== verification/Replace.v ===== *)
(** One page out for one page in: once the virtual memory manager runs,
    [alloc_page] of mm/pmm.c swaps the oldest page out for every single page it
    gives away, so a page fault on a new page evicts an old one. *)

From S2P Require Import Prelude Machine DList Str Pmm Paging Ports Swap Malloc Vmm Demand Evict.

Local Open Scope Z_scope.

(** The counts of a pool never lead past the page structures. *)
Lemma block_count_bound base m b : 0 <= base -> block_count m b -> (forall q, q ∈ pages_from b.1 b.2 -> is_page base q) ->
  forall r, r ∈ pages_from b.1 b.2 -> 0 <= r + rd32 m (pg_free_pages r) * sizeof_Page <= 2 ^ 30.
Proof.
  intros Hb (Hk & Hc & Hz) Hp r Hr. pose proof (rd32_range m (pg_free_pages r)) as H0.
  destruct (Hp r Hr) as (P1 & P2 & _). unfold sizeof_Page in *. apply elem_of_pages_from in Hr as (j & Hj & Er).
  destruct (decide (j = 0)) as [->|Hne].
  - rewrite Z.mul_0_r, Z.add_0_r in Er. subst r. rewrite Hc.
    destruct (Hp (b.1 + sizeof_Page * Z.of_nat (b.2 - 1))) as (_ & P3 & _);
      [apply elem_of_pages_from; exists (Z.of_nat (b.2 - 1)); lia|]. unfold sizeof_Page in P3. lia.
  - rewrite Hz; [lia|]. apply elem_of_pages_from. exists (j - 1). unfold sizeof_Page in *. lia.
Qed.

Lemma elem_of_pool_block bs r : r ∈ pool_pages bs -> exists b, b ∈ bs /\ r ∈ pages_from b.1 b.2.
Proof.
  induction bs as [|[p k] bs IH]; cbn [pool_pages]; [by intros ?%elem_of_nil|].
  intros [Hr|Hr]%elem_of_app; [by exists (p, k); split; [left|]|]. destruct (IH Hr) as (b & Hb & Hrb). exists b. split; [by right|done].
Qed.

Lemma before_cons h x l : l <> [] -> before h (x :: l) = before h l.
Proof. intros Hl. unfold before. rewrite last_cons. by destruct (last l) eqn:E; [|apply last_None in E]. Qed.

Lemma sign_0_absent e : pte_sign e = 0 -> present e = false.
Proof. intros Hs. pose proof (sign_present e) as E. rewrite Hs in E. by destruct (present e). Qed.

Section Replace.
Context `{Symbols}.

Lemma pool_count_bound base m bs r : geom base -> pool base m bs -> r ∈ pool_pages bs ->
  0 <= r + rd32 m (pg_free_pages r) * sizeof_Page <= 2 ^ 30.
Proof.
  intros [Hb _ _] [Hp _ _ Hc] Hr. destruct (elem_of_pool_block bs r Hr) as (b & Hin & Hrb). rewrite Forall_forall in Hc.
  apply (block_count_bound base m b); [lia|by apply Hc| |done]. intros x Hx. apply Hp. by eapply elem_of_pool_pages.
Qed.

(** The virtual memory manager runs, a page [q] can be taken from the first run
    of free pages and the oldest page [p] of the queue can be swapped out: the free
    pages are [q], [l] and [t]; their words are apart from the queue's and from
    the page tables. *)
Record replaceable (s : kst) (mm pd i pa va p : Z) (rest : list Z) (q : Z) (k : nat) (bs : list block) (l : list Z) (t : Z) : Prop := {
  rp_vmm : k_is_vmm_inited s = 1 /\ k_mm s = mm ;
  rp_pool : pool_ok s ((q, k) :: bs) /\ (1 < k)%nat ;
  rp_pages : pool_pages ((q, k) :: bs) = q :: l ++ [t] /\ l <> [] ;
  rp_evict : evictable s mm pd i pa va p rest (q :: l) t ;
  rp_off : forall a, a ∈ [pg_va p; mm_pde mm] \/ (exists n, n ∈ mm_vm_fifo mm :: pg_node p :: rest /\ (a = n \/ a = n + 4)) ->
    off_pool (q :: l ++ [t]) a ;
  rp_tables : forall r, r ∈ p :: q :: l ++ [t] -> off_tables (k_mem s) pd (pg_flags r) /\ off_tables (k_mem s) pd (pg_free_pages r) ;
  rp_data : forall a, pa <= ka a -> ka a + 4 <= pa + PAGE_SIZE -> off_pool (q :: l ++ [t]) a ;
  rp_mm : evict_off s mm pd va p rest l t (mm_pde mm)
}.

Section Taken.
Context (s : kst) (mm pd i pa va p : Z) (rest : list Z) (q : Z) (k : nat) (bs : list block) (l : list Z) (t : Z).
Hypothesis Hr : replaceable s mm pd i pa va p rest q k bs l t.

(** The words of the page tables are not the pool's. *)
Lemma table_words_off_pool la : 0 <= la < 2 ^ 32 -> off_pool (q :: l ++ [t]) (pde_slot pd la) /\
  (present (rd32 (k_mem s) (pde_slot pd la)) = true -> off_pool (q :: l ++ [t]) (pte_slot (k_mem s) pd la)).
Proof.
  intros Hla. pose proof (ev_off _ _ _ _ _ _ _ _ _ _ (rp_evict _ _ _ _ _ _ _ _ _ _ _ _ _ Hr)) as Hn.
  pose proof (rp_tables _ _ _ _ _ _ _ _ _ _ _ _ _ Hr) as Ht.
  assert (Ho : forall a, a ∈ (free_pages_head :: (pg_node <$> q :: l ++ [t])) -> off_tables (k_mem s) pd a /\ off_tables (k_mem s) pd (a + 4)).
  { intros a Ha. split; apply Hn; right; exists a; (split; [|by auto]); rewrite !elem_of_cons, elem_of_app, !elem_of_cons; revert Ha; cbn [app fmap list_fmap];
      rewrite !elem_of_cons; tauto. }
  split; [|intros Hp]; (split; [intros a Ha; destruct (Ho a Ha) as [O1 O2]|intros r Hin; destruct (Ht r ltac:(by right)) as [O1 O2]]);
    split; first [by apply O1|by apply O2].
Qed.

Context (m1 : memory) (n1 : Z).
Let s1 : kst := set_free_page_num n1 (set_mem m1 s).
Hypothesis Hp1 : pool_ok s1 ((q + sizeof_Page * Z.of_nat 1, (k - 1)%nat) :: bs).
Hypothesis Hf1 : forall a, off_pool (q :: l ++ [t]) a -> rd32 m1 a = rd32 (k_mem s) a.

Lemma taken_pde la : 0 <= la < 2 ^ 32 -> rd32 m1 (pde_slot pd la) = rd32 (k_mem s) (pde_slot pd la).
Proof. intros Hla. by apply Hf1, table_words_off_pool. Qed.

Lemma taken_slot la : 0 <= la < 2 ^ 32 -> pte_slot m1 pd la = pte_slot (k_mem s) pd la.
Proof. intros Hla. by apply slot_ext, taken_pde. Qed.

Lemma taken_pages : pool_pages ((q + sizeof_Page * Z.of_nat 1, (k - 1)%nat) :: bs) = l ++ [t].
Proof.
  destruct (rp_pool _ _ _ _ _ _ _ _ _ _ _ _ _ Hr) as [[_ Hp _] Hk]. destruct (rp_pages _ _ _ _ _ _ _ _ _ _ _ _ _ Hr) as [E _].
  rewrite (pool_split_head _ _ _ _ _ 1 Hp Hk) in E. cbn [pages_from app] in E. by injection E.
Qed.

(** Nodes of the queue of free pages, one less. *)
Lemma sub_free a x : off_nodes (free_pages_head :: (pg_node <$> (q :: l) ++ x)) a -> off_nodes (free_pages_head :: (pg_node <$> l ++ x)) a.
Proof. apply off_nodes_sub. intros y. cbn [app fmap list_fmap]. rewrite !elem_of_cons. tauto. Qed.

Lemma before_taken : before free_pages_head (pg_node <$> q :: l) = before free_pages_head (pg_node <$> l).
Proof.
  destruct (rp_pages _ _ _ _ _ _ _ _ _ _ _ _ _ Hr) as [_ Hl]. rewrite fmap_cons. apply before_cons.
  by intros ?%fmap_nil_inv.
Qed.

(** The page before the last one is in the pool. *)
Lemma before_page : exists r, r ∈ l /\ page_of_node (before free_pages_head (pg_node <$> l)) = r.
Proof.
  destruct (rp_pages _ _ _ _ _ _ _ _ _ _ _ _ _ Hr) as [_ Hl]. destruct l as [|r l' _] using rev_ind; [done|].
  exists r. split; [elt|]. rewrite fmap_app. unfold before. change (pg_node <$> [r]) with [pg_node r]. rewrite last_snoc. cbn [default from_option id].
  apply page_of_word, (ab_words _ _ _ _ (ev_above _ _ _ _ _ _ _ _ _ _ (rp_evict _ _ _ _ _ _ _ _ _ _ _ _ _ Hr))). elt.
Qed.

Lemma taken_above : above m1 l t p.
Proof.
  pose proof (rp_evict _ _ _ _ _ _ _ _ _ _ _ _ _ Hr) as He. destruct (ev_above _ _ _ _ _ _ _ _ _ _ He) as [A1 A2 A3 A4 A5 A6 A7].
  destruct before_page as (r & Hin & Er). cbv zeta in A7. rewrite before_taken, Er in A7. destruct A7 as (Q1 & Q2 & Q3 & _).
  constructor; [intros x Hx; apply A1; by right|intros x Hx; apply A2; by right|done| |by apply sub_free|by apply sub_free|].
  - apply (nodes_sep_sub _ _ A4).
    + pose proof (ns_nodup _ A4) as Hnd. cbn [app fmap list_fmap] in Hnd. apply NoDup_cons in Hnd as [N1 Hnd]. apply NoDup_cons in Hnd as [_ Hnd].
      apply NoDup_cons. split; [|exact Hnd]. intros Hx. apply N1. by right.
    + intros x. cbn [app fmap list_fmap]. rewrite !elem_of_cons. tauto.
  - cbv zeta. rewrite Er. split; [done|]. split; [done|]. split; [by apply sub_free|].
    assert (Hb : r ∈ pool_pages ((q + sizeof_Page * Z.of_nat 1, (k - 1)%nat) :: bs)) by (rewrite taken_pages; elt).
    pose proof (pool_count_bound _ m1 _ r (po_geom _ _ Hp1) (po_pool _ _ Hp1) Hb) as Hbd.
    pose proof (ev_page _ _ _ _ _ _ _ _ _ _ He) as Ep. destruct (ev_frame _ _ _ _ _ _ _ _ _ _ He) as [Hi [Hpg _] _ _].
    unfold page_add. rewrite w32_small by lia. unfold VERTUAL_MEM, sizeof_Page in *. lia.
Qed.

Lemma taken_off_tables a : off_tables (k_mem s) pd a -> off_tables m1 pd a.
Proof. apply off_tables_ext, taken_pde. Qed.

Lemma taken_evictable : evictable s1 mm pd i pa va p rest l t.
Proof.
  pose proof (rp_evict _ _ _ _ _ _ _ _ _ _ _ _ _ Hr) as He. pose proof (rp_off _ _ _ _ _ _ _ _ _ _ _ _ _ Hr) as Ho.
  pose proof He as [Ep Hfr [Eva Hva] Epd Ht Hp Hq Hfree Hab Hoff Hqf Hfq Hcq (S1 & S2 & S3 & S4) (D1 & D2 & D3 & D4)].
  assert (Hva' : 0 <= va < 2 ^ 32) by (unfold PAGE_SIZE in Hva; lia).
  rewrite before_taken in Hoff, Hcq. constructor; cbn [s1 k_mem k_pages k_pt_begin set_mem set_free_page_num]; try done.
  - destruct Hfr. by constructor.
  - rewrite Hf1; [done|]. apply Ho. left. elt.
  - rewrite Hf1; [done|]. apply Ho. left. elt.
  - by apply (tables_ext (k_mem s)), taken_pde.
  - by rewrite taken_pde.
  - apply (dlist_frame (k_mem s)); [|done]. intros a (n & Hn & Ha). apply Hf1, Ho. right. by exists n.
  - pose proof (pl_dlist _ _ _ (po_pool _ _ Hp1)) as Hd. by rewrite taken_pages in Hd.
  - apply taken_above.
  - intros a Ha. apply taken_off_tables, Hoff. destruct Ha as [Ha|(n & Hn & Ha)]; [by left|]. right. exists n. split; [|done].
    revert Hn. cbn [app fmap list_fmap]. rewrite ?elem_of_cons, !elem_of_app, ?elem_of_cons. tauto.
  - intros n Hn. destruct (Hqf n Hn) as [(B1 & B2 & B3) (C1 & C2 & C3)]. split; (split; [by apply sub_free|done]).
  - intros n Hn. apply Hfq. revert Hn. cbn [app fmap list_fmap]. rewrite !elem_of_cons. tauto.
  - cbv zeta. rewrite taken_slot by done. split; [done|]. split; [by apply sub_free|done].
  - cbv zeta. split; [done|]. split; [by apply sub_free|done].
Qed.

End Taken.

Variable fuel : nat.

(** What the exchange writes to the drive and to the screen. *)
Definition replace_log (s : kst) (pa va pa' : Z) : list event :=
  EvPrintf "alloc %d page: %x\n" [1; pa' + VERTUAL_MEM] :: EvPrintf "swap %x page to swap.img!\n" [pa + VERTUAL_MEM] ::
  rev (EvOutsl 0x1F0 <$> sectors_at 8 (k_mem s) (pa + VERTUAL_MEM)) ++ command_log (va_sector va) 1 8 0x30 ++ k_log s.

(** The frame of the page that leaves is apart from the pool. *)
Lemma taken_data s mm pd i pa va p rest q k bs l t m1 : replaceable s mm pd i pa va p rest q k bs l t ->
  (forall a, off_pool (q :: l ++ [t]) a -> rd32 m1 a = rd32 (k_mem s) a) ->
  sectors_at 8 m1 (pa + VERTUAL_MEM) = sectors_at 8 (k_mem s) (pa + VERTUAL_MEM).
Proof.
  intros Hr Hf. destruct (ev_frame _ _ _ _ _ _ _ _ _ _ (rp_evict _ _ _ _ _ _ _ _ _ _ _ _ _ Hr)) as [Hi _ (Ea & Hb & Hpa) _].
  unfold PAGE_SIZE in *. apply sectors_at_ext; [unfold span, VERTUAL_MEM; lia|].
  intros a A1 A2. rewrite ka_alias, (ka_low pa) in A1, A2 by (unfold VERTUAL_MEM; lia).
  apply Hf, (rp_data _ _ _ _ _ _ _ _ _ _ _ _ _ Hr); unfold PAGE_SIZE; lia.
Qed.

Lemma kalloc_replaces s mm pd i pa va p rest q k bs l t q0 j pa' :
  replaceable s mm pd i pa va p rest q k bs l t -> (length l + 1 < fuel)%nat -> k_inq s = 0x40 :: replicate 8 0x40 ++ q0 ->
  q = k_pages s + sizeof_Page * j -> frame_of s j pa' ->
  exists m', kalloc_page fuel 1 s = Ok (q + VERTUAL_MEM) (set_log (replace_log s pa va pa') (set_inq q0 (set_mem m' s))) /\
    rd32 m' (pte_slot (k_mem s) pd va) = swap_entry va /\ walk m' pd va = None /\
    dlist m' (mm_vm_fifo mm) rest /\ dlist m' free_pages_head (pg_node <$> l ++ [p; t]) /\ rd32 m' (pg_free_pages p) = 1 /\
    forall a, off_pool (q :: l ++ [t]) a -> evict_off s mm pd va p rest l t a -> rd32 m' a = rd32 (k_mem s) a.
Proof.
  intros Hr Hf Hq Eq Hfr. pose proof Hr as [[Hv Hmm] [Hp Hk] [Epg Hl] He _ _ _ _].
  destruct (alloc_take_spec (swap_out fuel) s q k bs 1 Hp ltac:(lia)) as (m1 & Ht & Hp1 & _ & F1). cbn zeta in Ht, Hp1. rewrite Epg in F1.
  set (n1 := k_free_page_num s - Z.of_nat 1) in *.
  pose proof (taken_evictable _ _ _ _ _ _ _ _ _ _ _ _ _ Hr m1 n1 Hp1 F1) as He1.
  pose proof (pool_size_bound _ _ _ (po_geom _ _ Hp) (po_pool _ _ Hp)) as Hsz. pose proof (po_num _ _ Hp) as Hnum.
  assert (Hva : 0 <= va < 2 ^ 32) by (destruct (ev_va _ _ _ _ _ _ _ _ _ _ He) as [_ ?]; unfold PAGE_SIZE in *; lia).
  assert (Hpos : 1 <= pool_size ((q, k) :: bs)) by (unfold pool_size; rewrite Epg; cbn [length]; lia).
  set (s1 := set_free_page_num n1 (set_mem m1 s)) in *.
  destruct (swap_out_run s1 mm pd i pa va p rest l t q0 fuel He1 Hf) as (m2 & R & E & W & D1 & D2 & C & F2); [exact Hq|].
  exists m2. pose proof (taken_slot _ _ _ _ _ _ _ _ _ _ _ _ _ Hr m1 F1 va Hva) as Es.
  change (k_mem s1) with m1 in E, F2, R. rewrite Es in E. split; [|split; [exact E|split; [exact W|split; [exact D1|split; [exact D2|split; [exact C|]]]]]].
  - unfold kalloc_page, Pmm.alloc_page. krun. rewrite Hnum, (proj2 (Z.ltb_ge _ _)) by lia.
    destruct fuel as [|f]; [lia|]. rewrite (alloc_scan_hit _ s q k bs 1) by (done || lia). change 1 with (Z.of_nat 1) at 1. rewrite Ht.
    unfold alloc_finish. krun. change (k_is_vmm_inited s1) with (k_is_vmm_inited s). change (k_mm s1) with (k_mm s). rewrite Hv, Hmm. krun.
    change (Z.of_nat 1) with 1. cbn [Z.eqb Pos.eqb andb]. rewrite R. krun.
    rewrite w32_small by (destruct Hfr as [? ? _ _]; unfold VERTUAL_MEM, sizeof_Page in *; lia). rewrite Eq at 1.
    rewrite (frame_la_run s _ j pa' Hfr) by done. krun. f_equal. unfold replace_log.
    rewrite (taken_data s mm pd i pa va p rest q k bs l t m1 Hr F1).
    assert (s32 (k_free_page_num s1 + 1) = k_free_page_num s) as -> by (change (k_free_page_num s1) with n1; unfold n1; rewrite s32_small; lia).
    by destruct s.
  - intros a A1 [O1 O2 O3 O4 O5]. rewrite F2; [by apply F1|]. constructor; try done. change (k_mem s1) with m1. by rewrite Es.
Qed.

(** ** A fault that evicts *)
Section Fault.
Context (s : kst) (mm pd i pa va p : Z) (rest : list Z) (q : Z) (k : nat) (bs : list block) (l : list Z) (t : Z).
Context (j pa' la : Z).
Hypothesis Hr : replaceable s mm pd i pa va p rest q k bs l t.
Hypothesis Hq : q = k_pages s + sizeof_Page * j.
Hypothesis Hfr : frame_of s j pa'.
Hypothesis Hfree : page_free s mm pd j (pg_node p :: rest) (q + VERTUAL_MEM).

Let He : evictable s mm pd i pa va p rest (q :: l) t := rp_evict _ _ _ _ _ _ _ _ _ _ _ _ _ Hr.
Let x : Z := pte_slot (k_mem s) pd va.

Lemma va_range : 0 <= va < 2 ^ 32.
Proof. destruct (ev_va _ _ _ _ _ _ _ _ _ _ He) as [_ Hva]. unfold PAGE_SIZE in Hva. lia. Qed.

Lemma va_slot_low : 0 <= x < 2 ^ 30.
Proof. apply slot_low; [apply He|apply va_range|apply He]. Qed.

(** The nodes of the two lists. *)
Lemma node_off_tables n : n ∈ mm_vm_fifo mm :: pg_node p :: rest \/ n ∈ free_pages_head :: (pg_node <$> (q :: l) ++ [p; t]) ->
  off_tables (k_mem s) pd n /\ off_tables (k_mem s) pd (n + 4).
Proof.
  intros Hn. assert (Ho : forall a, a = n \/ a = n + 4 -> off_tables (k_mem s) pd a).
  { intros a Ha. apply (ev_off _ _ _ _ _ _ _ _ _ _ He). right. exists n. split; [|done].
    revert Hn. cbn [app fmap list_fmap]. rewrite !fmap_app. cbn [fmap list_fmap]. rewrite ?elem_of_cons, ?elem_of_app, ?elem_of_cons, ?elem_of_app, ?elem_of_cons. tauto. }
  split; apply Ho; auto.
Qed.

(** The eviction leaves the words of the page tables, but for one entry. *)
Lemma table_word_kept a : (forall n, off_tables (k_mem s) pd n -> wd n a) -> wd x a -> evict_off s mm pd va p rest l t a.
Proof.
  intros Ha Hx. destruct (rp_tables _ _ _ _ _ _ _ _ _ _ _ _ _ Hr p ltac:(left)) as [T1 T2].
  constructor; [exact Hx| | |by apply Ha|by apply Ha]; intros n Hn;
    (destruct (node_off_tables n) as [O1 O2]; [|split; by apply Ha]); revert Hn; cbn [app fmap list_fmap]; rewrite ?elem_of_cons; tauto.
Qed.

Lemma evict_off_pde a : 0 <= a < 2 ^ 32 -> evict_off s mm pd va p rest l t (pde_slot pd a).
Proof.
  intros Ha. apply table_word_kept; [intros n Hn; by apply Hn|]. apply (wd_alias x); [apply va_slot_low|].
  apply (slots_apart (k_mem s) pd); [apply He|apply va_range|done|apply He].
Qed.

Lemma evict_off_slot a : 0 <= a < 2 ^ 32 -> present (rd32 (k_mem s) (pde_slot pd a)) = true -> pte_slot (k_mem s) pd a <> x ->
  evict_off s mm pd va p rest l t (pte_slot (k_mem s) pd a).
Proof.
  intros Ha Hp Hne. apply table_word_kept; [intros n Hn; by apply (Hn a)|]. apply (wd_alias x); [apply va_slot_low|].
  apply (slots_apart (k_mem s) pd); [apply He|apply va_range|done|apply He|done|done].
Qed.

Context (m2 : memory).
Hypothesis Hf : forall a, off_pool (q :: l ++ [t]) a -> evict_off s mm pd va p rest l t a -> rd32 m2 a = rd32 (k_mem s) a.
Hypothesis Hqueue : dlist m2 (mm_vm_fifo mm) rest.

Lemma left_pde a : 0 <= a < 2 ^ 32 -> rd32 m2 (pde_slot pd a) = rd32 (k_mem s) (pde_slot pd a).
Proof. intros Ha. apply Hf; [by apply (table_words_off_pool _ _ _ _ _ _ _ _ _ _ _ _ _ Hr)|by apply evict_off_pde]. Qed.

Lemma left_slot a : 0 <= a < 2 ^ 32 -> present (rd32 (k_mem s) (pde_slot pd a)) = true -> pte_slot (k_mem s) pd a <> x ->
  rd32 m2 (pte_slot (k_mem s) pd a) = rd32 (k_mem s) (pte_slot (k_mem s) pd a).
Proof. intros Ha Hp Hne. apply Hf; [by apply (table_words_off_pool _ _ _ _ _ _ _ _ _ _ _ _ _ Hr)|by apply evict_off_slot]. Qed.

Lemma left_off_tables a : off_tables (k_mem s) pd a -> off_tables m2 pd a.
Proof. apply off_tables_ext, left_pde. Qed.

(** The page taken can be given out in what is left. *)
Lemma left_page_free s2 : k_mem s2 = m2 -> k_pages s2 = k_pages s -> page_free s2 mm pd j rest (q + VERTUAL_MEM).
Proof.
  intros E1 E2. pose proof Hfree as [P1 P2 P3 P4 P5 P6 P7 P8 P9 P10].
  assert (Hsub : forall n, n ∈ queue_nodes mm rest (pg_node (q + VERTUAL_MEM)) -> n ∈ queue_nodes mm (pg_node p :: rest) (pg_node (q + VERTUAL_MEM))).
  { intros n. unfold queue_nodes. cbn [app]. rewrite !elem_of_cons. tauto. }
  constructor; rewrite ?E1, ?E2; try done.
  - apply (nodes_sep_sub _ _ P3); [|exact Hsub]. pose proof (ns_nodup _ P3) as Hnd. unfold queue_nodes in *. cbn [app] in Hnd.
    apply NoDup_cons in Hnd as [N1 [_ Hnd]%NoDup_cons]. apply NoDup_cons. split; [|exact Hnd]. intros Hx. apply N1. by right.
  - intros n Hn. destruct (P4 n (Hsub n Hn)). split; by apply left_off_tables.
  - by apply left_off_tables.
  - by apply left_off_tables.
  - intros n Hn. by apply P7, Hsub.
  - intros n Hn. by apply P8, Hsub.
Qed.

Lemma left_mm : rd32 m2 (mm_pde mm) = pd.
Proof.
  rewrite Hf; [apply He| |apply Hr]. apply (rp_off _ _ _ _ _ _ _ _ _ _ _ _ _ Hr). left. elt.
Qed.

Hypothesis Hla : 0 <= la < 2 ^ 32.
Hypothesis Hp : present (rd32 (k_mem s) (pde_slot pd la)) = true.
Hypothesis Hnew : untouched (k_mem s) pd la.
Hypothesis Hne : pte_slot (k_mem s) pd la <> x.

Lemma left_absent : present (rd32 m2 (pde_slot pd la)) = true /\ walk m2 pd la = None.
Proof.
  assert (Hp2 : present (rd32 m2 (pde_slot pd la)) = true) by (by rewrite left_pde). split; [done|].
  unfold walk. rewrite Hp2, (slot_ext (k_mem s)), left_slot by (done || by apply left_pde).
  destruct Hnew as [_ Hs]. cbv zeta in *. by rewrite (sign_0_absent _ Hs).
Qed.

(** The fault can be served with the page taken. *)
Lemma replace_serves s0 s2 cr2 w vma : k_mem s2 = m2 -> k_pages s2 = k_pages s -> k_pt_begin s2 = k_pt_begin s ->
  la = ROUNDDOWN cr2 -> 0 <= cr2 < 2 ^ 32 -> k_mm s0 = mm -> find_vma fuel mm la s0 = Ok vma s ->
  vma <> NULL /\ allows (rd32 (k_mem s) (vma_flags vma)) w -> kalloc_page fuel 1 s = Ok (q + VERTUAL_MEM) s2 ->
  serves fuel s0 cr2 w vma s s2 pd j pa' rest (q + VERTUAL_MEM).
Proof.
  intros E1 E2 E3 El Hcr Em Hfind Ha Hk. constructor; rewrite ?Em, <- ?El, ?E1; try done.
  - split; apply He.
  - split; [apply (tables_ext (k_mem s)); [apply He|apply left_pde]|apply left_mm].
  - apply left_absent.
  - destruct Hfr. constructor; by rewrite ?E2, ?E3.
  - by apply left_page_free.
Qed.

(** ** After the new page is mapped and queued *)
Context (m3 : memory).
Hypothesis Hf3 : forall a, wd (pte_slot m2 pd la) a -> wd (q + VERTUAL_MEM) a -> wd (pg_va (q + VERTUAL_MEM)) a ->
  off_nodes (queue_nodes mm rest (pg_node (q + VERTUAL_MEM))) a -> rd32 m3 a = rd32 m2 a.

Lemma page_low : 0 <= q < 2 ^ 30 /\ 0 <= pg_va q < 2 ^ 30.
Proof. destruct Hfr as [? ? _ _]. unfold pg_va, sizeof_Page in *. lia. Qed.

(** Words of the page tables but the new page's entry. *)
Lemma after_table_word a : (forall n, off_tables (k_mem s) pd n -> wd n a) -> wd (pte_slot (k_mem s) pd la) a -> rd32 m3 a = rd32 m2 a.
Proof.
  intros Ha Hx. destruct page_low. pose proof Hfree as [_ _ _ P4 P5 P6 _ _ _ _]. apply Hf3.
  - rewrite (slot_ext (k_mem s)); [done|by apply left_pde].
  - apply wd_alias; [done|]. rewrite Hq. by apply Ha.
  - by apply Ha.
  - intros n Hn. destruct (P4 n) as [N1 N2]; [revert Hn; unfold queue_nodes; cbn [app]; rewrite !elem_of_cons; tauto|].
    split; by apply Ha.
Qed.

Lemma after_pde a : 0 <= a < 2 ^ 32 -> rd32 m3 (pde_slot pd a) = rd32 (k_mem s) (pde_slot pd a).
Proof.
  intros Ha. rewrite <- left_pde by done. apply after_table_word; [intros n Hn; by apply Hn|].
  apply (wd_alias (pte_slot (k_mem s) pd la)); [apply slot_low; [apply He|done|done]|].
  by apply (slots_apart (k_mem s) pd); [apply He|..].
Qed.

Lemma after_slot : rd32 m3 x = rd32 m2 x.
Proof.
  apply after_table_word; [intros n Hn; apply (Hn va va_range), He|].
  apply (wd_alias (pte_slot (k_mem s) pd la)); [apply slot_low; [apply He|done|done]|].
  apply (slots_apart (k_mem s) pd); [apply He|done|apply va_range|done|apply He|]. intros E. by apply Hne.
Qed.

(** The page that left stays out, and its entry keeps the sectors. *)
Lemma after_left : rd32 m2 x = swap_entry va -> walk m3 pd va = None /\ rd32 m3 x = swap_entry va.
Proof.
  intros E. split; [|by rewrite after_slot]. pose proof va_range as Hva.
  unfold walk. rewrite (slot_ext (k_mem s)), after_pde by (done || by apply after_pde). fold x. rewrite after_slot, E.
  destruct (ev_va _ _ _ _ _ _ _ _ _ _ He) as [_ Hv]. destruct (swap_entry_val va Hv) as [_ ->].
  unfold present. rewrite Z.odd_mul, andb_false_r. by destruct (Z.odd _).
Qed.

(** The list of free pages keeps clear of what the new page is given. *)
Lemma pool_words_of_page c : 0 <= c <= 12 -> off_nodes (free_pages_head :: (pg_node <$> l ++ [t])) (q + c).
Proof.
  intros Hc. destruct (rp_pool _ _ _ _ _ _ _ _ _ _ _ _ _ Hr) as [[Hg Hpl _] _]. destruct (rp_pages _ _ _ _ _ _ _ _ _ _ _ _ _ Hr) as [E _].
  pose proof (pl_pages _ _ _ Hpl) as Hpg. rewrite E in Hpg.
  apply (off_nodes_sub (free_pages_head :: (pg_node <$> q :: l ++ [t]))); [intros n; cbn [fmap list_fmap]; rewrite !elem_of_cons; tauto|].
  apply (page_words_off (k_pages s)); [done|exact Hpg|apply Hpg; elt|done].
Qed.

Lemma free_node_cases n : n ∈ free_pages_head :: (pg_node <$> l ++ [p; t]) -> n = pg_node p \/ n ∈ free_pages_head :: (pg_node <$> l ++ [t]).
Proof. rewrite !fmap_app. cbn [fmap list_fmap]. rewrite !elem_of_cons, !elem_of_app, !elem_of_cons. tauto. Qed.

(** Two words of the new page's descriptor. *)
Lemma free_off_page n c : n ∈ free_pages_head :: (pg_node <$> l ++ [p; t]) -> c = 0 \/ c = 12 -> wd n (q + c) /\ wd (n + 4) (q + c).
Proof.
  intros Hn Hc. apply free_node_cases in Hn as [->|Hn]; [|apply pool_words_of_page; [lia|done]].
  pose proof Hfree as [_ _ _ _ _ _ P7 P8 _ _]. assert (Hin : pg_node p ∈ queue_nodes mm (pg_node p :: rest) (pg_node (q + VERTUAL_MEM))).
  { unfold queue_nodes. cbn [app]. elt. }
  destruct Hc as [-> | ->]; [rewrite Z.add_0_r, Hq; by apply P7|].
  destruct (P8 _ Hin) as [W1 W2]. apply wd_sym in W1, W2. destruct page_low.
  unfold pg_va in W1, W2. replace (q + VERTUAL_MEM + 12) with (q + 12 + VERTUAL_MEM) in W1, W2 by lia.
  rewrite wd_alias in W1, W2 by (unfold pg_va in *; lia). auto.
Qed.

(** The queue's nodes. *)
Lemma queue_off_node n y : n ∈ free_pages_head :: (pg_node <$> l ++ [p; t]) -> y ∈ mm_vm_fifo mm :: rest ->
  (wd y n /\ wd (y + 4) n) /\ (wd y (n + 4) /\ wd (y + 4) (n + 4)).
Proof.
  intros Hn Hy. apply free_node_cases in Hn as [->|Hn].
  - pose proof (proj1 (ev_queue _ _ _ _ _ _ _ _ _ _ He)) as Hs. apply (nodes_sep_wd _ _ _ Hs).
    + revert Hy. rewrite !elem_of_cons. tauto.
    + elt.
    + pose proof (ns_nodup _ Hs) as Hnd. apply NoDup_cons in Hnd as [N1 [N2 _]%NoDup_cons]. apply elem_of_cons in Hy as [->|Hy]; [|by intros ->].
      intros E. apply N1. rewrite E. left.
  - destruct (ev_free_queue _ _ _ _ _ _ _ _ _ _ He n) as [F1 F2]; [revert Hn; cbn [app fmap list_fmap]; rewrite !elem_of_cons; tauto|].
    split; [by apply F1|by apply F2].
Qed.

Lemma new_node_off n : n ∈ free_pages_head :: (pg_node <$> l ++ [p; t]) -> let y := pg_node (q + VERTUAL_MEM) in
  (wd y n /\ wd (y + 4) n) /\ (wd y (n + 4) /\ wd (y + 4) (n + 4)).
Proof.
  intros Hn y. apply free_node_cases in Hn as [->|Hn].
  - pose proof (pf_sep _ _ _ _ _ _ Hfree) as Hs. apply (nodes_sep_wd _ _ _ Hs); unfold queue_nodes; cbn [app]; [elt..|].
    pose proof (ns_nodup _ Hs) as Hnd. unfold queue_nodes in Hnd. cbn [app] in Hnd. apply NoDup_cons in Hnd as [_ [N1 _]%NoDup_cons].
    intros E. apply N1. fold y. rewrite E. elt.
  - destruct (rp_pool _ _ _ _ _ _ _ _ _ _ _ _ _ Hr) as [[_ Hpl _] _]. destruct (rp_pages _ _ _ _ _ _ _ _ _ _ _ _ _ Hr) as [E _].
    pose proof (proj1 (pl_dlist _ _ _ Hpl)) as Hs. rewrite E in Hs. cbn [fmap list_fmap] in Hs. destruct page_low as [L1 L2].
    assert (Ey : y = pg_node q + VERTUAL_MEM /\ y + 4 = pg_node q + 4 + VERTUAL_MEM) by (unfold y, pg_node; lia). destruct Ey as [Ey Ey4].
    assert (Hlow : 0 <= pg_node q < 2 ^ 30 /\ 0 <= pg_node q + 4 < 2 ^ 30).
    { destruct Hfr as [? ? _ _]. unfold pg_node, sizeof_Page in *. lia. }
    rewrite Ey4, Ey. rewrite !(wd_alias (pg_node q)), !(wd_alias (pg_node q + 4)) by apply Hlow.
    apply (nodes_sep_wd _ _ _ Hs); [elt|revert Hn; rewrite !elem_of_cons; tauto|].
    pose proof (ns_nodup _ Hs) as Hnd. apply NoDup_cons in Hnd as [N1 [N2 _]%NoDup_cons]. apply elem_of_cons in Hn as [->|Hn]; [|by intros E1; apply N2; rewrite E1].
    intros E1. apply N1. rewrite <- E1. left.
Qed.

Lemma after_free : dlist m2 free_pages_head (pg_node <$> l ++ [p; t]) -> dlist m3 free_pages_head (pg_node <$> l ++ [p; t]).
Proof.
  intros Hd. apply (dlist_frame m2); [|exact Hd]. intros a (n & Hn & Ha). destruct page_low as [L1 L2].
  destruct (node_off_tables n) as [O1 O2]; [right; revert Hn; cbn [app fmap list_fmap]; rewrite !elem_of_cons; tauto|].
  destruct (free_off_page n 0 Hn ltac:(auto)) as [A1 A2]. destruct (free_off_page n 12 Hn ltac:(auto)) as [B1 B2].
  rewrite Z.add_0_r in A1, A2. destruct (new_node_off n Hn) as [[C1 C2] [C3 C4]].
  assert (Ev : pg_va (q + VERTUAL_MEM) = q + 12 + VERTUAL_MEM) by (unfold pg_va; lia).
  apply Hf3; rewrite ?(slot_ext (k_mem s) m2) by (by apply left_pde); rewrite ?Ev, ?wd_alias by (unfold pg_va in *; lia).
  - destruct Ha as [-> | ->]; apply wd_sym; [by apply (O1 la Hla)|by apply (O2 la Hla)].
  - destruct Ha as [-> | ->]; by apply wd_sym.
  - destruct Ha as [-> | ->]; by apply wd_sym.
  - intros y Hy. unfold queue_nodes in Hy. rewrite elem_of_cons, elem_of_app, elem_of_cons, elem_of_nil in Hy.
    assert (Hy' : y ∈ mm_vm_fifo mm :: rest \/ y = pg_node (q + VERTUAL_MEM)) by (rewrite elem_of_cons; tauto).
    destruct Hy' as [Hy'| ->]; [destruct (queue_off_node n y Hn Hy') as [D1 D2]|]; by destruct Ha as [-> | ->].
Qed.

End Fault.

(** C16: A fault on a new page when the virtual memory manager runs and the queue is not
    empty: a page is taken from the front of the free pages, the oldest page of the
    queue is written to the sectors of its address, its entry names them, it joins the
    free pages below the last one, and the new page is mapped and queued last. The count
    of free pages is the same as before. *)
Theorem page_fault_replaces s cr2 errorCode w vma s1 mm pd i pa va p rest q k bs l t j pa' q0 :
  let la := ROUNDDOWN cr2 in
  let s0 := set_log (EvPrintf "page_fault triggered==> at cr2: %x.\n" [cr2] :: k_log s) s in
  0 <= cr2 < 2 ^ 32 -> errorCode mod 4 = 2 * w -> Z.land errorCode 0x8 = 0 -> Z.land errorCode 0x10 = 0 ->
  k_mm s = mm -> find_vma fuel mm la s0 = Ok vma s1 -> vma <> NULL /\ allows (rd32 (k_mem s1) (vma_flags vma)) w ->
  replaceable s1 mm pd i pa va p rest q k bs l t -> q = k_pages s1 + sizeof_Page * j -> frame_of s1 j pa' ->
  page_free s1 mm pd j (pg_node p :: rest) (q + VERTUAL_MEM) ->
  present (rd32 (k_mem s1) (pde_slot pd la)) = true -> untouched (k_mem s1) pd la ->
  pte_slot (k_mem s1) pd la <> pte_slot (k_mem s1) pd va ->
  (length l + 1 < fuel)%nat -> k_inq s1 = 0x40 :: replicate 8 0x40 ++ q0 ->
  exists m', page_fault fuel cr2 errorCode s =
      Ok tt (set_log (EvInvlpg la :: EvPrintf "no page linked. so alloc a page, la: %x\n" [pa' + VERTUAL_MEM] ::
        replace_log s1 pa va pa') (set_inq q0 (set_mem m' s1))) /\
    walk m' pd cr2 = Some (pa' + cr2 mod PAGE_SIZE) /\ walk m' pd va = None /\
    rd32 m' (pte_slot (k_mem s1) pd va) = swap_entry va /\ rd32 m' (pg_va (q + VERTUAL_MEM)) = la /\
    dlist m' (mm_vm_fifo mm) (rest ++ [pg_node (q + VERTUAL_MEM)]) /\ dlist m' free_pages_head (pg_node <$> l ++ [p; t]).
Proof.
  intros la s0 Hcr Hc H8 H16 Hmm Hfind Ha Hr Eq Hfr Hpf Hp Hu Hne Hf Hq.
  destruct (kalloc_replaces s1 mm pd i pa va p rest q k bs l t q0 j pa' Hr Hf Hq Eq Hfr) as (m2 & R & E & W & D1 & D2 & _ & F).
  set (s2 := set_log _ _) in R. assert (Hla : 0 <= la < 2 ^ 32) by (by apply ROUNDDOWN_small).
  assert (Hs : serves fuel s0 cr2 w vma s1 s2 pd j pa' rest (q + VERTUAL_MEM)).
  { by eapply (replace_serves s1 mm pd i pa va p rest q k bs l t). }
  destruct (do_swap_supplies fuel s0 cr2 w vma s1 s2 pd j pa' rest (q + VERTUAL_MEM) Hs) as (m3 & R3 & [S1 S2 S3 S4 S5 F3]).
  change (k_mm s0) with (k_mm s) in *. rewrite Hmm in *. change (k_mem s2) with m2 in F3. fold la in F3.
  assert (HA : walk m3 pd va = None /\ rd32 m3 (pte_slot (k_mem s1) pd va) = swap_entry va).
  { by eapply (after_left s1 mm pd i pa va p rest q k bs l t). }
  destruct HA as [A1 A2]. exists m3. split; [|split; [exact S1|split; [exact A1|split; [exact A2|split; [exact S3|split; [exact S2|]]]]]].
  - apply (page_fault_absent fuel s cr2 errorCode w); try done. destruct Ha as [_ [[-> _]|[-> _]]]; auto.
  - by eapply (after_free s1 mm pd i pa va p rest q k bs l t).
Qed.

End Replace.
