(* ===== verification/Pid.v ===== *)
(** The pid bitmap of schedule/process/proc.c and include/proc.h. *)

From S2P Require Import Prelude Machine.

Local Open Scope Z_scope.

(** * Bits of a word *)
Definition set_bit (num pos is_set_one : Z) : Z :=
  if negb (is_set_one =? 0) then Z.lor num (Z.shiftl 1 pos)
  else Z.land num (Z.lnot (Z.shiftl 1 pos)).

Definition get_bit (num pos : Z) : Z := if Z.land num (Z.shiftl 1 pos) =? 0 then 0 else 1.

(** * [get_pid] *)

(** The inner loop, [n] bits left: the first clear bit from the left. *)
Fixpoint get_pid_bit (n : nat) (num j : Z) : option Z :=
  match n with
  | O => None
  | S n => if get_bit num (31 - j) =? 0 then Some j else get_pid_bit n num (j + 1)
  end.

(** The outer loop: word and bit. *)
Fixpoint get_pid_word (pids : list Z) (i : nat) : option (nat * Z) :=
  match pids with
  | [] => None
  | num :: pids =>
      if negb (num =? 0xFFFFFFFF) then
        match get_pid_bit 32 num 0 with
        | Some j => Some (i, j)
        | None => get_pid_word pids (S i)
        end
      else get_pid_word pids (S i)
  end.

Definition get_pid : K Z :=
  pids ← get k_pids;
  match get_pid_word pids 0 with
  | Some (i, j) =>
      upd (set_pids (alter (fun num => set_bit num (31 - j) 1) i pids));;
      mret (Z.of_nat i * 32 + j)
  | None => mret (-1)
  end.

(** * Specification: the set of pids in use *)
Definition pid_used (pids : list Z) (p : Z) : Prop :=
  exists num, pids !! Z.to_nat (p / 32) = Some num /\ Z.testbit num (31 - p mod 32) = true.

#[export] Instance pid_used_dec pids p : Decision (pid_used pids p).
Proof.
  unfold pid_used. destruct (pids !! Z.to_nat (p / 32)) as [num|].
  - destruct (Z.testbit num (31 - p mod 32)) eqn:E; [left; eauto|right; intros (? & [= <-] & ?); congruence].
  - right. intros (? & ? & ?). done.
Defined.

Lemma get_bit_testbit num pos : 0 <= pos -> (get_bit num pos =? 0) = negb (Z.testbit num pos).
Proof.
  intros Hp. unfold get_bit. destruct (Z.testbit num pos) eqn:E; cbn [negb].
  - destruct (Z.eqb_spec (Z.land num (Z.shiftl 1 pos)) 0) as [E0|]; [|done].
    apply (f_equal (fun z => Z.testbit z pos)) in E0. rewrite Z.land_spec, E, Z.shiftl_spec, Z.sub_diag , Z.bits_0 in E0 by done.
    done.
  - rewrite (proj2 (Z.eqb_eq (Z.land _ _) 0)); [done|]. apply Z.bits_inj'. intros n Hn.
    rewrite Z.land_spec, Z.shiftl_spec, Z.bits_0 by done. destruct (decide (n = pos)) as [->|Hne]; [by rewrite E|].
    destruct (decide (n < pos)); [rewrite (Z.testbit_neg_r 1) by lia; apply andb_false_r|].
    rewrite (Z.bits_above_log2 1 (n - pos)) by (simpl; lia). apply andb_false_r.
Qed.

Lemma set_bit_testbit num pos n : 0 <= pos -> 0 <= n ->
  Z.testbit (set_bit num pos 1) n = (n =? pos) || Z.testbit num n.
Proof.
  intros Hp Hn. unfold set_bit. change (negb (1 =? 0)) with true. cbn iota.
  rewrite Z.lor_spec, Z.shiftl_spec by done. destruct (Z.eqb_spec n pos) as [->|Hne].
  - rewrite Z.sub_diag. by rewrite orb_true_r.
  - assert (Z.testbit 1 (n - pos) = false) as ->; [|by rewrite orb_false_r].
    destruct (decide (n < pos)); [by apply Z.testbit_neg_r; lia|]. apply Z.bits_above_log2; simpl; lia.
Qed.

(** Clear bits come with a word that is not all ones, and the other way round. *)
Lemma full_word num : 0 <= num < 2 ^ 32 ->
  (forall j, 0 <= j < 32 -> Z.testbit num (31 - j) = true) -> num = 0xFFFFFFFF.
Proof.
  intros Hr Hj. apply Z.bits_inj'. intros n Hn. change 0xFFFFFFFF with (Z.ones 32).
  rewrite Z.testbit_ones_nonneg by lia. destruct (Z.ltb_spec n 32) as [Hlt|Hge].
  - replace n with (31 - (31 - n)) by lia. apply Hj. lia.
  - rewrite <- (Z.mod_small num (2 ^ 32)) by done. apply Z.mod_pow2_bits_high. lia.
Qed.

Lemma get_pid_bit_spec n num : forall j, 0 <= j -> j + Z.of_nat n = 32 ->
  match get_pid_bit n num j with
  | Some k => j <= k < 32 /\ Z.testbit num (31 - k) = false /\ forall l, j <= l < k -> Z.testbit num (31 - l) = true
  | None => forall l, j <= l < 32 -> Z.testbit num (31 - l) = true
  end.
Proof.
  induction n as [|n IH]; intros j Hj Hn; cbn [get_pid_bit]; [lia|].
  rewrite get_bit_testbit by lia. destruct (Z.testbit num (31 - j)) eqn:E; cbn [negb].
  - specialize (IH (j + 1) ltac:(lia) ltac:(lia)). destruct (get_pid_bit n num (j + 1)) as [k|].
    + destruct IH as (H1 & H2 & H3). split; [lia|split; [done|]]. intros l Hl.
      destruct (decide (l = j)) as [->|]; [done|]. apply H3. lia.
    + intros l Hl. destruct (decide (l = j)) as [->|]; [done|]. apply IH. lia.
  - split; [lia|split; [done|]]. lia.
Qed.

Definition words_ok (pids : list Z) : Prop := Forall (fun num => 0 <= num < 2 ^ 32) pids.

Lemma get_pid_word_spec pids : forall i0, words_ok pids ->
  match get_pid_word pids i0 with
  | Some (i, j) => (i0 <= i)%nat /\ 0 <= j < 32 /\ exists num, pids !! (i - i0)%nat = Some num /\
      Z.testbit num (31 - j) = false /\ (forall l, 0 <= l < j -> Z.testbit num (31 - l) = true) /\
      (forall k num', (k < i - i0)%nat -> pids !! k = Some num' -> num' = 0xFFFFFFFF)
  | None => forall k num', pids !! k = Some num' -> num' = 0xFFFFFFFF
  end.
Proof.
  induction pids as [|num pids IH]; intros i0 Hw; cbn [get_pid_word]; [done|].
  apply Forall_cons in Hw as [Hn Hw]. specialize (IH (S i0) Hw).
  assert (Hrest : num = 0xFFFFFFFF -> match get_pid_word pids (S i0) with
    | Some (i, j) => (i0 <= i)%nat /\ 0 <= j < 32 /\ exists num0, (num :: pids) !! (i - i0)%nat = Some num0 /\
        Z.testbit num0 (31 - j) = false /\ (forall l, 0 <= l < j -> Z.testbit num0 (31 - l) = true) /\
        (forall k num', (k < i - i0)%nat -> (num :: pids) !! k = Some num' -> num' = 0xFFFFFFFF)
    | None => forall k num', (num :: pids) !! k = Some num' -> num' = 0xFFFFFFFF
    end).
  { intros E. destruct (get_pid_word pids (S i0)) as [[i j]|].
    - destruct IH as (Hi & Hj & n0 & Hl & Hb & Hlow & Hall). split; [lia|split; [done|]]. exists n0.
      replace (i - i0)%nat with (S (i - S i0)) by lia. split; [done|split; [done|split; [done|]]].
      intros [|k] num' Hk; cbn; [congruence|]. apply Hall. lia.
    - intros [|k] num'; cbn; [congruence|apply IH]. }
  destruct (Z.eqb_spec num 0xFFFFFFFF) as [E|E]; cbn [negb]; [by apply Hrest|].
  pose proof (get_pid_bit_spec 32 num 0 ltac:(lia) ltac:(lia)) as Hb.
  destruct (get_pid_bit 32 num 0) as [j|].
  - destruct Hb as (Hj & Hb & Hlow). split; [lia|split; [lia|]]. exists num. rewrite Nat.sub_diag.
    split; [done|split; [done|split; [intros; apply Hlow; lia|]]]. intros k num' Hk. lia.
  - destruct E. by apply full_word.
Qed.

Lemma ones_testbit j : 0 <= j < 32 -> Z.testbit 0xFFFFFFFF (31 - j) = true.
Proof.
  intros. change 0xFFFFFFFF with (Z.ones 32). rewrite Z.testbit_ones_nonneg by lia. apply Z.ltb_lt. lia.
Qed.

Lemma get_pid_run s :
  words_ok (k_pids s) ->
  (exists p pids', get_pid s = Ok p (set_pids pids' s) /\ 0 <= p < 32 * Z.of_nat (length (k_pids s)) /\
    ~ pid_used (k_pids s) p /\ (forall q, 0 <= q < p -> pid_used (k_pids s) q) /\
    (forall q, 0 <= q -> pid_used pids' q <-> q = p \/ pid_used (k_pids s) q) /\
    words_ok pids' /\ length pids' = length (k_pids s)) \/
  (get_pid s = Ok (-1) s /\ forall q, 0 <= q < 32 * Z.of_nat (length (k_pids s)) -> pid_used (k_pids s) q).
Proof.
  intros Hw. unfold get_pid. krun. pose proof (get_pid_word_spec (k_pids s) 0 Hw) as Hsp.
  destruct (get_pid_word (k_pids s) 0) as [[i j]|]; krun.
  - left. destruct Hsp as (_ & Hj & num & Hl & Hb & Hlow & Hall). rewrite Nat.sub_0_r in Hl, Hall.
    pose proof (lookup_lt_Some _ _ _ Hl) as Hlen.
    assert (Ed : (Z.of_nat i * 32 + j) / 32 = Z.of_nat i) by lia_div.
    assert (Em : (Z.of_nat i * 32 + j) mod 32 = j) by lia_div.
    do 2 eexists. split; [reflexivity|]. split; [lia|split; [|split; [|split; [|split]]]].
    + intros (num' & Hl' & Hb'). rewrite Ed, Nat2Z.id in Hl'. rewrite Em in Hb'. congruence.
    + intros q Hq. assert (Hqi : (Z.to_nat (q / 32) <= i)%nat) by lia_div.
      destruct (decide (Z.to_nat (q / 32) = i)) as [Eq|Hne].
      * exists num. rewrite Eq. split; [done|]. apply Hlow. lia_div.
      * destruct (lookup_lt_is_Some_2 (k_pids s) (Z.to_nat (q / 32))) as [num' Hl']; [lia|].
        exists num'. split; [done|]. rewrite (Hall (Z.to_nat (q / 32)) _ ltac:(lia) Hl'). apply ones_testbit. apply Z.mod_pos_bound. lia.
    + intros q Hq. unfold pid_used. destruct (decide (Z.to_nat (q / 32) = i)) as [Eq|Hne].
      * rewrite Eq, list_lookup_alter, decide_True, Hl by done. cbn [fmap option_fmap option_map]. split.
        -- intros (n' & [= <-] & Hb'). rewrite set_bit_testbit in Hb' by lia_div.
           apply orb_prop in Hb' as [E|E]; [left; lia_div|right; eauto].
        -- intros [->|(n' & [= <-] & Hb')]; eexists; (split; [done|]); rewrite set_bit_testbit by lia_div.
           ++ rewrite Em, Z.eqb_refl. done.
           ++ rewrite Hb'. apply orb_true_r.
      * rewrite list_lookup_alter_ne by done. split; [by right|]. intros [->|?]; [|done].
        destruct Hne. lia_div.
    + unfold words_ok. apply Forall_alter; [exact Hw|]. intros x Hx Hr. unfold set_bit.
      change (negb (1 =? 0)) with true. cbn iota. split.
      * apply Z.lor_nonneg. split; [lia|]. apply Z.shiftl_nonneg. lia.
      * assert (Z.lor x (Z.shiftl 1 (31 - j)) = Z.land (Z.lor x (Z.shiftl 1 (31 - j))) (Z.ones 32)) as ->;
          [|rewrite Z.land_ones by lia; apply Z.mod_pos_bound; lia].
        symmetry. rewrite Z.land_lor_distr_l. f_equal; [apply land_ones_small; lia|].
        apply land_ones_small; [lia|]. rewrite Z.shiftl_mul_pow2 by lia. split; [lia|].
        rewrite Z.mul_1_l. apply Z.pow_lt_mono_r; lia.
    + apply length_alter.
  - right. split; [done|]. intros q Hq.
    destruct (lookup_lt_is_Some_2 (k_pids s) (Z.to_nat (q / 32))) as [num' Hl']; [lia_div|].
    exists num'. split; [done|]. rewrite (Hsp _ _ Hl'). apply ones_testbit. apply Z.mod_pos_bound. lia.
Qed.

(** [get_pid] hands out the least pid that is not in use and puts it in use; no
    other pid changes. When all are in use it returns -1 and changes nothing. *)
Theorem get_pid_least s :
  words_ok (k_pids s) ->
  (exists p pids', get_pid s = Ok p (set_pids pids' s) /\ 0 <= p < 32 * Z.of_nat (length (k_pids s)) /\
    ~ pid_used (k_pids s) p /\ (forall q, 0 <= q < p -> pid_used (k_pids s) q) /\
    (forall q, 0 <= q -> pid_used pids' q <-> q = p \/ pid_used (k_pids s) q) /\
    words_ok pids' /\ length pids' = length (k_pids s)) \/
  (get_pid s = Ok (-1) s /\ forall q, 0 <= q < 32 * Z.of_nat (length (k_pids s)) -> pid_used (k_pids s) q).
Proof. apply get_pid_run. Qed.
