(* ===== verification/Proc.v ===== *)
(** Process control of schedule/process/proc.c: process control blocks, fork,
    exit, wait, the copies of address spaces, and the switch to a process. *)

From S2P Require Import Prelude Machine DList Str Pmm Paging Ports Swap Malloc Vmm Pid.

Local Open Scope Z_scope.

(** * Constants and structures of include/proc.h and include/idt.h *)
Definition MAX_PROCESS : Z := 4096.
Definition KTHREAD_STACK_PAGE : Z := 2.
Definition TASK_READY : Z := 0.
Definition TASK_SLEEPING : Z := 1.
Definition TASK_RUNNABLE : Z := 2.
Definition TASK_ZOMBIE : Z := 3.
Definition NOT_WT : Z := 0.
Definition WT_CHILD : Z := 1.

(** [struct pcb_t]; [context] is [eip ebx ecx edx esi edi ebp esp]. *)
Definition sizeof_pcb : Z := 92.
Definition sizeof_context : Z := 32.
Definition pcb_state (p : Z) : Z := p.
Definition pcb_pid (p : Z) : Z := p + 4.
Definition pcb_start_stack (p : Z) : Z := p + 8.
Definition pcb_parent (p : Z) : Z := p + 12.
Definition pcb_mm (p : Z) : Z := p + 16.
Definition pcb_backup_pde (p : Z) : Z := p + 20.
Definition pcb_context (p : Z) : Z := p + 24.
Definition pcb_context_eip (p : Z) : Z := p + 24.
Definition pcb_context_esp (p : Z) : Z := p + 52.
Definition pcb_frame (p : Z) : Z := p + 56.
Definition pcb_waitstate (p : Z) : Z := p + 60.
Definition pcb_cptr (p : Z) : Z := p + 64.
Definition pcb_yptr (p : Z) : Z := p + 68.
Definition pcb_optr (p : Z) : Z := p + 72.
Definition pcb_node (p : Z) : Z := p + 76.
Definition pcb_semaphore_test_node (p : Z) : Z := p + 84.
Definition pcb_of_node (node : Z) : Z := w32 (node - 76).

(** [struct idtframe], sixteen words. *)
Definition sizeof_idtframe : Z := 64.
Definition frame_my_eax (f : Z) : Z := f.
Definition frame_ebx (f : Z) : Z := f + 20.
Definition frame_edx (f : Z) : Z := f + 24.
Definition frame_ecx (f : Z) : Z := f + 28.
Definition frame_eax (f : Z) : Z := f + 32.
Definition frame_eip (f : Z) : Z := f + 44.
Definition frame_cs (f : Z) : Z := f + 48.
Definition frame_eflags (f : Z) : Z := f + 52.
Definition frame_esp (f : Z) : Z := f + 56.
Definition frame_ss (f : Z) : Z := f + 60.

(** Store the words [ws] from [a] on. *)
Fixpoint store_words (a : Z) (ws : list Z) : K unit :=
  match ws with
  | [] => mret tt
  | w :: ws => store a w;; store_words (w32 (a + 4)) ws
  end.

(** [*p |= v] *)
Definition or_store (a v : Z) : K unit := w ← load a; store a (Z.lor w v).

Section Proc.
Context `{Symbols}.
Variable fuel : nat.

Definition kmalloc (size : Z) : K Z := malloc (kalloc_page fuel) fuel size.
Definition kget_pte (pde la is_create : Z) : K Z := get_pte (kalloc_page fuel) pde la is_create.
Definition kmap (pde la pa bitsign : Z) : K unit := map (kalloc_page fuel) fuel pde la pa bitsign.
Definition kunmap (pde la : Z) : K unit := unmap (kalloc_page fuel) fuel pde la.

Definition create_pcb : K Z :=
  pcb ← kmalloc sizeof_pcb;
  if pcb =? NULL then mret NULL
  else
    store (pcb_state pcb) TASK_READY;;
    store (pcb_pid pcb) (w32 (-1));;
    store (pcb_start_stack pcb) 0;;
    store (pcb_mm pcb) NULL;;
    memset (pcb_context pcb) 0 sizeof_context;;
    pd ← get k_pd;
    store (pcb_backup_pde pcb) pd;;
    store (pcb_parent pcb) NULL;;
    store (pcb_waitstate pcb) NOT_WT;;
    store (pcb_optr pcb) NULL;;
    store (pcb_cptr pcb) NULL;;
    store (pcb_yptr pcb) NULL;;
    mret pcb.

Definition wakeup_process (pcb : Z) : K unit := store (pcb_state pcb) TASK_RUNNABLE.

Definition set_kthread_stack (pcb offset : Z) : K Z :=
  pages ← kalloc_page fuel KTHREAD_STACK_PAGE;
  if pages =? NULL then mret (-1)
  else
    la ← pg_to_addr_la pages;
    store (pcb_start_stack pcb) (la + KTHREAD_STACK_PAGE * PAGE_SIZE)%w;;
    st ← load (pcb_start_stack pcb);
    store (pcb_start_stack pcb) (st - 4)%w;;
    when (negb (offset =? 0))
      (st ← load (pcb_start_stack pcb); store st exit_proc_addr);;
    mret 0.

(** ** [copy_mm] *)

(** One page of an area: the new table if the tables are still shared, a new
    page, its mapping and its content. *)
Definition copy_mm_page (mm old_mm old_pte start : Z) : K unit :=
  pde ← load (mm_pde mm);
  pte ← kget_pte pde start 1;
  when (pte =? old_pte)
    (pde ← load (mm_pde mm);
     set_pte_sign (pde_at pde start) (Z.lor 0x4 0x2);;
     pde ← load (mm_pde mm);
     kget_pte pde start 1;;
     pde ← load (mm_pde mm); old_pde ← load (mm_pde old_mm);
     d ← load (pde_at pde start); o ← load (pde_at old_pde start);
     memcpy (w32 (w32 (Z.shiftl (pte_page_addr d) 12) + VERTUAL_MEM))
            (w32 (w32 (Z.shiftl (pte_page_addr o) 12) + VERTUAL_MEM)) PAGE_SIZE;;
     mret tt);;
  old_page_addr_la ← get_pg_addr_la old_pte;
  page ← kalloc_page fuel 1;
  page_addr_pa ← pg_to_addr_pa page;
  e ← load old_pte;
  let bitsign := Z.lor (Z.land (pte_sign e) 0x3) 0x4 in
  pde ← load (mm_pde mm);
  kmap pde start page_addr_pa bitsign;;
  la ← pg_to_addr_la page;
  memcpy la old_page_addr_la PAGE_SIZE;;
  mret tt.

Fixpoint copy_mm_pages (k : nat) (mm old_mm old_vma start : Z) : K unit :=
  match k with
  | O => nofuel
  | S k =>
      last ← load (vma_end old_vma);
      if start <? last then
        old_pde ← load (mm_pde old_mm);
        old_pte ← kget_pte old_pde start 0;
        if old_pte =? NULL then copy_mm_pages k mm old_mm old_vma (w32 (start + 1024 * PAGE_SIZE))
        else
          e ← load old_pte;
          when (negb (Z.land (pte_sign e) 0x1 =? 0)) (copy_mm_page mm old_mm old_pte start);;
          copy_mm_pages k mm old_mm old_vma (w32 (start + PAGE_SIZE))
      else mret tt
  end.

Fixpoint copy_mm_areas (k : nat) (mm old_mm begin : Z) : K unit :=
  match k with
  | O => nofuel
  | S k =>
      if negb (begin =? mm_node old_mm) then
        let old_vma := vma_of_node begin in
        printf "mm.....%x\n" [mm];;
        st ← load (vma_start old_vma); en ← load (vma_end old_vma);
        printf "old_vma->vmm_start:%x, old_vma->vma_end:%x\n" [st; en];;
        st ← load (vma_start old_vma); en ← load (vma_end old_vma); fl ← load (vma_flags old_vma);
        create_vma (kalloc_page fuel) fuel mm st en fl;;
        start ← load (vma_start old_vma);
        copy_mm_pages fuel mm old_mm old_vma start;;
        begin ← load (node_next begin);
        copy_mm_areas k mm old_mm begin
      else mret tt
  end.

Definition copy_mm (pcb is_share copied_mm : Z) : K Z :=
  let old_mm := copied_mm in
  if old_mm =? NULL then mret 0
  else if negb (is_share =? 0) then
    store (pcb_mm pcb) old_mm;;
    mm_num_incr old_mm;;
    pde ← load (mm_pde old_mm);
    store (pcb_backup_pde pcb) pde;;
    mret 0
  else
    mm ← kmalloc sizeof_mm;
    memcpy mm old_mm sizeof_mm;;
    on_mem (list_init (mm_node mm));;
    store (pcb_mm pcb) mm;;
    new_pde ← kalloc_page fuel 1;
    pa ← pg_to_addr_pa new_pde;
    store (mm_pde mm) pa;;
    pde ← load (mm_pde mm); old_pde ← load (mm_pde old_mm);
    memcpy pde old_pde PAGE_SIZE;;
    pde ← load (mm_pde mm);
    store (pcb_backup_pde pcb) pde;;
    begin ← load (node_next (mm_node old_mm));
    copy_mm_areas fuel mm old_mm begin;;
    mret 0.

(** ** [delete_mm] *)
Fixpoint delete_mm_pages (k : nat) (mm vma start : Z) : K unit :=
  match k with
  | O => nofuel
  | S k =>
      last ← load (vma_end vma);
      if start <? last then
        pde ← load (mm_pde mm);
        pte ← kget_pte pde start 0;
        if pte =? NULL then delete_mm_pages k mm vma (w32 (start + 1024 * PAGE_SIZE))
        else
          e ← load pte;
          when (negb (pte_page_addr e =? 0)) (pde ← load (mm_pde mm); kunmap pde start);;
          delete_mm_pages k mm vma (w32 (start + PAGE_SIZE))
      else mret tt
  end.

Fixpoint delete_mm_tables (k : nat) (mm vma start : Z) : K unit :=
  match k with
  | O => nofuel
  | S k =>
      last ← load (vma_end vma);
      if start <? last then
        pde ← load (mm_pde mm);
        d ← load (pde_at pde start);
        when (negb (Z.land (pte_sign d) 0x1 =? 0))
          (pages ← get k_pages;
           free_page fuel (page_add pages (pte_page_addr d)) 1;;
           pde ← load (mm_pde mm);
           set_pte_page_addr (pde_at pde start) 0);;
        delete_mm_tables k mm vma (w32 (start + PAGE_SIZE))
      else mret tt
  end.

Fixpoint delete_mm_areas (k : nat) (mm begin : Z) : K unit :=
  match k with
  | O => nofuel
  | S k =>
      if negb (begin =? mm_node mm) then
        let vma := vma_of_node begin in
        start ← load (vma_start vma);
        delete_mm_pages fuel mm vma start;;
        start ← load (vma_start vma);
        delete_mm_tables fuel mm vma (start - start mod (1024 * PAGE_SIZE));;
        begin ← load (node_next begin);
        delete_mm_areas k mm begin
      else mret tt
  end.

Fixpoint delete_mm_vmas (k : nat) (mm vma_begin : Z) : K unit :=
  match k with
  | O => nofuel
  | S k =>
      if negb (vma_begin =? mm_node mm) then
        let temp := vma_begin in
        vma_begin ← load (node_next vma_begin);
        on_mem (list_delete temp);;
        free (vma_of_node temp);;
        delete_mm_vmas k mm vma_begin
      else mret tt
  end.

Definition delete_mm (mm : Z) : K unit :=
  if mm =? NULL then mret tt
  else
    n ← load (mm_num mm);
    store (mm_num mm) (n - 1)%w;;
    pd ← get k_pd;
    emit (EvCr3 pd);;
    n ← load (mm_num mm);
    when (n =? 0)
      (begin ← load (node_next (mm_node mm));
       delete_mm_areas fuel mm begin;;
       pde ← load (mm_pde mm);
       pg ← la_addr_to_pg pde;
       free_page fuel pg 1;;
       vma_begin ← load (node_next (mm_node mm));
       delete_mm_vmas fuel mm vma_begin;;
       free mm).

(** ** [do_fork] *)

(** The user bit on the two pages of the stack. *)
Definition copy_thread_user (pcb : Z) : K unit :=
  mm ← load (pcb_mm pcb); pde ← load (mm_pde mm); st ← load (pcb_start_stack pcb);
  pte ← kget_pte pde (w32 (st + 4 - PAGE_SIZE)) 0;
  e ← load pte; set_pte_sign pte (Z.lor (pte_sign e) 0x4);;
  mm ← load (pcb_mm pcb); pde ← load (mm_pde mm); st ← load (pcb_start_stack pcb);
  pte ← kget_pte pde (w32 (st + 4 - PAGE_SIZE * 2)) 0;
  e ← load pte; set_pte_sign pte (Z.lor (pte_sign e) 0x4).

(** [frame] reads the sixteen words of the caller's frame. *)
Definition copy_thread (pcb offset : Z) (frame : K (list Z)) : K unit :=
  when (negb (offset =? 0)) (copy_thread_user pcb);;
  st ← load (pcb_start_stack pcb);
  store (pcb_frame pcb) (st - sizeof_idtframe)%w;;
  f ← load (pcb_frame pcb);
  ws ← frame;
  store_words f ws;;
  (if negb (offset =? 0) then
     f ← load (pcb_frame pcb); st ← load (pcb_start_stack pcb);
     store (frame_esp f) (w32 (st + 4 - (ROUNDUP offset - offset)))
   else f ← load (pcb_frame pcb); store (frame_esp f) 0);;
  f ← load (pcb_frame pcb);
  or_store (frame_eflags f) 0x200;;
  f ← load (pcb_frame pcb);
  store (pcb_context_esp pcb) f;;
  store (pcb_context_eip pcb) context_to_intr.

(** The family links of a new child. *)
Definition do_fork_link (pcb : Z) : K unit :=
  parent ← load (pcb_parent pcb);
  c ← load (pcb_cptr parent);
  store (pcb_optr pcb) c;;
  parent ← load (pcb_parent pcb);
  store (pcb_cptr parent) pcb;;
  o ← load (pcb_optr pcb);
  store (pcb_yptr o) pcb.

Definition do_fork (flags stack_offset : Z) (frame : K (list Z)) : K Z :=
  pn ← get k_proc_num;
  if MAX_PROCESS <? pn then mret (-1)
  else
    pcb ← create_pcb;
    if pcb =? NULL then mret (-1)
    else
      r ← set_kthread_stack pcb stack_offset;
      if r =? -1 then free pcb;; mret (-1)
      else
        pid ← get_pid;
        store (pcb_pid pcb) (w32 pid);;
        pid ← load (pcb_pid pcb);
        if s32 pid =? -1 then
          free pcb;;
          st ← load (pcb_start_stack pcb);
          pg ← la_addr_to_pg st;
          free_page fuel pg KTHREAD_STACK_PAGE;;
          mret (-1)
        else
          current ← get k_current;
          store (pcb_parent pcb) current;;
          on_mem (list_insert_after proc_list (pcb_node pcb));;
          pn ← get k_proc_num;
          upd (set_proc_num (s32 (pn + 1)));;
          current ← get k_current;
          mm ← load (pcb_mm current);
          copy_mm pcb flags mm;;
          copy_thread pcb stack_offset frame;;
          do_fork_link pcb;;
          wakeup_process pcb;;
          current ← get k_current;
          p ← load (pcb_pid current);
          printf "current: pid=> %d\n" [p];;
          p ← load (pcb_pid pcb);
          printf "pcb in do_fork: pid=> %d\n" [p];;
          p ← load (pcb_pid pcb);
          mret (s32 p).

(** The frame [kernel_thread] fills in. *)
Definition kernel_frame (fn arg : Z) : list Z :=
  [0x10; 0; 0; 0; 0; fn; arg; 0; 0; 0; 0; kernel_thread_entry_addr; 0x08; 0; 0; 0x10].

Definition kernel_thread (fn arg flags : Z) : K Z := do_fork flags 0 (mret (kernel_frame fn arg)).

Definition proc_init : K unit :=
  on_mem (list_init proc_list);;
  upd (set_pids (replicate 128 0));;
  p ← create_pcb;
  upd (set_idle p);;
  idle ← get k_idle;
  (if idle =? NULL then panic "can't init_proc proc 0... wrong.\n" else mret tt);;
  pid ← get_pid;
  store (pcb_pid idle) (w32 pid);;
  store (pcb_start_stack idle) (w32 (kern_stack + KTHREAD_STACK_PAGE * PAGE_SIZE));;
  store (pcb_state idle) TASK_READY;;
  upd (set_current idle);;
  pn ← get k_proc_num;
  upd (set_proc_num (s32 (pn + 1))).

(** ** Switching *)

(** What the other processes do between the moment the caller's registers are
    saved and the moment they are loaded again. *)
Variable resume : K unit.

(** [switch_to] saves the registers in one context and loads the other's;
    the call returns when the saved context is loaded again. *)
Definition switch_to (prev next : Z) : K unit := emit (EvSwitch prev next);; resume.

Definition run_thread (pcb : Z) : K unit :=
  current ← get k_current;
  if current =? pcb then mret tt
  else
    prev ← get k_current;
    upd (set_current pcb);;
    st ← load (pcb_start_stack pcb);
    upd (set_tss_esp0 st);;
    pde ← load (pcb_backup_pde pcb);
    emit (EvCr3 pde);;
    current ← get k_current;
    switch_to (pcb_context prev) (pcb_context current).

Fixpoint print_thread_chains_loop (k : nat) (begin : Z) : K unit :=
  match k with
  | O => nofuel
  | S k =>
      if negb (begin =? proc_list) then
        let pcb := pcb_of_node begin in
        p ← load (pcb_pid pcb); st ← load (pcb_state pcb);
        printf "pid %d, status %d. || " [p; st];;
        begin ← load (node_prev begin);
        print_thread_chains_loop k begin
      else mret tt
  end.

Definition print_thread_chains : K unit :=
  begin ← load (node_prev proc_list);
  current ← get k_current;
  p ← load (pcb_pid current);
  printf "in pid %d:" [p];;
  print_thread_chains_loop fuel begin;;
  printf "\n" [].

(** ** The end of a process *)

(** Take [child] out of the list of its siblings. *)
Definition recycle_links (child : Z) : K unit :=
  y ← load (pcb_yptr child);
  (if negb (y =? NULL) then o ← load (pcb_optr child); store (pcb_optr y) o
   else o ← load (pcb_optr child); p ← load (pcb_parent child); store (pcb_cptr p) o);;
  o ← load (pcb_optr child);
  when (negb (o =? NULL)) (y ← load (pcb_yptr child); store (pcb_yptr o) y).

Definition recycle_child (child : Z) : K Z :=
  p ← load (pcb_pid child);
  printf "waitpid %d end!\n" [p];;
  recycle_links child;;
  st ← load (pcb_start_stack child);
  pg ← la_addr_to_pg (w32 (st - PAGE_SIZE * KTHREAD_STACK_PAGE));
  free_page fuel pg KTHREAD_STACK_PAGE;;
  on_mem (list_delete (pcb_node child));;
  free child;;
  mret 0.

Fixpoint send_chld_to_init_loop (k : nat) : K unit :=
  match k with
  | O => nofuel
  | S k =>
      current ← get k_current;
      c ← load (pcb_cptr current);
      if negb (c =? NULL) then
        let child := c in
        init_proc ← get k_init_proc;
        o ← load (pcb_optr child);
        store (pcb_cptr current) o;;
        store (pcb_yptr child) NULL;;
        o ← load (pcb_optr child);
        store (pcb_yptr o) NULL;;
        ic ← load (pcb_cptr init_proc);
        store (pcb_optr child) ic;;
        ic ← load (pcb_cptr init_proc);
        when (negb (ic =? NULL)) (store (pcb_yptr ic) child);;
        store (pcb_cptr init_proc) child;;
        store (pcb_parent child) init_proc;;
        st ← load (pcb_state child); ws ← load (pcb_waitstate init_proc);
        when ((st =? TASK_ZOMBIE) && (ws =? WT_CHILD)) (wakeup_process init_proc);;
        send_chld_to_init_loop k
      else mret tt
  end.

Definition send_chld_to_init : K unit :=
  current ← get k_current;
  parent ← load (pcb_parent current);
  ws ← load (pcb_waitstate parent);
  when (ws =? WT_CHILD) (wakeup_process parent);;
  send_chld_to_init_loop fuel.

(** What [schedule] does until the caller is scheduled again is an argument
    of the two functions that use it to wait. *)
Variable schedule : K unit.

Definition do_exit (errorCode : Z) : K unit :=
  flag ← atom_disable_intr;
  current ← get k_current;
  p ← load (pcb_pid current);
  printf "process %d finished. \n" [p];;
  printf "=======================\n" [];;
  mm ← load (pcb_mm current);
  delete_mm mm;;
  current ← get k_current;
  store (pcb_state current) TASK_ZOMBIE;;
  send_chld_to_init;;
  atom_enable_intr flag;;
  schedule;;
  panic "hahaha!!exit!!\n".

(** The branch for [pid] 0. After [schedule] the code jumps back into the loop
    body with the process it looked at last. *)
Fixpoint waitpid_any (k : nat) (begin chd has_child : Z) : K Z :=
  match k with
  | O => nofuel
  | S k =>
      if negb (begin =? proc_list) then
        let chd := pcb_of_node begin in
        p ← load (pcb_parent chd); current ← get k_current;
        if p =? current then
          st ← load (pcb_state chd);
          if st =? TASK_ZOMBIE then recycle_child chd
          else begin ← load (node_next begin); waitpid_any k begin chd 1
        else begin ← load (node_next begin); waitpid_any k begin chd has_child
      else if has_child =? 0 then printf "waitpid wrong!\n" [];; mret (-1)
      else
        schedule;;
        st ← load (pcb_state chd);
        if st =? TASK_ZOMBIE then recycle_child chd
        else begin ← load (node_next begin); waitpid_any k begin chd has_child
  end.

Fixpoint waitpid_zombie (k : nat) (chd : Z) : K Z :=
  match k with
  | O => nofuel
  | S k =>
      st ← load (pcb_state chd);
      if st =? TASK_ZOMBIE then recycle_child chd else schedule;; waitpid_zombie k chd
  end.

Fixpoint waitpid_one (k : nat) (begin pid : Z) : K Z :=
  match k with
  | O => nofuel
  | S k =>
      if negb (begin =? proc_list) then
        let chd := pcb_of_node begin in
        p ← load (pcb_pid chd);
        if s32 p =? pid then
          par ← load (pcb_parent chd); current ← get k_current;
          if par =? current then waitpid_zombie fuel chd
          else printf "waitpid wrong!\n" [];; mret (-1)
        else begin ← load (node_next begin); waitpid_one k begin pid
      else mret 0
  end.

Definition do_waitpid (pid : Z) : K Z :=
  printf "waitpid %d begin...\n" [pid];;
  begin ← load (node_next proc_list);
  if pid =? 0 then waitpid_any fuel begin 0 0 else waitpid_one fuel begin pid.

End Proc.

(** * Process control blocks in memory *)

(** Blocks that overlap neither each other nor the first page of memory. *)
Record pcbs_sep (l : list Z) : Prop := {
  ps_nodup : NoDup l;
  ps_span : forall p, p ∈ l -> span p sizeof_pcb /\ PAGE_SIZE <= ka p;
  ps_apart : forall p q, p ∈ l -> q ∈ l -> p <> q ->
    ka p + sizeof_pcb <= ka q \/ ka q + sizeof_pcb <= ka p
}.

Lemma pcbs_sep_sub l l' : pcbs_sep l -> NoDup l' -> (forall x, x ∈ l' -> x ∈ l) -> pcbs_sep l'.
Proof. intros [] Hnd Hsub. constructor; eauto. Qed.

Lemma pcb_field_ka l p i : pcbs_sep l -> p ∈ l -> 0 <= i <= 88 -> ka (p + i) = ka p + i.
Proof. intros Hs Hp Hi. apply (ka_span p sizeof_pcb); [by apply (ps_span l Hs)|]. unfold sizeof_pcb. lia. Qed.

Lemma pcb_fields_wd l p q i j : pcbs_sep l -> p ∈ l -> q ∈ l -> 0 <= i <= 88 -> 0 <= j <= 88 ->
  p <> q \/ i + 4 <= j \/ j + 4 <= i -> wd (p + i) (q + j).
Proof.
  intros Hs Hp Hq Hi Hj Hd. unfold wd. rewrite !(pcb_field_ka l) by done.
  destruct (decide (p = q)) as [->|Hne]; [lia|].
  pose proof (ps_apart l Hs p q Hp Hq Hne). unfold sizeof_pcb in *. lia.
Qed.

(** The word a store through a null pcb pointer reaches. *)
Lemma null_field_wd l p i j : pcbs_sep l -> p ∈ l -> 0 <= i <= 88 -> 0 <= j <= 88 -> wd (0 + j) (p + i).
Proof.
  intros Hs Hp Hi Hj. left. rewrite (pcb_field_ka l p) by done. rewrite (ka_low (0 + j)) by (unfold VERTUAL_MEM; lia).
  pose proof (ps_span l Hs p Hp). unfold PAGE_SIZE in *. lia.
Qed.

Lemma pcb_nonnull l p : pcbs_sep l -> p ∈ l -> p <> 0.
Proof.
  intros Hs Hp ->. destruct (ps_span l Hs 0 Hp) as [_ H]. rewrite ka_low in H by (unfold VERTUAL_MEM; lia).
  unfold PAGE_SIZE in H. lia.
Qed.

Lemma pcb_word l p : pcbs_sep l -> p ∈ l -> 0 <= p < 2 ^ 32.
Proof. intros Hs Hp. destruct (ps_span l Hs p Hp) as [[?|?] _]; unfold sizeof_pcb, VERTUAL_MEM in *; lia. Qed.

(** Names of the fields as offsets, for the lemmas above. *)
Ltac pcb_unfold := unfold pcb_state, pcb_pid, pcb_start_stack, pcb_parent, pcb_mm, pcb_backup_pde,
  pcb_context, pcb_context_eip, pcb_context_esp, pcb_frame, pcb_waitstate, pcb_cptr, pcb_yptr, pcb_optr,
  pcb_node, pcb_semaphore_test_node, NULL in *.

(** ** Families *)

(** [elders m par y l o]: the children [l] of [par] from the younger to the
    elder, between the next younger one [y] and the next elder one [o]. *)
Fixpoint elders (m : memory) (par y : Z) (l : list Z) (o : Z) : Prop :=
  match l with
  | [] => True
  | c :: l => rd32 m (pcb_parent c) = par /\ rd32 m (pcb_yptr c) = y /\
      rd32 m (pcb_optr c) = after o l /\ elders m par c l o
  end.

(** The children of [par], the youngest first. *)
Definition children (m : memory) (par : Z) (l : list Z) : Prop :=
  rd32 m (pcb_cptr par) = after NULL l /\ elders m par NULL l NULL.

Lemma elders_frame m m' par y l o :
  (forall c, c ∈ l -> rd32 m' (pcb_parent c) = rd32 m (pcb_parent c) /\
    rd32 m' (pcb_yptr c) = rd32 m (pcb_yptr c) /\ rd32 m' (pcb_optr c) = rd32 m (pcb_optr c)) ->
  elders m par y l o -> elders m' par y l o.
Proof.
  revert y. induction l as [|c l IH]; intros y Hf; [done|]. cbn [elders].
  destruct (Hf c ltac:(left)) as (-> & -> & ->). intros (? & ? & ? & ?). split_and!; try done.
  apply IH; [|done]. intros d Hd. apply Hf. by right.
Qed.

(** Side conditions of reads over the stores to a family's fields. *)
Ltac pcb_neq := first [assumption | apply not_eq_sym; assumption | set_solver].
Ltac pcb_in := first
  [ assumption
  | solve [repeat first [apply list_elem_of_here | apply list_elem_of_further; try assumption]]
  | set_solver ].

Ltac fam_wd Hs := first
  [ eapply (null_field_wd _ _ _ _ Hs); [pcb_in|lia|lia]
  | apply wd_sym; eapply (null_field_wd _ _ _ _ Hs); [pcb_in|lia|lia]
  | eapply (pcb_fields_wd _ _ _ _ _ Hs); [pcb_in|pcb_in|lia|lia|first [right; lia | left; pcb_neq]] ].

Ltac fam_rd Hs := repeat first
  [ rewrite rd32_wr32_eq | rewrite rd32_wr32_ne by (fam_wd Hs) ].

Lemma after_null_cases l : after NULL l = 0 \/ after NULL l ∈ l.
Proof. destruct l; [by left|right; left]. Qed.

(** [do_fork] makes the new process the youngest child of its parent. With no
    elder sibling the last store goes through a null pointer. *)
Lemma do_fork_link_run s par pcb ch :
  pcbs_sep (par :: pcb :: ch) -> rd32 (k_mem s) (pcb_parent pcb) = par ->
  children (k_mem s) par ch ->
  do_fork_link pcb s = Ok tt (set_mem (wr32 (wr32 (wr32 (k_mem s) (pcb_optr pcb) (after NULL ch))
    (pcb_cptr par) pcb) (pcb_yptr (after NULL ch)) pcb) s).
Proof.
  intros Hs Hp [Hc _]. unfold do_fork_link. krun. rewrite Hp, Hc.
  assert (Hne : par <> pcb /\ (after NULL ch = 0 \/ after NULL ch ∈ ch)).
  { split; [|apply after_null_cases]. pose proof (ps_nodup _ Hs) as Hn. apply NoDup_cons in Hn as [Hn _]. set_solver. }
  destruct Hne as [Hne Hh]. revert Hp. pcb_unfold. intros Hp.
  rewrite (rd32_wr32_ne _ (pcb + 72) (pcb + 12)) by (fam_wd Hs). rewrite Hp.
  fam_rd Hs. rewrite w32_small; [done|].
  destruct Hh as [-> | Hh]; [lia|]. eapply pcb_word; [exact Hs|set_solver].
Qed.

(** The other fields keep the family of [par]. *)
Lemma children_frame m m' par l :
  rd32 m' (pcb_cptr par) = rd32 m (pcb_cptr par) ->
  (forall c, c ∈ l -> rd32 m' (pcb_parent c) = rd32 m (pcb_parent c) /\
    rd32 m' (pcb_yptr c) = rd32 m (pcb_yptr c) /\ rd32 m' (pcb_optr c) = rd32 m (pcb_optr c)) ->
  children m par l -> children m' par l.
Proof. intros Hc Hf [? ?]. split; [by rewrite Hc|]. by apply (elders_frame m). Qed.

Lemma do_fork_link_adds s par pcb ch :
  pcbs_sep (par :: pcb :: ch) -> rd32 (k_mem s) (pcb_parent pcb) = par ->
  rd32 (k_mem s) (pcb_yptr pcb) = NULL -> children (k_mem s) par ch ->
  exists m', do_fork_link pcb s = Ok tt (set_mem m' s) /\ children m' par (pcb :: ch) /\
    forall a, wd (pcb_optr pcb) a -> wd (pcb_cptr par) a -> wd (pcb_yptr (after NULL ch)) a ->
      rd32 m' a = rd32 (k_mem s) a.
Proof.
  intros Hs Hp Hy Hch. eexists. split; [by apply (do_fork_link_run s par pcb ch)|].
  pose proof (ps_nodup _ Hs) as Hnd. apply NoDup_cons in Hnd as [Hpar Hnd]. apply NoDup_cons in Hnd as [Hpcb Hnd].
  assert (Hw : 0 <= pcb < 2 ^ 32) by (eapply pcb_word; [exact Hs|set_solver]).
  destruct Hch as [Hc He]. revert Hp Hy Hc He. pcb_unfold. intros Hp Hy Hc He. split; [|by intros; rdw].
  unfold children. pcb_unfold. cbn [elders]. pcb_unfold. change (after 0 (pcb :: ch)) with pcb.
  destruct ch as [|c ch].
  - change (after 0 []) with 0. fam_rd Hs. rewrite Hp, Hy. rewrite (w32_small pcb), w32_small by lia. done.
  - change (after 0 (c :: ch)) with c in *. assert (Hcc : c <> pcb /\ c <> par) by set_solver. destruct Hcc as [Hc1 Hc2].
    cbn [elders] in *. revert He. pcb_unfold. intros (E1 & E2 & E3 & E4).
    assert (Hwc : 0 <= c < 2 ^ 32) by (eapply pcb_word; [exact Hs|set_solver]).
    fam_rd Hs. rewrite Hp, Hy, E1, E3, (w32_small pcb), w32_small by done. split_and!; try done.
    eapply elders_frame; [|exact E4]. intros d Hd. apply NoDup_cons in Hnd as [Hcd _].
    assert (Hdd : d <> pcb /\ d <> par /\ d <> c) by set_solver. destruct Hdd as (Hd1 & Hd2 & Hd3).
    pcb_unfold. fam_rd Hs. done.
Qed.

(** The part of [do_fork] that links the family: the new process becomes the
    youngest child of its parent, before the children it had, whose order is kept; no
    other link changes. *)
Theorem do_fork_adds_child s par pcb ch :
  pcbs_sep (par :: pcb :: ch) -> rd32 (k_mem s) (pcb_parent pcb) = par ->
  rd32 (k_mem s) (pcb_yptr pcb) = NULL -> children (k_mem s) par ch ->
  exists m', do_fork_link pcb s = Ok tt (set_mem m' s) /\ children m' par (pcb :: ch) /\
    forall a, wd (pcb_optr pcb) a -> wd (pcb_cptr par) a -> wd (pcb_yptr (after NULL ch)) a ->
      rd32 m' a = rd32 (k_mem s) a.
Proof. apply do_fork_link_adds. Qed.

(** The first child of a process: [optr] is null, and the last store of the
    links overwrites entry 17 of the page directory, which is at address 0. *)
Theorem first_fork_writes_page_directory s par pcb :
  pcbs_sep [par; pcb] -> rd32 (k_mem s) (pcb_parent pcb) = par -> children (k_mem s) par [] ->
  exists m', do_fork_link pcb s = Ok tt (set_mem m' s) /\
    rd32 m' (pde_at pd_init 0x04400000) = pcb.
Proof.
  intros Hs Hp Hch. eexists. split; [by apply (do_fork_link_run s par pcb [])|].
  change (pde_at pd_init 0x04400000) with (pcb_yptr (after NULL [])).
  rewrite rd32_wr32_eq. apply w32_small. eapply pcb_word; [exact Hs|set_solver].
Qed.

Lemma elders_app m par l2 o : forall l1 y,
  elders m par y (l1 ++ l2) o <-> elders m par y l1 (after o l2) /\ elders m par (before y l1) l2 o.
Proof.
  induction l1 as [|c l1 IH]; intros y; cbn [app elders]; [change (before y []) with y; tauto|].
  rewrite IH. assert (after o (l1 ++ l2) = after (after o l2) l1) as -> by (by destruct l1).
  assert (before y (c :: l1) = before c l1) as ->; [|tauto].
  unfold before. rewrite last_cons. by destruct (last l1).
Qed.

(** A new younger neighbour for the youngest of [l]. *)
Lemma elders_young m par l y0 y : pcbs_sep l -> 0 <= y < 2 ^ 32 -> elders m par y0 l NULL ->
  elders (wr32 m (pcb_yptr (after NULL l)) y) par y l NULL.
Proof.
  intros Hs Hy He. destruct l as [|x l]; [done|]. change (after NULL (x :: l)) with x.
  cbn [elders] in *. destruct He as (Ep & Ey & Eo & E).
  pose proof (ps_nodup _ Hs) as Hn. apply NoDup_cons in Hn as [Hx _].
  revert Ep Ey Eo. pcb_unfold. intros Ep Ey Eo. fam_rd Hs.
  rewrite w32_small by done. split_and!; try done.
  eapply elders_frame; [|exact E]. intros d Hd. assert (d <> x) by set_solver. pcb_unfold. fam_rd Hs. done.
Qed.

(** ** Taking a child out of the list of its siblings *)
Section Unlink.
Context (par c : Z) (l1 l2 : list Z).
Hypothesis Hs : pcbs_sep (par :: l1 ++ c :: l2).

(** The word that points to [c] from the younger side. *)
Definition younger_ptr : Z := if l1 is [] then pcb_cptr par else pcb_optr (before NULL l1).

Lemma unlink_distinct :
  par <> c /\ (par ∉ l1) /\ (par ∉ l2) /\ (c ∉ l1) /\ (c ∉ l2) /\ NoDup l1 /\ NoDup l2 /\
  (forall d, d ∈ l1 -> d ∈ l2 -> False).
Proof.
  pose proof (ps_nodup _ Hs) as Hn. apply NoDup_cons in Hn as [Hp Hn].
  apply NoDup_app in Hn as (Hn1 & Hn & Hn2). apply NoDup_cons in Hn2 as [Hc Hn2].
  set_solver.
Qed.

Lemma younger_ptr_off d i : d ∈ l2 \/ d = c -> 0 <= i <= 88 -> wd younger_ptr (d + i).
Proof.
  intros Hd Hi. destruct unlink_distinct as (H1 & H2 & H3 & H4 & H5 & _ & _ & H6).
  unfold younger_ptr. destruct l1 as [|x l1'] eqn:E.
  - eapply (pcb_fields_wd _ _ _ _ _ Hs); [set_solver..|lia|lia|left; set_solver].
  - assert (before NULL (x :: l1') ∈ x :: l1') as Hb.
    { unfold before. destruct (last (x :: l1')) as [y|] eqn:El; [|by apply last_None in El].
      apply last_Some in El as [l' ->]. simpl. set_solver. }
    eapply (pcb_fields_wd _ _ _ _ _ Hs); [set_solver..|lia|lia|left]. intros <-. set_solver.
Qed.

Lemma unlink_younger m v :
  rd32 m (pcb_cptr par) = after c l1 -> elders m par NULL l1 c -> 0 <= v < 2 ^ 32 ->
  let m1 := wr32 m younger_ptr v in
  rd32 m1 (pcb_cptr par) = after v l1 /\ elders m1 par NULL l1 v.
Proof.
  intros Hc He Hv. destruct unlink_distinct as (H1 & H2 & H3 & H4 & H5 & Hn & _ & H6).
  unfold younger_ptr. cbn zeta. destruct l1 as [|x l1' _] using rev_ind.
  - split; [|done]. rewrite rd32_wr32_eq. by apply w32_small.
  - assert (forall T (a b : T), match l1' ++ [x] with [] => a | _ :: _ => b end = b) as -> by (by destruct l1').
    rewrite before_snoc. apply NoDup_app in Hn as (Hn & Hx & _).
    assert (Hxl : x ∉ l1') by (intros Hx'; apply (Hx x Hx'); left).
    apply elders_app in He as [E1 E2]. cbn [elders] in E2. destruct E2 as (Ep & Ey & Eo & _).
    revert Hc Ep Ey Eo. pcb_unfold. intros Hc Ep Ey Eo. split.
    + fam_rd Hs. rewrite Hc. by destruct l1'.
    + apply elders_app. cbn [elders]. pcb_unfold. fam_rd Hs. split_and!; [|done..|by apply w32_small|done].
      eapply elders_frame; [|exact E1]. intros d Hd. assert (d <> x) by set_solver. pcb_unfold. fam_rd Hs. done.
Qed.

End Unlink.

Lemma after_word l o : pcbs_sep l -> 0 <= o < 2 ^ 32 -> 0 <= after o l < 2 ^ 32.
Proof. intros Hs Ho. destruct l as [|x l]; [done|]. change (after o (x :: l)) with x. eapply pcb_word; [exact Hs|left]. Qed.

Lemma recycle_links_run s par l1 c l2 :
  pcbs_sep (par :: l1 ++ c :: l2) -> children (k_mem s) par (l1 ++ c :: l2) ->
  exists m', recycle_links c s = Ok tt (set_mem m' s) /\ children m' par (l1 ++ l2) /\
    forall x, wd (younger_ptr par l1) x -> wd (pcb_yptr (after NULL l2)) x -> rd32 m' x = rd32 (k_mem s) x.
Proof.
  intros Hs [Hc He]. apply elders_app in He as [H1 H2]. cbn [elders after head default] in H1, H2.
  destruct H2 as (Ep & Ey & Eo & H2).
  assert (Hc' : rd32 (k_mem s) (pcb_cptr par) = after c l1) by (rewrite Hc; by destruct l1).
  destruct (unlink_distinct par c l1 l2 Hs) as (D1 & D2 & D3 & D4 & D5 & _ & D7 & D6).
  assert (Hvin : after NULL l2 ∈ l2 \/ after NULL l2 = NULL) by (destruct (after_null_cases l2); tauto).
  set (v := after NULL l2) in *. assert (Hv : 0 <= v < 2 ^ 32).
  { apply after_word; [|unfold NULL; lia]. eapply pcbs_sep_sub; [exact Hs| |set_solver].
    eapply NoDup_app. pose proof (ps_nodup _ Hs) as Hn.
    apply NoDup_cons in Hn as [_ Hn]. rewrite cons_middle, app_assoc in Hn. exact Hn. }
  set (m1 := wr32 (k_mem s) (younger_ptr par l1) v).
  destruct (unlink_younger par c l1 l2 Hs (k_mem s) v Hc' H1 Hv) as [C1 C2].
  fold m1 in C1, C2.
  assert (R : forall i, 0 <= i <= 88 -> rd32 m1 (c + i) = rd32 (k_mem s) (c + i)).
  { intros i Hi. apply rd32_wr32_ne. eapply younger_ptr_off; [exact Hs|by right|done]. }
  assert (E2 : elders m1 par c l2 NULL).
  { eapply elders_frame; [|exact H2]. intros d Hd. split_and!; (apply rd32_wr32_ne; eapply younger_ptr_off; [exact Hs|by left|lia]). }
  set (y := before NULL l1) in *.
  assert (Hrun : recycle_links c s = Ok tt (set_mem (if v =? NULL then m1 else wr32 m1 (pcb_yptr v) y) s)).
  { unfold recycle_links. krun. rewrite Ey. unfold m1, younger_ptr, y in *.
    destruct (last l1) as [z|] eqn:El.
    - apply last_Some in El as [l1' E]. rewrite E in *. rewrite before_snoc in *.
      assert (z <> NULL) as Hz by (eapply pcb_nonnull; [exact Hs|set_solver]).
      apply Z.eqb_neq in Hz. rewrite Hz. cbn [negb]. krun. rewrite Eo, ?Ep.
      assert (forall T (a b : T), match l1' ++ [z] with [] => a | _ :: _ => b end = b) as Em by (by destruct l1').
      rewrite Em in R |- *. unfold pcb_optr, pcb_yptr in *. fold v. rewrite !R, Eo by lia. destruct (v =? NULL); cbn [negb]; krun; [done|]. by rewrite R, Ey by lia.
    - apply last_None in El. subst l1. change (before NULL [] =? NULL) with true. cbn [negb]. krun. rewrite Eo, ?Ep.
      unfold pcb_optr, pcb_yptr in *. fold v. rewrite !R, Eo by lia. destruct (v =? NULL); cbn [negb]; krun; [done|]. by rewrite R, Ey by lia. }
  exists (if v =? NULL then m1 else wr32 m1 (pcb_yptr v) y). split; [exact Hrun|]. split.
  2: { intros x W1 W2. destruct (v =? NULL); [|rewrite rd32_wr32_ne by exact W2]; by apply rd32_wr32_ne. }
  destruct (Z.eqb_spec v NULL) as [E0|E0].
  - assert (l2 = []) as ->.
    { destruct l2 as [|x l2']; [done|]. exfalso. apply (pcb_nonnull _ x Hs); [set_solver|exact E0]. }
    rewrite app_nil_r. split; [rewrite C1; by unfold v|exact C2].
  - split.
    + rewrite rd32_wr32_ne; [rewrite C1; by destruct l1|].
      destruct Hvin as [Hvin|]; [|done]. pcb_unfold. fam_wd Hs.
    + apply elders_app. split; [|eapply elders_young; [eapply pcbs_sep_sub; [exact Hs|done|set_solver]| |exact E2]].
      * eapply elders_frame; [|exact C2]. intros d Hd. destruct Hvin as [Hvin|]; [|done].
        assert (d <> v) by (intros ->; by apply (D6 v)). pcb_unfold. fam_rd Hs. done.
      * pose proof (rd32_range (k_mem s) (pcb_yptr c)) as Hr. rewrite Ey in Hr. exact Hr.
Qed.

(** The part of [recycle_child] that unlinks the family: the child leaves the
    parent's list wherever it stands in it, and its brothers are kept in order. *)
Theorem recycle_unlinks_child s par l1 c l2 :
  pcbs_sep (par :: l1 ++ c :: l2) -> children (k_mem s) par (l1 ++ c :: l2) ->
  exists m', recycle_links c s = Ok tt (set_mem m' s) /\ children m' par (l1 ++ l2).
Proof. intros Hs Hc. destruct (recycle_links_run s par l1 c l2 Hs Hc) as (m' & R & C & _). by exists m'. Qed.

(** ** A dying process hands its children to [init_proc] *)
Section HandOver.
Context (m : memory) (cur ini c : Z) (ch ich : list Z).
Hypothesis Hs : pcbs_sep (cur :: ini :: c :: ch ++ ich).

(** The stores of one round: [c] leaves [cur] and becomes a child of [ini]. *)
Definition hand_out : memory :=
  wr32 (wr32 (wr32 m (pcb_cptr cur) (after NULL ch)) (pcb_yptr c) NULL) (pcb_yptr (after NULL ch)) NULL.

Definition hand_in : memory :=
  let m := wr32 hand_out (pcb_optr c) (after NULL ich) in
  let m := if after NULL ich =? NULL then m else wr32 m (pcb_yptr (after NULL ich)) c in
  wr32 (wr32 m (pcb_cptr ini) c) (pcb_parent c) ini.

Let F := cur :: ini :: c :: ch ++ ich.

Lemma hand_over_in : cur ∈ F /\ ini ∈ F /\ c ∈ F /\ (forall d, d ∈ ch -> d ∈ F) /\ (forall d, d ∈ ich -> d ∈ F).
Proof. clear Hs. unfold F. set_solver. Qed.

Lemma hand_over_ne : cur <> ini /\ cur <> c /\ ini <> c /\
  (forall d, d ∈ ch -> cur <> d /\ ini <> d /\ c <> d) /\
  (forall d, d ∈ ich -> cur <> d /\ ini <> d /\ c <> d) /\ (forall d e, d ∈ ch -> e ∈ ich -> d <> e).
Proof.
  pose proof (ps_nodup _ Hs) as Hn. rewrite !NoDup_cons, NoDup_app in Hn.
  destruct Hn as (N1 & N2 & N3 & _ & N4 & _). clear Hs. set_solver.
Qed.

Lemma hand_over_sep : pcbs_sep ch /\ pcbs_sep ich.
Proof.
  pose proof (ps_nodup _ Hs) as Hn. rewrite !NoDup_cons, NoDup_app in Hn. destruct Hn as (_ & _ & _ & N1 & _ & N2).
  destruct hand_over_in as (_ & _ & _ & ? & ?). split; by apply (pcbs_sep_sub F).
Qed.

(** The words the round leaves alone. *)
Lemma hand_out_off d i : d ∈ F -> 0 <= i <= 88 -> (d = cur -> i <> 64) -> (d = c \/ d ∈ ch -> i <> 68) -> i mod 4 = 0 ->
  rd32 hand_out (d + i) = rd32 m (d + i).
Proof.
  intros Hd Hi H1 H2 H3. destruct hand_over_in as (I1 & I2 & I3 & I4 & I5). unfold hand_out. pcb_unfold.
  assert (forall x, i <> x -> x mod 4 = 0 -> i + 4 <= x \/ x + 4 <= i) as Hm by (intros; lia_div).
  rewrite !rd32_wr32_ne; [done|..].
  - eapply (pcb_fields_wd _ _ _ _ _ Hs); [done..|lia|lia|]. destruct (decide (cur = d)) as [<-|]; [right|by left].
    apply or_comm, Hm; [by apply H1|done].
  - eapply (pcb_fields_wd _ _ _ _ _ Hs); [done..|lia|lia|]. destruct (decide (c = d)) as [<-|]; [right|by left].
    apply or_comm, Hm; [apply H2; by left|done].
  - destruct (after_null_cases ch) as [Ho|Ho].
    + unfold NULL in Ho. rewrite Ho. eapply (null_field_wd _ _ _ _ Hs); [done|lia|lia].
    + eapply (pcb_fields_wd _ _ _ _ _ Hs); [by apply I4|done|lia|lia|].
      destruct (decide (after 0 ch = d)) as [<-|]; [right|by left]. apply or_comm, Hm; [apply H2; by right|done].
Qed.

Lemma hand_in_off d i : d ∈ F -> 0 <= i <= 88 -> (d = c -> i <> 72 /\ i <> 12) -> (d = ini -> i <> 64) ->
  (d ∈ ich -> i <> 68) -> i mod 4 = 0 -> rd32 hand_in (d + i) = rd32 hand_out (d + i).
Proof.
  intros Hd Hi H1 H2 H3 H4. destruct hand_over_in as (I1 & I2 & I3 & I4 & I5). unfold hand_in. cbn zeta. pcb_unfold.
  assert (forall x, i <> x -> x mod 4 = 0 -> i + 4 <= x \/ x + 4 <= i) as Hm by (intros; lia_div).
  assert (Hc : forall x, (d = c -> i <> x) -> x mod 4 = 0 -> 0 <= x <= 88 -> wd (c + x) (d + i)).
  { intros x Hx Hx4 Hxr. eapply (pcb_fields_wd _ _ _ _ _ Hs); [done..|]. destruct (decide (c = d)) as [<-|]; [right|by left].
    apply or_comm, Hm; [by apply Hx|done]. }
  rewrite (rd32_wr32_ne _ (c + 12)), (rd32_wr32_ne _ (ini + 64)).
  - destruct (Z.eqb_spec (after 0 ich) 0) as [E|E]; rewrite ?(rd32_wr32_ne _ (c + 72)) by (apply Hc; [naive_solver|done|lia]); [done|].
    destruct (after_null_cases ich) as [Ho|Ho]; [done|]. rewrite !rd32_wr32_ne; [done|apply Hc; [naive_solver|done|lia]|].
    eapply (pcb_fields_wd _ _ _ _ _ Hs); [by apply I5|done|lia|lia|].
    destruct (decide (after 0 ich = d)) as [<-|]; [right|by left]. apply or_comm, Hm; [by apply H3|done].
  - eapply (pcb_fields_wd _ _ _ _ _ Hs); [done..|lia|lia|]. destruct (decide (ini = d)) as [<-|]; [right|by left].
    apply or_comm, Hm; [by apply H2|done].
  - apply Hc; [naive_solver|done|lia].
Qed.

Lemma hand_out_cur : elders m cur c ch NULL ->
  rd32 hand_out (pcb_cptr cur) = after NULL ch /\ rd32 hand_out (pcb_yptr c) = NULL /\ elders hand_out cur NULL ch NULL.
Proof.
  intros He. destruct hand_over_in as (I1 & I2 & I3 & I4 & I5). destruct hand_over_ne as (D1 & D2 & D3 & D4 & D5 & D6).
  destruct hand_over_sep as [S1 S2]. unfold hand_out.
  assert (Ho : after NULL ch = 0 \/ after NULL ch ∈ F /\ cur <> after NULL ch /\ c <> after NULL ch).
  { destruct (after_null_cases ch) as [?|Ho]; [by left|right]. split; [by apply I4|]. destruct (D4 _ Ho) as (? & ? & ?). tauto. }
  split_and!.
  - pcb_unfold. assert (wd (after 0 ch + 68) (cur + 64)).
    { destruct Ho as [-> |(Ho & ? & ?)]; [fam_wd Hs|fam_wd Hs]. }
    rewrite rd32_wr32_ne by done. fam_rd Hs. apply w32_small, after_word; [done|lia].
  - pcb_unfold. rewrite rd32_wr32_ne; [by rewrite rd32_wr32_eq|]. destruct Ho as [-> |(Ho & ? & ?)]; fam_wd Hs.
  - apply (elders_young _ _ _ c); [done|unfold NULL; lia|]. eapply elders_frame; [|exact He].
    intros d Hd. destruct (D4 d Hd) as (? & ? & ?). assert (d ∈ F) by auto. pcb_unfold. fam_rd Hs. done.
Qed.

Lemma hand_in_ini : elders m ini NULL ich NULL ->
  rd32 hand_in (pcb_cptr ini) = c /\ rd32 hand_in (pcb_parent c) = ini /\
  rd32 hand_in (pcb_optr c) = after NULL ich /\ elders hand_in ini c ich NULL.
Proof.
  intros He. destruct hand_over_in as (I1 & I2 & I3 & I4 & I5). destruct hand_over_ne as (D1 & D2 & D3 & D4 & D5 & D6).
  destruct hand_over_sep as [S1 S2]. assert (W : forall x, x ∈ F -> 0 <= x < 2 ^ 32) by (intros; eapply pcb_word; [exact Hs|done]).
  assert (He' : elders hand_out ini NULL ich NULL).
  { eapply elders_frame; [|exact He]. intros d Hd. destruct (D5 d Hd) as (? & ? & ?). assert (d ∈ F) by auto.
    assert (d ∉ ch) by (intros ?; by eapply (D6 d d)).
    split_and!; apply hand_out_off; first [done | lia | (intros [?|?]; congruence) | (intros; congruence)]. }
  assert (Ho : after NULL ich = 0 \/ after NULL ich ∈ F /\ ini <> after NULL ich /\ c <> after NULL ich).
  { destruct (after_null_cases ich) as [?|Ho]; [by left|right]. split; [by apply I5|]. destruct (D5 _ Ho) as (? & ? & ?). tauto. }
  pose proof (after_word ich 0 S2 ltac:(lia)) as Hw. unfold hand_in. cbn zeta. split_and!.
  - pcb_unfold. fam_rd Hs. by apply w32_small, W.
  - pcb_unfold. fam_rd Hs. by apply w32_small, W.
  - pcb_unfold. rewrite (rd32_wr32_ne _ (c + 12)), (rd32_wr32_ne _ (ini + 64)) by fam_wd Hs.
    destruct (Z.eqb_spec (after 0 ich) 0) as [E|E]; [by rewrite rd32_wr32_small|].
    destruct Ho as [?|(Ho & ? & ?)]; [done|]. rewrite rd32_wr32_ne by fam_wd Hs. by rewrite rd32_wr32_small.
  - eapply (elders_frame (if after NULL ich =? NULL then wr32 hand_out (pcb_optr c) (after NULL ich)
      else wr32 (wr32 hand_out (pcb_optr c) (after NULL ich)) (pcb_yptr (after NULL ich)) c)).
    { intros d Hd. destruct (D5 d Hd) as (? & ? & ?). assert (d ∈ F) by auto. pcb_unfold. fam_rd Hs. done. }
    assert (He2 : elders (wr32 hand_out (pcb_optr c) (after NULL ich)) ini NULL ich NULL).
    { eapply elders_frame; [|exact He']. intros d Hd. destruct (D5 d Hd) as (? & ? & ?). assert (d ∈ F) by auto.
      pcb_unfold. fam_rd Hs. done. }
    destruct (Z.eqb_spec (after NULL ich) NULL) as [E|E].
    + destruct ich as [|x l]; [done|]. by destruct (pcb_nonnull _ x S2 ltac:(left)).
    + eapply elders_young; [done|by apply W|exact He2].
Qed.

Lemma hand_over_children : children m cur (c :: ch) -> children m ini ich ->
  children hand_in cur ch /\ children hand_in ini (c :: ich).
Proof.
  intros [_ He] [_ Hi]. cbn [elders] in He. destruct He as (_ & _ & _ & He).
  destruct hand_over_in as (I1 & I2 & I3 & I4 & I5). destruct hand_over_ne as (D1 & D2 & D3 & D4 & D5 & D6).
  destruct (hand_out_cur He) as (A1 & A2 & A3). destruct (hand_in_ini Hi) as (B1 & B2 & B3 & B4).
  assert (Hoff : forall d i, d ∈ F -> 0 <= i <= 88 -> (d = c -> i <> 72 /\ i <> 12) -> (d = ini -> i <> 64) ->
    (d ∈ ich -> i <> 68) -> i mod 4 = 0 -> rd32 hand_in (d + i) = rd32 hand_out (d + i)) by (intros; by apply hand_in_off).
  split; split.
  - rewrite <- A1. apply Hoff; try done; lia.
  - eapply elders_frame; [|exact A3]. intros d Hd. destruct (D4 d Hd) as (? & ? & ?). assert (d ∉ ich) by (intros ?; by apply (D6 d d)).
    split_and!; apply Hoff; try done; try lia; auto.
  - exact B1.
  - cbn [elders]. split_and!; [done| |done|done]. rewrite <- A2. apply Hoff; try done; try lia. intros Hd. by destruct (D5 c Hd) as (_ & _ & ?).
Qed.

End HandOver.

Lemma children_wr32_state m par l p v ps :
  pcbs_sep ps -> p ∈ ps -> par ∈ ps -> (forall d, d ∈ l -> d ∈ ps) ->
  children m par l -> children (wr32 m (pcb_state p) v) par l.
Proof.
  intros Hs Hp Hpar Hl. assert (W : forall d i, d ∈ ps -> 0 <= i <= 88 -> 4 <= i -> rd32 (wr32 m (pcb_state p) v) (d + i) = rd32 m (d + i)).
  { intros d i Hd Hi H4. apply rd32_wr32_ne. unfold pcb_state. rewrite <- (Z.add_0_r p) at 1.
    eapply (pcb_fields_wd _ _ _ _ _ Hs); [done..|lia|lia|right; lia]. }
  apply children_frame; [by apply W|]. intros c Hc. split_and!; apply W; auto; lia.
Qed.

Lemma send_chld_step s cur ini c ch ich fuel :
  pcbs_sep (cur :: ini :: c :: ch ++ ich) -> k_current s = cur -> k_init_proc s = ini ->
  children (k_mem s) cur (c :: ch) -> children (k_mem s) ini ich ->
  exists m', send_chld_to_init_loop (S fuel) s = send_chld_to_init_loop fuel (set_mem m' s) /\
    children m' cur ch /\ children m' ini (c :: ich) /\
    forall d, d ∈ cur :: ini :: c :: ch ++ ich -> d <> ini -> rd32 m' (pcb_state d) = rd32 (k_mem s) (pcb_state d).
Proof.
  intros Hs Hcur Hini Hch Hich. destruct (hand_over_children (k_mem s) cur ini c ch ich Hs Hch Hich) as [R1 R2].
  destruct (hand_over_in cur ini c ch ich) as (I1 & I2 & I3 & I4 & I5).
  destruct (hand_over_ne cur ini c ch ich Hs) as (D1 & D2 & D3 & D4 & D5 & D6).
  set (F := cur :: ini :: c :: ch ++ ich) in *. assert (Hcn : c <> NULL) by (eapply pcb_nonnull; [exact Hs|done]).
  set (mf := hand_in (k_mem s) cur ini c ch ich) in *.
  set (m' := if (rd32 mf (pcb_state c) =? TASK_ZOMBIE) && (rd32 mf (pcb_waitstate ini) =? WT_CHILD)
    then wr32 mf (pcb_state ini) TASK_RUNNABLE else mf).
  assert (Hm : children m' cur ch /\ children m' ini (c :: ich)).
  { unfold m'. destruct (_ && _); [|done]. split; (eapply children_wr32_state; [exact Hs|done|done| |done]);
      [exact I4|intros d [->|?]%elem_of_cons; auto]. }
  assert (Hst : forall d, d ∈ F -> d <> ini -> rd32 m' (pcb_state d) = rd32 (k_mem s) (pcb_state d)).
  { intros d Hd Hne. transitivity (rd32 mf (pcb_state d)).
    - unfold m'. destruct (_ && _); [|done]. apply rd32_wr32_ne. unfold pcb_state.
      rewrite <- (Z.add_0_r ini), <- (Z.add_0_r d). eapply (pcb_fields_wd _ _ _ _ _ Hs); [done..|lia|lia|left; congruence].
    - unfold mf, pcb_state. rewrite <- (Z.add_0_r d). rewrite (hand_in_off _ cur ini c ch ich Hs), (hand_out_off _ cur ini c ch ich Hs); first [done | lia]. }
  exists m'. split; [|split; [apply Hm|split; [apply Hm|exact Hst]]]. clear Hm Hst R1 R2.
  destruct Hch as [Hc He], Hich as [Hi _]. cbn [elders] in He. destruct He as (Ep & Ey & Eo & He).
  change (after NULL (c :: ch)) with c in Hc.
  assert (Eii : rd32 (hand_out (k_mem s) cur c ch) (pcb_cptr ini) = after NULL ich).
  { rewrite <- Hi. eapply hand_out_off; [exact Hs|done|lia|by intros E; destruct D1|lia|done]. }
  assert (Eco : rd32 (wr32 (wr32 (k_mem s) (pcb_cptr cur) (after NULL ch)) (pcb_yptr c) NULL) (pcb_optr c) = after NULL ch).
  { etransitivity; [|exact Eo]. pcb_unfold. by rewrite !rd32_wr32_ne by fam_wd Hs. }
  assert (Eic : rd32 (wr32 (hand_out (k_mem s) cur c ch) (pcb_optr c) (after NULL ich)) (pcb_cptr ini) = after NULL ich).
  { etransitivity; [|exact Eii]. pcb_unfold. by rewrite rd32_wr32_ne by fam_wd Hs. }
  cbn [send_chld_to_init_loop]. krun. rewrite Hcur, Hc, (proj2 (Z.eqb_neq _ _) Hcn). cbn [negb]. krun.
  rewrite Hini, Eo, Eco. fold (hand_out (k_mem s) cur c ch). rewrite Eii, Eic.
  subst m' mf. unfold hand_in, wakeup_process. cbn zeta.
  destruct (after NULL ich =? NULL); cbn [negb]; krun; destruct (_ && _); krun; done.
Qed.

Lemma send_chld_run ini cur ch : forall s ich fuel,
  pcbs_sep (cur :: ini :: ch ++ ich) -> k_current s = cur -> k_init_proc s = ini ->
  children (k_mem s) cur ch -> children (k_mem s) ini ich -> (length ch < fuel)%nat ->
  exists m', send_chld_to_init_loop fuel s = Ok tt (set_mem m' s) /\
    children m' cur [] /\ children m' ini (rev ch ++ ich) /\
    forall d, d ∈ cur :: ini :: ch ++ ich -> d <> ini -> rd32 m' (pcb_state d) = rd32 (k_mem s) (pcb_state d).
Proof.
  induction ch as [|c ch IH]; intros s ich fuel Hs Hcur Hini Hch Hich Hfuel.
  - destruct fuel as [|fuel]; [lia|]. exists (k_mem s). split_and!; [|done..].
    cbn [send_chld_to_init_loop]. krun. rewrite Hcur. destruct Hch as [-> _].
    change (negb (after NULL [] =? NULL)) with false. cbn iota. krun. by rewrite set_mem_id.
  - destruct fuel as [|fuel]; [cbn in Hfuel; lia|].
    destruct (send_chld_step s cur ini c ch ich fuel Hs Hcur Hini Hch Hich) as (m1 & -> & C1 & C2 & C3).
    destruct (IH (set_mem m1 s) (c :: ich) fuel) as (m' & Hrun & E1 & E2 & E3); try done.
    + eapply pcbs_sep_sub; [exact Hs| |set_solver]. pose proof (ps_nodup _ Hs) as Hn.
      rewrite <- Permutation_middle. exact Hn.
    + cbn in Hfuel. lia.
    + exists m'. cbn [rev]. rewrite <- app_assoc. split_and!; [done..|]. intros d Hd Hne. rewrite <- C3 by (done || set_solver).
      apply E3; [set_solver|done].
Qed.

(** [send_chld_to_init] leaves the caller without children and gives them to
    [init_proc], in the opposite order and before those it had; the states of all these
    processes but that of [init_proc] are kept. *)
Theorem send_chld_hands_over ini cur ch s ich fuel :
  pcbs_sep (cur :: ini :: ch ++ ich) -> k_current s = cur -> k_init_proc s = ini ->
  children (k_mem s) cur ch -> children (k_mem s) ini ich -> (length ch < fuel)%nat ->
  exists m', send_chld_to_init_loop fuel s = Ok tt (set_mem m' s) /\
    children m' cur [] /\ children m' ini (rev ch ++ ich) /\
    forall d, d ∈ cur :: ini :: ch ++ ich -> d <> ini -> rd32 m' (pcb_state d) = rd32 (k_mem s) (pcb_state d).
Proof. apply send_chld_run. Qed.

(** * Creation, stacks and switching *)
Section Creation.
Context `{Symbols}.

(** The first store of every field, and the zeroed context in between. *)
Lemma create_pcb_memory m p pd : pcbs_sep [p] -> 0 <= pd < 2 ^ 32 ->
  let m1 := wr32 (wr32 (wr32 (wr32 m (pcb_state p) TASK_READY) (pcb_pid p) (w32 (-1))) (pcb_start_stack p) 0) (pcb_mm p) NULL in
  let m2 := memset_loop (Z.to_nat sizeof_context) (pcb_context p) 0 m1 in
  let m' := wr32 (wr32 (wr32 (wr32 (wr32 (wr32 m2 (pcb_backup_pde p) pd) (pcb_parent p) NULL) (pcb_waitstate p) NOT_WT)
    (pcb_optr p) NULL) (pcb_cptr p) NULL) (pcb_yptr p) NULL in
  rd32 m' (pcb_state p) = TASK_READY /\ rd32 m' (pcb_pid p) = w32 (-1) /\ rd32 m' (pcb_start_stack p) = 0 /\
  rd32 m' (pcb_mm p) = NULL /\ rd32 m' (pcb_backup_pde p) = pd /\ rd32 m' (pcb_waitstate p) = NOT_WT /\
  rd32 m' (pcb_parent p) = NULL /\ children m' p [] /\ rd32 m' (pcb_yptr p) = NULL /\ rd32 m' (pcb_optr p) = NULL /\
  (forall i, 24 <= i <= 52 -> rd32 m' (p + i) = 0) /\
  (forall x, ka x + 4 <= ka p \/ ka p + 76 <= ka x -> rd32 m' x = rd32 m x).
Proof.
  intros Hs Hpd m1 m2 m'. assert (Hp : p ∈ [p]) by left.
  assert (Hk : forall i, 0 <= i <= 88 -> ka (p + i) = ka p + i) by (intros; by eapply pcb_field_ka).
  assert (Hsp : span (pcb_context p) sizeof_context).
  { destruct (ps_span _ Hs p Hp) as [Hsp _]. unfold span, pcb_context, sizeof_pcb, sizeof_context, VERTUAL_MEM in *. lia. }
  assert (Hm2 : forall x, ka x + 4 <= ka p + 24 \/ ka p + 56 <= ka x -> rd32 m2 x = rd32 m1 x).
  { intros x Hx. apply memset_frame; [done|unfold sizeof_context; lia|]. unfold pcb_context, sizeof_context. rewrite Hk by lia. lia. }
  assert (Hst : rd32 m' p = rd32 m2 p /\ (ka p + 0 = ka p)).
  { split; [|lia]. unfold m'. rewrite !rd32_wr32_ne; [done|..]; right; unfold pcb_yptr, pcb_cptr, pcb_optr, pcb_waitstate, pcb_parent, pcb_backup_pde; rewrite Hk; lia. }
  unfold children. pcb_unfold. split_and!.
  - rewrite (proj1 Hst), Hm2 by lia. unfold m1. pcb_unfold. rewrite !(rd32_wr32_ne _ (p + _)) by (right; rewrite Hk; lia).
    by rewrite rd32_wr32_eq.
  - unfold m'. pcb_unfold. fam_rd Hs. rewrite Hm2 by (rewrite Hk; lia). unfold m1. pcb_unfold. fam_rd Hs. done.
  - unfold m'. pcb_unfold. fam_rd Hs. rewrite Hm2 by (rewrite Hk; lia). unfold m1. pcb_unfold. fam_rd Hs. done.
  - unfold m'. pcb_unfold. fam_rd Hs. rewrite Hm2 by (rewrite Hk; lia). unfold m1. pcb_unfold. fam_rd Hs. done.
  - unfold m'. pcb_unfold. fam_rd Hs. by apply w32_small.
  - unfold m'. pcb_unfold. fam_rd Hs. done.
  - unfold m'. pcb_unfold. fam_rd Hs. done.
  - unfold m'. pcb_unfold. fam_rd Hs. done.
  - done.
  - unfold m'. pcb_unfold. fam_rd Hs. done.
  - unfold m'. pcb_unfold. fam_rd Hs. done.
  - intros i Hi. unfold m'. pcb_unfold. rewrite !rd32_wr32_ne; [|(eapply (pcb_fields_wd _ _ _ _ _ Hs); [done..|lia|lia|right; lia])..].
    apply memset_zero_word; [done|unfold pcb_context; rewrite !Hk; lia|unfold pcb_context, sizeof_context; rewrite !Hk; lia].
  - intros x Hx. assert (W : forall i, 0 <= i <= 72 -> wd (p + i) x) by (intros; unfold wd; rewrite Hk; lia).
    unfold m'. pcb_unfold. rewrite !rd32_wr32_ne by (apply W; lia). rewrite Hm2 by lia. unfold m1. pcb_unfold.
    rewrite !rd32_wr32_ne by (apply W; lia). rewrite rd32_wr32_ne; [done|]. rewrite <- (Z.add_0_r p). apply W. lia.
Qed.

(** A new process control block is a process without pid, stack, address
    space, relatives and registers; nothing else in memory changes. *)
Theorem create_pcb_blank fuel s p s1 :
  kmalloc fuel sizeof_pcb s = Ok p s1 -> pcbs_sep [p] -> 0 <= k_pd s1 < 2 ^ 32 ->
  exists m', create_pcb fuel s = Ok p (set_mem m' s1) /\
    rd32 m' (pcb_state p) = TASK_READY /\ rd32 m' (pcb_pid p) = w32 (-1) /\ rd32 m' (pcb_start_stack p) = 0 /\
    rd32 m' (pcb_mm p) = NULL /\ rd32 m' (pcb_backup_pde p) = k_pd s1 /\ rd32 m' (pcb_waitstate p) = NOT_WT /\
    rd32 m' (pcb_parent p) = NULL /\ children m' p [] /\ rd32 m' (pcb_yptr p) = NULL /\ rd32 m' (pcb_optr p) = NULL /\
    (forall i, 24 <= i <= 52 -> rd32 m' (p + i) = 0) /\
    (forall x, ka x + 4 <= ka p \/ ka p + 76 <= ka x -> rd32 m' x = rd32 (k_mem s1) x).
Proof.
  intros Hm Hs Hpd. pose proof (create_pcb_memory (k_mem s1) p (k_pd s1) Hs Hpd) as Hr. cbn zeta in Hr.
  eexists. split; [|exact Hr]. unfold create_pcb. krun. rewrite Hm.
  rewrite (proj2 (Z.eqb_neq p NULL)) by (eapply pcb_nonnull; [exact Hs|left]). unfold memset. krun. done.
Qed.

(** A kernel stack takes the two pages [i] and [i + 1] of the array; its top
    word is the last of them. Recycling computes the page below: [i - 1]. *)
Theorem recycle_frees_page_below fuel pcb s s1 i :
  kalloc_page fuel KTHREAD_STACK_PAGE s = Ok (w32 (k_pages s1 + 24 * i + VERTUAL_MEM)) s1 ->
  pcbs_sep [pcb] -> 0 < k_pages s1 -> 1 <= i < 2 ^ 18 -> k_pages s1 + 24 * i < 2 ^ 30 ->
  0 <= k_pt_begin s1 -> (i + 2) * PAGE_SIZE + k_pt_begin s1 < 2 ^ 30 ->
  exists m', set_kthread_stack fuel pcb 0 s = Ok 0 (set_mem m' s1) /\
    rd32 m' (pcb_start_stack pcb) = i * PAGE_SIZE + k_pt_begin s1 + VERTUAL_MEM + 2 * PAGE_SIZE - 4 /\
    la_addr_to_pg (w32 (rd32 m' (pcb_start_stack pcb) - PAGE_SIZE * KTHREAD_STACK_PAGE)) (set_mem m' s1) =
      Ok (k_pages s1 + 24 * (i - 1)) (set_mem m' s1).
Proof.
  intros Ha Hs Hp Hi Hb Hpt Htop. set (la := i * PAGE_SIZE + k_pt_begin s1 + VERTUAL_MEM).
  assert (Hla : VERTUAL_MEM < la /\ la + 2 * PAGE_SIZE < 2 ^ 32) by (unfold la, PAGE_SIZE, VERTUAL_MEM in *; lia).
  unfold VERTUAL_MEM in Hla.
  set (m' := wr32 (wr32 (k_mem s1) (pcb_start_stack pcb) (la + 2 * PAGE_SIZE)) (pcb_start_stack pcb) (la + 2 * PAGE_SIZE - 4)).
  assert (Hrd : rd32 m' (pcb_start_stack pcb) = la + 2 * PAGE_SIZE - 4) by (apply rd32_wr32_small; unfold PAGE_SIZE in *; lia).
  exists m'. split_and!; [|exact Hrd|].
  - unfold set_kthread_stack. krun. rewrite Ha. rewrite (w32_small (k_pages s1 + 24 * i + VERTUAL_MEM)) by (unfold VERTUAL_MEM; lia).
    rewrite (proj2 (Z.eqb_neq (k_pages s1 + 24 * i + VERTUAL_MEM) NULL)) by (unfold NULL, VERTUAL_MEM; lia).
    rewrite <- (w32_small (k_pages s1 + 24 * i + VERTUAL_MEM)) by (unfold VERTUAL_MEM; lia).
    rewrite pg_to_addr_la_high by lia. fold la. unfold PAGE_SIZE in Hla. rewrite (w32_small la) by lia.
    change (negb (0 =? 0)) with false. krun. change (KTHREAD_STACK_PAGE * PAGE_SIZE) with (2 * PAGE_SIZE).
    unfold PAGE_SIZE in *. rewrite rd32_wr32_eq, !(w32_small (la + _)) by lia. rewrite w32_small by lia. done.
  - rewrite Hrd. change (k_pages s1) with (k_pages (set_mem m' s1)). rewrite <- la_addr_to_pg_page with (off := PAGE_SIZE - 4).
    + f_equal. f_equal. unfold la, PAGE_SIZE, KTHREAD_STACK_PAGE. kproj. lia.
    + kproj. lia.
    + kproj. lia.
    + lia.
    + unfold PAGE_SIZE. lia.
Qed.

(** A switch: the process becomes current, its kernel stack goes into the
    task state segment, its directory into CR3, and the registers of the old
    process are saved in its own block. Nothing happens if it is current. *)
Theorem run_thread_switches resume pcb s :
  run_thread resume pcb s =
  if k_current s =? pcb then Ok tt s
  else resume (set_log (EvSwitch (pcb_context (k_current s)) (pcb_context pcb)
         :: EvCr3 (rd32 (k_mem s) (pcb_backup_pde pcb)) :: k_log s)
       (set_tss_esp0 (rd32 (k_mem s) (pcb_start_stack pcb)) (set_current pcb s))).
Proof. unfold run_thread, switch_to. krun. by destruct (k_current s =? pcb). Qed.

(** Sharing an address space: the child gets the directory and the structure of
    the parent, whose user count goes up by one. *)
Theorem copy_mm_shares fuel pcb mm s :
  pcbs_sep [pcb] -> mm <> NULL -> 0 <= mm < 2 ^ 32 -> 0 <= rd32 (k_mem s) (mm_num mm) < 2 ^ 32 - 1 ->
  wd (mm_num mm) (pcb_mm pcb) -> wd (mm_num mm) (pcb_backup_pde pcb) ->
  wd (mm_pde mm) (pcb_mm pcb) -> wd (mm_num mm) (mm_pde mm) ->
  exists m', copy_mm fuel pcb 1 mm s = Ok 0 (set_mem m' s) /\
    rd32 m' (pcb_mm pcb) = mm /\ rd32 m' (pcb_backup_pde pcb) = rd32 (k_mem s) (mm_pde mm) /\
    rd32 m' (mm_num mm) = rd32 (k_mem s) (mm_num mm) + 1.
Proof.
  intros Hs Hne Hw Hn W1 W2 W3 W4. unfold copy_mm. rewrite (proj2 (Z.eqb_neq _ _) Hne).
  change (negb (1 =? 0)) with true. krun. rewrite mm_num_incr_run. krun. eexists. split; [reflexivity|].
  unfold num_incr. pcb_unfold. rewrite !(rd32_wr32_ne _ _ (mm_pde mm)) by (by apply wd_sym || done).
  fam_rd Hs. rewrite !(rd32_wr32_ne _ (mm_num mm) (pcb + _)), !(rd32_wr32_ne _ _ (mm_num mm)) by (by apply wd_sym || done).
  rewrite !rd32_wr32_eq, !w32_w32. rewrite !(rd32_wr32_ne _ (pcb + 16) (mm_num mm)) by (by apply wd_sym).
  split_and!; [by apply w32_small|apply w32_small, rd32_range|apply w32_small; lia].
Qed.

(** Leaving an address space that others use only lowers its count. [create_vma]
    raises the same count for each area, so this is also what the last user of
    an address space with two areas does: nothing is freed. *)
Theorem delete_mm_only_counts fuel mm s :
  mm <> NULL -> 1 < rd32 (k_mem s) (mm_num mm) ->
  delete_mm fuel mm s =
    Ok tt (set_mem (wr32 (k_mem s) (mm_num mm) (rd32 (k_mem s) (mm_num mm) - 1)) (set_log (EvCr3 (k_pd s) :: k_log s) s)).
Proof.
  intros Hne Hn. pose proof (rd32_range (k_mem s) (mm_num mm)) as Hr. unfold delete_mm.
  rewrite (proj2 (Z.eqb_neq _ _) Hne). krun.
  rewrite rd32_wr32_eq, !(w32_small (_ - 1)) by lia.
  rewrite (proj2 (Z.eqb_neq (_ - 1) 0)) by lia. krun. done.
Qed.

End Creation.
