(* ===== verification/Sched.v ===== *)
(** The scheduler of schedule/process/sched.c and the timer interrupt of
    idt/timer.c that drives it: the scan as the code has it, the process it
    picks, and the turns processes get. *)

From S2P Require Import Prelude Machine DList Pmm Ports Pid Proc.

Local Open Scope Z_scope.

Section Sched.
Context `{Symbols}.
Variable fuel : nat.
(** What runs between the switch away from the caller and its return. *)
Variable resume : K unit.

(** The scan over the circle from [next] to [begin]; the result is the block
    looked at last. *)
Fixpoint schedule_scan (k : nat) (begin next target_pcb : Z) : K Z :=
  match k with
  | O => nofuel
  | S k =>
      if negb (next =? begin) then
        if next =? proc_list then
          next ← load (node_next next);
          schedule_scan k begin next target_pcb
        else
          let target_pcb := pcb_of_node next in
          st ← load (pcb_state target_pcb);
          if st =? TASK_RUNNABLE then mret target_pcb
          else
            next ← load (node_next next);
            schedule_scan k begin next target_pcb
      else mret target_pcb
  end.

Definition schedule : K unit :=
  flag ← atom_disable_intr;
  current ← get k_current;
  if current =? NULL then mret tt
  else
    idle ← get k_idle;
    let begin := if current =? idle then proc_list else pcb_node current in
    next ← load (node_next begin);
    target_pcb ← schedule_scan fuel begin next NULL;
    runnable ← (if negb (target_pcb =? NULL)
                then st ← load (pcb_state target_pcb); mret (st =? TASK_RUNNABLE)
                else mret false);
    (if (runnable : bool) then
       p ← load (pcb_pid target_pcb);
       printf "will sched to pid: %d\n" [p];;
       run_thread resume target_pcb
     else
       printf "will sched to pid: 0, idle_proc!\n" [];;
       idle ← get k_idle;
       run_thread resume idle);;
    atom_enable_intr flag.

Definition timer_handler : K unit :=
  flag ← atom_disable_intr;
  j ← get k_jiffies;
  upd (set_jiffies (j + 1)%w);;
  schedule;;
  atom_enable_intr flag.

End Sched.

(** * Specification: turns *)

(** The processes in the order the scan meets them after [cur], which itself
    is left out; all of them when [cur] is not in the list. *)
Fixpoint turn_from (cur : Z) (seen ps : list Z) : list Z :=
  match ps with
  | [] => rev seen
  | p :: ps => if p =? cur then ps ++ rev seen else turn_from cur (p :: seen) ps
  end.

Definition turn (cur : Z) (ps : list Z) : list Z := turn_from cur [] ps.

Definition runnable (m : memory) (p : Z) : bool := rd32 m (pcb_state p) =? TASK_RUNNABLE.

(** The process that runs next: the first runnable one, else [idle]. *)
Definition next_process (m : memory) (idle : Z) (ps : list Z) (cur : Z) : Z :=
  default idle (List.find (runnable m) (turn cur ps)).

Section Procs.
Context `{Symbols}.

(** The process list of the kernel holds [ps]; idle is not in it. *)
Record procs (m : memory) (idle : Z) (ps : list Z) : Prop := {
  pr_list : dlist m proc_list (pcb_node <$> ps);
  pr_sep : pcbs_sep ps;
  pr_idle : idle ∉ ps
}.

Lemma turn_from_notin cur ps : forall seen, cur ∉ ps -> turn_from cur seen ps = rev seen ++ ps.
Proof.
  induction ps as [|p ps IH]; intros seen Hn; cbn [turn_from]; [by rewrite app_nil_r|].
  apply not_elem_of_cons in Hn as [Hp Hn]. rewrite (proj2 (Z.eqb_neq p cur)) by congruence.
  rewrite IH by done. cbn [rev]. by rewrite <- app_assoc.
Qed.

Lemma turn_notin cur ps : cur ∉ ps -> turn cur ps = ps.
Proof. apply (turn_from_notin cur ps []). Qed.

Lemma turn_mid l1 cur l2 : cur ∉ l1 -> turn cur (l1 ++ cur :: l2) = l2 ++ l1.
Proof.
  unfold turn. assert (Hg : forall l1 seen, cur ∉ l1 -> turn_from cur seen (l1 ++ cur :: l2) = l2 ++ rev seen ++ l1).
  { clear l1. induction l1 as [|p l1 IH]; intros seen Hn; cbn [app turn_from].
    - by rewrite Z.eqb_refl, app_nil_r.
    - apply not_elem_of_cons in Hn as [Hp Hn]. rewrite (proj2 (Z.eqb_neq p cur)) by congruence.
      rewrite IH by done. cbn [rev]. by rewrite <- (app_assoc (rev seen)). }
  intros Hn. by rewrite Hg.
Qed.

Lemma pcb_of_pcb_node p : 0 <= p < 2 ^ 32 -> pcb_of_node (pcb_node p) = p.
Proof. intros Hp. unfold pcb_of_node, pcb_node. rewrite Z.add_simpl_r. by apply w32_small. Qed.

(** The scan over a stretch of processes. *)
Lemma schedule_scan_stretch s begin e ps : forall a k t,
  dseg (k_mem s) a (pcb_node <$> ps) e ->
  (forall p, p ∈ ps -> pcb_node p <> begin /\ pcb_node p <> proc_list /\ 0 <= p < 2 ^ 32) ->
  schedule_scan (length ps + k) begin (rd32 (k_mem s) (node_next a)) t s =
  match List.find (runnable (k_mem s)) ps with
  | Some p => Ok p s
  | None => schedule_scan k begin e (default t (last ps)) s
  end.
Proof.
  induction ps as [|p ps IH]; intros a k t Hd Hp.
  - cbn [fmap list_fmap dseg] in Hd. destruct Hd as [Hn _]. unfold node_next. cbn. by rewrite Hn.
  - cbn [fmap list_fmap dseg] in Hd. destruct Hd as [[Hn _] Hd]. destruct (Hp p ltac:(left)) as (H1 & H2 & H3).
    unfold node_next at 1. rewrite Hn. cbn [length Nat.add schedule_scan List.find].
    rewrite (proj2 (Z.eqb_neq _ _) H1), (proj2 (Z.eqb_neq _ _) H2). cbn [negb]. rewrite pcb_of_pcb_node by done. krun.
    unfold runnable at 1. destruct (rd32 (k_mem s) (pcb_state p) =? TASK_RUNNABLE); krun; [done|].
    rewrite IH; [|done|intros q Hq; apply Hp; by right]. destruct (List.find _ ps); [done|].
    f_equal. rewrite last_cons. by destruct (last ps).
Qed.

Lemma schedule_scan_end s k begin t : schedule_scan (S k) begin begin t s = Ok t s.
Proof. cbn [schedule_scan]. by rewrite Z.eqb_refl. Qed.

Lemma find_none_last m ps t : List.find (runnable m) ps = None -> t = NULL \/ runnable m t = false ->
  default t (last ps) = NULL \/ runnable m (default t (last ps)) = false.
Proof.
  intros Hf Ht. destruct (last ps) as [p|] eqn:E; [|exact Ht]. right. apply last_Some in E as [l ->].
  apply (List.find_none _ _ Hf). apply in_app_iff. right. by left.
Qed.

Lemma find_app {A} (f : A -> bool) l1 l2 :
  List.find f (l1 ++ l2) = match List.find f l1 with Some x => Some x | None => List.find f l2 end.
Proof. induction l1 as [|x l1 IH]; cbn [app List.find]; [done|]. by destruct (f x). Qed.

(** Nodes of the list are apart from its head and from one another. *)
Lemma procs_nodes m idle ps p : procs m idle ps -> p ∈ ps ->
  pcb_node p <> proc_list /\ 0 <= p < 2 ^ 32 /\ (forall q, q ∈ ps -> pcb_node q = pcb_node p -> q = p).
Proof.
  intros [[Hs _] Hp _] Hin. split_and!.
  - intros E. pose proof (ns_nodup _ Hs) as Hn. apply NoDup_cons in Hn as [Hn _]. apply Hn.
    rewrite <- E. apply list_elem_of_fmap. eauto.
  - by eapply pcb_word.
  - by eapply pcb_word.
  - intros q _ E. unfold pcb_node in E. lia.
Qed.

Lemma schedule_scan_turn s idle ps cur fuel :
  procs (k_mem s) idle ps -> cur = idle \/ cur ∈ ps -> (length ps + 2 <= fuel)%nat ->
  exists t, schedule_scan fuel (if cur =? idle then proc_list else pcb_node cur)
      (rd32 (k_mem s) (node_next (if cur =? idle then proc_list else pcb_node cur))) NULL s = Ok t s /\
    match List.find (runnable (k_mem s)) (turn cur ps) with
    | Some p => t = p
    | None => t = NULL \/ runnable (k_mem s) t = false
    end.
Proof.
  intros Hpr Hcur Hf. pose proof (fun p => procs_nodes _ _ ps p Hpr) as Hnd. destruct (pr_list _ _ _ Hpr) as [_ Hd].
  destruct (Z.eqb_spec cur idle) as [->|Hne].
  - rewrite turn_notin by apply Hpr. replace fuel with (length ps + S (fuel - length ps - 1))%nat by lia.
    rewrite (schedule_scan_stretch s proc_list proc_list) by (try done; intros p Hp; by destruct (Hnd p Hp) as (? & ? & _)).
    destruct (List.find _ ps) as [p|] eqn:E; [by exists p|]. rewrite schedule_scan_end.
    eexists. split; [done|]. apply find_none_last; [exact E|by left].
  - destruct Hcur as [?|Hin]; [done|]. apply list_elem_of_split in Hin as (l1 & l2 & ->).
    pose proof (ps_nodup _ (pr_sep _ _ _ Hpr)) as Hnn. apply NoDup_app in Hnn as (_ & Hnn & Hn2).
    apply NoDup_cons in Hn2 as [Hn2 _]. assert (Hn1 : cur ∉ l1) by (intros Hi; apply (Hnn cur Hi); left).
    rewrite turn_mid, find_app by done. rewrite fmap_app, fmap_cons in Hd. apply dseg_app in Hd as [Hd1 Hd2].
    assert (Hseg : forall p, p ∈ l1 \/ p ∈ l2 -> pcb_node p <> pcb_node cur /\ pcb_node p <> proc_list /\ 0 <= p < 2 ^ 32).
    { intros p Hp. destruct (Hnd p ltac:(set_solver)) as (? & ? & _). split; [|done]. unfold pcb_node. intros E.
      assert (p = cur) as -> by lia. tauto. }
    rewrite length_app in Hf. cbn [length] in Hf.
    replace fuel with (length l2 + S (length l1 + S (fuel - length l1 - length l2 - 2)))%nat by lia.
    rewrite (schedule_scan_stretch s (pcb_node cur) proc_list) by (try done; intros p Hp; apply Hseg; by right).
    destruct (List.find _ l2) as [p|] eqn:E2; [by exists p|].
    destruct (Hnd cur ltac:(set_solver)) as (Hc & _ & _). cbn [schedule_scan].
    rewrite (proj2 (Z.eqb_neq proc_list (pcb_node cur))) by congruence. rewrite Z.eqb_refl. cbn [negb]. krun.
    rewrite (schedule_scan_stretch s (pcb_node cur) (pcb_node cur)) by (try done; intros p Hp; apply Hseg; by left).
    destruct (List.find _ l1) as [p|] eqn:E1; [by exists p|]. rewrite schedule_scan_end.
    eexists. split; [done|]. apply find_none_last; [exact E1|]. apply find_none_last; [exact E2|by left].
Qed.

Lemma elem_of_turn cur ps p : p ∈ turn cur ps -> p ∈ ps.
Proof.
  destruct (decide (cur ∈ ps)) as [Hin|Hn]; [|by rewrite turn_notin].
  apply list_elem_of_split_l in Hin as (l1 & l2 & -> & Hl1). rewrite turn_mid by done. set_solver.
Qed.

Lemma schedule_run resume s ps fuel :
  procs (k_mem s) (k_idle s) ps -> k_current s <> NULL -> k_current s = k_idle s \/ k_current s ∈ ps ->
  (length ps + 2 <= fuel)%nat ->
  let next := next_process (k_mem s) (k_idle s) ps (k_current s) in
  schedule fuel resume s =
    (printf (if List.find (runnable (k_mem s)) (turn (k_current s) ps) is Some _ then "will sched to pid: %d\n"
             else "will sched to pid: 0, idle_proc!\n")
       (if List.find (runnable (k_mem s)) (turn (k_current s) ps) is Some p then [rd32 (k_mem s) (pcb_pid p)] else []);;
     run_thread resume next;;
     atom_enable_intr (if k_IF s then 1 else 0)) (set_IF false s).
Proof.
  intros Hpr Hcn Hcur Hf next. subst next.
  destruct (schedule_scan_turn (set_IF false s) (k_idle s) ps (k_current s) fuel Hpr Hcur Hf) as (t & Hscan & Ht).
  unfold schedule. unfold mbind at 1, K_bind. rewrite (proj1 (atom_section s)). krun.
  rewrite (proj2 (Z.eqb_neq _ _) Hcn). revert Hscan Ht. kproj. intros Hscan Ht. krun. rewrite Hscan.
  unfold next_process. destruct (List.find _ (turn _ _)) as [p|] eqn:E.
  - subst t. pose proof (List.find_some _ _ E) as [Hin Hrun]. cbn [default from_option id].
    rewrite (proj2 (Z.eqb_neq p NULL)) by (eapply pcb_nonnull; [apply Hpr|]; by eapply elem_of_turn, list_elem_of_In). cbn [negb]. krun. unfold runnable in Hrun.
    rewrite Hrun. done.
  - cbn [default from_option id]. destruct (Z.eqb_spec t NULL) as [_|Ht0]; cbn [negb]; krun; [done|].
    destruct Ht as [?|Ht]; [done|]. unfold runnable in Ht. rewrite Ht. done.
Qed.

(** C4: [schedule] runs the next runnable process in turn after the current one, and the
    idle process when there is none, with interrupts disabled until the switch returns.
    *)
Theorem schedule_runs_next resume s ps fuel :
  procs (k_mem s) (k_idle s) ps -> k_current s <> NULL -> k_current s = k_idle s \/ k_current s ∈ ps ->
  (length ps + 2 <= fuel)%nat ->
  let next := next_process (k_mem s) (k_idle s) ps (k_current s) in
  schedule fuel resume s =
    (printf (if List.find (runnable (k_mem s)) (turn (k_current s) ps) is Some _ then "will sched to pid: %d\n"
             else "will sched to pid: 0, idle_proc!\n")
       (if List.find (runnable (k_mem s)) (turn (k_current s) ps) is Some p then [rd32 (k_mem s) (pcb_pid p)] else []);;
     run_thread resume next;;
     atom_enable_intr (if k_IF s then 1 else 0)) (set_IF false s).
Proof. apply schedule_run. Qed.

(** Before there is a current process [schedule] returns at once and leaves
    interrupts disabled. *)
Theorem schedule_early_return resume s fuel :
  k_current s = NULL -> schedule fuel resume s = Ok tt (set_IF false s).
Proof.
  intros Hc. unfold schedule. unfold mbind at 1, K_bind. rewrite (proj1 (atom_section s)). krun. by rewrite Hc.
Qed.

(** ** Every runnable process gets its turn *)

Lemma length_turn cur ps : (length (turn cur ps) <= length ps)%nat.
Proof.
  destruct (decide (cur ∈ ps)) as [Hin|Hn]; [|by rewrite turn_notin].
  apply list_elem_of_split_l in Hin as (l1 & l2 & -> & Hl1). rewrite turn_mid by done.
  rewrite !length_app. cbn. lia.
Qed.

Lemma turn_later cur ps q p a1 a2 b : NoDup ps -> turn cur ps = a1 ++ q :: a2 ++ p :: b ->
  exists b', turn q ps = a2 ++ p :: b'.
Proof.
  intros Hnd Ht. assert (Hq : forall l r, ps = l ++ q :: r -> turn q ps = r ++ l).
  { intros l r ->. apply turn_mid. apply NoDup_app in Hnd as (_ & Hnd & _). intros Hi. apply (Hnd q Hi). left. }
  destruct (decide (cur ∈ ps)) as [Hin|Hn].
  - apply list_elem_of_split_l in Hin as (l1 & l2 & E & Hl1). rewrite E, turn_mid in Ht by done.
    apply app_eq_inv in Ht as [(k & E2 & E1)|(k & E2 & E1)].
    + destruct k as [|x k]; cbn in E1; [|injection E1 as <- E1].
      * exists (b ++ cur :: l2). subst. rewrite (Hq [] (a2 ++ (p :: b) ++ cur :: a1 ++ [])); [by rewrite app_nil_r|].
        cbn. by rewrite !app_nil_r, <- app_assoc.
      * rewrite (Hq (l1 ++ cur :: a1) k) by (by rewrite E, E2, <- !app_assoc).
        rewrite app_assoc, <- E1, <- app_assoc. by eexists.
    + rewrite (Hq k (a2 ++ p :: b ++ cur :: l2)) by (rewrite E, E1, <- !app_assoc; cbn; by rewrite <- !app_assoc).
      rewrite <- app_assoc. by eexists.
  - rewrite turn_notin in Ht by done. rewrite (Hq a1 (a2 ++ p :: b)) by done. rewrite <- app_assoc. by eexists.
Qed.

Lemma fair_position m idle ps p : NoDup ps -> runnable m p = true -> forall k cur a b,
  (length a <= k)%nat -> turn cur ps = a ++ p :: b ->
  exists n, (n <= length a)%nat /\ Nat.iter (S n) (next_process m idle ps) cur = p.
Proof.
  intros Hnd Hp. induction k as [|k IH]; intros cur a b Hk Ht.
  - destruct a; [|cbn in Hk; lia]. exists 0%nat. split; [lia|]. cbn. unfold next_process. rewrite Ht. cbn. by rewrite Hp.
  - destruct (List.find (runnable m) a) as [q|] eqn:E.
    + assert (Ha : exists a1 a2, a = a1 ++ q :: a2).
      { apply list_elem_of_split, list_elem_of_In. by apply List.find_some in E as [? _]. }
      destruct Ha as (a1 & a2 & Ea). assert (Hla : (S (length a2) <= length a)%nat) by (rewrite Ea, length_app; cbn; lia).
      assert (Ht' : turn cur ps = a1 ++ q :: a2 ++ p :: b) by (rewrite Ht, Ea, <- app_assoc; done).
      destruct (turn_later _ _ _ _ _ _ _ Hnd Ht') as (b' & Hq).
      destruct (IH q a2 b' ltac:(lia) Hq) as (n & Hn & Hit). exists (S n). split; [lia|].
      rewrite Nat.iter_succ_r. unfold next_process at 2. by rewrite Ht, find_app, E.
    + exists 0%nat. split; [lia|]. cbn. unfold next_process. rewrite Ht, find_app, E. cbn. by rewrite Hp.
Qed.

Lemma next_process_fair m idle ps p cur :
  NoDup ps -> (idle ∉ ps) -> p ∈ ps -> runnable m p = true ->
  exists n, (n <= length ps)%nat /\ Nat.iter (S n) (next_process m idle ps) cur = p.
Proof.
  intros Hnd Hidle Hin Hp. destruct (decide (p ∈ turn cur ps)) as [Ht|Ht].
  - apply list_elem_of_split in Ht as (a & b & E).
    destruct (fair_position m idle ps p Hnd Hp (length a) cur a b ltac:(lia) E) as (n & Hn & Hit).
    exists n. split; [|done]. pose proof (length_turn cur ps) as Hl. rewrite E, length_app in Hl. lia.
  - assert (cur = p) as ->.
    { destruct (decide (cur ∈ ps)) as [Hc|Hc]; [|by rewrite turn_notin in Ht].
      apply list_elem_of_split_l in Hc as (l1 & l2 & -> & Hl1). rewrite turn_mid in Ht by done. set_solver. }
    set (q := next_process m idle ps p).
    assert (Hq : p ∈ turn q ps).
    { unfold q, next_process. destruct (List.find _ _) as [r|] eqn:E; cbn [default from_option id].
      - apply List.find_some in E as [E _]. apply list_elem_of_In in E. pose proof (elem_of_turn _ _ _ E) as Hr.
        apply list_elem_of_split_l in Hr as (l1 & l2 & El & Hl1). rewrite El, turn_mid by done.
        assert (r <> p) by congruence. rewrite El in Hin. set_solver.
      - by rewrite turn_notin. }
    apply list_elem_of_split in Hq as (a & b & E).
    destruct (fair_position m idle ps p Hnd Hp (length a) q a b ltac:(lia) E) as (n & Hn & Hit).
    exists (S n). split; [|by rewrite Nat.iter_succ_r].
    pose proof (length_turn q ps) as Hl. rewrite E, length_app in Hl. cbn in Hl. lia.
Qed.

(** The process that is switched to goes on at once. *)
Definition at_once : K unit := mret tt.

(** [n] calls of [schedule], each made by the process the one before it
    switched to. *)
Fixpoint schedule_turns (fuel n : nat) : K unit :=
  match n with
  | O => mret tt
  | S n => schedule fuel at_once;; schedule_turns fuel n
  end.

Lemma next_process_in m idle ps cur : next_process m idle ps cur = idle \/ next_process m idle ps cur ∈ ps.
Proof.
  unfold next_process. destruct (List.find _ _) as [q|] eqn:E; cbn [default from_option id]; [right|by left].
  apply List.find_some in E as [E _]. by eapply elem_of_turn, list_elem_of_In.
Qed.

(** One switch, seen from the process switched to: only the current process
    and the registers have changed. *)
Lemma schedule_switch s ps fuel :
  procs (k_mem s) (k_idle s) ps -> k_current s <> NULL -> k_current s = k_idle s \/ k_current s ∈ ps ->
  (length ps + 2 <= fuel)%nat ->
  exists s', schedule fuel at_once s = Ok tt s' /\ k_mem s' = k_mem s /\ k_idle s' = k_idle s /\
    k_current s' = next_process (k_mem s) (k_idle s) ps (k_current s).
Proof.
  intros Hpr Hcn Hcur Hf. rewrite (schedule_run at_once s ps fuel Hpr Hcn Hcur Hf).
  set (q := next_process _ _ _ _). unfold at_once, printf, emit, run_thread, switch_to, atom_enable_intr, sti. krun.
  destruct (Z.eqb_spec (k_current s) q); krun; destruct (k_IF s); krun; eexists; (split; [reflexivity|done]).
Qed.

Lemma schedule_turns_run ps fuel n : forall s,
  procs (k_mem s) (k_idle s) ps -> k_idle s <> NULL -> k_current s = k_idle s \/ k_current s ∈ ps ->
  (length ps + 2 <= fuel)%nat ->
  exists s', schedule_turns fuel n s = Ok tt s' /\
    k_current s' = Nat.iter n (next_process (k_mem s) (k_idle s) ps) (k_current s).
Proof.
  induction n as [|n IH]; intros s Hpr Hi Hcur Hf; [by exists s|]. cbn [schedule_turns]. krun.
  assert (Hcn : k_current s <> NULL).
  { destruct Hcur as [->|Hin]; [done|]. eapply pcb_nonnull; [apply Hpr|done]. }
  destruct (schedule_switch s ps fuel Hpr Hcn Hcur Hf) as (s1 & -> & Em & Ei & Ec).
  destruct (IH s1) as (s2 & R & E); rewrite ?Em, ?Ei, ?Ec; try done; [apply next_process_in|].
  exists s2. split; [done|]. rewrite E, Em, Ei, Ec. by rewrite Nat.iter_succ_r.
Qed.

(** C26: As long as the states of the processes stay as they are, a runnable process is
    switched to within one round of calls of [schedule], whatever process the round
    starts from. *)
Theorem schedule_fair s ps p fuel :
  procs (k_mem s) (k_idle s) ps -> k_idle s <> NULL -> k_current s = k_idle s \/ k_current s ∈ ps ->
  (length ps + 2 <= fuel)%nat -> p ∈ ps -> runnable (k_mem s) p = true ->
  exists n s', (n <= length ps)%nat /\ schedule_turns fuel (S n) s = Ok tt s' /\ k_current s' = p.
Proof.
  intros Hpr Hi Hcur Hf Hin Hp.
  destruct (next_process_fair (k_mem s) (k_idle s) ps p (k_current s) (ps_nodup _ (pr_sep _ _ _ Hpr)) (pr_idle _ _ _ Hpr)
    Hin Hp) as (n & Hn & E).
  destruct (schedule_turns_run ps fuel (S n) s Hpr Hi Hcur Hf) as (s' & R & Ec).
  exists n, s'. split; [done|split; [done|]]. by rewrite Ec.
Qed.

End Procs.
