(* ===== verification/Semaphore.v ===== *)
(** The counting semaphores of schedule/synchronize/semaphore.c: [P] and [V]
    over memory, and the queue of waiting processes they implement. *)

From S2P Require Import Prelude Machine DList Pmm Ports Pid Proc.

Local Open Scope Z_scope.

(** * [struct semaphore_t] *)
Definition sizeof_semaphore : Z := 12.
Definition sem_value (s : Z) : Z := s.
Definition sem_queue (s : Z) : Z := s + 4.

(** [GET_OUTER_STRUCT_PTR(node, struct pcb_t, semaphore_test_node)] *)
Definition pcb_of_sem_node (node : Z) : Z := w32 (node - 84).

Definition semaphore_init (s value : Z) : K unit :=
  store (sem_value s) (w32 value);;
  on_mem (list_init (sem_queue s)).

Section Semaphore.
(** [schedule] runs the others until the caller is switched to again. *)
Variable schedule : K unit.

Definition P (s : Z) : K unit :=
  flag ← atom_disable_intr;
  v ← load (sem_value s);
  store (sem_value s) (v - 1)%w;;
  v ← load (sem_value s);
  when (s32 v <? 0)
    (current ← get k_current;
     on_mem (list_insert_before (sem_queue s) (pcb_semaphore_test_node current));;
     current ← get k_current;
     store (pcb_state current) TASK_SLEEPING;;
     schedule);;
  atom_enable_intr flag.

Definition V (s : Z) : K unit :=
  flag ← atom_disable_intr;
  v ← load (sem_value s);
  store (sem_value s) (v + 1)%w;;
  v ← load (sem_value s);
  when (s32 v <=? 0)
    (next ← load (node_next (sem_queue s));
     let pcb := pcb_of_sem_node next in
     store (pcb_state pcb) TASK_RUNNABLE;;
     next ← load (node_next (sem_queue s));
     when (negb (next =? sem_queue s))
       (next ← load (node_next (sem_queue s)); on_mem (list_delete next)));;
  atom_enable_intr flag.

End Semaphore.

(** * Specification: a count and a queue of waiting threads *)
Record asem (T : Type) := mk_asem { as_value : Z ; as_queue : list T }.
Arguments mk_asem {_} _ _.
Arguments as_value {_} _.
Arguments as_queue {_} _.

(** [P] by thread [t]; it has to wait when the count was not positive. *)
Definition asem_P {T} (t : T) (a : asem T) : asem T :=
  mk_asem (as_value a - 1) (if 0 <? as_value a then as_queue a else as_queue a ++ [t]).
Definition asem_waits {T} (a : asem T) : bool := as_value a <=? 0.

(** [V] wakes the thread that waits longest. *)
Definition asem_V {T} (a : asem T) : asem T :=
  mk_asem (as_value a + 1) (if 0 <=? as_value a then as_queue a else tail (as_queue a)).
Definition asem_wakes {T} (a : asem T) : option T :=
  if 0 <=? as_value a then None else head (as_queue a).

(** A negative count is the number of waiting threads. *)
Definition asem_ok {T} (a : asem T) : Prop := Z.of_nat (length (as_queue a)) = Z.max 0 (- as_value a).

Lemma asem_P_ok {T} (t : T) a : asem_ok a -> asem_ok (asem_P t a).
Proof.
  unfold asem_ok, asem_P. cbn. destruct (Z.ltb_spec 0 (as_value a)); rewrite ?length_app; cbn; lia.
Qed.

Lemma asem_V_ok {T} (a : asem T) : asem_ok a -> asem_ok (asem_V a).
Proof.
  unfold asem_ok, asem_V. cbn. destruct (Z.leb_spec 0 (as_value a)); [lia|].
  destruct (as_queue a); cbn; lia.
Qed.

Lemma asem_wakes_some {T} (a : asem T) : asem_ok a -> as_value a < 0 ->
  exists t q, as_queue a = t :: q.
Proof. unfold asem_ok. destruct (as_queue a); cbn; [lia|eauto]. Qed.

(** * The semaphore in memory *)

(** Blocks of processes, and a semaphore apart from them. *)
Record sem_sep (s : Z) (ps : list Z) : Prop := {
  se_pcbs : pcbs_sep ps;
  se_span : span s sizeof_semaphore;
  se_apart : forall p, p ∈ ps -> ka s + sizeof_semaphore <= ka p \/ ka p + sizeof_pcb <= ka s
}.

Record sem_at (ps : list Z) (m : memory) (s : Z) (a : asem Z) : Prop := {
  sm_value : rd32 m (sem_value s) = w32 (as_value a);
  sm_range : - 2 ^ 31 < as_value a < 2 ^ 31 - 1;
  sm_queue : dlist m (sem_queue s) (pcb_semaphore_test_node <$> as_queue a);
  sm_in : forall p, p ∈ as_queue a -> p ∈ ps;
  sm_ok : asem_ok a
}.

Section Layout.
Context (s : Z) (ps : list Z).
Hypothesis Hs : sem_sep s ps.

Lemma sem_ka i : 0 <= i < 12 -> ka (s + i) = ka s + i.
Proof. intros. apply (ka_span s sizeof_semaphore); [apply Hs|unfold sizeof_semaphore; lia]. Qed.

Lemma sem_pcb_wd i p j : p ∈ ps -> 0 <= i <= 8 -> 0 <= j <= 88 -> wd (s + i) (p + j).
Proof.
  intros Hp Hi Hj. unfold wd. rewrite sem_ka, (pcb_field_ka ps p) by (try done; try lia; apply Hs).
  pose proof (se_apart _ _ Hs p Hp). unfold sizeof_semaphore, sizeof_pcb in *. lia.
Qed.

Lemma sem_nodes_sep ws : NoDup ws -> (forall p, p ∈ ws -> p ∈ ps) ->
  nodes_sep (sem_queue s :: (pcb_semaphore_test_node <$> ws)).
Proof.
  intros Hnd Hin. unfold sem_queue, pcb_semaphore_test_node.
  assert (Hel : forall x, x ∈ (s + 4) :: ((fun p => p + 84) <$> ws) -> x = s + 4 \/ exists p, x = p + 84 /\ p ∈ ws).
  { intros x [->|Hx]%elem_of_cons; [by left|right]. apply list_elem_of_fmap in Hx. naive_solver. }
  assert (Hq : wd (s + 4 + 4) (s + 4)) by (unfold wd; rewrite <- Z.add_assoc, !sem_ka by lia; lia).
  assert (W : forall p i j, p ∈ ws -> 0 <= i <= 8 -> 0 <= j <= 88 -> wd (s + i) (p + j)) by (intros; apply sem_pcb_wd; auto).
  assert (Wp : forall p q i j, p ∈ ws -> q ∈ ws -> 0 <= i <= 88 -> 0 <= j <= 88 -> p <> q \/ i + 4 <= j \/ j + 4 <= i -> wd (p + i) (q + j)).
  { intros. eapply pcb_fields_wd; [apply Hs|auto..]. }
  constructor.
  - apply NoDup_cons. split.
    + intros Hx. apply list_elem_of_fmap in Hx as (p & E & Hp). pose proof (W p 4 84 Hp ltac:(lia) ltac:(lia)) as Hw.
      rewrite E in Hw. unfold wd in Hw. lia.
    + apply (NoDup_fmap_2_strong); [|done]. intros p q _ _ E. lia.
  - intros x [->|(p & -> & Hp)]%Hel.
    + pose proof (se_span _ _ Hs) as Hsp. unfold span, sizeof_semaphore, VERTUAL_MEM in Hsp. lia.
    + destruct (ps_span _ (se_pcbs _ _ Hs) p (Hin p Hp)) as [Hsp _]. unfold span, sizeof_pcb, VERTUAL_MEM in Hsp. lia.
  - intros x y [->|(p & -> & Hp)]%Hel [->|(q & -> & Hq')]%Hel; rewrite <- ?Z.add_assoc; [rewrite Z.add_assoc; done|..].
    + apply W; try done; lia.
    + apply wd_sym, W; try done; lia.
    + apply Wp; try done; lia.
  - intros x y [->|(p & -> & Hp)]%Hel [->|(q & -> & Hq')]%Hel Hne; [done|..].
    + apply W; try done; lia.
    + apply wd_sym, W; try done; lia.
    + apply Wp; try done; lia.
  - intros x y [->|(p & -> & Hp)]%Hel [->|(q & -> & Hq')]%Hel Hne; rewrite <- ?Z.add_assoc; [done|..].
    + apply W; try done; lia.
    + apply wd_sym, W; try done; lia.
    + apply Wp; try done; lia.
Qed.

(** The count and the states are no link words. *)
Lemma sem_value_off ws : (forall p, p ∈ ws -> p ∈ ps) ->
  off_nodes (sem_queue s :: (pcb_semaphore_test_node <$> ws)) (sem_value s).
Proof.
  intros Hin x [->|Hx]%elem_of_cons; unfold sem_queue, sem_value, pcb_semaphore_test_node in *.
  - split; unfold wd; rewrite <- ?Z.add_assoc, !sem_ka by lia; lia.
  - apply list_elem_of_fmap in Hx as (p & -> & Hp). rewrite <- (Z.add_0_r s), <- Z.add_assoc.
    split; apply wd_sym, sem_pcb_wd; auto; lia.
Qed.

Lemma pcb_state_off ws c : (forall p, p ∈ ws -> p ∈ ps) -> c ∈ ps ->
  off_nodes (sem_queue s :: (pcb_semaphore_test_node <$> ws)) (pcb_state c).
Proof.
  intros Hin Hc x [->|Hx]%elem_of_cons; unfold sem_queue, pcb_state, pcb_semaphore_test_node in *;
    rewrite <- (Z.add_0_r c).
  - rewrite <- Z.add_assoc. split; apply sem_pcb_wd; auto; lia.
  - apply list_elem_of_fmap in Hx as (p & -> & Hp). rewrite <- Z.add_assoc.
    split; (eapply pcb_fields_wd; [apply Hs|auto|auto|lia|lia|right; lia]).
Qed.

Lemma sem_value_state c : c ∈ ps -> wd (sem_value s) (pcb_state c).
Proof.
  intros Hc. unfold sem_value, pcb_state. rewrite <- (Z.add_0_r s), <- (Z.add_0_r c).
  apply sem_pcb_wd; auto; lia.
Qed.

End Layout.

Section Refinement.
Variable schedule : K unit.

Lemma s32_range v : - 2 ^ 31 <= v < 2 ^ 31 -> s32 (w32 v) = v.
Proof.
  intros Hv. unfold s32. rewrite w32_w32. unfold w32. destruct (Z.ltb_spec (v mod 2 ^ 32) (2 ^ 31)); lia_div.
Qed.

(** What a change of the count alone does. *)
Lemma sem_at_value ps m s a v : sem_sep s ps -> sem_at ps m s a -> - 2 ^ 31 < v < 2 ^ 31 - 1 ->
  asem_ok (mk_asem v (as_queue a)) -> sem_at ps (wr32 m (sem_value s) (w32 v)) s (mk_asem v (as_queue a)).
Proof.
  intros Hs [H1 H2 H3 H4 H5] Hv Hok. constructor; cbn; [by rewrite rd32_wr32_eq, w32_w32|done| |done|done].
  apply dlist_wr32; [|done]. by apply (sem_value_off s ps).
Qed.

Theorem semaphore_init_spec s v ps st :
  sem_sep s ps -> 0 <= v < 2 ^ 31 - 1 ->
  exists m', semaphore_init s v st = Ok tt (set_mem m' st) /\ sem_at ps m' s (mk_asem v []).
Proof.
  intros Hs Hv. unfold semaphore_init. krun. eexists. split; [done|].
  pose proof (sem_nodes_sep s ps Hs [] (NoDup_nil_2) ltac:(set_solver)) as Hn.
  destruct (list_init_spec (wr32 (k_mem st) (sem_value s) (w32 v)) (sem_queue s) Hn) as [Hd Hf].
  constructor; cbn; [|lia|exact Hd|set_solver|unfold asem_ok; cbn; lia].
  rewrite Hf; [by rewrite rd32_wr32_eq, w32_w32|]. by apply (sem_value_off s ps Hs []); set_solver.
Qed.

(** The end of the atomic section: the flag is as it was. *)
Lemma atom_end m' st : atom_enable_intr (if k_IF st then 1 else 0) (set_mem m' (set_IF false st)) = Ok tt (set_mem m' st).
Proof.
  change (set_mem m' (set_IF false st)) with (set_IF false (set_mem m' st)).
  pose proof (proj2 (atom_section (set_mem m' st)) (set_IF false (set_mem m' st)) eq_refl) as E.
  cbn [k_IF set_mem] in E. rewrite E. by destruct st.
Qed.

Lemma pcb_states_wd s ps p q : sem_sep s ps -> p ∈ ps -> q ∈ ps -> q <> p -> wd (pcb_state p) (pcb_state q).
Proof.
  intros Hs Hp Hq Hne. unfold pcb_state. rewrite <- (Z.add_0_r p), <- (Z.add_0_r q).
  eapply pcb_fields_wd; [apply Hs|done|done|lia|lia|left; congruence].
Qed.

(** [c] goes to sleep at the end of the queue. *)
Lemma sem_enqueue m s ps ws c : sem_sep s ps -> dlist m (sem_queue s) (pcb_semaphore_test_node <$> ws) ->
  (forall p, p ∈ ws -> p ∈ ps) -> c ∈ ps -> c ∉ ws ->
  let m' := wr32 (list_insert_before (sem_queue s) (pcb_semaphore_test_node c) m) (pcb_state c) TASK_SLEEPING in
  dlist m' (sem_queue s) (pcb_semaphore_test_node <$> ws ++ [c]) /\ rd32 m' (sem_value s) = rd32 m (sem_value s) /\
  rd32 m' (pcb_state c) = TASK_SLEEPING /\ forall p, p ∈ ps -> p <> c -> rd32 m' (pcb_state p) = rd32 m (pcb_state p).
Proof.
  intros Hs Hd Hin Hc Hnot m'. assert (Hnd : NoDup ws).
  { destruct Hd as [Hd _]. apply ns_nodup, NoDup_cons in Hd as [_ Hd]. by eapply NoDup_fmap_1. }
  assert (Hin2 : forall p, p ∈ ws ++ [c] -> p ∈ ps) by set_solver.
  assert (Hsep : nodes_sep (sem_queue s :: (pcb_semaphore_test_node <$> ws ++ [c]))).
  { apply (sem_nodes_sep s ps Hs); [|done]. apply NoDup_app. split; [done|split; [set_solver|apply NoDup_singleton]]. }
  rewrite <- (app_nil_r (_ <$> ws)) in Hd. pose proof Hsep as Hsep'. rewrite fmap_app in Hsep'.
  destruct (list_insert_before_spec m (sem_queue s) _ [] (pcb_semaphore_test_node c) Hd Hsep') as [Hq Hf].
  change (after (sem_queue s) []) with (sem_queue s) in Hq, Hf.
  change [pcb_semaphore_test_node c] with (pcb_semaphore_test_node <$> [c]) in Hq, Hf. rewrite <- fmap_app in Hq, Hf.
  unfold m'. split; [apply dlist_wr32; [by apply (pcb_state_off s ps)|done]|split; [|split]].
  - rewrite rd32_wr32_ne by (apply wd_sym, (sem_value_state s ps Hs); done). by apply Hf, (sem_value_off s ps).
  - by rewrite rd32_wr32_eq.
  - intros p Hp Hne. rewrite rd32_wr32_ne by (by apply (pcb_states_wd s ps)). by apply Hf, (pcb_state_off s ps).
Qed.

(** The first of the queue, [w], leaves it and becomes runnable. *)
Lemma sem_dequeue m s ps w q : sem_sep s ps -> dlist m (sem_queue s) (pcb_semaphore_test_node <$> w :: q) ->
  (forall p, p ∈ w :: q -> p ∈ ps) ->
  let m' := list_delete (pcb_semaphore_test_node w) (wr32 m (pcb_state w) TASK_RUNNABLE) in
  rd32 (wr32 m (pcb_state w) TASK_RUNNABLE) (node_next (sem_queue s)) = pcb_semaphore_test_node w /\
  dlist m' (sem_queue s) (pcb_semaphore_test_node <$> q) /\ rd32 m' (sem_value s) = rd32 m (sem_value s) /\
  rd32 m' (pcb_state w) = TASK_RUNNABLE /\ forall p, p ∈ ps -> p <> w -> rd32 m' (pcb_state p) = rd32 m (pcb_state p).
Proof.
  intros Hs Hd Hin m'. assert (Hw : w ∈ ps) by (apply Hin; left). assert (Hq : forall p, p ∈ q -> p ∈ ps) by (intros; apply Hin; by right).
  assert (Hd2 : dlist (wr32 m (pcb_state w) TASK_RUNNABLE) (sem_queue s) (pcb_semaphore_test_node <$> w :: q)).
  { apply dlist_wr32; [by apply (pcb_state_off s ps)|done]. }
  pose proof (dlist_first _ _ _ Hd2) as Hfirst. rewrite fmap_cons in Hd2.
  destruct (list_delete_spec _ (sem_queue s) [] _ (pcb_semaphore_test_node <$> q) Hd2) as [Hd3 Hf]. cbn [app] in Hd3, Hf.
  fold m' in Hd3, Hf. split; [exact Hfirst|]. split; [exact Hd3|]. split; [|split].
  - rewrite Hf by (by apply (sem_value_off s ps)). apply rd32_wr32_ne. by apply wd_sym, (sem_value_state s ps Hs).
  - rewrite Hf by (by apply (pcb_state_off s ps)). apply rd32_wr32_eq.
  - intros p Hp Hne. rewrite Hf by (by apply (pcb_state_off s ps)). apply rd32_wr32_ne.
    by apply (pcb_states_wd s ps).
Qed.

(** C22: [P] implements the abstract [P] on a count and a queue: when the count was
    positive it goes on at once; otherwise the caller's state is sleeping, it stands at
    the end of the queue, and the others are scheduled with the interrupts disabled. No
    other process changes its state, and the interrupt flag is as before at the end. *)
Theorem P_refines ps s a st :
  sem_sep s ps -> sem_at ps (k_mem st) s a -> - 2 ^ 31 + 1 < as_value a ->
  k_current st ∈ ps -> k_current st ∉ as_queue a ->
  exists m', sem_at ps m' s (asem_P (k_current st) a) /\
    (asem_waits a = true -> rd32 m' (pcb_state (k_current st)) = TASK_SLEEPING) /\
    (forall p, p ∈ ps -> p <> k_current st \/ asem_waits a = false ->
      rd32 m' (pcb_state p) = rd32 (k_mem st) (pcb_state p)) /\
    P schedule s st =
      if asem_waits a then (schedule;; atom_enable_intr (if k_IF st then 1 else 0)) (set_mem m' (set_IF false st))
      else Ok tt (set_mem m' st).
Proof.
  intros Hs Ha Hr Hin Hnot. pose proof Ha as [H1 H2 H3 H4 H5].
  set (m1 := wr32 (k_mem st) (sem_value s) (w32 (as_value a - 1))).
  unfold P. unfold mbind at 1, K_bind. rewrite (proj1 (atom_section st)). krun. rewrite H1, w32_sub_l. fold m1.
  assert (E1 : rd32 m1 (sem_value s) = w32 (as_value a - 1)) by (unfold m1; by rewrite rd32_wr32_eq, w32_w32).
  assert (F1 : forall p, p ∈ ps -> rd32 m1 (pcb_state p) = rd32 (k_mem st) (pcb_state p)).
  { intros p Hp. apply rd32_wr32_ne. by apply (sem_value_state s ps). }
  pose proof (asem_P_ok (k_current st) a H5) as Hok. rewrite E1, s32_range by lia. unfold asem_waits, asem_P in *.
  destruct (Z.ltb_spec (as_value a - 1) 0) as [Hlt|Hge]; krun.
  - rewrite (proj2 (Z.leb_le _ _)), (proj2 (Z.ltb_ge _ _)) in * by lia.
    assert (Hq1 : dlist m1 (sem_queue s) (pcb_semaphore_test_node <$> as_queue a)) by (apply dlist_wr32; [by apply (sem_value_off s ps)|done]).
    destruct (sem_enqueue m1 s ps (as_queue a) (k_current st) Hs Hq1 H4 Hin Hnot) as (Hd & Ev & Es & Eo).
    eexists. split; [|split; [intros _; exact Es|split; [|reflexivity]]].
    + constructor; cbn; [by rewrite Ev|lia|exact Hd|set_solver|exact Hok].
    + intros p Hp [Hne|?]; [|done]. rewrite Eo by done. by apply F1.
  - rewrite (proj2 (Z.leb_gt _ _)), (proj2 (Z.ltb_lt _ _)) in * by lia.
    exists m1. split; [by apply sem_at_value; try lia|]. split; [done|split; [|apply atom_end]]. intros p Hp _. by apply F1.
Qed.

(** C23: [V] implements the abstract [V] on a count and a queue: the process that has
    waited longest leaves the queue and becomes runnable, if one waits; no other process
    changes its state, and the interrupt flag is as before. *)
Theorem V_refines ps s a st :
  sem_sep s ps -> sem_at ps (k_mem st) s a -> as_value a < 2 ^ 31 - 2 ->
  exists m', sem_at ps m' s (asem_V a) /\ V s st = Ok tt (set_mem m' st) /\
    (forall p, asem_wakes a = Some p -> rd32 m' (pcb_state p) = TASK_RUNNABLE) /\
    (forall p, p ∈ ps -> asem_wakes a <> Some p -> rd32 m' (pcb_state p) = rd32 (k_mem st) (pcb_state p)).
Proof.
  intros Hs Ha Hr. pose proof Ha as [H1 H2 H3 H4 H5]. pose proof (asem_V_ok a H5) as Hok.
  set (m1 := wr32 (k_mem st) (sem_value s) (w32 (as_value a + 1))).
  assert (E1 : rd32 m1 (sem_value s) = w32 (as_value a + 1)) by (unfold m1; by rewrite rd32_wr32_eq, w32_w32).
  assert (F1 : forall p, p ∈ ps -> rd32 m1 (pcb_state p) = rd32 (k_mem st) (pcb_state p)).
  { intros p Hp. apply rd32_wr32_ne. by apply (sem_value_state s ps). }
  unfold V. unfold mbind at 1, K_bind. rewrite (proj1 (atom_section st)). krun. rewrite H1, w32_add_l. fold m1.
  rewrite E1, s32_range by lia. unfold asem_V, asem_wakes in *. destruct (Z.leb_spec (as_value a + 1) 0) as [Hle|Hgt]; krun.
  - rewrite (proj2 (Z.leb_gt 0 (as_value a))) in * by lia.
    destruct (asem_wakes_some a H5 ltac:(lia)) as (w & q & Eq). rewrite Eq in *. cbn [tail head] in *.
    assert (Hq1 : dlist m1 (sem_queue s) (pcb_semaphore_test_node <$> w :: q)) by (apply dlist_wr32; [by apply (sem_value_off s ps)|done]).
    assert (Epcb : pcb_of_sem_node (pcb_semaphore_test_node w) = w).
    { unfold pcb_of_sem_node, pcb_semaphore_test_node. rewrite Z.add_simpl_r. apply w32_small. eapply pcb_word; [apply Hs|apply H4; left]. }
    assert (Efirst : rd32 m1 (node_next (sem_queue s)) = pcb_semaphore_test_node w) by apply (dlist_first _ _ _ Hq1).
    destruct (sem_dequeue m1 s ps w q Hs Hq1 H4) as (Efirst2 & Hq3 & Ev & Er & Eo). rewrite Efirst, Epcb, Efirst2.
    rewrite (proj2 (Z.eqb_neq _ _)) by (apply (dlist_not_head _ _ _ _ Hq1); left). cbn [negb]. krun. rewrite Efirst2.
    eexists. split_and!; [|apply atom_end|by intros p [= <-]|intros p Hp Hne; rewrite Eo by (done || congruence); by apply F1].
    constructor; cbn; [by rewrite Ev|lia|exact Hq3|intros p Hp; apply H4; by right|exact Hok].
  - rewrite (proj2 (Z.leb_le 0 (as_value a))) in * by lia. exists m1.
    split_and!; [by apply sem_at_value; try lia|apply atom_end|done|intros p Hp _; by apply F1].
Qed.

End Refinement.
