(* ===== verification/Monitor.v ===== *)
(** The monitors of schedule/synchronize/monitor.c over memory, and the
    producer and the consumer of schedule/synchronize/productor_consumer.c as
    programs over the semaphores of Semaphore.v, interleaved in every way the
    timer allows. *)

From S2P Require Import Prelude Machine DList Pmm Swap Malloc Proc Semaphore.

Local Open Scope Z_scope.

(** * [struct condition_t] and [struct monitor_t] *)
Definition sizeof_condition : Z := 20.
Definition cond_x_sem (c : Z) : Z := c.
Definition cond_x_count (c : Z) : Z := c + 12.
Definition cond_monitor (c : Z) : Z := c + 16.
Definition mon_mutex (m : Z) : Z := m.
Definition mon_next (m : Z) : Z := m + 12.
Definition mon_next_count (m : Z) : Z := m + 24.
Definition mon_cvs (m : Z) : Z := m + 28.

Section Monitor.
Context `{Symbols}.
Variable fuel : nat.
Variable schedule : K unit.

Fixpoint monitor_init_loop (k : nat) (monitor i : Z) : K unit :=
  match k with
  | O => mret tt
  | S k =>
      cvs ← load (mon_cvs monitor);
      semaphore_init (cond_x_sem (w32 (cvs + i * sizeof_condition))) 0;;
      cvs ← load (mon_cvs monitor);
      store (cond_x_count (w32 (cvs + i * sizeof_condition))) 0;;
      cvs ← load (mon_cvs monitor);
      store (cond_monitor (w32 (cvs + i * sizeof_condition))) monitor;;
      monitor_init_loop k monitor (i + 1)
  end.

Definition monitor_init (monitor cond_num : Z) : K unit :=
  semaphore_init (mon_mutex monitor) 1;;
  semaphore_init (mon_next monitor) 0;;
  store (mon_next_count monitor) 0;;
  cvs ← kmalloc fuel (w32 (sizeof_condition * cond_num));
  store (mon_cvs monitor) cvs;;
  monitor_init_loop (Z.to_nat cond_num) monitor 0.

(** [*p += d] on an [int]. *)
Definition add_store (a d : Z) : K unit := v ← load a; store a (w32 (v + d)).

Definition wait (cond : Z) : K unit :=
  add_store (cond_x_count cond) 1;;
  mon ← load (cond_monitor cond);
  n ← load (mon_next_count mon);
  (if 0 <? s32 n then mon ← load (cond_monitor cond); V (mon_next mon)
   else mon ← load (cond_monitor cond); V (mon_mutex mon));;
  P schedule (cond_x_sem cond);;
  add_store (cond_x_count cond) (-1);;
  print_thread_chains fuel.

Definition signal (cond : Z) : K unit :=
  x ← load (cond_x_count cond);
  when (0 <? s32 x)
    (mon ← load (cond_monitor cond);
     add_store (mon_next_count mon) 1;;
     V (cond_x_sem cond);;
     mon ← load (cond_monitor cond);
     P schedule (mon_next mon);;
     mon ← load (cond_monitor cond);
     add_store (mon_next_count mon) (-1)).

Definition enter (monitor : Z) : K unit := P schedule (mon_mutex monitor).

Definition leave (monitor : Z) : K unit :=
  n ← load (mon_next_count monitor);
  if 0 <? s32 n then V (mon_next monitor) else V (mon_mutex monitor).

End Monitor.

(** * Programs over semaphores

    A thread runs a list of statements; interrupts can switch threads between
    any two of them, and [P] and [V] run with interrupts off. Semaphores and
    shared variables are numbered. *)
Inductive stmt :=
  | SP (s : nat)                                    (** [P(&s)] *)
  | SV (s : nat)                                    (** [V(&s)] *)
  | SAdd (x : nat) (d : Z)                          (** [x += d] *)
  | SUnless (x : nat) (test : Z -> bool) (pc : nat) (** go to [pc] unless [test x] *)
  | SPrint (fmt : string) (x : nat)                 (** [printf(fmt, x)] *)
  | SGoto (pc : nat).

(** The two threads are the producer and the consumer. *)
Inductive thread := Producer | Consumer.

#[export] Instance thread_eq_dec : EqDecision thread.
Proof. solve_decision. Defined.
#[export] Instance asem_eq_dec : EqDecision (asem thread).
Proof. solve_decision. Defined.

Record config := mk_config {
  c_sem : list (asem thread) ;
  c_var : list Z ;
  c_pc : nat * nat ;
  c_asleep : bool * bool
}.

#[export] Instance config_eq_dec : EqDecision config.
Proof. solve_decision. Defined.

Definition of_thread {A} (p : A * A) (t : thread) : A := match t with Producer => p.1 | Consumer => p.2 end.
Definition set_thread {A} (p : A * A) (t : thread) (a : A) : A * A :=
  match t with Producer => (a, p.2) | Consumer => (p.1, a) end.

Section Programs.
Variable prog : thread -> list stmt.

(** One statement of thread [t]; a thread that sleeps in a queue does nothing. *)
Definition step_of (t : thread) (c : config) : option config :=
  if of_thread (c_asleep c) t then None
  else
    let pc := of_thread (c_pc c) t in
    let next := set_thread (c_pc c) t (S pc) in
    i ← prog t !! pc;
    match i with
    | SP s =>
        a ← c_sem c !! s;
        Some (mk_config (<[s := asem_P t a]> (c_sem c)) (c_var c) next
               (if asem_waits a then set_thread (c_asleep c) t true else c_asleep c))
    | SV s =>
        a ← c_sem c !! s;
        Some (mk_config (<[s := asem_V a]> (c_sem c)) (c_var c) next
               (match asem_wakes a with Some u => set_thread (c_asleep c) u false | None => c_asleep c end))
    | SAdd x d =>
        v ← c_var c !! x;
        Some (mk_config (c_sem c) (<[x := v + d]> (c_var c)) next (c_asleep c))
    | SUnless x test pc' =>
        v ← c_var c !! x;
        Some (mk_config (c_sem c) (c_var c) (if test v : bool then next else set_thread (c_pc c) t pc') (c_asleep c))
    | SPrint _ x => _ ← c_var c !! x; Some (mk_config (c_sem c) (c_var c) next (c_asleep c))
    | SGoto pc' => Some (mk_config (c_sem c) (c_var c) (set_thread (c_pc c) t pc') (c_asleep c))
    end.

(** What thread [t] prints in its step. *)
Definition prints (t : thread) (c : config) : option (string * Z) :=
  if of_thread (c_asleep c) t then None
  else
    match prog t !! of_thread (c_pc c) t with
    | Some (SPrint fmt x) => v ← c_var c !! x; Some (fmt, v)
    | _ => None
    end.

(** Some thread takes a step. *)
Inductive step : config -> config -> Prop :=
  | step_thread t c c' : step_of t c = Some c' -> step c c'.

Inductive reachable (c0 : config) : config -> Prop :=
  | reach_refl : reachable c0 c0
  | reach_step c c' : reachable c0 c -> step c c' -> reachable c0 c'.

Lemma reachable_left c c' d : step c c' -> reachable c' d -> reachable c d.
Proof.
  intros Hs Hr. induction Hr as [|d d' _ IH Hst]; [eapply reach_step; [apply reach_refl|exact Hs]|].
  by eapply reach_step.
Qed.

(** The threads in a given order. *)
Fixpoint run (ts : list thread) (c : config) : option config :=
  match ts with [] => Some c | t :: ts => c' ← step_of t c; run ts c' end.

Lemma run_reachable c0 ts : forall c d, reachable c0 c -> run ts c = Some d -> reachable c0 d.
Proof.
  induction ts as [|t ts IH]; cbn [run]; intros c d Hr; [by intros [= ->]|].
  destruct (step_of t c) as [c'|] eqn:E; [|done]. apply IH. eapply reach_step; [exact Hr|]. by apply (step_thread t).
Qed.

(** Thread [t] is not shut out: from [c] it can come to print its next message. *)
Definition can_print (t : thread) (c : config) : Prop := exists d, reachable c d /\ prints t d <> None.

(** The threads take turns, and a thread that sleeps passes its turn. *)
Definition other (t : thread) : thread := match t with Producer => Consumer | Consumer => Producer end.

Fixpoint drive (n : nat) (turn t : thread) (c : config) : bool :=
  match prints t c, n with
  | Some _, _ => true
  | None, O => false
  | None, S n =>
      match step_of turn c with
      | Some c' => drive n (other turn) t c'
      | None => match step_of (other turn) c with Some c' => drive n turn t c' | None => false end
      end
  end.

Lemma drive_sound n t : forall turn c, drive n turn t c = true -> can_print t c.
Proof.
  assert (Hs : forall u c c', step_of u c = Some c' -> can_print t c' -> can_print t c).
  { intros u c c' Hs (d & Hr & Hp). exists d. split; [|exact Hp]. eapply reachable_left; [by apply (step_thread u)|exact Hr]. }
  assert (Hn : forall c m, prints t c = Some m -> can_print t c).
  { intros c m E. exists c. split; [apply reach_refl|by rewrite E]. }
  induction n as [|n IH]; intros turn c Hd; cbn [drive] in Hd; destruct (prints t c) eqn:E; eauto; [done|].
  destruct (step_of turn c) eqn:E1; [eauto|]. destruct (step_of (other turn) c) eqn:E2; [eauto|done].
Qed.

(** ** Exploration *)
Definition succs (c : config) : list config := omap (fun t => step_of t c) [Producer; Consumer].

Definition closed (cs : list config) : bool :=
  forallb (fun c => forallb (fun d => bool_decide (d ∈ cs)) (succs c)) cs.

Fixpoint explore (fuel : nat) (todo cs : list config) : list config :=
  match fuel, todo with
  | S fuel, c :: todo =>
      if bool_decide (c ∈ cs) then explore fuel todo cs else explore fuel (succs c ++ todo) (c :: cs)
  | _, _ => cs
  end.

Lemma elem_of_succs t c c' : step_of t c = Some c' -> c' ∈ succs c.
Proof. intros Hs. apply list_elem_of_omap. exists t. split; [destruct t; set_solver|done]. Qed.

(** A set of configurations closed under steps holds the reachable ones. *)
Lemma reachable_closed c0 cs c : c0 ∈ cs -> closed cs = true -> reachable c0 c -> c ∈ cs.
Proof.
  intros H0 Hc Hr. induction Hr as [|c c' Hr IH Hst]; [done|]. destruct Hst as [t d d' Hst].
  unfold closed in Hc. rewrite forallb_forall in Hc. specialize (Hc d (proj1 (list_elem_of_In _ _) IH)).
  rewrite forallb_forall in Hc. specialize (Hc d' (proj1 (list_elem_of_In _ _) (elem_of_succs _ _ _ Hst))).
  by apply bool_decide_eq_true in Hc.
Qed.

Lemma reachable_check c0 cs (f : config -> bool) c :
  bool_decide (c0 ∈ cs) && closed cs && forallb f cs = true -> reachable c0 c -> f c = true.
Proof.
  intros Hall Hr. apply andb_prop in Hall as [Hall Hfa]. apply andb_prop in Hall as [H0 Hc].
  apply bool_decide_eq_true in H0. rewrite forallb_forall in Hfa. apply Hfa, list_elem_of_In.
  by eapply reachable_closed.
Qed.

End Programs.

(** * Producer and consumer with semaphores *)
Module BySemaphore.

(** Semaphores [mutex] and [full_s]; variable [buffer_s]. *)
Definition mutex : nat := 0.
Definition full_s : nat := 1.
Definition buffer_s : nat := 0.

Definition producer_semaphore : list stmt :=
  [ SUnless buffer_s (fun b => b <? 5) 0;
    SP mutex;
    SAdd buffer_s 1;
    SPrint "producer produced a product! now there has %d products~\n" buffer_s;
    SV mutex;
    SV full_s;
    SGoto 0 ].

Definition consumer_semaphore : list stmt :=
  [ SP full_s;
    SP mutex;
    SAdd buffer_s (-1);
    SPrint "consumer consumed a product! now there has %d products~\n" buffer_s;
    SV mutex;
    SGoto 0 ].

Definition prog (t : thread) : list stmt :=
  match t with Producer => producer_semaphore | Consumer => consumer_semaphore end.

(** [test_semaphore]: [empty_s] is set up and never used. *)
Definition init : config :=
  mk_config [mk_asem 1 []; mk_asem 0 []] [0] (0, 0)%nat (false, false).

(** Past [P(&mutex)] and before [V(&mutex)] is done. *)
Definition critical (c : config) (t : thread) : bool :=
  let pc := of_thread (c_pc c) t in
  negb (of_thread (c_asleep c) t) && (2 <=? pc)%nat && (pc <=? 4)%nat.

End BySemaphore.

(** * Producer and consumer with a monitor *)
Module ByMonitor.

(** Semaphores of the monitor and of its two conditions; the variables. *)
Definition mutex : nat := 0.
Definition next : nat := 1.
Definition PRODUCER : nat := 2.
Definition CONSUMER : nat := 3.
Definition buffer_m : nat := 0.
Definition next_count : nat := 1.
Definition x_count (cond : nat) : nat := cond.

Definition enter : list stmt := [SP mutex].

(** [leave] and the first half of [wait], placed at [pc]. *)
Definition release (pc : nat) : list stmt :=
  [ SUnless next_count (fun n => 0 <? n) (pc + 3);
    SV next;
    SGoto (pc + 4);
    SV mutex ].

Definition wait (cond pc : nat) : list stmt :=
  SAdd (x_count cond) 1 :: release (pc + 1) ++ [SP cond; SAdd (x_count cond) (-1)].

Definition signal (cond pc : nat) : list stmt :=
  [ SUnless (x_count cond) (fun x => 0 <? x) (pc + 5);
    SAdd next_count 1;
    SV cond;
    SP next;
    SAdd next_count (-1) ].

(** The body of the loops: [wait] when the buffer holds [stop], then add [d] and
    print, then [signal] when the buffer holds [go]. *)
Definition body (own other : nat) (stop d go : Z) (fmt : string) : list stmt :=
  enter ++
  [SUnless buffer_m (fun b => b =? stop) 9] ++ wait own 2 ++
  [SAdd buffer_m d; SPrint fmt buffer_m] ++
  [SUnless buffer_m (fun b => b =? go) 17] ++ signal other 12 ++
  release 17 ++ [SGoto 0].

Definition producer_monitor : list stmt :=
  body PRODUCER CONSUMER 5 1 1 "producer produced a product! now there has %d products~\n".
Definition consumer_monitor : list stmt :=
  body CONSUMER PRODUCER 0 (-1) 4 "consumer consumed a product! now there has %d products~\n".

Definition prog (t : thread) : list stmt :=
  match t with Producer => producer_monitor | Consumer => consumer_monitor end.

(** [test_monitor] *)
Definition init : config :=
  mk_config [mk_asem 1 []; mk_asem 0 []; mk_asem 0 []; mk_asem 0 []] [0; 0; 0; 0] (0, 0)%nat (false, false).

(** The thread holds the monitor: it runs, it is past [enter], and it has not
    let another thread in ([SV] of [wait], [signal] and [leave]). *)
Definition inside (c : config) (t : thread) : bool :=
  negb (of_thread (c_asleep c) t) &&
  negb (bool_decide (of_thread (c_pc c) t ∈ [0; 5; 7; 15; 19; 21]%nat)).

End ByMonitor.

(** * Safety of the two programs *)

(** The buffer holds between 0 and 5 items, [excl] is not true of both threads,
    every negative count is the number of sleepers, some thread can run, each
    thread can come to print its next message, and the messages show a buffer that is not empty after a product and not full after
    a consumption. *)
Record safe (prog : thread -> list stmt) (excl : config -> thread -> bool) (c : config) : Prop := {
  sf_buffer : exists b, c_var c !! 0%nat = Some b /\ 0 <= b <= 5 ;
  sf_excl : ~ (excl c Producer = true /\ excl c Consumer = true) ;
  sf_sems : Forall asem_ok (c_sem c) ;
  sf_live : exists c', step prog c c' ;
  sf_progress : forall t, can_print prog t c ;
  sf_shown : forall t fmt v, prints prog t c = Some (fmt, v) -> (if t is Producer then 1 else 0) <= v <= (if t is Producer then 5 else 4)
}.

#[export] Instance asem_ok_dec {T} (a : asem T) : Decision (asem_ok a).
Proof. unfold asem_ok. apply _. Defined.

Definition shown_check (prog : thread -> list stmt) (c : config) (t : thread) : bool :=
  match prints prog t c with
  | Some (_, v) => ((if t is Producer then 1 else 0) <=? v) && (v <=? (if t is Producer then 5 else 4))
  | None => true
  end.

Definition safe_check (prog : thread -> list stmt) (excl : config -> thread -> bool) (c : config) : bool :=
  match c_var c !! 0%nat with Some b => (0 <=? b) && (b <=? 5) | None => false end &&
  negb (excl c Producer && excl c Consumer) && bool_decide (Forall asem_ok (c_sem c)) &&
  match succs prog c with [] => false | _ => true end && shown_check prog c Producer && shown_check prog c Consumer &&
  drive prog 80 Producer Producer c && drive prog 80 Producer Consumer c.

Lemma safe_check_sound prog excl c : safe_check prog excl c = true -> safe prog excl c.
Proof.
  unfold safe_check. intros H. apply andb_prop in H as [H H8]. apply andb_prop in H as [H H7]. apply andb_prop in H as [H H6]. apply andb_prop in H as [H H5]. apply andb_prop in H as [H H4]. apply andb_prop in H as [H H3].
  apply andb_prop in H as [H1 H2]. constructor.
  - destruct (c_var c !! 0%nat) as [b|]; [|done]. apply andb_prop in H1 as [? ?]. exists b. split; [done|lia].
  - intros [E1 E2]. by rewrite E1, E2 in H2.
  - by apply bool_decide_eq_true in H3.
  - destruct (succs prog c) as [|c' l] eqn:E; [done|]. assert (Hin : c' ∈ succs prog c) by (rewrite E; left).
    apply list_elem_of_omap in Hin as (t & _ & Ht). exists c'. by apply (step_thread _ t).
  - intros []; by eapply drive_sound.
  - intros t fmt v E. unfold shown_check in H5, H6. destruct t; rewrite E in *; lia.
Qed.

(** C24: Producer and consumer with semaphores: in every interleaving the buffer keeps
    within its 5 places although the producer tests it outside the mutex, the critical
    sections exclude each other, the messages show 1 to 5 items after a product and 0 to
    4 after a consumption, and from every state reached each of the two can still come
    to its next message, so neither is ever shut out. *)
Theorem semaphore_buffer_safe c :
  reachable BySemaphore.prog BySemaphore.init c -> safe BySemaphore.prog BySemaphore.critical c.
Proof.
  intros Hr. apply safe_check_sound.
  apply (reachable_check BySemaphore.prog BySemaphore.init
    (explore BySemaphore.prog 2000 [BySemaphore.init] []) _ c); [|exact Hr].
  vm_compute. reflexivity.
Qed.

(** C25: Producer and consumer with the monitor: in every interleaving the buffer keeps
    within its 5 places, at most one thread holds the monitor, the messages show 1 to 5
    items after a product and 0 to 4 after a consumption, and from every state reached
    each of the two can still come to its next message, so neither is ever shut out. *)
Theorem monitor_buffer_safe c :
  reachable ByMonitor.prog ByMonitor.init c -> safe ByMonitor.prog ByMonitor.inside c.
Proof.
  intros Hr. apply safe_check_sound.
  apply (reachable_check ByMonitor.prog ByMonitor.init
    (explore ByMonitor.prog 4000 [ByMonitor.init] []) _ c); [|exact Hr].
  vm_compute. reflexivity.
Qed.
