(* ===== verification/Console.v ===== *)
(** The text console: the VGA driver of libs/VGA.c and the formatted output of
    libs/stdio.c on top of it. *)

From S2P Require Import Prelude Machine Ports.

Local Open Scope Z_scope.

(** * The screen *)

(** The static variables of VGA.c, the 16-bit cells from [VGA_START] on by
    index, and the port writes that move the hardware cursor. *)
Record vga := mk_vga {
  v_cells : gmap Z Z ;
  cursor_x : Z ;
  cursor_y : Z ;
  v_ports : list (Z * Z)
}.

Definition black : Z := 0.
Definition white : Z := 15.
Definition space : Z := 32.

Definition cell (v : vga) (i : Z) : Z := w16 (default 0 (v_cells v !! i)).
Definition set_cell (i c : Z) (v : vga) : vga :=
  mk_vga (<[i := c]> (v_cells v)) (cursor_x v) (cursor_y v) (v_ports v).
Definition set_cursor_x (x : Z) (v : vga) : vga := mk_vga (v_cells v) (w8 x) (cursor_y v) (v_ports v).
Definition set_cursor_y (y : Z) (v : vga) : vga := mk_vga (v_cells v) (cursor_x v) (w8 y) (v_ports v).

Definition out (port value : Z) (v : vga) : vga :=
  mk_vga (v_cells v) (cursor_x v) (cursor_y v) ((port, w8 value) :: v_ports v).

Definition move_cursor (v : vga) : vga :=
  let cursor := w16 (cursor_y v * 80 + cursor_x v) in
  let v := out 0x3D4 14 v in
  let v := out 0x3D5 (Z.shiftr cursor 8) v in
  let v := out 0x3D4 15 v in
  out 0x3D5 cursor v.

Definition char_mix (back front c : Z) : Z :=
  let mix := Z.lor (Z.shiftl (w8 back) 4) (Z.land (w8 front) 0xf) in
  w16 (Z.lor (Z.shiftl mix 8) c).

(** [for(u8 j = 0; j < 80; j++)] over one row, [k] cells left. *)
Fixpoint scroll_row (k : nat) (i j : Z) (v : vga) : vga :=
  match k with
  | O => v
  | S k => scroll_row k i (j + 1) (set_cell ((i - 1) * 80 + j) (cell v (i * 80 + j)) v)
  end.

Fixpoint scroll_rows (k : nat) (i : Z) (v : vga) : vga :=
  match k with
  | O => v
  | S k => scroll_rows k (i + 1) (scroll_row 80 i 0 v)
  end.

Fixpoint fill (k : nat) (i c : Z) (v : vga) : vga :=
  match k with
  | O => v
  | S k => fill k (i + 1) c (set_cell i c v)
  end.

Definition scroll (v : vga) : vga :=
  if cursor_y v <? 25 then v
  else
    let v := scroll_rows 24 1 v in
    let v := fill 80 (24 * 80) (char_mix black white space) v in
    set_cursor_y 24 v.

(** [c] is a [char], so it is signed. *)
Definition show_char (back front c : Z) (v : vga) : vga :=
  if (c =? 8) && negb (cursor_x v =? 0) then move_cursor (set_cursor_x (cursor_x v - 1) v)
  else if c =? 9 then move_cursor (set_cursor_x (Z.lor (cursor_x v + 4) 0xFC) v)
  else if c =? 10 then
    let v := set_cursor_x 0 v in
    let v := set_cursor_y (cursor_y v + 1) v in
    move_cursor (scroll v)
  else if space <=? c then
    let v := set_cell (cursor_y v * 80 + cursor_x v) (char_mix back front c) v in
    let v := set_cursor_x (cursor_x v + 1) v in
    let v := if 80 <=? cursor_x v then
               let v := set_cursor_x 0 v in
               let v := set_cursor_y (cursor_y v + 1) v in
               scroll v
             else v in
    move_cursor v
  else v.

Definition clear_screen (v : vga) : vga :=
  let v := fill 2000 0 (char_mix black white space) v in
  let v := set_cursor_x 0 (set_cursor_y 0 v) in
  move_cursor v.

(** * Formatted output *)

(** The [char] (signed) of the low byte of a value. *)
Definition s8 (z : Z) : Z := let u := w8 z in if u <? 128 then u else u - 256.

(** Strings are the bytes before the terminator. *)
Definition putc (c : Z) (v : vga) : vga := show_char black white (s8 c) v.

Fixpoint put_raw_string (s : list Z) (v : vga) : vga :=
  match s with
  | [] => v
  | c :: s => put_raw_string s (show_char black white (s8 c) v)
  end.

(** ["0123456789abcdef"] *)
Definition table (bit : Z) : Z := if bit <? 10 then 48 + bit else 97 + (bit - 10).

(** The digits as the loop stores them, the last one first. A [u32] has at most
    32 digits in any base. *)
Fixpoint put_int_digits (k : nat) (num base : Z) : list Z :=
  match k with
  | O => []
  | S k => if num =? 0 then [] else table (num mod base) :: put_int_digits k (num / base) base
  end.

(** The loop that reverses the buffer in place, [k] swaps left. *)
Fixpoint put_int_swap (k : nat) (i cnt : nat) (buf : list Z) : list Z :=
  match k with
  | O => buf
  | S k =>
      let tmp := nth i buf 0 in
      let buf := <[i := nth (cnt - 1 - i) buf 0]> buf in
      let buf := <[(cnt - 1 - i)%nat := tmp]> buf in
      put_int_swap k (S i) cnt buf
  end.

(** The digits in [buf] when they are printed; [None] when they and the
    terminator do not fit in its 11 bytes. *)
Definition put_int_buf (num base : Z) : option (list Z) :=
  let buf := if num =? 0 then [table 0] else put_int_digits 32 num base in
  let cnt := length buf in
  if (cnt <=? 10)%nat then Some (put_int_swap (S ((cnt - 1) / 2)) 0 cnt buf) else None.

Definition put_int (num base : Z) (v : vga) : option vga :=
  buf ← put_int_buf num base;
  let v := if base =? 16 then put_raw_string [48; 120] v else v in
  let v := if base =? 8 then put_raw_string [48] v else v in
  Some (put_raw_string buf v).

(** What [va_arg] hands out: a word, or a pointer to a string. *)
Inductive va := VaInt (n : Z) | VaStr (s : list Z).

(** One conversion; it uses up an argument unless the letter is unknown. *)
Definition printf_conv (c : Z) (ap : list va) (v : vga) : option (list va * vga) :=
  if c =? 99 then (* c *)
    match ap with VaInt n :: ap => Some (ap, putc n v) | _ => None end
  else if c =? 115 then (* s *)
    match ap with VaStr s :: ap => Some (ap, put_raw_string s v) | _ => None end
  else if c =? 100 then (* d *)
    match ap with VaInt n :: ap => v ← put_int (w32 n) 10 v; Some (ap, v) | _ => None end
  else if c =? 120 then (* x *)
    match ap with VaInt n :: ap => v ← put_int (w32 n) 16 v; Some (ap, v) | _ => None end
  else if c =? 111 then (* o *)
    match ap with VaInt n :: ap => v ← put_int (w32 n) 8 v; Some (ap, v) | _ => None end
  else Some (ap, v).

(** [None]: the call reads past its arguments or its format. *)
Fixpoint printf (fmt : list Z) (ap : list va) (v : vga) : option vga :=
  match fmt with
  | [] => Some v
  | c :: fmt =>
      if negb (c =? 37) then printf fmt ap (putc c v)
      else
        match fmt with
        | [] => None
        | c :: fmt => r ← printf_conv c ap v; printf fmt (fst r) (snd r)
        end
  end.

(** * Numbers *)

(** The value of a digit and of a numeral, the most significant digit first. *)
Definition digit_val (c : Z) : Z := if c <? 58 then c - 48 else c - 87.
Definition numeral (base : Z) (buf : list Z) : Z := foldl (fun acc c => acc * base + digit_val c) 0 buf.

Lemma digit_val_table d : 0 <= d < 16 -> digit_val (table d) = d.
Proof. intros. unfold digit_val, table. destruct (Z.ltb_spec d 10); [destruct (Z.ltb_spec (48 + d) 58)|destruct (Z.ltb_spec (97 + (d - 10)) 58)]; lia. Qed.

Lemma numeral_snoc base l c : numeral base (l ++ [c]) = numeral base l * base + digit_val c.
Proof. unfold numeral. by rewrite foldl_app. Qed.

Lemma put_int_digits_value base k : 2 <= base <= 16 -> forall num, 0 <= num < base ^ Z.of_nat k ->
  numeral base (rev (put_int_digits k num base)) = num.
Proof.
  intros Hb. induction k as [|k IH]; intros num Hn; cbn [put_int_digits].
  - cbn in Hn. unfold numeral. cbn. lia.
  - destruct (Z.eqb_spec num 0) as [->|Hne]; [done|]. cbn [rev].
    rewrite Nat2Z.inj_succ, Z.pow_succ_r in Hn by lia.
    rewrite numeral_snoc, IH by (split; [apply Z.div_pos; lia|apply Z.div_lt_upper_bound; lia]).
    pose proof (Z.mod_pos_bound num base ltac:(lia)). rewrite digit_val_table by lia.
    pose proof (Z.div_mod num base ltac:(lia)). lia.
Qed.

Lemma put_int_digits_length base k : 2 <= base <= 16 -> forall num n, 0 <= num < base ^ Z.of_nat k ->
  (length (put_int_digits k num base) <= n)%nat <-> num < base ^ Z.of_nat n.
Proof.
  intros Hb. induction k as [|k IH]; intros num n Hn; cbn [put_int_digits length].
  - cbn in Hn. pose proof (Z.pow_pos_nonneg base (Z.of_nat n)). split; lia.
  - rewrite Nat2Z.inj_succ, Z.pow_succ_r in Hn by lia.
    destruct (Z.eqb_spec num 0) as [->|Hne]; cbn [length].
    { pose proof (Z.pow_pos_nonneg base (Z.of_nat n)). split; lia. }
    destruct n as [|n]; [cbn; lia|]. rewrite <- Nat.succ_le_mono, IH.
    + rewrite Nat2Z.inj_succ, Z.pow_succ_r by lia. pose proof (Z.div_mod num base ltac:(lia)).
      pose proof (Z.mod_pos_bound num base ltac:(lia)). split; intros; nia.
    + split; [apply Z.div_pos; lia|apply Z.div_lt_upper_bound; lia].
Qed.

(** No digit is a zero in front. *)
Lemma put_int_digits_last base k : 2 <= base <= 16 -> forall num, 0 < num < base ^ Z.of_nat k ->
  exists l d, put_int_digits k num base = l ++ [table d] /\ 0 < d < base.
Proof.
  intros Hb. induction k as [|k IH]; intros num Hn; cbn [put_int_digits]; [cbn in Hn; lia|].
  rewrite Nat2Z.inj_succ, Z.pow_succ_r in Hn by lia. rewrite (proj2 (Z.eqb_neq num 0)) by lia.
  pose proof (Z.mod_pos_bound num base ltac:(lia)). pose proof (Z.div_mod num base ltac:(lia)).
  destruct (decide (num / base = 0)) as [E|E].
  - rewrite E. exists [], (num mod base). assert (put_int_digits k 0 base = []) as -> by (by destruct k). split; [done|lia].
  - destruct (IH (num / base)) as (l & d & -> & Hd).
    { split; [|apply Z.div_lt_upper_bound; lia]. pose proof (Z.div_pos num base). lia. }
    exists (table (num mod base) :: l), d. done.
Qed.

(** Swapping towards the middle reverses a buffer. *)
Lemma put_int_swap_rev buf : (length buf <= 10)%nat -> buf <> [] ->
  put_int_swap (S ((length buf - 1) / 2)) 0 (length buf) buf = rev buf.
Proof.
  intros Hl Hne. do 11 (destruct buf as [|? buf]; [done|]). cbn in Hl. lia.
Qed.

(** C39: The numeral [put_int] prints in base 8, 10 or 16 reads back as the number,
    without zeros in front; decimal and hexadecimal numerals fit the buffer, the octal
    one does not from 2^30 on. *)
Theorem put_int_roundtrip num base : 0 <= num < 2 ^ 32 -> base = 8 \/ base = 10 \/ base = 16 ->
  match put_int_buf num base with
  | Some buf => numeral base buf = num /\ (num <> 0 -> hd 0 buf <> 48) /\ (0 < length buf <= 10)%nat
  | None => base = 8 /\ 2 ^ 30 <= num
  end.
Proof.
  intros Hn Hb. assert (Hb2 : 2 <= base <= 16) by lia.
  assert (Hp : num < base ^ Z.of_nat 32).
  { assert (2 ^ 32 <= base ^ Z.of_nat 32) by (destruct Hb as [->|[->| ->]]; cbn; lia). lia. }
  unfold put_int_buf. destruct (Z.eqb_spec num 0) as [->|Hne].
  { cbn. split; [done|split; [done|lia]]. }
  destruct (put_int_digits_last base 32 Hb2 num ltac:(lia)) as (l & d & E & Hd).
  pose proof (put_int_digits_length base 32 Hb2 num 10 ltac:(lia)) as Hlen.
  pose proof (put_int_digits_value base 32 Hb2 num ltac:(lia)) as Hval.
  set (buf := put_int_digits 32 num base) in *.
  destruct (Nat.leb_spec (length buf) 10) as [Hle|Hgt].
  - rewrite put_int_swap_rev; [|done|rewrite E; by destruct l]. split; [done|]. split.
    + intros _. rewrite E, rev_app_distr. cbn. unfold table. destruct (Z.ltb_spec d 10); lia.
    + rewrite length_rev. split; [|done]. rewrite E, length_app. cbn. lia.
  - assert (base ^ Z.of_nat 10 <= num) by (apply Z.nlt_ge; rewrite <- Hlen; lia).
    destruct Hb as [->|[->| ->]]; cbn in *; lia.
Qed.

(** The loops of [put_int] end after at most 32 rounds: more fuel changes nothing. *)
Theorem put_int_digits_fuel num base k : 2 <= base <= 16 -> 0 <= num < 2 ^ 32 -> (32 <= k)%nat ->
  put_int_digits k num base = put_int_digits 32 num base.
Proof.
  intros Hb Hn Hk. assert (Hg : forall n k num, 0 <= num < base ^ Z.of_nat n -> (n <= k)%nat ->
    put_int_digits k num base = put_int_digits n num base).
  { clear Hn Hk k num. induction n as [|n IH]; intros k num Hn Hk.
    - cbn in Hn. assert (num = 0) as -> by lia. by destruct k.
    - destruct k as [|k]; [lia|]. cbn [put_int_digits]. destruct (num =? 0); [done|]. f_equal. apply IH; [|lia].
      rewrite Nat2Z.inj_succ, Z.pow_succ_r in Hn by lia.
      split; [apply Z.div_pos; lia|apply Z.div_lt_upper_bound; lia]. }
  apply Hg; [|done]. split; [lia|]. apply Z.lt_le_trans with (2 ^ Z.of_nat 32); [cbn; lia|].
  apply Z.pow_le_mono_l. lia.
Qed.

(** * The screen's promises *)

Definition on_screen (v : vga) : Prop := 0 <= cursor_x v < 80 /\ 0 <= cursor_y v < 25.

Lemma cell_set_cell i c v j : cell (set_cell i c v) j = if decide (i = j) then w16 c else cell v j.
Proof.
  unfold cell, set_cell. cbn. case_decide as E; [subst; by rewrite lookup_insert_eq|by rewrite lookup_insert_ne].
Qed.

Lemma w16_w16 z : w16 (w16 z) = w16 z.
Proof. unfold w16. by rewrite Zmod_mod. Qed.

Lemma cell_w16 v i : w16 (cell v i) = cell v i.
Proof. unfold cell. apply w16_w16. Qed.

Lemma scroll_row_spec k : forall i j v v', 1 <= i -> 0 <= j -> j + Z.of_nat k <= 80 ->
  scroll_row k i j v = v' ->
  (forall p, cell v' p = if decide ((i - 1) * 80 + j <= p < (i - 1) * 80 + j + Z.of_nat k) then cell v (p + 80) else cell v p) /\
  cursor_x v' = cursor_x v /\ cursor_y v' = cursor_y v.
Proof.
  induction k as [|k IH]; intros i j v v' Hi Hj Hk; cbn [scroll_row]; intros E.
  { subst. split; [|done]. intros p. by dec_lia. }
  destruct (IH i (j + 1) _ v' Hi ltac:(lia) ltac:(lia) E) as (H & ? & ?).
  split; [|done]. intros p. rewrite H, !cell_set_cell, cell_w16.
  repeat case_decide; try lia; try done. subst p. f_equal; lia.
Qed.

#[local] Opaque scroll_row.

Lemma scroll_rows_S k i v : scroll_rows (S k) i v = scroll_rows k (i + 1) (scroll_row 80 i 0 v).
Proof. unfold scroll_rows. fold scroll_rows. reflexivity. Qed.

Lemma scroll_rows_spec k : forall i v v', 1 <= i -> i + Z.of_nat k <= 25 ->
  scroll_rows k i v = v' ->
  (forall p, cell v' p = if decide ((i - 1) * 80 <= p < (i - 1 + Z.of_nat k) * 80) then cell v (p + 80) else cell v p) /\
  cursor_x v' = cursor_x v /\ cursor_y v' = cursor_y v.
Proof.
  induction k as [|k IH]; intros i v v' Hi Hk E.
  { cbn in E. subst. split; [|done]. intros p. by dec_lia. }
  rewrite scroll_rows_S in E.
  remember (scroll_row 80 i 0 v) as v1 eqn:E1. symmetry in E1.
  destruct (IH (i + 1) v1 v' ltac:(lia) ltac:(lia) E) as (H & Hx & Hy).
  destruct (scroll_row_spec 80 i 0 v v1 Hi ltac:(lia) ltac:(lia) E1) as (H0 & Hx0 & Hy0). clear E E1.
  split; [|split; congruence]. intros p. rewrite H, !H0. repeat case_decide; try lia; done.
Qed.

Lemma fill_spec k : forall i c v v', fill k i c v = v' ->
  (forall p, cell v' p = if decide (i <= p < i + Z.of_nat k) then w16 c else cell v p) /\
  cursor_x v' = cursor_x v /\ cursor_y v' = cursor_y v.
Proof.
  induction k as [|k IH]; intros i c v v' E; cbn [fill] in E.
  { subst. split; [|done]. intros p. by dec_lia. }
  destruct (IH (i + 1) c _ v' E) as (H & ? & ?). split; [|done].
  intros p. rewrite H, cell_set_cell. repeat case_decide; try lia; done.
Qed.

#[local] Opaque scroll_rows fill.

Lemma cell_set_cursor_x x v i : cell (set_cursor_x x v) i = cell v i.
Proof. reflexivity. Qed.

Lemma cell_set_cursor_y y v i : cell (set_cursor_y y v) i = cell v i.
Proof. reflexivity. Qed.

Lemma cursor_x_set_cursor_y y v : cursor_x (set_cursor_y y v) = cursor_x v.
Proof. reflexivity. Qed.

Lemma cell_move_cursor v i : cell (move_cursor v) i = cell v i.
Proof. reflexivity. Qed.

Lemma scroll_eq v : scroll v = if cursor_y v <? 25 then v
  else set_cursor_y 24 (fill 80 (24 * 80) (char_mix black white space) (scroll_rows 24 1 v)).
Proof. unfold scroll. reflexivity. Qed.

(** Below the screen's 25 lines the text moves up a line and a blank one comes in. *)
Lemma scroll_spec v v' : cursor_y v = 25 -> scroll v = v' ->
  (forall p, 0 <= p -> cell v' p = if decide (p < 24 * 80) then cell v (p + 80)
                        else if decide (p < 25 * 80) then char_mix black white space else cell v p) /\
  cursor_x v' = cursor_x v /\ cursor_y v' = 24.
Proof.
  intros Hy E. rewrite scroll_eq, (proj2 (Z.ltb_ge _ _)) in E by lia.
  assert (exists v1, scroll_rows 24 1 v = v1) as [v1 E1] by eauto. rewrite E1 in E.
  assert (exists v2, fill 80 (24 * 80) (char_mix black white space) v1 = v2) as [v2 E2] by eauto. rewrite E2 in E.
  pose proof (scroll_rows_spec 24 1 v v1 ltac:(lia) ltac:(lia) E1) as (H & Hx & _). clear E1.
  pose proof (fill_spec 80 (24 * 80) _ v1 v2 E2) as (H1 & Hx1 & _). clear E2. subst v'. split.
  - intros p Hp. rewrite cell_set_cursor_y, H1, H. repeat case_decide; try lia; reflexivity.
  - split; [|reflexivity]. rewrite cursor_x_set_cursor_y. congruence.
Qed.

#[local] Opaque scroll.

(** The index of the cell under the cursor. *)
Definition position (v : vga) : Z := cursor_y v * 80 + cursor_x v.

(** [v'] is a screen with the same memory outside its 2000 cells. *)
Definition screen_step (v v' : vga) : Prop :=
  on_screen v' /\ forall i, 25 * 80 <= i -> cell v' i = cell v i.

Lemma screen_step_refl v : on_screen v -> screen_step v v.
Proof. by split. Qed.

Lemma screen_step_trans v1 v2 v3 : screen_step v1 v2 -> screen_step v2 v3 -> screen_step v1 v3.
Proof. intros [_ H1] [H2 H3]. split; [done|]. intros i Hi. by rewrite H3, H1. Qed.

Lemma on_screen_move_cursor v : on_screen (move_cursor v) <-> on_screen v.
Proof. reflexivity. Qed.

Lemma position_move_cursor v : position (move_cursor v) = position v.
Proof. reflexivity. Qed.

(** A line feed, after a character at the end of a line too. *)
Lemma newline_step v : 0 <= cursor_y v < 25 ->
  let v' := scroll (set_cursor_y (cursor_y v + 1) (set_cursor_x 0 v)) in
  position v' = Z.min 24 (cursor_y v + 1) * 80 /\ on_screen v' /\
  forall i, 0 <= i -> cell v' i = if decide (cursor_y v < 24) then cell v i
                       else if decide (i < 24 * 80) then cell v (i + 80)
                       else if decide (i < 25 * 80) then char_mix black white space else cell v i.
Proof.
  intros Hy. set (v1 := set_cursor_y _ _).
  assert (Hx1 : cursor_x v1 = 0) by reflexivity.
  assert (Hy1 : cursor_y v1 = cursor_y v + 1) by (unfold v1, set_cursor_y, w8; cbn -[Z.modulo]; apply Z.mod_small; lia).
  cbv zeta. destruct (decide (cursor_y v < 24)) as [Hlt|Hge].
  - rewrite scroll_eq, (proj2 (Z.ltb_lt _ _)) by lia. unfold position, on_screen. rewrite Hx1, Hy1.
    split; [lia|]. split; [lia|]. intros i _. reflexivity.
  - destruct (scroll_spec v1 (scroll v1) ltac:(lia) eq_refl) as (H & Hx & Hy').
    unfold position, on_screen. rewrite Hx, Hy', Hx1. split; [lia|]. split; [lia|]. exact H.
Qed.

(** A printable character is written at the cursor, which goes on to the next
    cell; past the last cell the screen scrolls. *)
Lemma show_char_printable back front c v : on_screen v -> space <= c ->
  let v' := show_char back front c v in
  on_screen v' /\
  if decide (position v < 25 * 80 - 1) then
    position v' = position v + 1 /\
    forall i, 0 <= i -> cell v' i = if decide (i = position v) then char_mix back front c else cell v i
  else
    position v' = 24 * 80 /\
    forall i, 0 <= i -> cell v' i = if decide (i = 24 * 80 - 1) then char_mix back front c
                         else if decide (i < 24 * 80) then cell v (i + 80)
                         else if decide (i < 25 * 80) then char_mix black white space else cell v i.
Proof.
  intros [Hx Hy] Hc. unfold show_char, space in *.
  rewrite (proj2 (Z.eqb_neq c 8)), (proj2 (Z.eqb_neq c 9)), (proj2 (Z.eqb_neq c 10)), (proj2 (Z.leb_le 32 c)) by lia.
  cbn [andb]. cbv zeta. fold (position v). set (v1 := set_cell (position v) (char_mix back front c) v).
  assert (Hc1 : forall i, cell v1 i = if decide (i = position v) then char_mix back front c else cell v i).
  { intros i. unfold v1. rewrite cell_set_cell. repeat case_decide; try congruence. apply w16_w16. }
  set (v2 := set_cursor_x (cursor_x v1 + 1) v1).
  assert (Hx2 : cursor_x v2 = cursor_x v + 1) by (unfold v2, set_cursor_x, w8; cbn -[Z.modulo]; apply Z.mod_small; lia).
  assert (Hy2 : cursor_y v2 = cursor_y v) by reflexivity.
  assert (Hc2 : forall i, cell v2 i = cell v1 i) by reflexivity.
  rewrite on_screen_move_cursor, position_move_cursor. clearbody v2.
  destruct (Z.leb_spec 80 (cursor_x v2)) as [Hw|Hw].
  - destruct (newline_step v2 ltac:(lia)) as (Hp & Hs & Hcell). change (cursor_y (set_cursor_x 0 v2)) with (cursor_y v2).
    set (v3 := scroll _) in *. clearbody v3. split; [done|]. rewrite Hp, Hy2. unfold position at 1.
    case_decide as Hd; case_decide; try lia;
      (split; [unfold position in *; lia|]); intros i Hi;
      rewrite cell_move_cursor, Hcell, ?Hc2, ?Hc1 by lia; unfold position in *; repeat case_decide; try lia; done.
  - split; [unfold on_screen; lia|]. unfold position in *. rewrite decide_True by lia. split; [lia|].
    intros i Hi. by rewrite cell_move_cursor, Hc2, Hc1.
Qed.

Lemma set_cursor_x_id v : 0 <= cursor_x v < 256 -> cursor_x (set_cursor_x (cursor_x v) v) = cursor_x v.
Proof. intros. apply Z.mod_small. lia. Qed.

(** No character but the tab takes the cursor off the screen or writes outside it. *)
Lemma show_char_step back front c v : on_screen v -> c <> 9 -> screen_step v (show_char back front c v).
Proof.
  intros Hs Hc. destruct (Z.leb_spec space c) as [Hp|Hp].
  - pose proof (show_char_printable back front c v Hs Hp) as H. cbv zeta in H.
    destruct H as [Hs' H]. split; [done|]. intros i Hi. destruct Hs as [Hx Hy].
    case_decide as Hd; destruct H as [_ H]; rewrite H by lia; unfold position in *; repeat case_decide; try lia; done.
  - unfold show_char. rewrite (proj2 (Z.eqb_neq c 9)), (proj2 (Z.leb_gt space c)) by lia. destruct Hs as [Hx Hy].
    destruct ((c =? 8) && negb (cursor_x v =? 0)) eqn:E8; [|destruct (Z.eqb_spec c 10)].
    + split; [|intros; by rewrite cell_move_cursor, cell_set_cursor_x]. rewrite on_screen_move_cursor.
      apply andb_prop in E8 as [_ E8]. apply negb_true_iff, Z.eqb_neq in E8.
      unfold on_screen, set_cursor_x, w8. cbn -[Z.modulo]. rewrite Z.mod_small by lia. lia.
    + destruct (newline_step v Hy) as (_ & Hs' & H). change (cursor_y (set_cursor_x 0 v)) with (cursor_y v).
      split; [by rewrite on_screen_move_cursor|]. intros i Hi. rewrite cell_move_cursor, H by lia.
      repeat case_decide; try lia; done.
    + by apply screen_step_refl.
Qed.

(** Strings without a tab; bytes from 128 on are negative as [char]s and print
    nothing. *)
Definition no_tab (s : list Z) : Prop := Forall (fun c => s8 c <> 9) s.

Lemma put_raw_string_step s v : on_screen v -> no_tab s -> screen_step v (put_raw_string s v).
Proof.
  intros Hs Hn. revert v Hs. induction Hn as [|c s Hc Hn IH]; intros v Hs; cbn [put_raw_string]; [by apply screen_step_refl|].
  pose proof (show_char_step black white (s8 c) v Hs Hc) as H1.
  eapply screen_step_trans; [exact H1|]. apply IH, H1.
Qed.

Lemma table_no_tab d : 0 <= d < 16 -> s8 (table d) <> 9.
Proof. intros. unfold s8, table, w8. destruct (Z.ltb_spec d 10); rewrite Z.mod_small by lia; case_match; lia. Qed.

Lemma put_int_digits_no_tab k base : 2 <= base <= 16 -> forall num, no_tab (put_int_digits k num base).
Proof.
  intros Hb. induction k as [|k IH]; intros num; cbn; [constructor|]. case_match; [constructor|].
  constructor; [|apply IH]. apply table_no_tab. pose proof (Z.mod_pos_bound num base). lia.
Qed.

Lemma put_int_step num base v v' : on_screen v -> base = 8 \/ base = 10 \/ base = 16 ->
  put_int num base v = Some v' -> screen_step v v'.
Proof.
  intros Hs Hb. unfold put_int, put_int_buf. set (buf := if num =? 0 then _ else _).
  destruct (Nat.leb_spec (length buf) 10) as [Hl|Hl]; [|done]. cbn [mbind option_bind].
  assert (Hne : buf <> [] \/ length buf = 0%nat) by (destruct buf; auto).
  assert (Hn : no_tab buf).
  { unfold buf. case_match; [constructor; [by apply table_no_tab|constructor]|]. apply put_int_digits_no_tab. lia. }
  assert (Hr : no_tab (put_int_swap (S ((length buf - 1) / 2)) 0 (length buf) buf)).
  { destruct Hne as [Hne|Hne].
    - rewrite put_int_swap_rev by done. unfold no_tab. by apply Forall_rev.
    - destruct buf; [constructor|done]. }
  intros E. apply (inj Some) in E as <-.
  assert (H1 : forall v0 s (b : bool), on_screen v0 -> no_tab s -> screen_step v0 (if b then put_raw_string s v0 else v0)).
  { intros v0 s [] ? ?; [by apply put_raw_string_step|by apply screen_step_refl]. }
  assert (Hpre : no_tab [48; 120] /\ no_tab [48]) by (split; repeat constructor; cbv; lia).
  set (v1 := if base =? 16 then _ else _). assert (S1 : screen_step v v1) by exact (H1 v _ _ Hs (proj1 Hpre)).
  set (v2 := if base =? 8 then _ else _). assert (S2 : screen_step v1 v2) by exact (H1 v1 _ _ (proj1 S1) (proj2 Hpre)).
  eapply screen_step_trans; [exact S1|]. eapply screen_step_trans; [exact S2|]. apply put_raw_string_step; [apply S2|done].
Qed.

Definition va_no_tab (a : va) : Prop :=
  match a with VaInt n => s8 n <> 9 | VaStr s => no_tab s end.

Lemma printf_conv_step c ap v ap' v' : on_screen v -> Forall va_no_tab ap ->
  printf_conv c ap v = Some (ap', v') -> screen_step v v' /\ Forall va_no_tab ap'.
Proof.
  intros Hs Ha. unfold printf_conv.
  destruct (c =? 99); [destruct ap as [|[]]; [done| |done]|destruct (c =? 115); [destruct ap as [|[]]; [done|done|]|]].
  - intros [= <- <-]. inversion Ha; subst. split; [by apply show_char_step|done].
  - intros [= <- <-]. inversion Ha; subst. split; [by apply put_raw_string_step|done].
  - assert (Hi : forall base, base = 8 \/ base = 10 \/ base = 16 ->
      match ap with VaInt n :: ap => v ← put_int (w32 n) base v; Some (ap, v) | _ => None end = Some (ap', v') ->
      screen_step v v' /\ Forall va_no_tab ap').
    { intros base Hb. destruct ap as [|[n|]]; try done. destruct (put_int (w32 n) base v) eqn:E; [|done].
      cbn. intros [= <- <-]. inversion Ha; subst. split; [by eapply put_int_step|done]. }
    destruct (c =? 100); [by apply Hi; auto|]. destruct (c =? 120); [by apply Hi; auto|].
    destruct (c =? 111); [by apply Hi; auto|]. intros [= <- <-]. split; [by apply screen_step_refl|done].
Qed.

(** C38: Whatever is printed stays within the 25 lines of 80 cells, as long as neither
    the format nor the strings hold a tab and no number among the arguments has the code
    of a tab as its low byte. *)
Theorem printf_stays_on_screen fmt ap v v' : on_screen v -> no_tab fmt -> Forall va_no_tab ap ->
  printf fmt ap v = Some v' -> on_screen v' /\ forall i, 25 * 80 <= i -> cell v' i = cell v i.
Proof.
  remember (length fmt) as n eqn:El. revert fmt El ap v.
  induction n as [n IH] using lt_wf_ind. intros [|c fmt] El ap v Hs Hf Ha; cbn [printf].
  { intros [= <-]. by apply screen_step_refl. }
  inversion Hf as [|? ? Hc Hf']; subst. destruct (negb (c =? 37)).
  - intros E. pose proof (show_char_step black white (s8 c) v Hs Hc) as S1.
    apply (screen_step_trans _ _ _ S1). eapply (IH (length fmt)); [cbn; lia|done|apply S1|done|done|exact E].
  - destruct fmt as [|d fmt]; [done|]. inversion Hf' as [|? ? Hd Hf'']; subst.
    destruct (printf_conv d ap v) as [[ap' v1]|] eqn:Ec; [|done]. cbn [mbind option_bind fst snd]. intros E.
    destruct (printf_conv_step _ _ _ _ _ Hs Ha Ec) as [S1 Ha'].
    apply (screen_step_trans _ _ _ S1). eapply (IH (length fmt)); [cbn; lia|done|apply S1|done|done|exact E].
Qed.

(** The character at the cursor is written and the cursor advances; past the last
    cell the screen scrolls. *)
Theorem show_char_prints back front c v : on_screen v -> space <= c ->
  let v' := show_char back front c v in
  on_screen v' /\
  if decide (position v < 25 * 80 - 1) then
    position v' = position v + 1 /\
    forall i, 0 <= i -> cell v' i = if decide (i = position v) then char_mix back front c else cell v i
  else
    position v' = 24 * 80 /\
    forall i, 0 <= i -> cell v' i = if decide (i = 24 * 80 - 1) then char_mix back front c
                         else if decide (i < 24 * 80) then cell v (i + 80)
                         else if decide (i < 25 * 80) then char_mix black white space else cell v i.
Proof. apply show_char_printable. Qed.

(** A tab puts the cursor at column 252 or beyond, whatever its column was. *)
Theorem tab_leaves_screen back front v : 252 <= cursor_x (show_char back front 9 v) <= 255.
Proof.
  unfold show_char, move_cursor, set_cursor_x. cbn -[Z.lor w8]. set (x := cursor_x v + 4).
  assert (H : w8 (Z.lor x 0xFC) = Z.lor (Z.land x 3) 0xFC).
  { unfold w8. rewrite <- Z.land_ones by lia. apply Z.bits_inj'. intros n Hn.
    rewrite Z.land_spec, !Z.lor_spec, Z.land_spec, Z.testbit_ones by lia.
    destruct (decide (n < 8)) as [Hl|Hl].
    - assert (n = 0 \/ n = 1 \/ n = 2 \/ n = 3 \/ n = 4 \/ n = 5 \/ n = 6 \/ n = 7) as Hc by lia.
      destruct (Z.testbit x n); repeat destruct Hc as [->|Hc]; try subst n; reflexivity.
    - rewrite (proj2 (Z.ltb_ge n 8)), !andb_false_r by lia.
      assert (Z.testbit 3 n = false) as -> by (apply Z.bits_above_log2; cbn; lia).
      assert (Z.testbit 0xFC n = false) as -> by (apply Z.bits_above_log2; cbn; lia). by rewrite andb_false_r. }
  rewrite H. assert (Hx : 0 <= Z.land x 3 < 4) by (change 3 with (Z.ones 2); rewrite Z.land_ones by lia; apply Z.mod_pos_bound; lia).
  assert (Z.land x 3 = 0 \/ Z.land x 3 = 1 \/ Z.land x 3 = 2 \/ Z.land x 3 = 3) as Hc by lia.
  repeat destruct Hc as [->|Hc]; try rewrite Hc; vm_compute; split; discriminate.
Qed.
