(* ===== verification/Traps.v ===== *)
(** The descriptor tables and the interrupt plumbing: gdt/gdt.c, idt/idt.c,
    idt/tss.c, idt/pic.c, and the set-up halves of idt/timer.c, idt/keyboard.c
    and mm/pmm.c. *)

From S2P Require Import Prelude Machine Ports Proc.

Local Open Scope Z_scope.

(** * Descriptors *)

(** [struct gdtdesc] of include/gdt.h; every field is cut to its width. *)
Record gdtdesc := mk_gdtdesc {
  limit0_15 : Z ; base0_15 : Z ; base16_23 : Z ; g_gate_sign : Z ; limit16_19 : Z ; other_sign : Z ; base24_31 : Z
}.

(** [struct idtdesc] of include/idt.h *)
Record idtdesc := mk_idtdesc {
  offset0_15 : Z ; selector : Z ; no_use : Z ; i_gate_sign : Z ; dpl : Z ; i_p : Z ; offset16_32 : Z
}.

Definition IGD : Z := 0x1.
Definition TGD : Z := 0x2.

(** The eight bytes of a descriptor as the little-endian number the processor reads. *)
Definition gdt_word (d : gdtdesc) : Z :=
  limit0_15 d + 2 ^ 16 * base0_15 d + 2 ^ 32 * base16_23 d + 2 ^ 40 * g_gate_sign d + 2 ^ 48 * limit16_19 d +
  2 ^ 52 * other_sign d + 2 ^ 56 * base24_31 d.
Definition idt_word (d : idtdesc) : Z :=
  offset0_15 d + 2 ^ 16 * selector d + 2 ^ 32 * no_use d + 2 ^ 40 * i_gate_sign d + 2 ^ 45 * dpl d + 2 ^ 47 * i_p d +
  2 ^ 48 * offset16_32 d.

Definition null_gdtdesc : gdtdesc := mk_gdtdesc 0 0 0 0 0 0 0.
Definition null_idtdesc : idtdesc := mk_idtdesc 0 0 0 0 0 0 0.

(** * The state of the tables *)

(** The handlers the kernel installs; an array slot not set yet is [H_null]. *)
Inductive handler :=
  | H_null | H_isr_handler | H_page_fault | H_timer_handler | H_kbd_handler
  | H_switch_to_user_handler | H_switch_to_kern_handler | H_system_intr.

#[export] Instance handler_eq_dec : EqDecision handler.
Proof. solve_decision. Defined.

(** [gdt], [idt], [handlers], the fields of [tss0] that are set, the table
    registers as (limit, base), the task register, and the segment registers
    [gdt_init] reloads (cs, ds, es, ss, fs, gs). *)
Record cpu := mk_cpu {
  gdt : list gdtdesc ; idt : list idtdesc ; handlers : list handler ;
  tss_ss0 : Z ; tss_esp0 : Z ; tss_back_link : Z ;
  c_gdtr : Z * Z ; c_idtr : Z * Z ; c_tr : Z ; c_segs : list Z
}.

Definition set_gdt v c := mk_cpu v (idt c) (handlers c) (tss_ss0 c) (tss_esp0 c) (tss_back_link c) (c_gdtr c) (c_idtr c) (c_tr c) (c_segs c).
Definition set_idt v c := mk_cpu (gdt c) v (handlers c) (tss_ss0 c) (tss_esp0 c) (tss_back_link c) (c_gdtr c) (c_idtr c) (c_tr c) (c_segs c).
Definition set_handlers v c := mk_cpu (gdt c) (idt c) v (tss_ss0 c) (tss_esp0 c) (tss_back_link c) (c_gdtr c) (c_idtr c) (c_tr c) (c_segs c).
Definition set_tss ss0 esp0 link c := mk_cpu (gdt c) (idt c) (handlers c) ss0 esp0 link (c_gdtr c) (c_idtr c) (c_tr c) (c_segs c).
Definition lgdt v c := mk_cpu (gdt c) (idt c) (handlers c) (tss_ss0 c) (tss_esp0 c) (tss_back_link c) v (c_idtr c) (c_tr c) (c_segs c).
Definition lidt v c := mk_cpu (gdt c) (idt c) (handlers c) (tss_ss0 c) (tss_esp0 c) (tss_back_link c) (c_gdtr c) v (c_tr c) (c_segs c).
Definition ltr v c := mk_cpu (gdt c) (idt c) (handlers c) (tss_ss0 c) (tss_esp0 c) (tss_back_link c) (c_gdtr c) (c_idtr c) (w16 v) (c_segs c).
Definition set_segs v c := mk_cpu (gdt c) (idt c) (handlers c) (tss_ss0 c) (tss_esp0 c) (tss_back_link c) (c_gdtr c) (c_idtr c) (c_tr c) v.

(** Static storage: the tables start zeroed. *)
Definition cpu_reset : cpu :=
  mk_cpu (replicate 6 null_gdtdesc) (replicate 256 null_idtdesc) (replicate 256 H_null) 0 0 0 (0, 0) (0, 0) 0 [].

(** * Operations *)

Definition set_seg_gate_desc (seg_num base limit gate_sign other : Z) (c : cpu) : cpu :=
  set_gdt (<[Z.to_nat seg_num :=
    mk_gdtdesc (w16 limit) (w16 base) (w8 (Z.shiftr base 16)) (w8 gate_sign)
      (Z.land (Z.shiftr limit 16) 0xF) (Z.land other 0xF) (w8 (Z.shiftr base 24))]> (gdt c)) c.

Definition set_intr_gate_desc (interrupt offset sel gate_sign d p : Z) (c : cpu) : cpu :=
  set_idt (alter (fun old => mk_idtdesc (w16 offset) (w16 sel) 0
      (if gate_sign =? IGD then 0xE else if gate_sign =? TGD then 0xF else i_gate_sign old)
      (Z.land d 0x3) (Z.land p 0x1) (w16 (Z.shiftr offset 16)))
    (Z.to_nat interrupt) (idt c)) c.

Definition set_handler (intr_No : Z) (h : handler) (c : cpu) : cpu :=
  set_handlers (<[Z.to_nat intr_No := h]> (handlers c)) c.

(** The handler [trap] calls; [None]: past the array. *)
Definition trap (intr_No : Z) (c : cpu) : option handler := handlers c !! Z.to_nat intr_No.

Section Init.
(** Addresses of the tables, of [tss0], of the kernel stack's end, and of the
    entry stubs of idt/intr.S. *)
Variables (gdt_addr idt_addr tss0_addr kern_stack_end : Z) (_intrs : Z -> Z).

Definition sizeof_gdt : Z := 6 * 8.
Definition sizeof_idt : Z := 256 * 8.

Definition gdt_init (c : cpu) : cpu :=
  let c := set_seg_gate_desc 0 0 0 0 0 c in
  let c := set_seg_gate_desc 1 0x00000000 0xFFFFFFFF 0x9A 0x0C c in
  let c := set_seg_gate_desc 2 0x00000000 0xFFFFFFFF 0x92 0x0C c in
  let c := set_seg_gate_desc 3 0x00000000 0xFFFFFFFF 0xFA 0x0C c in
  let c := set_seg_gate_desc 4 0x00000000 0xFFFFFFFF 0xF2 0x0C c in
  let c := lgdt (sizeof_gdt - 1, gdt_addr) c in
  set_segs [0x08; 0x10; 0x10; 0x10; 0x23; 0x23] c.

(** [for(int i = 0; i < 256; i ++)], [k] rounds left. *)
Fixpoint idt_init_handlers (k : nat) (i : Z) (c : cpu) : cpu :=
  match k with
  | O => c
  | S k => idt_init_handlers k (i + 1) (set_handler i H_isr_handler c)
  end.

Fixpoint idt_init_gates (k : nat) (i : Z) (c : cpu) : cpu :=
  match k with
  | O => c
  | S k => idt_init_gates k (i + 1) (set_intr_gate_desc i (_intrs i) 0x08 IGD 0x00 1 c)
  end.

Definition idt_init (c : cpu) : cpu :=
  let c := idt_init_handlers 256 0 c in
  let c := idt_init_gates 256 0 c in
  lidt (sizeof_idt - 1, idt_addr) c.

(** The sizes of the fields of [struct tss] of include/tss.h, in order; the two
    bit fields [debug_trap_bit] and [bzero10] share one byte. *)
Definition tss_sizes : list Z :=
  [2; 2; 4; 2; 2; 4; 2; 2; 4; 2; 2; 4; 4; 4; 4; 4; 4; 4; 4; 4; 4; 4; 2; 2; 2; 2; 2; 2; 2; 2; 2; 2; 2; 2; 2; 2; 1; 2].
Definition sizeof_tss : Z := foldr Z.add 0 tss_sizes.
Definition tss_io_map_base : Z := sizeof_tss - 2.

Definition tss_init (c : cpu) : cpu :=
  let c := set_tss 0x10 kern_stack_end 0 c in
  let c := set_seg_gate_desc 5 tss0_addr sizeof_tss 0x89 0x04 c in
  let c := ltr (5 * 8) c in
  let c := set_intr_gate_desc 121 (_intrs 121) 0x08 IGD 0x03 1 c in
  let c := set_handler 120 H_switch_to_user_handler c in
  let c := set_handler 121 H_switch_to_kern_handler c in
  let c := set_intr_gate_desc 0x80 (_intrs 0x80) 0x08 IGD 0x03 1 c in
  set_handler 0x80 H_system_intr c.

(** The first statement of [pmm_init], and the registrations of
    [timer_intr_init] and [kbd_init]. *)
Definition pmm_init_handler (c : cpu) : cpu := set_handler 14 H_page_fault c.
Definition timer_register (c : cpu) : cpu := set_handler 32 H_timer_handler c.
Definition kbd_init (c : cpu) : cpu := set_handler 33 H_kbd_handler c.

(** The calls of [init] of entry/entry.c that touch the tables, in its order. *)
Definition init_tables (c : cpu) : cpu :=
  kbd_init (timer_register (tss_init (pmm_init_handler (idt_init (gdt_init c))))).

End Init.

(** ** The interrupt controller and the timer *)

Definition pic_init : K unit :=
  outb 0x21 0xFF;; outb 0xA1 0xFF;;
  outb 0x20 0x11;; outb 0x21 32;; outb 0x21 0x04;; outb 0x21 0x03;;
  outb 0xA0 0x11;; outb 0xA1 (32 + 8);; outb 0xA1 2;; outb 0xA1 0x03;;
  outb 0x21 0x00;; outb 0xA1 0x00;;
  sti.

Definition timer_divisor : Z := 1193182 / 26.

Definition timer_ports : K unit :=
  outb 0x43 0x34;;
  outb 0x40 (Z.land timer_divisor 0xFF);;
  outb 0x40 (Z.land (Z.shiftr timer_divisor 8) 0xFF).

(** ** Handlers that rewrite the interrupt frame *)

(** The bits of [old] that [bits] clears. *)
Definition clear_bits (old bits : Z) : Z := Z.land old (Z.lnot bits).

Definition switch_to_user_handler (frame : Z) : K unit :=
  store (frame_cs frame) (Z.lor 0x18 0x03);;
  store (frame_ss frame) (Z.lor 0x20 0x03);;
  store (frame_my_eax frame) (Z.lor 0x20 0x03);;
  flags ← load (frame_eflags frame);
  store (frame_eflags frame) (Z.lor flags 0x3000);;
  store (frame_esp frame) (frame_esp frame).

(** The result is [jmp_to_old_esp]; [arg_slot] is the address of the parameter [frame]. *)
Definition switch_to_kern_handler (arg_slot frame : Z) : K Z :=
  printf "frame: %x\n" [arg_slot];;
  esp ← load (frame_esp frame);
  printf "frame->esp: %x\n" [esp];;
  store (frame_cs frame) (Z.lor 0x08 0x00);;
  store (frame_my_eax frame) (Z.lor 0x10 0x00);;
  flags ← load (frame_eflags frame);
  store (frame_eflags frame) (clear_bits flags 0x3000);;
  load (frame_esp frame).

(** [isr_handler]; [intr_No] is the frame's field. *)
Definition frame_edi (f : Z) : Z := f + 4.
Definition frame_esi (f : Z) : Z := f + 8.
Definition frame_no_use_esp (f : Z) : Z := f + 16.
Definition frame_intr_No (f : Z) : Z := f + 36.
Definition frame_errorCode (f : Z) : Z := f + 40.

Definition isr_handler (frame : Z) : K unit :=
  n ← load (frame_intr_No frame);
  when (negb (n =? 32)) (n ← load (frame_intr_No frame); printf "interrupt %d has been triggered!\n" [n]).

Definition print_field (name : string) (a : Z) : K unit :=
  v ← load a; printf ("frame->" ++ name ++ ": %x\n") [v].

Definition print_idtframe (frame : Z) : K unit :=
  printf "***************************\n" [];;
  print_field "my_eax" (frame_my_eax frame);;
  print_field "edi" (frame_edi frame);;
  print_field "esi" (frame_esi frame);;
  print_field "oesp" (frame_no_use_esp frame);;
  print_field "ebx" (frame_ebx frame);;
  print_field "edx" (frame_edx frame);;
  print_field "ecx" (frame_ecx frame);;
  print_field "eax" (frame_eax frame);;
  print_field "intr_No" (frame_intr_No frame);;
  print_field "errorCode" (frame_errorCode frame);;
  print_field "eip" (frame_eip frame);;
  print_field "cs" (frame_cs frame);;
  print_field "eflags" (frame_eflags frame);;
  print_field "esp" (frame_esp frame);;
  print_field "ss" (frame_ss frame);;
  printf "***************************\n" [].

(** * What the processor reads

    The fields of a descriptor where the processor looks for them. *)
Definition seg_base (w : Z) : Z := bf_get 16 24 w + 2 ^ 24 * bf_get 56 8 w.
Definition seg_limit (w : Z) : Z := bf_get 0 16 w + 2 ^ 16 * bf_get 48 4 w.
Definition seg_access (w : Z) : Z := bf_get 40 8 w.
Definition seg_flags (w : Z) : Z := bf_get 52 4 w.

(** The last byte of the segment: with flag G the limit counts pages. *)
Definition seg_last (w : Z) : Z :=
  if Z.testbit (seg_flags w) 3 then seg_limit w * 4096 + 4095 else seg_limit w.

Definition gate_offset (w : Z) : Z := bf_get 0 16 w + 2 ^ 16 * bf_get 48 16 w.
Definition gate_selector (w : Z) : Z := bf_get 16 16 w.
Definition gate_type (w : Z) : Z := bf_get 40 5 w.
Definition gate_dpl (w : Z) : Z := bf_get 45 2 w.
Definition gate_present (w : Z) : Z := bf_get 47 1 w.

(** A field below [x], a field of [n] bits, and a field above. *)
Lemma bf_get_at off len lo v hi : 0 <= off -> 0 <= len -> 0 <= lo < 2 ^ off -> 0 <= v < 2 ^ len ->
  bf_get off len (lo + 2 ^ off * (v + 2 ^ len * hi)) = v.
Proof.
  intros Ho Hl Hlo Hv. rewrite bf_get_div by lia.
  rewrite (Z.mul_comm (2 ^ off)), Z.div_add, Z.div_small, Z.add_0_l by lia.
  by rewrite (Z.mul_comm (2 ^ len)), Z.mod_add, Z.mod_small by lia.
Qed.

(** Split a word at the field [off, off + len). *)
Ltac field lo v hi :=
  match goal with |- bf_get ?off ?len ?w = ?r =>
    replace w with (lo + 2 ^ off * (v + 2 ^ len * hi)) by lia; apply bf_get_at; lia
  end.

Lemma land_low z n : 0 <= n -> 0 <= Z.land z (Z.ones n) < 2 ^ n.
Proof. intros. rewrite Z.land_ones by lia. apply Z.mod_pos_bound. lia. Qed.

Lemma w8_range z : 0 <= w8 z < 2 ^ 8.
Proof. apply Z.mod_pos_bound. lia. Qed.

Lemma w16_range z : 0 <= w16 z < 2 ^ 16.
Proof. apply Z.mod_pos_bound. lia. Qed.

Lemma split_base base : 0 <= base < 2 ^ 32 ->
  w16 base + 2 ^ 16 * w8 (Z.shiftr base 16) + 2 ^ 24 * w8 (Z.shiftr base 24) = base.
Proof. intros. unfold w16, w8. rewrite !Z.shiftr_div_pow2 by lia. lia_div. Qed.

Lemma split_offset off : 0 <= off < 2 ^ 32 -> w16 off + 2 ^ 16 * w16 (Z.shiftr off 16) = off.
Proof. intros. unfold w16. rewrite !Z.shiftr_div_pow2 by lia. lia_div. Qed.

Lemma split_limit limit : w16 limit + 2 ^ 16 * Z.land (Z.shiftr limit 16) 0xF = limit mod 2 ^ 20.
Proof.
  unfold w16. change 0xF with (Z.ones 4). rewrite Z.land_ones, Z.shiftr_div_pow2 by lia. lia_div.
Qed.

(** The fields of a word assembled from parts in range. *)
Lemma gdt_word_fields d :
  0 <= limit0_15 d < 2 ^ 16 -> 0 <= base0_15 d < 2 ^ 16 -> 0 <= base16_23 d < 2 ^ 8 -> 0 <= g_gate_sign d < 2 ^ 8 ->
  0 <= limit16_19 d < 2 ^ 4 -> 0 <= other_sign d < 2 ^ 4 -> 0 <= base24_31 d < 2 ^ 8 ->
  seg_base (gdt_word d) = base0_15 d + 2 ^ 16 * base16_23 d + 2 ^ 24 * base24_31 d /\
  seg_limit (gdt_word d) = limit0_15 d + 2 ^ 16 * limit16_19 d /\
  seg_access (gdt_word d) = g_gate_sign d /\ seg_flags (gdt_word d) = other_sign d.
Proof.
  destruct d as [l0 b0 b16 g l16 o b24]. unfold seg_base, seg_limit, seg_access, seg_flags, gdt_word.
  cbn [limit0_15 base0_15 base16_23 g_gate_sign limit16_19 other_sign base24_31]. intros.
  assert (E1 : forall w, w = l0 + 2 ^ 16 * b0 + 2 ^ 32 * b16 + 2 ^ 40 * g + 2 ^ 48 * l16 + 2 ^ 52 * o + 2 ^ 56 * b24 ->
    bf_get 16 24 w = b0 + 2 ^ 16 * b16 /\ bf_get 56 8 w = b24 /\ bf_get 0 16 w = l0 /\ bf_get 48 4 w = l16 /\
    bf_get 40 8 w = g /\ bf_get 52 4 w = o).
  { intros w ->. split_and!.
    - field l0 (b0 + 2 ^ 16 * b16) (g + 2 ^ 8 * l16 + 2 ^ 12 * o + 2 ^ 16 * b24).
    - field (l0 + 2 ^ 16 * b0 + 2 ^ 32 * b16 + 2 ^ 40 * g + 2 ^ 48 * l16 + 2 ^ 52 * o) b24 0.
    - field 0 l0 (b0 + 2 ^ 16 * b16 + 2 ^ 24 * g + 2 ^ 32 * l16 + 2 ^ 36 * o + 2 ^ 40 * b24).
    - field (l0 + 2 ^ 16 * b0 + 2 ^ 32 * b16 + 2 ^ 40 * g) l16 (o + 2 ^ 4 * b24).
    - field (l0 + 2 ^ 16 * b0 + 2 ^ 32 * b16) g (l16 + 2 ^ 4 * o + 2 ^ 8 * b24).
    - field (l0 + 2 ^ 16 * b0 + 2 ^ 32 * b16 + 2 ^ 40 * g + 2 ^ 48 * l16) o b24. }
  destruct (E1 _ eq_refl) as (-> & -> & -> & -> & -> & ->). split_and!; lia.
Qed.

Lemma idt_word_fields d :
  0 <= offset0_15 d < 2 ^ 16 -> 0 <= selector d < 2 ^ 16 -> 0 <= no_use d < 2 ^ 8 -> 0 <= i_gate_sign d < 2 ^ 5 ->
  0 <= dpl d < 2 ^ 2 -> 0 <= i_p d < 2 ^ 1 -> 0 <= offset16_32 d < 2 ^ 16 ->
  gate_offset (idt_word d) = offset0_15 d + 2 ^ 16 * offset16_32 d /\ gate_selector (idt_word d) = selector d /\
  gate_type (idt_word d) = i_gate_sign d /\ gate_dpl (idt_word d) = dpl d /\ gate_present (idt_word d) = i_p d.
Proof.
  destruct d as [o0 s n g l p o16]. unfold gate_offset, gate_selector, gate_type, gate_dpl, gate_present, idt_word.
  cbn [offset0_15 selector no_use i_gate_sign dpl i_p offset16_32]. intros.
  assert (E1 : forall w, w = o0 + 2 ^ 16 * s + 2 ^ 32 * n + 2 ^ 40 * g + 2 ^ 45 * l + 2 ^ 47 * p + 2 ^ 48 * o16 ->
    bf_get 0 16 w = o0 /\ bf_get 48 16 w = o16 /\ bf_get 16 16 w = s /\ bf_get 40 5 w = g /\ bf_get 45 2 w = l /\
    bf_get 47 1 w = p).
  { intros w ->. split_and!.
    - field 0 o0 (s + 2 ^ 16 * n + 2 ^ 24 * g + 2 ^ 29 * l + 2 ^ 31 * p + 2 ^ 32 * o16).
    - field (o0 + 2 ^ 16 * s + 2 ^ 32 * n + 2 ^ 40 * g + 2 ^ 45 * l + 2 ^ 47 * p) o16 0.
    - field o0 s (n + 2 ^ 8 * g + 2 ^ 13 * l + 2 ^ 15 * p + 2 ^ 16 * o16).
    - field (o0 + 2 ^ 16 * s + 2 ^ 32 * n) g (l + 2 ^ 2 * p + 2 ^ 3 * o16).
    - field (o0 + 2 ^ 16 * s + 2 ^ 32 * n + 2 ^ 40 * g) l (p + 2 * o16).
    - field (o0 + 2 ^ 16 * s + 2 ^ 32 * n + 2 ^ 40 * g + 2 ^ 45 * l) p o16. }
  destruct (E1 _ eq_refl) as (-> & -> & -> & -> & -> & ->). split_and!; lia.
Qed.

Lemma lookup_set_seg n base limit g o c : (Z.to_nat n < length (gdt c))%nat ->
  gdt (set_seg_gate_desc n base limit g o c) !! Z.to_nat n =
    Some (mk_gdtdesc (w16 limit) (w16 base) (w8 (Z.shiftr base 16)) (w8 g) (Z.land (Z.shiftr limit 16) 0xF)
      (Z.land o 0xF) (w8 (Z.shiftr base 24))).
Proof. intros. cbn [gdt set_gdt set_seg_gate_desc]. by rewrite list_lookup_insert_eq. Qed.

(** [set_seg_gate_desc]: the processor reads back the base, the access byte and the
    flags, and the low 20 bits of the limit; other entries are kept. *)
Theorem segment_roundtrip n base limit g o c :
  (Z.to_nat n < length (gdt c))%nat -> 0 <= base < 2 ^ 32 -> 0 <= g < 2 ^ 8 -> 0 <= o < 2 ^ 4 ->
  exists d, gdt (set_seg_gate_desc n base limit g o c) !! Z.to_nat n = Some d /\
    seg_base (gdt_word d) = base /\ seg_limit (gdt_word d) = limit mod 2 ^ 20 /\
    seg_access (gdt_word d) = g /\ seg_flags (gdt_word d) = o /\
    forall k, k <> Z.to_nat n -> gdt (set_seg_gate_desc n base limit g o c) !! k = gdt c !! k.
Proof.
  intros Hn Hb Hg Ho. eexists. split; [by apply lookup_set_seg|].
  match goal with |- context [gdt_word ?d] => destruct (gdt_word_fields d) as (-> & -> & -> & ->) end;
    cbn [limit0_15 base0_15 base16_23 g_gate_sign limit16_19 other_sign base24_31];
    try apply w16_range; try apply w8_range; try (apply (land_low _ 4); lia).
  rewrite split_base, split_limit by done. split_and!; try done.
  - apply Z.mod_small. lia.
  - change 0xF with (Z.ones 4). by apply land_ones_small.
  - intros k Hk. cbn [gdt set_gdt set_seg_gate_desc]. by rewrite list_lookup_insert_ne.
Qed.

(** [set_intr_gate_desc] with either kind of gate: the processor reads back the
    stub's address, the selector, the kind, the privilege and the present bit. *)
Theorem gate_roundtrip n offset sel kind d p c :
  (Z.to_nat n < length (idt c))%nat -> 0 <= offset < 2 ^ 32 -> 0 <= sel < 2 ^ 16 -> 0 <= d < 4 -> 0 <= p < 2 ->
  kind = IGD \/ kind = TGD ->
  exists g, idt (set_intr_gate_desc n offset sel kind d p c) !! Z.to_nat n = Some g /\
    gate_offset (idt_word g) = offset /\ gate_selector (idt_word g) = sel /\
    gate_type (idt_word g) = (if kind =? IGD then 0xE else 0xF) /\
    gate_dpl (idt_word g) = d /\ gate_present (idt_word g) = p.
Proof.
  intros Hn Ho Hs Hd Hp Hk. destruct (lookup_lt_is_Some_2 _ _ Hn) as [old Hold].
  eexists. split; [cbn [idt set_idt set_intr_gate_desc]; rewrite list_lookup_alter, decide_True, Hold by done; done|].
  assert (Ek : (if kind =? IGD then 0xE else if kind =? TGD then 0xF else i_gate_sign old) =
    if kind =? IGD then 0xE else 0xF) by (by destruct Hk as [->| ->]).
  match goal with |- context [idt_word ?g] => destruct (idt_word_fields g) as (-> & -> & -> & -> & ->) end;
    cbn [offset0_15 selector no_use i_gate_sign dpl i_p offset16_32];
    rewrite ?Ek; try apply w16_range; try (apply (land_low _ 2); lia); try (apply (land_low _ 1); lia); try lia.
  { destruct Hk as [->| ->]; cbn; lia. }
  rewrite split_offset by done. split_and!; try done.
  - apply Z.mod_small. lia.
  - change 0x3 with (Z.ones 2). by apply land_ones_small.
  - change 0x1 with (Z.ones 1). by apply land_ones_small.
Qed.

(** * The tables after [init] *)

(** The kernel and user segments of [gdt_init] are flat: they start at 0 and
    reach the last byte of the address space; code and data, ring 0 and ring 3. *)
Theorem gdt_flat gdt_addr c : length (gdt c) = 6%nat ->
  forall n a, (n, a) ∈ [(1%nat, 0x9A); (2%nat, 0x92); (3%nat, 0xFA); (4%nat, 0xF2)] ->
  exists d, gdt (gdt_init gdt_addr c) !! n = Some d /\ seg_base (gdt_word d) = 0 /\
    seg_last (gdt_word d) = 2 ^ 32 - 1 /\ seg_access (gdt_word d) = a.
Proof.
  intros Hl n a Hin. destruct c as [g ? ? ? ? ? ? ? ? ?]. cbn in Hl. do 6 (destruct g as [|? g]; [done|]).
  rewrite !elem_of_cons, elem_of_nil in Hin.
  repeat destruct Hin as [[= -> ->]|Hin]; try done; (eexists; split; [reflexivity|by vm_compute]).
Qed.

Lemma idt_init_handlers_spec k : forall i c, 0 <= i ->
  let c' := idt_init_handlers k i c in
  idt c' = idt c /\ length (handlers c') = length (handlers c) /\
  forall j, (j < length (handlers c))%nat -> handlers c' !! j =
    if decide (i <= Z.of_nat j < i + Z.of_nat k) then Some H_isr_handler else handlers c !! j.
Proof.
  induction k as [|k IH]; intros i c Hi; cbn [idt_init_handlers].
  { split; [done|split; [done|]]. intros j _. by dec_lia. }
  destruct (IH (i + 1) (set_handler i H_isr_handler c) ltac:(lia)) as (H1 & H2 & H3).
  cbn [handlers set_handlers set_handler idt] in *. rewrite length_insert in *. split; [done|split; [done|]].
  intros j Hj. rewrite H3 by done. destruct (decide (Z.of_nat j = i)) as [E|E].
  - rewrite decide_False, decide_True by lia. rewrite <- E, Nat2Z.id. by apply list_lookup_insert_eq.
  - rewrite list_lookup_insert_ne by lia. repeat case_decide; try lia; done.
Qed.

Definition kernel_gate (offset d : Z) : idtdesc := mk_idtdesc (w16 offset) 0x08 0 0xE d 1 (w16 (Z.shiftr offset 16)).

Lemma set_kernel_gate n offset d c j : 0 <= d < 4 -> 0 <= n -> (j < length (idt c))%nat ->
  idt (set_intr_gate_desc n offset 0x08 IGD d 1 c) !! j =
    if decide (Z.of_nat j = n) then Some (kernel_gate offset d) else idt c !! j.
Proof.
  intros Hd Hn Hj. cbn [idt set_idt set_intr_gate_desc]. rewrite list_lookup_alter.
  destruct (lookup_lt_is_Some_2 _ _ Hj) as [old Hold]. repeat case_decide; try lia; [|done].
  subst j. rewrite Hold. unfold kernel_gate. cbn [fmap option_fmap option_map]. do 2 f_equal.
  - change 0x3 with (Z.ones 2). by apply land_ones_small.
Qed.

Lemma length_set_intr_gate n offset sel kind d p c :
  length (idt (set_intr_gate_desc n offset sel kind d p c)) = length (idt c).
Proof. apply length_alter. Qed.

Lemma idt_init_gates_spec intrs k : forall i c, 0 <= i ->
  let c' := idt_init_gates intrs k i c in
  handlers c' = handlers c /\ length (idt c') = length (idt c) /\
  forall j, (j < length (idt c))%nat -> idt c' !! j =
    if decide (i <= Z.of_nat j < i + Z.of_nat k) then Some (kernel_gate (intrs (Z.of_nat j)) 0) else idt c !! j.
Proof.
  induction k as [|k IH]; intros i c Hi; cbn [idt_init_gates].
  { split; [done|split; [done|]]. intros j _. by dec_lia. }
  destruct (IH (i + 1) (set_intr_gate_desc i (intrs i) 0x08 IGD 0 1 c) ltac:(lia)) as (H1 & H2 & H3).
  rewrite length_set_intr_gate in *. split; [done|split; [done|]].
  intros j Hj. rewrite H3, set_kernel_gate by (done || lia). destruct (decide (Z.of_nat j = i)) as [E|E].
  - rewrite decide_False, decide_True by lia. by rewrite E.
  - repeat case_decide; try lia; done.
Qed.

Lemma insert_case {A} (l : list A) n x i : (i < length l)%nat ->
  <[n := x]> l !! i = if decide (i = n) then Some x else l !! i.
Proof. intros Hi. case_decide as E; [subst; by apply list_lookup_insert_eq|by apply list_lookup_insert_ne]. Qed.

(** The handler and the privilege [init] leaves at each vector. *)
Definition vector_handler (i : nat) : handler :=
  if decide (i = 14)%nat then H_page_fault else if decide (i = 32)%nat then H_timer_handler
  else if decide (i = 33)%nat then H_kbd_handler else if decide (i = 120)%nat then H_switch_to_user_handler
  else if decide (i = 121)%nat then H_switch_to_kern_handler else if decide (i = 128)%nat then H_system_intr
  else H_isr_handler.
Definition vector_dpl (i : nat) : Z := if decide (i = 121 \/ i = 128)%nat then 3 else 0.

Lemma kernel_gate_fields offset d : 0 <= offset < 2 ^ 32 -> 0 <= d < 4 ->
  gate_offset (idt_word (kernel_gate offset d)) = offset /\ gate_selector (idt_word (kernel_gate offset d)) = 0x08 /\
  gate_type (idt_word (kernel_gate offset d)) = 0xE /\ gate_dpl (idt_word (kernel_gate offset d)) = d /\
  gate_present (idt_word (kernel_gate offset d)) = 1.
Proof.
  intros Ho Hd. destruct (idt_word_fields (kernel_gate offset d)) as (-> & -> & -> & -> & ->);
    cbn [kernel_gate offset0_15 selector no_use i_gate_sign dpl i_p offset16_32]; try apply w16_range; try lia.
  by rewrite split_offset.
Qed.

(** C34: After [init] every vector has a present interrupt gate into the kernel code
    segment at its own stub; user code can raise 121 and 0x80 only; and the handlers are
    those the components registered, [isr_handler] elsewhere. *)
Theorem init_vectors gdt_addr idt_addr tss0_addr stack_end intrs c i :
  length (handlers c) = 256%nat -> length (idt c) = 256%nat -> (i < 256)%nat -> 0 <= intrs (Z.of_nat i) < 2 ^ 32 ->
  let c' := init_tables gdt_addr idt_addr tss0_addr stack_end intrs c in
  trap (Z.of_nat i) c' = Some (vector_handler i) /\
  exists g, idt c' !! i = Some g /\ gate_offset (idt_word g) = intrs (Z.of_nat i) /\ gate_selector (idt_word g) = 0x08 /\
    gate_type (idt_word g) = 0xE /\ gate_dpl (idt_word g) = vector_dpl i /\ gate_present (idt_word g) = 1.
Proof.
  intros Hh Hi Hl Hint c'.
  assert (exists c2, idt_init_gates intrs 256 0 (idt_init_handlers 256 0 (gdt_init gdt_addr c)) = c2) as [c2 E2] by eauto.
  destruct (idt_init_handlers_spec 256 0 (gdt_init gdt_addr c) ltac:(lia)) as (A1 & A2 & A3).
  destruct (idt_init_gates_spec intrs 256 0 (idt_init_handlers 256 0 (gdt_init gdt_addr c)) ltac:(lia)) as (B1 & B2 & B3).
  rewrite E2 in B1, B2, B3. rewrite A1 in B2, B3. rewrite <- B1 in A2, A3.
  change (length (handlers (gdt_init gdt_addr c))) with (length (handlers c)) in *.
  change (idt (gdt_init gdt_addr c)) with (idt c) in *. clear A1 B1.
  unfold c', init_tables, idt_init. cbv zeta. rewrite E2. clear E2 c'. split.
  - unfold trap. rewrite Nat2Z.id. cbn [handlers set_handlers set_handler kbd_init timer_register tss_init pmm_init_handler
      set_intr_gate_desc set_idt ltr set_seg_gate_desc set_gdt set_tss lidt].
    rewrite !insert_case by (rewrite ?length_insert; lia). rewrite A3 by lia.
    rewrite (decide_True (P := 0 <= Z.of_nat i < 0 + Z.of_nat 256)) by lia. unfold vector_handler. change (Z.to_nat 33) with 33%nat. repeat case_decide; try lia; done.
  - exists (kernel_gate (intrs (Z.of_nat i)) (vector_dpl i)).
    split; [|apply kernel_gate_fields; [done|]; unfold vector_dpl; case_decide; lia].
    change (idt (set_intr_gate_desc 128 (intrs 128) 8 IGD 3 1 (set_intr_gate_desc 121 (intrs 121) 8 IGD 3 1 c2)) !! i =
      Some (kernel_gate (intrs (Z.of_nat i)) (vector_dpl i))).
    rewrite !set_kernel_gate by (rewrite ?length_set_intr_gate; lia). rewrite B3 by lia.
    rewrite (decide_True (P := 0 <= Z.of_nat i < 0 + Z.of_nat 256)) by lia. unfold vector_dpl.
    repeat case_decide; try lia; congruence.
Qed.

(** * Switching rings through the frame *)

Lemma frame_wd f i j : span f sizeof_idtframe -> 0 <= i <= 60 -> 0 <= j <= 60 -> i + 4 <= j \/ j + 4 <= i ->
  wd (f + i) (f + j).
Proof.
  unfold sizeof_idtframe. intros Hs Hi Hj Hd. unfold wd. rewrite !(ka_span f 64) by (done || lia). lia.
Qed.

Lemma frame_base_wd f j : span f sizeof_idtframe -> 4 <= j <= 60 -> wd f (f + j) /\ wd (f + j) f.
Proof. intros Hs Hj. pose proof (frame_wd f 0 j Hs ltac:(lia) ltac:(lia) ltac:(lia)) as H. rewrite Z.add_0_r in H. auto. Qed.

(** A word apart from the frame. *)
Definition off_intr_frame (f a : Z) : Prop := forall i, 0 <= i <= 60 -> wd (f + i) a.

(** Reads of a frame just written: its own words are apart, others are off it. *)
Ltac frame_reads Hs := repeat first
  [ rewrite rd32_wr32_eq | rewrite rd32_wr32_ne by (apply (frame_base_wd _ _ Hs); lia)
  | rewrite rd32_wr32_ne by (apply (frame_wd _ _ _ Hs); lia) ].

Lemma clear_bits_w32 w v : w32 (clear_bits (w32 w) v) = clear_bits (w32 w) v.
Proof.
  unfold clear_bits, w32. rewrite <- !Z.land_ones by lia. rewrite <- !Z.land_assoc.
  f_equal. by rewrite (Z.land_comm (Z.lnot v)), Z.land_assoc, Z.land_diag.
Qed.

(** The frame an interrupt pushes, on the way to user mode. *)
Lemma switch_to_user_run f s : span f sizeof_idtframe ->
  exists m, switch_to_user_handler f s = Ok tt (set_mem m s) /\
    rd32 m (frame_cs f) = 0x1B /\ rd32 m (frame_ss f) = 0x23 /\ rd32 m (frame_my_eax f) = 0x23 /\
    rd32 m (frame_eflags f) = Z.lor (rd32 (k_mem s) (frame_eflags f)) 0x3000 /\ rd32 m (frame_esp f) = frame_esp f /\
    (forall i, 4 <= i <= 44 -> rd32 m (f + i) = rd32 (k_mem s) (f + i)) /\
    forall a, off_intr_frame f a -> rd32 m a = rd32 (k_mem s) a.
Proof.
  intros Hs. unfold switch_to_user_handler, frame_cs, frame_ss, frame_my_eax, frame_eflags, frame_esp.
  pose proof (rd32_range (k_mem s) (f + 52)) as Hfl.
  assert (Hesp : 0 <= f + 56 < 2 ^ 32) by (unfold span, sizeof_idtframe, VERTUAL_MEM in Hs; lia).
  assert (Hor : 0 <= Z.lor (rd32 (k_mem s) (f + 52)) 0x3000 < 2 ^ 32) by (apply lor_range; lia).
  eexists. split; [krun; frame_reads Hs; reflexivity|]. split_and!; try (frame_reads Hs; try done; by apply w32_small).
  - intros i Hi. frame_reads Hs. done.
  - intros a Ha. pose proof (Ha 0 ltac:(lia)) as H0. rewrite Z.add_0_r in H0.
    rewrite !rd32_wr32_ne by (done || apply Ha; lia). done.
Qed.

(** And the frame on the way back, wherever it was pushed. *)
Lemma switch_to_kern_run arg g s : span g sizeof_idtframe ->
  exists m, switch_to_kern_handler arg g s = Ok (rd32 (k_mem s) (frame_esp g))
      (set_mem m (set_log (EvPrintf "frame->esp: %x\n" [rd32 (k_mem s) (frame_esp g)] :: EvPrintf "frame: %x\n" [arg] :: k_log s) s)) /\
    rd32 m (frame_cs g) = 0x08 /\ rd32 m (frame_my_eax g) = 0x10 /\
    rd32 m (frame_eflags g) = clear_bits (rd32 (k_mem s) (frame_eflags g)) 0x3000 /\
    (forall i, 4 <= i <= 44 \/ 56 <= i <= 60 -> rd32 m (g + i) = rd32 (k_mem s) (g + i)) /\
    forall a, off_intr_frame g a -> rd32 m a = rd32 (k_mem s) a.
Proof.
  intros Hs. unfold switch_to_kern_handler, frame_cs, frame_my_eax, frame_eflags, frame_esp.
  eexists. split; [krun; frame_reads Hs; reflexivity|]. split_and!; try (frame_reads Hs; done).
  - frame_reads Hs. rewrite <- (w32_small (rd32 (k_mem s) (g + 52))) by apply rd32_range. apply clear_bits_w32.
  - intros i Hi. frame_reads Hs. done.
  - intros a Ha. pose proof (Ha 0 ltac:(lia)) as H0. rewrite Z.add_0_r in H0.
    rewrite !rd32_wr32_ne by (done || apply Ha; lia). done.
Qed.

(** C35: [switch_to_user_handler] makes [iret] enter ring 3 with the user's selectors
    and I/O privilege, on a stack that starts at the frame's own field for the stack
    pointer; [switch_to_kern_handler], on whatever frame the way back has pushed, puts
    back the kernel's selectors, clears the privilege bits and hands out the stack
    pointer that frame holds; with the user's flags in it the flags are the original
    ones without the privilege. The program counter, the general registers and all words
    off the frame are kept both ways. *)
Theorem ring_switch_roundtrip f s : span f sizeof_idtframe ->
  exists m1, switch_to_user_handler f s = Ok tt (set_mem m1 s) /\
    rd32 m1 (frame_cs f) = 0x1B /\ rd32 m1 (frame_ss f) = 0x23 /\ rd32 m1 (frame_my_eax f) = 0x23 /\
    rd32 m1 (frame_eflags f) = Z.lor (rd32 (k_mem s) (frame_eflags f)) 0x3000 /\ rd32 m1 (frame_esp f) = frame_esp f /\
    (forall i, 4 <= i <= 44 -> rd32 m1 (f + i) = rd32 (k_mem s) (f + i)) /\ (forall a, off_intr_frame f a -> rd32 m1 a = rd32 (k_mem s) a) /\
    forall arg g s', span g sizeof_idtframe ->
      exists m2, switch_to_kern_handler arg g s' = Ok (rd32 (k_mem s') (frame_esp g))
          (set_mem m2 (set_log (EvPrintf "frame->esp: %x\n" [rd32 (k_mem s') (frame_esp g)] :: EvPrintf "frame: %x\n" [arg] :: k_log s') s')) /\
        rd32 m2 (frame_cs g) = 0x08 /\ rd32 m2 (frame_my_eax g) = 0x10 /\
        rd32 m2 (frame_eflags g) = clear_bits (rd32 (k_mem s') (frame_eflags g)) 0x3000 /\
        (rd32 (k_mem s') (frame_eflags g) = rd32 m1 (frame_eflags f) ->
          rd32 m2 (frame_eflags g) = clear_bits (rd32 (k_mem s) (frame_eflags f)) 0x3000) /\
        (forall i, 4 <= i <= 44 \/ 56 <= i <= 60 -> rd32 m2 (g + i) = rd32 (k_mem s') (g + i)) /\
        forall a, off_intr_frame g a -> rd32 m2 a = rd32 (k_mem s') a.
Proof.
  intros Hs. destruct (switch_to_user_run f s Hs) as (m1 & R1 & C1 & C2 & C3 & C4 & C5 & C6 & C7).
  exists m1. do 8 (split; [done|]). intros arg g s' Hg.
  destruct (switch_to_kern_run arg g s' Hg) as (m2 & R2 & D1 & D2 & D3 & D4 & D5).
  exists m2. do 4 (split; [done|]). split; [|done]. intros E. rewrite D3, E, C4.
  unfold clear_bits. rewrite Z.land_lor_distr_l. change (Z.land 0x3000 (Z.lnot 0x3000)) with 0. apply Z.lor_0_r.
Qed.

(** * The timer and the task state segment *)

(** The divisor makes the timer tick 26 times a second. *)
Theorem timer_rate : 26 * timer_divisor <= 1193182 < 26 * (timer_divisor + 1).
Proof. by vm_compute. Qed.

(** The I/O map base lies one byte before offset 102, where the processor reads
    it: the two bit fields take one byte instead of two. *)
Lemma tss_io_map_base_misplaced : tss_io_map_base = 101 /\ sizeof_tss = 103.
Proof. done. Qed.
