(* ===== verification/Kbd.v ===== *)
(** The keyboard: the scan-code tables of include/keyboard.h and the modifier
    state machine of idt/keyboard.c. *)

From S2P Require Import Prelude Machine Ports Traps.

Local Open Scope Z_scope.

Definition NIL : Z := 0.

Definition PRESS_CAPS_LOCK : Z := 0x3A.
Definition PRESS_CTRL : Z := 0x1D.
Definition RELEASE_CTRL : Z := 0x9D.
Definition PRESS_LF_SHIFT : Z := 0x2A.
Definition PRESS_RT_SHIFT : Z := 0x36.
Definition RELEASE_LF_SHIFT : Z := 0xAA.
Definition RELEASE_RT_SHIFT : Z := 0xB6.
Definition DOUBLE_KEY : Z := 0xE0.

(** The characters of a string. *)
Fixpoint codes (s : string) : list Z :=
  match s with
  | EmptyString => []
  | String c s => Z.of_N (Ascii.N_of_ascii c) :: codes s
  end.

(** The initialisers list 57 of the 255 entries; the others are zero. *)
Definition keyboard_origin : list Z :=
  NIL :: codes "1234567890-=" ++ [8] ++
  9 :: codes "qwertyuiop[]" ++ [10] ++
  NIL :: codes "asdfghjkl;'`" ++ [NIL; 92] ++
  codes "zxcvbnm,./" ++ [NIL] ++
  [NIL; NIL; 32] ++ replicate 198 0.

Definition keyboard_shift : list Z :=
  NIL :: codes "!@#$%^&*()_+" ++ [8] ++
  9 :: codes "QWERTYUIOP{}" ++ [10] ++
  NIL :: codes "ASDFGHJKL:" ++ [34; 126] ++ [NIL; 124] ++
  codes "ZXCVBNM<>?" ++ [NIL] ++
  [NIL; NIL; 32] ++ replicate 198 0.

(** The flags of keyboard.c *)
Record kbd := mk_kbd {
  double_key_on : bool ;
  is_lf_shift_pressed : bool ;
  is_rt_shift_pressed : bool ;
  is_lf_ctrl_pressed : bool ;
  is_rt_ctrl_pressed : bool ;
  is_capslock_pressed : bool
}.

Definition kbd_reset : kbd := mk_kbd false false false false false false.

Definition letter_to_upper_case (c : Z) : Z := w8 (c - 32).

(** The first byte that is not zero; [fuel] bounds the polling. *)
Fixpoint get_raw_msg (fuel : nat) : K Z :=
  match fuel with
  | O => nofuel
  | S fuel => data ← inb 0x60; if data =? 0 then get_raw_msg fuel else mret data
  end.

(** The [switch] of [getchar]. *)
Definition key_event (c : Z) (k : kbd) : kbd :=
  let 'mk_kbd dbl lfs rts lfc rtc caps := k in
  if c =? PRESS_CAPS_LOCK then mk_kbd dbl lfs rts lfc rtc (negb caps)
  else if c =? PRESS_LF_SHIFT then mk_kbd dbl true rts lfc rtc caps
  else if c =? PRESS_RT_SHIFT then mk_kbd dbl lfs true lfc rtc caps
  else if c =? PRESS_CTRL then
    (if negb dbl then mk_kbd dbl lfs rts true rtc caps else mk_kbd dbl lfs rts lfc true caps)
  else if c =? RELEASE_LF_SHIFT then mk_kbd dbl false rts lfc rtc caps
  else if c =? RELEASE_RT_SHIFT then mk_kbd dbl lfs false lfc rtc caps
  else if c =? DOUBLE_KEY then mk_kbd true lfs rts lfc rtc caps
  else if c =? RELEASE_CTRL then
    (if negb dbl then mk_kbd false lfs rts false rtc caps else mk_kbd false lfs rts lfc false caps)
  else k.

(** The table lookups that follow it; [None]: past the table. *)
Definition key_char (c : Z) (k : kbd) : option Z :=
  let i := Z.to_nat (c - 1) in
  if is_capslock_pressed k then
    if is_lf_shift_pressed k || is_rt_shift_pressed k then keyboard_origin !! i else keyboard_shift !! i
  else
    if is_lf_shift_pressed k || is_rt_shift_pressed k then keyboard_shift !! i else keyboard_origin !! i.

Definition getchar (fuel : nat) (k : kbd) : K (option Z * kbd) :=
  c ← get_raw_msg fuel;
  let k := key_event c k in
  mret (key_char c k, k).

Definition kbd_handler (fuel : nat) (frame : Z) (k : kbd) : K kbd :=
  r ← getchar fuel k;
  n ← load (frame_intr_No frame);
  printf "interrupt %d has been called and I read %c\n" [n; default 0 (fst r)];;
  mret (snd r).

(** * Properties *)

Lemma get_raw_msg_run fuel : forall n v q s, (n < fuel)%nat -> k_inq s = replicate n 0 ++ v :: q -> w8 v <> 0 ->
  get_raw_msg fuel s = Ok (w8 v) (set_inq q s).
Proof.
  induction fuel as [|fuel IH]; intros n v q s Hn Hq Hv; [lia|]. cbn [get_raw_msg]. unfold inb, device_read. krun.
  rewrite Hq. destruct n as [|n]; cbn [replicate app]; krun.
  - by rewrite (proj2 (Z.eqb_neq _ _) Hv).
  - change (w8 0 =? 0) with true. cbv iota. rewrite (IH n v q) by (done || lia). done.
Qed.

Lemma tables_length : length keyboard_origin = 255%nat /\ length keyboard_shift = 255%nat.
Proof. done. Qed.

(** [getchar] polls until a byte is not zero, then looks its table up inside the
    bounds, whatever the byte and the modifiers, and gives a 7-bit character. *)
Theorem getchar_in_table fuel n v q s k :
  (n < fuel)%nat -> k_inq s = replicate n 0 ++ v :: q -> w8 v <> 0 ->
  exists ch, getchar fuel k s = Ok (Some ch, key_event (w8 v) k) (set_inq q s) /\ 0 <= ch < 128.
Proof.
  intros Hn Hq Hv. unfold getchar. krun. rewrite (get_raw_msg_run fuel n v q s Hn Hq Hv).
  assert (Hr : (Z.to_nat (w8 v - 1) < 255)%nat) by (pose proof (w8_range v); lia).
  assert (Ht : forall t, length t = 255%nat -> forallb (fun c => (0 <=? c) && (c <? 128)) t = true ->
    exists ch, t !! Z.to_nat (w8 v - 1) = Some ch /\ 0 <= ch < 128).
  { intros t Hl Ha. destruct (lookup_lt_is_Some_2 t (Z.to_nat (w8 v - 1))) as [ch Hch]; [lia|]. exists ch.
    split; [done|]. rewrite forallb_forall in Ha. specialize (Ha ch). rewrite <- list_elem_of_In in Ha.
    specialize (Ha (list_elem_of_lookup_2 _ _ _ Hch)). lia. }
  destruct (Ht keyboard_origin eq_refl ltac:(by vm_compute)) as (c1 & E1 & H1).
  destruct (Ht keyboard_shift eq_refl ltac:(by vm_compute)) as (c2 & E2 & H2).
  unfold key_char. rewrite E1, E2.
  destruct (is_capslock_pressed _), (is_lf_shift_pressed _ || is_rt_shift_pressed _); eauto.
Qed.

(** The scan codes of the letters. *)
Definition letter_key (c : Z) : bool :=
  match keyboard_origin !! Z.to_nat (c - 1) with Some ch => (97 <=? ch) && (ch <=? 122) | None => false end.

Definition shift_on (k : kbd) : bool := is_lf_shift_pressed k || is_rt_shift_pressed k.

(** A letter key gives the lower-case letter, or the upper-case one when exactly
    one of caps lock and shift is on. *)
Theorem letters_change_case c k : 0 < c < 256 -> letter_key c = true ->
  exists ch, keyboard_origin !! Z.to_nat (c - 1) = Some ch /\ 97 <= ch <= 122 /\
    key_char c k = Some (if xorb (is_capslock_pressed k) (shift_on k) then letter_to_upper_case ch else ch).
Proof.
  intros Hc Hl.
  assert (Hall : forallb (fun i => negb (letter_key (Z.of_nat i + 1)) ||
    match keyboard_origin !! i, keyboard_shift !! i with
    | Some a, Some b => (97 <=? a) && (a <=? 122) && (letter_to_upper_case a =? b) | _, _ => false end) (seq 0 255) = true)
    by (by vm_compute).
  rewrite forallb_forall in Hall. specialize (Hall (Z.to_nat (c - 1))).
  rewrite in_seq in Hall. specialize (Hall ltac:(lia)). replace (Z.of_nat (Z.to_nat (c - 1)) + 1) with c in Hall by lia.
  rewrite Hl in Hall. cbn [negb orb] in Hall. unfold key_char, shift_on.
  destruct (keyboard_origin !! _) as [a|]; [|done]. destruct (keyboard_shift !! _) as [b|]; [|done].
  exists a. split; [done|]. split; [lia|]. assert (letter_to_upper_case a = b) as -> by lia.
  destruct (is_capslock_pressed k), (is_lf_shift_pressed k), (is_rt_shift_pressed k); done.
Qed.

(** The last code of [cs] that is [on] or [off], if there is one. *)
Fixpoint last_of (on off : Z) (cs : list Z) (b : bool) : bool :=
  match cs with
  | [] => b
  | c :: cs => last_of on off cs (if c =? on then true else if c =? off then false else b)
  end.

Definition key_events (cs : list Z) (k : kbd) : kbd := foldl (fun k c => key_event c k) k cs.

(** Whether caps lock is on after [cs]. *)
Fixpoint toggled (cs : list Z) (b : bool) : bool :=
  match cs with [] => b | c :: cs => toggled cs (if c =? PRESS_CAPS_LOCK then negb b else b) end.

Ltac key_cases c := unfold key_event;
  repeat match goal with |- context [c =? ?v] => destruct (Z.eqb_spec c v); [subst c; try done|] end; try done.

Lemma key_event_shift c k :
  is_lf_shift_pressed (key_event c k) =
    (if c =? PRESS_LF_SHIFT then true else if c =? RELEASE_LF_SHIFT then false else is_lf_shift_pressed k) /\
  is_rt_shift_pressed (key_event c k) =
    (if c =? PRESS_RT_SHIFT then true else if c =? RELEASE_RT_SHIFT then false else is_rt_shift_pressed k) /\
  is_capslock_pressed (key_event c k) =
    (if c =? PRESS_CAPS_LOCK then negb (is_capslock_pressed k) else is_capslock_pressed k).
Proof. destruct k as [dbl lfs rts lfc rtc caps]. destruct dbl; split_and!; key_cases c. Qed.

(** C40: Through any sequence of codes the shift flags say whether the key was pressed
    or released last, and caps lock changes with each press. *)
Theorem modifiers_track cs k :
  is_lf_shift_pressed (key_events cs k) = last_of PRESS_LF_SHIFT RELEASE_LF_SHIFT cs (is_lf_shift_pressed k) /\
  is_rt_shift_pressed (key_events cs k) = last_of PRESS_RT_SHIFT RELEASE_RT_SHIFT cs (is_rt_shift_pressed k) /\
  is_capslock_pressed (key_events cs k) = toggled cs (is_capslock_pressed k).
Proof.
  revert k. induction cs as [|c cs IH]; intros k; [done|]. cbn [key_events foldl last_of toggled].
  destruct (key_event_shift c k) as (<- & <- & <-). apply IH.
Qed.

Lemma double_key_kept cs k : double_key_on k = true -> RELEASE_CTRL ∉ cs -> double_key_on (key_events cs k) = true.
Proof.
  revert k. induction cs as [|c cs IH]; intros k Hk Hn; [done|]. apply not_elem_of_cons in Hn as [Hc Hn].
  cbn [key_events foldl]. apply IH; [|done]. destruct k as [dbl lfs rts lfc rtc caps]. cbn in Hk. subst dbl. key_cases c.
Qed.

(** The prefix 0xE0 is remembered until a control key is released, whatever
    comes in between: after an arrow key the left control key counts as the
    right one. *)
Theorem ctrl_misattributed cs k : RELEASE_CTRL ∉ cs ->
  let k' := key_events cs (key_event DOUBLE_KEY k) in
  is_rt_ctrl_pressed (key_event PRESS_CTRL k') = true /\
  is_lf_ctrl_pressed (key_event PRESS_CTRL k') = is_lf_ctrl_pressed k'.
Proof.
  intros Hn k'. assert (Hd : double_key_on k' = true) by (apply double_key_kept; [by destruct k|done]).
  destruct k' as [dbl lfs rts lfc rtc caps]. cbn in Hd. by subst dbl.
Qed.

(** Caps lock also shifts the digits. *)
Lemma caps_lock_shifts_digits : key_char 0x02 (key_event PRESS_CAPS_LOCK kbd_reset) = Some 33.
Proof. done. Qed.
