(* ===== verification/User.v ===== *)
(** System calls: the kernel side and the user-side stubs of
    schedule/process/user.c. *)

From S2P Require Import Prelude Machine DList Str Pmm Paging Ports Swap Malloc Vmm Pid Proc Traps.

Local Open Scope Z_scope.

(** ["%s\n"] with the string at [arg] is kept with its address. *)
Section System.
Context `{Symbols}.
Variable fuel : nat.

(** What [schedule] does until the caller runs again, and what a call through
    an empty or missing slot of [system_call] does. *)
Variable schedule : K unit.
Variable wild_call : Z -> K Z.

(** The sixteen words of a frame. *)
Definition frame_words (frame : Z) : K (list Z) := fun s => Ok (words_at 16 (k_mem s) frame) s.

Definition sys_exit (arg1 : Z) : K Z :=
  sti;;
  do_exit fuel schedule arg1;;
  mret arg1.

Definition sys_fork : K Z :=
  current ← get k_current;
  frame ← load (pcb_frame current);
  a ← load (frame_eax frame);
  printf "frame->eax: %x\n" [a];;
  printf "[user fork()]\n" [];;
  esp ← load (frame_esp frame);
  pid ← do_fork fuel 0 esp (frame_words frame);
  printf "[fork() over]\n" [];;
  mret pid.

Definition sys_wait (arg1 : Z) : K Z := do_waitpid fuel schedule (s32 arg1).

Definition sys_execve (arg0 : Z) : K Z :=
  user_stack_pg ← kalloc_page fuel KTHREAD_STACK_PAGE;
  current ← get k_current;
  pde ← load (pcb_backup_pde current);
  la ← pg_to_addr_la user_stack_pg;
  pte ← kget_pte fuel pde la 1;
  pde ← load (pcb_backup_pde current);
  la ← pg_to_addr_la (page_add user_stack_pg 1);
  pte_2 ← kget_pte fuel pde la 1;
  la ← pg_to_addr_la user_stack_pg;
  printf "====stack_pg of execve: %x\n" [la];;
  pa ← pg_to_addr_pa user_stack_pg;
  set_pte_page_addr pte (Z.shiftr pa 12);;
  pa ← pg_to_addr_pa (page_add user_stack_pg 1);
  set_pte_page_addr pte_2 (Z.shiftr pa 12);;
  set_pte_sign pte 0x07;;
  set_pte_sign pte_2 0x07;;
  current ← get k_current;
  frame ← load (pcb_frame current);
  store (frame_cs frame) (Z.lor 0x18 0x03);;
  store (frame_ss frame) (Z.lor 0x20 0x03);;
  store (frame_my_eax frame) (Z.lor 0x20 0x03);;
  or_store (frame_eflags frame) 0x3000;;
  or_store (frame_eflags frame) 0x200;;
  la ← pg_to_addr_la user_stack_pg;
  store (frame_esp frame) (w32 (la + PAGE_SIZE * KTHREAD_STACK_PAGE - 4));;
  current ← get k_current;
  mm ← get k_mm;
  copy_mm fuel current 0 mm;;
  code_pg ← kalloc_page fuel 1;
  current ← get k_current;
  pde ← load (pcb_backup_pde current);
  la ← pg_to_addr_la code_pg;
  code_pte ← kget_pte fuel pde la 1;
  mm ← load (pcb_mm current);
  create_vma (kalloc_page fuel) fuel mm la (w32 (la + PAGE_SIZE)) 0x07;;
  pa ← pg_to_addr_pa code_pg;
  set_pte_page_addr code_pte (Z.shiftr pa 12);;
  set_pte_sign code_pte 0x07;;
  la ← pg_to_addr_la user_stack_pg;
  store (w32 (la + PAGE_SIZE * KTHREAD_STACK_PAGE - 4)) exit_proc_addr;;
  la ← pg_to_addr_la code_pg;
  memcpy la arg0 PAGE_SIZE;;
  la ← pg_to_addr_la code_pg;
  printf "====copy code to %x\n" [la];;
  la ← pg_to_addr_la code_pg;
  store (frame_eip frame) la;;
  mret 0.

Definition sys_print (arg0 : Z) : K Z :=
  printf "%s\n" [arg0];;
  mret 0.

Definition sys_getpid : K Z :=
  current ← get k_current;
  p ← load (pcb_pid current);
  mret (s32 p).

(** The call through the table; [n] is the C [int] of the register. *)
Definition system_call (n arg0 arg1 : Z) : K Z :=
  if n =? 1 then sys_exit arg1
  else if n =? 2 then sys_fork
  else if n =? 3 then sys_wait arg1
  else if n =? 4 then sys_execve arg0
  else if n =? 5 then sys_getpid
  else if n =? 30 then sys_print arg0
  else wild_call n.

Definition system_intr (frame : Z) : K unit :=
  syscall_num ← load (frame_edx frame);
  fn ← load (frame_ebx frame);
  argu ← load (frame_ecx frame);
  current ← get k_current;
  old_frame ← load (pcb_frame current);
  store (pcb_frame current) frame;;
  r ← system_call (s32 syscall_num) fn argu;
  store (frame_eax frame) (w32 r);;
  current ← get k_current;
  store (pcb_frame current) old_frame.

(** * The user's side *)

(** The registers at [int $0x80]; a stub sets some and leaves the others as
    the compiler has them. *)
Record regs := mk_regs { r_edx : Z ; r_ebx : Z ; r_ecx : Z }.

Definition exit_proc (r : regs) : regs := mk_regs 1 0 (r_ecx r).
Definition fork (r : regs) : regs := mk_regs 2 (r_ebx r) (r_ecx r).
Definition waitpid (pid : Z) (r : regs) : regs := mk_regs 3 (r_ebx r) pid.
Definition getpid (r : regs) : regs := mk_regs 5 (r_ebx r) (r_ecx r).
Definition print (fmt : Z) (r : regs) : regs := mk_regs 30 fmt (r_ecx r).

(** The system calls of one run of [user_main], by what its two [fork]s return. *)
Inductive syscall := SysPrint (s : string) | SysFork | SysWait (pid : Z).

Definition user_main (fork_1 fork_2 : Z) : list syscall :=
  [SysPrint "user_main....\n"; SysFork] ++
  if negb (fork_1 =? 0) then
    [SysPrint "this is the father process.\n"; SysFork] ++
    if negb (fork_2 =? 0) then
      [SysPrint "this is new father process~\n"; SysWait 0] ++ [SysWait 0]
    else [SysPrint "this is new child process~\n"]
  else [SysPrint "this is the child process.\n"].

(** * Properties *)

(** The frame holds the registers. *)
Definition frame_regs (m : memory) (frame : Z) (r : regs) : Prop :=
  rd32 m (frame_edx frame) = w32 (r_edx r) /\ rd32 m (frame_ebx frame) = w32 (r_ebx r) /\
  rd32 m (frame_ecx frame) = w32 (r_ecx r).

Lemma system_intr_run frame r s v s' :
  frame_regs (k_mem s) frame r ->
  system_call (s32 (w32 (r_edx r))) (w32 (r_ebx r)) (w32 (r_ecx r))
    (set_mem (wr32 (k_mem s) (pcb_frame (k_current s)) frame) s) = Ok v s' ->
  system_intr frame s = Ok tt (set_mem (wr32 (wr32 (k_mem s') (frame_eax frame) (w32 v))
    (pcb_frame (k_current s')) (rd32 (k_mem s) (pcb_frame (k_current s)))) s').
Proof.
  intros (E1 & E2 & E3) Hc. unfold system_intr. krun. rewrite E1, E2, E3, Hc. reflexivity.
Qed.

(** A call that comes back leaves its result in the caller's [eax] and puts the
    caller's frame pointer back; what the call itself did is kept. *)
Theorem system_intr_returns frame r s v s' :
  frame_regs (k_mem s) frame r ->
  system_call (s32 (w32 (r_edx r))) (w32 (r_ebx r)) (w32 (r_ecx r))
    (set_mem (wr32 (k_mem s) (pcb_frame (k_current s)) frame) s) = Ok v s' ->
  wd (frame_eax frame) (pcb_frame (k_current s')) ->
  exists m', system_intr frame s = Ok tt (set_mem m' s') /\
    rd32 m' (frame_eax frame) = w32 v /\
    rd32 m' (pcb_frame (k_current s')) = rd32 (k_mem s) (pcb_frame (k_current s)) /\
    forall a, wd (frame_eax frame) a -> wd (pcb_frame (k_current s')) a -> rd32 m' a = rd32 (k_mem s') a.
Proof.
  intros Hr Hc Hw. eexists. split; [by apply (system_intr_run frame r s v s')|].
  split_and!.
  - rewrite rd32_wr32_ne by (by apply wd_sym). by rewrite rd32_wr32_eq, w32_w32.
  - rewrite rd32_wr32_small by apply rd32_range. done.
  - intros a H1 H2. by rewrite !rd32_wr32_ne.
Qed.

(** Memory apart from the result slot is as it was. *)
Definition only_result (frame cur : Z) (m m' : memory) : Prop :=
  rd32 m' (pcb_frame cur) = rd32 m (pcb_frame cur) /\
  forall a, wd (frame_eax frame) a -> wd (pcb_frame cur) a -> rd32 m' a = rd32 m a.

Lemma result_memory frame cur m v : wd (frame_eax frame) (pcb_frame cur) -> 0 <= v < 2 ^ 32 ->
  let m' := wr32 (wr32 (wr32 m (pcb_frame cur) frame) (frame_eax frame) v) (pcb_frame cur) (rd32 m (pcb_frame cur)) in
  rd32 m' (frame_eax frame) = v /\ only_result frame cur m m'.
Proof.
  intros Hw Hv m'. unfold m', only_result. split_and!.
  - rewrite rd32_wr32_ne by (by apply wd_sym). by apply rd32_wr32_small.
  - apply rd32_wr32_small, rd32_range.
  - intros a H1 H2. by rewrite !rd32_wr32_ne.
Qed.

(** [getpid] and [print] from user code return the number of the caller and 0;
    nothing else in memory changes. *)
Theorem simple_syscalls frame r s :
  wd (frame_eax frame) (pcb_frame (k_current s)) -> wd (pcb_frame (k_current s)) (pcb_pid (k_current s)) ->
  (frame_regs (k_mem s) frame (getpid r) -> exists m',
    system_intr frame s = Ok tt (set_mem m' s) /\ only_result frame (k_current s) (k_mem s) m' /\
    rd32 m' (frame_eax frame) = rd32 (k_mem s) (pcb_pid (k_current s))) /\
  (forall fmt, frame_regs (k_mem s) frame (print fmt r) -> exists m',
    system_intr frame s = Ok tt (set_mem m' (set_log (EvPrintf "%s\n" [w32 fmt] :: k_log s) s)) /\
    only_result frame (k_current s) (k_mem s) m' /\ rd32 m' (frame_eax frame) = 0).
Proof.
  intros Hw Hp. split.
  - intros Hr. set (p := rd32 (k_mem s) (pcb_pid (k_current s))).
    assert (Ep : w32 (s32 p) = p).
    { pose proof (rd32_range (k_mem s) (pcb_pid (k_current s))) as Hrg. fold p in Hrg. unfold s32. rewrite (w32_small p) by lia.
      destruct (p <? 2 ^ 31); [apply w32_small; lia|]. rewrite (w32_congr _ p (-1)) by lia. apply w32_small. lia. }
    destruct (result_memory frame (k_current s) (k_mem s) p Hw (rd32_range _ _)) as [H1 H2].
    eexists. split; [|exact (conj H2 H1)].
    rewrite (system_intr_run frame (getpid r) s (s32 p) (set_mem (wr32 (k_mem s) (pcb_frame (k_current s)) frame) s) Hr).
    + rewrite Ep. reflexivity.
    + change (s32 (w32 (r_edx (getpid r)))) with 5. unfold system_call, sys_getpid. krun.
      change (5 =? 1) with false. change (5 =? 2) with false. change (5 =? 3) with false. change (5 =? 4) with false.
      change (5 =? 5) with true. krun. by rewrite rd32_wr32_ne.
  - intros fmt Hr. destruct (result_memory frame (k_current s) (k_mem s) 0 Hw ltac:(lia)) as [H1 H2].
    eexists. split; [|exact (conj H2 H1)].
    rewrite (system_intr_run frame (print fmt r) s 0
      (set_log (EvPrintf "%s\n" [w32 fmt] :: k_log s) (set_mem (wr32 (k_mem s) (pcb_frame (k_current s)) frame) s)) Hr).
    + reflexivity.
    + reflexivity.
Qed.

(** The status [exit_proc] passes is in [ebx]; the kernel takes the one in
    [ecx], which the stub leaves as it was. *)
Theorem exit_status_is_ecx frame r s :
  frame_regs (k_mem s) frame (exit_proc r) ->
  system_intr frame s =
    (sys_exit (w32 (r_ecx r)) ≫= fun v =>
       store (frame_eax frame) (w32 v);;
       current ← get k_current;
       store (pcb_frame current) (rd32 (k_mem s) (pcb_frame (k_current s))))
    (set_mem (wr32 (k_mem s) (pcb_frame (k_current s)) frame) s).
Proof.
  intros (E1 & E2 & E3). unfold system_intr. krun. rewrite E1, E2, E3. reflexivity.
Qed.

End System.
