(* ===== verification/Life.v ===== *)
(** The life of a process: what a new thread starts with, what is left of it
    when it exits, and how its parent finds it (schedule/process/proc.c). *)

From S2P Require Import Prelude Machine DList Str Pmm Paging Ports Swap Malloc Vmm Demand Pid Proc Sched Traps User.

Local Open Scope Z_scope.

Section Life.
Context `{Symbols}.
Variable fuel : nat.

(** * The functions the first threads run *)
Section Threads.

(** Where [fn_sec_kern_thread] and [user_main] are linked. *)
Variables (fn_sec_kern_thread_addr user_main_addr : Z).
Variable resume : K unit.

(** The message is kept with the address of the argument. *)
Definition default_proc_fn (what_you_want_to_say : Z) : K Z :=
  printf "hello, proc No.1! %s.\n" [what_you_want_to_say];;
  mret 0.

Definition fn_init_kern_thread (arg : Z) : K Z :=
  pid ← kernel_thread fuel fn_sec_kern_thread_addr NULL 1;
  printf "init is waiting...pid %d\n" [pid];;
  do_waitpid fuel (schedule fuel resume) pid.

(** The registers at the [int $0x80] of [fn_sec_kern_thread]: system call 4 with
    the page of [user_main]. *)
Definition fn_sec_kern_thread (r : regs) : regs := mk_regs 4 user_main_addr (r_ecx r).

(** [fn] and [arg] are in [ebx] and [edx]; the result of [fn] is the exit status. *)
Definition kernel_thread_entry (fn : Z -> K Z) (edx : Z) : K unit :=
  eax ← fn edx;
  do_exit fuel (schedule fuel resume) eax.

End Threads.

(** * The first frame of a thread *)

Lemma store_words_spec ws : forall a s, span a (4 * Z.of_nat (length ws)) ->
  exists m', store_words a ws s = Ok tt (set_mem m' s) /\
    (forall i w, ws !! i = Some w -> rd32 m' (a + 4 * Z.of_nat i) = w32 w) /\
    (forall x, ka x + 4 <= ka a \/ ka a + 4 * Z.of_nat (length ws) <= ka x -> rd32 m' x = rd32 (k_mem s) x).
Proof.
  induction ws as [|w ws IH]; intros a s Hs; cbn [store_words length] in *.
  - exists (k_mem s). rewrite set_mem_id. done.
  - krun. destruct (decide (ws = [])) as [->|Hne].
    { cbn [store_words]. krun. eexists. split; [reflexivity|]. split.
      - intros [|i] v; cbn; [intros [= ->]|done]. rewrite Z.add_0_r. by rewrite rd32_wr32_eq.
      - intros x Hx. apply rd32_wr32_ne. unfold wd. cbn [length] in Hx. lia. }
    assert (Hpos : (0 < length ws)%nat) by (destruct ws; [done|cbn; lia]).
    assert (E4 : w32 (a + 4) = a + 4) by (apply w32_small; unfold span, VERTUAL_MEM in Hs; lia). rewrite E4.
    assert (Ea : ka (a + 4) = ka a + 4) by (apply (ka_span _ _ _ Hs); lia).
    destruct (IH (a + 4) (set_mem (wr32 (k_mem s) a w) s)) as (m' & R & W & F); [unfold span, VERTUAL_MEM in *; lia|].
    exists m'. rewrite R. split; [done|]. rewrite Ea in F. split.
    + intros [|i] v; cbn [lookup list_lookup].
      * intros [= ->]. rewrite Z.add_0_r, F by lia. cbn. by rewrite rd32_wr32_eq.
      * intros Hi. rewrite <- (W i v Hi). f_equal. lia.
    + intros x Hx. rewrite F by lia. cbn. apply rd32_wr32_ne. unfold wd. lia.
Qed.

(** The frame a thread is entered through: that of [ws] with interrupts on and
    the stack pointer [esp]. *)
Definition first_frame (ws : list Z) (esp : Z) : list Z := <[14%nat := esp]> (alter (fun w => Z.lor w 0x200) 13%nat ws).

(** The two fields the frame differs in from [ws], stored over it. *)
Lemma first_frame_word ws esp f m : span f 64 -> length ws = 16%nat -> Forall (fun w => 0 <= w < 2 ^ 32) ws -> 0 <= esp < 2 ^ 32 ->
  (forall i w, ws !! i = Some w -> rd32 m (f + 4 * Z.of_nat i) = w32 w) ->
  let m3 := wr32 m (f + 56) esp in let m4 := wr32 m3 (f + 52) (Z.lor (rd32 m3 (f + 52)) 0x200) in
  forall i w, first_frame ws esp !! i = Some w -> rd32 m4 (f + 4 * Z.of_nat i) = w.
Proof.
  intros Hf Hl Hw Hesp W m3 m4.
  assert (Kf : forall i, 0 <= i < 64 -> ka (f + i) = ka f + i) by (intros; by apply (ka_span _ _ _ Hf)).
  assert (L13 : exists w, ws !! 13%nat = Some w) by (apply lookup_lt_is_Some_2; lia). destruct L13 as [w13 E13].
  pose proof (Forall_lookup_1 _ _ _ _ Hw E13) as H13. cbv beta in H13.
  assert (Ev : rd32 m3 (f + 52) = w13).
  { unfold m3. rewrite rd32_wr32_ne by (unfold wd; rewrite !Kf by lia; lia). change 52 with (4 * Z.of_nat 13).
    rewrite (W 13%nat w13) by done. by apply w32_small. }
  intros i w Hi. assert (Hil : (i < 16)%nat).
  { apply lookup_lt_Some in Hi. unfold first_frame in Hi. rewrite length_insert, length_alter in Hi. lia. }
  unfold first_frame in Hi. destruct (decide (i = 14%nat)) as [->|Hne14].
  - rewrite list_lookup_insert_eq in Hi by (rewrite length_alter; lia). injection Hi as <-.
    unfold m4, m3. rewrite rd32_wr32_ne by (unfold wd; rewrite !Kf by lia; lia). change (4 * Z.of_nat 14) with 56.
    by apply rd32_wr32_small.
  - rewrite list_lookup_insert_ne, list_lookup_alter in Hi by done. destruct (decide (i = 13%nat)) as [->|Hne13].
    + rewrite decide_True, E13 in Hi by done. injection Hi as <-. unfold m4. change (4 * Z.of_nat 13) with 52.
      rewrite Ev. apply rd32_wr32_small. apply lor_range; lia.
    + rewrite decide_False in Hi by done. unfold m4, m3.
      rewrite !rd32_wr32_ne by (unfold wd; rewrite !Kf by lia; lia). rewrite (W i w Hi). apply w32_small.
      exact (Forall_lookup_1 _ _ _ _ Hw Hi).
Qed.

Lemma span_words_off f n x : 4 <= n -> span f n -> (forall i, 0 <= i <= n - 4 -> wd (f + i) x) ->
  ka x + 4 <= ka f \/ ka f + n <= ka x.
Proof.
  intros Hn Hs X. assert (K : forall i, 0 <= i <= n - 4 -> ka f + i + 4 <= ka x \/ ka x + 4 <= ka f + i).
  { intros i Hi. pose proof (X i Hi) as Y. unfold wd in Y. by rewrite (ka_span f n) in Y by (done || lia). }
  pose proof (K 0 ltac:(lia)). pose proof (K (n - 4) ltac:(lia)).
  destruct (decide (0 <= ka x - ka f <= n - 4)) as [Hin|Hout]; [pose proof (K _ Hin)|]; lia.
Qed.

(** The stack pointer in it: none for a kernel thread; as far below the top of
    the new stack as [offset] is below the end of its own page. *)
Definition first_esp (st offset : Z) : Z := if offset =? 0 then 0 else w32 (st + 4 - (ROUNDUP offset - offset)).

(** From the user bits on: the frame lies below the top of the new stack, the
    saved stack pointer is the frame, and the thread starts in the return path
    of the interrupt stubs. *)
Lemma copy_thread_run pcb offset ws frame s0 s :
  let st := rd32 (k_mem s) (pcb_start_stack pcb) in
  let f := st - sizeof_idtframe in
  (if negb (offset =? 0) then copy_thread_user fuel pcb s0 = Ok tt s else s0 = s) ->
  span pcb sizeof_pcb -> span f sizeof_idtframe -> ka f + sizeof_idtframe <= ka pcb \/ ka pcb + sizeof_pcb <= ka f ->
  length ws = 16%nat -> Forall (fun w => 0 <= w < 2 ^ 32) ws -> 0 <= context_to_intr < 2 ^ 32 ->
  frame (set_mem (wr32 (k_mem s) (pcb_frame pcb) f) s) = Ok ws (set_mem (wr32 (k_mem s) (pcb_frame pcb) f) s) ->
  exists m', copy_thread fuel pcb offset frame s0 = Ok tt (set_mem m' s) /\
    (forall i w, first_frame ws (first_esp st offset) !! i = Some w -> rd32 m' (f + 4 * Z.of_nat i) = w) /\
    rd32 m' (pcb_frame pcb) = f /\ rd32 m' (pcb_context_esp pcb) = f /\ rd32 m' (pcb_context_eip pcb) = context_to_intr /\
    (forall x, (forall i, 0 <= i <= 60 -> wd (f + i) x) -> (forall i, i = 24 \/ i = 52 \/ i = 56 -> wd (pcb + i) x) ->
      rd32 m' x = rd32 (k_mem s) x).
Proof.
  intros st f Hus Hp Hf Hd Hl Hw Hc Hfr.
  assert (Hf0 : 0 <= f < 2 ^ 32 /\ f + 64 <= 2 ^ 32) by (unfold span, sizeof_idtframe, VERTUAL_MEM in Hf; lia).
  assert (Kp : forall i, 0 <= i <= 88 -> ka (pcb + i) = ka pcb + i) by (intros; apply (ka_span _ _ _ Hp); unfold sizeof_pcb; lia).
  assert (Kf : forall i, 0 <= i < 64 -> ka (f + i) = ka f + i) by (intros; by apply (ka_span _ _ _ Hf)).
  unfold sizeof_idtframe, sizeof_pcb in *.
  assert (Wpf : forall i j, 0 <= i <= 88 -> 0 <= j <= 60 -> wd (pcb + i) (f + j)) by (intros; unfold wd; rewrite Kp, Kf by lia; lia).
  assert (Wpp : forall i j, 0 <= i <= 88 -> 0 <= j <= 88 -> i + 4 <= j \/ j + 4 <= i -> wd (pcb + i) (pcb + j))
    by (intros; unfold wd; rewrite !Kp by lia; lia).
  set (m1 := wr32 (k_mem s) (pcb + 56) f).
  destruct (store_words_spec ws f (set_mem m1 s)) as (m2 & R2 & W2 & F2); [by rewrite Hl|]. rewrite Hl in F2.
  assert (E2 : rd32 m2 (pcb + 56) = f) by (rewrite F2; [apply rd32_wr32_small; lia|rewrite Kp by lia; lia]).
  assert (Hesp : 0 <= first_esp st offset < 2 ^ 32) by (unfold first_esp; destruct (offset =? 0); [lia|apply w32_range]).
  assert (Est : rd32 m2 (pcb + 8) = st).
  { rewrite F2 by (rewrite Kp by lia; lia). cbn. unfold m1. rewrite rd32_wr32_ne; [done|apply Wpp; lia]. }
  set (m3 := wr32 m2 (f + 56) (first_esp st offset)).
  assert (E3 : rd32 m3 (pcb + 56) = f) by (unfold m3; rewrite rd32_wr32_ne; [done|apply wd_sym, Wpf; lia]).
  set (m4 := wr32 m3 (f + 52) (Z.lor (rd32 m3 (f + 52)) 0x200)).
  assert (E4 : rd32 m4 (pcb + 56) = f) by (unfold m4; rewrite rd32_wr32_ne; [done|apply wd_sym, Wpf; lia]).
  set (m5 := wr32 (wr32 m4 (pcb + 52) f) (pcb + 24) context_to_intr).
  assert (E5 : forall j, 0 <= j <= 60 -> rd32 m5 (f + j) = rd32 m4 (f + j)) by (intros; unfold m5; rewrite !rd32_wr32_ne; [done|apply Wpf; lia..]).
  exists m5. split; [|split; [|split; [|split; [|split]]]].
  - assert (Ew : (when (negb (offset =? 0)) (copy_thread_user fuel pcb)) s0 = Ok tt s).
    { destruct (negb (offset =? 0)); [exact Hus|by rewrite Hus]. }
    unfold copy_thread, mbind at 1, K_bind at 1. rewrite Ew. clear Ew Hus.
    unfold pcb_frame, pcb_start_stack, pcb_context_esp, pcb_context_eip, frame_esp, frame_eflags, or_store, sizeof_idtframe in *. krun.
    fold st. fold f. rewrite (w32_small f) by lia. fold m1. fold m1 in Hfr.
    assert (E1 : rd32 m1 (pcb + 56) = f) by (apply rd32_wr32_small; lia).
    rewrite Hfr, E1, R2. kproj. unfold first_esp in m3, Hesp. destruct (offset =? 0); cbn [negb]; krun; rewrite E2, ?Est;
      fold m3; rewrite E3; fold m4; rewrite E4; reflexivity.
  - intros i w Hi. assert (Hil : (i < 16)%nat).
    { apply lookup_lt_Some in Hi. unfold first_frame in Hi. rewrite length_insert, length_alter in Hi. lia. }
    rewrite E5 by lia. by apply (first_frame_word ws (first_esp st offset) f m2).
  - unfold m5. rewrite !rd32_wr32_ne by (apply Wpp; lia). exact E4.
  - unfold m5. unfold pcb_context_esp. rewrite rd32_wr32_ne by (apply Wpp; lia). apply rd32_wr32_small. lia.
  - unfold m5, pcb_context_eip. by apply rd32_wr32_small.
  - intros x X1 X2. pose proof (span_words_off f 64 x ltac:(lia) Hf X1). unfold m5, m4, m3.
    rewrite !rd32_wr32_ne by first [apply X1; lia | apply X2; lia]. rewrite F2 by lia. apply rd32_wr32_ne. apply X2. lia.
Qed.

(** ** The stack of a forked process *)

(** The user bit on the entry of [la]. *)
Definition user_bit (m : memory) (pd la : Z) : memory :=
  let x := pte_slot m pd la in
  wr32 m (x + VERTUAL_MEM) (bf_set 0 9 (Z.lor (pte_sign (rd32 m x)) 0x4) (rd32 m x)).

Definition user_page (m : memory) (pd la : Z) : Prop := Z.testbit (pte_sign (rd32 m (pte_slot m pd la))) 2 = true.

Lemma user_page_ext m m' pd la : rd32 m' (pde_slot pd la) = rd32 m (pde_slot pd la) ->
  rd32 m' (pte_slot m pd la) = rd32 m (pte_slot m pd la) -> user_page m pd la -> user_page m' pd la.
Proof. intros Ed Es. unfold user_page. by rewrite (slot_ext m m'), Es. Qed.

Lemma user_bit_run s pd la : tables (k_mem s) pd -> 0 <= la < 2 ^ 32 -> present (rd32 (k_mem s) (pde_slot pd la)) = true ->
  (pte ← kget_pte fuel pd la 0; e ← load pte; set_pte_sign pte (Z.lor (pte_sign e) 0x4)) s =
  Ok tt (set_mem (user_bit (k_mem s) pd la) s).
Proof.
  intros Ht Hla Hp. unfold kget_pte. krun. rewrite (get_pte_present (kalloc_page fuel) s pd la 0 Ht Hla Hp).
  unfold set_pte_sign. krun. rewrite !rd32_slot_alias by (by apply slot_low). reflexivity.
Qed.

Section UserBit.
Context (m : memory) (pd la : Z).
Hypothesis Ht : tables m pd.
Hypothesis Hla : 0 <= la < 2 ^ 32.
Hypothesis Hp : present (rd32 m (pde_slot pd la)) = true.

Lemma user_bit_off a : off_tables m pd a -> rd32 (user_bit m pd la) a = rd32 m a.
Proof.
  intros Ho. apply rd32_wr32_ne. apply wd_sym. destruct (Ho la Hla) as [_ Hw]. specialize (Hw Hp).
  unfold wd in *. by rewrite ka_alias by (by apply slot_low).
Qed.

Lemma user_bit_pde la' : 0 <= la' < 2 ^ 32 -> rd32 (user_bit m pd la) (pde_slot pd la') = rd32 m (pde_slot pd la').
Proof. intros Hla'. apply rd32_wr32_ne. by apply (slots_apart m pd Ht la la'). Qed.

Lemma user_bit_sign : let e := rd32 m (pte_slot m pd la) in
  rd32 (user_bit m pd la) (pte_slot m pd la) = w32 (bf_set 0 9 (Z.lor (pte_sign e) 0x4) e).
Proof. by apply rd32_wr32_alias, slot_low. Qed.

Lemma user_bit_user la' : 0 <= la' < 2 ^ 32 -> present (rd32 m (pde_slot pd la')) = true ->
  la' = la \/ user_page m pd la' -> user_page (user_bit m pd la) pd la'.
Proof.
  intros Hla' Hp' Hu. unfold user_page. rewrite (slot_ext m) by (by apply user_bit_pde).
  destruct (decide (pte_slot m pd la' = pte_slot m pd la)) as [->|Hne].
  - rewrite user_bit_sign. unfold pte_sign at 1. rewrite bf_get_w32, bf_get_set by lia.
    rewrite Z.land_spec, Z.lor_spec, Z.ones_spec_low by lia. by rewrite orb_true_r.
  - destruct Hu as [->|Hu]; [done|]. unfold user_bit. rewrite rd32_wr32_ne; [exact Hu|].
    by apply (slots_apart m pd Ht la la').
Qed.

End UserBit.

(** The pages of the two-page stack that ends at [st + 4]. *)
Definition stack_page (st k : Z) : Z := w32 (st + 4 - PAGE_SIZE * k).

Lemma copy_thread_user_run pcb pd s :
  let m := k_mem s in let st := rd32 m (pcb_start_stack pcb) in
  let la1 := stack_page st 1 in let la2 := stack_page st 2 in
  tables m pd -> rd32 m (mm_pde (rd32 m (pcb_mm pcb))) = pd ->
  present (rd32 m (pde_slot pd la1)) = true -> present (rd32 m (pde_slot pd la2)) = true ->
  off_tables m pd (pcb_mm pcb) -> off_tables m pd (pcb_start_stack pcb) -> off_tables m pd (mm_pde (rd32 m (pcb_mm pcb))) ->
  exists m', copy_thread_user fuel pcb s = Ok tt (set_mem m' s) /\
    user_page m' pd la1 /\ user_page m' pd la2 /\
    (forall la, 0 <= la < 2 ^ 32 -> rd32 m' (pde_slot pd la) = rd32 m (pde_slot pd la)) /\
    (forall a, off_tables m pd a -> rd32 m' a = rd32 m a).
Proof.
  intros m st la1 la2 Ht Hpd Hp1 Hp2 O1 O2 O3.
  assert (H1 : 0 <= la1 < 2 ^ 32) by apply w32_range. assert (H2 : 0 <= la2 < 2 ^ 32) by apply w32_range.
  set (m1 := user_bit m pd la1). pose proof (user_bit_pde m pd la1 Ht H1 Hp1) as D1. fold m1 in D1.
  assert (Ht1 : tables m1 pd) by (by apply (tables_ext m)).
  assert (Hp2' : present (rd32 m1 (pde_slot pd la2)) = true) by (by rewrite D1).
  assert (Hp1' : present (rd32 m1 (pde_slot pd la1)) = true) by (by rewrite D1).
  assert (F1 : forall a, off_tables m pd a -> rd32 m1 a = rd32 m a) by (intros; by apply user_bit_off).
  pose proof (user_bit_pde m1 pd la2 Ht1 H2 Hp2') as D2.
  exists (user_bit m1 pd la2). split; [|split; [|split; [|split]]].
  - assert (Ela : w32 (st + 4 - PAGE_SIZE) = la1) by (unfold la1, stack_page; by rewrite Z.mul_1_r).
    pose proof (user_bit_run s pd la1 Ht H1 Hp1) as R1.
    pose proof (user_bit_run (set_mem m1 s) pd la2 Ht1 H2 Hp2') as R2.
    unfold copy_thread_user. krun. revert R1 R2. krun. intros R1 R2. fold m. rewrite Hpd. fold st. rewrite Ela.
    destruct (kget_pte fuel pd la1 0 s) as [x1 s1|s1|]; try done. rewrite R1. kproj. fold m m1.
    rewrite (F1 (pcb_mm pcb)), (F1 (mm_pde _)), Hpd, (F1 (pcb_start_stack pcb)) by done. fold st.
    change (st + 4 - PAGE_SIZE * 2)%w with la2. rewrite R2. reflexivity.
  - apply user_bit_user; try done. right. apply user_bit_user; try done. by left.
  - apply user_bit_user; try done. by left.
  - intros la Hla. by rewrite D2, D1.
  - intros a Ha. rewrite user_bit_off; [by apply F1|done..|]. by apply (off_tables_ext m).
Qed.

(** C27: The copy of the caller's frame for a forked process: its two stack pages are
    open to user code; the frame is the caller's, [eax] included, but for the interrupt
    flag, which is set, and the stack pointer, which is as far below the top of the new
    stack as the caller's is below the end of its page; and the first switch goes on
    after the caller's [int]. *)
Theorem fork_child_frame pcb pd offset frame s :
  let m := k_mem s in let st := rd32 m (pcb_start_stack pcb) in
  let f := st - sizeof_idtframe in let ws := words_at 16 m frame in
  offset <> 0 -> tables m pd -> rd32 m (mm_pde (rd32 m (pcb_mm pcb))) = pd ->
  present (rd32 m (pde_slot pd (stack_page st 1))) = true -> present (rd32 m (pde_slot pd (stack_page st 2))) = true ->
  (forall a, ka a + 4 <= ka pcb + sizeof_pcb -> ka pcb <= ka a -> off_tables m pd a) ->
  (forall a, ka a + 4 <= ka f + sizeof_idtframe -> ka f <= ka a -> off_tables m pd a) ->
  (forall a, ka a + 4 <= ka frame + sizeof_idtframe -> ka frame <= ka a -> off_tables m pd a) ->
  off_tables m pd (mm_pde (rd32 m (pcb_mm pcb))) ->
  span pcb sizeof_pcb -> span f sizeof_idtframe -> span frame sizeof_idtframe ->
  ka f + sizeof_idtframe <= ka pcb \/ ka pcb + sizeof_pcb <= ka f ->
  ka frame + sizeof_idtframe <= ka pcb \/ ka pcb + sizeof_pcb <= ka frame -> 0 <= context_to_intr < 2 ^ 32 ->
  exists m', copy_thread fuel pcb offset (frame_words frame) s = Ok tt (set_mem m' s) /\
    user_page m' pd (stack_page st 1) /\ user_page m' pd (stack_page st 2) /\
    (forall i, (i < 16)%nat -> rd32 m' (f + 4 * Z.of_nat i) =
      if decide (i = 13%nat) then Z.lor (rd32 m (frame_eflags frame)) 0x200
      else if decide (i = 14%nat) then w32 (st + 4 - (ROUNDUP offset - offset))
      else rd32 m (frame + 4 * Z.of_nat i)) /\
    rd32 m' (pcb_frame pcb) = f /\ rd32 m' (pcb_context_esp pcb) = f /\ rd32 m' (pcb_context_eip pcb) = context_to_intr.
Proof.
  intros m st f ws Hoff Ht Hpd Hp1 Hp2 Opcb Of Ofr Opd Sp Sf Sfr Dpf Dfr Hcti.
  assert (Kp : forall i, 0 <= i <= 88 -> ka (pcb + i) = ka pcb + i) by (intros; apply (ka_span _ _ _ Sp); unfold sizeof_pcb; lia).
  assert (Kf : forall i, 0 <= i < 64 -> ka (f + i) = ka f + i) by (intros; by apply (ka_span _ _ _ Sf)).
  unfold sizeof_idtframe, sizeof_pcb in *.
  assert (Op : forall i, 0 <= i <= 88 -> off_tables m pd (pcb + i)) by (intros; apply Opcb; rewrite Kp by lia; lia).
  destruct (copy_thread_user_run pcb pd s Ht Hpd Hp1 Hp2) as (m1 & R1 & U1 & U2 & D1 & F1);
    [by apply (Op 16)|by apply (Op 8)|exact Opd|]. fold m in D1, F1. fold m st in U1, U2.
  set (s1 := set_mem m1 s) in *.
  assert (Est : rd32 m1 (pcb_start_stack pcb) = st) by (apply F1, (Op 8); lia).
  assert (Ews : words_at 16 (wr32 m1 (pcb_frame pcb) f) frame = ws).
  { apply words_at_ext; [exact Sfr|]. intros x X1 X2. rewrite rd32_wr32_ne; [apply F1, Ofr; lia|].
    unfold wd, pcb_frame. rewrite Kp by lia. lia. }
  assert (Hw : forall i, (i < 16)%nat -> ws !! i = Some (rd32 m (frame + 4 * Z.of_nat i))).
  { intros i Hi. by apply words_at_lookup. }
  destruct (copy_thread_run pcb offset ws (frame_words frame) s s1) as (m' & R & W & E1 & E2 & E3 & F);
    unfold s1; cbn [k_mem set_mem]; rewrite ?Est; try done.
  - by rewrite (proj2 (Z.eqb_neq _ _) Hoff).
  - apply Forall_lookup_2. intros i w Hi. pose proof (lookup_lt_Some _ _ _ Hi) as Hl. change (length ws) with 16%nat in Hl.
    rewrite Hw in Hi by lia. injection Hi as <-. apply rd32_range.
  - unfold frame_words. cbn [k_mem set_mem]. change (st - sizeof_idtframe) with f. by rewrite Ews.
  - exists m'. split; [exact R|]. unfold s1 in *. cbn [k_mem set_mem] in *. rewrite Est in *. change (st - sizeof_idtframe) with f in *.
    assert (Ff : forall i, 0 <= i <= 60 -> off_tables m pd (f + i)) by (intros; apply Of; rewrite Kf by lia; lia).
    assert (Up : forall la, 0 <= la < 2 ^ 32 -> present (rd32 m (pde_slot pd la)) = true -> user_page m1 pd la -> user_page m' pd la).
    { intros la Hla Hpl. apply user_page_ext; [|rewrite (slot_ext m m1) by (by apply D1)]; apply F; intros i Hi;
        first [by apply Ff|apply Op; first [done|lia]]. }
    split; [apply Up; [apply w32_range|done|done]|]. split; [apply Up; [apply w32_range|done|done]|].
    split; [|done]. intros i Hi. apply W. unfold first_frame, first_esp.
    assert (E13 : forall j : nat, (j < 16)%nat -> alter (fun w => Z.lor w 0x200) 13%nat ws !! j =
      Some (if decide (j = 13%nat) then Z.lor (rd32 m (frame_eflags frame)) 0x200 else rd32 m (frame + 4 * Z.of_nat j))).
    { intros j Hj. rewrite list_lookup_alter. destruct (decide (j = 13%nat)) as [->|Hne].
      - rewrite decide_True by done. by rewrite Hw.
      - rewrite decide_False by done. by apply Hw. }
    destruct (decide (i = 14%nat)) as [->|Hne].
    + rewrite list_lookup_insert_eq by (rewrite length_alter; change (length ws) with 16%nat; lia).
      by rewrite (proj2 (Z.eqb_neq _ _) Hoff).
    + rewrite list_lookup_insert_ne by done. by rewrite E13.
Qed.

(** A new kernel thread returns from the interrupt into [kernel_thread_entry] in
    the kernel's segments, with interrupts on and its function and argument in
    [ebx] and [edx]. *)
Theorem kernel_thread_starts pcb fn arg s :
  let f := rd32 (k_mem s) (pcb_start_stack pcb) - sizeof_idtframe in
  span pcb sizeof_pcb -> span f sizeof_idtframe -> ka f + sizeof_idtframe <= ka pcb \/ ka pcb + sizeof_pcb <= ka f ->
  0 <= context_to_intr < 2 ^ 32 -> 0 <= kernel_thread_entry_addr < 2 ^ 32 -> 0 <= fn < 2 ^ 32 -> 0 <= arg < 2 ^ 32 ->
  exists m', copy_thread fuel pcb 0 (mret (kernel_frame fn arg)) s = Ok tt (set_mem m' s) /\
    rd32 m' (pcb_context_eip pcb) = context_to_intr /\ rd32 m' (pcb_context_esp pcb) = f /\ rd32 m' (pcb_frame pcb) = f /\
    rd32 m' (frame_eip f) = kernel_thread_entry_addr /\ rd32 m' (frame_cs f) = 0x08 /\ rd32 m' (frame_eflags f) = 0x200 /\
    rd32 m' (frame_ebx f) = fn /\ rd32 m' (frame_edx f) = arg /\
    (forall x, (forall i, 0 <= i <= 60 -> wd (f + i) x) -> (forall i, i = 24 \/ i = 52 \/ i = 56 -> wd (pcb + i) x) ->
      rd32 m' x = rd32 (k_mem s) x).
Proof.
  intros f Hp Hf Hd Hc Hk Hfn Harg.
  assert (Hw : Forall (fun w => 0 <= w < 2 ^ 32) (kernel_frame fn arg)).
  { repeat (apply Forall_cons; split; [lia|]). by apply Forall_nil. }
  destruct (copy_thread_run pcb 0 (kernel_frame fn arg) (mret (M:=K) (kernel_frame fn arg)) s s)
    as (m' & R & W & E1 & E2 & E3 & F); [reflexivity|exact Hp|exact Hf|exact Hd|reflexivity|exact Hw|exact Hc|reflexivity|].
  exists m'. fold f in R, W, E1, E2, F.
  split; [exact R|split; [exact E3|split; [exact E2|split; [exact E1|]]]].
  repeat (split; [solve [exact (W 11%nat _ eq_refl)|exact (W 12%nat _ eq_refl)|exact (W 13%nat _ eq_refl)|
    exact (W 5%nat _ eq_refl)|exact (W 6%nat _ eq_refl)]|]). exact F.
Qed.

(** * Exit *)

(** The process [p] waits for a child. *)
Definition waits_for_child (m : memory) (p : Z) : bool := rd32 m (pcb_waitstate p) =? WT_CHILD.

(** C28: The end of a process without children and without an address space of its own:
    it is left as a zombie, its parent becomes runnable when it waits for a child and
    keeps its state otherwise, nothing else changes, the others are scheduled with the
    interrupt flag as it was, and if the process were ever scheduled again the kernel
    would stop. *)
Theorem exit_leaves_zombie sched code s cur par :
  pcbs_sep [cur; par] -> k_current s = cur -> rd32 (k_mem s) (pcb_parent cur) = par ->
  rd32 (k_mem s) (pcb_mm cur) = NULL -> children (k_mem s) cur [] -> (0 < fuel)%nat ->
  exists m' log, do_exit fuel sched code s = (sched;; panic "hahaha!!exit!!\n") (set_log log (set_mem m' s)) /\
    rd32 m' (pcb_state cur) = TASK_ZOMBIE /\
    rd32 m' (pcb_state par) =
      (if waits_for_child (k_mem s) par then TASK_RUNNABLE else rd32 (k_mem s) (pcb_state par)) /\
    forall a, wd (pcb_state cur) a -> wd (pcb_state par) a -> rd32 m' a = rd32 (k_mem s) a.
Proof.
  unfold waits_for_child. intros Hs Hcur Hpar Hmm [Hch _] Hf. destruct fuel as [|k]; [lia|].
  assert (W : forall p q i j, p ∈ [cur; par] -> q ∈ [cur; par] -> 0 <= i <= 88 -> 0 <= j <= 88 ->
    p <> q \/ i + 4 <= j \/ j + 4 <= i -> wd (p + i) (q + j)) by (intros; by eapply pcb_fields_wd).
  assert (Hne : cur <> par) by (pose proof (ps_nodup _ Hs) as [Hn _]%NoDup_cons; set_solver).
  assert (Hc : cur ∈ [cur; par]) by left. assert (Hp : par ∈ [cur; par]) by (right; left).
  assert (Wc : forall p i, p ∈ [cur; par] -> 4 <= i <= 88 -> wd (pcb_state cur) (p + i) /\ wd (pcb_state par) (p + i)).
  { intros p i Hin Hi. unfold pcb_state.
    pose proof (W cur p 0 i Hc Hin ltac:(lia) ltac:(lia) ltac:(lia)) as W1. pose proof (W par p 0 i Hp Hin ltac:(lia) ltac:(lia) ltac:(lia)) as W2.
    by rewrite Z.add_0_r in W1, W2. }
  assert (Wcp : wd (pcb_state cur) (pcb_state par)).
  { unfold pcb_state. rewrite <- (Z.add_0_r cur), <- (Z.add_0_r par). apply W; first [done|lia|by left]. }
  set (m1 := wr32 (k_mem s) (pcb_state cur) TASK_ZOMBIE).
  set (m2 := if rd32 (k_mem s) (pcb_waitstate par) =? WT_CHILD then wr32 m1 (pcb_state par) TASK_RUNNABLE else m1).
  set (logs := EvPrintf "=======================\n" [] ::
    EvPrintf "process %d finished. \n" [rd32 (k_mem s) (pcb_pid cur)] :: k_log s).
  assert (F : forall a, wd (pcb_state cur) a -> wd (pcb_state par) a -> rd32 m2 a = rd32 (k_mem s) a).
  { intros a A1 A2. unfold m2, m1. destruct (_ =? _); rewrite ?rd32_wr32_ne by done; done. }
  assert (F1 : forall a, wd (pcb_state cur) a -> rd32 m1 a = rd32 (k_mem s) a) by (intros; by apply rd32_wr32_ne).
  exists m2, logs. split; [|split; [|split; [|exact F]]].
  - unfold do_exit, send_chld_to_init, printf, emit. unfold mbind at 1, K_bind at 1. rewrite (proj1 (atom_section s)). krun.
    rewrite Hcur, Hmm. change (delete_mm _ NULL) with (mret (M:=K) tt). krun. rewrite Hcur. fold m1.
    rewrite (F1 (pcb_parent cur)), Hpar by (apply (Wc cur); [done|lia]).
    rewrite (F1 (pcb_waitstate par)) by (apply (Wc par); [done|lia]).
    assert (Hloop : forall st, k_mem st = m2 -> k_current st = cur -> send_chld_to_init_loop (S k) st = Ok tt st).
    { intros st E1 E2. cbn [send_chld_to_init_loop]. krun. rewrite E1, E2, (F (pcb_cptr cur)), Hch by (apply (Wc cur); [done|lia]). done. }
    assert (Ea : atom_enable_intr (if k_IF s then 1 else 0) (set_mem m2 (set_log logs (set_IF false s))) = Ok tt (set_log logs (set_mem m2 s))).
    { pose proof (proj2 (atom_section (set_log logs (set_mem m2 s))) (set_IF false (set_log logs (set_mem m2 s))) eq_refl) as E.
      cbn [k_IF set_mem set_log] in E. destruct s. exact E. }
    unfold wakeup_process, m2 in *. destruct (rd32 (k_mem s) (pcb_waitstate par) =? WT_CHILD); krun.
    + change (set_mem (wr32 m1 _ _) (set_mem _ _)) with (set_mem (wr32 m1 (pcb_state par) TASK_RUNNABLE) (set_log logs (set_IF false s))).
      by rewrite Hloop, Ea.
    + change (set_mem m1 _) with (set_mem m1 (set_log logs (set_IF false s))) at 1. by rewrite Hloop, Ea.
  - unfold m2, m1. destruct (_ =? _); rewrite ?(rd32_wr32_ne _ (pcb_state par)) by (by apply wd_sym); by rewrite rd32_wr32_eq.
  - unfold m2, m1. destruct (_ =? _); [by rewrite rd32_wr32_eq|by rewrite rd32_wr32_ne].
Qed.

(** With children: they go to [init_proc], were it a process of its own (the kernel
    never sets it). *)
Lemma exit_hands_over sched code s cur ini ch ich :
  pcbs_sep (cur :: ini :: ch ++ ich) -> k_current s = cur -> k_init_proc s = ini ->
  rd32 (k_mem s) (pcb_mm cur) = NULL -> rd32 (k_mem s) (pcb_waitstate (rd32 (k_mem s) (pcb_parent cur))) <> WT_CHILD ->
  wd (pcb_state cur) (pcb_waitstate (rd32 (k_mem s) (pcb_parent cur))) ->
  children (k_mem s) cur ch -> children (k_mem s) ini ich -> (length ch < fuel)%nat ->
  exists m' log, do_exit fuel sched code s =
      (sched;; panic "hahaha!!exit!!\n") (set_log log (set_mem m' s)) /\
    rd32 m' (pcb_state cur) = TASK_ZOMBIE /\ children m' cur [] /\ children m' ini (rev ch ++ ich) /\
    (forall d, d ∈ ch ++ ich -> rd32 m' (pcb_state d) = rd32 (k_mem s) (pcb_state d)).
Proof.
  intros Hs Hcur Hini Hmm Hwt Hwd Hch Hich Hf.
  set (m1 := wr32 (k_mem s) (pcb_state cur) TASK_ZOMBIE). set (par := rd32 (k_mem s) (pcb_parent cur)) in *.
  set (logs := EvPrintf "=======================\n" [] ::
    EvPrintf "process %d finished. \n" [rd32 (k_mem s) (pcb_pid cur)] :: k_log s).
  set (s1 := set_mem m1 (set_log logs (set_IF false s))).
  assert (Hcin : cur ∈ cur :: ini :: ch ++ ich) by left. assert (Hiin : ini ∈ cur :: ini :: ch ++ ich) by (right; left).
  assert (Hc1 : children m1 cur ch /\ children m1 ini ich).
  { split; (eapply children_wr32_state; [exact Hs|done|done|set_solver|done]). }
  destruct (send_chld_run ini cur ch s1 ich fuel Hs Hcur Hini (proj1 Hc1) (proj2 Hc1) Hf) as (m' & R & C1 & C2 & C3).
  assert (Ep : rd32 m1 (pcb_parent cur) = par).
  { unfold m1, pcb_state. rewrite rd32_wr32_ne; [done|]. rewrite <- (Z.add_0_r cur) at 1.
    eapply (pcb_fields_wd _ _ _ _ _ Hs); [done..|lia|lia|right; lia]. }
  assert (Ew : (rd32 m1 (pcb_waitstate par) =? WT_CHILD) = false).
  { apply Z.eqb_neq. unfold m1. by rewrite rd32_wr32_ne. }
  exists m', logs. split; [|split; [|split; [exact C1|split; [exact C2|]]]].
  - unfold do_exit, send_chld_to_init, printf, emit. unfold mbind at 1, K_bind at 1. rewrite (proj1 (atom_section s)). krun.
    rewrite Hcur, Hmm. change (delete_mm fuel NULL) with (mret (M:=K) tt). krun. rewrite Hcur. fold m1. rewrite Ep, Ew. cbn [negb]. krun.
    change (set_mem m1 _) with s1.
    rewrite R. assert (Ea : atom_enable_intr (if k_IF s then 1 else 0) (set_mem m' s1) = Ok tt (set_log logs (set_mem m' s))).
    { pose proof (proj2 (atom_section (set_log logs (set_mem m' s))) (set_IF false (set_log logs (set_mem m' s))) eq_refl) as E.
      cbn [k_IF set_mem set_log] in E. destruct s. exact E. }
    by rewrite Ea.
  - rewrite C3 by (done || (intros ->; by pose proof (ps_nodup _ Hs) as [? _]%NoDup_cons; set_solver)).
    by apply rd32_wr32_small.
  - intros d Hd. pose proof (ps_nodup _ Hs) as Hn. rewrite !NoDup_cons in Hn. destruct Hn as (N1 & N2 & _).
    rewrite C3; [|set_solver|set_solver]. cbn. unfold m1. apply rd32_wr32_ne. unfold pcb_state.
    rewrite <- (Z.add_0_r cur), <- (Z.add_0_r d).
    eapply (pcb_fields_wd _ _ _ _ _ Hs); [done|set_solver|lia|lia|left; set_solver].
Qed.

(** * Wait *)
Section Wait.
Variable sched : K unit.

Definition has_pid (m : memory) (pid p : Z) : bool := s32 (rd32 m (pcb_pid p)) =? pid.
Definition child_of (m : memory) (cur p : Z) : bool := rd32 m (pcb_parent p) =? cur.
Definition zombie (m : memory) (p : Z) : bool := rd32 m (pcb_state p) =? TASK_ZOMBIE.

(** The nodes of [ps] are apart from the head and are those of words. *)
Definition list_words (ps : list Z) : Prop := forall p, p ∈ ps -> pcb_node p <> proc_list /\ 0 <= p < 2 ^ 32.

Lemma waitpid_one_stretch s pid ps : forall a k,
  dseg (k_mem s) a (pcb_node <$> ps) proc_list -> list_words ps -> (length ps < k)%nat ->
  waitpid_one fuel sched k (rd32 (k_mem s) (node_next a)) pid s =
  match List.find (has_pid (k_mem s) pid) ps with
  | None => Ok 0 s
  | Some c => if child_of (k_mem s) (k_current s) c then waitpid_zombie fuel sched fuel c s
              else (printf "waitpid wrong!\n" [];; mret (-1)) s
  end.
Proof.
  induction ps as [|p ps IH]; intros a k Hd Hw Hk; (destruct k as [|k]; cbn [length] in Hk; [lia|]);
    cbn [fmap list_fmap dseg] in Hd; cbn [waitpid_one List.find].
  - destruct Hd as [Hn _]. unfold node_next. rewrite Hn, Z.eqb_refl. done.
  - destruct Hd as [[Hn _] Hd]. destruct (Hw p ltac:(left)) as [H1 H2].
    assert (Hw' : list_words ps) by (intros q Hq; apply Hw; by right).
    assert (En : rd32 (k_mem s) (node_next a) = pcb_node p) by exact Hn. rewrite !En, (proj2 (Z.eqb_neq _ _) H1). cbn [negb]. rewrite pcb_of_pcb_node by done. krun.
    unfold has_pid at 1. destruct (s32 _ =? pid); krun; [|by apply IH; [..|lia]].
    unfold child_of. by destruct (rd32 (k_mem s) (pcb_parent p) =? k_current s).
Qed.

(** The scan for any zombie child; [has] when a child came before. *)
Lemma waitpid_any_stretch s ps : forall a k chd has,
  dseg (k_mem s) a (pcb_node <$> ps) proc_list -> list_words ps -> (length ps < k)%nat ->
  match List.find (fun p => child_of (k_mem s) (k_current s) p && zombie (k_mem s) p) ps with
  | Some c => waitpid_any fuel sched k (rd32 (k_mem s) (node_next a)) chd has s = recycle_child fuel c s
  | None => forallb (fun p => negb (child_of (k_mem s) (k_current s) p)) ps = true -> has = 0 ->
      waitpid_any fuel sched k (rd32 (k_mem s) (node_next a)) chd has s = (printf "waitpid wrong!\n" [];; mret (-1)) s
  end.
Proof.
  induction ps as [|p ps IH]; intros a k chd has Hd Hw Hk; (destruct k as [|k]; cbn [length] in Hk; [lia|]);
    cbn [fmap list_fmap dseg] in Hd; cbn [waitpid_any List.find forallb].
  - destruct Hd as [Hn _]. unfold node_next. rewrite Hn, Z.eqb_refl. cbn [negb]. by intros _ ->.
  - destruct Hd as [[Hn _] Hd]. destruct (Hw p ltac:(left)) as [H1 H2].
    assert (Hw' : list_words ps) by (intros q Hq; apply Hw; by right).
    assert (En : rd32 (k_mem s) (node_next a) = pcb_node p) by exact Hn. rewrite !En, (proj2 (Z.eqb_neq _ _) H1). cbn [negb]. rewrite pcb_of_pcb_node by done. krun.
    pose proof (fun chd' has' => IH (pcb_node p) k chd' has' Hd Hw' ltac:(lia)) as IH'. clear IH.
    change (rd32 (k_mem s) (pcb_parent p) =? k_current s) with (child_of (k_mem s) (k_current s) p).
    destruct (child_of _ _ p); krun; [change (rd32 (k_mem s) (pcb_state p) =? TASK_ZOMBIE) with (zombie (k_mem s) p);
      destruct (zombie _ p)|]; cbn [andb negb]; krun; try done;
      (destruct (List.find _ ps) as [c|]; [apply IH'|]); done || apply IH'.
Qed.

Lemma waitpid_run s ps pid :
  dlist (k_mem s) proc_list (pcb_node <$> ps) -> list_words ps -> (length ps < fuel)%nat -> pid <> 0 ->
  let s1 := set_log (EvPrintf "waitpid %d begin...\n" [pid] :: k_log s) s in
  do_waitpid fuel sched pid s =
  match List.find (has_pid (k_mem s) pid) ps with
  | None => Ok 0 s1
  | Some c =>
      if negb (child_of (k_mem s) (k_current s) c) then Ok (-1) (set_log (EvPrintf "waitpid wrong!\n" [] :: k_log s1) s1)
      else if zombie (k_mem s) c then recycle_child fuel c s1
      else (sched;; waitpid_zombie fuel sched (pred fuel) c) s1
  end.
Proof.
  intros [_ Hd] Hw Hf Hp s1. pose proof (waitpid_one_stretch s1 pid ps proc_list fuel Hd Hw Hf) as R.
  unfold do_waitpid, printf, emit. krun. rewrite (proj2 (Z.eqb_neq _ _) Hp). fold s1. change (k_mem s) with (k_mem s1). rewrite R.
  destruct (List.find _ ps) as [c|]; [|done]. change (k_current s) with (k_current s1).
  destruct (child_of _ _ c); [|done]. cbn [negb]. destruct fuel as [|k]; [lia|]. cbn [waitpid_zombie pred]. krun.
  unfold zombie. by destruct (rd32 (k_mem s1) (pcb_state c) =? TASK_ZOMBIE).
Qed.

(** C29: Waiting for the process numbered [pid]: the first one in the list counts.
    Nothing happens when there is none; a process of another parent is an error; a
    zombie child is recycled; for a living child the others are scheduled and then it is
    looked at again. *)
Theorem waitpid_branches s ps pid :
  dlist (k_mem s) proc_list (pcb_node <$> ps) -> list_words ps -> (length ps < fuel)%nat -> pid <> 0 ->
  let s1 := set_log (EvPrintf "waitpid %d begin...\n" [pid] :: k_log s) s in
  do_waitpid fuel sched pid s =
  match List.find (has_pid (k_mem s) pid) ps with
  | None => Ok 0 s1
  | Some c =>
      if negb (child_of (k_mem s) (k_current s) c) then Ok (-1) (set_log (EvPrintf "waitpid wrong!\n" [] :: k_log s1) s1)
      else if zombie (k_mem s) c then recycle_child fuel c s1
      else (sched;; waitpid_zombie fuel sched (pred fuel) c) s1
  end.
Proof. apply waitpid_run. Qed.

(** Waiting for any child: the first zombie child in the list is recycled, and
    a process without children is told so at once. *)
Theorem waitpid_any_branches s ps :
  dlist (k_mem s) proc_list (pcb_node <$> ps) -> list_words ps -> (length ps < fuel)%nat ->
  let s1 := set_log (EvPrintf "waitpid %d begin...\n" [0] :: k_log s) s in
  (forall c, List.find (fun p => child_of (k_mem s) (k_current s) p && zombie (k_mem s) p) ps = Some c ->
    do_waitpid fuel sched 0 s = recycle_child fuel c s1) /\
  (forallb (fun p => negb (child_of (k_mem s) (k_current s) p)) ps = true ->
    do_waitpid fuel sched 0 s = Ok (-1) (set_log (EvPrintf "waitpid wrong!\n" [] :: k_log s1) s1)).
Proof.
  intros [_ Hd] Hw Hf s1. pose proof (waitpid_any_stretch s1 ps proc_list fuel 0 0 Hd Hw Hf) as R.
  unfold do_waitpid, printf, emit. krun. change (0 =? 0) with true. cbn iota. fold s1.
  change (k_mem s) with (k_mem s1). change (k_current s) with (k_current s1). split.
  - intros c Hc. rewrite Hc in R. exact R.
  - intros Hn. destruct (List.find _ ps) as [c|] eqn:E; [|by rewrite R].
    apply List.find_some in E as [Hin Hc]. rewrite forallb_forall in Hn. specialize (Hn c Hin).
    apply andb_prop in Hc as [Hc _]. by rewrite Hc in Hn.
Qed.

End Wait.

End Life.
