(* ===== verification/Fork.v ===== *)
(** The creation of a kernel thread from one end to the other ([kernel_thread] and
    [do_fork] of schedule/process/proc.c): the block from the heap, the stack from
    the free pages, the number, the list and the family, over the invariant of
    the memory managers. *)

From S2P Require Import Prelude Machine DList Str Pmm Paging Ports Swap Malloc Vmm Kernel Pid Proc Sched Traps User Life.

Local Open Scope Z_scope.

Section Fork.
Context `{Symbols}.

(** The frame and the context a thread starts from: the return path of the
    interrupt stubs, and behind it [kernel_thread_entry] in the kernel's segments
    with interrupts on. *)
Definition starts_at (m : memory) (p f fn arg : Z) : Prop :=
  rd32 m (pcb_context_eip p) = context_to_intr /\ rd32 m (pcb_context_esp p) = f /\ rd32 m (pcb_frame p) = f /\
  rd32 m (frame_eip f) = kernel_thread_entry_addr /\ rd32 m (frame_cs f) = 0x08 /\ rd32 m (frame_eflags f) = 0x200 /\
  rd32 m (frame_ebx f) = fn /\ rd32 m (frame_edx f) = arg.

Lemma starts_at_ext m m' p f fn arg : (forall i, i = 24 \/ i = 52 \/ i = 56 -> rd32 m' (p + i) = rd32 m (p + i)) ->
  (forall i, 0 <= i <= 60 -> rd32 m' (f + i) = rd32 m (f + i)) -> starts_at m p f fn arg -> starts_at m' p f fn arg.
Proof. intros Hp Hf. unfold starts_at. pcb_unfold. unfold frame_eip, frame_cs, frame_eflags, frame_ebx, frame_edx. rewrite !Hp, !Hf by lia. done. Qed.

(** * The memory of a new thread

    [m] after the block [p] and the stack are there; the thread is numbered,
    linked into the list and given its frame at [f] and its family. *)
Section Memory.
Context (m : memory) (idle cur p f lo pid : Z) (ps ch : list Z).
Hypothesis Hsep : pcbs_sep (p :: idle :: ps).
Hypothesis Hlist : dlist m proc_list (pcb_node <$> ps).
Hypothesis Hhead : VERTUAL_MEM + PAGE_SIZE <= proc_list /\ proc_list + 8 < 2 ^ 32 /\ proc_list + 8 - VERTUAL_MEM <= lo.
Hypothesis Hlo : forall q, q ∈ p :: idle :: ps -> lo <= ka q.
Hypothesis Hf : span f sizeof_idtframe /\ lo <= ka f /\
  forall q, q ∈ p :: idle :: ps -> ka q + sizeof_pcb <= ka f \/ ka f + sizeof_idtframe <= ka q.
Hypothesis Hcur : cur ∈ idle :: ps.
Hypothesis Hch : forall c, c ∈ ch -> c ∈ idle :: ps.
Hypothesis Hnd : NoDup (cur :: ch).
Hypothesis Hfam : children m cur ch.
Hypothesis Hypt : rd32 m (pcb_yptr p) = NULL.

Let F := p :: idle :: ps.

Lemma head_ka i : 0 <= i < 8 -> ka (proc_list + i) = proc_list + i - VERTUAL_MEM.
Proof. intros. apply ka_high. unfold VERTUAL_MEM, PAGE_SIZE in *. lia. Qed.

Lemma head_field_wd i q j : 0 <= i <= 4 -> q ∈ F -> 0 <= j <= 88 -> wd (proc_list + i) (q + j).
Proof.
  intros Hi Hq Hj. unfold wd. rewrite head_ka by lia. rewrite (pcb_field_ka F q) by done.
  pose proof (Hlo q Hq). lia.
Qed.

Lemma frame_ka i : 0 <= i <= 60 -> ka (f + i) = ka f + i.
Proof. intros. apply (ka_span f sizeof_idtframe); [apply Hf|]. unfold sizeof_idtframe. lia. Qed.

Lemma frame_field_wd i q j : 0 <= i <= 60 -> q ∈ F -> 0 <= j <= 88 -> wd (f + i) (q + j).
Proof.
  intros Hi Hq Hj. unfold wd. rewrite frame_ka by lia. rewrite (pcb_field_ka F q) by done.
  destruct Hf as (_ & _ & Hap). specialize (Hap q Hq). unfold sizeof_pcb, sizeof_idtframe in *. lia.
Qed.

Lemma frame_head_wd i j : 0 <= i <= 60 -> 0 <= j <= 4 -> wd (f + i) (proc_list + j).
Proof. intros Hi Hj. unfold wd. rewrite frame_ka, head_ka by lia. destruct Hf as (_ & ? & _). lia. Qed.

Lemma null_head_wd i j : 0 <= i <= 88 -> 0 <= j <= 4 -> wd (0 + i) (proc_list + j).
Proof.
  intros Hi Hj. unfold wd. rewrite head_ka by lia. rewrite ka_low by (unfold VERTUAL_MEM; lia).
  unfold PAGE_SIZE, VERTUAL_MEM in *. lia.
Qed.

(** The list with the new node in front is apart from everything else. *)
Lemma thread_nodes_sep : nodes_sep (proc_list :: (pcb_node <$> p :: ps)).
Proof.
  assert (Hin : forall x, x ∈ proc_list :: (pcb_node <$> p :: ps) -> x = proc_list + 0 \/ exists q, x = q + 76 /\ q ∈ F /\ q ∈ p :: ps).
  { intros x [->|(q & -> & Hq)%list_elem_of_fmap]%elem_of_cons; [left; lia|right]. exists q. split; [done|split; [|done]].
    unfold F. apply elem_of_cons in Hq as [->|Hq]; [left|right; by right]. }
  assert (Hhq : forall i q, 0 <= i <= 4 -> q ∈ F -> wd (proc_list + i) (q + 76) /\ wd (proc_list + i) (q + 80)).
  { intros i q Hi Hq. split; apply head_field_wd; done || lia. }
  assert (Hhh : wd (proc_list + 4) proc_list).
  { pose proof (head_ka 0 ltac:(lia)) as K0. pose proof (head_ka 4 ltac:(lia)) as K4. rewrite Z.add_0_r in K0. unfold wd. lia. }
  assert (Hqq : forall q r i j, q ∈ F -> r ∈ F -> 76 <= i <= 80 -> 76 <= j <= 80 -> q <> r \/ i + 4 <= j \/ j + 4 <= i -> wd (q + i) (r + j)).
  { intros. eapply (pcb_fields_wd F); [exact Hsep|done|done|lia|lia|done]. }
  constructor.
  - apply NoDup_cons. split.
    + intros (q & E & Hq)%list_elem_of_fmap. assert (q ∈ F) as HqF by (unfold F; apply elem_of_cons in Hq as [->|Hq]; [left|right; by right]). unfold pcb_node in E.
      pose proof (Hlo q HqF). pose proof (pcb_field_ka F q 76 Hsep HqF ltac:(lia)) as K. rewrite <- E in K.
      pose proof (head_ka 0 ltac:(lia)) as K0. rewrite Z.add_0_r in K0. lia.
    + apply (NoDup_fmap_2_strong pcb_node); [unfold pcb_node; intros; lia|].
      pose proof (ps_nodup _ Hsep) as N. apply NoDup_cons in N as [N1 N].
      apply NoDup_cons in N as [N2 N3]. apply NoDup_cons. split; [intros ?; apply N1; by right|done].
  - intros x [->|(q & -> & Hq & _)]%Hin; [unfold VERTUAL_MEM, PAGE_SIZE in *; lia|].
    pose proof (ps_span _ Hsep q Hq) as [Hs _]. unfold span, sizeof_pcb, VERTUAL_MEM in *. lia.
  - intros x y [->|(q & -> & Hq & _)]%Hin [->|(r & -> & Hr & _)]%Hin; rewrite ?Z.add_0_r, <- ?Z.add_assoc; try done.
    + by apply (Hhq 4).
    + apply wd_sym. rewrite <- (Z.add_0_r proc_list). apply (Hhq 0); done || lia.
    + apply Hqq; done || lia.
  - intros x y [->|(q & -> & Hq & _)]%Hin [->|(r & -> & Hr & _)]%Hin Hne; try done.
    + apply Hhq; done || lia.
    + apply wd_sym. apply Hhq; done || lia.
    + apply Hqq; done || lia.
  - intros x y [->|(q & -> & Hq & _)]%Hin [->|(r & -> & Hr & _)]%Hin Hne; rewrite ?Z.add_0_r, <- ?Z.add_assoc; try done.
    + apply Hhq; done || lia.
    + apply wd_sym. apply Hhq; done || lia.
    + apply Hqq; done || lia.
Qed.

(** ** Numbered and in the list *)
Let m1 : memory := wr32 (wr32 m (pcb_pid p) pid) (pcb_parent p) cur.
Let m2 : memory := list_insert_after proc_list (pcb_node p) m1.

Lemma p_in_F : p ∈ F.
Proof. left. Qed.

Lemma old_in_F q : q ∈ idle :: ps -> q ∈ F.
Proof. intros. by right. Qed.

Lemma old_ne q : q ∈ idle :: ps -> q <> p.
Proof. intros Hq ->. pose proof (ps_nodup _ Hsep) as [N _]%NoDup_cons. done. Qed.

Lemma cur_word : 0 <= cur < 2 ^ 32.
Proof. eapply pcb_word; [exact Hsep|by apply old_in_F]. Qed.

(** Fields that are not links of the list. *)
Lemma field_off_nodes q i : q ∈ F -> 0 <= i <= 72 -> off_nodes (proc_list :: (pcb_node <$> p :: ps)) (q + i).
Proof.
  intros Hq Hi x [->|(r & -> & Hr)%list_elem_of_fmap]%elem_of_cons.
  - split; [rewrite <- (Z.add_0_r proc_list)|]; apply head_field_wd; done || lia.
  - assert (r ∈ F) as HrF by (apply elem_of_cons in Hr as [->|Hr]; [left|right; by right]).
    unfold pcb_node. rewrite <- Z.add_assoc.
    split; (eapply (pcb_fields_wd F); [exact Hsep|done|done|lia|lia|right; lia]).
Qed.

Lemma thread_linked : dlist m2 proc_list (pcb_node <$> p :: ps) /\
  forall a, off_nodes (proc_list :: (pcb_node <$> p :: ps)) a -> rd32 m2 a = rd32 m1 a.
Proof.
  assert (Ho : forall i, 0 <= i <= 72 -> off_nodes (proc_list :: (pcb_node <$> ps)) (p + i)).
  { intros i Hi. apply (off_nodes_sub (proc_list :: (pcb_node <$> p :: ps))); [|apply field_off_nodes; [left|done]].
    intros x Hx. rewrite fmap_cons. apply elem_of_cons in Hx as [->|Hx]; [left|right; by right]. }
  assert (Hd1 : dlist m1 proc_list ([] ++ (pcb_node <$> ps))).
  { unfold m1. apply dlist_wr32; [apply (Ho 12); lia|]. apply dlist_wr32; [apply (Ho 4); lia|]. exact Hlist. }
  exact (list_insert_after_spec m1 proc_list [] _ (pcb_node p) Hd1 thread_nodes_sep).
Qed.

Lemma own_wd i j : 0 <= i <= 88 -> 0 <= j <= 88 -> i + 4 <= j \/ j + 4 <= i -> wd (p + i) (p + j).
Proof. intros. eapply (pcb_fields_wd F); [exact Hsep|left|left|lia|lia|by right]. Qed.

Lemma own_old_wd i q j : 0 <= i <= 88 -> 0 <= j <= 88 -> q ∈ idle :: ps -> wd (p + i) (q + j).
Proof.
  intros Hi Hj Hq. eapply (pcb_fields_wd F); [exact Hsep|left|by apply old_in_F|lia|lia|left].
  apply not_eq_sym. by apply old_ne.
Qed.

Lemma linked_own i : 0 <= i <= 72 -> i = 0 \/ i = 8 \/ 16 <= i -> rd32 m2 (p + i) = rd32 m (p + i).
Proof.
  intros Hi Hc. rewrite (proj2 thread_linked) by (apply field_off_nodes; [left|done]).
  unfold m1, pcb_pid, pcb_parent. rewrite !rd32_wr32_ne by (apply own_wd; lia). done.
Qed.

Lemma linked_old q i : q ∈ idle :: ps -> 0 <= i <= 72 -> rd32 m2 (q + i) = rd32 m (q + i).
Proof.
  intros Hq Hi. rewrite (proj2 thread_linked) by (apply field_off_nodes; [by apply old_in_F|done]).
  unfold m1, pcb_pid, pcb_parent. rewrite !rd32_wr32_ne by (apply own_old_wd; done || lia). done.
Qed.

Lemma linked_new : rd32 m2 (p + 4) = w32 pid /\ rd32 m2 (p + 12) = cur.
Proof.
  rewrite !(proj2 thread_linked) by (apply field_off_nodes; [left|lia]). unfold m1, pcb_pid, pcb_parent. split.
  - rewrite rd32_wr32_ne by (apply own_wd; lia). apply rd32_wr32_eq.
  - apply rd32_wr32_small, cur_word.
Qed.

Lemma linked_family : children m2 cur ch.
Proof.
  apply (children_frame m); [apply linked_old; done || lia|intros c Hc; split_and!; apply linked_old; auto; lia|done].
Qed.

(** The frame is copied to [f]. *)
Lemma thread_framed sx fuel fn arg flags :
  k_mem sx = m2 -> rd32 m (pcb_mm cur) = NULL -> rd32 m (pcb_start_stack p) - sizeof_idtframe = f ->
  0 <= context_to_intr < 2 ^ 32 -> 0 <= kernel_thread_entry_addr < 2 ^ 32 -> 0 <= fn < 2 ^ 32 -> 0 <= arg < 2 ^ 32 ->
  exists m3, copy_mm fuel p flags (rd32 m2 (pcb_mm cur)) sx = Ok 0 sx /\
    copy_thread fuel p 0 (mret (kernel_frame fn arg)) sx = Ok tt (set_mem m3 sx) /\ starts_at m3 p f fn arg /\
    forall x, (forall i, 0 <= i <= 60 -> wd (f + i) x) -> (forall i, i = 24 \/ i = 52 \/ i = 56 -> wd (p + i) x) ->
      rd32 m3 x = rd32 m2 x.
Proof.
  intros Esx Emm Est Hc Hk Hfn Harg.
  assert (Ef : rd32 (k_mem sx) (pcb_start_stack p) - sizeof_idtframe = f).
  { rewrite Esx. unfold pcb_start_stack in *. rewrite linked_own by lia. exact Est. }
  pose proof (kernel_thread_starts fuel p fn arg sx) as T. cbn zeta in T. rewrite Ef in T. destruct Hf as (Hs & _ & Ha).
  destruct T as (m3 & R & E1 & E2 & E3 & E4 & E5 & E6 & E7 & E8 & F3); try assumption.
  - apply (ps_span _ Hsep). left.
  - destruct (Ha p p_in_F); [by right|by left].
  - exists m3. split; [|split; [exact R|split; [by split_and!|by rewrite <- Esx]]].
    unfold copy_mm, pcb_mm in *. rewrite linked_old by (lia || done). rewrite Emm. done.
Qed.

(** ** With its frame, in the family and runnable *)
Context (m3 : memory).
Hypothesis Hm3 : forall x, (forall i, 0 <= i <= 60 -> wd (f + i) x) -> (forall i, i = 24 \/ i = 52 \/ i = 56 -> wd (p + i) x) ->
  rd32 m3 x = rd32 m2 x.

Let elder : Z := after NULL ch.
Let m4 : memory := wr32 (wr32 (wr32 m3 (pcb_optr p) elder) (pcb_cptr cur) p) (pcb_yptr elder) p.
Let m5 : memory := wr32 m4 (pcb_state p) TASK_RUNNABLE.

Lemma framed_own i : 0 <= i <= 80 -> i + 4 <= 24 \/ 28 <= i /\ i + 4 <= 52 \/ 60 <= i -> rd32 m3 (p + i) = rd32 m2 (p + i).
Proof. intros Hi Hc. apply Hm3; [intros; apply frame_field_wd; [done|left|lia]|intros j Hj; apply own_wd; lia]. Qed.

Lemma framed_old q i : q ∈ idle :: ps -> 0 <= i <= 80 -> rd32 m3 (q + i) = rd32 m2 (q + i).
Proof.
  intros Hq Hi. apply Hm3; [intros; apply frame_field_wd; [done|by apply old_in_F|lia]|intros j Hj; apply own_old_wd; done || lia].
Qed.

Lemma framed_head i : 0 <= i <= 4 -> rd32 m3 (proc_list + i) = rd32 m2 (proc_list + i).
Proof.
  intros Hi. apply Hm3; [intros; by apply frame_head_wd|]. intros j Hj. apply wd_sym. apply head_field_wd; [done|left|lia].
Qed.

(** The parent, the child and its brothers. *)
Lemma family_sep : pcbs_sep (cur :: p :: ch).
Proof.
  apply (pcbs_sep_sub F); [exact Hsep| |].
  - apply NoDup_cons in Hnd as [N1 N2]. apply NoDup_cons. split; [|apply NoDup_cons; split; [|done]].
    + intros [E|Hc]%elem_of_cons; [by apply (old_ne cur)|done].
    + intros Hc. by apply (old_ne p); [apply Hch|].
  - intros x [->|[->|Hx]%elem_of_cons]%elem_of_cons; [by apply old_in_F|left|by apply old_in_F, Hch].
Qed.

Lemma framed_family : rd32 m3 (pcb_parent p) = cur /\ children m3 cur ch.
Proof.
  split; [unfold pcb_parent; rewrite framed_own by lia; apply linked_new|].
  apply (children_frame m2); [apply framed_old; done || lia|intros c Hc; split_and!; apply framed_old; auto; lia|exact linked_family].
Qed.

Lemma family_run sx : do_fork_link p (set_mem m3 sx) = Ok tt (set_mem m4 sx).
Proof. destruct framed_family as [Hp Hfam3]. by rewrite (do_fork_link_run (set_mem m3 sx) cur p ch family_sep Hp Hfam3). Qed.

Lemma family_new : children m4 cur (p :: ch) /\
  forall a, wd (pcb_optr p) a -> wd (pcb_cptr cur) a -> wd (pcb_yptr elder) a -> rd32 m4 a = rd32 m3 a.
Proof.
  destruct framed_family as [Hp Hfam3].
  assert (Hy : rd32 m3 (pcb_yptr p) = NULL) by (unfold pcb_yptr; rewrite framed_own, linked_own by lia; exact Hypt).
  destruct (do_fork_link_adds (set_mem m3 blank_state) cur p ch family_sep Hp Hy Hfam3) as (m' & R & C & F0).
  rewrite family_run in R. injection R as <-.
  split; [exact C|exact F0].
Qed.

Lemma elder_cases : elder = 0 \/ elder ∈ idle :: ps.
Proof. unfold elder. destruct (after_null_cases ch) as [E|E]; [by left|right; by apply Hch]. Qed.

Lemma last_stores x : wd (p + 72) x -> wd (cur + 64) x -> wd (elder + 68) x -> wd p x -> rd32 m5 x = rd32 m3 x.
Proof. intros W1 W2 W3 W4. unfold m5. rewrite rd32_wr32_ne by exact W4. by apply family_new. Qed.

(** The last stores leave the fields from 4 to 60 and the links of the list. *)
Lemma last_field q i : q ∈ F -> 4 <= i <= 60 \/ 76 <= i <= 80 -> rd32 m5 (q + i) = rd32 m3 (q + i).
Proof.
  intros Hq Hi. apply last_stores.
  - eapply (pcb_fields_wd F); [exact Hsep|left|done|lia|lia|right; lia].
  - eapply (pcb_fields_wd F); [exact Hsep|by apply old_in_F|done|lia|lia|right; lia].
  - destruct elder_cases as [-> |E]; [eapply (null_field_wd F); [exact Hsep|done|lia|lia]|].
    eapply (pcb_fields_wd F); [exact Hsep|by apply old_in_F|done|lia|lia|right; lia].
  - rewrite <- (Z.add_0_r p). eapply (pcb_fields_wd F); [exact Hsep|left|done|lia|lia|right; lia].
Qed.

Lemma last_state q : q ∈ idle :: ps -> rd32 m5 q = rd32 m3 q.
Proof.
  intros Hq. rewrite <- (Z.add_0_r q). apply last_stores.
  - apply own_old_wd; done || lia.
  - eapply (pcb_fields_wd F); [exact Hsep|by apply old_in_F|by apply old_in_F|lia|lia|right; lia].
  - destruct elder_cases as [-> |E]; [eapply (null_field_wd F); [exact Hsep|by apply old_in_F|lia|lia]|].
    eapply (pcb_fields_wd F); [exact Hsep|by apply old_in_F|by apply old_in_F|lia|lia|right; lia].
  - rewrite <- (Z.add_0_r p) at 1. apply own_old_wd; done || lia.
Qed.

Lemma last_apart x : (forall q i, q ∈ F -> 0 <= i <= 88 -> wd (q + i) x) -> (forall i, 0 <= i <= 88 -> wd (0 + i) x) ->
  rd32 m5 x = rd32 m3 x.
Proof.
  intros W Wn. apply last_stores.
  - apply W; [left|lia].
  - apply W; [by apply old_in_F|lia].
  - destruct elder_cases as [-> |E]; [apply Wn; lia|apply W; [by apply old_in_F|lia]].
  - rewrite <- (Z.add_0_r p) at 1. apply W; [left|lia].
Qed.

(** The frame and the head of the list are apart from the blocks. *)
Lemma last_frame i : 0 <= i <= 60 -> rd32 m5 (f + i) = rd32 m3 (f + i).
Proof.
  intros Hi. apply last_apart; [intros q j Hq Hj; apply wd_sym, frame_field_wd; done|].
  intros j Hj. unfold wd. rewrite frame_ka by lia. rewrite ka_low by (unfold VERTUAL_MEM; lia).
  pose proof (head_ka 0 ltac:(lia)). destruct Hf as (_ & ? & _). unfold PAGE_SIZE, VERTUAL_MEM in *. lia.
Qed.

Lemma last_head i : 0 <= i <= 4 -> rd32 m5 (proc_list + i) = rd32 m2 (proc_list + i).
Proof.
  intros Hi. rewrite last_apart; [by apply framed_head|intros q j Hq Hj; apply wd_sym, head_field_wd; done|].
  intros j Hj. by apply null_head_wd.
Qed.

Lemma node_field q : q ∈ F -> (rd32 m5 (q + 76) = rd32 m2 (q + 76)) /\ rd32 m5 (q + 80) = rd32 m2 (q + 80).
Proof.
  intros Hq. rewrite !last_field by (done || lia). apply elem_of_cons in Hq as [->|Hq].
  - split; apply framed_own; lia.
  - split; apply framed_old; done || lia.
Qed.

(** The result: list, family, state, number, frame; what the other processes
    have is kept, and every word apart from all of these. *)
Lemma thread_memory :
  dlist m5 proc_list (pcb_node <$> p :: ps) /\ children m5 cur (p :: ch) /\ rd32 m5 (pcb_state p) = TASK_RUNNABLE /\
  rd32 m5 (pcb_pid p) = w32 pid /\ rd32 m5 (pcb_parent p) = cur /\
  (forall i, i = 24 \/ i = 52 \/ i = 56 -> rd32 m5 (p + i) = rd32 m3 (p + i)) /\
  (forall i, 0 <= i <= 60 -> rd32 m5 (f + i) = rd32 m3 (f + i)) /\
  rd32 m5 (pcb_start_stack p) = rd32 m (pcb_start_stack p) /\
  (forall q i, q ∈ idle :: ps -> i = 0 \/ 4 <= i <= 60 -> rd32 m5 (q + i) = rd32 m (q + i)) /\
  forall x, (forall q i, q ∈ F -> 0 <= i <= 88 -> wd (q + i) x) -> (forall i, 0 <= i <= 4 -> wd (proc_list + i) x) ->
    (forall i, 0 <= i <= 60 -> wd (f + i) x) -> (forall i, 0 <= i <= 88 -> wd (0 + i) x) -> rd32 m5 x = rd32 m x.
Proof.
  split; [|split; [|split; [|split; [|split; [|split; [|split; [|split; [|split]]]]]]]].
  - apply (dlist_frame m2); [|apply thread_linked]. intros a (x & [->|(q & -> & Hq)%list_elem_of_fmap]%elem_of_cons & Ha).
    + destruct Ha as [-> | ->]; [rewrite <- (Z.add_0_r proc_list)|]; by apply last_head.
    + assert (q ∈ F) as HqF by (apply elem_of_cons in Hq as [->|Hq]; [left|right; by right]).
      unfold pcb_node in Ha. destruct Ha as [-> | ->]; [|rewrite <- Z.add_assoc]; by apply node_field.
  - unfold m5. apply (children_wr32_state m4 cur (p :: ch) p TASK_RUNNABLE (cur :: p :: ch)); [exact family_sep|right; left|left| |apply family_new].
    intros d Hd. by right.
  - by apply rd32_wr32_small.
  - unfold pcb_pid. rewrite last_field, framed_own by (apply p_in_F || lia). apply linked_new.
  - unfold pcb_parent. rewrite last_field, framed_own by (apply p_in_F || lia). apply linked_new.
  - intros i Hi. apply last_field; [left|lia].
  - exact last_frame.
  - unfold pcb_start_stack. by rewrite last_field, framed_own, linked_own by (apply p_in_F || lia).
  - intros q i Hq Hi. rewrite <- linked_old, <- framed_old by (done || lia). destruct Hi as [-> |Hi].
    + rewrite Z.add_0_r. by apply last_state.
    + apply last_field; [by apply old_in_F|lia].
  - intros x W1 W2 W3 W4. rewrite last_apart, Hm3; [|exact W3|intros; apply W1; [left|lia]|exact W1|exact W4].
    rewrite (proj2 thread_linked).
    + unfold m1, pcb_pid, pcb_parent. rewrite !rd32_wr32_ne; [done|apply W1; [left|lia]..].
    + intros y [->|(q & -> & Hq)%list_elem_of_fmap]%elem_of_cons.
      * split; [rewrite <- (Z.add_0_r proc_list)|]; by apply W2.
      * assert (q ∈ F) as HqF by (apply elem_of_cons in Hq as [->|Hq]; [left|right; by right]).
        unfold pcb_node. rewrite <- Z.add_assoc. split; apply W1; done || lia.
Qed.

End Memory.

(** * Processes in the heap *)

(** [p] is a process control block: the payload of a chunk in use. *)
Definition block_of (cs : list chunk) (p : Z) : Prop :=
  exists d, d ∈ cs /\ ck_used d = true /\ ck_size d = sizeof_pcb /\ p = ck_addr d + sizeof_Chunk.

(** The process table over the memory managers: [ps] is the list of processes,
    the newest first, [idle] the one that is in no list. *)
Record table (N : Z) (s : kst) (bs : list block) (cs : list chunk) (idle : Z) (ps : list Z) : Prop := {
  pt_kmem : kmem N s bs cs ;
  pt_list : dlist (k_mem s) proc_list (pcb_node <$> ps) ;
  pt_nodup : NoDup (idle :: ps) ;
  pt_block : forall p, p ∈ idle :: ps -> block_of cs p ;
  pt_low : VERTUAL_MEM + PAGE_SIZE <= chunk_head /\ VERTUAL_MEM + PAGE_SIZE <= free_pages_head /\
    VERTUAL_MEM + PAGE_SIZE <= proc_list ;
  pt_head : proc_list + 8 - VERTUAL_MEM <= k_pages s ;
  pt_apart : (proc_list + 8 <= chunk_head \/ chunk_head + 8 <= proc_list) /\
    (proc_list + 8 <= free_pages_head \/ free_pages_head + 8 <= proc_list)
}.

Section Blocks.
Context (N : Z) (s : kst) (bs : list block) (cs : list chunk).
Hypothesis Hk : kmem N s bs cs.
Hypothesis Hlow : VERTUAL_MEM + PAGE_SIZE <= free_pages_head.

(** Where a block lies. *)
Lemma block_at d : d ∈ cs -> ck_size d = sizeof_pcb ->
  let p := ck_addr d + sizeof_Chunk in
  k_pt_begin s + VERTUAL_MEM + 12 <= p /\
  p + sizeof_pcb < 2 ^ 32 /\ span p sizeof_pcb /\ ka p = p - VERTUAL_MEM.
Proof.
  intros Hd Hsz p. pose proof Hk as [[[] H1 [H2 H3] [H4 H5] H6] Hp Hi Hh Hfr].
  destruct (Hfr d Hd) as [Hlo _]. pose proof (hp_ok _ _ Hh) as Hok. rewrite Forall_forall in Hok. destruct (Hok d Hd) as (_ & _ & He).
  unfold ck_end in He. rewrite Hsz in He. unfold span, p, sizeof_Chunk, sizeof_pcb, sizeof_Page, PAGE_SIZE, VERTUAL_MEM in *.
  split; [lia|]. split; [lia|]. split; [lia|]. apply ka_high. unfold VERTUAL_MEM. lia.
Qed.

Lemma block_client p i : block_of cs p -> 0 <= i <= 88 -> client_word bs cs (p + i).
Proof.
  intros (d & Hd & _ & Hsz & ->) Hi. apply (payload_client N s bs cs d); [exact Hk|exact Hd|].
  unfold payload_word, ck_end. rewrite Hsz. unfold sizeof_pcb. lia.
Qed.

Lemma blocks_sep l : NoDup l -> (forall p, p ∈ l -> block_of cs p) ->
  pcbs_sep l /\ forall p, p ∈ l -> k_pt_begin s <= ka p.
Proof.
  intros Hnd Hl. pose proof (hp_sep _ _ (km_heap _ _ _ _ Hk)) as Hsep. split; [constructor|].
  - done.
  - intros p Hp. destruct (Hl p Hp) as (d & Hd & _ & Hsz & ->). destruct (block_at d Hd Hsz) as (B2 & _ & B4 & ->).
    split; [done|]. pose proof Hk as [[[] H1 [H2 H3] [H4 H5] H6] _ _ _ _]. unfold sizeof_Page, PAGE_SIZE, VERTUAL_MEM in *. lia.
  - intros p q Hp Hq Hne. destruct (Hl p Hp) as (d & Hd & _ & Hsz & ->), (Hl q Hq) as (e & He & _ & Hse & ->).
    destruct (block_at d Hd Hsz) as (_ & _ & _ & ->), (block_at e He Hse) as (_ & _ & _ & ->).
    destruct (chunks_sep_elem cs d e Hsep Hd He) as [->|Ha]; [done|].
    unfold ck_apart, ck_end in Ha. rewrite Hsz, Hse in Ha. unfold sizeof_pcb, sizeof_Chunk in *. lia.
  - intros p Hp. destruct (Hl p Hp) as (d & Hd & _ & Hsz & ->). destruct (block_at d Hd Hsz) as (B2 & _ & _ & ->). lia.
Qed.

End Blocks.

(** The scheduler's view of the table. *)
Lemma table_procs N s bs cs idle ps : table N s bs cs idle ps -> procs (k_mem s) idle ps.
Proof.
  intros [Hk Hd Hnd Hb (_ & Hl & _) _ _]. apply NoDup_cons in Hnd as [Hi Hnd].
  constructor; [done| |done]. apply (blocks_sep N s bs cs Hk Hl); [done|]. intros p Hp. apply Hb. by right.
Qed.

(** ** A new block *)
Lemma block_run N s bs cs c fuel :
  kmem N s bs cs -> VERTUAL_MEM + PAGE_SIZE <= free_pages_head -> (length cs < fuel)%nat -> 0 <= k_pd s < 2 ^ 32 ->
  List.find (ck_fits (sizeof_Chunk + sizeof_pcb)) cs = Some c ->
  let p := ck_addr c + sizeof_Chunk in let cs' := place sizeof_pcb cs in
  exists s1, create_pcb fuel s = Ok p s1 /\ s1 = set_mem (k_mem s1) s /\ kmem N s1 bs cs' /\ block_of cs' p /\
    (forall q, block_of cs q -> block_of cs' q /\ q <> p) /\
    rd32 (k_mem s1) (pcb_mm p) = NULL /\ rd32 (k_mem s1) (pcb_yptr p) = NULL /\ children (k_mem s1) p [] /\
    forall x, client_word bs cs' x -> ka x + 4 <= ka p \/ ka p + 76 <= ka x -> rd32 (k_mem s1) x = rd32 (k_mem s) x.
Proof.
  intros Hk Hlow Hf Hpd Hfind p cs'. set (d := mk_chunk (ck_addr c) true sizeof_pcb).
  destruct (kmalloc_reuse (kalloc_page fuel) N s bs cs sizeof_pcb fuel c Hk ltac:(unfold sizeof_pcb; lia) Hf Hfind)
    as (m1 & R & Hst & Hk1 & Hin & F1).
  assert (Hd : d ∈ cs').
  { pose proof (find_fits _ _ _ Hfind) as Hfits. apply find_split in Hfind as (l1 & l2 & E & Hn & _).
    unfold cs'. rewrite E, place_split by done. elt. }
  assert (Hb : block_of cs' p) by (by exists d).
  destruct (block_at N (set_mem m1 s) bs cs' Hk1 Hlow d Hd eq_refl) as (B1 & B2 & B3 & B4).
  change (ck_addr d + sizeof_Chunk) with p in B1, B2, B3, B4. kproj.
  assert (Hsep : pcbs_sep [p]).
  { apply (blocks_sep N (set_mem m1 s) bs cs' Hk1 Hlow); [apply NoDup_singleton|]. by intros q ->%list_elem_of_singleton. }
  destruct (create_pcb_blank fuel s p (set_mem m1 s) R Hsep Hpd)
    as (m2 & R2 & _ & _ & _ & E1 & _ & _ & _ & E3 & E2 & _ & _ & F2).
  exists (set_mem m2 s). split; [exact R2|]. split; [done|]. split; [|split; [exact Hb|split; [|split; [exact E1|split; [exact E2|split; [exact E3|]]]]]].
  - apply (kmem_payload N (set_mem m1 s) bs cs' d m2 Hk1 Hd). intros x Hx. apply F2.
    assert (Hw : forall i, 0 <= i <= 88 -> wd (p + i) x).
    { intros i Hi. apply Hx. unfold payload_word, ck_end, d, p, sizeof_pcb. cbn [ck_addr ck_size]. lia. }
    apply (span_words_off p 92 x) in Hw; [unfold sizeof_pcb in *; lia|lia|exact B3].
  - intros q (e & He & Hu & Hse & ->). split; [exists e; split; [by apply Hin|done]|]. intros E.
    assert (He' : e ∈ cs') by (by apply Hin).
    destruct (chunks_sep_elem cs' e d (hp_sep _ _ (km_heap _ _ _ _ Hk1)) He' Hd) as [Ed|Ha].
    + pose proof (find_fits _ _ _ Hfind) as Hfits. assert (Hc : c ∈ cs) by (by apply List.find_some in Hfind as [?%list_elem_of_In _]).
      destruct (chunks_sep_elem cs e c (hp_sep _ _ (km_heap _ _ _ _ Hk)) He Hc) as [-> |Ha].
      * unfold ck_fits in Hfits. by rewrite Hu in Hfits.
      * unfold ck_fits in Hfits. unfold ck_apart, ck_end, p, sizeof_Chunk, sizeof_pcb in *. lia.
    + unfold ck_apart, ck_end, p, d, sizeof_Chunk, sizeof_pcb in *. cbn [ck_addr ck_size] in *. lia.
  - intros x [H1 H2] Hx. cbn [k_mem set_mem]. rewrite F2 by exact Hx. by apply F1.
Qed.

(** ** A new stack *)
Lemma stack_run N s p0 k rest cs p fuel :
  kmem N s ((p0, k) :: rest) cs -> VERTUAL_MEM + PAGE_SIZE <= free_pages_head -> (2 < k)%nat -> (0 < fuel)%nat -> block_of cs p ->
  let la := frame_la s p0 in let st := la + 2 * PAGE_SIZE - 4 in
  exists s1, set_kthread_stack fuel p 0 s = Ok 0 s1 /\ pool_step s s1 /\
    kmem N s1 ((p0 + sizeof_Page * 2, (k - 2)%nat) :: rest) cs /\ rd32 (k_mem s1) (pcb_start_stack p) = st /\
    fresh_pages cs la (2 * PAGE_SIZE) /\ k_pt_begin s + VERTUAL_MEM <= la /\
    forall x, off_pool (pool_pages ((p0, k) :: rest)) x -> wd (p + 8) x -> rd32 (k_mem s1) x = rd32 (k_mem s) x.
Proof.
  intros Hk Hlow Hn Hf Hb la st.
  pose proof (alloc_page_source (swap_out fuel) fuel ltac:(lia)) as Hsrc.
  destruct (kmem_alloc (kalloc_page fuel) _ N s p0 k rest 2 cs Hk) as (s1 & R & Hst & Hk1 & Hla & Hfresh & Hlo & Hnz & F1); [lia|right; by left|].
  fold la in Hla, Hfresh, Hlo. pose proof Hfresh as [[Hr1 Hr2] _].
  assert (Hst0 : 4 <= la + 2 * PAGE_SIZE < 2 ^ 32) by (pose proof (hp_low _ _ (km_heap _ _ _ _ Hk)); unfold VERTUAL_MEM, PAGE_SIZE in *; lia).
  set (m1 := wr32 (wr32 (k_mem s1) (pcb_start_stack p) (la + 2 * PAGE_SIZE)) (pcb_start_stack p) st).
  assert (Hc : client_word ((p0 + sizeof_Page * 2, (k - 2)%nat) :: rest) cs (p + 8)) by (by apply (block_client N s1); [..|lia]).
  exists (set_mem m1 s1). split; [|split; [|split; [|split; [|split; [exact Hfresh|split; [exact Hlo|]]]]]].
  - unfold set_kthread_stack. change KTHREAD_STACK_PAGE with (Z.of_nat 2). krun. rewrite R.
    rewrite (proj2 (Z.eqb_neq _ _)) by (unfold NULL; lia). rewrite Hla. krun. change (Z.of_nat 2 * PAGE_SIZE) with (2 * PAGE_SIZE).
    assert (Et : (la + 2 * PAGE_SIZE)%w = la + 2 * PAGE_SIZE) by (apply w32_small; lia). rewrite !Et, rd32_wr32_small by lia.
    assert (Es : (la + 2 * PAGE_SIZE - 4)%w = st) by (apply w32_small; unfold PAGE_SIZE in *; lia). by rewrite Es.
  - rewrite Hst. by destruct s.
  - pose proof (kmem_wr32 N s1 _ cs (p + 8) (la + 2 * PAGE_SIZE) Hk1 Hc) as Hk2.
    exact (kmem_wr32 N _ _ cs (p + 8) st Hk2 Hc).
  - apply rd32_wr32_small. unfold st, PAGE_SIZE in *. lia.
  - intros x Hx Hw. cbn [k_mem set_mem]. unfold m1, pcb_start_stack. rewrite !rd32_wr32_ne by done. by apply F1.
Qed.

(** Words at the beginning of memory are in neither structure. *)
Lemma low_client N s bs cs x : kmem N s bs cs ->
  VERTUAL_MEM + PAGE_SIZE <= chunk_head /\ VERTUAL_MEM + PAGE_SIZE <= free_pages_head ->
  0 <= x /\ x + 4 <= PAGE_SIZE -> client_word bs cs x.
Proof.
  intros [[[] H1 [H2 H3] [H4 H5] H6] Hp Hi Hh Hfr] [L1 L2] Hx.
  pose proof (hp_ok _ _ Hh) as Hok. rewrite Forall_forall in Hok. pose proof (hp_low _ _ Hh) as [_ Hl].
  unfold PAGE_SIZE, sizeof_Page in *.
  assert (Kx : ka x = x) by (apply ka_low; unfold VERTUAL_MEM; lia).
  split; split.
  - intros n [->|(c & -> & Hn)%list_elem_of_fmap]%elem_of_cons; unfold wd; rewrite Kx.
    + rewrite !ka_high by (unfold VERTUAL_MEM in *; lia). unfold VERTUAL_MEM in *. lia.
    + destruct (Hok c Hn) as (? & ? & ?). unfold ck_node, chunk_node, ck_end, sizeof_Chunk in *.
      rewrite !ka_high by (unfold VERTUAL_MEM in *; lia). unfold VERTUAL_MEM in *. lia.
  - intros c Hn. destruct (Hok c Hn) as (? & ? & ?). unfold wd, ck_end, sizeof_Chunk in *. rewrite Kx.
    rewrite ka_high by (unfold VERTUAL_MEM in *; lia). unfold VERTUAL_MEM in *. lia.
  - intros n [->|(q & -> & Hn)%list_elem_of_fmap]%elem_of_cons; unfold wd; rewrite Kx.
    + rewrite !ka_high by (unfold VERTUAL_MEM in *; lia). unfold VERTUAL_MEM in *. lia.
    + destruct (pl_pages _ _ _ (po_pool _ _ Hp) q Hn) as (? & ? & ?). unfold pg_node, sizeof_Page in *.
      rewrite !ka_low by (unfold VERTUAL_MEM in *; lia). unfold VERTUAL_MEM in *. lia.
  - intros q Hn. destruct (pl_pages _ _ _ (po_pool _ _ Hp) q Hn) as (? & ? & ?). unfold wd, pg_flags, pg_free_pages, sizeof_Page in *.
    rewrite Kx, !ka_low by (unfold VERTUAL_MEM in *; lia). unfold VERTUAL_MEM in *. lia.
Qed.

(** The words of the process table. *)
Definition table_word (idle : Z) (ps : list Z) (x : Z) : Prop :=
  (exists q i, q ∈ idle :: ps /\ 0 <= i <= 88 /\ x = q + i) \/ x = proc_list \/ x = proc_list + 4.

Lemma head_client N s bs cs idle ps i : table N s bs cs idle ps -> forall bs' cs' s', kmem N s' bs' cs' ->
  k_pages s' = k_pages s -> 0 <= i <= 4 -> client_word bs' cs' (proc_list + i).
Proof.
  intros [_ _ _ _ (_ & _ & Hlow) Hhd [A1 A2]] bs' cs' s' Hk E Hi. unfold PAGE_SIZE, VERTUAL_MEM in *.
  apply (global_client N s'); [done|unfold VERTUAL_MEM..|lia|lia]; [lia|]. rewrite E. lia.
Qed.

(** The table after [idle] and [ps] are kept word by word. *)
Lemma table_list m m' idle ps : (forall x, table_word idle ps x -> rd32 m' x = rd32 m x) ->
  dlist m proc_list (pcb_node <$> ps) -> dlist m' proc_list (pcb_node <$> ps).
Proof.
  intros Hf. apply dlist_frame. intros a (x & [->|(q & -> & Hq)%list_elem_of_fmap]%elem_of_cons & Ha); apply Hf; [by right|left].
  unfold pcb_node in Ha. exists q. destruct Ha as [-> | ->]; [exists 76|exists 80]; (split; [by right|lia]).
Qed.

Lemma table_children m m' idle ps cur ch : (forall x, table_word idle ps x -> rd32 m' x = rd32 m x) ->
  cur ∈ idle :: ps -> (forall c, c ∈ ch -> c ∈ idle :: ps) -> children m cur ch -> children m' cur ch.
Proof.
  intros Hf Hc Hch. apply children_frame.
  - apply Hf. left. exists cur, 64. split; [done|]. unfold pcb_cptr. lia.
  - intros c Hin. unfold pcb_parent, pcb_yptr, pcb_optr. split_and!; apply Hf; left; exists c;
      [exists 12|exists 68|exists 72]; (split; [by apply Hch|lia]).
Qed.

(** * The thread *)
Section Create.
Context (N : Z) (fuel : nat) (s : kst) (p0 : Z) (k : nat) (rest : list block) (cs : list chunk) (c : chunk).
Context (idle : Z) (ps ch : list Z).
Hypothesis Ht : table N s ((p0, k) :: rest) cs idle ps.
Hypothesis Hn : (2 < k)%nat.
Hypothesis Hfuel : (length cs < fuel)%nat.
Hypothesis Hpd : 0 <= k_pd s < 2 ^ 32.
Hypothesis Hfit : List.find (ck_fits (sizeof_Chunk + sizeof_pcb)) cs = Some c.

Let p : Z := ck_addr c + sizeof_Chunk.
Let cs' : list chunk := place sizeof_pcb cs.
Let bs' : list block := (p0 + sizeof_Page * 2, (k - 2)%nat) :: rest.
Let st : Z := frame_la s p0 + 2 * PAGE_SIZE - 4.
Let f : Z := st - sizeof_idtframe.

(** The block and the stack. *)
Lemma thread_blocks : exists s1 s2,
  create_pcb fuel s = Ok p s1 /\ set_kthread_stack fuel p 0 s1 = Ok 0 s2 /\ pool_step s s2 /\ kmem N s2 bs' cs' /\
  (forall q, q ∈ p :: idle :: ps -> block_of cs' q) /\ (p ∉ idle :: ps) /\
  rd32 (k_mem s2) (pcb_start_stack p) = st /\ fresh_pages cs' (frame_la s p0) (2 * PAGE_SIZE) /\
  k_pt_begin s + VERTUAL_MEM <= frame_la s p0 /\
  rd32 (k_mem s2) (pcb_mm p) = NULL /\ rd32 (k_mem s2) (pcb_yptr p) = NULL /\
  forall x, table_word idle ps x -> rd32 (k_mem s2) x = rd32 (k_mem s) x.
Proof.
  pose proof Ht as [Hk Hl Hnd Hb (L1 & L2 & L3) Hhd Hap].
  destruct (block_run N s _ cs c fuel Hk L2 Hfuel Hpd Hfit) as (s1 & R1 & S1 & Hk1 & Bp & Bq & E1 & E2 & _ & F1).
  fold p cs' in R1, Hk1, Bp, Bq, E1, E2, F1.
  assert (Ela : frame_la s1 p0 = frame_la s p0) by (by rewrite S1).
  assert (Ept : k_pt_begin s1 = k_pt_begin s) by (by rewrite S1).
  destruct (stack_run N s1 p0 k rest cs' p fuel Hk1 L2 Hn ltac:(lia) Bp) as (s2 & R2 & S2 & Hk2 & E3 & Hfr & Hlo & F2).
  rewrite Ela in E3, Hfr, Hlo. rewrite Ept in Hlo.
  assert (Hall : forall q, q ∈ p :: idle :: ps -> block_of cs' q).
  { intros q [->|Hq]%elem_of_cons; [done|]. by apply Bq, Hb. }
  assert (Hpn : p ∉ idle :: ps) by (intros Hin; by destruct (Bq p (Hb p Hin))).
  destruct (blocks_sep N s1 _ cs' Hk1 L2 (p :: idle :: ps)) as [Hsep Hlow]; [by apply NoDup_cons|exact Hall|].
  assert (Hpp : forall i, 0 <= i <= 88 -> client_word ((p0, k) :: rest) cs' (p + i)) by (intros; by apply (block_client N s1)).
  assert (Hown : forall i, 12 <= i <= 88 -> rd32 (k_mem s2) (p + i) = rd32 (k_mem s1) (p + i)).
  { intros i Hi. apply F2; [apply Hpp; lia|]. eapply (pcb_fields_wd (p :: idle :: ps)); [exact Hsep|left|left|lia|lia|right; lia]. }
  assert (Kp : forall i, 0 <= i <= 88 -> ka (p + i) = ka p + i) by (intros; eapply pcb_field_ka; [exact Hsep|left|done]).
  exists s1, s2. split; [exact R1|split; [exact R2|split; [|split; [exact Hk2|split; [exact Hall|split; [exact Hpn|
    split; [exact E3|split; [exact Hfr|split; [exact Hlo|split; [|split]]]]]]]]]].
  - rewrite S2, S1. by destruct s.
  - unfold pcb_mm in *. rewrite Hown by lia. exact E1.
  - unfold pcb_yptr in *. rewrite Hown by lia. exact E2.
  - intros x Hx. assert (Hc : client_word ((p0, k) :: rest) cs' x /\ (ka x + 4 <= ka p \/ ka p + 92 <= ka x)).
    { destruct Hx as [(q & i & Hq & Hi & ->)|Hx].
      - split; [apply (block_client N s1); [done..|by apply Hall; right|lia]|].
        assert (Hne : q <> p) by (by intros ->). pose proof (ps_apart _ Hsep p q ltac:(left) ltac:(by right) ltac:(done)) as A.
        rewrite (pcb_field_ka (p :: idle :: ps)) by (done || by right). unfold sizeof_pcb in A. lia.
      - assert (Ho : exists i, 0 <= i <= 4 /\ x = proc_list + i) by (destruct Hx as [-> | ->]; [exists 0|exists 4]; lia).
        destruct Ho as (i & Hi & ->). split; [apply (head_client N s _ cs idle ps i Ht _ _ s1 Hk1); [by rewrite S1|done]|].
        left. pose proof (Hlow p ltac:(left)) as Hlp. rewrite Ept in Hlp. pose proof Hk as [[[] _ _ [? ?] _] _ _ _ _].
        rewrite ka_high; unfold PAGE_SIZE, VERTUAL_MEM, sizeof_Page in *; lia. }
    destruct Hc as [Hc Hx']. rewrite F2; [|apply Hc|unfold wd; rewrite Kp by lia; lia]. apply F1; [done|lia].
Qed.

Hypothesis Hnum : k_proc_num s <= MAX_PROCESS.
Hypothesis Hpids : words_ok (k_pids s) /\ length (k_pids s) = 128%nat.
Hypothesis Hfree : exists q, 0 <= q < MAX_PROCESS /\ ~ pid_used (k_pids s) q.
Hypothesis Hcur : k_current s ∈ idle :: ps.
Hypothesis Hmm : rd32 (k_mem s) (pcb_mm (k_current s)) = NULL.
Hypothesis Hch : forall q, q ∈ ch -> q ∈ idle :: ps.
Hypothesis Hnd : NoDup (k_current s :: ch).
Hypothesis Hfam : children (k_mem s) (k_current s) ch.
Hypothesis Hcti : 0 <= context_to_intr < 2 ^ 32.

(** The number: the least that is not in use. *)
Lemma thread_number s2 : pool_step s s2 -> exists pid pids',
  get_pid s2 = Ok pid (set_pids pids' s2) /\ 0 <= pid < MAX_PROCESS /\ ~ pid_used (k_pids s) pid /\
  (forall q, 0 <= q < pid -> pid_used (k_pids s) q) /\ words_ok pids' /\ length pids' = 128%nat /\
  forall q, 0 <= q -> pid_used pids' q <-> q = pid \/ pid_used (k_pids s) q.
Proof.
  intros Hs. assert (E : k_pids s2 = k_pids s) by (by rewrite Hs). destruct Hpids as [Hw Hl]. unfold MAX_PROCESS in *.
  destruct (get_pid_run s2) as [(pid & pids' & R & H1 & H2 & H3 & H4 & H5 & H6)|[_ Hall]]; [by rewrite E|..];
    rewrite ?E, ?Hl in *.
  - exists pid, pids'. split_and!; done || lia.
  - destruct Hfree as (q & Hq & Hu). destruct Hu. apply Hall. lia.
Qed.

(** Where the frame lies. *)
Lemma frame_place s2 : kmem N s2 bs' cs' -> k_pt_begin s2 = k_pt_begin s -> fresh_pages cs' (frame_la s p0) (2 * PAGE_SIZE) ->
  k_pt_begin s + VERTUAL_MEM <= frame_la s p0 -> (forall q, q ∈ p :: idle :: ps -> block_of cs' q) ->
  span f sizeof_idtframe /\ k_pt_begin s <= ka f /\
  (forall q, q ∈ p :: idle :: ps -> ka q + sizeof_pcb <= ka f \/ ka f + sizeof_idtframe <= ka q) /\
  forall i, 0 <= i <= 60 -> client_word bs' cs' (f + i).
Proof.
  intros Hk Ept [[_ Hr] Hap] Hlo Hall. pose proof Ht as [[[[] _ _ [? ?] _] _ _ _ _] _ _ _ (_ & L2 & _) _ _].
  assert (Ef : f = frame_la s p0 + 8124) by (unfold f, st, PAGE_SIZE, sizeof_idtframe; lia).
  unfold PAGE_SIZE, VERTUAL_MEM, sizeof_Page in *.
  assert (Kf : ka f = f - VERTUAL_MEM) by (apply ka_high; unfold VERTUAL_MEM; lia).
  split; [unfold span, sizeof_idtframe, VERTUAL_MEM; lia|]. split; [rewrite Kf; unfold VERTUAL_MEM; lia|]. split.
  - intros q Hq. destruct (Hall q Hq) as (d & Hd & _ & Hsz & ->). pose proof (Hap d Hd) as A.
    destruct (block_at N s2 _ cs' Hk L2 d Hd Hsz) as (_ & _ & _ & ->).
    unfold ck_end in A. rewrite Hsz in A. rewrite Kf. unfold sizeof_pcb, sizeof_idtframe, sizeof_Chunk in *. lia.
  - intros i Hi. apply (frame_client N s2); [done|rewrite Ept; unfold VERTUAL_MEM; lia|lia|].
    intros d Hd. destruct (Hap d Hd); [right|left]; lia.
Qed.

(** Whatever keeps the words of the memory managers and links [p] into the list
    makes a table of [s2]. *)
Lemma thread_table s2 s' : pool_step s s2 -> kmem N s2 bs' cs' -> (forall q, q ∈ p :: idle :: ps -> block_of cs' q) ->
  (p ∉ idle :: ps) -> (forall i, 0 <= i <= 60 -> client_word bs' cs' (f + i)) ->
  k_pages s' = k_pages s2 -> k_pt_begin s' = k_pt_begin s2 -> k_free_page_num s' = k_free_page_num s2 ->
  dlist (k_mem s') proc_list (pcb_node <$> p :: ps) ->
  (forall x, (forall q i, q ∈ p :: idle :: ps -> 0 <= i <= 88 -> wd (q + i) x) -> (forall i, 0 <= i <= 4 -> wd (proc_list + i) x) ->
    (forall i, 0 <= i <= 60 -> wd (f + i) x) -> (forall i, 0 <= i <= 88 -> wd (0 + i) x) ->
    rd32 (k_mem s') x = rd32 (k_mem s2) x) ->
  table N s' bs' cs' idle (p :: ps).
Proof.
  intros S2 Hk2 Hall Hpn Hf E1 E2 E3 Hd Hx. pose proof Ht as [Hk Hl Hndl Hb (L1 & L2 & L3) Hhd Hap].
  assert (Epg : k_pages s2 = k_pages s) by (by rewrite S2).
  constructor; [|exact Hd| | |done| |done].
  - apply (kmem_same N (set_mem (k_mem s') s2)); [done..|]. apply kmem_ext; [exact Hk2|]. intros w Hw.
    assert (Hc : forall x, client_word bs' cs' x -> wd x w) by (intros; apply wd_sym; by apply (meta_client_wd bs' cs')).
    apply Hx; intros; apply Hc.
    + apply (block_client N s2); auto.
    + by apply (head_client N s _ cs idle ps i Ht _ _ s2 Hk2).
    + by apply Hf.
    + apply (low_client N s2); unfold PAGE_SIZE in *; auto; lia.
  - apply NoDup_cons in Hndl as [N1 N2]. apply NoDup_cons. split; [|apply NoDup_cons; split; [|done]].
    + intros [E|E]%elem_of_cons; [apply Hpn; rewrite E; left|done].
    + intros E. apply Hpn. by right.
  - intros q Hq. apply Hall. apply elem_of_cons in Hq as [->|[->|Hq]%elem_of_cons]; [right; left|left|right; by right].
  - by rewrite E1, Epg.
Qed.

Variables (fn arg flags : Z).
Hypothesis Hke : 0 <= kernel_thread_entry_addr < 2 ^ 32.
Hypothesis Hfn : 0 <= fn < 2 ^ 32.
Hypothesis Harg : 0 <= arg < 2 ^ 32.

Lemma kernel_thread_run : exists pid s',
  kernel_thread fuel fn arg flags s = Ok pid s' /\ k_current s' = k_current s /\ k_idle s' = k_idle s /\
  k_proc_num s' = s32 (k_proc_num s + 1) /\
  (0 <= pid < MAX_PROCESS /\ ~ pid_used (k_pids s) pid /\ (forall q, 0 <= q < pid -> pid_used (k_pids s) q) /\
   words_ok (k_pids s') /\ length (k_pids s') = 128%nat /\
   forall q, 0 <= q -> pid_used (k_pids s') q <-> q = pid \/ pid_used (k_pids s) q) /\
  table N s' bs' cs' idle (p :: ps) /\ children (k_mem s') (k_current s) (p :: ch) /\
  rd32 (k_mem s') (pcb_state p) = TASK_RUNNABLE /\ rd32 (k_mem s') (pcb_pid p) = pid /\
  rd32 (k_mem s') (pcb_parent p) = k_current s /\ starts_at (k_mem s') p f fn arg /\
  rd32 (k_mem s') (pcb_start_stack p) = st /\
  (forall q i, q ∈ idle :: ps -> i = 0 \/ 4 <= i <= 60 -> rd32 (k_mem s') (q + i) = rd32 (k_mem s) (q + i)) /\
  pool_step (set_pids (k_pids s') (set_proc_num (k_proc_num s') s)) s'.
Proof.
  destruct thread_blocks as (s1 & s2 & R1 & R2 & S2 & Hk2 & Hall & Hpn & Est & Hfr & Hlo & Emm & Ey & Hkept).
  assert (Ecur : k_current s2 = k_current s) by (by rewrite S2).
  assert (Epn : k_proc_num s2 = k_proc_num s) by (by rewrite S2).
  assert (Ept : k_pt_begin s2 = k_pt_begin s) by (by rewrite S2).
  assert (Epg : k_pages s2 = k_pages s) by (by rewrite S2).
  destruct (thread_number s2 S2) as (pid & pids' & Rp & P1 & P2 & P3 & P4 & P5 & P6).
  destruct (frame_place s2 Hk2 Ept Hfr Hlo Hall) as (F1 & F2 & F3 & F4).
  pose proof Ht as [Hk Hl Hndl Hb (L1 & L2 & L3) Hhd Hap].
  destruct (blocks_sep N s2 _ cs' Hk2 L2 (p :: idle :: ps)) as [Hsep Hlow]; [by apply NoDup_cons|exact Hall|].
  rewrite Ept in Hlow.
  assert (Hhead : VERTUAL_MEM + PAGE_SIZE <= proc_list /\ proc_list + 8 < 2 ^ 32 /\ proc_list + 8 - VERTUAL_MEM <= k_pt_begin s).
  { destruct Hk as [[[] _ _ [? ?] ?] _ _ _ _]. unfold VERTUAL_MEM, PAGE_SIZE, sizeof_Page in *. lia. }
  pose proof (table_list _ _ idle ps Hkept Hl) as Hl2.
  pose proof (table_children _ _ idle ps _ ch Hkept Hcur Hch Hfam) as Hfam2.
  assert (Hpid : w32 pid = pid /\ s32 pid = pid) by (unfold MAX_PROCESS in *; split; [apply w32_small|apply s32_small]; lia).
  destruct Hpid as [Wp Sp].
  assert (Emc : rd32 (k_mem s2) (pcb_mm (k_current s)) = NULL).
  { rewrite <- Hmm. apply Hkept. left. exists (k_current s), 16. split; [done|]. unfold pcb_mm. lia. }
  assert (Eds : forall q i, q ∈ idle :: ps -> 0 <= i <= 60 -> rd32 (k_mem s2) (q + i) = rd32 (k_mem s) (q + i)).
  { intros q i Hq Hi. apply Hkept. left. exists q, i. split; [done|]. lia. }
  set (cur := k_current s) in *.
  set (m2 := list_insert_after proc_list (pcb_node p) (wr32 (wr32 (k_mem s2) (pcb_pid p) pid) (pcb_parent p) cur)).
  set (sx := set_proc_num (s32 (k_proc_num s + 1)) (set_mem m2 (set_pids pids' s2))).
  destruct (thread_framed (k_mem s2) idle cur p f (k_pt_begin s) pid ps Hsep Hl2 Hhead Hlow
    (conj F1 (conj F2 F3)) Hcur sx fuel fn arg flags eq_refl Emc) as (m3 & R3 & R4 & St & Hm3);
    [by rewrite Est|exact Hcti|exact Hke|exact Hfn|exact Harg|].
  fold m2 in R3, Hm3.
  pose proof (family_run (k_mem s2) idle cur p f (k_pt_begin s) pid ps ch Hsep Hl2 Hhead Hlow (conj F1 (conj F2 F3)) Hcur Hch Hnd Hfam2
    m3 Hm3 sx) as R5.
  pose proof (thread_memory (k_mem s2) idle cur p f (k_pt_begin s) pid ps ch Hsep Hl2 Hhead Hlow (conj F1 (conj F2 F3)) Hcur Hch Hnd
    Hfam2 Ey m3 Hm3) as (T1 & T2 & T3 & T4 & T5 & T6 & T7 & Tst & T8 & T9).
  set (m5 := wr32 _ (pcb_state p) TASK_RUNNABLE) in T1, T2, T3, T4, T5, T6, T7, Tst, T8, T9.
  rewrite Wp in T4.
  eexists pid, (set_log _ (set_log _ (set_mem m5 sx))). split.
  - unfold kernel_thread, do_fork. krun. rewrite (proj2 (Z.ltb_ge _ _)) by done. rewrite R1.
    rewrite (proj2 (Z.eqb_neq p NULL)) by (eapply pcb_nonnull; [exact Hsep|left]). rewrite R2. change (0 =? -1) with false. krun.
    rewrite Rp. krun. rewrite Wp, rd32_wr32_eq, Wp, Sp. rewrite (proj2 (Z.eqb_neq pid (-1))) by lia. krun.
    rewrite Ecur, Epn. fold cur m2.
    match goal with |- context [copy_mm _ _ _ _ ?y] => change y with sx end.
    rewrite R3. krun. cbv [mret K_ret] in R4. rewrite R4. krun. rewrite R5. krun. unfold wakeup_process. krun.
    fold m5. rewrite T4, Sp. reflexivity.
  - split; [exact Ecur|]. split; [by change (k_idle s2 = k_idle s); rewrite S2|]. split; [done|]. split; [exact (conj P1 (conj P2 (conj P3 (conj P4 (conj P5 P6)))))|].
    split; [by apply (thread_table s2)|]. split; [exact T2|split; [exact T3|split; [exact T4|split; [exact T5|split]]]].
    + by apply (starts_at_ext m3).
    + split; [exact (eq_trans Tst Est)|split].
      * intros q i Hq Hi. rewrite <- Eds by (lia || exact Hq). by apply T8.
      * unfold pool_step, sx. rewrite S2. by destruct s.
Qed.

End Create.

(** The bitmap with one number. *)
Lemma first_number q : 0 <= q -> pid_used (2 ^ 31 :: replicate 127 0) q <-> q = 0.
Proof.
  intros Hq. unfold pid_used. split.
  - intros (num & Hl & Hb). destruct (Z.to_nat (q / 32)) as [|j] eqn:E; cbn [lookup list_lookup] in Hl.
    + injection Hl as <-. rewrite Z.pow2_bits_eqb in Hb by lia. apply Z.eqb_eq in Hb. lia_div.
    + apply lookup_replicate in Hl as [-> _]. by rewrite Z.bits_0 in Hb.
  - intros ->. by exists (2 ^ 31).
Qed.

(** * The first process *)
Section First.
Context (N : Z) (fuel : nat) (s : kst) (bs : list block) (cs : list chunk) (c : chunk).
Hypothesis Hk : kmem N s bs cs.
Hypothesis Hfuel : (length cs < fuel)%nat.
Hypothesis Hpd : 0 <= k_pd s < 2 ^ 32.
Hypothesis Hfit : List.find (ck_fits (sizeof_Chunk + sizeof_pcb)) cs = Some c.
Hypothesis Hlow : VERTUAL_MEM + PAGE_SIZE <= chunk_head /\ VERTUAL_MEM + PAGE_SIZE <= free_pages_head /\
  VERTUAL_MEM + PAGE_SIZE <= proc_list.
Hypothesis Hhead : proc_list + 8 - VERTUAL_MEM <= k_pages s.
Hypothesis Hapart : (proc_list + 8 <= chunk_head \/ chunk_head + 8 <= proc_list) /\
  (proc_list + 8 <= free_pages_head \/ free_pages_head + 8 <= proc_list).

Let p : Z := ck_addr c + sizeof_Chunk.
Let cs' : list chunk := place sizeof_pcb cs.

(** The empty list and the empty bitmap. *)
Let s0 : kst := set_pids (replicate 128 0) (set_mem (list_init proc_list (k_mem s)) s).

Lemma head_word bs0 cs0 s' i : kmem N s' bs0 cs0 -> k_pages s' = k_pages s -> 0 <= i <= 4 -> client_word bs0 cs0 (proc_list + i).
Proof.
  intros Hk' E Hi. apply (global_client N s'); [done|unfold VERTUAL_MEM, PAGE_SIZE in *; lia|rewrite E; lia|lia|lia].
Qed.

Lemma head_alone : nodes_sep [proc_list] /\ ka proc_list = proc_list - VERTUAL_MEM /\
  proc_list - VERTUAL_MEM + 8 <= k_pt_begin s /\ proc_list + 8 < 2 ^ 32.
Proof.
  destruct Hk as [[[] _ _ [? ?] ?] _ _ _ _].
  assert (Hp : VERTUAL_MEM <= proc_list /\ proc_list - VERTUAL_MEM + 8 <= k_pt_begin s /\ proc_list + 8 < 2 ^ 32)
    by (unfold VERTUAL_MEM, PAGE_SIZE, sizeof_Page in *; lia).
  split; [|split; [apply ka_high; unfold VERTUAL_MEM in *; lia|tauto]].
  assert (Hw : wd (proc_list + 4) proc_list) by (unfold wd; rewrite !ka_high by (unfold VERTUAL_MEM in *; lia); lia).
  constructor; [apply NoDup_singleton|intros x ->%list_elem_of_singleton; unfold VERTUAL_MEM in *; lia|..];
    intros x y ->%list_elem_of_singleton ->%list_elem_of_singleton; done.
Qed.

Lemma empty_list : kmem N s0 bs cs /\ dlist (k_mem s0) proc_list [].
Proof.
  destruct (list_init_spec (k_mem s) proc_list (proj1 head_alone)) as [D F]. split; [|exact D].
  apply (kmem_same N (set_mem (list_init proc_list (k_mem s)) s)); [done..|]. apply kmem_ext; [exact Hk|].
  intros w Hw. apply F. intros x ->%list_elem_of_singleton.
  split; apply wd_sym, (meta_client_wd bs cs); try exact Hw; [rewrite <- (Z.add_0_r proc_list)|]; by apply (head_word _ _ s).
Qed.

Lemma proc_init_run : exists s',
  proc_init fuel s = Ok tt s' /\ table N s' bs cs' p [] /\ k_current s' = p /\ k_idle s' = p /\
  k_proc_num s' = s32 (k_proc_num s + 1) /\ k_pd s' = k_pd s /\ k_pages s' = k_pages s /\ k_pt_begin s' = k_pt_begin s /\
  k_pids s' = 2 ^ 31 :: replicate 127 0 /\
  rd32 (k_mem s') (pcb_mm p) = NULL /\ children (k_mem s') p [] /\ rd32 (k_mem s') (pcb_state p) = TASK_READY /\
  rd32 (k_mem s') (pcb_pid p) = 0 /\ rd32 (k_mem s') (pcb_start_stack p) = w32 (kern_stack + KTHREAD_STACK_PAGE * PAGE_SIZE).
Proof.
  destruct Hlow as (L1 & L2 & L3). destruct head_alone as (Hns & Hka & Hbelow & H32). destruct empty_list as [Hk0 Hd0].
  destruct (block_run N s0 bs cs c fuel Hk0 L2 Hfuel Hpd Hfit) as (s1 & R1 & S1 & Hk1 & Bp & _ & E1 & _ & E2 & F1).
  fold p cs' in R1, Hk1, Bp, E1, E2, F1.
  destruct (blocks_sep N s1 _ cs' Hk1 L2 [p]) as [Hsep Hlo]; [apply NoDup_singleton|by intros q ->%list_elem_of_singleton|].
  assert (Ept : k_pt_begin s1 = k_pt_begin s) by (by rewrite S1). specialize (Hlo p ltac:(left)). rewrite Ept in Hlo.
  assert (Hw : forall i j, 0 <= i <= 88 -> 0 <= j <= 88 -> i + 4 <= j \/ j + 4 <= i -> wd (p + i) (p + j)).
  { intros. eapply (pcb_fields_wd [p]); [exact Hsep|left|left|lia|lia|by right]. }
  assert (Hh : forall i j, 0 <= i <= 88 -> 0 <= j <= 4 -> wd (p + i) (proc_list + j)).
  { intros i j Hi Hj. unfold wd. rewrite (pcb_field_ka [p]) by (done || left). rewrite (ka_high (proc_list + j)) by (unfold VERTUAL_MEM, PAGE_SIZE in *; lia). lia. }
  set (m2 := wr32 (wr32 (wr32 (k_mem s1) (p + 4) 0) (p + 8) (w32 (kern_stack + KTHREAD_STACK_PAGE * PAGE_SIZE))) (p + 0) TASK_READY).
  exists (set_proc_num (s32 (k_proc_num s + 1)) (set_current p (set_mem m2 (set_pids (2 ^ 31 :: replicate 127 0) (set_idle p s1))))).
  assert (Hwd0 : forall i, 4 <= i <= 88 -> wd p (p + i)) by (intros; rewrite <- (Z.add_0_r p) at 1; apply Hw; lia).
  assert (Hoff : forall i, 12 <= i <= 88 -> rd32 m2 (p + i) = rd32 (k_mem s1) (p + i)).
  { intros i Hi. unfold m2. by rewrite !rd32_wr32_ne by (apply Hw; lia). }
  assert (Hpc : forall i, 0 <= i <= 88 -> client_word bs cs' (p + i)) by (intros; by apply (block_client N s1)).
  split; [|split; [|split; [done|split; [done|split; [done|split; [by rewrite S1|split; [by rewrite S1|split; [by rewrite S1|split; [done|split; [|split; [|split; [|split]]]]]]]]]]]].
  - unfold proc_init. krun. fold s0. rewrite R1. krun.
    rewrite (proj2 (Z.eqb_neq p NULL)) by (eapply pcb_nonnull; [exact Hsep|left]). krun.
    assert (Ep : k_pids (set_idle p s1) = replicate 128 0) by (by rewrite S1).
    assert (Eg : get_pid (set_idle p s1) = Ok 0 (set_pids (2 ^ 31 :: replicate 127 0) (set_idle p s1))).
    { unfold get_pid. krun. change (k_pids s1) with (k_pids (set_idle p s1)). rewrite Ep. reflexivity. }
    rewrite Eg. krun.
    assert (En : k_proc_num s1 = k_proc_num s) by (by rewrite S1). rewrite En. unfold m2. rewrite (Z.add_0_r p). reflexivity.
  - constructor; [|apply (dlist_frame (k_mem s0)); [|exact Hd0]|apply NoDup_singleton|by intros q ->%list_elem_of_singleton
      |done|kproj; by rewrite S1|done].
    + apply (kmem_same N (set_mem m2 s1)); [done..|].
      assert (Hk2 := kmem_wr32 N s1 _ _ (p + 4) 0 Hk1 (Hpc 4 ltac:(lia))).
      apply (kmem_wr32 N _ _ _ (p + 8) (w32 (kern_stack + KTHREAD_STACK_PAGE * PAGE_SIZE))) in Hk2; [|apply Hpc; lia].
      apply (kmem_wr32 N _ _ _ (p + 0) TASK_READY) in Hk2; [exact Hk2|apply Hpc; lia].
    + intros a (x & ->%list_elem_of_singleton & Ha).
      assert (Ho : exists j, 0 <= j <= 4 /\ a = proc_list + j) by (destruct Ha as [-> | ->]; [exists 0|exists 4]; lia).
      destruct Ho as (j & Hj & ->). kproj. unfold m2. rewrite !rd32_wr32_ne by (apply Hh; lia).
      apply F1; [apply (head_word _ _ s1); [done|by rewrite S1|done]|]. left.
      rewrite ka_high by (unfold VERTUAL_MEM, PAGE_SIZE in *; lia). lia.
  - kproj. unfold pcb_mm in *. rewrite Hoff by lia. exact E1.
  - kproj. apply (children_frame (k_mem s1)); [unfold pcb_cptr; apply Hoff; lia|by intros q ?%elem_of_nil|exact E2].
  - kproj. unfold m2, pcb_state. rewrite Z.add_0_r. by apply rd32_wr32_small.
  - kproj. unfold m2, pcb_pid. rewrite !(rd32_wr32_ne _ _ (p + 4)) by (apply Hw; lia). by apply rd32_wr32_small.
  - kproj. unfold m2, pcb_start_stack. rewrite (rd32_wr32_ne _ _ (p + 8)) by (apply Hw; lia).
    rewrite rd32_wr32_eq. apply w32_w32.
Qed.

End First.

(** * The results *)

(** The list heads are above the first page of memory, below the page structures
    and apart. *)
Record globals_ok (s : kst) : Prop := {
  go_low : VERTUAL_MEM + PAGE_SIZE <= chunk_head /\ VERTUAL_MEM + PAGE_SIZE <= free_pages_head /\
    VERTUAL_MEM + PAGE_SIZE <= proc_list ;
  go_head : proc_list + 8 - VERTUAL_MEM <= k_pages s ;
  go_apart : (proc_list + 8 <= chunk_head \/ chunk_head + 8 <= proc_list) /\
    (proc_list + 8 <= free_pages_head \/ free_pages_head + 8 <= proc_list)
}.

(** C11: [proc_init] makes the idle process: the current process, with the number 0 as
    the only one in use, the stack of the kernel, no address space and no children, in
    an empty list; heap and free pages stay well formed. *)
Theorem proc_init_makes_idle N fuel s bs cs c :
  kmem N s bs cs -> globals_ok s -> (length cs < fuel)%nat -> 0 <= k_pd s < 2 ^ 32 ->
  List.find (ck_fits (sizeof_Chunk + sizeof_pcb)) cs = Some c ->
  let p := ck_addr c + sizeof_Chunk in
  exists s', proc_init fuel s = Ok tt s' /\ table N s' bs (place sizeof_pcb cs) p [] /\
    k_current s' = p /\ k_idle s' = p /\ k_proc_num s' = s32 (k_proc_num s + 1) /\
    (forall q, 0 <= q -> pid_used (k_pids s') q <-> q = 0) /\
    rd32 (k_mem s') (pcb_mm p) = NULL /\ children (k_mem s') p [] /\ rd32 (k_mem s') (pcb_state p) = TASK_READY /\
    rd32 (k_mem s') (pcb_pid p) = 0 /\
    rd32 (k_mem s') (pcb_start_stack p) = w32 (kern_stack + KTHREAD_STACK_PAGE * PAGE_SIZE).
Proof.
  intros Hk [G1 G2 G3] Hf Hpd Hfit p.
  destruct (proc_init_run N fuel s bs cs c Hk Hf Hpd Hfit G1 G2 G3)
    as (s' & R & T & E1 & E2 & E3 & _ & _ & _ & E4 & E5 & E6 & E7 & E8 & E9).
  exists s'. split; [exact R|]. split; [exact T|]. split; [exact E1|]. split; [exact E2|]. split; [exact E3|].
  split; [|by split_and!]. rewrite E4. exact first_number.
Qed.

(** What the creation of a thread asks for: room, a chunk for the block, pages for
    the stack, a free number, and a current process that is a kernel thread with
    the children [ch]. *)
Record fork_ready (N : Z) (fuel : nat) (s : kst) (p0 : Z) (k : nat) (rest : list block) (cs : list chunk) (c : chunk)
    (idle : Z) (ps ch : list Z) : Prop := {
  fr_table : table N s ((p0, k) :: rest) cs idle ps ;
  fr_pages : (2 < k)%nat ;
  fr_fuel : (length cs < fuel)%nat ;
  fr_pd : 0 <= k_pd s < 2 ^ 32 ;
  fr_chunk : List.find (ck_fits (sizeof_Chunk + sizeof_pcb)) cs = Some c ;
  fr_room : k_proc_num s <= MAX_PROCESS ;
  fr_pids : words_ok (k_pids s) /\ length (k_pids s) = 128%nat ;
  fr_free : exists q, 0 <= q < MAX_PROCESS /\ ~ pid_used (k_pids s) q ;
  fr_current : k_current s ∈ idle :: ps ;
  fr_kernel : rd32 (k_mem s) (pcb_mm (k_current s)) = NULL ;
  fr_listed : forall q, q ∈ ch -> q ∈ idle :: ps ;
  fr_nodup : NoDup (k_current s :: ch) ;
  fr_children : children (k_mem s) (k_current s) ch
}.

(** C1: The creation of a kernel thread by a kernel thread with room for it: it gets a
    block of the heap, two pages for its stack and the least free number; it is first in
    the list of processes and the youngest child of the current process; it is runnable,
    and its first frame enters [kernel_thread_entry] with its function and argument. The
    list, the heap and the free pages stay well formed and apart, and the other
    processes keep their states, numbers, stacks, address spaces and registers. *)
Theorem kernel_thread_creates N fuel s p0 k rest cs c idle ps ch fn arg flags :
  fork_ready N fuel s p0 k rest cs c idle ps ch -> words_ok [context_to_intr; kernel_thread_entry_addr; fn; arg] ->
  let p := ck_addr c + sizeof_Chunk in
  let top := frame_la s p0 + 2 * PAGE_SIZE - 4 in
  exists pid s', kernel_thread fuel fn arg flags s = Ok pid s' /\ k_current s' = k_current s /\ k_idle s' = k_idle s /\
    k_proc_num s' = s32 (k_proc_num s + 1) /\
    (0 <= pid < MAX_PROCESS /\ ~ pid_used (k_pids s) pid /\ (forall q, 0 <= q < pid -> pid_used (k_pids s) q) /\
     words_ok (k_pids s') /\ length (k_pids s') = 128%nat /\
     forall q, 0 <= q -> pid_used (k_pids s') q <-> q = pid \/ pid_used (k_pids s) q) /\
    table N s' ((p0 + sizeof_Page * 2, (k - 2)%nat) :: rest) (place sizeof_pcb cs) idle (p :: ps) /\
    children (k_mem s') (k_current s) (p :: ch) /\
    rd32 (k_mem s') (pcb_state p) = TASK_RUNNABLE /\ rd32 (k_mem s') (pcb_pid p) = pid /\
    rd32 (k_mem s') (pcb_parent p) = k_current s /\ starts_at (k_mem s') p (top - sizeof_idtframe) fn arg /\
    rd32 (k_mem s') (pcb_start_stack p) = top /\
    (forall q i, q ∈ idle :: ps -> i = 0 \/ 4 <= i <= 60 -> rd32 (k_mem s') (q + i) = rd32 (k_mem s) (q + i)) /\
    pool_step (set_pids (k_pids s') (set_proc_num (k_proc_num s') s)) s'.
Proof.
  intros [] Hw p top. repeat (apply Forall_cons in Hw as [? Hw]). by apply kernel_thread_run.
Qed.

(** C2: A thread that the idle process creates is the one the next call of [schedule]
    switches to, whatever processes were runnable before, and it starts from the frame
    with its function and argument. *)
Theorem new_thread_runs_next resume N fuel s p0 k rest cs c idle ps ch fn arg flags :
  fork_ready N fuel s p0 k rest cs c idle ps ch -> words_ok [context_to_intr; kernel_thread_entry_addr; fn; arg] ->
  k_current s = idle -> k_idle s = idle -> (length ps + 3 <= fuel)%nat ->
  let p := ck_addr c + sizeof_Chunk in
  let top := frame_la s p0 + 2 * PAGE_SIZE - 4 in
  exists pid s', kernel_thread fuel fn arg flags s = Ok pid s' /\ k_current s' = idle /\
    starts_at (k_mem s') p (top - sizeof_idtframe) fn arg /\
    schedule fuel resume s' =
      (printf "will sched to pid: %d\n" [pid];; run_thread resume p;; atom_enable_intr (if k_IF s' then 1 else 0))
        (set_IF false s').
Proof.
  intros Hr Hw Ec Ei Hf p top. pose proof Hr as []. pose proof Hw as Hw'. repeat (apply Forall_cons in Hw' as [? Hw']).
  destruct (kernel_thread_run N fuel s p0 k rest cs c idle ps ch) with (fn := fn) (arg := arg) (flags := flags)
    as (pid & s' & R & E1 & E2 & _ & _ & T & _ & S1 & P1 & _ & St & _); try done.
  exists pid, s'. split; [exact R|]. split; [by rewrite E1|]. split; [exact St|].
  pose proof (table_procs _ _ _ _ _ _ T) as Hpr.
  assert (Hi : idle <> NULL).
  { pose proof T as [Hk _ Hnd Hb (_ & Hl & _) _ _]. eapply (pcb_nonnull (idle :: p :: ps)); [|left].
    by apply (blocks_sep N s' _ _ Hk Hl). }
  rewrite (schedule_run resume s' (p :: ps) fuel); [|by rewrite E2, Ei|by rewrite E1, Ec|left; by rewrite E1, E2, Ec, Ei|cbn; lia].
  unfold next_process. rewrite E1, E2, Ec, Ei, turn_notin by apply (pr_idle _ _ _ Hpr).
  cbn [List.find]. assert (Hrun : runnable (k_mem s') p = true) by (unfold runnable; fold p in S1; by rewrite S1).
  rewrite Hrun. cbn [default]. fold p in P1. by rewrite P1.
Qed.

End Fork.
