(* ===== verification/Recycle.v ===== *)
(** The end of a process from one end to the other ([do_waitpid] with
    [recycle_child] of schedule/process/proc.c): family, pages, list and block of
    a child that has exited, over the invariant of the memory managers. *)

From S2P Require Import Prelude Machine DList Str Pmm Paging Ports Swap Malloc Vmm Kernel Pid Proc Sched Traps User Life Fork.

Local Open Scope Z_scope.

Section Recycle.
Context `{Symbols}.

(** * The words of the table *)
Section Words.
Context (N : Z) (s : kst) (bs : list block) (cs : list chunk) (idle : Z) (ps : list Z).
Hypothesis Ht : table N s bs cs idle ps.

Lemma table_sep : pcbs_sep (idle :: ps) /\ forall p, p ∈ idle :: ps -> k_pt_begin s <= ka p.
Proof. destruct Ht as [Hk _ Hnd Hb (_ & Hl & _) _ _]. by apply (blocks_sep N s bs cs). Qed.

(** They lie above the pages or among the globals, and belong to neither manager. *)
Lemma table_word_high x : table_word idle ps x -> high_word s x.
Proof.
  destruct Ht as [Hk _ _ Hb (_ & Hl & Hlp) Hh [_ Hap]]. pose proof Hk as [[[] _ _ [? ?] _] _ _ _ _].
  unfold PAGE_SIZE, VERTUAL_MEM, sizeof_Page in *.
  intros [(p & i & Hp & Hi & ->)|Hx].
  - destruct (Hb p Hp) as (d & Hd & _ & Hsz & ->).
    destruct (block_at N s bs cs Hk Hl d Hd Hsz) as (B1 & B2 & _). unfold high_word, sizeof_pcb, VERTUAL_MEM in *. lia.
  - unfold high_word, VERTUAL_MEM. lia.
Qed.

Lemma table_word_client x : table_word idle ps x -> client_word bs cs x.
Proof.
  pose proof Ht as [Hk _ _ Hb (_ & Hl & _) _ _]. intros [(p & i & Hp & Hi & ->)|Hx].
  - apply (block_client N s); [done..|by apply Hb|done].
  - assert (Ho : exists i, 0 <= i <= 4 /\ x = proc_list + i) by (destruct Hx as [-> | ->]; [exists 0|exists 4]; lia).
    destruct Ho as (i & Hi & ->). by apply (head_client N s bs cs idle ps i Ht _ _ s).
Qed.

Lemma field_word p i : p ∈ idle :: ps -> 0 <= i <= 88 -> table_word idle ps (p + i).
Proof. intros Hp Hi. left. by exists p, i. Qed.

(** A child is a chunk in use. *)
Lemma block_chunk l1 d l2 : cs = l1 ++ d :: l2 -> ck_addr d + sizeof_Chunk ∈ idle :: ps -> ck_used d = true.
Proof.
  intros E Hin. destruct Ht as [Hk _ _ Hb _ _ _]. destruct (Hb _ Hin) as (e & He & Hu & _ & Ha).
  pose proof (km_heap _ _ _ _ Hk) as Hh. destruct (decide (d = e)) as [-> |Hne]; [done|].
  destruct (addr_inj cs (hp_ok _ _ Hh) (hp_sep _ _ Hh) d e); [rewrite E; elt|done|done|lia].
Qed.

(** Stores to family links leave the table and all but the links. *)
Lemma table_links m : (forall x, (forall p i, p ∈ idle :: ps -> 64 <= i <= 72 -> wd (p + i) x) -> wd (0 + 68) x ->
    rd32 m x = rd32 (k_mem s) x) ->
  table N (set_mem m s) bs cs idle ps /\
  (forall p i, p ∈ idle :: ps -> i = 0 \/ 4 <= i <= 60 -> rd32 m (p + i) = rd32 (k_mem s) (p + i)) /\
  (forall x, VERTUAL_MEM + 72 <= x -> x + 4 - VERTUAL_MEM <= k_pages s -> rd32 m x = rd32 (k_mem s) x).
Proof.
  intros Hf. destruct table_sep as [Hsep Hlo]. pose proof Ht as [Hk Hd Hnd Hb (Hl1 & Hl & Hl2) Hh Hap].
  assert (Hfield : forall p i, p ∈ idle :: ps -> i = 0 \/ 4 <= i <= 60 \/ 76 <= i <= 80 -> rd32 m (p + i) = rd32 (k_mem s) (p + i)).
  { intros p i Hp Hi. apply Hf; [intros q j Hq Hj; eapply pcb_fields_wd; [exact Hsep|done|done|lia|lia|right; lia]|].
    eapply null_field_wd; [exact Hsep|done|lia|lia]. }
  pose proof Hk as [[[] _ _ [? ?] _] _ _ _ _].
  assert (Hglob : forall x, VERTUAL_MEM + 72 <= x -> x + 4 - VERTUAL_MEM <= k_pages s -> rd32 m x = rd32 (k_mem s) x).
  { intros x Hx1 Hx2. unfold PAGE_SIZE, VERTUAL_MEM, sizeof_Page in *.
    assert (Ek : ka x = x - VERTUAL_MEM) by (apply ka_high; unfold VERTUAL_MEM; lia).
    apply Hf; [|unfold wd; rewrite Ek, ka_low; unfold VERTUAL_MEM in *; lia].
    intros p j Hp Hj. unfold wd. rewrite Ek, (pcb_field_ka _ p j Hsep) by (done || lia). specialize (Hlo p Hp). unfold VERTUAL_MEM in *. lia. }
  split; [|split; [intros p i Hp Hi; apply Hfield; [done|lia]|exact Hglob]]. constructor; try done.
  - apply kmem_ext; [done|]. intros w Hw. apply Hf.
    + intros p i Hp Hi. apply wd_sym, (meta_client_wd bs cs); [done|]. apply table_word_client, field_word; [done|lia].
    + apply wd_sym, (meta_client_wd bs cs); [done|]. apply (low_client N s); unfold PAGE_SIZE in *; auto; lia.
  - apply (dlist_frame (k_mem s)); [|done]. intros a (x & [->|(p & -> & Hp)%list_elem_of_fmap]%elem_of_cons & Ha).
    + apply Hglob; unfold PAGE_SIZE in *; destruct Ha as [-> | ->]; lia.
    + unfold pcb_node in Ha. assert (p ∈ idle :: ps) by (by right). destruct Ha as [-> | ->]; [|rewrite <- Z.add_assoc]; apply Hfield; done || lia.
Qed.

(** What is not a link of the list is apart from the links. *)
Lemma field_off_list p i : p ∈ idle :: ps -> 0 <= i <= 72 -> off_nodes (proc_list :: (pcb_node <$> ps)) (p + i).
Proof.
  intros Hp Hi. destruct table_sep as [Hsep Hlo]. pose proof Ht as [Hk _ _ _ (_ & _ & Hl2) Hh _].
  intros y [->|(q & -> & Hq)%list_elem_of_fmap]%elem_of_cons.
  - assert (Hw : forall j, 0 <= j <= 4 -> wd (proc_list + j) (p + i)).
    { intros j Hj. pose proof Hk as [[[] _ _ [? ?] _] _ _ _ _]. specialize (Hlo p Hp).
      unfold wd. rewrite (pcb_field_ka _ p i Hsep), ka_high by (done || unfold PAGE_SIZE, VERTUAL_MEM, sizeof_Page in *; lia).
      unfold PAGE_SIZE, VERTUAL_MEM, sizeof_Page in *. lia. }
    split; [rewrite <- (Z.add_0_r proc_list)|]; apply Hw; lia.
  - unfold pcb_node. rewrite <- Z.add_assoc. split; (eapply pcb_fields_wd; [exact Hsep|by right|done|lia|lia|right; lia]).
Qed.

Lemma table_store p i v : p ∈ idle :: ps -> 0 <= i <= 72 -> table N (set_mem (wr32 (k_mem s) (p + i) v) s) bs cs idle ps.
Proof.
  intros Hp Hi. pose proof (table_word_client _ (field_word p i Hp ltac:(lia))) as Hc. pose proof (field_off_list p i Hp Hi) as Ho.
  destruct Ht. constructor; try done; [by apply kmem_wr32|by apply dlist_wr32].
Qed.

(** Given back pages leave the heap and the table. *)
Lemma table_pages m ps' : (forall q, q ∈ ps' -> is_page (k_pages s) q /\ q + sizeof_Page <= k_pages s + sizeof_Page * N) ->
  (forall a, off_pool ps' a -> rd32 m a = rd32 (k_mem s) a) ->
  heap m cs /\ (forall x, table_word idle ps x -> rd32 m x = rd32 (k_mem s) x) /\
  (forall a, pool_word ps' a -> off_heap cs a) /\ (forall a x, pool_word ps' a -> table_word idle ps x -> wd a x).
Proof.
  intros Hps Hf. pose proof Ht as [[Ha Hp Hi Hh Hfr] _ _ _ _ _ _].
  assert (Hcs : forall c, c ∈ cs -> k_pt_begin s + VERTUAL_MEM <= ck_addr c /\ ck_ok (chunk_head + 8) c).
  { intros c Hc. split; [apply (Hfr c Hc)|]. pose proof (hp_ok _ _ Hh) as Hok. rewrite Forall_forall in Hok. by apply Hok. }
  pose proof (high_word_off_pool N s ps' Ha Hps) as Hoff. split; [|split; [|split]].
  - apply (heap_frame (k_mem s)); [|done]. intros x Hx. apply Hf, Hoff. by apply (heap_word_high N s cs Ha Hcs).
  - intros x Hx. by apply Hf, Hoff, table_word_high.
  - by apply (pool_word_off_heap N s).
  - intros a x Hw Hx. apply (pool_off_wd ps'); [done|]. by apply Hoff, table_word_high.
Qed.

End Words.

(** * The four parts *)

(** The family. *)
Lemma recycle_family N s bs cs idle ps c ch1 ch2 par :
  table N s bs cs idle ps -> (forall x, x ∈ par :: ch1 ++ c :: ch2 -> x ∈ idle :: ps) -> NoDup (par :: ch1 ++ c :: ch2) ->
  children (k_mem s) par (ch1 ++ c :: ch2) ->
  exists m, recycle_links c s = Ok tt (set_mem m s) /\ table N (set_mem m s) bs cs idle ps /\ children m par (ch1 ++ ch2) /\
    (forall p i, p ∈ idle :: ps -> i = 0 \/ 4 <= i <= 60 -> rd32 m (p + i) = rd32 (k_mem s) (p + i)) /\
    forall x, VERTUAL_MEM + 72 <= x -> x + 4 - VERTUAL_MEM <= k_pages s -> rd32 m x = rd32 (k_mem s) x.
Proof.
  intros Ht Hsub Hnd Hch. destruct (table_sep N s bs cs idle ps Ht) as [Hsep _].
  assert (Hs : pcbs_sep (par :: ch1 ++ c :: ch2)) by (by apply (pcbs_sep_sub (idle :: ps))).
  destruct (recycle_links_run s par ch1 c ch2 Hs Hch) as (m & R & C & F).
  destruct (table_links N s bs cs idle ps Ht m) as [Ht' [K G]].
  - intros x W0 W1. apply F.
    + unfold younger_ptr. destruct ch1 as [|y l _] using rev_ind; [apply W0; [apply Hsub; left|unfold pcb_cptr; lia]|].
      rewrite before_snoc. destruct (l ++ [y]) eqn:E; [by destruct l|rewrite <- E in *]. apply W0; [apply Hsub; elt|unfold pcb_optr; lia].
    + destruct ch2 as [|y l]; [exact W1|]. apply (W0 y); [apply Hsub; elt|lia].
  - exists m. by split_and!.
Qed.

(** The list: the block leaves it; what is not a link of the list is kept. *)
Lemma recycle_unlist N s bs cs idle a1 c a2 m :
  table N s bs cs idle (a1 ++ c :: a2) -> heap m cs ->
  (forall x, table_word idle (a1 ++ c :: a2) x -> rd32 m x = rd32 (k_mem s) x) ->
  let m' := list_delete (pcb_node c) m in
  heap m' cs /\ dlist m' proc_list (pcb_node <$> a1 ++ a2) /\
  (forall p i, p ∈ idle :: a1 ++ c :: a2 -> 0 <= i <= 72 -> rd32 m' (p + i) = rd32 m (p + i)) /\
  forall x, (forall y, table_word idle (a1 ++ c :: a2) y -> wd y x) -> rd32 m' x = rd32 m x.
Proof.
  intros Ht Hh Hf m'. destruct (table_sep _ _ _ _ _ _ Ht) as [Hsep Hlo]. pose proof Ht as [Hk Hd _ _ (_ & _ & Hl2) _ _].
  apply (table_list _ m idle _ Hf) in Hd. rewrite fmap_app in Hd. destruct (list_delete_spec m proc_list (fmap (M:=list) pcb_node a1) (pcb_node c) (fmap (M:=list) pcb_node a2) Hd) as [Hd' F].
  fold m' in Hd', F. rewrite <- fmap_app in Hd', F.
  assert (Hnode : forall y, y ∈ proc_list :: (pcb_node <$> a1 ++ a2) -> y = proc_list \/ exists q, q ∈ a1 ++ c :: a2 /\ y = q + 76).
  { intros y [->|(q & -> & Hq)%list_elem_of_fmap]%elem_of_cons; [by left|right]. exists q. split; [revert Hq; elt|done]. }
  assert (Hall : forall x, (forall y, table_word idle (a1 ++ c :: a2) y -> wd y x) -> rd32 m' x = rd32 m x).
  { intros x Hx. apply F. intros y [-> |(q & Hq & ->)]%Hnode.
    - split; apply Hx; right; auto.
    - rewrite <- Z.add_assoc. split; apply Hx, field_word; (by right) || lia. }
  split; [|split; [exact Hd'|split; [|exact Hall]]].
  - apply (heap_frame m); [|done]. intros w Hw. apply Hall. intros y Hy. apply wd_sym, (heap_off_wd cs); [done|].
    by eapply table_word_client.
  - intros p i Hp Hi. apply F. apply (off_nodes_sub (proc_list :: (pcb_node <$> a1 ++ c :: a2))); [|by eapply field_off_list].
    intros y [-> |(q & Hq & ->)]%Hnode; [left|right]. apply list_elem_of_fmap. by exists q.
Qed.

(** * The whole *)

(** A child [c], the payload of the chunk [d], of the current process. The pages from [q]
    on are the two that [recycle_child] gives back: the stack of the child begins
    with the second of them. *)
Record recycle_ready (N : Z) (s : kst) (bs1 : list block) (q : Z) (bs2 : list block) (l1 : list chunk) (d : chunk)
    (l2 : list chunk) (idle : Z) (a1 : list Z) (c : Z) (a2 ch1 ch2 : list Z) : Prop := {
  rr_block : c = ck_addr d + sizeof_Chunk ;
  rr_table : table N s (bs1 ++ bs2) (l1 ++ d :: l2) idle (a1 ++ c :: a2) ;
  rr_listed : forall x, x ∈ k_current s :: ch1 ++ c :: ch2 -> x ∈ idle :: a1 ++ c :: a2 ;
  rr_nodup : NoDup (k_current s :: ch1 ++ c :: ch2) ;
  rr_children : children (k_mem s) (k_current s) (ch1 ++ c :: ch2) ;
  rr_stack : rd32 (k_mem s) (pcb_start_stack c) = frame_la s (q + sizeof_Page) + 2 * PAGE_SIZE - 4 ;
  rr_above : bs2 <> [] ;
  rr_room : room (k_pages s) bs1 q 2 bs2 ;
  rr_pages : q + 2 * sizeof_Page <= k_pages s + sizeof_Page * N ;
  rr_ghost : no_ghost (k_mem s) q
}.

Section Child.
Context (N : Z) (fuel : nat) (s : kst) (bs1 : list block) (q : Z) (bs2 : list block) (l1 : list chunk) (d : chunk)
  (l2 : list chunk) (idle : Z) (a1 : list Z) (c : Z) (a2 ch1 ch2 : list Z).
Hypothesis Hfuel : (length (pool_pages bs1) < fuel)%nat.

Let bs : list block := bs1 ++ (q, 2%nat) :: bs2.

(** The pages, the old and the new free ones, are those of the array. *)
Lemma ready_pages : recycle_ready N s bs1 q bs2 l1 d l2 idle a1 c a2 ch1 ch2 ->
  forall x, x ∈ pool_pages bs -> is_page (k_pages s) x /\ x + sizeof_Page <= k_pages s + sizeof_Page * N.
Proof.
  intros [_ [Hk _ _ _ _ _ _] _ _ _ _ _ [_ Hpg _ _] Hq _]. pose proof Hk as [_ [_ Hp _] Hi _ _].
  assert (Hold : forall x, x ∈ pool_pages bs1 ++ pool_pages bs2 -> is_page (k_pages s) x /\ x + sizeof_Page <= k_pages s + sizeof_Page * N).
  { intros x Hx. rewrite <- pool_pages_app in Hx. split; [by apply (pl_pages _ _ _ Hp)|by apply Hi]. }
  intros x Hx. unfold bs in Hx. rewrite pool_pages_app in Hx. cbn [pool_pages] in Hx.
  apply elem_of_app in Hx as [Hx|[Hx|Hx]%elem_of_app]; [apply Hold, elem_of_app; by left| |apply Hold, elem_of_app; by right].
  split; [by apply Hpg|]. apply elem_of_pages_from in Hx as (i & Hi' & ->). unfold sizeof_Page in *. lia.
Qed.

(** The page the code computes. *)
Lemma ready_page s' : recycle_ready N s bs1 q bs2 l1 d l2 idle a1 c a2 ch1 ch2 ->
  k_pages s' = k_pages s -> k_pt_begin s' = k_pt_begin s ->
  rd32 (k_mem s') (pcb_start_stack c) = rd32 (k_mem s) (pcb_start_stack c) ->
  la_addr_to_pg (w32 (rd32 (k_mem s') (pcb_start_stack c) - PAGE_SIZE * KTHREAD_STACK_PAGE)) s' = Ok q s'.
Proof.
  intros Hr E1 E2 E3. destruct (ready_pages Hr q) as [(Hq1 & Hq2 & Hq3) Hq4].
  { unfold bs. rewrite pool_pages_app. cbn [pool_pages pages_from app]. elt. }
  destruct Hr as [_ [[[[] _ _ [? ?] ?] _ _ _ _] _ _ _ _ _ _] _ _ _ Hst _ _ _ _].
  set (i := (q - k_pages s) / 24). assert (Eq : q = k_pages s + 24 * i) by (unfold i, sizeof_Page in *; lia_div).
  pose proof (la_addr_to_pg_page s' i (PAGE_SIZE - 4)) as R. rewrite E1, E2, <- Eq in R.
  rewrite E3, Hst. rewrite <- (Z.mul_1_r sizeof_Page), frame_la_add. unfold frame_la. change sizeof_Page with 24. fold i.
  replace (i * PAGE_SIZE + k_pt_begin s + VERTUAL_MEM + 1 * PAGE_SIZE + 2 * PAGE_SIZE - 4 - PAGE_SIZE * KTHREAD_STACK_PAGE)
    with (i * PAGE_SIZE + k_pt_begin s + VERTUAL_MEM + (PAGE_SIZE - 4)) by (unfold PAGE_SIZE, KTHREAD_STACK_PAGE; lia).
  unfold PAGE_SIZE, sizeof_Page in *. apply R; lia.
Qed.

Lemma recycle_run : recycle_ready N s bs1 q bs2 l1 d l2 idle a1 c a2 ch1 ch2 -> exists s',
  recycle_child fuel c s = Ok 0 s' /\ pool_step s s' /\ k_free_page_num s' = k_free_page_num s + 2 /\
  dlist (k_mem s') proc_list (pcb_node <$> a1 ++ a2) /\ children (k_mem s') (k_current s) (ch1 ++ ch2) /\
  heap (k_mem s') (free_model l1 d l2) /\ dlist (k_mem s') free_pages_head (pg_node <$> pool_pages bs) /\
  forall p i, p ∈ idle :: a1 ++ a2 -> i = 0 \/ 4 <= i <= 60 -> rd32 (k_mem s') (p + i) = rd32 (k_mem s) (p + i).
Proof.
  intros Hr. pose proof (ready_pages Hr) as Hpg. pose proof Hr as [Hc Ht Hin Hnd Hch Hst Hne Hroom Hq Hgh].
  set (ps := a1 ++ c :: a2) in *. set (par := k_current s) in *.
  assert (Hsub : forall p, p ∈ idle :: a1 ++ a2 -> p ∈ idle :: ps) by (intros p; unfold ps; elt).
  set (s0 := set_log (EvPrintf "waitpid %d end!\n" [rd32 (k_mem s) (pcb_pid c)] :: k_log s) s).
  assert (Ht0 : table N s0 (bs1 ++ bs2) (l1 ++ d :: l2) idle ps).
  { destruct Ht. constructor; try done. by apply (kmem_same N s). }
  destruct (recycle_family N s0 _ _ idle ps c ch1 ch2 par Ht0 Hin Hnd Hch) as (m1 & R1 & Ht1 & C1 & K1 & G1).
  assert (Hcin : c ∈ idle :: ps) by (unfold ps; elt).
  pose proof (ready_page (set_mem m1 s0) Hr eq_refl eq_refl (K1 c 8 Hcin ltac:(lia))) as R2.
  assert (Hgh1 : no_ghost m1 q).
  { pose proof Ht as [[[[] _ _ _ _] _ _ _ _] _ _ _ (_ & L2 & _) _ _]. unfold no_ghost. rewrite G1; [exact Hgh|..];
      unfold page_of_node, pg_free_pages, PAGE_SIZE, VERTUAL_MEM in *; rewrite w32_small by lia; simpl; lia. }
  destruct (free_page_links (set_mem m1 s0) bs1 q 2 bs2 fuel) as (s2 & R3 & S2 & E2 & D2 & F2);
    [apply Ht1|done|done|done|done|].
  fold bs in D2, F2.
  destruct (table_pages N _ _ _ idle ps Ht1 (k_mem s2) (pool_pages bs) Hpg F2) as (H2 & K2 & W2 & W2').
  destruct (recycle_unlist N _ _ _ idle a1 c a2 (k_mem s2) Ht1 H2 K2) as (H3 & D3 & K3 & F3). fold ps in K3, F3.
  set (m3 := list_delete (pcb_node c) (k_mem s2)) in *.
  pose proof (block_chunk N _ _ _ idle ps Ht l1 d l2 eq_refl ltac:(by rewrite <- Hc)) as Hu.
  destruct (free_spec (set_mem m3 s2) l1 d l2 H3 Hu) as (m4 & R4 & H4 & F4). rewrite <- Hc in R4.
  assert (F4' : forall x, table_word idle ps x -> rd32 m4 x = rd32 m3 x).
  { intros x Hx. apply F4. by apply (table_word_client N _ _ _ idle ps Ht). }
  assert (K4 : forall p i, p ∈ idle :: ps -> 0 <= i <= 72 -> rd32 m4 (p + i) = rd32 m1 (p + i)).
  { intros p i Hp Hi. rewrite F4', K3, K2 by (done || by apply field_word; [|lia]). done. }
  exists (set_mem m4 s2). split; [|split; [|split; [exact E2|split; [|split; [|split; [exact H4|split]]]]]].
  - unfold recycle_child. krun. fold s0. rewrite R1. krun. cbv [mbind K_bind] in R2.
    match goal with R : la_addr_to_pg ?a ?x = _ |- context [la_addr_to_pg ?b ?y] => change (la_addr_to_pg b y) with (la_addr_to_pg a x) end.
    rewrite R2. krun. change KTHREAD_STACK_PAGE with (Z.of_nat 2). rewrite R3. krun. fold m3. by rewrite R4.
  - rewrite S2. by destruct s.
  - apply (table_list m3 m4 idle (a1 ++ a2)); [|exact D3]. intros x [(p & i & Hp & Hi & ->)|Hx]; apply F4'; [|by right].
    apply field_word; [by apply Hsub|done].
  - apply (children_frame m1); [apply K4; [by apply Hin; left|unfold pcb_cptr; lia]| |exact C1].
    intros x Hx. assert (x ∈ idle :: ps) by (apply Hin; revert Hx; elt). split_and!; (apply K4; [done|unfold pcb_parent; lia]).
  - apply (dlist_frame (k_mem s2)); [|exact D2]. intros a (x & Hx & Ha).
    assert (Hw : pool_word (pool_pages bs) a) by (left; by exists x). rewrite F4 by (by apply W2). apply F3. intros y Hy. apply wd_sym. by apply W2'.
  - intros p i Hp%Hsub Hi. rewrite K4 by (done || lia). by apply K1.
Qed.

End Child.

Lemma child_parent m par l1 c l2 : children m par (l1 ++ c :: l2) -> rd32 m (pcb_parent c) = par.
Proof. intros [_ He]. apply elders_app in He as [_ He]. cbn [elders] in He. by destruct He. Qed.

Lemma table_list_words N s bs cs idle ps : table N s bs cs idle ps -> list_words ps.
Proof.
  intros Ht p Hp. assert (Hp' : p ∈ idle :: ps) by (by right). split; [|eapply pcb_word; [apply (table_sep _ _ _ _ _ _ Ht)|done]].
  destruct Ht as [Hk _ _ Hb (_ & Hl & _) Hh _]. destruct (Hb p Hp') as (d & Hd & _ & Hsz & ->).
  destruct (block_at N s bs cs Hk Hl d Hd Hsz) as (B & _). destruct Hk as [[[] _ _ [? ?] _] _ _ _ _].
  unfold pcb_node, sizeof_Page in *. lia.
Qed.

(** C3: Waiting for a child that has exited: the child leaves its parent's children, the
    list of processes and the heap, where its block is free again; two pages join the
    free pages, the first one of its stack and the page below; numbers and process count
    stay as they are, and every other process keeps its state, number, stack and
    registers. *)
Theorem waitpid_recycles sched N fuel s bs1 q bs2 l1 d l2 idle a1 c a2 ch1 ch2 pid :
  recycle_ready N s bs1 q bs2 l1 d l2 idle a1 c a2 ch1 ch2 ->
  (length (pool_pages bs1) < fuel)%nat -> (length (a1 ++ c :: a2) < fuel)%nat ->
  pid <> 0 -> List.find (has_pid (k_mem s) pid) (a1 ++ c :: a2) = Some c -> rd32 (k_mem s) (pcb_state c) = TASK_ZOMBIE ->
  exists s', do_waitpid fuel sched pid s = Ok 0 s' /\ pool_step s s' /\ k_free_page_num s' = k_free_page_num s + 2 /\
    dlist (k_mem s') proc_list (pcb_node <$> a1 ++ a2) /\ children (k_mem s') (k_current s) (ch1 ++ ch2) /\
    heap (k_mem s') (free_model l1 d l2) /\
    dlist (k_mem s') free_pages_head (pg_node <$> pool_pages (bs1 ++ (q, 2%nat) :: bs2)) /\
    forall p i, p ∈ idle :: a1 ++ a2 -> i = 0 \/ 4 <= i <= 60 -> rd32 (k_mem s') (p + i) = rd32 (k_mem s) (p + i).
Proof.
  intros Hr Hf1 Hf2 Hp Hfind Hz. pose proof Hr as [_ Ht _ _ Hch _ _ _ _ _].
  rewrite (waitpid_run fuel sched s _ pid (pt_list _ _ _ _ _ _ Ht) (table_list_words _ _ _ _ _ _ Ht) Hf2 Hp), Hfind.
  unfold child_of, zombie. rewrite (child_parent _ _ _ _ _ Hch), Hz, Z.eqb_refl. cbn [negb]. rewrite Z.eqb_refl.
  set (s1 := set_log _ s). assert (Hr1 : recycle_ready N s1 bs1 q bs2 l1 d l2 idle a1 c a2 ch1 ch2).
  { destruct Hr as [? []]. constructor; try done. constructor; try done. by apply (kmem_same N s). }
  destruct (recycle_run N fuel s1 bs1 q bs2 l1 d l2 idle a1 c a2 ch1 ch2 Hf1 Hr1) as (s' & R & S & K).
  exists s'. split; [exact R|split; [|exact K]]. rewrite S. by destruct s.
Qed.

End Recycle.
