(* ===== verification/Debug.v ===== *)
(** Stack traces: the copies of the kernel's ELF tables and the walk over the
    call frames of debug_/debug.c. *)

From S2P Require Import Prelude Machine Str.

Local Open Scope Z_scope.

(** * The ELF structures of include/elf.h *)

Definition load16 (a : Z) : K Z := fun s => Ok (rd8 (k_mem s) a + 2 ^ 8 * rd8 (k_mem s) (a + 1)) s.

Definition elf_magic (e : Z) : Z := e.
Definition e_entry (e : Z) : Z := e + 24.
Definition e_phoff (e : Z) : Z := e + 28.
Definition e_shoff (e : Z) : Z := e + 32.
Definition e_phentsize (e : Z) : Z := e + 42.
Definition e_phnum (e : Z) : Z := e + 44.
Definition e_shentsize (e : Z) : Z := e + 46.
Definition e_shnum (e : Z) : Z := e + 48.
Definition e_shstrndx (e : Z) : Z := e + 50.

Definition sizeof_sec : Z := 40.
Definition sh_name (h : Z) : Z := h.
Definition sh_offset (h : Z) : Z := h + 16.
Definition sh_size (h : Z) : Z := h + 20.

Definition sizeof_symtable : Z := 16.
Definition st_name (h : Z) : Z := h.
Definition st_value (h : Z) : Z := h + 4.
Definition st_size (h : Z) : Z := h + 8.

Definition sizeof_prog : Z := 32.
Definition ph_off (h : Z) : Z := h + 4.
Definition ph_paddr (h : Z) : Z := h + 12.
Definition ph_filesz (h : Z) : Z := h + 16.
Definition ph_memsz (h : Z) : Z := h + 20.

(** * The globals of debug.c and debug.h *)
Record dbg := mk_dbg {
  elf_hdr : Z ;
  sec_ptr : Z ; sec_num : Z ;
  prog_ptr : Z ; prog_num : Z ;
  symtable_ptr : Z ; symtable_num : Z ;
  strtab_ptr : Z ;
  symtab_offset : Z ; strtab_offset : Z ; symtab_size : Z ; strtab_size : Z
}.

(** [*dest++ = *begin++], [size] times. *)
Fixpoint small_fgets_loop (size : nat) (dest begin : Z) : K unit :=
  match size with
  | O => mret tt
  | S size =>
      c ← load8 begin;
      store8 dest c;;
      small_fgets_loop size (w32 (dest + 1)) (w32 (begin + 1))
  end.

Definition small_fgets (dest offset size src : Z) : K unit :=
  small_fgets_loop (Z.to_nat size) dest (w32 (src + offset)).

Section Tables.
Variable fuel : nat.

(** The addresses of the two string literals, and where the stack frame of
    [init_elf_tables] has its four variable-length arrays. *)
Variables (lit_symtab lit_strtab : Z) (sec_hdr prog_hdr symtab_hdr strtab : Z).

(** [k] headers of [entsize] bytes from [offset] on, into an array of [size]
    byte elements. *)
Fixpoint read_headers (k : nat) (dest size offset entsize page_buf : Z) : K unit :=
  match k with
  | O => mret tt
  | S k =>
      small_fgets dest offset entsize page_buf;;
      read_headers k (w32 (dest + size)) size (w32 (offset + entsize)) entsize page_buf
  end.

(** The search for [.symtab] and [.strtab], [k] sections from [h] on. *)
Fixpoint find_sections (k : nat) (h names : Z) (d : dbg) : K dbg :=
  match k with
  | O => mret d
  | S k =>
      n ← load (sh_name h);
      c ← strcmp fuel lit_symtab (w32 (names + n));
      off ← load (sh_offset h); sz ← load (sh_size h);
      let d := if c =? 0 then
          mk_dbg (elf_hdr d) (sec_ptr d) (sec_num d) (prog_ptr d) (prog_num d) (symtable_ptr d) (symtable_num d)
            (strtab_ptr d) off (strtab_offset d) sz (strtab_size d)
        else d in
      c ← strcmp fuel lit_strtab (w32 (names + n));
      let d := if c =? 0 then
          mk_dbg (elf_hdr d) (sec_ptr d) (sec_num d) (prog_ptr d) (prog_num d) (symtable_ptr d) (symtable_num d)
            (strtab_ptr d) (symtab_offset d) off (symtab_size d) sz
        else d in
      find_sections k (w32 (h + sizeof_sec)) names d
  end.

Fixpoint print_strtab (k : nat) (a : Z) : K unit :=
  match k with
  | O => mret tt
  | S k =>
      c ← load8 a;
      printf "%c" [s8 c];;
      when (c =? 0) (printf " " []);;
      print_strtab k (w32 (a + 1))
  end.

Definition init_elf_tables (d : dbg) : K dbg :=
  let elf := w32 (0x10000 + VERTUAL_MEM) in
  let page_buf := w32 (0x10000 + VERTUAL_MEM) in
  shnum ← load16 (e_shnum elf);
  offset ← load (e_shoff elf);
  shentsize ← load16 (e_shentsize elf);
  read_headers (Z.to_nat shnum) sec_hdr sizeof_sec offset shentsize page_buf;;
  phnum ← load16 (e_phnum elf);
  prog_offset ← load (e_phoff elf);
  phentsize ← load16 (e_phentsize elf);
  when (negb (prog_offset =? 0))
    (read_headers (Z.to_nat phnum) prog_hdr sizeof_prog prog_offset phentsize page_buf);;
  shstrndx ← load16 (e_shstrndx elf);
  shstrtab_offset ← load (sh_offset (w32 (sec_hdr + shstrndx * sizeof_sec)));
  d ← find_sections (Z.to_nat (shnum - 1)) (w32 (sec_hdr + sizeof_sec)) (w32 (page_buf + shstrtab_offset))
        (mk_dbg elf sec_hdr shnum prog_hdr phnum (symtable_ptr d) (symtable_num d) (strtab_ptr d)
          (symtab_offset d) (strtab_offset d) (symtab_size d) (strtab_size d));
  small_fgets symtab_hdr (symtab_offset d) (s32 (symtab_size d)) page_buf;;
  small_fgets strtab (strtab_offset d) (s32 (strtab_size d)) page_buf;;
  print_strtab (Z.to_nat (strtab_size d)) strtab;;
  mret (mk_dbg (elf_hdr d) (sec_ptr d) (sec_num d) (prog_ptr d) (prog_num d)
          symtab_hdr (symtab_size d / sizeof_symtable) strtab
          (symtab_offset d) (strtab_offset d) (symtab_size d) (strtab_size d)).

End Tables.

(** [k] symbols from [h] on. *)
Fixpoint get_func_name_loop (k : nat) (h names addr : Z) : K Z :=
  match k with
  | O => mret NULL
  | S k =>
      v ← load (st_value h); sz ← load (st_size h);
      if (v <=? addr) && (addr <? w32 (v + sz)) then
        n ← load (st_name h); mret (w32 (names + n))
      else get_func_name_loop k (w32 (h + sizeof_symtable)) names addr
  end.

Definition get_func_name (d : dbg) (addr : Z) : K Z :=
  get_func_name_loop (Z.to_nat (symtable_num d)) (symtable_ptr d) (strtab_ptr d) addr.

(** The walk from the frame pointer [ebp]. *)
Fixpoint print_backtrace_loop (fuel : nat) (d : dbg) (ebp : Z) : K unit :=
  match fuel with
  | O => nofuel
  | S fuel =>
      if negb (ebp =? NULL) then
        let return_addr := w32 (ebp + 4) in
        a ← load return_addr;
        func_name ← get_func_name d a;
        when (negb (func_name =? NULL) && (VERTUAL_MEM <=? a))
          (name ← get_func_name d a; printf "%x, %s\n" [a; name]);;
        ebp ← load ebp;
        print_backtrace_loop fuel d ebp
      else mret tt
  end.

Definition print_backtrace (fuel : nat) (d : dbg) (ebp : Z) : K unit := print_backtrace_loop fuel d ebp.

(** * Properties *)

Lemma small_fgets_loop_memcpy size : forall dest begin s,
  small_fgets_loop size dest begin s = Ok tt (set_mem (memcpy_loop size dest begin (k_mem s)) s).
Proof.
  induction size as [|size IH]; intros dest begin s; cbn [small_fgets_loop memcpy_loop]; krun; [by destruct s|].
  rewrite IH. done.
Qed.

(** [small_fgets] is [memcpy] from the buffer's offset, for every size and offset.
    *)
Theorem small_fgets_memcpy dest offset size src s :
  small_fgets dest offset size src s =
    (_ ← memcpy dest (w32 (src + offset)) size; mret tt) s.
Proof. unfold small_fgets, memcpy. krun. apply small_fgets_loop_memcpy. Qed.

(** ** Symbols *)

Record symbol := mk_symbol { sy_name : Z ; sy_value : Z ; sy_size : Z }.

(** The table at [h] holds [syms]. *)
Fixpoint symbols_at (m : memory) (h : Z) (syms : list symbol) : Prop :=
  match syms with
  | [] => True
  | sy :: syms =>
      rd32 m (st_name h) = sy_name sy /\ rd32 m (st_value h) = sy_value sy /\ rd32 m (st_size h) = sy_size sy /\
      symbols_at m (w32 (h + sizeof_symtable)) syms
  end.

Definition covers (addr : Z) (sy : symbol) : bool :=
  (sy_value sy <=? addr) && (addr <? w32 (sy_value sy + sy_size sy)).

(** The name [get_func_name] gives an address. *)
Definition name_of (names : Z) (syms : list symbol) (addr : Z) : Z :=
  match List.find (covers addr) syms with Some sy => w32 (names + sy_name sy) | None => NULL end.

(** The globals describe the table [syms]. *)
Definition table_at (d : dbg) (m : memory) (syms : list symbol) : Prop :=
  symbols_at m (symtable_ptr d) syms /\ symtable_num d = Z.of_nat (length syms).

Lemma get_func_name_run d syms addr s : table_at d (k_mem s) syms ->
  get_func_name d addr s = Ok (name_of (strtab_ptr d) syms addr) s.
Proof.
  intros [Hs Hn]. unfold get_func_name. rewrite Hn, Nat2Z.id. generalize (symtable_ptr d) Hs. clear Hs Hn.
  induction syms as [|sy syms IH]; intros h Hs; cbn [length get_func_name_loop]; krun; [done|].
  destruct Hs as (E1 & E2 & E3 & Hs). rewrite E2, E3. unfold name_of. cbn [List.find]. unfold covers at 1.
  destruct ((sy_value sy <=? addr) && _); krun; [by rewrite E1|]. by apply IH.
Qed.

(** [get_func_name] names the first symbol whose range holds the address, and
    returns [NULL] when there is none. *)
Theorem get_func_name_first d syms addr s : table_at d (k_mem s) syms ->
  get_func_name d addr s =
    Ok (match List.find (covers addr) syms with
        | Some sy => w32 (strtab_ptr d + sy_name sy)
        | None => NULL
        end) s.
Proof. apply get_func_name_run. Qed.

(** ** Frames *)

(** The saved frame pointers from [ebp] on, with the return address above each,
    down to the outermost frame, whose saved pointer is null. *)
Fixpoint frames (m : memory) (ebp : Z) (l : list Z) : Prop :=
  match l with
  | [] => ebp = NULL
  | ret :: l => ebp <> NULL /\ rd32 m (w32 (ebp + 4)) = ret /\ frames m (rd32 m ebp) l
  end.

(** What is printed of a return address. *)
Definition trace_line (names : Z) (syms : list symbol) (a : Z) : option event :=
  let n := name_of names syms a in
  if negb (n =? NULL) && (VERTUAL_MEM <=? a) then Some (EvPrintf "%x, %s\n" [a; n]) else None.

(** C37: The walk of [print_backtrace] ends at the outermost frame and prints, for each
    return address of the kernel that lies in a known function, the address and the name
    of the function. *)
Theorem backtrace_follows_frames d syms l : forall ebp s fuel,
  table_at d (k_mem s) syms -> frames (k_mem s) ebp l -> (length l < fuel)%nat ->
  print_backtrace fuel d ebp s =
    Ok tt (set_log (rev (omap (trace_line (strtab_ptr d) syms) l) ++ k_log s) s).
Proof.
  induction l as [|a l IH]; intros ebp s fuel Ht Hf Hl; (destruct fuel as [|fuel]; cbn [length] in Hl; [lia|]);
    unfold print_backtrace; cbn [print_backtrace_loop frames] in *.
  - subst ebp. krun. cbn. by destruct s.
  - destruct Hf as (Hne & Ha & Hf). rewrite (proj2 (Z.eqb_neq _ _) Hne). cbn [negb]. krun.
    rewrite Ha, (get_func_name_run d syms) by done. cbn [omap list_omap]. unfold trace_line at 1. cbv zeta.
    destruct (negb (name_of (strtab_ptr d) syms a =? NULL) && (VERTUAL_MEM <=? a)); krun.
    + rewrite (get_func_name_run d syms) by done. krun. unfold print_backtrace in IH.
      rewrite (IH (rd32 (k_mem s) ebp) _ fuel) by (done || lia). kproj. cbn [rev]. by rewrite <- app_assoc.
    + unfold print_backtrace in IH. by rewrite (IH (rd32 (k_mem s) ebp) s fuel) by (done || lia).
Qed.
