(* ===== verification/Init.v ===== *)
(** The order in which the kernel starts its parts ([init] of entry/entry.c), the
    self test of the heap and the creation of the test threads, and runs of them
    on a small machine. *)

From S2P Require Import Prelude Machine DList Str Pmm Paging Ports Swap Malloc Vmm Mmu Proc Sched Semaphore Monitor Traps Debug.

Local Open Scope Z_scope.

Section Init.
Context `{Symbols}.
Variable fuel : nat.

(** * The self test of the heap *)

Definition kmalloc_shown (size : Z) : K Z :=
  addr ← kmalloc fuel size;
  printf "malloc addr is: %x\n" [addr];;
  mret addr.

Definition test_malloc_round : K (list Z) :=
  addr1 ← kmalloc_shown 1000;
  addr2 ← kmalloc_shown 1000;
  addr3 ← kmalloc_shown 5000;
  addr4 ← kmalloc_shown 5000;
  addr5 ← kmalloc_shown 5000;
  mret [addr1; addr2; addr3; addr4; addr5].

Fixpoint free_all (addrs : list Z) : K unit :=
  match addrs with
  | [] => printf "after free:\n" []
  | addr :: addrs => free addr;; free_all addrs
  end.

(** The third round is not freed. *)
Definition test_malloc : K unit :=
  addrs ← test_malloc_round;
  free_all addrs;;
  addrs ← test_malloc_round;
  free_all addrs;;
  _ ← test_malloc_round;
  mret tt.

(** * The test threads of the producer and consumer problem *)
Section Threads.
Variables (empty_s full_s mutex monitor : Z).
Variables (producer_semaphore consumer_semaphore producer_monitor consumer_monitor : Z).

Definition test_semaphore : K unit :=
  printf "begin testing semaphore... producer and consumer...\n" [];;
  semaphore_init empty_s 5;;
  semaphore_init full_s 0;;
  semaphore_init mutex 1;;
  _ ← kernel_thread fuel producer_semaphore NULL 0;
  _ ← kernel_thread fuel consumer_semaphore NULL 0;
  mret tt.

Definition test_monitor : K unit :=
  printf "begin testing monitor... producer and consumer...\n" [];;
  monitor_init fuel monitor 2;;
  _ ← kernel_thread fuel producer_monitor NULL 0;
  _ ← kernel_thread fuel consumer_monitor NULL 0;
  mret tt.

(** * [init] *)

(** The two mode switches are inline assembly around [int 120] and [int 121]. *)
Variables (switch_to_user_mode switch_to_kern_mode resume : K unit).
Variables (gdt_addr idt_addr tss0_addr kern_stack_end : Z) (_intrs : Z -> Z).

Definition pmm_init (c : cpu) : K cpu :=
  let c := pmm_init_handler c in
  print_memory;;
  page_init (kalloc_page fuel) fuel;;
  mret c.

Definition timer_intr_init (c : cpu) : K cpu := timer_ports;; mret (timer_register c).

Definition init (d : dbg) (ebp : Z) (c : cpu) : K cpu :=
  printf "hello!\n" [];;
  let c := gdt_init gdt_addr c in
  let c := idt_init idt_addr _intrs c in
  c ← pmm_init c;
  _ ← swap_init fuel;
  malloc_init;;
  vmm_init (kalloc_page fuel) fuel;;
  pic_init;;
  let c := tss_init tss0_addr kern_stack_end _intrs c in
  c ← timer_intr_init c;
  let c := kbd_init c in
  switch_to_user_mode;;
  switch_to_kern_mode;;
  print_backtrace fuel d ebp;;
  test_malloc;;
  test_swap fuel;;
  proc_init fuel;;
  test_monitor;;
  schedule fuel resume;;
  hang.

(** Where the variable-length arrays of [init_elf_tables] and its two literals lie. *)
Variables (lit_symtab lit_strtab sec_hdr prog_hdr symtab_hdr strtab : Z).

Definition kern_init (d : dbg) (ebp : Z) (c : cpu) : K cpu :=
  kern_init_paging;;
  d ← init_elf_tables fuel lit_symtab lit_strtab sec_hdr prog_hdr symtab_hdr strtab d;
  init d ebp c.

End Threads.
End Init.

(** * Runs on a small machine

    Forty pages whose structures are at 0x200000 and whose frames at 0x300000. *)
Section Runs.

#[local] Existing Instance sample_symbols.

Definition small_machine : kst := set_pt_begin 0x300000 (set_pages 0x200000 blank_state).

Definition start : K unit := page_init_pool 40;; malloc_init;; vmm_init (kalloc_page 60) 60.

Definition log_after (m : K unit) : list event :=
  match m small_machine with Ok _ s => rev (k_log s) | Hang _ => [] | NoFuel => [] end.

Definition shown_addresses (l : list event) : list Z :=
  omap (fun e => match e with EvPrintf "malloc addr is: %x\n" [a] => Some a | _ => None end) l.

(** In the first round each large block begins a run of pages of its own; the
    frees join everything into one chunk, which then serves the blocks one after
    the other, in the third round as in the second. *)
Lemma test_malloc_addresses : shown_addresses (log_after (start;; test_malloc 60)) =
  [0xC0300034; 0xC0300428; 0xC030100C; 0xC030300C; 0xC030500C] ++
  [0xC0300034; 0xC0300428; 0xC030081C; 0xC0301BB0; 0xC0302F44] ++
  [0xC0300034; 0xC0300428; 0xC030081C; 0xC0301BB0; 0xC0302F44].
Proof. by vm_compute. Qed.

Definition switches (l : list event) : list (Z * Z) :=
  omap (fun e => match e with EvSwitch a b => Some (a, b) | _ => None end) l.

(** The idle process creates the two monitor threads; the scheduler leaves it for
    the younger of them and then goes from one to the other. *)
Lemma threads_take_turns :
  let contexts := switches (log_after (start;; proc_init 60;; test_monitor 60 0xC0118000 0xC0101000 0xC0102000;;
    schedule 60 (mret tt);; schedule 60 (mret tt);; schedule 60 (mret tt))) in
  exists idle producer consumer, contexts = [(idle, consumer); (consumer, producer); (producer, consumer)] /\
    NoDup [idle; producer; consumer].
Proof. do 3 eexists. split; [by vm_compute|]. apply (bool_decide_unpack _). vm_compute. exact I. Qed.

(** ** The self test of the swapper

    A page whose first words are [ws], as the sectors it is stored in. *)
Definition page_of (ws : list Z) : list (list Z) := (ws ++ replicate (128 - length ws) 0) :: replicate 7 (replicate 128 0).

(** A drive that takes a page, and one that gives it back. *)
Definition takes : list Z := replicate 9 0x40.
Definition gives (ws : list Z) : list Z := 0x40 :: sector_answers (page_of ws).

(** Every page that is taken for a fault pushes the other page of the area out. *)
Definition drive : list Z :=
  takes ++ takes ++ gives [0x12; 0xaa] ++ takes ++ gives [0x34] ++ takes ++ gives [0x12; 0xaa; 0x56].

Definition words_shown (l : list event) : list (string * Z) :=
  omap (fun e => match e with EvPrintf fmt [a] => if String.prefix "0xf0" fmt then Some (fmt, a) else None | _ => None end) l.

Definition faults (l : list event) : list Z :=
  omap (fun e => match e with EvPrintf "page_fault triggered==> at cr2: %x.\n" [a] => Some a | _ => None end) l.

Definition stored (l : list event) : list (list Z) := omap (fun e => match e with EvOutsl _ ws => Some ws | _ => None end) l.

(** The words shown are the bytes stored before, through five faults, with a
    drive that gives back what it was given. *)
Lemma test_swap_shows : let l := log_after (kern_init_paging;; start;; upd (set_inq drive);; test_swap 60) in
  words_shown l = [("0xf00000: %x\n", 0x12); ("0xf02000: %x\n", 0x34);
    ("0xf00000: %x\n", 0x12); ("0xf00004: %x\n", 0xaa); ("0xf00008: %x\n", 0x56);
    ("0xf02000: %x\n", 0x34); ("0xf02004: %x\n", 0x38);
    ("0xf00000: %x\n", 0x12); ("0xf00004: %x\n", 0xaa); ("0xf00008: %x\n", 0x56); ("0xf0000C: %x\n", 0x11)]%string /\
  faults l = [0xf00000; 0xf02000; 0xf00008; 0xf02004; 0xf0000C] /\
  stored l = page_of [0x12; 0xaa] ++ page_of [0x34] ++ page_of [0x12; 0xaa; 0x56] ++ page_of [0x34; 0x38].
Proof. cbv zeta. set (l := log_after _). vm_compute in l. subst l. split_and!; by vm_compute. Qed.

End Runs.
