(* ===== verification/Boot.v ===== *)
(** The boot loader of boot/bootmain.c: sectors from the first drive by
    programmed input, and the kernel's segments into physical memory. *)

From S2P Require Import Prelude Machine Str Ports Swap Debug.

Local Open Scope Z_scope.

Definition ELF_MAGIC : Z := 0x464C457F.
Definition scratch : Z := 0x10000.

(** [rep stosb] of include/x86.h *)
Fixpoint stosb_loop (cnt : nat) (addr data : Z) : K unit :=
  match cnt with
  | O => mret tt
  | S cnt => store8 addr data;; stosb_loop cnt (w32 (addr + 1)) data
  end.

Definition stosb (addr data cnt : Z) : K unit := stosb_loop (Z.to_nat cnt) addr data.

Fixpoint waitdisk (fuel : nat) : K unit :=
  match fuel with
  | O => nofuel
  | S fuel => b ← inb 0x1F7; if negb (Z.land b 0xC0 =? 0x40) then waitdisk fuel else mret tt
  end.

Section Boot.
Variable fuel : nat.

Definition readsect (dst offset : Z) : K unit :=
  waitdisk fuel;;
  outb 0x1F2 1;;
  outb 0x1F3 offset;;
  outb 0x1F4 (Z.shiftr offset 8);;
  outb 0x1F5 (Z.shiftr offset 16);;
  outb 0x1F6 (Z.lor (Z.shiftr offset 24) 0xE0);;
  outb 0x1F7 0x20;;
  waitdisk fuel;;
  insl 0x1F0 dst (SECTSIZE / 4).

(** [for (; pa < epa; pa += SECTSIZE, offset++)] *)
Fixpoint readseg_loop (k : nat) (pa epa offset : Z) : K unit :=
  match k with
  | O => nofuel
  | S k =>
      if pa <? epa then
        readsect pa offset;;
        readseg_loop k (w32 (pa + SECTSIZE)) epa (w32 (offset + 1))
      else mret tt
  end.

Definition readseg (pa count offset : Z) : K unit :=
  let epa := w32 (pa + count) in
  let pa := w32 (pa - offset mod SECTSIZE) in
  let offset := w32 (offset / SECTSIZE + 1) in
  readseg_loop fuel pa epa offset.

(** The program headers from [ph] up to [eph]. *)
Fixpoint load_segments (k : nat) (ph eph : Z) : K unit :=
  match k with
  | O => nofuel
  | S k =>
      if ph <? eph then
        pa ← load (ph_paddr ph);
        filesz ← load (ph_filesz ph); off ← load (ph_off ph);
        readseg pa filesz off;;
        memsz ← load (ph_memsz ph); filesz ← load (ph_filesz ph);
        when (filesz <? memsz) (stosb (w32 (pa + filesz)) 0 (s32 (memsz - filesz)));;
        load_segments k (w32 (ph + sizeof_prog)) eph
      else mret tt
  end.

(** [Some entry]: the kernel is called at [entry]; [None]: not an ELF image,
    the function returns. *)
Definition bootmain : K (option Z) :=
  let elf := scratch in
  readseg elf (4096 * 20) 0;;
  magic ← load (elf_magic elf);
  if negb (magic =? ELF_MAGIC) then mret None
  else
    phoff ← load (e_phoff elf);
    phnum ← load16 (e_phnum elf);
    let ph := w32 (elf + phoff) in
    let eph := w32 (ph + phnum * sizeof_prog) in
    load_segments fuel ph eph;;
    entry ← load (e_entry elf);
    mret (Some entry).

End Boot.

(** * Reading a segment *)

(** The bytes at the ports for one sector, latest first. *)
Definition boot_command (offset : Z) : list event :=
  [EvOutb 0x1F7 0x20; EvOutb 0x1F6 (w8 (Z.lor (Z.shiftr offset 24) 0xE0)); EvOutb 0x1F5 (w8 (Z.shiftr offset 16));
   EvOutb 0x1F4 (w8 (Z.shiftr offset 8)); EvOutb 0x1F3 (w8 offset); EvOutb 0x1F2 1].

(** A drive that is ready each time it is asked and sends the sectors [ss]. *)
Fixpoint boot_answers (ss : list (list Z)) : list Z :=
  match ss with
  | [] => []
  | ws :: ss => 0x40 :: 0x40 :: ws ++ boot_answers ss
  end.

(** The commands for [n] sectors from [offset] on. *)
Fixpoint boot_log (n : nat) (offset : Z) : list event :=
  match n with
  | O => []
  | S n => boot_log n (offset + 1) ++ boot_command offset
  end.

Lemma waitdisk_run fuel s q : (0 < fuel)%nat -> k_inq s = 0x40 :: q -> waitdisk fuel s = Ok tt (set_inq q s).
Proof.
  intros Hf Hq. destruct fuel as [|fuel]; [lia|]. cbn [waitdisk]. unfold inb, device_read. krun. by rewrite Hq.
Qed.

Lemma readsect_run fuel dst offset s ws q : (0 < fuel)%nat -> span dst 512 -> length ws = 128%nat ->
  k_inq s = 0x40 :: 0x40 :: ws ++ q ->
  exists m', readsect fuel dst offset s = Ok tt (set_log (boot_command offset ++ k_log s) (set_inq q (set_mem m' s))) /\
    words_at 128 m' dst = (w32 <$> ws) /\
    forall x, ka x + 4 <= ka dst \/ ka dst + 512 <= ka x -> rd32 m' x = rd32 (k_mem s) x.
Proof.
  intros Hf Hs Hl Hq. unfold readsect, outb, insl. krun. rewrite (waitdisk_run _ _ (0x40 :: ws ++ q)) by done. krun.
  rewrite (waitdisk_run _ _ (ws ++ q)) by done. krun.
  match goal with |- context [insl_loop _ _ ?s1] =>
    destruct (insl_loop_spec 128 dst s1 ws q) as (m' & R & W & F); [exact Hs|done|done|] end.
  exists m'. change (Z.to_nat (SECTSIZE / 4)) with 128%nat. rewrite R. split; [reflexivity|]. split; [exact W|exact F].
Qed.

Lemma readseg_loop_spec fuel ss : forall k pa epa offset s q,
  (0 < fuel)%nat -> (length ss < k)%nat -> span pa (512 * Z.of_nat (length ss)) ->
  512 * (Z.of_nat (length ss) - 1) < epa - pa <= 512 * Z.of_nat (length ss) -> pa + 512 * Z.of_nat (length ss) < 2 ^ 32 ->
  0 <= offset -> offset + Z.of_nat (length ss) < 2 ^ 32 ->
  Forall (fun ws => length ws = 128%nat) ss -> k_inq s = boot_answers ss ++ q ->
  exists m', readseg_loop fuel k pa epa offset s =
      Ok tt (set_log (boot_log (length ss) offset ++ k_log s) (set_inq q (set_mem m' s))) /\
    words_at (128 * length ss) m' pa = (w32 <$> concat ss) /\
    forall x, ka x + 4 <= ka pa \/ ka pa + 512 * Z.of_nat (length ss) <= ka x -> rd32 m' x = rd32 (k_mem s) x.
Proof.
  induction ss as [|ws ss IH]; intros k pa epa offset s q Hf Hk Hs He Htop Ho Hot Hl Hq;
    (destruct k as [|k]; cbn [length] in *; [lia|]); cbn [readseg_loop].
  - rewrite (proj2 (Z.ltb_ge _ _)) by lia. exists (k_mem s). split; [|done]. cbn in Hq |- *. subst q. by destruct s.
  - rewrite (proj2 (Z.ltb_lt _ _)) by lia. apply Forall_cons in Hl as [Hw Hl]. cbn [boot_answers app] in Hq.
    rewrite <- app_assoc in Hq. krun.
    destruct (readsect_run fuel pa offset s ws (boot_answers ss ++ q)) as (m1 & R1 & W1 & F1);
      [done|unfold span, VERTUAL_MEM in *; lia|done|done|].
    rewrite R1. unfold SECTSIZE. rewrite (w32_small (pa + 512)), (w32_small (offset + 1)) by (unfold span, VERTUAL_MEM in *; lia).
    set (s1 := set_log _ (set_inq _ (set_mem m1 s))).
    destruct (decide (ss = [])) as [->|Hne].
    { destruct k as [|k]; [cbn in Hk; lia|]. cbn [readseg_loop]. rewrite (proj2 (Z.ltb_ge _ _)) by (cbn in He; lia).
      exists m1. split; [reflexivity|]. cbn [length concat]. rewrite app_nil_r. split; [exact W1|exact F1]. }
    assert (Hpos : (0 < length ss)%nat) by (destruct ss; [done|cbn; lia]).
    assert (Ea : ka (pa + 512) = ka pa + 512) by (apply (ka_span _ _ _ Hs); lia).
    destruct (IH k (pa + 512) epa (offset + 1) s1 q) as (m' & R & W & F);
      [done|lia|unfold span, VERTUAL_MEM in *; lia|lia|lia|lia|lia|done|done|].
    exists m'. rewrite R. split; [unfold s1; kproj; cbn [boot_log]; by rewrite <- app_assoc|]. rewrite Ea in F. split.
    + cbn [concat]. rewrite fmap_app, <- W, <- W1.
      replace (128 * S (length ss))%nat with (128 + 128 * length ss)%nat by lia.
      rewrite words_at_app by (unfold span, VERTUAL_MEM in *; lia). f_equal.
      apply words_at_ext; [unfold span, VERTUAL_MEM in *; lia|]. intros x ? ?. rewrite F by lia. done.
    + intros x Hx. rewrite F by lia. apply F1. lia.
Qed.

Lemma readseg_run fuel ss pa count offset s q :
  let base := pa - offset mod 512 in
  let n := Z.of_nat (length ss) in
  (length ss < fuel)%nat -> 0 <= pa -> 0 <= count -> 0 <= offset -> offset / 512 + 1 + n < 2 ^ 32 ->
  n = (offset mod 512 + count + 511) / 512 -> span base (512 * n) -> base + 512 * n < 2 ^ 32 ->
  Forall (fun ws => length ws = 128%nat) ss -> k_inq s = boot_answers ss ++ q ->
  exists m', readseg fuel pa count offset s =
      Ok tt (set_log (boot_log (length ss) (offset / 512 + 1) ++ k_log s) (set_inq q (set_mem m' s))) /\
    words_at (128 * length ss) m' base = (w32 <$> concat ss) /\
    forall x, ka x + 4 <= ka base \/ ka base + 512 * n <= ka x -> rd32 m' x = rd32 (k_mem s) x.
Proof.
  intros base n Hf Hpa Hc Ho Hot Hn Hs Htop Hl Hq. unfold readseg, SECTSIZE. fold base.
  assert (Hm : 0 <= offset mod 512 < 512) by (apply Z.mod_pos_bound; lia).
  assert (Hb : 0 <= base) by (unfold span, VERTUAL_MEM in Hs; lia).
  assert (He : 512 * (n - 1) < pa + count - base <= 512 * n) by (unfold base; rewrite Hn; lia_div).
  assert (Hd : 0 <= offset / 512) by (apply Z.div_pos; lia).
  rewrite (w32_small (pa + count)), (w32_small base), (w32_small (offset / 512 + 1)) by lia.
  apply readseg_loop_spec; fold n; try done; lia.
Qed.

(** C36: [readseg] reads the sectors that hold [count] bytes at [offset] of the kernel
    image, which starts at sector 1, in increasing order; the sectors land so that the
    byte at [offset] is at [pa], and nothing else changes. *)
Theorem readseg_loads fuel ss pa count offset s q :
  let base := pa - offset mod 512 in
  let n := Z.of_nat (length ss) in
  (length ss < fuel)%nat -> 0 <= pa -> 0 <= count -> 0 <= offset -> offset / 512 + 1 + n < 2 ^ 32 ->
  n = (offset mod 512 + count + 511) / 512 -> span base (512 * n) -> base + 512 * n < 2 ^ 32 ->
  Forall (fun ws => length ws = 128%nat) ss -> k_inq s = boot_answers ss ++ q ->
  exists m', readseg fuel pa count offset s =
      Ok tt (set_log (boot_log (length ss) (offset / 512 + 1) ++ k_log s) (set_inq q (set_mem m' s))) /\
    words_at (128 * length ss) m' base = (w32 <$> concat ss) /\
    forall x, ka x + 4 <= ka base \/ ka base + 512 * n <= ka x -> rd32 m' x = rd32 (k_mem s) x.
Proof. apply readseg_run. Qed.

Lemma head_words_at n m a : (0 < n)%nat -> head (words_at n m a) = Some (rd32 m a).
Proof. by destruct n; [lia|]. Qed.

Lemma head_fmap {A B} (f : A -> B) l : head (f <$> l) = f <$> head l.
Proof. by destruct l. Qed.

(** An image whose first word is not the magic number is not started: the loader
    reads the first twenty pages into the scratch area, loads nothing and returns. *)
Theorem bootmain_refuses fuel ss w s q :
  length ss = 160%nat -> (160 < fuel)%nat -> Forall (fun ws => length ws = 128%nat) ss ->
  head (concat ss) = Some w -> w32 w <> ELF_MAGIC -> k_inq s = boot_answers ss ++ q ->
  exists m', bootmain fuel s = Ok None (set_log (boot_log 160 1 ++ k_log s) (set_inq q (set_mem m' s))) /\
    forall x, ka x + 4 <= scratch \/ scratch + 512 * 160 <= ka x -> rd32 m' x = rd32 (k_mem s) x.
Proof.
  intros Hl Hf Ha Hw Hm Hq.
  destruct (readseg_run fuel ss scratch (4096 * 20) 0 s q) as (m' & R & W & F);
    rewrite ?Hl in *; try (unfold span, scratch, VERTUAL_MEM; cbn; lia); try assumption.
  1, 2, 4: by vm_compute.
  { left. by split; vm_compute. }
  exists m'. split; [|exact F]. unfold bootmain. krun. rewrite R.
  assert (E : rd32 m' scratch = w32 w).
  { apply (f_equal head) in W. rewrite head_words_at, head_fmap, Hw in W by (clear; lia). by injection W. }
  unfold elf_magic. cbn [k_mem set_log set_inq set_mem]. rewrite E. by rewrite (proj2 (Z.eqb_neq _ _) Hm).
Qed.
