(* ===== verification/Samples.v ===== *)
(** Decision procedures for the layout predicates on concrete memories, and the
    sample heaps and process tables the runs of the other files start from. *)

From S2P Require Import Prelude Machine DList Pmm Paging Malloc Proc.

Local Open Scope Z_scope.

(** * Checkers *)

Definition all_pairs {A} (f : A -> A -> bool) (l : list A) : bool := forallb (fun x => forallb (f x) l) l.

Lemma all_pairs_spec {A} (f : A -> A -> bool) l : all_pairs f l = true -> forall x y, x ∈ l -> y ∈ l -> f x y = true.
Proof.
  unfold all_pairs. rewrite forallb_forall. intros Hf x y Hx Hy. specialize (Hf x).
  rewrite forallb_forall in Hf. apply Hf; by apply list_elem_of_In.
Qed.

Definition nodes_sep_b (l : list Z) : bool :=
  bool_decide (NoDup l) && forallb (fun x => (0 <=? x) && (x <? 2 ^ 32)) l &&
  all_pairs (fun x y => bool_decide (wd (x + 4) y) &&
    ((x =? y) || bool_decide (wd x y) && bool_decide (wd (x + 4) (y + 4)))) l.

Lemma nodes_sep_check l : nodes_sep_b l = true -> nodes_sep l.
Proof.
  unfold nodes_sep_b. intros [[Hnd Hr]%andb_prop Hp]%andb_prop. rewrite forallb_forall in Hr.
  assert (Hpq : forall x y, x ∈ l -> y ∈ l -> wd (x + 4) y /\ (x <> y -> wd x y /\ wd (x + 4) (y + 4))).
  { intros x y Hx Hy. pose proof (all_pairs_spec _ _ Hp x y Hx Hy) as [H1 H2]%andb_prop.
    split; [by apply bool_decide_eq_true in H1|]. intros Hne. rewrite (proj2 (Z.eqb_neq x y) Hne) in H2.
    cbn [orb] in H2. apply andb_prop in H2 as [?%bool_decide_eq_true ?%bool_decide_eq_true]. done. }
  constructor.
  - by apply bool_decide_eq_true in Hnd.
  - intros x Hx%list_elem_of_In. specialize (Hr x Hx). lia.
  - intros x y Hx Hy. exact (proj1 (Hpq x y Hx Hy)).
  - intros x y Hx Hy Hne. exact (proj1 (proj2 (Hpq x y Hx Hy) Hne)).
  - intros x y Hx Hy Hne. exact (proj2 (proj2 (Hpq x y Hx Hy) Hne)).
Qed.

Fixpoint dseg_b (m : memory) (a : Z) (l : list Z) (b : Z) : bool :=
  match l with
  | [] => (rd32 m (a + 4) =? b) && (rd32 m b =? a)
  | x :: l => (rd32 m (a + 4) =? x) && (rd32 m x =? a) && dseg_b m x l b
  end.

Lemma dseg_check m l : forall a b, dseg_b m a l b = true -> dseg m a l b.
Proof.
  induction l as [|x l IH]; intros a b; cbn [dseg_b dseg]; unfold links.
  - intros [?%Z.eqb_eq ?%Z.eqb_eq]%andb_prop. done.
  - intros [[?%Z.eqb_eq ?%Z.eqb_eq]%andb_prop ?]%andb_prop. auto.
Qed.

Lemma dlist_check m h l : nodes_sep_b (h :: l) = true -> dseg_b m h l h = true -> dlist m h l.
Proof. intros. split; [by apply nodes_sep_check|by apply dseg_check]. Qed.

Definition span_b (a n : Z) : bool :=
  (0 <=? a) && (a + n <=? VERTUAL_MEM) || (VERTUAL_MEM <=? a) && (a + n <=? 2 ^ 32).

Lemma span_check a n : span_b a n = true -> span a n.
Proof. unfold span_b, span. lia. Qed.

Definition pcbs_sep_b (l : list Z) : bool :=
  bool_decide (NoDup l) && forallb (fun p => span_b p sizeof_pcb && (PAGE_SIZE <=? ka p)) l &&
  all_pairs (fun p q => (p =? q) || (ka p + sizeof_pcb <=? ka q) || (ka q + sizeof_pcb <=? ka p)) l.

Lemma pcbs_sep_check l : pcbs_sep_b l = true -> pcbs_sep l.
Proof.
  unfold pcbs_sep_b. intros [[Hnd Hs]%andb_prop Hp]%andb_prop. rewrite forallb_forall in Hs. constructor.
  - by apply bool_decide_eq_true in Hnd.
  - intros p Hx%list_elem_of_In. specialize (Hs p Hx) as [H1%span_check H2]%andb_prop. split; [done|lia].
  - intros p q Hx Hy Hne. pose proof (all_pairs_spec _ _ Hp p q Hx Hy) as H. cbv beta in H. lia.
Qed.

Fixpoint elders_b (m : memory) (par y : Z) (l : list Z) (o : Z) : bool :=
  match l with
  | [] => true
  | c :: l => (rd32 m (pcb_parent c) =? par) && (rd32 m (pcb_yptr c) =? y) && (rd32 m (pcb_optr c) =? after o l) &&
      elders_b m par c l o
  end.

Lemma elders_check m par l o : forall y, elders_b m par y l o = true -> elders m par y l o.
Proof.
  induction l as [|c l IH]; intros y; cbn [elders_b elders]; [done|].
  intros [[[?%Z.eqb_eq ?%Z.eqb_eq]%andb_prop ?%Z.eqb_eq]%andb_prop ?]%andb_prop. auto.
Qed.

Lemma children_check m par l :
  (rd32 m (pcb_cptr par) =? after NULL l) && elders_b m par NULL l NULL = true -> children m par l.
Proof. intros [?%Z.eqb_eq ?]%andb_prop. split; [done|by apply elders_check]. Qed.

(** The entries of a directory, one by one. *)
Definition each_entry (m : memory) (pd : Z) (f : Z -> Z -> bool) : bool :=
  forallb (fun k => let e := pd + 4 * Z.of_nat k in f e (rd32 m e)) (seq 0 1024).

Lemma each_entry_spec m pd f : each_entry m pd f = true ->
  forall la, 0 <= la < 2 ^ 32 -> f (pde_slot pd la) (rd32 m (pde_slot pd la)) = true.
Proof.
  unfold each_entry. rewrite forallb_forall. intros Hf la Hla.
  assert (Hk : 0 <= la / 2 ^ 22 < 2 ^ 10) by lia_div.
  specialize (Hf (Z.to_nat (la / 2 ^ 22))). rewrite in_seq, Z2Nat.id in Hf by lia. apply Hf. lia.
Qed.

Definition tables_b (m : memory) (pd : Z) : bool :=
  (0 <=? pd) && (pd + PAGE_SIZE <=? 2 ^ 30) &&
  each_entry m pd (fun _ w => negb (present w) ||
    let t := pte_page_addr w * PAGE_SIZE in
    (t + PAGE_SIZE <=? 2 ^ 30) && ((t + PAGE_SIZE <=? pd) || (pd + PAGE_SIZE <=? t))).

Lemma tables_check m pd : tables_b m pd = true -> tables m pd.
Proof.
  unfold tables_b. intros [Hb He]%andb_prop. constructor; [lia|]. intros la Hla Hp.
  pose proof (each_entry_spec _ _ _ He la Hla) as H. cbv beta in H. rewrite Hp in H. cbn [negb orb] in H. lia.
Qed.

(** A region apart from the directory and from its tables. *)
Definition off_region_b (m : memory) (pd lo hi : Z) : bool :=
  (0 <=? pd) && (pd + PAGE_SIZE <=? 2 ^ 30) && ((hi <=? pd) || (pd + PAGE_SIZE <=? lo)) &&
  each_entry m pd (fun _ w => negb (present w) ||
    let t := pte_page_addr w * PAGE_SIZE in
    (t + PAGE_SIZE <=? 2 ^ 30) && ((hi <=? t) || (t + PAGE_SIZE <=? lo))).

Lemma off_region_check m pd lo hi : off_region_b m pd lo hi = true ->
  forall a, ka a + 4 <= hi -> lo <= ka a -> off_tables m pd a.
Proof.
  unfold off_region_b. intros [Hb He]%andb_prop a Ha1 Ha2 la Hla. pose proof (pde_slot_range pd la Hla) as Hd.
  unfold PAGE_SIZE in Hd, Hb. split.
  - unfold wd. rewrite (ka_low (pde_slot pd la)) by (unfold VERTUAL_MEM; lia). lia.
  - intros Hp. pose proof (each_entry_spec _ _ _ He la Hla) as H. cbv beta in H. rewrite Hp in H. cbn [negb orb] in H.
    pose proof (pte_slot_range m pd la Hla) as Hr. cbv zeta in Hr. pose proof (pte_page_addr_range (rd32 m (pde_slot pd la))).
    unfold PAGE_SIZE in *. unfold wd. rewrite (ka_low (pte_slot m pd la)) by (unfold VERTUAL_MEM; lia). lia.
Qed.

Lemma off_tables_check m pd a : off_region_b m pd (ka a) (ka a + 4) = true -> off_tables m pd a.
Proof. intros Hb. by apply (off_region_check m pd _ _ Hb). Qed.

Definition off_nodes_b (l : list Z) (a : Z) : bool :=
  forallb (fun x => bool_decide (wd x a) && bool_decide (wd (x + 4) a)) l.

Lemma off_nodes_check l a : off_nodes_b l a = true -> off_nodes l a.
Proof.
  unfold off_nodes_b. rewrite forallb_forall. intros Hf x Hx%list_elem_of_In.
  specialize (Hf x Hx) as [?%bool_decide_eq_true ?%bool_decide_eq_true]%andb_prop. done.
Qed.

(** * Concrete memories *)

(** The words [l] of memory, on top of [m]. *)
Fixpoint put_words (l : list (Z * Z)) (m : memory) : memory :=
  match l with [] => m | (a, v) :: l => wr32 (put_words l m) a v end.

(** The links of the circular list [h :: l], written out. *)
Fixpoint link_up (a : Z) (l : list Z) (h : Z) : list (Z * Z) :=
  match l with
  | [] => [(a + 4, h); (h, a)]
  | x :: l => (a + 4, x) :: (x, a) :: link_up x l h
  end.

#[local] Existing Instance sample_symbols.

(** A heap of three chunks: one in use, a free one of 256 bytes, one in use. *)
Definition sample_chunks : list chunk :=
  [mk_chunk 0xC0301000 true 32; mk_chunk 0xC030102C false 256; mk_chunk 0xC0301138 true 64].

Definition sample_heap : kst :=
  set_mem (put_words (((fun c => (ck_addr c, header (ck_size c) (ck_used c))) <$> sample_chunks) ++
    link_up chunk_head (ck_node <$> sample_chunks) chunk_head) ∅)
    (set_pt_begin 0x300000 (set_pages 0x200000 blank_state)).

Lemma sample_heap_ok : heap (k_mem sample_heap) sample_chunks.
Proof.
  constructor.
  - unfold VERTUAL_MEM. cbn. lia.
  - repeat (apply Forall_cons; split); try apply Forall_nil; unfold ck_ok, ck_end, sizeof_Chunk; cbn; lia.
  - cbn. unfold ck_apart, ck_end, sizeof_Chunk. repeat split; repeat (apply Forall_cons; split); try apply Forall_nil; cbn; lia.
  - apply dlist_check; by vm_compute.
  - repeat (apply Forall_cons; split); try apply Forall_nil; by vm_compute.
Qed.

Lemma sample_heap_coalesced : coalesced sample_chunks.
Proof. by vm_compute. Qed.
