(* ===== verification/Runs.v ===== *)
(** Concrete states that satisfy the hypotheses of the development's theorems,
    and each theorem applied there. *)

From S2P Require Import Prelude Machine DList Str Pmm Paging.

Local Open Scope Z_scope.

#[local] Existing Instance sample_symbols.

(** * Lists and strings *)

Definition sample_head : Z := 0xC0110000.

Lemma sample_nodes_sep : nodes_sep [sample_head; 0x1000; 0x2000].
Proof.
  assert (Hin : forall x, x ∈ [sample_head; 0x1000; 0x2000] -> x = sample_head \/ x = 0x1000 \/ x = 0x2000)
    by (intros x; rewrite !elem_of_cons, elem_of_nil; tauto).
  constructor.
  - apply (bool_decide_unpack _). by vm_compute.
  - intros x [->|[->| ->]]%Hin; unfold sample_head; lia.
  - intros x y [->|[->| ->]]%Hin [->|[->| ->]]%Hin; apply (bool_decide_unpack _); by vm_compute.
  - intros x y [->|[->| ->]]%Hin [->|[->| ->]]%Hin Hne; try done; apply (bool_decide_unpack _); by vm_compute.
  - intros x y [->|[->| ->]]%Hin [->|[->| ->]]%Hin Hne; try done; apply (bool_decide_unpack _); by vm_compute.
Qed.

Definition sample_list : memory :=
  list_insert_before sample_head 0x2000 (list_init sample_head ∅).

Lemma sample_list_ok : dlist sample_list sample_head [0x2000].
Proof.
  assert (Hs : nodes_sep [sample_head; 0x2000]).
  { apply (nodes_sep_sub _ _ sample_nodes_sep); [apply (bool_decide_unpack _); by vm_compute|].
    intros x. rewrite !elem_of_cons, elem_of_nil. tauto. }
  assert (Hs0 : nodes_sep [sample_head]).
  { apply (nodes_sep_sub _ _ Hs); [apply (bool_decide_unpack _); by vm_compute|].
    intros x. rewrite !elem_of_cons, elem_of_nil. tauto. }
  apply (list_insert_before_spec _ sample_head [] [] 0x2000); [|exact Hs].
  by apply list_init_spec.
Qed.

Lemma list_nodes_spec_witness : list_nodes 2 sample_list sample_head = [0x2000].
Proof. apply list_nodes_spec; [exact sample_list_ok|simpl; lia]. Defined.

Lemma list_insert_delete_witness :
  dlist (list_delete 0x1000 (list_insert_before 0x2000 0x1000 sample_list)) sample_head [0x2000].
Proof.
  destruct (list_insert_delete sample_list sample_head [] [0x2000] 0x1000) as [H1 _].
  - exact sample_list_ok.
  - exact sample_nodes_sep.
  - exact H1.
Defined.

(** "ab" at 0x100, "bb" at 0x200. *)
Definition sample_strings : kst :=
  set_mem (wr8 (wr8 (wr8 (wr8 ∅ 0x100 97) 0x101 98) 0x200 98) 0x201 98) blank_state.

Lemma sample_ab : holds (k_mem sample_strings) 0x100 [97; 98].
Proof.
  split; [done|split; [unfold span, VERTUAL_MEM; simpl; lia|]].
  simpl. split; [by vm_compute|split; [done|split; [by vm_compute|split; [done|by vm_compute]]]].
Qed.

Lemma sample_bb : holds (k_mem sample_strings) 0x200 [98; 98].
Proof.
  split; [done|split; [unfold span, VERTUAL_MEM; simpl; lia|]].
  simpl. split; [by vm_compute|split; [done|split; [by vm_compute|split; [done|by vm_compute]]]].
Qed.

Lemma strlen_spec_witness : strlen 3 0x100 sample_strings = Ok 2 sample_strings.
Proof. apply (strlen_spec sample_strings 0x100 [97; 98] 3); [exact sample_ab|simpl; lia]. Defined.

Lemma strcmp_spec_witness : strcmp 3 0x100 0x100 sample_strings = Ok 0 sample_strings.
Proof.
  apply (strcmp_spec sample_strings 0x100 0x100 [97; 98] [97; 98] 3);
    [exact sample_ab|exact sample_ab|simpl; lia].
Defined.

Lemma strcmp_misses_difference_witness : strcmp 3 0x100 0x200 sample_strings = Ok 0 sample_strings.
Proof. apply strcmp_misses_difference; [exact sample_ab|exact sample_bb|lia]. Defined.

Lemma strcpy_spec_witness : exists m', strcpy 3 0x300 0x100 sample_strings = Ok 0x300 (set_mem m' sample_strings) /\
  holds m' 0x300 [97; 98].
Proof.
  destruct (strcpy_spec sample_strings 0x300 0x100 [97; 98] 3) as (m' & Hrun & Hh & _).
  - exact sample_ab.
  - lia.
  - unfold span, VERTUAL_MEM. simpl. lia.
  - right. unfold ka. vm_compute. discriminate.
  - simpl. lia.
  - eauto.
Defined.

Lemma memcpy_spec_witness : exists m', memcpy 0x300 0x100 8 sample_strings = Ok 0x300 (set_mem m' sample_strings) /\
  rd32 m' 0x304 = rd32 (k_mem sample_strings) 0x104.
Proof.
  destruct (memcpy_spec sample_strings 0x300 0x100 8) as (m' & Hrun & Hw & _).
  - lia.
  - unfold span, VERTUAL_MEM. lia.
  - unfold span, VERTUAL_MEM. lia.
  - right. vm_compute. discriminate.
  - exists m'. split; [exact Hrun|]. apply (Hw 4); lia.
Defined.

(** A property of each element of a concrete list. *)
Ltac each := intros ? Hin; cbn [fmap list_fmap app pool_pages pages_from] in Hin; rewrite ?elem_of_cons, ?elem_of_nil in Hin;
  repeat destruct Hin as [->|Hin]; try (exfalso; exact Hin).

(** * A pool of five pages *)

Definition no_swap : Z -> Z -> K unit := fun _ _ => mret tt.

Definition sample_region : kst := set_pt_begin 0x300000 (set_pages 0x200000 blank_state).

Lemma sample_geom : geom (k_pages sample_region).
Proof. constructor; unfold VERTUAL_MEM; cbn; lia. Qed.

Definition sample_pool : kst :=
  match page_init_pool 5 sample_region with Ok _ s => s | _ => blank_state end.

Lemma sample_pool_ok : pool_ok sample_pool [(0x200000, 5%nat)] /\ sample_pool = set_free_page_num 5 (set_mem (k_mem sample_pool) sample_region).
Proof.
  destruct (page_init_pool_run sample_region 5 sample_geom) as (s' & Hrun & Hok & Hst); [lia|unfold sizeof_Page; cbn; lia|].
  unfold sample_pool. change 5 with (Z.of_nat 5). rewrite Hrun. done.
Qed.

Lemma sample_not_inited : k_is_vmm_inited sample_pool <> 1.
Proof. rewrite (proj2 sample_pool_ok). done. Qed.

Lemma page_init_pool_serves_witness : exists s1 s2,
  page_init_pool 5 sample_region = Ok tt s1 /\ alloc_page no_swap 9 2 s1 = Ok (0x200000 + VERTUAL_MEM) s2.
Proof.
  destruct (page_init_pool_serves no_swap sample_region 5 2 9) as (s1 & s2 & H1 & _ & H2 & _).
  - exact sample_geom.
  - unfold sizeof_Page. cbn. lia.
  - discriminate.
  - lia.
  - lia.
  - exists s1, s2. exact (conj H1 H2).
Defined.

Lemma sample_quiet n : alloc_quiet no_swap sample_pool (pool_pages [(0x200000, 5%nat)]) n.
Proof. left. exact sample_not_inited. Qed.

(** Two pages of five, and six. *)
Lemma alloc_page_takes_front_witness :
  (exists s', alloc_page no_swap 9 2 sample_pool = Ok (0x200000 + VERTUAL_MEM) s' /\
    pool_ok s' [(0x200000 + sizeof_Page * 2, 3%nat)]) /\
  alloc_page no_swap 9 6 sample_pool = Ok NULL sample_pool.
Proof.
  split.
  - destruct (alloc_page_takes_front no_swap sample_pool 0x200000 5 [] 2 9) as (s' & Hrun & _ & Hok & _);
      [apply sample_pool_ok|lia|lia|lia|simpl; lia|apply sample_quiet|]. exists s'. exact (conj Hrun Hok).
  - apply (alloc_page_takes_front no_swap sample_pool 0x200000 5 [] 6 9);
      [apply sample_pool_ok|lia|lia|lia|simpl; lia|apply sample_quiet].
Defined.

Lemma sample_no_ghost p : p <> 0xC0110000 - 16 -> no_ghost (k_mem sample_pool) p.
Proof.
  intros Hp. unfold no_ghost.
  replace (page_add _ _) with (0xC0110000 - 16) by (by vm_compute). done.
Qed.

Lemma alloc_page_too_few_witness : alloc_page no_swap 9 6 sample_pool = Ok NULL sample_pool.
Proof. apply alloc_page_too_few. rewrite (proj2 sample_pool_ok). cbn. lia. Defined.

Lemma alloc_free_roundtrip_witness : exists s',
  (pg ← alloc_page no_swap 9 2; la ← pg_to_addr_la pg; q ← la_addr_to_pg la; free_page 9 q 2) sample_pool = Ok tt s' /\
  pool_ok s' [(0x200000, 5%nat)].
Proof.
  destruct (alloc_free_roundtrip no_swap sample_pool 0x200000 5 [] 2 9) as (s' & R & Hok & _).
  - apply sample_pool_ok.
  - lia.
  - lia.
  - apply sample_quiet.
  - by apply sample_no_ghost.
  - rewrite (proj2 sample_pool_ok). cbn. unfold sizeof_Page. lia.
  - exists s'. exact (conj R Hok).
Defined.

(** Pages 0 and 2 to 4 free, page 1 out. *)
Lemma two_pages_out : exists s, alloc_page no_swap 9 2 sample_pool = Ok (0x200000 + VERTUAL_MEM) s /\
  pool_ok s [(0x200030, 3%nat)] /\ k_pages s = 0x200000 /\ k_is_vmm_inited s = 0 /\
  (forall a, off_pool (pool_pages [(0x200000, 5%nat)]) a -> rd32 (k_mem s) a = rd32 (k_mem sample_pool) a).
Proof.
  destruct (alloc_page_front no_swap sample_pool 0x200000 5 [] 2 9) as (s & Hrun & Hst & Hok & _ & Hf).
  - apply sample_pool_ok.
  - lia.
  - lia.
  - apply sample_quiet.
  - exists s. split; [exact Hrun|split; [exact Hok|]]. rewrite Hst, (proj2 sample_pool_ok). auto.
Qed.

Lemma sample_fits s : k_pages s = 0x200000 -> fits (k_pages s) (k_mem s) [] 0x200000 1 [(0x200030, 3%nat)].
Proof.
  intros ->. constructor; [constructor; [lia|..]|]; cbn [pages_from pool_pages Nat.sub app].
  - intros q ->%list_elem_of_singleton. by vm_compute.
  - by intros q ?%elem_of_nil.
  - intros q. rewrite !elem_of_cons, elem_of_nil. unfold sizeof_Page. lia.
  - by intros q ?%elem_of_nil.
Qed.

Lemma two_pages_out_no_ghost s p : p <> 0xC0110000 - 16 ->
  (forall a, off_pool (pool_pages [(0x200000, 5%nat)]) a -> rd32 (k_mem s) a = rd32 (k_mem sample_pool) a) ->
  no_ghost (k_mem s) p.
Proof.
  intros Hp Hf. unfold no_ghost. destruct sample_pool_ok as [[Hg Hpo _] Hst].
  rewrite Hf; [by apply sample_no_ghost|]. eapply ghost_off; [exact Hg|apply Hpo].
Qed.

Lemma split_pool : exists s, pool_ok s [(0x200000, 1%nat); (0x200030, 3%nat)] /\ k_is_vmm_inited s = 0 /\ k_pages s = 0x200000 /\
  (forall a, off_pool (pool_pages [(0x200000, 5%nat)]) a -> rd32 (k_mem s) a = rd32 (k_mem sample_pool) a).
Proof.
  destruct two_pages_out as (s & _ & Hok & Hpg & Hv & Hf).
  destruct (free_page_run s [] 0x200000 1 [(0x200030, 3%nat)] 9) as (s' & _ & Hst & Hok' & F).
  - exact Hok.
  - discriminate.
  - by apply sample_fits.
  - by apply two_pages_out_no_ghost.
  - simpl. lia.
  - exists s'. split; [exact Hok'|]. split; [by rewrite Hst|split; [by rewrite Hst|]]. intros a Ha. rewrite F; [by apply Hf|].
    eapply off_pool_sub; [|exact Ha]. each; apply (bool_decide_unpack _); vm_compute; exact I.
Qed.


(** Page 1 freed between page 0 and pages 2 to 4: one run of five again. *)
Lemma free_page_merges_witness : exists s s', pool_ok s [(0x200000, 1%nat); (0x200030, 3%nat)] /\
  free_page 9 0x200018 1 s = Ok tt s' /\ pool_ok s' [(0x200000, 5%nat)].
Proof.
  destruct split_pool as (s & Hok & _ & Hpg & Hf). exists s.
  destruct (free_page_merges s [(0x200000, 1%nat)] 0x200018 1 [(0x200030, 3%nat)] 9) as (s' & Hrun & _ & Hok' & _).
  - exact Hok.
  - discriminate.
  - rewrite Hpg. constructor; [constructor; [lia|..]|]; cbn [pages_from pool_pages Nat.sub app].
    + intros q ->%list_elem_of_singleton. by vm_compute.
    + intros q ->%list_elem_of_singleton. lia.
    + intros q. rewrite !elem_of_cons, elem_of_nil. unfold sizeof_Page. lia.
    + by intros q ?%elem_of_nil.
  - by apply two_pages_out_no_ghost.
  - simpl. lia.
  - exists s'. exact (conj Hok (conj Hrun Hok')).
Defined.

Lemma alloc_page_exact_fit_starves_witness : exists s s1,
  pool_ok s [(0x200000, 1%nat); (0x200030, 3%nat)] /\
  alloc_page no_swap 9 1 s = Ok (0x200000 + VERTUAL_MEM) s1 /\
  0 < k_free_page_num s1 /\ alloc_page no_swap 9 1 s1 = Ok NULL s1.
Proof.
  destruct split_pool as (s & Hok & Hv & _). exists s.
  destruct (alloc_page_exact_fit_starves no_swap s 0x200000 1 0x200030 3 [] 9 1) as (s1 & H1 & H2 & H3).
  - exact Hok.
  - left. by rewrite Hv.
  - simpl. lia.
  - lia.
  - exists s1. exact (conj Hok (conj H1 (conj H2 H3))).
Defined.

Lemma free_page_empty_pool_drops_witness : exists s, free_page 9 0x200000 1 s = Ok tt s.
Proof.
  exists (set_mem (list_init free_pages_head ∅) sample_region). apply free_page_empty_pool_drops.
  - apply list_init_spec. apply (head_sep (k_pages sample_region)). exact sample_geom.
  - lia.
Defined.

Lemma page_address_roundtrip_witness : exists la pa,
  pg_to_addr_la (w32 (0x200000 + 24 * 3 + VERTUAL_MEM)) sample_region = Ok la sample_region /\
  pg_to_addr_pa (w32 (0x200000 + 24 * 3 + VERTUAL_MEM)) sample_region = Ok pa sample_region /\
  la_addr_to_pg (w32 (la + 5)) sample_region = Ok (0x200000 + 24 * 3) sample_region.
Proof.
  destruct (page_address_roundtrip sample_region 3 5) as (la & pa & H1 & H2 & _ & H3 & _).
  - cbn. lia.
  - cbn. lia.
  - lia.
  - unfold PAGE_SIZE. lia.
  - exists la, pa. exact (conj H1 (conj H2 H3)).
Defined.

(** * Page tables

    A directory at 0x10000 with one table at 0x11000 for the low 4 MB and one
    at 0x12000 for the directory entry 768. *)

Definition sample_pd : Z := 0x10000.
Definition sample_tables : memory := wr32 (wr32 ∅ 0x10000 0x11007) 0x10C00 0x12007.

Definition sample_paging : kst := set_mem sample_tables sample_region.

Lemma rd32_empty a : rd32 ∅ a = 0.
Proof. rewrite rd32_bytes. done. Qed.

Lemma sample_pde la : 0 <= la < 2 ^ 32 -> rd32 sample_tables (pde_slot sample_pd la) =
  if decide (la / 2 ^ 22 = 0) then 0x11007 else if decide (la / 2 ^ 22 = 768) then 0x12007 else 0.
Proof.
  intros Hla. unfold sample_tables, pde_slot, sample_pd. assert (0 <= la / 2 ^ 22 < 2 ^ 10) by lia_div.
  destruct (decide (la / 2 ^ 22 = 0)) as [->|]; [by vm_compute|].
  destruct (decide (la / 2 ^ 22 = 768)) as [->|]; [by vm_compute|].
  rewrite !rd32_wr32_ne by (unfold wd; ka_simpl; lia). apply rd32_empty.
Qed.

Lemma sample_tables_ok : tables sample_tables sample_pd.
Proof.
  constructor; [unfold sample_pd, PAGE_SIZE; lia|]. intros la Hla. rewrite sample_pde by done.
  destruct (decide _); [|destruct (decide _); [|done]]; vm_compute; intros _;
    (split; [discriminate|right; discriminate]).
Qed.

Lemma sample_slot la : 0 <= la < 2 ^ 32 -> present (rd32 sample_tables (pde_slot sample_pd la)) = true ->
  0x11000 <= pte_slot sample_tables sample_pd la < 0x13000.
Proof.
  intros Hla Hp. pose proof (pte_slot_range sample_tables sample_pd la Hla) as Hr. cbn zeta in Hr.
  rewrite sample_pde in * by done.
  destruct (decide _); [change (pte_page_addr 0x11007) with 0x11 in Hr; unfold PAGE_SIZE in Hr; lia|].
  destruct (decide _); [change (pte_page_addr 0x12007) with 0x12 in Hr; unfold PAGE_SIZE in Hr; lia|done].
Qed.

Lemma sample_off i : 0 <= i < 10 -> off_tables sample_tables sample_pd (0x200000 + sizeof_Page * i).
Proof.
  intros Hi la Hla. pose proof (pde_slot_range sample_pd la Hla) as Hd.
  unfold sample_pd, sizeof_Page, PAGE_SIZE in *. split; [unfold wd; ka_simpl; lia|].
  intros Hp. pose proof (sample_slot la Hla Hp). unfold wd, sample_pd in *. ka_simpl. lia.
Qed.

Lemma sample_frame s i : k_pages s = 0x200000 -> k_pt_begin s = 0x300000 -> 0 <= i < 10 ->
  frame_of s i (0x300000 + i * PAGE_SIZE).
Proof.
  intros Ep Eb Hi. unfold PAGE_SIZE. constructor; rewrite ?Ep, ?Eb; unfold sizeof_Page, PAGE_SIZE; lia_div.
Qed.

Lemma map_fresh_witness : exists m', map (fun _ => nofuel) 9 sample_pd 0x5000 0x302000 7 sample_paging =
    Ok tt (set_log [EvInvlpg 0x5000] (set_mem m' sample_paging)) /\
  walk m' sample_pd 0x5000 = Some 0x302000.
Proof.
  destruct (map_fresh (fun _ => nofuel) 9 sample_paging sample_pd 0x5000 0x302000 7 2) as (m' & Hrun & Hw & _).
  - exact sample_tables_ok.
  - lia.
  - by apply (sample_frame _ 2).
  - lia.
  - by vm_compute.
  - by vm_compute.
  - by apply (sample_off 2).
  - exists m'. exact (conj Hrun Hw).
Defined.

(** The same tables beside a pool of five pages. *)
Definition paging_pool : kst := match page_init_pool 5 sample_paging with Ok _ s => s | _ => blank_state end.

Lemma paging_pool_ok : pool_ok paging_pool [(0x200000, 5%nat)] /\
  paging_pool = set_free_page_num 5 (set_mem (k_mem paging_pool) sample_paging).
Proof.
  destruct (page_init_pool_run sample_paging 5 sample_geom) as (s' & Hrun & Hok & Hst); [lia|unfold sizeof_Page; cbn; lia|].
  unfold paging_pool. change 5 with (Z.of_nat 5). rewrite Hrun. done.
Qed.

Lemma paging_pool_pde la : 0 <= la < 2 ^ 32 ->
  rd32 (k_mem paging_pool) (pde_slot sample_pd la) = rd32 sample_tables (pde_slot sample_pd la).
Proof.
  intros Hla. unfold pde_slot. assert (Hi : 0 <= la / 2 ^ 22 < 1024) by lia_div. set (i := la / 2 ^ 22) in *.
  assert (Hall : forallb (fun j => rd32 (k_mem paging_pool) (sample_pd + 4 * Z.of_nat j) =?
    rd32 sample_tables (sample_pd + 4 * Z.of_nat j)) (seq 0 1024) = true) by (by vm_compute).
  rewrite forallb_forall in Hall. specialize (Hall (Z.to_nat i)). rewrite Z2Nat.id in Hall by lia.
  apply Z.eqb_eq, Hall, in_seq. lia.
Qed.

Lemma paging_pool_off i : 0 <= i < 10 -> off_tables (k_mem paging_pool) sample_pd (0x200000 + sizeof_Page * i).
Proof.
  intros Hi la Hla. rewrite paging_pool_pde by done.
  rewrite (slot_ext sample_tables) by (by apply paging_pool_pde). by apply sample_off.
Qed.

Lemma paging_tables_off_pool : tables_off_pool (k_mem paging_pool) sample_pd (pool_pages [(0x200000, 5%nat)]).
Proof.
  assert (Hlow : forall x, sample_pd <= x < 0x13000 -> off_pool (pool_pages [(0x200000, 5%nat)]) x).
  { intros x Hx. unfold sample_pd in Hx. split.
    - intros n [->|(q & -> & Hq)%list_elem_of_fmap]%elem_of_cons; [change free_pages_head with 0xC0110000; split; unfold wd; ka_simpl; unfold VERTUAL_MEM; lia|].
      revert q Hq. each; split; unfold wd, pg_node, sizeof_Page; ka_simpl; lia.
    - each; split; unfold wd, pg_flags, pg_free_pages, sizeof_Page; ka_simpl; lia. }
  intros la Hla. pose proof (pde_slot_range sample_pd la Hla) as Hd. split.
  - apply Hlow. unfold sample_pd, PAGE_SIZE in *. lia.
  - rewrite paging_pool_pde, (slot_ext sample_tables) by (done || by apply paging_pool_pde). intros Hp.
    apply Hlow. pose proof (sample_slot la Hla Hp). unfold sample_pd in *. lia.
Qed.

(** Page 0 becomes the table, and the frame of page 7 is mapped. *)
Lemma sample_new_table : new_table paging_pool sample_pd 0 0x300000.
Proof.
  destruct paging_pool_ok as [_ ->]. constructor.
  - lia.
  - cbn. unfold sizeof_Page. lia.
  - cbn. unfold PAGE_SIZE. split; [done|split; [done|split; done]].
  - by apply (paging_pool_off 0).
  - unfold sample_pd, PAGE_SIZE. right. lia.
  - intros la Hla. cbn [k_mem sample_paging set_mem set_free_page_num]. rewrite paging_pool_pde, sample_pde by done.
    destruct (decide _); [|destruct (decide _); [|done]]; vm_compute; discriminate.
Qed.

Lemma map_new_table_witness : exists s', map (alloc_page no_swap 9) 9 sample_pd 0x80005000 0x307000 7 paging_pool = Ok tt s' /\
  walk (k_mem s') sample_pd 0x80005123 = Some 0x307123.
Proof.
  destruct paging_pool_ok as [Hok Est].
  assert (Ep : k_pages paging_pool = 0x200000 /\ k_pt_begin paging_pool = 0x300000) by (split; rewrite Est; reflexivity). destruct Ep as [E1 E2].
  destruct (map_new_table no_swap 9 paging_pool sample_pd 0x80005000 0x307000 7 0x200000 5 [] 0 0x300000 7) as (s' & Hrun & Hw).
  - apply (tables_ext sample_tables); [exact sample_tables_ok|exact paging_pool_pde].
  - lia.
  - lia.
  - by vm_compute.
  - exact Hok.
  - lia.
  - lia.
  - left. by rewrite Est.
  - exact paging_tables_off_pool.
  - by rewrite E1.
  - exact sample_new_table.
  - exact (sample_frame paging_pool 7 E1 E2 ltac:(lia)).
  - rewrite E1. exact (paging_pool_off 7 ltac:(lia)).
  - rewrite E1. right. vm_compute. discriminate.
  - exists s'. split; [exact Hrun|]. rewrite Hw by lia. by vm_compute.
Defined.

(** Page 2 mapped at 0x5000 and at its place in the kernel window. *)
Definition sample_mapped : kst :=
  set_mem (wr32 (wr32 (wr32 sample_tables 0x11014 0x302007) 0x12C08 0x302003) 0x200030 2) sample_region.

Lemma sample_mapped_pde la : 0 <= la < 2 ^ 32 ->
  rd32 (k_mem sample_mapped) (pde_slot sample_pd la) = rd32 sample_tables (pde_slot sample_pd la).
Proof.
  intros Hla. pose proof (pde_slot_range sample_pd la Hla) as Hd. unfold sample_pd, PAGE_SIZE in *.
  cbn [k_mem sample_mapped set_mem]. rewrite !rd32_wr32_ne by (unfold wd; ka_simpl; lia). done.
Qed.

Lemma sample_mapped_tables : tables (k_mem sample_mapped) sample_pd.
Proof. apply (tables_ext sample_tables); [exact sample_tables_ok|exact sample_mapped_pde]. Qed.

Lemma sample_mapped_off i : 0 <= i < 10 -> off_tables (k_mem sample_mapped) sample_pd (0x200000 + sizeof_Page * i).
Proof.
  intros Hi la Hla. rewrite sample_mapped_pde by done.
  rewrite (slot_ext sample_tables) by (by apply sample_mapped_pde). by apply sample_off.
Qed.

Lemma sample_mapped_page la : la = 0x5000 \/ la = 0xC0302000 -> mapped sample_mapped sample_pd la 2.
Proof.
  intros Hla. split; [|split; [|split]].
  - destruct Hla as [-> | ->]; by vm_compute.
  - destruct Hla as [-> | ->]; by vm_compute.
  - replace (_ * PAGE_SIZE) with (0x300000 + 2 * PAGE_SIZE); [by apply sample_frame|].
    destruct Hla as [-> | ->]; by vm_compute.
  - by apply (sample_mapped_off 2).
Qed.

Lemma unmap_removes_witness : exists m', unmap (fun _ => nofuel) 9 sample_pd 0x5000 sample_mapped =
    Ok tt (set_log [EvInvlpg 0x5000] (set_mem m' sample_mapped)) /\ walk m' sample_pd 0x5000 = None.
Proof.
  destruct (unmap_removes (fun _ => nofuel) 9 sample_mapped sample_pd 0x5000 2) as (m' & Hrun & Hw & _).
  - exact sample_mapped_tables.
  - lia.
  - apply sample_mapped_page. by left.
  - by vm_compute.
  - exists m'. exact (conj Hrun Hw).
Defined.

Lemma map_over_drops_window_witness : exists m',
  map (fun _ => nofuel) 9 sample_pd 0x5000 0x303000 7 sample_mapped =
    Ok tt (set_log [EvInvlpg 0x5000; EvInvlpg 0xC0302000] (set_mem m' sample_mapped)) /\
  walk m' sample_pd 0x5000 = Some 0x303000 /\ walk m' sample_pd 0xC0302000 = None.
Proof.
  apply (map_over_drops_window (fun _ => nofuel) 9 sample_mapped sample_pd 0x5000 0x303000 7 3 2 0xC0302000).
  - exact sample_mapped_tables.
  - lia.
  - by apply (sample_frame _ 3).
  - lia.
  - done.
  - by apply (sample_mapped_off 3).
  - apply sample_mapped_page. by left.
  - lia.
  - by vm_compute.
  - by vm_compute.
  - apply sample_mapped_page. by right.
  - by vm_compute.
Defined.

Lemma kern_init_identity_witness : exists m',
  kern_init_paging blank_state = Ok tt (set_log [EvCr3 0] (set_mem m' blank_state)) /\
  walk m' 0 0xC0105123 = Some 0x105123.
Proof.
  destruct (kern_init_identity blank_state) as (m' & Hrun & Hw).
  - unfold VERTUAL_MEM. cbn. lia.
  - exists m'. split; [exact Hrun|]. rewrite Hw by lia. by vm_compute.
Defined.

Lemma region_pages_bound_witness :
  0 <= region_pages 0x125000 0x8000000 <= MAX_PAGE_NUM /\
  0x125000 + region_pages 0x125000 0x8000000 * PAGE_SIZE <= 0x8000000.
Proof.
  destruct (region_pages_bound 0x125000 0x8000000) as (H1 & H2 & _).
  - lia.
  - lia.
  - exact (conj H1 H2).
Defined.

(** A machine with 32 MB: the last of its 7899 pages lies beyond the end. *)
Lemma page_init_overcounts_witness :
  let n := region_pages 0x125000 0x2000000 in n = 7899 /\
  0x2000000 <= ROUNDUP (w32 (0x125000 + n * sizeof_Page)) + (n - 1) * PAGE_SIZE.
Proof.
  split; [by vm_compute|]. apply (page_init_overcounts 0x125000 0x2000000).
  - lia.
  - done.
  - unfold PAGE_SIZE. lia.
  - done.
  - by vm_compute.
Defined.
