(* ===== verification/RunsKernel.v ===== *)
(** The theorems on the heap, the disk, the address spaces, the processes and
    the console applied at concrete states. *)

From S2P Require Import Prelude Machine DList Pmm Paging Ports Swap Malloc Vmm Pid Proc Sched Semaphore Monitor Console Samples.

Local Open Scope Z_scope.

#[local] Existing Instance sample_symbols.

(** * The heap *)

Definition no_pages : Z -> K Z := fun _ => nofuel.

(** Page 4 and the one after it. *)
Definition give_pages : Z -> K Z := fun _ s => Ok (0x200000 + sizeof_Page * 4 + VERTUAL_MEM) s.

Lemma malloc_reuses_witness : exists m',
  malloc no_pages 9 100 sample_heap = Ok 0xC0301038 (set_mem m' sample_heap) /\
  heap m' [mk_chunk 0xC0301000 true 32; mk_chunk 0xC030102C true 100; mk_chunk 0xC030109C false 144;
           mk_chunk 0xC0301138 true 64].
Proof.
  destruct (malloc_reuses no_pages sample_heap sample_chunks 100 (mk_chunk 0xC030102C false 256) 9) as (m' & R & Hp & _).
  - exact sample_heap_ok.
  - lia.
  - simpl. lia.
  - by vm_compute.
  - exists m'. exact (conj R Hp).
Defined.

Lemma malloc_grows_witness : exists m',
  malloc give_pages 9 5000 sample_heap = Ok 0xC030400C (set_mem m' sample_heap) /\
  heap m' (sample_chunks ++ [mk_chunk 0xC0304000 true 5000; mk_chunk 0xC0305394 false 3168]).
Proof.
  destruct (malloc_grows give_pages sample_heap sample_heap (0x200000 + sizeof_Page * 4 + VERTUAL_MEM) 0xC0304000
    sample_chunks 5000 9) as (m' & R & Hp & _).
  - exact sample_heap_ok.
  - lia.
  - by vm_compute.
  - simpl. lia.
  - by vm_compute.
  - done.
  - by vm_compute.
  - exact sample_heap_ok.
  - constructor; [vm_compute; split; [discriminate|done]|].
    intros c Hc. unfold sample_chunks in Hc. rewrite !elem_of_cons, elem_of_nil in Hc.
    destruct Hc as [->|[->|[->|[]]]]; left; vm_compute; discriminate.
  - exists m'. exact (conj R Hp).
Defined.

Lemma free_coalesces_witness : exists m', free 0xC030100C sample_heap = Ok tt (set_mem m' sample_heap) /\
  heap m' [mk_chunk 0xC0301000 false 300; mk_chunk 0xC0301138 true 64].
Proof.
  destruct (free_coalesces sample_heap [] (mk_chunk 0xC0301000 true 32)
    [mk_chunk 0xC030102C false 256; mk_chunk 0xC0301138 true 64]) as (m' & R & Hp & _).
  - exact sample_heap_ok.
  - done.
  - exists m'. exact (conj R Hp).
Defined.

Lemma malloc_free_roundtrip_witness : exists p s1 s2,
  malloc no_pages 9 100 sample_heap = Ok p s1 /\ free p s1 = Ok tt s2 /\ heap (k_mem s2) sample_chunks.
Proof.
  apply (malloc_free_roundtrip no_pages sample_heap sample_chunks 100 (mk_chunk 0xC030102C false 256) 9).
  - exact sample_heap_ok.
  - exact sample_heap_coalesced.
  - lia.
  - simpl. lia.
  - by vm_compute.
Defined.

(** * The disk *)

(** A page of distinct words at 0xC0301000, and a drive that is ready and then
    answers them. *)
Definition sample_source : memory := wr32 (wr32 ∅ 0xC0301000 0x12345678) 0xC0301FFC 0x9ABCDEF0.
Definition sample_va : Z := 0x00402000.
Definition sample_out : kst := set_inq (0x40 :: replicate 8 0x40) (set_mem sample_source blank_state).
Definition sample_back : kst :=
  set_inq (0x40 :: sector_answers (sectors_at 8 sample_source 0xC0301000))
    (set_mem (wr32 ∅ 0x11000 (swap_entry sample_va)) blank_state).

Lemma swap_page_roundtrip_witness : exists m' log',
  swap_read 9 0xC0305000 0x11000 sample_back = Ok tt (set_log log' (set_inq [] (set_mem m' sample_back))) /\
  words_at 1024 m' 0xC0305000 = words_at 1024 sample_source 0xC0301000.
Proof.
  destruct (swap_page_roundtrip 9 sample_out sample_back 0xC0301000 0xC0305000 0x11000 sample_va [] []) as (_ & m' & R & W).
  - lia.
  - by apply span_check.
  - by apply span_check.
  - unfold sample_va, PAGE_SIZE. lia.
  - by rewrite app_nil_r.
  - by vm_compute.
  - by rewrite app_nil_r.
  - eexists m', _. exact (conj R W).
Defined.

Lemma swap_sectors_disjoint_witness :
  present (swap_entry 0x402000) = false /\ 8 <= va_sector 0x402000 /\
  (va_sector 0x402000 + 8 <= va_sector 0x403000 \/ va_sector 0x403000 + 8 <= va_sector 0x402000).
Proof. apply swap_sectors_disjoint; [unfold PAGE_SIZE; lia|unfold PAGE_SIZE; lia|by vm_compute]. Defined.

Lemma swap_entry_lost_witness : pte_page_addr (swap_entry 0x3000) = 0 /\ pte_sign (swap_entry 0x3000) = 0.
Proof. apply swap_entry_lost; [unfold PAGE_SIZE; lia|by vm_compute]. Defined.

Lemma waitdisk_never_fails_witness :
  waitdisk 9 (set_inq [0x80; 0x41; 7] blank_state) = Ok 0 (set_inq [7] blank_state) /\
  exists vs v, [0x80; 0x41; 7] = vs ++ v :: [7] /\ ready v.
Proof.
  assert (E : waitdisk 9 (set_inq [0x80; 0x41; 7] blank_state) = Ok 0 (set_inq [7] blank_state)) by (by vm_compute).
  split; [exact E|]. destruct (waitdisk_never_fails 9 _ _ _ E) as (_ & vs & v & H1 & H2 & _). exists vs, v. exact (conj H1 H2).
Defined.

(** * Process numbers *)

Definition sample_pids : list Z := [0xFFFFFFFF; 0xC0000000; 0].

Lemma get_pid_least_witness :
  (exists p pids', get_pid (set_pids sample_pids blank_state) = Ok p (set_pids pids' (set_pids sample_pids blank_state)) /\
    ~ pid_used sample_pids p /\ (forall q, 0 <= q < p -> pid_used sample_pids q)) \/
  get_pid (set_pids sample_pids blank_state) = Ok (-1) (set_pids sample_pids blank_state).
Proof.
  destruct (get_pid_least (set_pids sample_pids blank_state)) as [(p & pids' & R & _ & H1 & H2 & _)|[R _]].
  - repeat (apply Forall_cons; split); [lia|lia|lia|apply Forall_nil; done].
  - left. exists p, pids'. exact (conj R (conj H1 H2)).
  - right. exact R.
Defined.

(** * Address spaces *)

Definition sample_mm : Z := 0xC0310000.
Definition sample_area1 : area := mk_area 0xC0311000 0x1000 0x3000.
Definition sample_area2 : area := mk_area 0xC0311100 0x8000 0xA000.

Definition sample_areas (l : list area) : kst :=
  set_mm sample_mm (set_mem (put_words
    (flat_map (fun a => [(vma_start (ar_addr a), ar_start a); (vma_end (ar_addr a), ar_end a)])
       [sample_area1; sample_area2; mk_area 0xC0311200 0x5000 0x6000] ++
     link_up (mm_node sample_mm) (ar_node <$> l) (mm_node sample_mm)) ∅) blank_state).

Definition sample_space : kst := sample_areas [sample_area1; sample_area2].

(** A property of each element of a concrete list. *)
Ltac each := intros ? Hin; cbn [fmap list_fmap app] in Hin; rewrite ?elem_of_cons, ?elem_of_nil in Hin;
  repeat destruct Hin as [->|Hin]; try (exfalso; exact Hin).

Ltac decided := apply (bool_decide_unpack _); vm_compute; exact I.

Lemma sample_space_areas : areas (k_mem sample_space) sample_mm [sample_area1; sample_area2].
Proof.
  constructor.
  - by vm_compute.
  - each; by vm_compute.
  - apply dlist_check; by vm_compute.
  - each; by vm_compute.
Qed.


Lemma sample_cache_off : cache_off sample_mm [sample_area1; sample_area2].
Proof. split; unfold off_nodes; each; decided. Qed.


Lemma create_vma_in_order_witness : exists m',
  create_vma_insert 9 sample_mm 0xC0311200 0x5000 sample_space = Ok tt (set_mem m' sample_space) /\
  areas m' sample_mm [sample_area1; mk_area 0xC0311200 0x5000 0x6000; sample_area2].
Proof.
  apply (create_vma_in_order sample_space sample_mm [sample_area1] (mk_area 0xC0311200 0x5000 0x6000) [sample_area2] 9).
  - exact sample_space_areas.
  - done.
  - done.
  - simpl. lia.
  - each; by vm_compute.
  - intros a [= <-]. by vm_compute.
  - by vm_compute.
  - by vm_compute.
  - apply nodes_sep_check. by vm_compute.
  - constructor; [each; split_and!|]; try (unfold off_nodes; each); decided.
Defined.

Lemma create_vma_loses_last_witness :
  create_vma_insert 9 sample_mm 0xC0311200 0xB000 sample_space = Ok tt sample_space.
Proof.
  apply (create_vma_loses_last sample_space sample_mm 0xC0311200 0xB000 [sample_area1; sample_area2] 9).
  - exact sample_space_areas.
  - done.
  - each; by vm_compute.
  - simpl. lia.
Defined.

(** A write to a read-only area beside one that may be written. *)
Definition flag_space : kst :=
  set_mem (put_words [(vma_flags (ar_addr sample_area1), 5); (vma_flags (ar_addr sample_area2), 7)] (k_mem sample_space)) sample_space.

Lemma page_fault_refuses_witness : exists s', page_fault 9 0x1123 6 flag_space = Hang s'.
Proof.
  destruct (page_fault_refuses flag_space 0x1123 6 [sample_area1; sample_area2] 9) as (s' & R & _).
  - constructor; [by vm_compute|each; by vm_compute|apply dlist_check; by vm_compute|each; by vm_compute].
  - left. by vm_compute.
  - exact sample_cache_off.
  - simpl. lia.
  - each; decided.
  - right. right. each; [intros _; left; split; by vm_compute|by vm_compute].
  - exists s'. exact R.
Defined.

(** * Processes *)

Definition pcb_A : Z := 0xC0320000.
Definition pcb_B : Z := 0xC0320100.
Definition pcb_C : Z := 0xC0320200.
Definition pcb_D : Z := 0xC0320300.

Definition put_child (par y o c : Z) : list (Z * Z) := [(pcb_parent c, par); (pcb_yptr c, y); (pcb_optr c, o)].

(** [pcb_B] has the children [pcb_C] (the younger) and [pcb_D]; [pcb_A] is new. *)
Definition sample_family : memory :=
  put_words ((pcb_cptr pcb_B, pcb_C) :: put_child pcb_B NULL pcb_D pcb_C ++ put_child pcb_B pcb_C NULL pcb_D ++
    put_child pcb_B NULL NULL pcb_A) ∅.
Definition sample_procs : kst := set_current pcb_B (set_init_proc pcb_A (set_mem sample_family blank_state)).

Lemma do_fork_adds_child_witness : exists m',
  do_fork_link pcb_A sample_procs = Ok tt (set_mem m' sample_procs) /\ children m' pcb_B [pcb_A; pcb_C; pcb_D].
Proof.
  destruct (do_fork_adds_child sample_procs pcb_B pcb_A [pcb_C; pcb_D]) as (m' & R & Hc & _).
  - apply pcbs_sep_check. by vm_compute.
  - by vm_compute.
  - by vm_compute.
  - apply children_check. by vm_compute.
  - exists m'. exact (conj R Hc).
Defined.

Definition sample_childless : kst := set_mem (put_words (put_child pcb_D NULL NULL pcb_A) ∅) blank_state.

Lemma first_fork_writes_page_directory_witness : exists m',
  do_fork_link pcb_A sample_childless = Ok tt (set_mem m' sample_childless) /\
  rd32 m' (pde_at pd_init 0x04400000) = pcb_A.
Proof.
  apply (first_fork_writes_page_directory sample_childless pcb_D pcb_A).
  - apply pcbs_sep_check. by vm_compute.
  - by vm_compute.
  - apply children_check. by vm_compute.
Defined.

Lemma recycle_unlinks_child_witness : exists m',
  recycle_links pcb_C sample_procs = Ok tt (set_mem m' sample_procs) /\ children m' pcb_B [pcb_D].
Proof.
  apply (recycle_unlinks_child sample_procs pcb_B [] pcb_C [pcb_D]).
  - apply pcbs_sep_check. by vm_compute.
  - apply children_check. by vm_compute.
Defined.

Lemma send_chld_hands_over_witness : exists m',
  send_chld_to_init_loop 9 sample_procs = Ok tt (set_mem m' sample_procs) /\
  children m' pcb_B [] /\ children m' pcb_A [pcb_D; pcb_C].
Proof.
  destruct (send_chld_hands_over pcb_A pcb_B [pcb_C; pcb_D] sample_procs [] 9) as (m' & R & C1 & C2 & _).
  - apply pcbs_sep_check. by vm_compute.
  - done.
  - done.
  - apply children_check. by vm_compute.
  - apply children_check. by vm_compute.
  - simpl. lia.
  - exists m'. exact (conj R (conj C1 C2)).
Defined.

(** The state after [kmalloc] on the sample heap. *)
Definition sample_heap_less_pcb : kst :=
  match kmalloc 9 sizeof_pcb sample_heap with Ok _ s => s | _ => blank_state end.

Lemma create_pcb_blank_witness : exists m',
  create_pcb 9 sample_heap = Ok 0xC0301038 (set_mem m' sample_heap_less_pcb) /\
  rd32 m' (pcb_state 0xC0301038) = TASK_READY /\ children m' 0xC0301038 [].
Proof.
  destruct (create_pcb_blank 9 sample_heap 0xC0301038 sample_heap_less_pcb)
    as (m' & R & H1 & _ & _ & _ & _ & _ & _ & H2 & _).
  - by vm_compute.
  - apply pcbs_sep_check. by vm_compute.
  - by vm_compute.
  - exists m'. exact (conj R (conj H1 H2)).
Defined.

(** A pool of five pages, then two and four of them handed out. *)
Definition state_after {A} (m : K A) (s : kst) : kst := match m s with Ok _ s' => s' | _ => blank_state end.
Definition pool_5 : kst := state_after (page_init_pool 5) (set_pt_begin 0x300000 (set_pages 0x200000 blank_state)).
Definition pool_3 : kst := state_after (kalloc_page 9 2) pool_5.
Definition pool_1 : kst := state_after (kalloc_page 9 2) pool_3.

Lemma recycle_frees_page_below_witness : exists m',
  set_kthread_stack 9 pcb_A 0 pool_3 = Ok 0 (set_mem m' pool_1) /\
  la_addr_to_pg (w32 (rd32 m' (pcb_start_stack pcb_A) - PAGE_SIZE * KTHREAD_STACK_PAGE)) (set_mem m' pool_1) =
    Ok (0x200000 + 24 * 1) (set_mem m' pool_1).
Proof.
  destruct (recycle_frees_page_below 9 pcb_A pool_3 pool_1 2) as (m' & R & _ & H).
  - by vm_compute.
  - apply pcbs_sep_check. by vm_compute.
  - by vm_compute.
  - by vm_compute.
  - by vm_compute.
  - by vm_compute.
  - by vm_compute.
  - exists m'. exact (conj R H).
Defined.

(** A shared address space of two processes. *)
Definition sample_shared : kst :=
  set_mem (put_words [(mm_num sample_mm, 2); (mm_pde sample_mm, 0xC0400000)] ∅) blank_state.

Lemma copy_mm_shares_witness : exists m', copy_mm 9 pcb_A 1 sample_mm sample_shared = Ok 0 (set_mem m' sample_shared) /\
  rd32 m' (mm_num sample_mm) = rd32 (k_mem sample_shared) (mm_num sample_mm) + 1.
Proof.
  destruct (copy_mm_shares 9 pcb_A sample_mm sample_shared) as (m' & R & _ & _ & H).
  - apply pcbs_sep_check. by vm_compute.
  - done.
  - by vm_compute.
  - by vm_compute.
  - decided.
  - decided.
  - decided.
  - decided.
  - exists m'. exact (conj R H).
Defined.

Lemma delete_mm_only_counts_witness : exists s', delete_mm 9 sample_mm sample_shared = Ok tt s' /\
  rd32 (k_mem s') (mm_num sample_mm) = 1.
Proof.
  eexists. split; [apply (delete_mm_only_counts 9 sample_mm sample_shared); by vm_compute|by vm_compute].
Defined.

(** * Scheduling *)

(** Three processes, of which [pcb_B] and [pcb_C] can run; [pcb_D] is idle's. *)
Definition sample_run : kst :=
  set_idle pcb_D (set_current pcb_B (set_mem (put_words
    ([(pcb_state pcb_A, TASK_SLEEPING); (pcb_state pcb_B, TASK_RUNNABLE); (pcb_state pcb_C, TASK_RUNNABLE); (pcb_pid pcb_C, 4)] ++
     link_up proc_list (pcb_node <$> [pcb_A; pcb_B; pcb_C]) proc_list) ∅) blank_state)).

(** The others run for a while and switch back. *)
Definition others : K unit := mret tt.

Lemma schedule_runs_next_witness : exists s', schedule 9 others sample_run = Ok tt s' /\ k_current s' = pcb_C.
Proof.
  eexists. split.
  - rewrite (schedule_runs_next others sample_run [pcb_A; pcb_B; pcb_C] 9).
    + vm_compute. reflexivity.
    + constructor.
      * apply dlist_check; by vm_compute.
      * apply pcbs_sep_check. by vm_compute.
      * decided.
    + done.
    + right. decided.
    + simpl. lia.
  - done.
Defined.

Lemma schedule_early_return_witness :
  schedule 9 others (set_current NULL sample_run) = Ok tt (set_IF false (set_current NULL sample_run)).
Proof. by apply schedule_early_return. Defined.

Lemma sample_run_procs : procs (k_mem sample_run) (k_idle sample_run) [pcb_A; pcb_B; pcb_C].
Proof.
  constructor.
  - apply dlist_check; by vm_compute.
  - apply pcbs_sep_check. by vm_compute.
  - decided.
Qed.

Lemma schedule_fair_witness : exists n s', (n <= 3)%nat /\
  schedule_turns 9 (S n) sample_run = Ok tt s' /\ k_current s' = pcb_C.
Proof.
  apply (schedule_fair sample_run [pcb_A; pcb_B; pcb_C] pcb_C 9).
  - exact sample_run_procs.
  - discriminate.
  - right. decided.
  - simpl. lia.
  - decided.
  - by vm_compute.
Defined.

(** * Semaphores *)

(** A semaphore of value -1 on which [pcb_A] waits. *)
Definition sample_sem : Z := 0xC0330000.
Definition sample_waiting : kst :=
  set_current pcb_B (set_mem (put_words ((sem_value sample_sem, 0xFFFFFFFF) :: (pcb_state pcb_A, TASK_SLEEPING) ::
    link_up (sem_queue sample_sem) [pcb_semaphore_test_node pcb_A] (sem_queue sample_sem)) ∅) blank_state).

Lemma sample_sem_sep : sem_sep sample_sem [pcb_A; pcb_B].
Proof.
  constructor.
  - apply pcbs_sep_check. by vm_compute.
  - by apply span_check.
  - each; decided.
Qed.

Lemma sample_sem_at : sem_at [pcb_A; pcb_B] (k_mem sample_waiting) sample_sem (mk_asem (-1) [pcb_A]).
Proof.
  constructor.
  - by vm_compute.
  - cbn. lia.
  - apply dlist_check; by vm_compute.
  - intros p Hp. cbn in Hp. rewrite elem_of_cons, elem_of_nil in Hp. destruct Hp as [->|[]]. left.
  - by vm_compute.
Qed.

Lemma semaphore_init_spec_witness : exists m',
  semaphore_init sample_sem 3 sample_waiting = Ok tt (set_mem m' sample_waiting) /\
  sem_at [pcb_A; pcb_B] m' sample_sem (mk_asem 3 []).
Proof. apply (semaphore_init_spec sample_sem 3 [pcb_A; pcb_B]); [exact sample_sem_sep|lia]. Defined.

Lemma P_refines_witness : exists m', sem_at [pcb_A; pcb_B] m' sample_sem (mk_asem (-2) [pcb_A; pcb_B]) /\
  rd32 m' (pcb_state pcb_B) = TASK_SLEEPING.
Proof.
  destruct (P_refines others [pcb_A; pcb_B] sample_sem (mk_asem (-1) [pcb_A]) sample_waiting) as (m' & H & Hz & _).
  - exact sample_sem_sep.
  - exact sample_sem_at.
  - cbn. lia.
  - decided.
  - decided.
  - exists m'. split; [exact H|by apply Hz].
Defined.

Lemma V_refines_witness : exists m', V sample_sem sample_waiting = Ok tt (set_mem m' sample_waiting) /\
  rd32 m' (pcb_state pcb_A) = TASK_RUNNABLE.
Proof.
  destruct (V_refines [pcb_A; pcb_B] sample_sem (mk_asem (-1) [pcb_A]) sample_waiting) as (m' & _ & R & H & _).
  - exact sample_sem_sep.
  - exact sample_sem_at.
  - cbn. lia.
  - exists m'. split; [exact R|by apply H].
Defined.

(** The consumer sleeps in [full_s] and the producer is in its critical section. *)
Lemma semaphore_buffer_safe_witness : exists c,
  run BySemaphore.prog [Consumer; Producer; Producer; Producer] BySemaphore.init = Some c /\
  c_asleep c = (false, true) /\ BySemaphore.critical c Producer = true /\ c_var c = [1] /\
  safe BySemaphore.prog BySemaphore.critical c.
Proof.
  eexists. split; [by vm_compute|]. split; [done|split; [done|split; [done|]]]. apply semaphore_buffer_safe.
  apply (run_reachable BySemaphore.prog _ [Consumer; Producer; Producer; Producer] BySemaphore.init); [apply reach_refl|by vm_compute].
Defined.

(** The consumer waits for a product, has let the producer in and been signalled. *)
Lemma monitor_buffer_safe_witness : exists c,
  run ByMonitor.prog (repeat Consumer 6 ++ repeat Producer 9) ByMonitor.init = Some c /\
  c_asleep c = (true, false) /\ c_var c = [1; 1; 0; 1] /\ safe ByMonitor.prog ByMonitor.inside c.
Proof.
  eexists. split; [by vm_compute|]. split; [done|split; [done|]]. apply monitor_buffer_safe.
  apply (run_reachable ByMonitor.prog _ (repeat Consumer 6 ++ repeat Producer 9) ByMonitor.init); [apply reach_refl|by vm_compute].
Defined.

(** * The console *)

Definition blank_screen : vga := mk_vga ∅ 0 0 [].

Lemma blank_on_screen : on_screen blank_screen.
Proof. unfold on_screen. cbn. lia. Qed.

Lemma put_int_roundtrip_witness : match put_int_buf 4023 10 with
  | Some buf => numeral 10 buf = 4023 /\ (4023 <> 0 -> hd 0 buf <> 48) /\ (0 < length buf <= 10)%nat
  | None => 10 = 8 /\ 2 ^ 30 <= 4023
  end.
Proof. apply put_int_roundtrip; lia. Defined.

Lemma put_int_digits_fuel_witness : put_int_digits 100 4023 10 = put_int_digits 32 4023 10.
Proof. apply put_int_digits_fuel; lia. Defined.

(** The format "%d\n". *)
Lemma printf_stays_on_screen_witness : exists v', printf [37; 100; 10] [VaInt 4023] blank_screen = Some v' /\ on_screen v'.
Proof.
  destruct (printf [37; 100; 10] [VaInt 4023] blank_screen) as [v'|] eqn:E; [|by vm_compute in E].
  exists v'. split; [reflexivity|]. apply (fun H1 H2 => proj1 (printf_stays_on_screen [37; 100; 10] [VaInt 4023] _ v' blank_on_screen H1 H2 E)).
  - repeat (apply Forall_cons; split); try apply Forall_nil; by vm_compute.
  - repeat (apply Forall_cons; split); try apply Forall_nil; by vm_compute.
Defined.

Lemma show_char_prints_witness : position (show_char black white 65 blank_screen) = 1.
Proof.
  pose proof (show_char_prints black white 65 blank_screen blank_on_screen ltac:(unfold space; lia)) as [_ H].
  cbv zeta in H. destruct (decide _) as [_|Hn]; [exact (proj1 H)|]. destruct Hn. by vm_compute.
Defined.
