(* ===== verification/RunsDevices.v ===== *)
(** The theorems on demand paging, the descriptor tables, the keyboard, the
    system calls, the stack traces and the boot loader applied at concrete
    states. *)

From S2P Require Import Prelude Machine DList Pmm Paging Ports Swap Malloc Vmm Demand Mmu Proc Traps Kbd User Debug Boot Samples.

Local Open Scope Z_scope.

#[local] Existing Instance sample_symbols.

(** * A page fault

    One area, a directory at 0x10000 with a table at 0x11000 for the second
    4 MB, and a pool of five free pages. *)
Definition fault_mm : Z := 0xC0310000.
Definition fault_area : Z := 0xC0311000.

Definition fault_pool : kst :=
  match page_init_pool 5 (set_pt_begin 0x300000 (set_pages 0x200000 blank_state)) with Ok _ s => s | _ => blank_state end.

Definition fault_state : kst :=
  set_is_vmm_inited 1 (set_mm fault_mm (set_mem (put_words
    ([(0x10004, 0x11007); (mm_pde fault_mm, 0x10000); (mm_cache fault_mm, NULL);
      (vma_start fault_area, 0x400000); (vma_end fault_area, 0x500000); (vma_flags fault_area, 7)] ++
     link_up (mm_node fault_mm) [vma_node fault_area] (mm_node fault_mm) ++
     link_up (mm_vm_fifo fault_mm) [] (mm_vm_fifo fault_mm)) (k_mem fault_pool)) fault_pool)).

Definition fault_logged : kst := set_log (EvPrintf "page_fault triggered==> at cr2: %x.\n" [0x402123] :: k_log fault_state) fault_state.

(** After the area is found, and after the page is taken. *)
Definition fault_found : kst :=
  match find_vma 9 fault_mm 0x402000 fault_logged with Ok _ s => s | _ => blank_state end.
Definition fault_taken : kst := match kalloc_page 9 1 fault_found with Ok _ s => s | _ => blank_state end.
Definition fault_page : Z := 0x200000 + VERTUAL_MEM.

Ltac nodes_of := unfold queue_nodes; intros n Hin; cbn [app] in Hin; rewrite ?elem_of_cons, ?elem_of_nil in Hin;
  repeat destruct Hin as [->|Hin]; try (exfalso; exact Hin).

Lemma fault_page_free : page_free fault_taken fault_mm 0x10000 0 [] fault_page.
Proof.
  constructor.
  - by vm_compute.
  - apply dlist_check; by vm_compute.
  - apply nodes_sep_check. by vm_compute.
  - nodes_of; split; apply off_tables_check; by vm_compute.
  - apply off_tables_check. by vm_compute.
  - apply off_tables_check. by vm_compute.
  - apply off_nodes_check. by vm_compute.
  - apply off_nodes_check. by vm_compute.
  - apply (bool_decide_unpack _). vm_compute. exact I.
  - apply (bool_decide_unpack _). vm_compute. exact I.
Qed.

(** An access to 0x402123, a write. *)
Lemma fault_serves : serves 9 fault_logged 0x402123 1 fault_area fault_found fault_taken 0x10000 0 0x300000 [] fault_page.
Proof.
  constructor.
  - lia.
  - by vm_compute.
  - split; [discriminate|right; by vm_compute].
  - split; [by vm_compute|apply tables_check; by vm_compute].
  - split; [by vm_compute|split; by vm_compute].
  - by vm_compute.
  - split; [apply tables_check; by vm_compute|by vm_compute].
  - split; by vm_compute.
  - constructor; [lia|..]; by vm_compute.
  - exact fault_page_free.
Qed.

Lemma page_fault_supplies_page_witness : exists m' log,
  page_fault 9 0x402123 2 fault_state = Ok tt (set_log log (set_mem m' fault_taken)) /\
  walk m' 0x10000 0x402123 = Some 0x300123 /\ dlist m' (mm_vm_fifo fault_mm) [pg_node fault_page].
Proof.
  destruct (page_fault_supplies_page 9 fault_state 0x402123 2 1 fault_area fault_found fault_taken 0x10000 0 0x300000
    [] fault_page) as (m' & log & R & [W D _ _ _ _]).
  - done.
  - done.
  - done.
  - exact fault_serves.
  - exists m', log. exact (conj R (conj W D)).
Defined.

Lemma fault_frame_clear : frame_clear (k_mem fault_taken) 0x10000 0x402123 0x300000.
Proof.
  assert (E : ka (pde_slot 0x10000 0x402123) = 0x10004 /\ ka (pte_slot (k_mem fault_taken) 0x10000 0x402123) = 0x11008)
    by (split; by vm_compute).
  intros a [-> | ->]; left; destruct E as [E1 E2]; rewrite ?E1, ?E2; done.
Qed.

Lemma kernel_store_load_witness : exists m' log,
  (poke8 9 0x10000 Supervisor 0x402123 0x12;; peek8 9 0x10000 Supervisor 0x402123) fault_state =
  Ok 0x12 (set_log log (set_mem (wr8 m' 0x300123 0x12) fault_taken)).
Proof.
  destruct (kernel_store_load 9 fault_state 0x402123 0x12 fault_area fault_found fault_taken 0x10000 0 0x300000
    [] fault_page) as (m' & log & R & _).
  - exact fault_serves.
  - by vm_compute.
  - exact fault_frame_clear.
  - lia.
  - exists m', log. exact R.
Defined.

Lemma user_store_stops_witness : exists m' log s',
  page_fault 9 0x402123 (fault_code User true false) fault_state = Ok tt (set_log log (set_mem m' fault_taken)) /\
  walk m' 0x10000 0x402123 = Some 0x300123 /\ poke8 9 0x10000 User 0x402123 0x12 fault_state = Hang s'.
Proof.
  destruct (user_store_stops 9 fault_state 0x402123 0x12 fault_area fault_found fault_taken 0x10000 0 0x300000 [] fault_page)
    as (m' & log & s' & R & W & _ & _ & _ & Hh & _).
  - exact fault_serves.
  - by vm_compute.
  - lia.
  - exists m', log, s'. split; [exact R|split; [rewrite W; by vm_compute|exact Hh]].
Defined.

(** * Descriptors, gates and frames *)

Lemma segment_roundtrip_witness : exists d,
  gdt (set_seg_gate_desc 5 0xC0112345 103 0x89 0x04 cpu_reset) !! 5%nat = Some d /\
  seg_base (gdt_word d) = 0xC0112345 /\ seg_limit (gdt_word d) = 103.
Proof.
  destruct (segment_roundtrip 5 0xC0112345 103 0x89 0x04 cpu_reset) as (d & E & H1 & H2 & _).
  - by vm_compute.
  - lia.
  - lia.
  - lia.
  - exists d. exact (conj E (conj H1 H2)).
Defined.

Lemma gate_roundtrip_witness : exists g,
  idt (set_intr_gate_desc 0x80 0xC0104321 0x08 IGD 3 1 cpu_reset) !! 128%nat = Some g /\
  gate_offset (idt_word g) = 0xC0104321 /\ gate_type (idt_word g) = 0xE.
Proof.
  destruct (gate_roundtrip 0x80 0xC0104321 0x08 IGD 3 1 cpu_reset) as (g & E & H1 & _ & H2 & _).
  - apply (bool_decide_unpack _). by vm_compute.
  - lia.
  - lia.
  - lia.
  - lia.
  - by left.
  - exists g. exact (conj E (conj H1 H2)).
Defined.

Lemma gdt_flat_witness : exists d, gdt (gdt_init 0xC0110000 cpu_reset) !! 3%nat = Some d /\
  seg_base (gdt_word d) = 0 /\ seg_last (gdt_word d) = 2 ^ 32 - 1 /\ seg_access (gdt_word d) = 0xFA.
Proof. apply gdt_flat; [done|]. rewrite !elem_of_cons. auto. Defined.

Definition stub (i : Z) : Z := 0xC0100000 + 16 * i.

Lemma init_vectors_witness :
  trap 14 (init_tables 0xC0110000 0xC0110100 0xC0111000 0xC0120000 stub cpu_reset) = Some H_page_fault.
Proof.
  destruct (init_vectors 0xC0110000 0xC0110100 0xC0111000 0xC0120000 stub cpu_reset 14) as [H _].
  - apply length_replicate.
  - apply length_replicate.
  - lia.
  - unfold stub. lia.
  - exact H.
Defined.

(** The frame of the way back, pushed elsewhere: the flags of the user and a stack of its own. *)
Definition back_frame : kst :=
  set_mem (put_words [(frame_eflags 0xC0211000, 0x3202); (frame_esp 0xC0211000, 0x40000F00)] ∅) blank_state.

Lemma ring_switch_roundtrip_witness : exists m1 m2,
  switch_to_user_handler 0xC0200000 blank_state = Ok tt (set_mem m1 blank_state) /\
  rd32 m1 0xC0200030 = 0x1B /\
  switch_to_kern_handler 0xC01FFFF0 0xC0211000 back_frame = Ok 0x40000F00
    (set_mem m2 (set_log [EvPrintf "frame->esp: %x\n" [0x40000F00]; EvPrintf "frame: %x\n" [0xC01FFFF0]] back_frame)) /\
  rd32 m2 (frame_eflags 0xC0211000) = 0x202.
Proof.
  destruct (ring_switch_roundtrip 0xC0200000 blank_state) as (m1 & R1 & C1 & _ & _ & _ & _ & _ & _ & B).
  - by apply span_check.
  - destruct (B 0xC01FFFF0 0xC0211000 back_frame) as (m2 & R2 & _ & _ & E & _); [by apply span_check|].
    exists m1, m2. split; [exact R1|split; [exact C1|split]].
    + rewrite R2. by vm_compute (rd32 (k_mem back_frame) _).
    + rewrite E. by vm_compute.
Defined.

(** * The keyboard *)

Definition keys : kst := set_inq [0; 0; 0x1E] blank_state.

Lemma getchar_in_table_witness : exists ch,
  getchar 9 kbd_reset keys = Ok (Some ch, kbd_reset) (set_inq [] keys) /\ 0 <= ch < 128.
Proof.
  apply (getchar_in_table 9 2 0x1E [] keys kbd_reset).
  - lia.
  - done.
  - discriminate.
Defined.

Lemma letters_change_case_witness : exists ch, 97 <= ch <= 122 /\
  key_char 0x1E (mk_kbd false true false false false false) = Some (letter_to_upper_case ch).
Proof.
  destruct (letters_change_case 0x1E (mk_kbd false true false false false false)) as (ch & _ & H1 & H2).
  - lia.
  - by vm_compute.
  - exists ch. exact (conj H1 H2).
Defined.

Lemma ctrl_misattributed_witness :
  is_rt_ctrl_pressed (key_event PRESS_CTRL (key_events [0x48; 0xE0; 0xC8] (key_event DOUBLE_KEY kbd_reset))) = true.
Proof.
  destruct (ctrl_misattributed [0x48; 0xE0; 0xC8] kbd_reset) as [H _].
  - apply (bool_decide_unpack _). by vm_compute.
  - exact H.
Defined.

(** * System calls *)

Definition user_frame : Z := 0xC0200000.
Definition user_pcb : Z := 0xC0210000.
Definition never : K unit := hang.
Definition no_call : Z -> K Z := fun _ => hang.

(** [getpid] from the process numbered 7. *)
Definition user_state : kst :=
  set_current user_pcb (set_mem (put_words
    [(frame_edx user_frame, 5); (frame_ebx user_frame, 0); (frame_ecx user_frame, 0); (pcb_pid user_pcb, 7)] ∅) blank_state).

Lemma system_intr_returns_witness : exists m', system_intr 9 never no_call user_frame user_state = Ok tt (set_mem m'
    (set_mem (wr32 (k_mem user_state) (pcb_frame user_pcb) user_frame) user_state)) /\
  rd32 m' (frame_eax user_frame) = 7.
Proof.
  destruct (system_intr_returns 9 never no_call user_frame (getpid (mk_regs 0 0 0)) user_state 7
    (set_mem (wr32 (k_mem user_state) (pcb_frame user_pcb) user_frame) user_state)) as (m' & R & E & _).
  - split_and!; by vm_compute.
  - by vm_compute.
  - apply (bool_decide_unpack _). vm_compute. exact I.
  - exists m'. exact (conj R E).
Defined.

Lemma simple_syscalls_witness : exists m',
  system_intr 9 never no_call user_frame user_state = Ok tt (set_mem m' user_state) /\
  rd32 m' (frame_eax user_frame) = 7.
Proof.
  destruct (simple_syscalls 9 never no_call user_frame (mk_regs 0 0 0) user_state) as [H _].
  - apply (bool_decide_unpack _). vm_compute. exact I.
  - apply (bool_decide_unpack _). vm_compute. exact I.
  - destruct H as (m' & R & _ & E); [split_and!; by vm_compute|]. exists m'. exact (conj R E).
Defined.

(** * Stack traces *)

Definition sample_dbg : dbg := mk_dbg 0 0 0 0 0 0xC0220000 2 0xC0221000 0 0 0 0.
Definition sample_symbols_list : list symbol := [mk_symbol 1 0xC0100000 0x100; mk_symbol 8 0xC0100100 0x80].

(** Two frames: the inner one returns into the second function. *)
Definition traced : kst :=
  set_mem (put_words
    [(st_name 0xC0220000, 1); (st_value 0xC0220000, 0xC0100000); (st_size 0xC0220000, 0x100);
     (st_name 0xC0220010, 8); (st_value 0xC0220010, 0xC0100100); (st_size 0xC0220010, 0x80);
     (0xC0230000, 0xC0230010); (0xC0230004, 0xC0100110); (0xC0230010, 0); (0xC0230014, 0x7C45)] ∅) blank_state.

Lemma sample_table : table_at sample_dbg (k_mem traced) sample_symbols_list.
Proof. split; [|done]. repeat split; by vm_compute. Qed.

Lemma get_func_name_first_witness : get_func_name sample_dbg 0xC0100110 traced = Ok 0xC0221008 traced.
Proof. exact (get_func_name_first sample_dbg sample_symbols_list 0xC0100110 traced sample_table). Defined.

Lemma backtrace_follows_frames_witness :
  print_backtrace 3 sample_dbg 0xC0230000 traced =
    Ok tt (set_log [EvPrintf "%x, %s\n" [0xC0100110; 0xC0221008]] traced).
Proof.
  apply (backtrace_follows_frames sample_dbg sample_symbols_list [0xC0100110; 0x7C45] 0xC0230000 traced 3).
  - exact sample_table.
  - cbn [frames]. split_and!; try by vm_compute.
  - simpl. lia.
Defined.

(** * The boot loader *)

Definition boot_sectors : list (list Z) := [replicate 128 0x11111111; replicate 128 0x22222222].
Definition boot_state : kst := set_inq (boot_answers boot_sectors ++ []) blank_state.

(** 600 bytes from byte 16 of the image. *)
Lemma readseg_loads_witness : exists m',
  readseg 9 0x100010 600 16 boot_state =
    Ok tt (set_log (boot_log 2 1 ++ k_log boot_state) (set_inq [] (set_mem m' boot_state))) /\
  words_at 256 m' 0x100000 = (w32 <$> concat boot_sectors).
Proof.
  destruct (readseg_loads 9 boot_sectors 0x100010 600 16 boot_state []) as (m' & R & W & _).
  - by apply (bool_decide_unpack _).
  - lia.
  - lia.
  - lia.
  - done.
  - done.
  - by apply span_check.
  - done.
  - repeat (apply Forall_cons; split); try apply Forall_nil; done.
  - done.
  - exists m'. exact (conj R W).
Defined.

(** An empty disk. *)
Definition blank_sectors : list (list Z) := replicate 160 (replicate 128 0).
Definition blank_disk : kst := set_inq (boot_answers blank_sectors ++ []) blank_state.

Lemma bootmain_refuses_witness : exists m',
  bootmain 200 blank_disk = Ok None (set_log (boot_log 160 1 ++ k_log blank_disk) (set_inq [] (set_mem m' blank_disk))).
Proof.
  destruct (bootmain_refuses 200 blank_sectors 0 blank_disk []) as (m' & R & _).
  - apply length_replicate.
  - lia.
  - apply Forall_replicate. done.
  - done.
  - discriminate.
  - reflexivity.
  - exists m'. exact R.
Defined.
