(* ===== verification/RunsLife.v ===== *)
(** The theorems on the memory managers together, on page replacement, on the
    life of a process and on the image tool applied at concrete states. *)

From S2P Require Import Prelude Machine DList Sign Pmm Paging Ports Swap Malloc Vmm Kernel Demand Evict Proc Sched Traps User Life Samples.

Local Open Scope Z_scope.

#[local] Existing Instance sample_symbols.

Ltac decided := apply (bool_decide_unpack _); vm_compute; exact I.
Ltac each := intros ? Hin; cbn [fmap list_fmap app] in Hin; rewrite ?elem_of_cons, ?elem_of_nil in Hin;
  repeat destruct Hin as [->|Hin]; try (exfalso; exact Hin).

(** * The memory managers *)

(** Five pages whose structures are at 0x200000 and whose frames at 0x300000. *)
Definition five_pages : kst := set_pt_begin 0x300000 (set_pages 0x200000 blank_state).
Definition no_swap : Z -> Z -> K unit := fun _ _ => hang.

Lemma five_pages_arena : arena (Z.of_nat 5) five_pages.
Proof. constructor; [constructor; by vm_compute| |split; by vm_compute|split; by vm_compute|by vm_compute]. right. vm_compute. discriminate. Qed.

(** The mapping loop has taken the first page for a table. *)
Lemma table_taken : exists s, arena 5 s /\ pool_ok s [(0x200018, 4%nat)] /\ k_pages s = 0x200000 /\
  k_pt_begin s = 0x300000 /\ k_is_vmm_inited s = 0 /\ k_pd s = 0.
Proof.
  destruct (pool_start five_pages 5 five_pages_arena ltac:(lia)) as (s0 & _ & Hk & Hst).
  destruct (alloc_page_front no_swap s0 0x200000 5 [] 1 9 (km_pool _ _ _ _ Hk)) as (s & _ & Hs & Hp & _);
    [lia|lia|left; by rewrite Hst|].
  exists s. assert (E : k_pages s = k_pages s0 /\ k_pt_begin s = k_pt_begin s0 /\ k_is_vmm_inited s = k_is_vmm_inited s0 /\ k_pd s = k_pd s0)
    by (by rewrite Hs). destruct E as (E1 & E2 & E3 & E4). rewrite E1, E2, E3, E4, Hst.
  split; [|by split]. destruct five_pages_arena. constructor; rewrite ?E1, ?E2; try rewrite Hst; assumption.
Qed.

Lemma memory_start_witness : exists s s', pool_ok s [(0x200018, 4%nat)] /\
  (malloc_init;; vmm_init (kalloc_page 9) 9) s = Ok tt s' /\
  kmem 5 s' [(0x200030, 3%nat)] [mk_chunk 0xC0301000 true 28; mk_chunk 0xC0301028 false 4044] /\
  areas (k_mem s') 0xC030100C [].
Proof.
  destruct table_taken as (s & Ha & Hp & E1 & E2 & Hv & Hpd).
  assert (El : frame_la s 0x200018 = 0xC0301000) by (unfold frame_la; rewrite E1, E2; by vm_compute).
  destruct (memory_start 9 5 s 0x200018 4 []) as (s' & R & Hk & _ & _ & A & _).
  - exact Ha.
  - exact Hp.
  - rewrite E1. cbn [pool_pages pages_from app]. each; unfold sizeof_Page; lia.
  - lia.
  - lia.
  - by rewrite Hv.
  - by rewrite Hpd.
  - rewrite El in Hk, A. exists s, s'. exact (conj Hp (conj R (conj Hk A))).
Defined.

(** Memory management runs, and no user page is in the queue. *)
Definition idle_queue (s : kst) : kst :=
  set_is_vmm_inited 1 (set_mm 0xC0120000 (set_mem (wr32 (k_mem s) (node_next (mm_vm_fifo 0xC0120000)) (mm_vm_fifo 0xC0120000)) s)).

Lemma idle_queue_ok s bs cs : kmem 5 s bs cs -> k_pages s = 0x200000 ->
  kmem 5 (idle_queue s) bs cs /\ queue_empty (idle_queue s) bs.
Proof.
  intros Hk E. assert (Hc : client_word bs cs (node_next (mm_vm_fifo 0xC0120000))).
  { apply (global_client 5 s); [exact Hk|..]; rewrite ?E; first [right; vm_compute; discriminate|left; vm_compute; discriminate|vm_compute; discriminate]. }
  split.
  - eapply kmem_same; [..|exact (kmem_wr32 5 s bs cs _ (mm_vm_fifo 0xC0120000) Hk Hc)]; done.
  - split; [cbn; by rewrite rd32_wr32_eq|apply Hc].
Qed.

Lemma kmalloc_keeps_witness : exists s1 s2, k_is_vmm_inited s1 = 1 /\
  malloc (kalloc_page 9) 9 100 s1 = Ok 0xC030000C s2 /\
  kmem 5 s2 [(0x200018, 4%nat)] [mk_chunk 0xC0300000 true 100; mk_chunk 0xC0300070 false 3972].
Proof.
  destruct (pool_start five_pages 5 five_pages_arena ltac:(lia)) as (s1 & _ & Hk & Hst).
  destruct (idle_queue_ok s1 _ _ Hk) as [Hk' Hq]; [by rewrite Hst|]. exists (idle_queue s1).
  destruct (kmalloc_keeps 9 5 (idle_queue s1) [(0x200000, 5%nat)] [] 100 0xC030000C [(0x200018, 4%nat)]
    [mk_chunk 0xC0300000 true 100; mk_chunk 0xC0300070 false 3972]) as (s2 & R & _ & Hk2 & _).
  - exact Hk'.
  - lia.
  - simpl. lia.
  - right. right. right. exact Hq.
  - rewrite Hst. by vm_compute.
  - exists s2. exact (conj eq_refl (conj R Hk2)).
Defined.

Lemma kfree_keeps_witness : exists s1 m', free 0xC030000C s1 = Ok tt (set_mem m' s1) /\
  kmem 5 (set_mem m' s1) [(0x200018, 4%nat)] [mk_chunk 0xC0300000 false 4084].
Proof.
  destruct (pool_start five_pages 5 five_pages_arena ltac:(lia)) as (s0 & _ & Hk & Hst).
  destruct (kmalloc_run (alloc_page no_swap 9) _ 5 s0 [(0x200000, 5%nat)] [] 100 9 0xC030000C [(0x200018, 4%nat)]
    [mk_chunk 0xC0300000 true 100; mk_chunk 0xC0300070 false 3972] Hk) as (s1 & _ & _ & Hk1 & _);
    [lia|simpl; lia|intros _; left; by rewrite Hst|rewrite Hst; by vm_compute|].
  destruct (kfree_keeps 5 s1 [(0x200018, 4%nat)] [] (mk_chunk 0xC0300000 true 100) [mk_chunk 0xC0300070 false 3972])
    as (m' & R & Hk' & _).
  - exact Hk1.
  - done.
  - exists s1, m'. exact (conj R Hk').
Defined.

(** * Page replacement

    The page of 0x402000 is the only one in the queue; the pool is one run of two
    pages below it; a directory at 0x10000 with a table at 0x11000. The page holds
    one word. *)
Definition evict_mm : Z := 0xC0310000.
Definition evict_page : Z := 0x200048 + VERTUAL_MEM.

Definition evict_state : kst :=
  set_inq (0x40 :: replicate 8 0x40 ++ [])
    (set_pt_begin 0x300000 (set_pages 0x200000 (set_mem (put_words
      ([(0x10004, 0x11007); (0x11008, 0x303007); (mm_pde evict_mm, 0x10000);
        (pg_va evict_page, 0x402000); (pg_free_pages 0x200000, 2); (0x303008, 0xCAFE)] ++
       link_up (mm_vm_fifo evict_mm) [pg_node evict_page] (mm_vm_fifo evict_mm) ++
       link_up free_pages_head [pg_node 0x200000] free_pages_head) ∅) blank_state))).

Lemma evict_above : above (k_mem evict_state) [] 0x200000 evict_page.
Proof.
  constructor.
  - unfold page_words. each; split; by vm_compute.
  - each. by vm_compute.
  - done.
  - apply nodes_sep_check. by vm_compute.
  - apply off_nodes_check. by vm_compute.
  - apply off_nodes_check. by vm_compute.
  - cbv zeta. split; [decided|]. split; [decided|]. split; [apply off_nodes_check; by vm_compute|].
    by vm_compute.
Qed.

Lemma evict_ready : evictable evict_state evict_mm 0x10000 3 0x303000 0x402000 evict_page [] [] 0x200000.
Proof.
  constructor.
  - by vm_compute.
  - constructor; by vm_compute.
  - split; [by vm_compute|by split].
  - by vm_compute.
  - apply tables_check. by vm_compute.
  - by vm_compute.
  - apply dlist_check; by vm_compute.
  - apply dlist_check; by vm_compute.
  - exact evict_above.
  - intros a [Ha|(n & Hn & Ha)].
    + revert a Ha. each; apply off_tables_check; by vm_compute.
    + revert n Hn Ha. each; intros [-> | ->]; apply off_tables_check; by vm_compute.
  - each. split; (split; [apply off_nodes_check; by vm_compute|split; decided]).
  - each; split; apply off_nodes_check; by vm_compute.
  - apply off_nodes_check. by vm_compute.
  - cbv zeta. split; [apply off_nodes_check; by vm_compute|]. split; [apply off_nodes_check; by vm_compute|]. split; decided.
  - cbv zeta. split; [apply off_nodes_check; by vm_compute|]. split; [apply off_nodes_check; by vm_compute|]. split; decided.
Qed.

Lemma swap_out_evicts_witness : exists s', swap_out 9 evict_mm 1 evict_state = Ok tt s' /\
  walk (k_mem evict_state) 0x10000 0x402000 = Some 0x303000 /\ walk (k_mem s') 0x10000 0x402000 = None /\
  k_free_page_num s' = 1.
Proof.
  destruct (swap_out_evicts evict_state evict_mm 0x10000 3 0x303000 0x402000 evict_page [] [] 0x200000 [] 9)
    as (m' & R & _ & W & _).
  - exact evict_ready.
  - simpl. lia.
  - done.
  - eexists. split; [exact R|]. split; [by vm_compute|]. split; [exact W|]. by vm_compute.
Defined.

Lemma free_page_above_misplaced_witness : exists m',
  free_page 9 evict_page 1 evict_state = Ok tt (set_free_page_num 1 (set_mem m' evict_state)) /\
  dlist m' free_pages_head [pg_node evict_page; pg_node 0x200000].
Proof.
  destruct (free_page_above_misplaced evict_state [] 0x200000 evict_page 9) as (m' & R & D & _).
  - apply dlist_check; by vm_compute.
  - exact evict_above.
  - simpl. lia.
  - exists m'. exact (conj R D).
Defined.

(** * The image tool *)

Definition small_image : host := mk_host (<["boot.bin" := [0xFA; 0xFC]]> ∅) [].
Definition full_sector : host := mk_host (<["boot.bin" := boot_sector [0xFA; 0xFC]]> ∅) [].

Lemma sign_makes_boot_sector_witness : exists h', main ["sign"; "boot.bin"] small_image = (0, h') /\
  h_files h' !! "boot.bin" = Some (boot_sector [0xFA; 0xFC]).
Proof.
  destruct (sign_makes_boot_sector "sign" "boot.bin" small_image [0xFA; 0xFC]) as (h' & R & E & _).
  - done.
  - simpl. lia.
  - exists h'. exact (conj R E).
Defined.

Lemma sign_refuses_long_witness : h_files (main ["sign"; "boot.bin"] full_sector).2 = h_files full_sector.
Proof.
  destruct (sign_refuses_long "sign" "boot.bin" full_sector (boot_sector [0xFA; 0xFC])) as [_ E].
  - done.
  - rewrite length_boot_sector; simpl; lia.
  - exact E.
Defined.

(** * The life of a process *)

Definition life_pcb : Z := 0xC0320000.
Definition life_init : Z := 0xC0320100.
Definition life_child : Z := 0xC0320200.
Definition life_frame : Z := 0xC0330000.
Definition life_mm : Z := 0xC0310000.

(** A new block with the stack top 0xC0342FFC in an address space whose directory
    at 0x10000 has a table at 0x11000 for the addresses from 0xC0000000 on. *)
Definition new_state : kst :=
  set_mem (put_words [(pcb_start_stack life_pcb, 0xC0342FFC); (pcb_mm life_pcb, life_mm); (mm_pde life_mm, 0x10000);
    (0x10C00, 0x11007); (frame_eip life_frame, 0xC0100777); (frame_eflags life_frame, 0x46)] ∅) blank_state.

Lemma kernel_thread_starts_witness : exists m',
  copy_thread 9 life_pcb 0 (mret (kernel_frame 0xC0100500 1)) new_state = Ok tt (set_mem m' new_state) /\
  rd32 m' (pcb_context_eip life_pcb) = 0xC0100300 /\ rd32 m' (frame_eip 0xC0342FBC) = 0xC0100200 /\
  rd32 m' (frame_ebx 0xC0342FBC) = 0xC0100500.
Proof.
  destruct (kernel_thread_starts 9 life_pcb 0xC0100500 1 new_state) as (m' & R & E1 & _ & _ & E2 & _ & _ & E3 & _).
  - apply span_check. by vm_compute.
  - apply span_check. by vm_compute.
  - right. vm_compute. discriminate.
  - by split.
  - by split.
  - by split.
  - by split.
  - exists m'. exact (conj R (conj E1 (conj E2 E3))).
Defined.

Lemma fork_child_frame_witness : exists m',
  copy_thread 9 life_pcb 0x40 (frame_words life_frame) new_state = Ok tt (set_mem m' new_state) /\
  rd32 m' (frame_eip 0xC0342FBC) = 0xC0100777 /\ rd32 m' (frame_eflags 0xC0342FBC) = 0x246.
Proof.
  destruct (fork_child_frame 9 life_pcb 0x10000 0x40 life_frame new_state) as (m' & R & _ & _ & W & _).
  - done.
  - apply tables_check. by vm_compute.
  - by vm_compute.
  - by vm_compute.
  - by vm_compute.
  - apply off_region_check. by vm_compute.
  - apply off_region_check. by vm_compute.
  - apply off_region_check. by vm_compute.
  - apply off_tables_check. by vm_compute.
  - apply span_check. by vm_compute.
  - apply span_check. by vm_compute.
  - apply span_check. by vm_compute.
  - right. vm_compute. discriminate.
  - right. vm_compute. discriminate.
  - by split.
  - exists m'. split; [exact R|]. split; [exact (W 11%nat ltac:(lia))|exact (W 13%nat ltac:(lia))].
Defined.

(** A process with one child, which [init_proc] does not have yet, and the list
    of the three. *)
Definition family_words (child_state : Z) : list (Z * Z) :=
  [(pcb_pid life_pcb, 3); (pcb_parent life_pcb, life_init); (pcb_cptr life_pcb, life_child);
   (pcb_pid life_init, 1); (pcb_pid life_child, 4); (pcb_parent life_child, life_pcb); (pcb_state life_child, child_state)] ++
  link_up proc_list [pcb_node life_init; pcb_node life_pcb; pcb_node life_child] proc_list.

Definition family_state (child_state : Z) : kst :=
  set_current life_pcb (set_init_proc life_init (set_mem (put_words (family_words child_state) ∅) blank_state)).

(** A process without children exits while its parent waits for it. *)
Definition exit_state : kst :=
  set_current life_child (set_mem (put_words [(pcb_waitstate life_pcb, WT_CHILD); (pcb_state life_pcb, TASK_SLEEPING);
    (pcb_parent life_child, life_pcb); (pcb_pid life_child, 4)] ∅) blank_state).

Lemma exit_leaves_zombie_witness : exists m' log,
  do_exit 9 hang 5 exit_state = Hang (set_log log (set_mem m' exit_state)) /\
  rd32 m' (pcb_state life_child) = TASK_ZOMBIE /\ rd32 m' (pcb_state life_pcb) = TASK_RUNNABLE.
Proof.
  destruct (exit_leaves_zombie 9 hang 5 exit_state life_child life_pcb) as (m' & log & R & Z & P & _).
  - apply pcbs_sep_check. by vm_compute.
  - done.
  - by vm_compute.
  - by vm_compute.
  - apply children_check. by vm_compute.
  - lia.
  - exists m', log. split; [exact R|split; [exact Z|]]. rewrite P. by vm_compute.
Defined.

Lemma family_words_ok : list_words [life_init; life_pcb; life_child].
Proof. unfold list_words. each; (split; [by vm_compute|by split]). Qed.

(** The child is a zombie; waiting for a process that does not exist; for one of
    another parent. *)
Lemma waitpid_branches_witness :
  do_waitpid 9 hang 4 (family_state TASK_ZOMBIE) =
    recycle_child 9 life_child (set_log [EvPrintf "waitpid %d begin...\n" [4]] (family_state TASK_ZOMBIE)) /\
  do_waitpid 9 hang 7 (family_state TASK_ZOMBIE) = Ok 0 (set_log [EvPrintf "waitpid %d begin...\n" [7]] (family_state TASK_ZOMBIE)) /\
  exists s', do_waitpid 9 hang 1 (family_state TASK_ZOMBIE) = Ok (-1) s'.
Proof.
  assert (Hd : dlist (k_mem (family_state TASK_ZOMBIE)) proc_list (pcb_node <$> [life_init; life_pcb; life_child])).
  { apply dlist_check; by vm_compute. }
  assert (Hf : (length [life_init; life_pcb; life_child] < 9)%nat) by (simpl; lia).
  pose proof (fun pid => waitpid_branches 9 hang _ _ pid Hd family_words_ok Hf) as W. cbv zeta in W.
  set (s := family_state TASK_ZOMBIE) in *. set (ps := [life_init; life_pcb; life_child]) in *.
  assert (E4 : List.find (has_pid (k_mem s) 4) ps = Some life_child) by (by vm_compute).
  assert (C4 : child_of (k_mem s) (k_current s) life_child = true) by (by vm_compute).
  assert (Z4 : zombie (k_mem s) life_child = true) by (by vm_compute).
  assert (E7 : List.find (has_pid (k_mem s) 7) ps = None) by (by vm_compute).
  assert (E1 : List.find (has_pid (k_mem s) 1) ps = Some life_init) by (by vm_compute).
  assert (C1 : child_of (k_mem s) (k_current s) life_init = false) by (by vm_compute).
  split; [|split; [|eexists]]; rewrite W by done; [rewrite E4, C4, Z4|rewrite E7|rewrite E1, C1]; reflexivity.
Defined.

Lemma waitpid_any_branches_witness :
  do_waitpid 9 hang 0 (family_state TASK_ZOMBIE) =
    recycle_child 9 life_child (set_log [EvPrintf "waitpid %d begin...\n" [0]] (family_state TASK_ZOMBIE)).
Proof.
  destruct (waitpid_any_branches 9 hang (family_state TASK_ZOMBIE) [life_init; life_pcb; life_child]) as [H _].
  - apply dlist_check; by vm_compute.
  - exact family_words_ok.
  - simpl. lia.
  - rewrite (H life_child ltac:(by vm_compute)). reflexivity.
Defined.
