(* ===== verification/RunsFork.v ===== *)
(** The creation of the first processes applied at a concrete machine. *)

From S2P Require Import Prelude Machine DList Pmm Paging Ports Swap Malloc Vmm Kernel Pid Proc Sched Traps User Life Fork Recycle Samples RunsLife.

Local Open Scope Z_scope.

#[local] Existing Instance sample_symbols.

(** * Seven pages and a heap of one page *)

Definition seven_pages : kst := set_pt_begin 0x300000 (set_pages 0x200004 blank_state).

Lemma seven_pages_arena : arena (Z.of_nat 7) seven_pages.
Proof. constructor; [constructor; by vm_compute| |split; by vm_compute|split; by vm_compute|by vm_compute]. right. vm_compute. discriminate. Qed.

Definition small_heap : list chunk := [mk_chunk 0xC0300000 true 100; mk_chunk 0xC0300070 false 3972].

Lemma seven_pages_globals s : k_pages s = 0x200004 -> globals_ok s.
Proof.
  intros E. constructor; rewrite ?E; [split_and!; by vm_compute|by vm_compute|].
  split; right; vm_compute; discriminate.
Qed.

(** A block has been taken from the heap. *)
Lemma with_heap : exists s, kmem 7 s [(0x20001C, 6%nat)] small_heap /\ k_pages s = 0x200004 /\ k_pt_begin s = 0x300000 /\
  k_pd s = 0 /\ k_proc_num s = 0.
Proof.
  destruct (pool_start seven_pages 7 seven_pages_arena ltac:(lia)) as (s0 & _ & Hk & Hst).
  destruct (kmalloc_run (alloc_page no_swap 9) _ 7 s0 [(0x200004, 7%nat)] [] 100 9 0xC030000C [(0x20001C, 6%nat)] small_heap Hk)
    as (s1 & _ & Hst1 & Hk1 & _); [lia|simpl; lia|intros _; left; by rewrite Hst|rewrite Hst; by vm_compute|].
  exists s1. rewrite Hst1, Hst. split; [rewrite <- Hst, <- Hst1; exact Hk1|done].
Qed.

Definition idle_heap : list chunk := [mk_chunk 0xC0300000 true 100; mk_chunk 0xC0300070 true 92; mk_chunk 0xC03000D8 false 3868].

Lemma proc_init_makes_idle_witness : exists s s', proc_init 9 s = Ok tt s' /\
  table 7 s' [(0x20001C, 6%nat)] idle_heap 0xC030007C [] /\ k_current s' = 0xC030007C.
Proof.
  destruct with_heap as (s & Hk & E1 & E2 & E3 & _).
  destruct (proc_init_makes_idle 7 9 s [(0x20001C, 6%nat)] small_heap (mk_chunk 0xC0300070 false 3972)) as (s' & R & T & Ec & _).
  - exact Hk.
  - by apply seven_pages_globals.
  - simpl. lia.
  - by rewrite E3.
  - by vm_compute.
  - exists s, s'. exact (conj R (conj T Ec)).
Defined.

(** The idle process can create a thread. *)
Lemma with_idle : exists s, fork_ready 7 9 s 0x20001C 6 [] idle_heap (mk_chunk 0xC03000D8 false 3868) 0xC030007C [] [] /\
  k_pt_begin s = 0x300000 /\ k_pages s = 0x200004 /\ k_current s = 0xC030007C /\ k_idle s = 0xC030007C /\
  (forall q, 0 <= q -> pid_used (k_pids s) q <-> q = 0) /\ k_proc_num s = 1.
Proof.
  destruct with_heap as (s & Hk & E1 & E2 & E3 & E4). pose proof (seven_pages_globals s E1) as [G1 G2 G3].
  destruct (proc_init_run 7 9 s [(0x20001C, 6%nat)] small_heap (mk_chunk 0xC0300070 false 3972) Hk ltac:(simpl; lia)
    ltac:(by rewrite E3) eq_refl G1 G2 G3) as (s' & R & T & Ec & Ei & En & Epd & Epg & Ept & Ep & Em & C & _).
  change (ck_addr (mk_chunk 0xC0300070 false 3972) + sizeof_Chunk) with 0xC030007C in *.
  change (place sizeof_pcb small_heap) with idle_heap in T.
  exists s'. split; [|rewrite Epg, Ept, Ep, En, E4; split_and!; try done; exact first_number]. constructor; rewrite ?Ec, ?Ep, ?En, ?Epd.
  - exact T.
  - lia.
  - simpl. lia.
  - by rewrite E3.
  - by vm_compute.
  - rewrite E4. by vm_compute.
  - split; [|done]. by apply (bool_decide_unpack _).
  - exists 1. split; [done|]. rewrite first_number by lia. lia.
  - left.
  - exact Em.
  - by intros q ?%elem_of_nil.
  - apply NoDup_singleton.
  - exact C.
Qed.

(** The thread with the number 1: its block is the next of the heap, its stack the
    pages at 0xC0301000. *)
Lemma kernel_thread_creates_witness : exists s pid s',
  kernel_thread 9 0xC0100500 7 0 s = Ok pid s' /\ pid = 1 /\
  table 7 s' [(0x20004C, 4%nat)] [mk_chunk 0xC0300000 true 100; mk_chunk 0xC0300070 true 92; mk_chunk 0xC03000D8 true 92;
    mk_chunk 0xC0300140 false 3764] 0xC030007C [0xC03000E4] /\
  children (k_mem s') 0xC030007C [0xC03000E4] /\ starts_at (k_mem s') 0xC03000E4 0xC0302FBC 0xC0100500 7.
Proof.
  destruct with_idle as (s & Hr & Ept & Epg & Ec & _ & Eu & _).
  destruct (kernel_thread_creates 7 9 s 0x20001C 6 [] idle_heap (mk_chunk 0xC03000D8 false 3868) 0xC030007C [] []
    0xC0100500 7 0) as (pid & s' & R & _ & _ & _ & (P1 & P2 & P3 & _) & T & C & _ & _ & _ & St & _).
  - exact Hr.
  - by apply (bool_decide_unpack _).
  - exists s, pid, s'. split; [exact R|]. split; [|split; [exact T|split; [rewrite <- Ec at 1; exact C|]]].
    + destruct (decide (pid = 1)) as [|Hne]; [done|]. destruct P2. apply Eu; [lia|].
      destruct (decide (pid = 0)); [done|]. pose proof (P3 1 ltac:(lia)) as Hu. apply Eu in Hu; lia.
    + unfold frame_la in St. rewrite Ept, Epg in St. exact St.
Defined.

(** The idle process leaves the processor to it. *)
Lemma new_thread_runs_next_witness : exists s pid s', kernel_thread 9 0xC0100500 7 0 s = Ok pid s' /\
  exists s'', schedule 9 (mret tt) s' = Ok tt s'' /\ k_current s'' = 0xC03000E4.
Proof.
  destruct with_idle as (s & Hr & Ept & Epg & Ec & Ei & Eu & _).
  destruct (new_thread_runs_next (mret tt) 7 9 s 0x20001C 6 [] idle_heap (mk_chunk 0xC03000D8 false 3868) 0xC030007C [] []
    0xC0100500 7 0) as (pid & s' & R & Ec' & _ & Rs).
  - exact Hr.
  - by apply (bool_decide_unpack _).
  - exact Ec.
  - exact Ei.
  - simpl. lia.
  - exists s, pid, s'. split; [exact R|]. rewrite Rs. unfold run_thread, switch_to, atom_enable_intr, sti. krun. rewrite Ec'.
    change (0xC030007C =? _) with false. krun. destruct (k_IF s'); krun; eexists; split; reflexivity.
Defined.

(** * A thread that ends *)

Definition one_heap : list chunk := [mk_chunk 0xC0300000 true 100; mk_chunk 0xC0300070 true 92; mk_chunk 0xC03000D8 true 92;
  mk_chunk 0xC0300140 false 3764].

Definition two_heap : list chunk := [mk_chunk 0xC0300000 true 100; mk_chunk 0xC0300070 true 92; mk_chunk 0xC03000D8 true 92;
  mk_chunk 0xC0300140 true 92; mk_chunk 0xC03001A8 false 3660].

(** The idle process has created a thread and can create another one. *)
Lemma with_thread : exists s,
  fork_ready 7 9 s 0x20004C 4 [] one_heap (mk_chunk 0xC0300140 false 3764) 0xC030007C [0xC03000E4] [0xC03000E4] /\
  k_pt_begin s = 0x300000 /\ k_pages s = 0x200004 /\ k_current s = 0xC030007C /\ pid_used (k_pids s) 0.
Proof.
  destruct with_idle as (s & Hr & Ept & Epg & Ec & Ei & Eu & En). pose proof Hr as [T0 _ _ Hpd Hfit Hroom Hpids Hfree Hcur Hker Hl Hnd Hch].
  destruct (kernel_thread_run 7 9 s 0x20001C 6 [] idle_heap (mk_chunk 0xC03000D8 false 3868) 0xC030007C [] [])
    with (fn := 0xC0100500) (arg := 7) (flags := 0)
    as (pid & s' & _ & Ec' & _ & En' & (P1 & P2 & P3 & P4 & P5 & P6) & T & C & _ & _ & _ & _ & _ & K & S);
    [done|lia|simpl; lia|done..|].
  change (ck_addr (mk_chunk 0xC03000D8 false 3868) + sizeof_Chunk) with 0xC03000E4 in *.
  assert (Epid : pid = 1).
  { destruct (decide (pid = 1)) as [|Hne]; [done|]. destruct P2. apply Eu; [lia|].
    destruct (decide (pid = 0)); [done|]. pose proof (P3 1 ltac:(lia)) as Hu. apply Eu in Hu; lia. }
  assert (E : k_pt_begin s' = k_pt_begin s /\ k_pages s' = k_pages s /\ k_pd s' = k_pd s) by (rewrite S; done).
  destruct E as (E1 & E2 & E3). rewrite Ec in *.
  exists s'. split; [|rewrite E1, E2; split_and!; try done; apply P6; [lia|]; right; by apply Eu].
  constructor; rewrite ?Ec', ?E3.
  - exact T.
  - lia.
  - simpl. lia.
  - exact Hpd.
  - by vm_compute.
  - rewrite En', En. by vm_compute.
  - done.
  - exists 2. split; [done|]. rewrite P6, Eu by lia. lia.
  - left.
  - rewrite <- Hker. apply K; [left|lia].
  - intros q ->%list_elem_of_singleton. right. left.
  - apply (bool_decide_unpack _). by vm_compute.
  - exact C.
Qed.

Lemma no_ghost_aligned m : no_ghost m 0x200034.
Proof. unfold no_ghost, page_add, page_of_node, sizeof_Page. change free_pages_head with 0xC0110000. unfold w32. lia_div. Qed.

Definition kept_chunks : list chunk := [mk_chunk 0xC0300000 true 100; mk_chunk 0xC0300070 true 92; mk_chunk 0xC03000D8 true 92].

(** The second thread has exited. Its stack is made of the pages 3 and 4, the first
    thread's of the pages 1 and 2. *)
Lemma with_zombie : exists s pid, pid <> 0 /\ has_pid (k_mem s) pid 0xC030014C = true /\
  rd32 (k_mem s) (pcb_state 0xC030014C) = TASK_ZOMBIE /\ k_current s = 0xC030007C /\
  recycle_ready 7 s [] 0x200034 [(0x20007C, 2%nat)] kept_chunks
    (mk_chunk 0xC0300140 true 92) [mk_chunk 0xC03001A8 false 3660] 0xC030007C [] 0xC030014C [0xC03000E4] [] [0xC03000E4].
Proof.
  destruct with_thread as (s0 & Hr & Ept & Epg & Ec & Eu). pose proof Hr as [T0 _ _ Hpd Hfit Hroom Hpids Hfree Hcur Hker Hl Hnd Hch].
  destruct (kernel_thread_run 7 9 s0 0x20004C 4 [] one_heap (mk_chunk 0xC0300140 false 3764) 0xC030007C [0xC03000E4] [0xC03000E4])
    with (fn := 0xC0100500) (arg := 7) (flags := 0)
    as (pid & s & _ & Ec' & _ & _ & (P1 & P2 & _) & T & C & _ & Ep & _ & _ & Est & _ & S);
    [done|lia|simpl; lia|done..|].
  change (ck_addr (mk_chunk 0xC0300140 false 3764) + sizeof_Chunk) with 0xC030014C in *. rewrite Ec in *.
  assert (E : k_pt_begin s = k_pt_begin s0 /\ k_pages s = k_pages s0) by (rewrite S; done). destruct E as [E1 E2].
  destruct (table_sep _ _ _ _ _ _ T) as [Hsep _].
  assert (Hin : 0xC030014C ∈ [0xC030007C; 0xC030014C; 0xC03000E4]) by (right; left).
  assert (Hoff : forall i, 4 <= i <= 88 -> rd32 (wr32 (k_mem s) (pcb_state 0xC030014C) TASK_ZOMBIE) (0xC030014C + i) = rd32 (k_mem s) (0xC030014C + i)).
  { intros i Hi. apply rd32_wr32_ne. unfold pcb_state. rewrite <- (Z.add_0_r 0xC030014C) at 1.
    eapply pcb_fields_wd; [exact Hsep|done|done|lia|lia|right; lia]. }
  exists (set_mem (wr32 (k_mem s) (pcb_state 0xC030014C) TASK_ZOMBIE) s), pid. split; [by intros -> |].
  split; [|split; [by apply rd32_wr32_small|split; [exact Ec'|constructor]]].
  - unfold has_pid. cbn [k_mem set_mem]. unfold pcb_pid in *. rewrite Hoff, Ep by lia. apply Z.eqb_eq, s32_small. unfold MAX_PROCESS in P1. lia.
  - done.
  - exact (table_store _ _ _ _ _ _ T 0xC030014C 0 TASK_ZOMBIE Hin ltac:(lia)).
  - intros x Hx. cbn [k_current set_mem app] in Hx |- *. rewrite Ec' in Hx. revert Hx. elt.
  - cbn [k_current set_mem app]. rewrite Ec'. apply (bool_decide_unpack _). by vm_compute.
  - cbn [k_current k_mem set_mem app]. rewrite Ec'. eapply children_wr32_state; [exact Hsep|done|left| |exact C].
    intros x Hx. right. exact Hx.
  - cbn [k_mem set_mem]. unfold pcb_start_stack in *. rewrite Hoff, Est by lia.
    unfold frame_la. cbn [k_pages k_pt_begin set_mem]. rewrite E1, E2, Ept, Epg. done.
  - done.
  - cbn [k_pages set_mem]. rewrite E2, Epg. constructor; [lia|..]; cbn [pages_from pool_pages app].
    + intros x. rewrite !elem_of_cons, elem_of_nil. intros [-> |[-> |[]]]; by vm_compute.
    + by intros x ?%elem_of_nil.
    + intros x. rewrite !elem_of_cons, elem_of_nil. unfold sizeof_Page. lia.
  - cbn [k_pages set_mem]. rewrite E2, Epg. by vm_compute.
  - apply no_ghost_aligned.
Qed.

(** The idle process waits for it: the pages 2 and 3 join the free ones, the second
    page of the living thread's stack among them. *)
Lemma waitpid_recycles_witness : exists s pid s',
  do_waitpid 9 (mret tt) pid s = Ok 0 s' /\ dlist (k_mem s') proc_list [pcb_node 0xC03000E4] /\
  dlist (k_mem s') free_pages_head (pg_node <$> [0x200034; 0x20004C; 0x20007C; 0x200094]) /\
  children (k_mem s') 0xC030007C [0xC03000E4].
Proof.
  destruct with_zombie as (s & pid & Hp & Hpid & Hz & Ec & Hr).
  destruct (waitpid_recycles (mret tt) 7 9 s [] 0x200034 [(0x20007C, 2%nat)] kept_chunks
    (mk_chunk 0xC0300140 true 92) [mk_chunk 0xC03001A8 false 3660] 0xC030007C [] 0xC030014C [0xC03000E4] [] [0xC03000E4] pid)
    as (s' & R & _ & _ & D & C & _ & P & _).
  - exact Hr.
  - simpl. lia.
  - simpl. lia.
  - exact Hp.
  - cbn [app List.find]. by rewrite Hpid.
  - exact Hz.
  - exists s, pid, s'. rewrite Ec in C. exact (conj R (conj D (conj P C))).
Defined.
