(* ===== verification/RunsRestore.v ===== *)
(** The theorems on a page that comes back from the disk and on a fault that
    evicts applied at concrete states: the page the replacement run of the other
    file put out is read in again by a fault in an address space whose entry still
    names it; a first touch with one page in the queue puts that page out. *)

From S2P Require Import Prelude Machine DList Pmm Paging Ports Swap Malloc Vmm Demand Evict Restore Replace Samples RunsDevices RunsLife.

Local Open Scope Z_scope.

#[local] Existing Instance sample_symbols.

(** A directory and its tables outside a frame. *)
Lemma frame_tables_check m pd pa : off_region_b m pd pa (pa + PAGE_SIZE) = true ->
  forall la, 0 <= la < 2 ^ 32 -> off_frame pa (pde_slot pd la) /\
    (present (rd32 m (pde_slot pd la)) = true -> off_frame pa (pte_slot m pd la)).
Proof.
  unfold off_region_b, off_frame. intros [Hb He]%andb_prop la Hla. pose proof (pde_slot_range pd la Hla) as Hd.
  unfold PAGE_SIZE in *. split.
  - rewrite (ka_low (pde_slot pd la)) by (unfold VERTUAL_MEM; lia). lia.
  - intros Hp. pose proof (each_entry_spec _ _ _ He la Hla) as H. cbv beta in H. rewrite Hp in H. cbn [negb orb] in H.
    pose proof (pte_slot_range m pd la Hla) as Hr. cbv zeta in Hr. pose proof (pte_page_addr_range (rd32 m (pde_slot pd la))).
    unfold PAGE_SIZE in *. rewrite (ka_low (pte_slot m pd la)) by (unfold VERTUAL_MEM; lia). lia.
Qed.

(** What [swap_out] gave the drive. *)
Definition put_out : list (list Z) := sectors_at 8 (k_mem evict_state) (0x303000 + VERTUAL_MEM).

(** The page fault's state with an entry that names the sectors of 0x402000,
    before a drive that answers them. *)
Definition back_state : kst :=
  set_inq (0x40 :: sector_answers put_out ++ [])
    (set_mem (put_words [(0x11008, swap_entry 0x402000)] (k_mem fault_state)) fault_state).
Definition back_logged : kst := set_log (EvPrintf "page_fault triggered==> at cr2: %x.\n" [0x402123] :: k_log back_state) back_state.
Definition back_found : kst := match find_vma 9 fault_mm 0x402000 back_logged with Ok _ s => s | _ => blank_state end.
Definition back_taken : kst :=
  match kalloc_page 9 1 (set_log (EvPrintf "swap %x page come in!\n" [0x402000] :: k_log back_found) back_found) with
  | Ok _ s => s | _ => blank_state end.

Lemma back_page_free : page_free back_taken fault_mm 0x10000 0 [] fault_page.
Proof.
  constructor.
  - by vm_compute.
  - apply dlist_check; by vm_compute.
  - apply nodes_sep_check. by vm_compute.
  - nodes_of; split; apply off_tables_check; by vm_compute.
  - apply off_tables_check. by vm_compute.
  - apply off_tables_check. by vm_compute.
  - apply off_nodes_check. by vm_compute.
  - apply off_nodes_check. by vm_compute.
  - decided.
  - decided.
Qed.

Lemma back_apart : frame_apart back_taken fault_mm 0x10000 0 0x300000 [] fault_page.
Proof.
  constructor.
  - right. by vm_compute.
  - left. by vm_compute.
  - left. by vm_compute.
  - nodes_of; split; first [left; by vm_compute|right; by vm_compute].
  - apply frame_tables_check. by vm_compute.
Qed.

Lemma back_restores : restores 9 back_logged 0x402123 1 fault_area back_found back_taken 0x10000 0 0x300000 [] fault_page put_out [].
Proof.
  constructor.
  - unfold PAGE_SIZE. lia.
  - by vm_compute.
  - split; [discriminate|right; by vm_compute].
  - split; [by vm_compute|split; [by vm_compute|apply tables_check; by vm_compute]].
  - split; [by vm_compute|split; [by vm_compute|]]. unfold untouched. decided.
  - by vm_compute.
  - split; [apply tables_check; by vm_compute|split_and!; by vm_compute].
  - constructor; [lia|..]; by vm_compute.
  - exact back_page_free.
  - exact back_apart.
  - split; [by vm_compute|]. decided.
  - by vm_compute.
Qed.

Lemma page_fault_restores_witness : exists s' m', page_fault 9 0x402123 2 back_state = Ok tt s' /\ k_mem s' = m' /\
  walk m' 0x10000 0x402123 = Some 0x300123 /\ dlist m' (mm_vm_fifo fault_mm) [pg_node fault_page] /\
  words_at 1024 m' (0x300000 + VERTUAL_MEM) = (w32 <$> concat put_out).
Proof.
  destruct (page_fault_restores 9 back_state 0x402123 2 1 fault_area back_found back_taken 0x10000 0 0x300000
    [] fault_page put_out []) as (m' & R & [W D _ _ _ E]).
  - done.
  - done.
  - done.
  - exact back_restores.
  - lia.
  - eexists _, m'. exact (conj R (conj eq_refl (conj W (conj D E)))).
Defined.

Lemma evict_restore_roundtrip_witness :
  (exists s1, swap_out 9 evict_mm 1 evict_state = Ok tt s1 /\ walk (k_mem s1) 0x10000 0x402000 = None) /\
  exists s2, page_fault 9 0x402123 2 back_state = Ok tt s2 /\
    walk (k_mem s2) 0x10000 0x402008 = Some 0x300008 /\ rd32 (k_mem s2) 0x300008 = 0xCAFE.
Proof.
  destruct (evict_restore_roundtrip 9 evict_state evict_mm 0x10000 3 0x303000 0x402000 evict_page [] [] 0x200000 [])
    as [(m1 & R1 & _ & W1) H].
  - exact evict_ready.
  - simpl. lia.
  - done.
  - split; [eexists; exact (conj R1 W1)|].
    destruct (H back_state 0x402123 2 1 fault_area back_found back_taken 0x10000 0 0x300000 [] fault_page [])
      as (m' & R & D); [by vm_compute|done|done|done|exact back_restores|].
    eexists. split; [exact R|]. destruct (D 8) as [A B]; [unfold PAGE_SIZE; lia|done|].
    split; [exact A|]. exact (eq_trans B eq_refl).
Defined.

(** * A fault that evicts

    Five free pages and, above them, the page of frame 7 at 0x402000, the only
    one in the queue; the fault is a write to 0x403123. *)
Definition old_page : Z := 0x2000A8 + VERTUAL_MEM.

Definition busy_state : kst :=
  set_inq (0x40 :: replicate 8 0x40 ++ []) (set_is_vmm_inited 1 (set_mm fault_mm (set_mem (put_words
    ([(0x10004, 0x11007); (0x11008, 0x307007); (mm_pde fault_mm, 0x10000); (mm_cache fault_mm, NULL);
      (vma_start fault_area, 0x400000); (vma_end fault_area, 0x500000); (vma_flags fault_area, 7);
      (pg_va old_page, 0x402000); (0x307008, 0xCAFE)] ++
     link_up (mm_node fault_mm) [vma_node fault_area] (mm_node fault_mm) ++
     link_up (mm_vm_fifo fault_mm) [pg_node old_page] (mm_vm_fifo fault_mm)) (k_mem fault_pool)) fault_pool))).

Definition busy_logged : kst := set_log (EvPrintf "page_fault triggered==> at cr2: %x.\n" [0x403123] :: k_log busy_state) busy_state.
Definition busy_found : kst := match find_vma 9 fault_mm 0x403000 busy_logged with Ok _ s => s | _ => blank_state end.
Abbreviation free_below := [0x200018; 0x200030; 0x200048] (only parsing).

(** Words apart from those of the pool. *)
Definition pool_words (ps : list Z) : list Z :=
  flat_map (fun n => [n; n + 4]) (free_pages_head :: (pg_node <$> ps)) ++ flat_map (fun r => [pg_flags r; pg_free_pages r]) ps.

Lemma off_pool_region ps lo hi : forallb (fun w => (ka w + 4 <=? lo) || (hi <=? ka w)) (pool_words ps) = true ->
  forall a, lo <= ka a -> ka a + 4 <= hi -> off_pool ps a.
Proof.
  rewrite forallb_forall. intros Hw a Hlo Hhi.
  assert (Hwd : forall w, List.In w (pool_words ps) -> wd w a) by (intros w Hin; specialize (Hw w Hin); unfold wd; lia).
  split.
  - intros n Hn%list_elem_of_In. split; apply Hwd, in_or_app; left; apply in_flat_map; exists n; cbn; auto.
  - intros r Hr%list_elem_of_In. split; apply Hwd, in_or_app; right; apply in_flat_map; exists r; cbn; auto.
Qed.

Lemma off_pool_check ps a : forallb (fun w => (ka w + 4 <=? ka a) || (ka a + 4 <=? ka w)) (pool_words ps) = true -> off_pool ps a.
Proof. intros Hw. by apply (off_pool_region ps _ _ Hw). Qed.

Lemma busy_pool : pool_ok busy_found [(0x200000, 5%nat)].
Proof.
  constructor; [constructor; by vm_compute| |by vm_compute]. constructor.
  - change (pool_pages [(0x200000, 5%nat)]) with (0x200000 :: free_below ++ [0x200060]).
    each; by vm_compute.
  - change (pool_pages [(0x200000, 5%nat)]) with [0x200000; 0x200018; 0x200030; 0x200048; 0x200060].
    repeat constructor.
  - apply dlist_check; by vm_compute.
  - apply Forall_cons. split; [|by apply Forall_nil]. split; [cbn; lia|]. split; [by vm_compute|].
    change (pages_from _ _) with [0x200018; 0x200030; 0x200048; 0x200060]. each; by vm_compute.
Qed.

Lemma busy_evictable : evictable busy_found fault_mm 0x10000 7 0x307000 0x402000 old_page [] (0x200000 :: free_below) 0x200060.
Proof.
  constructor.
  - by vm_compute.
  - constructor; by vm_compute.
  - split; [by vm_compute|by split].
  - by vm_compute.
  - apply tables_check. by vm_compute.
  - by vm_compute.
  - apply dlist_check; by vm_compute.
  - apply dlist_check; by vm_compute.
  - constructor.
    + unfold page_words. each; split; by vm_compute.
    + each; by vm_compute.
    + done.
    + apply nodes_sep_check. by vm_compute.
    + apply off_nodes_check. by vm_compute.
    + apply off_nodes_check. by vm_compute.
    + cbv zeta. split; [decided|]. split; [decided|]. split; [apply off_nodes_check; by vm_compute|]. by vm_compute.
  - intros a [Ha|(n & Hn & Ha)].
    + revert a Ha. each; apply off_tables_check; by vm_compute.
    + revert n Hn Ha. each; intros [-> | ->]; apply off_tables_check; by vm_compute.
  - each. split; (split; [apply off_nodes_check; by vm_compute|split; decided]).
  - each; split; apply off_nodes_check; by vm_compute.
  - apply off_nodes_check. by vm_compute.
  - cbv zeta. split; [apply off_nodes_check; by vm_compute|]. split; [apply off_nodes_check; by vm_compute|]. split; decided.
  - cbv zeta. split; [apply off_nodes_check; by vm_compute|]. split; [apply off_nodes_check; by vm_compute|]. split; decided.
Qed.

Lemma busy_replaceable :
  replaceable busy_found fault_mm 0x10000 7 0x307000 0x402000 old_page [] 0x200000 5 [] free_below 0x200060.
Proof.
  constructor.
  - by split; vm_compute.
  - split; [exact busy_pool|lia].
  - by split.
  - exact busy_evictable.
  - intros a [Ha|(n & Hn & Ha)].
    + revert a Ha. each; apply off_pool_check; by vm_compute.
    + revert n Hn Ha. each; intros [-> | ->]; apply off_pool_check; by vm_compute.
  - each; split; apply off_tables_check; by vm_compute.
  - apply off_pool_region. by vm_compute.
  - constructor; [decided|apply off_nodes_check; by vm_compute..|decided|decided].
Qed.

Lemma busy_page_free : page_free busy_found fault_mm 0x10000 0 [pg_node old_page] fault_page.
Proof.
  constructor.
  - by vm_compute.
  - apply dlist_check; by vm_compute.
  - apply nodes_sep_check. by vm_compute.
  - nodes_of; split; apply off_tables_check; by vm_compute.
  - apply off_tables_check. by vm_compute.
  - apply off_tables_check. by vm_compute.
  - apply off_nodes_check. by vm_compute.
  - apply off_nodes_check. by vm_compute.
  - decided.
  - decided.
Qed.

Lemma page_fault_replaces_witness : exists s', page_fault 9 0x403123 2 busy_state = Ok tt s' /\
  walk (k_mem s') 0x10000 0x403123 = Some 0x300123 /\
  walk (k_mem busy_state) 0x10000 0x402000 = Some 0x307000 /\ walk (k_mem s') 0x10000 0x402000 = None.
Proof.
  destruct (page_fault_replaces 9 busy_state 0x403123 2 1 fault_area busy_found fault_mm 0x10000 7 0x307000 0x402000 old_page []
    0x200000 5 [] free_below 0x200060 0 0x300000 []) as (m' & R & W1 & W2 & _).
  - lia.
  - done.
  - done.
  - done.
  - by vm_compute.
  - by vm_compute.
  - split; [discriminate|right; by vm_compute].
  - exact busy_replaceable.
  - by vm_compute.
  - constructor; [lia|..]; by vm_compute.
  - exact busy_page_free.
  - by vm_compute.
  - by vm_compute.
  - by vm_compute.
  - simpl. lia.
  - by vm_compute.
  - eexists. split; [exact R|]. split; [exact W1|]. split; [by vm_compute|exact W2].
Defined.
